(* ===== verification/_CoqProject ===== *)
-Q . S2P
Prelude.v
Uapi.v
Bus.v
Fifo.v
Host.v
Serial.v
SerialThread.v
Devices.v
Pci.v
GuestMem.v
Virtq.v
Disk.v
Machine.v
VirtioPci.v
VirtioBlk.v
VirtioNet.v
Vm.v
Ports.v
Kvm.v
X86.v
Arm.v
Config.v
Console.v
Main.v
