(* ===== verification/Prelude.v ===== *)
(** * Verification of kvm-host

    kvm-host is a virtual machine monitor for Linux guests on KVM, for x86-64 and
    arm64. One vCPU runs in the main thread; a port or memory access that KVM does
    not handle leaves it with an exit, which the program turns into a call of a device
    model. This library models that program, all of src/src, and proves what makes
    its parts, and their composition, correct.

    ** Parts of the program and files of the library

    Devices hang on three buses, lists of [struct dev] nodes. An exit is looked up on
    [io_bus] or [mmio_bus] and the callback of the node found is called; the callbacks
    of the PCI host bridge look up a second time on the PCI bus; enabling a BAR
    puts a register block on a bus. The register blocks of the virtio devices work on
    packed queues in guest memory, by which the drivers of the guest hand over
    buffers that are copied to and from a disk image or a TAP device. The UART has a
    thread of its own that reads the terminal.

    - Prelude: faults and the result type [res], wrap-around at a width, bytes and
      byte stores, [ok_with] (a postcondition for results), tactics and hint databases.
    - Uapi: the constants of the Linux headers the sources use.
    - Bus (bus.c, bus.h): nodes in a heap keyed by pointers, with a refinement to an
      abstract list. Devices: the nodes, owners and callbacks that exist in the
      program, and its three buses ([buses]).
    - Host: events, the calls that have an effect outside the program, and the scripts
      input comes from.
    - Fifo (utils.h), Serial (serial.c), SerialThread (its worker thread and the vCPU
      as interleaved steps over the mutex and the condition variable).
    - Pci (pci.c, pci.h): configuration ports and window, command register, BARs.
    - GuestMem ([vm_guest_to_host] of vm.c, desc.h of both architectures), Virtq
      (virtq.c), Disk (diskimg.c).
    - Machine (vm.h): [vdev], what the virtio devices have in common, and [vm_t].
    - VirtioPci (virtio-pci.c), VirtioBlk (virtio-blk.c), VirtioNet (virtio-net.c).
    - Vm (vm.c): [run_callback], the indirect calls of the buses; port and memory
      exits; [vm_run]; [serial_init] and the exit functions.
    - Kvm (vm.c, err.h): the monad [prog] of set-up code that makes system calls and
      checks or ignores their results; [vm_init] and the loading of files over the
      class [VmArch], the functions vm.h asks of an architecture.
    - X86 (arch/x86/vm.c) and Arm (arch/arm64/vm.c, vm-arch.h): the two instances.
    - Main (main.c): the program from its options to its exit.
    - Ports, Config, Console: theorems about the composed machine.

    ** How the code is modelled

    A function is a Rocq function on the state it changes. Undefined behaviour and
    non-termination are results: [Fault OutOfBounds] an access outside an object,
    [Fault NullPointer] and [Fault WildPointer] a bad pointer, [Fault Uninitialised] a
    read of indeterminate memory, [Fault Diverges] a loop that uses up its fuel.
    Theorems that a function returns are theorems that it is not a fault. Integers
    are in Z, with the conversion at their width ([u8] to [u64]) where the C code has
    one. A structure that the guest reads and writes bytewise (configuration space,
    register block, queue information, request header) is a list of bytes with the
    offsets of its members. Guest memory is a map from offsets to bytes of size
    [RAM_SIZE]. Callbacks and operation tables are classes ([VirtqOps], [VmArch],
    [Libfdt], [HostFile], [ByteStore] with its laws).

    What the host does is input: [answers] for set-up calls, [kvm_round] for KVM_RUN,
    scripts for the terminal and the TAP device, [environment] for the file system,
    [HostFile] for the disk image. Libfdt is the parameter [Libfdt], of which nothing
    is assumed.

    Fuel: a walk of a bus has one unit more than there are nodes, which every acyclic
    list respects; a list that runs into itself is then shown to diverge for every
    amount. The request loop of virtio-blk has an argument [blk_fuel], and
    [virtio_blk_loop_terminates] shows how much is enough. [initrd_fuel] is the number
    of MiB below 4 GiB. [call_depth] bounds nested callbacks; the routes of X86 and Arm
    show that no access needs more.

    ** What is proved

    - The composed machine: what a guest prints is what it wrote to the UART, for
      every sequence of exits that does not end in a fault, and runs of port accesses
      off the PCI ports do not ([Console.console_refines_spec]); while there is no fault
      the port space stays what the platform set up ([Main.x86_ports_stable]); the two ways into
      configuration space are equivalent ([Config.config_access_equivalent]); set-up
      stops at the first call whose result it rejects
      ([Main.x86_vm_init_fail_stop]).
    - Boot: the kernel image is where the boot protocols want it, or an error is
      returned ([X86.x86_image_loaded], [Arm.arm_image_loaded]); the RAM disk is at
      the highest place the search of the code allows ([X86.x86_initrd_placed]), which
      can be beyond the limit of the kernel ([X86.x86_initrd_passes_limit]); the device tree is well formed
      and describes the machine ([Arm.arm_device_tree_written],
      [Arm.arm_tree_describes_machine]).
    - Bus: refinement of an abstract list, containment of accesses.
    - UART and terminal: the FIFO refines a bounded queue; status and interrupt line
      are truthful in every reachable state; accesses stay inside the buffers and never
      fault; typed characters
      are delivered in order in every interleaving, and the worker is never left
      waiting.
    - PCI: address decoding, slots, BAR sizing, and that the regions on the buses
      follow the configuration registers.
    - virtio: queue hand-over as a refinement of counters, register round trips,
      feature windows, capability list, well-formedness of devices under accesses and
      set-up, service of block requests and of received and transmitted frames,
      termination of the request loop.
    - Defects: some theorems show what the code does where it differs from its
      intention (a BAR registered twice, lost descriptors, features stored in the wrong
      half, a guest-writable pointer, an unchecked queue number, malformed requests,
      request lengths cut to 16 bits and used lengths of 0, sums that wrap around, a RAM
      disk beyond its limit, images without a number of setup sectors, string output, a
      failed [mmap] or a missing kernel file that goes unnoticed).

    ** Not modelled

    - Text printed on the standard output and error, the usage message, and the
      restoration of terminal attributes at exit.
    - Concurrency other than that of the UART: the handlers of the virtio threads are
      modelled as operations on the machine that run to completion
      ([virtio_blk_vq_avail_handler], [virtio_net_vq_avail_handler_rx] and [_tx]), not
      interleaved with the vCPU. The order in which the cores of the host see the
      accesses to the rings is not modelled either.
    - The host address space beyond the objects of the program: a wild access is a
      fault, not a value.
    - Makefiles, guest kernel configurations, documents; KVM, the kernel, libfdt and
      the C library, which are parameters as described above. *)

From stdpp Require Import base tactics numbers list list_numbers gmap.
Open Scope Z_scope.

(** * Outcomes: C code that can fault *)

(** What goes wrong when the C code leaves defined behaviour: a null
    dereference, an access outside the object the code addresses, a pointer
    that no longer points to an object, a read of an uninitialised variable,
    and a loop that never ends. *)
Inductive fault :=
  | NullPointer
  | OutOfBounds
  | WildPointer
  | Uninitialised
  | Diverges.

#[global] Instance fault_eq_dec : EqDecision fault.
Proof. solve_decision. Defined.

Inductive res (A : Type) :=
  | Ok (a : A)
  | Fault (f : fault).
Arguments Ok {A} a.
Arguments Fault {A} f.

#[global] Instance res_eq_dec {A} `{EqDecision A} : EqDecision (res A).
Proof. solve_decision. Defined.

#[global] Instance res_ret : MRet res := @Ok.
#[global] Instance res_bind : MBind res :=
  λ A B f r, match r with Ok a => f a | Fault e => Fault e end.
#[global] Instance res_fmap : FMap res :=
  λ A B f r, match r with Ok a => Ok (f a) | Fault e => Fault e end.

(** An array or heap cell that must exist. *)
Definition from_option_res {A} (e : fault) (o : option A) : res A :=
  match o with Some a => Ok a | None => Fault e end.

Lemma bind_ok_iff {A B} (m : res A) (f : A → res B) b :
  m ≫= f = Ok b ↔ ∃ a, m = Ok a ∧ f a = Ok b.
Proof. destruct m; cbn; naive_solver. Qed.

Lemma bind_Ok {A B} (a : A) (f : A → res B) : Ok a ≫= f = f a.
Proof. done. Qed.

Lemma from_option_res_ok {A} e (o : option A) a :
  from_option_res e o = Ok a ↔ o = Some a.
Proof. destruct o; cbn; naive_solver. Qed.

(** Elements of a fixed array: an index outside it is a fault. *)
Definition array_get {A} (l : list A) (i : Z) : res A :=
  if 0 <=? i then from_option_res OutOfBounds (l !! Z.to_nat i) else Fault OutOfBounds.
Definition array_set {A} (l : list A) (i : Z) (v : A) : res (list A) :=
  _ ← array_get l i; Ok (<[Z.to_nat i := v]> l).

Lemma array_get_ok {A} `{Inhabited A} (l : list A) i :
  0 ≤ i < Z.of_nat (length l) → array_get l i = Ok (l !!! Z.to_nat i).
Proof.
  intros Hi. unfold array_get. rewrite (proj2 (Z.leb_le _ _)) by lia.
  by rewrite list_lookup_lookup_total_lt by lia.
Qed.

Lemma array_set_ok {A} (l : list A) i v :
  0 ≤ i < Z.of_nat (length l) → array_set l i v = Ok (<[Z.to_nat i := v]> l).
Proof.
  intros Hi. unfold array_set, array_get. rewrite (proj2 (Z.leb_le _ _)) by lia.
  destruct (lookup_lt_is_Some_2 l (Z.to_nat i)) as [x ->]; [lia|done].
Qed.

(** A [for] loop over a list of indices, with the state it threads. *)
Fixpoint foldM {S A} (f : S → A → res S) (s : S) (l : list A) : res S :=
  match l with
  | [] => Ok s
  | a :: l => s ← f s a; foldM f s l
  end.

Lemma foldM_app {S A} (f : S → A → res S) s l1 l2 :
  foldM f s (l1 ++ l2) = (foldM f s l1 ≫= λ s, foldM f s l2).
Proof.
  revert s. induction l1 as [|a l1 IH]; intros s; cbn; [done|].
  destruct (f s a); cbn; [apply IH|done].
Qed.

(** A loop whose body keeps an invariant and never faults runs to its end. *)
Lemma foldM_inv {S A} (f : S → A → res S) (I : S → Prop) s l :
  I s → (∀ s a, I s → a ∈ l → ∃ s', f s a = Ok s' ∧ I s') →
  ∃ s', foldM f s l = Ok s' ∧ I s'.
Proof.
  revert s. induction l as [|a l IH]; intros s Hs Hf; cbn; [eauto|].
  destruct (Hf s a Hs) as (s'&->&Hs'); [set_solver|]. cbn. apply IH; [done|].
  intros ? ? ? ?. apply Hf; [done|set_solver].
Qed.

(** The same for a loop on [0, ..., n - 1] whose invariant counts the rounds. *)
Lemma foldM_seq {St} (f : St → nat → res St) (I : nat → St → Prop) s n :
  I 0%nat s → (∀ k s, (k < n)%nat → I k s → ∃ s', f s k = Ok s' ∧ I (S k) s') →
  ∃ s', foldM f s (seq 0 n) = Ok s' ∧ I n s'.
Proof.
  intros H0 Hf. induction n as [|n IH]; [by eexists|].
  destruct IH as (s'&E&Hs'). { intros. apply Hf; [lia|done]. }
  destruct (Hf n s') as (s2&E2&Hs2); [lia|done|].
  exists s2. split; [|done]. rewrite seq_S, foldM_app, E, bind_Ok. cbn.
  by rewrite E2.
Qed.

(** * Machine integers *)

(** [wrap w z] is the value an unsigned [w]-bit C object holds after [z] is
    assigned to it. *)
Definition wrap (w z : Z) : Z := z `mod` 2 ^ w.
Abbreviation u8 := (wrap 8).
Abbreviation u16 := (wrap 16).
Abbreviation u32 := (wrap 32).
Abbreviation u64 := (wrap 64).

(** Bitwise complement of a [w]-bit unsigned value. *)
Definition unot (w z : Z) : Z := wrap w (Z.lnot z).

(** C truth value of an integer, and the integer value of a [bool]. *)
Definition nonzero (z : Z) : bool := negb (z =? 0).

Lemma wrap_range w z : 0 ≤ w → 0 ≤ wrap w z < 2 ^ w.
Proof. intros. apply Z.mod_pos_bound. by apply Z.pow_pos_nonneg. Qed.

Lemma wrap_small w z : 0 ≤ z < 2 ^ w → wrap w z = z.
Proof. apply Z.mod_small. Qed.

Lemma wrap_idemp w z : wrap w (wrap w z) = wrap w z.
Proof. apply Zmod_mod. Qed.

Lemma wrap_add_l w a b : wrap w (wrap w a + b) = wrap w (a + b).
Proof. apply Zplus_mod_idemp_l. Qed.

Lemma wrap_add_r w a b : wrap w (a + wrap w b) = wrap w (a + b).
Proof. apply Zplus_mod_idemp_r. Qed.

Lemma wrap_sub_l w a b : wrap w (wrap w a - b) = wrap w (a - b).
Proof. apply Zminus_mod_idemp_l. Qed.

Lemma wrap_sub_r w a b : wrap w (a - wrap w b) = wrap w (a - b).
Proof. apply Zminus_mod_idemp_r. Qed.

Lemma wrap_testbit w z i :
  0 ≤ w → Z.testbit (wrap w z) i = (i <? w) && Z.testbit z i.
Proof.
  intros Hw. unfold wrap. destruct (Z.ltb_spec i w).
  - destruct (decide (0 ≤ i)).
    + by rewrite Z.mod_pow2_bits_low.
    + by rewrite !Z.testbit_neg_r by lia.
  - by rewrite Z.mod_pow2_bits_high by lia.
Qed.

Lemma wrap_land_ones w z : 0 ≤ w → wrap w z = Z.land z (Z.ones w).
Proof. intros. unfold wrap. by rewrite Z.land_ones. Qed.

Lemma testbit_above w z i : 0 ≤ z < 2 ^ w → w ≤ i → Z.testbit z i = false.
Proof.
  intros Hz Hi. destruct (decide (0 ≤ w)).
  - rewrite <-(wrap_small w z Hz), wrap_testbit by done.
    by destruct (Z.ltb_spec i w); [lia|].
  - rewrite Z.pow_neg_r in Hz by lia. lia.
Qed.

(** Two [w]-bit values that agree on their [w] bits are equal. *)
Lemma bits_ext w a b :
  0 ≤ w → 0 ≤ a < 2 ^ w → 0 ≤ b < 2 ^ w →
  (∀ i, 0 ≤ i < w → Z.testbit a i = Z.testbit b i) → a = b.
Proof.
  intros Hw Ha Hb H. apply Z.bits_inj'. intros i Hi.
  destruct (decide (i < w)); [by apply H|].
  by rewrite (testbit_above w a), (testbit_above w b) by lia.
Qed.

Lemma lor_range w a b :
  0 ≤ w → 0 ≤ a < 2 ^ w → 0 ≤ b < 2 ^ w → 0 ≤ Z.lor a b < 2 ^ w.
Proof.
  intros Hw Ha Hb.
  assert (Z.lor a b = wrap w (Z.lor a b)) as ->; [|by apply wrap_range].
  apply Z.bits_inj'. intros i Hi. rewrite wrap_testbit, Z.lor_spec by done.
  destruct (Z.ltb_spec i w); [done|].
  by rewrite (testbit_above w a), (testbit_above w b) by lia.
Qed.

Lemma land_range_l w a b :
  0 ≤ w → 0 ≤ a < 2 ^ w → 0 ≤ Z.land a b < 2 ^ w.
Proof.
  intros Hw Ha.
  assert (Z.land a b = wrap w (Z.land a b)) as ->; [|by apply wrap_range].
  apply Z.bits_inj'. intros i Hi. rewrite wrap_testbit, Z.land_spec by done.
  destruct (Z.ltb_spec i w); [done|]. by rewrite (testbit_above w a) by lia.
Qed.

(** Or-ing a small value into the clear low bits adds it. *)
Lemma lor_low n v k : 0 ≤ n → 0 ≤ k < 2 ^ n → v `mod` 2 ^ n = 0 → Z.lor v k = v + k.
Proof.
  intros Hn Hk Hv. rewrite <-Z.add_lor_land.
  assert (Z.land v k = 0) as ->; [|lia].
  apply Z.bits_inj'. intros i Hi. rewrite Z.land_spec, Z.bits_0.
  destruct (decide (i < n)).
  - rewrite <-(Z.mod_pow2_bits_low v n i), Hv, Z.bits_0 by lia. done.
  - rewrite (testbit_above n k) by lia. apply andb_false_r.
Qed.

(** Clearing bit [n] of an [n+1]-bit value. *)
Lemma land_clear_top w n v :
  0 ≤ n < w → 0 ≤ v < 2 ^ (n + 1) → Z.land v (unot w (Z.shiftl 1 n)) = v `mod` 2 ^ n.
Proof.
  intros Hn Hv. apply Z.bits_inj'. intros i Hi. unfold unot.
  rewrite Z.land_spec, wrap_testbit, Z.lnot_spec by lia.
  rewrite Z.shiftl_1_l, Z.pow2_bits_eqb by lia.
  destruct (decide (i < n)).
  - rewrite Z.mod_pow2_bits_low by lia. destruct (Z.ltb_spec i w); [|lia].
    destruct (Z.eqb_spec n i); [lia|]. apply andb_true_r.
  - rewrite Z.mod_pow2_bits_high by lia. destruct (Z.eqb_spec n i).
    + cbn. by rewrite !andb_false_r.
    + by rewrite (testbit_above (n + 1) v) by lia.
Qed.

(** Testing a single flag of a register. *)
Lemma nonzero_land_pow2 z i :
  0 ≤ i → nonzero (Z.land z (2 ^ i)) = Z.testbit z i.
Proof.
  intros Hi. unfold nonzero.
  assert (Z.land z (2 ^ i) = if Z.testbit z i then 2 ^ i else 0) as ->.
  { apply Z.bits_inj'. intros j Hj. rewrite Z.land_spec, Z.pow2_bits_eqb by done.
    destruct (Z.eqb_spec i j) as [->|].
    - destruct (Z.testbit z j); cbn.
      + by rewrite Z.pow2_bits_true.
      + by rewrite Z.bits_0.
    - rewrite andb_false_r. destruct (Z.testbit z i).
      + by rewrite Z.pow2_bits_false by lia.
      + by rewrite Z.bits_0. }
  destruct (Z.testbit z i); [|done].
  pose proof (Z.pow_pos_nonneg 2 i). destruct (Z.eqb_spec (2 ^ i) 0); [lia|done].
Qed.

(** * Byte stores *)

(** The code addresses bytes through pointers in two kinds of objects: arrays
    inside a C struct (a PCI configuration space, a register block) and the
    guest's RAM. Both are instances of one interface: bytes at the offsets
    below [bsize], read by [bget], written by [bset]. *)
Class ByteStore (M : Type) := {
  bsize : M → Z;
  bget : M → Z → Z;
  bset : M → Z → Z → M;
}.

Class ByteStoreLaws (M : Type) `{ByteStore M} := {
  bsize_bset (m : M) i v : bsize (bset m i v) = bsize m;
  bget_bset_eq (m : M) i v :
    0 ≤ i < bsize m → bget (bset m i v) i = v;
  bget_bset_ne (m : M) i j v :
    0 ≤ i < bsize m → 0 ≤ j → i ≠ j → bget (bset m i v) j = bget m j;
}.

(** The length of a C array or buffer as an integer. *)
Definition lenZ {A} (l : list A) : Z := Z.of_nat (length l).

(** Offsets [off, off + n) all lie inside the object. *)
Definition in_bounds {M} `{ByteStore M} (m : M) (off n : Z) : bool :=
  (0 <=? off) && (0 <=? n) && (off + n <=? bsize m).

Fixpoint get_bytes {M} `{ByteStore M} (m : M) (off : Z) (n : nat) : list Z :=
  match n with
  | O => []
  | S n => bget m off :: get_bytes m (off + 1) n
  end.

Fixpoint set_bytes {M} `{ByteStore M} (m : M) (off : Z) (bs : list Z) : M :=
  match bs with
  | [] => m
  | b :: bs => set_bytes (bset m off b) (off + 1) bs
  end.

(** [memcpy] out of and into an object. *)
Definition mread {M} `{ByteStore M} (m : M) (off n : Z) : res (list Z) :=
  if in_bounds m off n then Ok (get_bytes m off (Z.to_nat n))
  else Fault OutOfBounds.

Definition mwrite {M} `{ByteStore M} (m : M) (off : Z) (bs : list Z) : res M :=
  if in_bounds m off (lenZ bs) then Ok (set_bytes m off bs)
  else Fault OutOfBounds.

(** Little-endian scalars of [k] bytes. *)
Definition le_bytes (k v : Z) : list Z := Z_to_little_endian k 8 v.
Definition le_val (bs : list Z) : Z := little_endian_to_Z 8 bs.

Definition load {M} `{ByteStore M} (k : Z) (m : M) (off : Z) : res Z :=
  le_val <$> mread m off k.
Definition store {M} `{ByteStore M} (k : Z) (m : M) (off v : Z) : res M :=
  mwrite m off (le_bytes k v).

(** Every byte of the object is a value of [uint8_t]. *)
Definition byte_ok (b : Z) : Prop := 0 ≤ b < 256.
Definition bytes_ok {M} `{ByteStore M} (m : M) : Prop :=
  ∀ i, 0 ≤ i < bsize m → byte_ok (bget m i).

#[global] Instance byte_ok_dec b : Decision (byte_ok b).
Proof. apply _. Defined.

(** The two instances. *)
#[global] Instance list_store : ByteStore (list Z) := {
  bsize l := lenZ l;
  bget l i := l !!! Z.to_nat i;
  bset l i v := <[Z.to_nat i := v]> l;
}.

#[global] Instance list_store_laws : ByteStoreLaws (list Z).
Proof.
  split; cbn; unfold lenZ.
  - intros. by rewrite length_insert.
  - intros m i v Hi. apply list_lookup_total_insert_eq. lia.
  - intros m i j v Hi Hj Hij. apply list_lookup_total_insert_ne. lia.
Qed.

(** * Lemmas on byte stores *)

Section byte_store.
Context {M : Type} `{ByteStoreLaws M}.
Implicit Types (m : M) (off n k v : Z) (bs : list Z).

Lemma length_get_bytes m off (n : nat) : length (get_bytes m off n) = n.
Proof. revert off; induction n; intros; cbn; auto. Qed.

Lemma bsize_set_bytes m off bs : bsize (set_bytes m off bs) = bsize m.
Proof.
  revert m off; induction bs as [|b bs IH]; intros; cbn; [done|].
  by rewrite IH, bsize_bset.
Qed.

Lemma bget_set_bytes_out m off bs j :
  0 ≤ off → off + lenZ bs ≤ bsize m → 0 ≤ j →
  j < off ∨ off + lenZ bs ≤ j → bget (set_bytes m off bs) j = bget m j.
Proof.
  unfold lenZ. revert m off; induction bs as [|b bs IH]; intros m off; cbn; [done|].
  intros. rewrite IH by (rewrite ?bsize_bset; lia). apply bget_bset_ne; lia.
Qed.

Lemma get_set_bytes_eq m off bs :
  0 ≤ off → off + lenZ bs ≤ bsize m →
  get_bytes (set_bytes m off bs) off (length bs) = bs.
Proof.
  unfold lenZ. revert m off; induction bs as [|b bs IH]; intros m off; cbn; [done|].
  intros. f_equal.
  - rewrite bget_set_bytes_out by (unfold lenZ; rewrite ?bsize_bset; lia).
    apply bget_bset_eq; lia.
  - apply IH; rewrite ?bsize_bset; lia.
Qed.

Lemma get_bytes_ext m1 m2 off (n : nat) :
  (∀ j, off ≤ j < off + Z.of_nat n → bget m1 j = bget m2 j) →
  get_bytes m1 off n = get_bytes m2 off n.
Proof.
  revert off; induction n as [|n IH]; intros off E; cbn; [done|].
  f_equal; [apply E; lia|]. apply IH. intros; apply E; lia.
Qed.

Lemma in_bounds_spec m off n :
  in_bounds m off n = true ↔ 0 ≤ off ∧ 0 ≤ n ∧ off + n ≤ bsize m.
Proof. unfold in_bounds. rewrite !andb_true_iff, !Z.leb_le. tauto. Qed.

Lemma mread_ok_iff m off n bs :
  mread m off n = Ok bs ↔
  0 ≤ off ∧ 0 ≤ n ∧ off + n ≤ bsize m ∧ bs = get_bytes m off (Z.to_nat n).
Proof.
  unfold mread. pose proof (in_bounds_spec m off n).
  destruct (in_bounds m off n); naive_solver.
Qed.

Lemma mwrite_ok_iff m off bs m' :
  mwrite m off bs = Ok m' ↔
  0 ≤ off ∧ off + lenZ bs ≤ bsize m ∧ m' = set_bytes m off bs.
Proof.
  unfold mwrite. pose proof (in_bounds_spec m off (lenZ bs)).
  assert (0 ≤ lenZ bs) by (unfold lenZ; lia).
  destruct (in_bounds m off (lenZ bs)); naive_solver.
Qed.

Lemma mread_ok m off n :
  0 ≤ off → 0 ≤ n → off + n ≤ bsize m →
  mread m off n = Ok (get_bytes m off (Z.to_nat n)).
Proof. intros. by apply mread_ok_iff. Qed.

Lemma mwrite_ok m off bs :
  0 ≤ off → off + lenZ bs ≤ bsize m → mwrite m off bs = Ok (set_bytes m off bs).
Proof. intros. by apply mwrite_ok_iff. Qed.

Lemma mread_length m off n bs : mread m off n = Ok bs → lenZ bs = n.
Proof.
  intros (?&?&?&->)%mread_ok_iff. unfold lenZ. rewrite length_get_bytes. lia.
Qed.

Lemma mwrite_size m off bs m' : mwrite m off bs = Ok m' → bsize m' = bsize m.
Proof. intros (?&?&->)%mwrite_ok_iff. apply bsize_set_bytes. Qed.

(** A [memcpy] out of the bytes just copied in gives them back. *)
Lemma mread_mwrite_eq m off bs m' :
  mwrite m off bs = Ok m' → mread m' off (lenZ bs) = Ok bs.
Proof.
  intros (?&?&->)%mwrite_ok_iff. apply mread_ok_iff. rewrite bsize_set_bytes.
  assert (Z.to_nat (lenZ bs) = length bs) as -> by (unfold lenZ; lia).
  rewrite get_set_bytes_eq by done. unfold lenZ in *; repeat split; auto; lia.
Qed.

(** Bytes outside the copied range are unchanged. *)
Lemma mread_mwrite_ne m off bs m' off' n :
  mwrite m off bs = Ok m' →
  off' + n ≤ off ∨ off + lenZ bs ≤ off' →
  mread m' off' n = mread m off' n.
Proof.
  intros (?&?&->)%mwrite_ok_iff Hd. unfold mread, in_bounds.
  rewrite bsize_set_bytes.
  destruct (Z.leb_spec 0 off'); [|done]. destruct (Z.leb_spec 0 n); [|done].
  cbn [andb]. destruct (Z.leb_spec (off' + n) (bsize m)); [|done].
  f_equal. apply get_bytes_ext. intros j Hj.
  apply bget_set_bytes_out; unfold lenZ in *; lia.
Qed.

Lemma bytes_ok_set m off bs :
  bytes_ok m → Forall byte_ok bs → 0 ≤ off → off + lenZ bs ≤ bsize m →
  bytes_ok (set_bytes m off bs).
Proof.
  intros Hm Hbs. revert m off Hm.
  induction Hbs as [|b bs Hb Hbs IH]; intros m off Hm; cbn; [done|].
  unfold lenZ in *; cbn. intros. apply IH; rewrite ?bsize_bset; [|lia..].
  intros i. rewrite bsize_bset. intros Hi. destruct (decide (i = off)) as [->|].
  - by rewrite bget_bset_eq.
  - rewrite bget_bset_ne by lia. by apply Hm.
Qed.

Lemma bytes_ok_mwrite m off bs m' :
  bytes_ok m → Forall byte_ok bs → mwrite m off bs = Ok m' → bytes_ok m'.
Proof. intros ?? (?&?&->)%mwrite_ok_iff. by apply bytes_ok_set. Qed.

Lemma bytes_ok_mread m off n bs :
  bytes_ok m → mread m off n = Ok bs → Forall byte_ok bs.
Proof.
  intros Hm (Ho&?&Hb&->)%mread_ok_iff.
  assert (off + Z.of_nat (Z.to_nat n) ≤ bsize m) as Hb' by lia.
  clear Hb. revert off Ho Hb'. induction (Z.to_nat n) as [|k IH]; intros; cbn.
  - constructor.
  - constructor; [apply Hm; lia|]. apply IH; lia.
Qed.
End byte_store.

(** Byte stores that are C arrays. *)
Lemma get_bytes_list (l : list Z) (k n : nat) :
  (k + n ≤ length l)%nat → get_bytes l (Z.of_nat k) n = take n (drop k l).
Proof.
  revert k. induction n as [|n IH]; intros k Hk; cbn [get_bytes]; [by rewrite take_0|].
  destruct (lookup_lt_is_Some_2 l k) as [x Hx]; [lia|].
  rewrite (drop_S _ _ _ Hx). cbn [take]. f_equal.
  - unfold bget; cbn. rewrite Nat2Z.id. by apply list_lookup_total_correct.
  - replace (Z.of_nat k + 1) with (Z.of_nat (S k)) by lia. apply IH. lia.
Qed.

(** Two byte stores that hold the same bytes at different offsets. *)
Lemma get_bytes_shift {M1 M2} `{ByteStore M1} `{ByteStore M2} (m1 : M1) (m2 : M2) o1 o2 (n : nat) :
  (∀ j, 0 ≤ j < Z.of_nat n → bget m1 (o1 + j) = bget m2 (o2 + j)) →
  get_bytes m1 o1 n = get_bytes m2 o2 n.
Proof.
  revert o1 o2. induction n as [|n IH]; intros o1 o2 E; cbn; [done|]. f_equal.
  - specialize (E 0). rewrite !Z.add_0_r in E. apply E. lia.
  - apply IH. intros j Hj. replace (o1 + 1 + j) with (o1 + (j + 1)) by lia.
    replace (o2 + 1 + j) with (o2 + (j + 1)) by lia. apply E. lia.
Qed.

Lemma bget_get_bytes {M} `{ByteStore M} (m : M) off (n : nat) j :
  0 ≤ j < Z.of_nat n → bget (get_bytes m off n) j = bget m (off + j).
Proof.
  revert off j. induction n as [|n IH]; intros off j Hj; [lia|].
  destruct (decide (j = 0)) as [->|]; [by rewrite Z.add_0_r|].
  transitivity (bget (get_bytes m (off + 1) n) (j - 1)).
  - transitivity (get_bytes m off (S n) !!! Z.to_nat j); [done|].
    by replace (Z.to_nat j) with (S (Z.to_nat (j - 1))) by lia.
  - rewrite IH by lia. f_equal. lia.
Qed.

(** Part of a copied range. *)
Lemma get_bytes_sub {M} `{ByteStore M} (m : M) off (n : nat) j (k : nat) :
  0 ≤ j → j + Z.of_nat k ≤ Z.of_nat n →
  get_bytes (get_bytes m off n) j k = get_bytes m (off + j) k.
Proof.
  intros Hj Hk. apply get_bytes_shift. intros i Hi.
  rewrite bget_get_bytes by lia. f_equal. lia.
Qed.

Lemma get_bytes_app {M} `{ByteStore M} (m : M) off (n k : nat) :
  get_bytes m off (n + k) = get_bytes m off n ++ get_bytes m (off + Z.of_nat n) k.
Proof.
  revert off. induction n as [|n IH]; intros off; cbn [get_bytes Nat.add app].
  - by rewrite Z.add_0_r.
  - f_equal. rewrite IH. do 2 f_equal. lia.
Qed.

Lemma bsize_list (l : list Z) : bsize l = lenZ l.
Proof. reflexivity. Qed.

Lemma bytes_ok_list (l : list Z) : bytes_ok l ↔ Forall byte_ok l.
Proof.
  split.
  - intros Hl. apply Forall_lookup. intros k b Hk.
    apply list_lookup_total_correct in Hk as E. specialize (Hl (Z.of_nat k)). cbn in Hl.
    rewrite Nat2Z.id, E in Hl. apply Hl. apply lookup_lt_Some in Hk. unfold lenZ. lia.
  - intros Hl i Hi. cbn in Hi |- *. apply (Forall_lookup_total_1 _ _ _ Hl).
    unfold lenZ in Hi. lia.
Qed.

Lemma lenZ_set_bytes (l : list Z) off bs : lenZ (set_bytes l off bs) = lenZ l.
Proof. pose proof (bsize_set_bytes l off bs) as E. exact E. Qed.

Lemma lenZ_get_bytes {M} `{ByteStore M} (m : M) off n :
  0 ≤ n → lenZ (get_bytes m off (Z.to_nat n)) = n.
Proof. intros. unfold lenZ. rewrite length_get_bytes. lia. Qed.

Lemma mread_all (l : list Z) n : n = lenZ l → mread l 0 n = Ok l.
Proof.
  intros ->. rewrite mread_ok by (cbn; unfold lenZ; lia). f_equal.
  replace (Z.to_nat (lenZ l)) with (length l) by (unfold lenZ; lia).
  rewrite (get_bytes_list l 0) by lia. by rewrite drop_0, take_ge.
Qed.

Lemma mwrite_all (l bs : list Z) : lenZ bs = lenZ l → mwrite l 0 bs = Ok bs.
Proof.
  intros Hl. rewrite mwrite_ok by (cbn; lia). f_equal.
  pose proof (get_set_bytes_eq l 0 bs) as Hg.
  assert (length (set_bytes l 0 bs) = length bs) as Hlen.
  { pose proof (bsize_set_bytes l 0 bs) as E. cbn in E. unfold lenZ in *. lia. }
  rewrite (get_bytes_list _ 0), drop_0, take_ge in Hg by (cbn; lia).
  apply Hg; cbn; lia.
Qed.

(** * Little-endian scalars *)

Lemma lenZ_le_bytes k v : 0 ≤ k → lenZ (le_bytes k v) = k.
Proof. intros. unfold lenZ, le_bytes. by rewrite length_Z_to_little_endian. Qed.

Lemma le_bytes_ok k v : 0 ≤ k → Forall byte_ok (le_bytes k v).
Proof. intros. unfold le_bytes, byte_ok. apply (Z_to_little_endian_bound k 8 v); lia. Qed.

Lemma le_val_le_bytes k v : 0 ≤ k → le_val (le_bytes k v) = wrap (8 * k) v.
Proof.
  intros. unfold le_val, le_bytes, wrap.
  rewrite little_endian_to_Z_to_little_endian by lia. f_equal. f_equal. lia.
Qed.

Lemma le_val_range bs : Forall byte_ok bs → 0 ≤ le_val bs < 2 ^ (8 * lenZ bs).
Proof.
  intros. unfold le_val, lenZ.
  rewrite Z.mul_comm. apply little_endian_to_Z_bound; [lia|]. done.
Qed.

Lemma le_bytes_le_val bs : Forall byte_ok bs → le_bytes (lenZ bs) (le_val bs) = bs.
Proof. intros. unfold le_bytes, le_val, lenZ. by apply Z_to_little_endian_to_Z. Qed.

Lemma le_val_1 b : le_val [b] = b.
Proof. unfold le_val, little_endian_to_Z. rewrite Z.shiftl_0_l. apply Z.lor_0_r. Qed.

Section scalars.
Context {M : Type} `{ByteStoreLaws M}.
Implicit Types (m : M) (off k v : Z).

Lemma load_ok_iff k m off v :
  load k m off = Ok v ↔
  0 ≤ off ∧ 0 ≤ k ∧ off + k ≤ bsize m ∧ v = le_val (get_bytes m off (Z.to_nat k)).
Proof.
  unfold load. pose proof (mread_ok_iff m off k).
  destruct (mread m off k) as [bs|]; cbn; [|naive_solver].
  destruct (H1 bs) as [(?&?&?&->) _]; [done|]. naive_solver.
Qed.

Lemma store_ok_iff k m off v m' :
  0 ≤ k → store k m off v = Ok m' ↔
  0 ≤ off ∧ off + k ≤ bsize m ∧ m' = set_bytes m off (le_bytes k v).
Proof. intros. unfold store. by rewrite mwrite_ok_iff, lenZ_le_bytes. Qed.

Lemma store_size k m off v m' : store k m off v = Ok m' → bsize m' = bsize m.
Proof. apply mwrite_size. Qed.

Lemma load_store_eq k m off v m' :
  0 ≤ k → store k m off v = Ok m' → load k m' off = Ok (wrap (8 * k) v).
Proof.
  intros Hk Hs. unfold load. apply mread_mwrite_eq in Hs.
  rewrite lenZ_le_bytes in Hs by done. rewrite Hs; cbn.
  by rewrite le_val_le_bytes.
Qed.

Lemma load_store_ne k k' m off off' v m' :
  0 ≤ k → store k m off v = Ok m' →
  off' + k' ≤ off ∨ off + k ≤ off' →
  load k' m' off' = load k' m off'.
Proof.
  intros Hk Hs Hd. unfold load. f_equal.
  apply (mread_mwrite_ne _ _ _ _ _ _ Hs). by rewrite lenZ_le_bytes.
Qed.

Lemma load_range k m off v :
  bytes_ok m → load k m off = Ok v → 0 ≤ v < 2 ^ (8 * k).
Proof.
  intros Hm. unfold load. destruct (mread m off k) as [bs|] eqn:E; cbn; [|done].
  intros [= <-]. rewrite <-(mread_length _ _ _ _ E).
  apply le_val_range. by eapply bytes_ok_mread.
Qed.

Lemma bytes_ok_store k m off v m' :
  0 ≤ k → bytes_ok m → store k m off v = Ok m' → bytes_ok m'.
Proof. intros ??. apply bytes_ok_mwrite; [done|]. by apply le_bytes_ok. Qed.
End scalars.

(** * Results that are not a divergence *)

Definition no_div {A} (r : res A) : Prop := r ≠ Fault Diverges.

Lemma no_div_ok {A} (a : A) : no_div (Ok a).
Proof. done. Qed.
Lemma no_div_bind {A B} (r : res A) (f : A → res B) :
  no_div r → (∀ a, r = Ok a → no_div (f a)) → no_div (r ≫= f).
Proof. destruct r; cbn; [auto|]. intros Hr _ [= ->]. by apply Hr. Qed.
Lemma no_div_option {A} e (o : option A) : e ≠ Diverges → no_div (from_option_res e o).
Proof. destruct o; cbn; [done|]. by intros ? [= ->]. Qed.
Lemma no_div_fmap {A B} (r : res A) (f : A → B) : no_div r → no_div (f <$> r).
Proof. destruct r; cbn; [done|]. by intros Hr [= ->]. Qed.
Lemma no_div_mread {M} `{ByteStore M} (m : M) off n : no_div (mread m off n).
Proof. unfold mread. by destruct (in_bounds m off n). Qed.
Lemma no_div_mwrite {M} `{ByteStore M} (m : M) off bs : no_div (mwrite m off bs).
Proof. unfold mwrite. by destruct (in_bounds m off (lenZ bs)). Qed.
Lemma no_div_load {M} `{ByteStore M} k (m : M) off : no_div (load k m off).
Proof. apply no_div_fmap, no_div_mread. Qed.
Lemma no_div_store {M} `{ByteStore M} k (m : M) off v : no_div (store k m off v).
Proof. apply no_div_mwrite. Qed.

(** * Properties of the results that are reached *)

(** Whatever [r] returns satisfies [Q]; nothing is said of a fault. *)
Definition ok_with {A} (Q : A → Prop) (r : res A) : Prop := ∀ a, r = Ok a → Q a.

Lemma ok_with_ok {A} (Q : A → Prop) a : Q a → ok_with Q (Ok a).
Proof. by intros ?? [= <-]. Qed.
Lemma ok_with_fault {A} (Q : A → Prop) e : ok_with Q (Fault e).
Proof. done. Qed.
Lemma ok_with_bind {A B} (P : A → Prop) (Q : B → Prop) (r : res A) (f : A → res B) :
  ok_with P r → (∀ a, P a → ok_with Q (f a)) → ok_with Q (r ≫= f).
Proof. intros Hr Hf b (a&Ha&Hb)%bind_ok_iff. by eapply Hf; [apply Hr|]. Qed.
Lemma ok_with_bind_any {A B} (Q : B → Prop) (r : res A) (f : A → res B) :
  (∀ a, ok_with Q (f a)) → ok_with Q (r ≫= f).
Proof. intros Hf b (a&Ha&Hb)%bind_ok_iff. by eapply Hf. Qed.
Lemma ok_with_weaken {A} (P Q : A → Prop) r :
  (∀ a, P a → Q a) → ok_with P r → ok_with Q r.
Proof. unfold ok_with. eauto. Qed.

(** * Automation *)

(** Walk straight-line code bind by bind; [call] proves the binds that matter. *)
Ltac ok_with_step call :=
  first
    [ apply ok_with_ok
    | apply ok_with_fault
    | call
    | apply ok_with_bind_any; intros ?
    | match goal with
      | |- ok_with _ (let '(_, _) := ?x in _) => destruct x
      | |- ok_with _ (if ?b then _ else _) => destruct b
      | |- ok_with _ (match ?o with Some _ => _ | None => _ end) => destruct o
      end ].

(** Open every bind of the error monad in the hypotheses. *)
Ltac simplify_res :=
  repeat match goal with
  | _ => progress simplify_eq/=
  | H : mbind _ _ = Ok _ |- _ => apply bind_ok_iff in H as (?&?&H)
  | H : from_option_res _ _ = Ok _ |- _ => apply from_option_res_ok in H
  | H : mret _ = Ok _ |- _ => unfold mret, res_ret in H
  | H : (let '(_, _) := ?x in _) = Ok _ |- _ => destruct x eqn:?
  | H : _ ∧ _ |- _ => destruct H
  | H : ∃ _, _ |- _ => destruct H
  end.

(** Case analysis on the first boolean or option test of a hypothesis. *)
Ltac case_res H :=
  match type of H with
  | context [if ?b then _ else _] => destruct b eqn:?
  | context [match ?o with Some _ => _ | None => _ end] => destruct o eqn:?
  end; simplify_res.

(** Comparisons of machine integers as propositions. *)
Ltac zbool :=
  repeat match goal with
  | H : (_ && _) = true |- _ => apply andb_true_iff in H as [??]
  | H : (_ && _) = false |- _ => apply andb_false_iff in H
  | H : (_ || _) = false |- _ => apply orb_false_iff in H as [??]
  | H : (_ || _) = true |- _ => apply orb_true_iff in H
  | H : negb _ = true |- _ => apply negb_true_iff in H
  | H : negb _ = false |- _ => apply negb_false_iff in H
  | H : (_ <=? _) = true |- _ => apply Z.leb_le in H
  | H : (_ <=? _) = false |- _ => apply Z.leb_gt in H
  | H : (_ <? _) = true |- _ => apply Z.ltb_lt in H
  | H : (_ <? _) = false |- _ => apply Z.ltb_ge in H
  | H : (_ =? _) = true |- _ => apply Z.eqb_eq in H
  | H : (_ =? _) = false |- _ => apply Z.eqb_neq in H
  end.

(** Show that straight-line code does not diverge, bind by bind. *)
Ltac no_div :=
  repeat first
    [ apply no_div_ok
    | apply no_div_load | apply no_div_store | apply no_div_mread | apply no_div_mwrite
    | apply no_div_option; done
    | done
    | apply no_div_bind; [|intros ? ?]
    | case_match ].

Create HintDb kvm discriminated.
#[export] Hint Resolve wrap_range le_bytes_ok bytes_ok_mwrite bytes_ok_store
  bytes_ok_mread mread_length mwrite_size store_size : kvm.
#[export] Hint Rewrite @bind_Ok @wrap_idemp @wrap_add_l @wrap_add_r
  @wrap_sub_l @wrap_sub_r : kvm.
