(* ===== verification/Uapi.v ===== *)
(** * Constants of the Linux user-space API

    The values of the macros and the layouts of the structures the sources take
    from <linux/serial_reg.h>, <linux/pci_regs.h>, <linux/virtio_pci.h>,
    <linux/virtio_ring.h>, <linux/virtio_blk.h>, <linux/virtio_net.h>,
    <linux/virtio_config.h>, <linux/kvm.h>, <asm/bootparam.h> and
    <asm/e820.h>: numbers of a stable ABI, not code. *)

From stdpp Require Import base numbers.
Open Scope Z_scope.

(** ** <linux/serial_reg.h> *)
Definition UART_RX : Z := 0.
Definition UART_TX : Z := 0.
Definition UART_IER : Z := 1.
Definition UART_IIR : Z := 2.
Definition UART_FCR : Z := 2.
Definition UART_LCR : Z := 3.
Definition UART_MCR : Z := 4.
Definition UART_LSR : Z := 5.
Definition UART_MSR : Z := 6.
Definition UART_SCR : Z := 7.
Definition UART_IER_RDI : Z := 0x01.
Definition UART_IER_THRI : Z := 0x02.
Definition UART_IIR_NO_INT : Z := 0x01.
Definition UART_IIR_THRI : Z := 0x02.
Definition UART_IIR_RDI : Z := 0x04.
Definition UART_LCR_DLAB : Z := 0x80.
Definition UART_MCR_OUT2 : Z := 0x08.
Definition UART_LSR_DR : Z := 0x01.
Definition UART_LSR_THRE : Z := 0x20.
Definition UART_LSR_TEMT : Z := 0x40.
Definition UART_MSR_DCD : Z := 0x80.
Definition UART_MSR_DSR : Z := 0x20.
Definition UART_MSR_CTS : Z := 0x10.

(** ** <linux/pci_regs.h> *)
Definition PCI_CFG_SPACE_SIZE : Z := 256.
Definition PCI_STD_NUM_BARS : Z := 6.
Definition PCI_VENDOR_ID : Z := 0x00.
Definition PCI_DEVICE_ID : Z := 0x02.
Definition PCI_COMMAND : Z := 0x04.
Definition PCI_COMMAND_IO : Z := 0x1.
Definition PCI_COMMAND_MEMORY : Z := 0x2.
Definition PCI_STATUS : Z := 0x06.
Definition PCI_STATUS_INTERRUPT : Z := 0x08.
Definition PCI_STATUS_CAP_LIST : Z := 0x10.
Definition PCI_CLASS_REVISION : Z := 0x08.
Definition PCI_HEADER_TYPE : Z := 0x0e.
Definition PCI_HEADER_TYPE_NORMAL : Z := 0.
Definition PCI_BASE_ADDRESS_0 : Z := 0x10.
Definition PCI_BASE_ADDRESS_5 : Z := 0x24.
Definition PCI_BASE_ADDRESS_SPACE_MEMORY : bool := false.
Definition PCI_ROM_ADDRESS : Z := 0x30.
Definition PCI_CAPABILITY_LIST : Z := 0x34.
Definition PCI_INTERRUPT_LINE : Z := 0x3c.
Definition PCI_INTERRUPT_PIN : Z := 0x3d.
Definition PCI_CAP_ID_VNDR : Z := 0x09.

(** ** <linux/virtio_ring.h>: packed virtqueue *)
Definition VRING_DESC_F_NEXT : Z := 1.
Definition VRING_PACKED_DESC_F_AVAIL : Z := 7.
Definition VRING_PACKED_DESC_F_USED : Z := 15.
Definition VRING_PACKED_EVENT_FLAG_ENABLE : Z := 0.
Definition VRING_PACKED_EVENT_FLAG_DISABLE : Z := 1.
(** [struct vring_packed_desc]: addr at 0, len at 8, id at 12, flags at 14. *)
Definition vring_desc_size : Z := 16.
Definition vring_desc_addr : Z := 0.
Definition vring_desc_len : Z := 8.
Definition vring_desc_flags : Z := 14.
(** [struct vring_packed_desc_event]: off_wrap at 0, flags at 2. *)
Definition vring_event_flags : Z := 2.

(** ** <linux/virtio_pci.h> *)
Definition VIRTIO_PCI_COMMON_DFSELECT : Z := 0.
Definition VIRTIO_PCI_COMMON_DF : Z := 4.
Definition VIRTIO_PCI_COMMON_GFSELECT : Z := 8.
Definition VIRTIO_PCI_COMMON_GF : Z := 12.
Definition VIRTIO_PCI_COMMON_NUMQ : Z := 18.
Definition VIRTIO_PCI_COMMON_STATUS : Z := 20.
Definition VIRTIO_PCI_COMMON_Q_SELECT : Z := 22.
Definition VIRTIO_PCI_COMMON_Q_SIZE : Z := 24.
Definition VIRTIO_PCI_COMMON_Q_ENABLE : Z := 28.
Definition VIRTIO_PCI_COMMON_Q_AVAILLO : Z := 40.
Definition VIRTIO_PCI_COMMON_Q_USEDLO : Z := 48.
Definition VIRTIO_PCI_COMMON_Q_USEDHI : Z := 52.
Definition sizeof_virtio_pci_common_cfg : Z := 56.
Definition VIRTIO_PCI_CAP_COMMON_CFG : Z := 1.
Definition VIRTIO_PCI_CAP_NOTIFY_CFG : Z := 2.
Definition VIRTIO_PCI_CAP_ISR_CFG : Z := 3.
Definition VIRTIO_PCI_CAP_DEVICE_CFG : Z := 4.
Definition VIRTIO_PCI_CAP_PCI_CFG : Z := 5.
(** [struct virtio_pci_cap]: cap_vndr 0, cap_next 1, cap_len 2, cfg_type 3,
    bar 4, id 5, padding 6, offset 8, length 12; the notify capability appends
    notify_off_multiplier at 16. *)
Definition sizeof_virtio_pci_cap : Z := 16.
Definition cap_vndr_off : Z := 0.
Definition cap_next_off : Z := 1.
Definition cap_len_off : Z := 2.
Definition cfg_type_off : Z := 3.
Definition cap_bar_off : Z := 4.
Definition cap_offset_off : Z := 8.
Definition cap_length_off : Z := 12.
Definition notify_off_multiplier_off : Z := 16.

(** ** <linux/virtio_config.h>, <linux/virtio_blk.h>, <linux/virtio_net.h> *)
Definition VIRTIO_F_VERSION_1 : Z := 32.
Definition VIRTIO_F_RING_PACKED : Z := 34.
Definition VIRTIO_BLK_T_IN : Z := 0.
Definition VIRTIO_BLK_T_OUT : Z := 1.
Definition VIRTIO_BLK_S_OK : Z := 0.
Definition VIRTIO_BLK_S_IOERR : Z := 1.
Definition VIRTIO_BLK_S_UNSUPP : Z := 2.
Definition VIRTIO_NET_F_MQ : Z := 22.
(** [struct virtio_net_hdr_v1]: twelve bytes, num_buffers at 10. *)
Definition sizeof_virtio_net_hdr_v1 : Z := 12.
Definition virtio_net_hdr_num_buffers : Z := 10.

(** Sizes of the device-specific configuration structures in the headers of the host.
    [struct virtio_blk_config] has 72 bytes from Linux 5.19, which added the secure
    erase members, up to 6.2; 6.3 adds the zoned members and has 96. The size only
    bounds the device-specific register window. [capacity] is the first member of [struct virtio_blk_config]. *)
Definition sizeof_virtio_blk_config : Z := 72.
Definition sizeof_virtio_net_config : Z := 24.
Definition virtio_blk_config_capacity : Z := 0.
