(* ===== verification/Bus.v ===== *)
(** * The I/O bus (src/bus.c, src/bus.h)

    A bus is an intrusive singly linked list of [struct dev] nodes. The nodes
    are members of other structs and are reached through pointers, so they live
    in a heap [gmap P dev] keyed by the pointer type [P]; [next] is the link
    stored in the node. [owner] and [do_io] are the node's callback and its
    argument, of types [Ow] and [Fn].

    A walk of the list is a loop on pointers: it takes fuel, and running out of
    fuel is the fault [Diverges]. [bus_fuel] is one more than the number of
    nodes of the heap, which every acyclic list respects ([chain_fuel]). *)

From stdpp Require Import base tactics numbers list gmap.
From S2P Require Import Prelude.
Open Scope Z_scope.

(** [struct dev] *)
Record dev (P Ow Fn : Type) := mkDev {
  base : Z;
  len : Z;
  owner : Ow;
  do_io : Fn;
  next : option P;
}.
Arguments mkDev {P Ow Fn} _ _ _ _ _.
Arguments base {P Ow Fn} _.
Arguments len {P Ow Fn} _.
Arguments owner {P Ow Fn} _.
Arguments do_io {P Ow Fn} _.
Arguments next {P Ow Fn} _.

(** [struct bus] *)
Record bus (P : Type) := mkBus {
  dev_num : Z;
  head : option P;
}.
Arguments mkBus {P} _ _.
Arguments dev_num {P} _.
Arguments head {P} _.

Section bus.
Context {P Ow Fn : Type} `{Countable P}.
Abbreviation dev := (dev P Ow Fn).
Abbreviation bus := (bus P).
Abbreviation heap := (gmap P dev).
Implicit Types (h : heap) (b : bus) (q : P) (l : list P) (d : dev).

Definition set_next (nx : option P) d : dev :=
  mkDev (base d) (len d) (owner d) (do_io d) nx.
Definition set_base (a : Z) d : dev :=
  mkDev a (len d) (owner d) (do_io d) (next d).

(** The test [addr >= start && addr <= end] of [bus_find_dev], in 64-bit
    arithmetic. *)
Definition dev_hit d (addr : Z) : bool :=
  let start := base d in
  let end_ := u64 (start + len d - 1) in
  (start <=? addr) && (addr <=? end_).

Fixpoint find_from (fuel : nat) h (p : option P) (addr : Z) : res (option P) :=
  match fuel with
  | O => Fault Diverges
  | S fuel =>
    match p with
    | None => Ok None
    | Some q =>
      d ← from_option_res WildPointer (h !! q);
      if dev_hit d addr then Ok (Some q) else find_from fuel h (next d) addr
    end
  end.

Definition bus_fuel h : nat := S (size h).

Definition bus_find_dev h b (addr : Z) : res (option P) :=
  find_from (bus_fuel h) h (head b) addr.

(** [bus_handle_io]: [call] runs the callback of the device that is found, on
    the data buffer and with the offset into the device; [St] is the state the
    callbacks work on. *)
Definition bus_handle_io {St} (call : Ow → Fn → list Z → bool → Z → Z → St → res (St * list Z))
    h b (data : list Z) (is_write : bool) (addr size : Z) (s : St)
    : res (St * list Z) :=
  od ← bus_find_dev h b addr;
  match od with
  | Some q =>
    d ← from_option_res WildPointer (h !! q);
    if u64 (addr + size - 1) <=? u64 (base d + len d - 1) then
      call (owner d) (do_io d) data is_write (u64 (addr - base d)) size s
    else Ok (s, data)
  | None => Ok (s, data)
  end.

Definition bus_register_dev h b (p : P) : res (heap * bus) :=
  d ← from_option_res WildPointer (h !! p);
  Ok (<[p := set_next (head b) d]> h, mkBus (u64 (dev_num b + 1)) (Some p)).

(** The pointer-to-pointer [p] of [bus_deregister_dev] addresses either the
    head of the bus or the link of a node. *)
Inductive link := LHead | LNext (q : P).

Definition link_get h b (k : link) : res (option P) :=
  match k with
  | LHead => Ok (head b)
  | LNext q => d ← from_option_res WildPointer (h !! q); Ok (next d)
  end.

Definition link_set h b (k : link) (v : option P) : res (heap * bus) :=
  match k with
  | LHead => Ok (h, mkBus (dev_num b) v)
  | LNext q =>
    d ← from_option_res WildPointer (h !! q);
    Ok (<[q := set_next v d]> h, b)
  end.

Fixpoint deregister_from (fuel : nat) h b (k : link) (p : P) : res (heap * bus) :=
  match fuel with
  | O => Fault Diverges
  | S fuel =>
    cur ← link_get h b k;
    match cur with
    | None => Ok (h, b)
    | Some q =>
      if decide (q = p) then
        d ← from_option_res WildPointer (h !! q);
        link_set h b k (next d)
      else deregister_from fuel h b (LNext q) p
    end
  end.

Definition bus_deregister_dev h b (p : P) : res (heap * bus) :=
  deregister_from (bus_fuel h) h b LHead p.

Definition bus_init : bus := mkBus 0 None.

Definition dev_init h (p : P) (base_ len_ : Z) (o : Ow) (f : Fn) : heap :=
  <[p := mkDev base_ len_ o f None]> h.

(** ** Representation: the list of devices a bus holds *)

Fixpoint chain h (p : option P) l : Prop :=
  match l with
  | [] => p = None
  | q :: l => p = Some q ∧ ∃ d, h !! q = Some d ∧ chain h (next d) l
  end.

Definition bus_repr h b l : Prop := chain h (head b) l.

(** The specification of the lookup: the first device of the list whose range
    holds the address. *)
Definition hits h (addr : Z) (q : P) : bool :=
  match h !! q with Some d => dev_hit d addr | None => false end.

Definition abs_find h l (addr : Z) : option P :=
  List.find (hits h addr) l.

(** Two heaps whose nodes agree on everything but the links. *)
Definition same_devs h h' : Prop :=
  ∀ q, set_next None <$> h !! q = set_next None <$> h' !! q.

Lemma chain_det h p l1 l2 : chain h p l1 → chain h p l2 → l1 = l2.
Proof.
  revert p l2. induction l1 as [|q l1 IH]; intros p [|q' l2]; cbn; naive_solver.
Qed.

Lemma chain_app_inv h p l1 l2 : chain h p (l1 ++ l2) → ∃ p', chain h p' l2.
Proof.
  revert p. induction l1 as [|q l1 IH]; intros p; cbn; [naive_solver|].
  intros [_ (d&_&Hc)]. by eapply IH.
Qed.

Lemma chain_head h p q l : chain h p (q :: l) → chain h (Some q) (q :: l).
Proof. cbn. naive_solver. Qed.

Lemma chain_NoDup h p l : chain h p l → NoDup l.
Proof.
  revert p. induction l as [|q l IH]; intros p Hc; [constructor|].
  constructor; [|cbn in Hc; naive_solver].
  intros (l1&l2&->)%list_elem_of_split.
  destruct (chain_app_inv h p (q :: l1) (q :: l2) Hc) as [p' Hc'].
  apply chain_head in Hc, Hc'.
  pose proof (f_equal length (chain_det _ _ _ _ Hc Hc')) as E.
  cbn in E. rewrite length_app in E. cbn in E. lia.
Qed.

Lemma chain_dom h p l q : chain h p l → q ∈ l → is_Some (h !! q).
Proof.
  revert p. induction l as [|q' l IH]; intros p; [by intros _ ?%not_elem_of_nil|].
  intros [-> (d&Hd&Hc)] [->|?]%elem_of_cons; [by eexists|]. by eapply IH.
Qed.

(** The fuel of every walk is enough for an acyclic list. *)
Lemma chain_fuel h p l : chain h p l → (length l < bus_fuel h)%nat.
Proof.
  intros Hc. unfold bus_fuel. rewrite Nat.lt_succ_r.
  rewrite <-(size_list_to_set (C:=gset P) l) by (by eapply chain_NoDup).
  rewrite <-(size_dom (D:=gset P) h). apply subseteq_size. intros q.
  rewrite elem_of_list_to_set, elem_of_dom. by eapply chain_dom.
Qed.

Lemma chain_insert h p l q d :
  q ∉ l → chain (<[q:=d]> h) p l ↔ chain h p l.
Proof.
  revert p. induction l as [|q' l IH]; intros p; cbn; [done|].
  intros [? ?]%not_elem_of_cons. rewrite lookup_insert_ne by done.
  by setoid_rewrite IH.
Qed.

Lemma find_from_chain h p l addr fuel :
  chain h p l → (length l < fuel)%nat →
  find_from fuel h p addr = Ok (abs_find h l addr).
Proof.
  revert p fuel. induction l as [|q l IH]; intros p [|fuel]; cbn; try lia.
  - by intros ->.
  - intros [-> (d&Hd&Hc)] Hf. rewrite Hd; cbn. unfold abs_find; cbn.
    unfold hits at 1. rewrite Hd. destruct (dev_hit d addr); [done|].
    apply IH; [done|lia].
Qed.

Lemma bus_find_dev_repr h b l addr :
  bus_repr h b l → bus_find_dev h b addr = Ok (abs_find h l addr).
Proof. intros Hc. eapply find_from_chain; [done|]. by eapply chain_fuel. Qed.

#[local] Instance same_devs_refl : Reflexive same_devs.
Proof. by intros h q. Qed.

Lemma same_devs_relink h q d nx :
  h !! q = Some d → same_devs h (<[q := set_next nx d]> h).
Proof.
  intros Hq q'. destruct (decide (q = q')) as [<-|].
  - by rewrite Hq, lookup_insert_eq.
  - by rewrite lookup_insert_ne.
Qed.

(** Registration puts a device that is not on the bus in front of the list. *)
Lemma bus_register_repr h b l q d :
  bus_repr h b l → h !! q = Some d → q ∉ l →
  ∃ h' b', bus_register_dev h b q = Ok (h', b') ∧ bus_repr h' b' (q :: l) ∧
    same_devs h h' ∧ dev_num b' = u64 (dev_num b + 1) ∧
    (∀ q', q' ≠ q → h' !! q' = h !! q').
Proof.
  intros Hr Hq Hl. unfold bus_register_dev. rewrite Hq; cbn.
  eexists _, _; split; [done|]; split; [|split; [by apply same_devs_relink|split; [done|]]].
  2: { intros q' ?. by rewrite lookup_insert_ne. }
  unfold bus_repr; cbn. split; [done|]. eexists; split.
  - apply lookup_insert_eq.
  - cbn. by apply chain_insert.
Qed.

(** The link [k] is the one that leads to the rest of the list after [l1]. *)
Definition link_at (l1 : list P) (k : link) : Prop :=
  match last l1 with None => k = LHead | Some q => k = LNext q end.

Lemma chain_after h p l1 q l2 :
  chain h p (l1 ++ q :: l2) → ∃ d, h !! q = Some d ∧ chain h (next d) l2.
Proof.
  intros [p' Hc]%chain_app_inv. cbn in Hc. naive_solver.
Qed.

Lemma link_get_at h b l1 l2 k :
  bus_repr h b (l1 ++ l2) → link_at l1 k →
  ∃ cur, link_get h b k = Ok cur ∧ chain h cur l2.
Proof.
  unfold link_at. destruct l1 as [|q l1 _] using rev_ind; intros Hc.
  - intros ->. by eexists.
  - rewrite last_snoc. intros ->. rewrite <-app_assoc in Hc. cbn in Hc.
    destruct (chain_after _ _ _ _ _ Hc) as (d&Hd&Hc'). cbn. rewrite Hd. by eexists.
Qed.

Lemma chain_relink h p l1 q d l2 l3 nx :
  chain h p (l1 ++ q :: l2) → q ∉ l1 → h !! q = Some d →
  chain h nx l3 → q ∉ l3 →
  chain (<[q := set_next nx d]> h) p (l1 ++ q :: l3).
Proof.
  intros Hc Hl1 Hq Hn Hl3. revert p Hc Hl1.
  induction l1 as [|q' l1 IH]; intros p; cbn.
  - intros [-> _] _. split; [done|]. eexists. rewrite lookup_insert_eq.
    split; [done|]. cbn. by apply chain_insert.
  - intros [-> (d'&Hd'&Hc)] [??]%not_elem_of_cons. split; [done|]. exists d'.
    rewrite lookup_insert_ne by done. split; [done|]. by apply IH.
Qed.

Lemma link_set_at h b l1 q d l2 k :
  bus_repr h b (l1 ++ q :: l2) → h !! q = Some d → link_at l1 k →
  ∃ h' b', link_set h b k (next d) = Ok (h', b') ∧ bus_repr h' b' (l1 ++ l2) ∧
    same_devs h h' ∧ dev_num b' = dev_num b ∧
    (∀ q', q' ∉ l1 → h' !! q' = h !! q').
Proof.
  unfold link_at. intros Hc Hq Hk.
  destruct (chain_after _ _ _ _ _ Hc) as (d'&Hd'&Hc'). simplify_eq.
  pose proof (chain_NoDup _ _ _ Hc) as Hnd.
  destruct l1 as [|q0 l1 _] using rev_ind.
  - cbn in Hk; subst k. eexists _, _. by split_and!.
  - rewrite last_snoc in Hk; subst k. unfold bus_repr in *.
    rewrite <-app_assoc in Hc. cbn in Hc.
    rewrite <-app_assoc in Hnd. cbn in Hnd. apply NoDup_app in Hnd as (_&Hx&Hy).
    destruct (chain_after _ _ _ _ _ Hc) as (d0&Hd0&_). cbn. rewrite Hd0; cbn.
    eexists _, _; split; [done|]; split; [|split; [by apply same_devs_relink|split; [done|]]].
    2: { intros q' ?. rewrite lookup_insert_ne; [done|set_solver]. }
    rewrite <-app_assoc. cbn. eapply chain_relink; try done.
    + intros Hin. apply (Hx q0 Hin). set_solver.
    + apply NoDup_cons in Hy as [Hy _]. set_solver.
Qed.

(** The specification of removal. *)
Definition abs_remove (p : P) l : list P := filter (λ q, q ≠ p) l.

#[local] Arguments abs_remove : simpl never.

Lemma abs_remove_eq p l : abs_remove p (p :: l) = abs_remove p l.
Proof. unfold abs_remove. by rewrite filter_cons_False by naive_solver. Qed.

Lemma abs_remove_ne p q l : q ≠ p → abs_remove p (q :: l) = q :: abs_remove p l.
Proof. intros. unfold abs_remove. by rewrite filter_cons_True. Qed.

Lemma abs_remove_notin p l : p ∉ l → abs_remove p l = l.
Proof.
  induction l as [|q l IH]; [done|]. intros [??]%not_elem_of_cons.
  rewrite abs_remove_ne by done. f_equal. by apply IH.
Qed.

Lemma deregister_from_at h b l1 l2 k p fuel :
  bus_repr h b (l1 ++ l2) → link_at l1 k → (length l2 < fuel)%nat →
  ∃ h' b', deregister_from fuel h b k p = Ok (h', b') ∧
    bus_repr h' b' (l1 ++ abs_remove p l2) ∧ same_devs h h' ∧
    dev_num b' = dev_num b ∧ (∀ q', q' ∉ l1 ++ l2 → h' !! q' = h !! q').
Proof.
  revert l1 k fuel. induction l2 as [|q l2 IH]; intros l1 k [|fuel] Hc Hk Hf;
    cbn in *; try lia.
  - destruct (link_get_at _ _ _ _ _ Hc Hk) as (cur&->&->); cbn.
    eexists _, _. by split_and!.
  - destruct (link_get_at _ _ _ _ _ Hc Hk) as (cur&->&Hcur); cbn.
    destruct Hcur as [-> (d&Hd&_)]. destruct (decide (q = p)) as [->|Hne].
    + rewrite Hd; cbn. rewrite abs_remove_eq, abs_remove_notin.
      * destruct (link_set_at _ _ _ _ _ _ _ Hc Hd Hk) as (h'&b'&?&?&?&?&Hfr).
        exists h', b'. split_and!; try done. intros q' Hq'. apply Hfr. set_solver.
      * apply chain_NoDup, NoDup_app in Hc as (_&_&[? _]%NoDup_cons). done.
    + rewrite abs_remove_ne by done.
      destruct (IH (l1 ++ [q]) (LNext q) fuel) as (h'&b'&?&Hr&?&?&Hfr).
      * by rewrite <-app_assoc.
      * unfold link_at. by rewrite last_snoc.
      * lia.
      * rewrite <-app_assoc in Hr, Hfr. eexists _, _. by split_and!.
Qed.

Lemma bus_deregister_repr h b l p :
  bus_repr h b l →
  ∃ h' b', bus_deregister_dev h b p = Ok (h', b') ∧
    bus_repr h' b' (abs_remove p l) ∧ same_devs h h' ∧ dev_num b' = dev_num b ∧
    (∀ q', q' ∉ l → h' !! q' = h !! q').
Proof.
  intros Hr. apply (deregister_from_at h b [] l LHead p (bus_fuel h)); try done.
  by eapply chain_fuel.
Qed.

(** ** Sequences of bus operations *)

Inductive bus_op := OpRegister (q : P) | OpDeregister (q : P).

Definition run_op (hb : heap * bus) (op : bus_op) : res (heap * bus) :=
  match op with
  | OpRegister q => bus_register_dev hb.1 hb.2 q
  | OpDeregister q => bus_deregister_dev hb.1 hb.2 q
  end.

Fixpoint run_ops (hb : heap * bus) (ops : list bus_op) : res (heap * bus) :=
  match ops with
  | [] => Ok hb
  | op :: ops => hb ← run_op hb op; run_ops hb ops
  end.

(** The abstract bus is the list of its devices; registering a device that is
    already on the bus is not defined. *)
Definition abs_op l (op : bus_op) : option (list P) :=
  match op with
  | OpRegister q => if decide (q ∈ l) then None else Some (q :: l)
  | OpDeregister q => Some (abs_remove q l)
  end.

Fixpoint abs_ops l (ops : list bus_op) : option (list P) :=
  match ops with
  | [] => Some l
  | op :: ops => l ← abs_op l op; abs_ops l ops
  end.

Definition op_ptr (op : bus_op) : P :=
  match op with OpRegister q | OpDeregister q => q end.

Lemma same_devs_trans h1 h2 h3 : same_devs h1 h2 → same_devs h2 h3 → same_devs h1 h3.
Proof. intros H1 H2 q. by rewrite H1. Qed.

Lemma same_devs_is_Some h h' q : same_devs h h' → is_Some (h !! q) → is_Some (h' !! q).
Proof. intros Hs [d Hd]. specialize (Hs q). rewrite Hd in Hs. by destruct (h' !! q). Qed.

Lemma same_devs_hits h h' addr q : same_devs h h' → hits h' addr q = hits h addr q.
Proof.
  intros Hs. specialize (Hs q). unfold hits, dev_hit.
  destruct (h !! q) as [[]|], (h' !! q) as [[]|]; naive_solver.
Qed.

Lemma same_devs_find h h' l addr :
  same_devs h h' → abs_find h' l addr = abs_find h l addr.
Proof.
  intros Hs. unfold abs_find. induction l as [|q l IH]; cbn; [done|].
  by rewrite (same_devs_hits _ _ _ _ Hs), IH.
Qed.

Lemma run_op_repr h b l op l' :
  bus_repr h b l → is_Some (h !! op_ptr op) → abs_op l op = Some l' →
  ∃ h' b', run_op (h, b) op = Ok (h', b') ∧ bus_repr h' b' l' ∧ same_devs h h'.
Proof.
  intros Hr [d Hd] Ha. destruct op as [q|q]; cbn in *.
  - case_decide; simplify_eq.
    destruct (bus_register_repr h b l q d) as (h'&b'&?&?&?&?&?); eauto.
  - simplify_eq. destruct (bus_deregister_repr h b l q) as (h'&b'&?&?&?&?&?); eauto.
Qed.

Lemma run_ops_repr ops h b l l' :
  bus_repr h b l → Forall (λ op, is_Some (h !! op_ptr op)) ops →
  abs_ops l ops = Some l' →
  ∃ h' b', run_ops (h, b) ops = Ok (h', b') ∧ bus_repr h' b' l' ∧ same_devs h h'.
Proof.
  revert h b l. induction ops as [|op ops IH]; cbn; intros h b l Hr Hp Ha.
  - simplify_eq. eexists _, _. split_and!; [done|done|reflexivity].
  - apply bind_Some in Ha as (l1&Ha1&Ha). apply Forall_cons in Hp as [Hp1 Hp].
    destruct (run_op_repr _ _ _ _ _ Hr Hp1 Ha1) as (h1&b1&Hrun&Hr1&Hs1).
    rewrite Hrun. change (Ok (h1, b1) ≫= ?f) with (f (h1, b1)). cbv beta.
    destruct (IH h1 b1 l1) as (h2&b2&Hrun2&Hr2&Hs2); [done|..|done|].
    + eapply Forall_impl; [exact Hp|]. intros. by eapply same_devs_is_Some.
    + eexists _, _. split_and!; [done|done|]. by eapply same_devs_trans.
Qed.

(** ** Dispatch *)

(** The range of the device and of any access that starts in it stays below
    [2^64]. *)
Definition dev_wf d : Prop := 0 ≤ base d ∧ 1 ≤ len d ∧ base d + len d + 255 ≤ 2 ^ 64.

Lemma dev_hit_spec d addr :
  dev_wf d → dev_hit d addr = true ↔ base d ≤ addr < base d + len d.
Proof.
  intros (?&?&?). unfold dev_hit. rewrite wrap_small by lia.
  rewrite andb_true_iff, !Z.leb_le. lia.
Qed.

Lemma abs_find_Some h l addr q :
  abs_find h l addr = Some q →
  q ∈ l ∧ ∃ d, h !! q = Some d ∧ dev_hit d addr = true.
Proof.
  intros [Hin Hh]%List.find_some. apply list_elem_of_In in Hin. split; [done|].
  unfold hits in Hh. destruct (h !! q) as [d|]; [|done]. by exists d.
Qed.

(** ** A device registered twice *)

(** The node [q] of the list is linked in front of the list that already holds
    it: every walk that meets no device of the loop runs for ever. *)
Lemma find_from_loop h p0 l1 q d l2 addr fuel p l1' :
  chain h p0 (l1 ++ q :: l2) → h !! q = Some d →
  Forall (λ q, hits h addr q = false) (l1 ++ [q]) →
  (∃ l0, l1 = l0 ++ l1') → chain h p (l1' ++ q :: l2) →
  find_from fuel (<[q := set_next p0 d]> h) p addr = Fault Diverges.
Proof.
  intros Hc0 Hq Hmiss. revert p l1'.
  induction fuel as [|fuel IH]; intros p l1' [l0 Hl0] Hc; [done|].
  apply Forall_app in Hmiss as [Hm1 [Hmq _]%Forall_cons]. cbn.
  destruct l1' as [|q' l1']; cbn in Hc; destruct Hc as [-> (d'&Hd'&Hc)].
  - rewrite lookup_insert_eq; cbn.
    assert (dev_hit (set_next p0 d) addr = false) as ->.
    { unfold hits in Hmq. by rewrite Hq in Hmq. }
    apply (IH p0 l1); [|done]. by exists [].
  - assert (q ≠ q') as Hne.
    { intros <-. pose proof (chain_NoDup _ _ _ Hc0) as Hnd. subst l1.
      apply NoDup_app in Hnd as (_&Hx&_). apply (Hx q); set_solver. }
    rewrite lookup_insert_ne by done. rewrite Hd'; cbn.
    assert (dev_hit d' addr = false) as ->.
    { subst l1. apply Forall_app in Hm1 as [_ [Hm _]%Forall_cons].
      unfold hits in Hm. by rewrite Hd' in Hm. }
    apply (IH (next d') l1'); [|done]. exists (l0 ++ [q']). subst l1.
    by rewrite <-app_assoc.
Qed.

(** The loop of one node. *)
Lemma find_from_self_loop h q d addr fuel :
  h !! q = Some d → next d = Some q → dev_hit d addr = false →
  find_from fuel h (Some q) addr = Fault Diverges.
Proof.
  intros Hq Hn Hm. induction fuel as [|fuel IH]; [done|].
  cbn. rewrite Hq; cbn. by rewrite Hm, Hn.
Qed.

Lemma same_devs_lookup h h' q d :
  same_devs h h' → h !! q = Some d →
  ∃ nx, h' !! q = Some (set_next nx d).
Proof.
  intros Hs Hd. specialize (Hs q). rewrite Hd in Hs.
  destruct (h' !! q) as [[b0 l0 o0 f0 n0]|]; [|done]. destruct d.
  unfold set_next in *. cbn in Hs. simplify_eq. by exists n0.
Qed.
End bus.

Arguments bus_op : clear implicits.
Arguments link : clear implicits.

(** C5: bus registration refines an abstract list. Starting from a bus that
    holds the devices [l], any sequence of registrations and deregistrations
    that never registers a device already on the bus runs without fault, ends
    in a bus that holds exactly the abstract result [l'], leaves the range and
    callback of every device as it was, and a lookup then returns the most
    recently registered device whose range holds the address. *)
Theorem bus_ops_refine {P Ow Fn} `{Countable P} (h : gmap P (dev P Ow Fn)) b l ops l' :
  bus_repr h b l → Forall (λ op, is_Some (h !! op_ptr op)) ops →
  abs_ops l ops = Some l' →
  ∃ h' b', run_ops (h, b) ops = Ok (h', b') ∧ bus_repr h' b' l' ∧
    same_devs h h' ∧ ∀ addr, bus_find_dev h' b' addr = Ok (abs_find h l' addr).
Proof.
  intros Hr Hp Ha. destruct (run_ops_repr _ _ _ _ _ Hr Hp Ha) as (h'&b'&?&Hr'&Hs).
  eexists _, _. split_and!; [done..|]. intros addr.
  by rewrite (bus_find_dev_repr _ _ _ _ Hr'), (same_devs_find _ _ _ _ Hs).
Qed.

(** C14: what a device callback may rely on. When the ranges of the devices on
    the bus are below the top of the address space, [bus_handle_io] either
    leaves state and data alone or calls the callback of a device on the bus
    with an offset inside the device, and the whole access lies inside it. *)
Theorem bus_handle_io_contract {P Ow Fn St} `{Countable P}
    (h : gmap P (dev P Ow Fn)) b l call data w addr size (s : St) :
  bus_repr h b l → (∀ q d, q ∈ l → h !! q = Some d → dev_wf d) →
  0 ≤ addr < 2 ^ 64 → 1 ≤ size ≤ 255 →
  bus_handle_io call h b data w addr size s = Ok (s, data) ∨
  ∃ q d off, q ∈ l ∧ h !! q = Some d ∧ off = addr - base d ∧
    0 ≤ off ∧ off + size ≤ len d ∧
    bus_handle_io call h b data w addr size s =
      call (owner d) (do_io d) data w off size s.
Proof.
  intros Hr Hwf Ha Hs. unfold bus_handle_io.
  rewrite (bus_find_dev_repr _ _ _ _ Hr); cbn.
  destruct (abs_find h l addr) as [q|] eqn:E; [|by left].
  destruct (abs_find_Some _ _ _ _ E) as (Hin&d&Hd&Hhit).
  pose proof (Hwf _ _ Hin Hd) as (?&?&?).
  apply dev_hit_spec in Hhit; [|by eapply Hwf]. rewrite Hd; cbn.
  rewrite !(wrap_small 64) by lia.
  destruct (Z.leb_spec (addr + size - 1) (base d + len d - 1)); [|by left].
  right. exists q, d, (addr - base d). split_and!; auto; lia.
Qed.

(** C15: registering a device that is already on the bus closes the list into a
    loop. Every later lookup of an address that no device in the loop answers
    never returns, whatever the number of steps. *)
Theorem bus_register_twice_diverges {P Ow Fn} `{Countable P}
    (h : gmap P (dev P Ow Fn)) b l1 q l2 h' b' addr fuel :
  bus_repr h b (l1 ++ q :: l2) → bus_register_dev h b q = Ok (h', b') →
  Forall (λ p, hits h addr p = false) (l1 ++ [q]) →
  find_from fuel h' (head b') addr = Fault Diverges.
Proof.
  intros Hr Hreg Hmiss. unfold bus_register_dev in Hreg. simplify_res.
  destruct fuel as [|fuel]; [done|].
  cbn. rewrite lookup_insert_eq; cbn. apply Forall_app in Hmiss as Hm.
  destruct Hm as [_ [Hm _]%Forall_cons]. unfold hits in Hm.
  match goal with E : h !! q = Some ?d |- _ =>
    rewrite E in Hm; change (dev_hit (set_next (head b) d) addr) with (dev_hit d addr);
    rewrite Hm; eapply (find_from_loop h _ l1 q d l2 _ _ _ l1); try done
  end. by exists [].
Qed.

(** ** Witnesses on a bus with two port ranges *)

Definition demo_heap : gmap Z (dev Z unit unit) :=
  {[ 0 := mkDev 0x3f8 8 () () None; 1 := mkDev 0xcf8 4 () () None ]}.

Definition demo_call (_ _ : unit) (data : list Z) (_ : bool) (off size : Z)
    (s : list (Z * Z)) : res (list (Z * Z) * list Z) := Ok ((off, size) :: s, data).

Lemma bus_ops_refine_witness :
  ∃ h' b', run_ops (demo_heap, bus_init)
      [OpRegister 0; OpRegister 1; OpDeregister 0] = Ok (h', b') ∧
    bus_repr h' b' [1] ∧ same_devs demo_heap h' ∧
    ∀ addr, bus_find_dev h' b' addr = Ok (abs_find demo_heap [1] addr).
Proof.
  apply (bus_ops_refine demo_heap bus_init []).
  - reflexivity.
  - repeat constructor; eexists; vm_compute; reflexivity.
  - vm_compute. reflexivity.
Defined.

Lemma bus_handle_io_contract_witness :
  bus_handle_io demo_call demo_heap (mkBus 1 (Some 0)) [7] true 0x3f9 1 [] = Ok ([], [7]) ∨
  ∃ q d off, q ∈ [0] ∧ demo_heap !! q = Some d ∧ off = 0x3f9 - base d ∧
    0 ≤ off ∧ off + 1 ≤ len d ∧
    bus_handle_io demo_call demo_heap (mkBus 1 (Some 0)) [7] true 0x3f9 1 [] =
      demo_call (owner d) (do_io d) [7] true off 1 [].
Proof.
  apply (bus_handle_io_contract demo_heap (mkBus 1 (Some 0)) [0]).
  - split; [reflexivity|]. eexists; split; [vm_compute; reflexivity|reflexivity].
  - intros q d ->%list_elem_of_singleton Hd. vm_compute in Hd.
    injection Hd as <-. unfold dev_wf; cbn; lia.
  - lia.
  - lia.
Defined.

Lemma bus_register_twice_diverges_witness :
  ∃ h' b', bus_register_dev demo_heap (mkBus 1 (Some 0)) 0 = Ok (h', b') ∧
    find_from 1000 h' (head b') 0x60 = Fault Diverges.
Proof.
  eexists _, _. split; [vm_compute; reflexivity|].
  apply (bus_register_twice_diverges demo_heap (mkBus 1 (Some 0)) [] 0 []
    _ (mkBus 2 (Some 0)) 0x60 1000).
  - split; [reflexivity|]. eexists; split; [vm_compute; reflexivity|reflexivity].
  - vm_compute. reflexivity.
  - repeat constructor.
Defined.
