(* ===== verification/Fifo.v ===== *)
(** * The receive FIFO (src/utils.h)

    A ring of 64 bytes with free-running 32-bit indices: [head] and [tail] only
    grow, wrap at [2^32], and are masked when they index the ring. The model
    keeps the three fields; [fifo_contents] is the queue they stand for. *)

From stdpp Require Import base tactics numbers list list_numbers.
From S2P Require Import Prelude.
Open Scope Z_scope.

Definition FIFO_LEN : Z := 64.
Definition FIFO_MASK : Z := FIFO_LEN - 1.

Record fifo := mkFifo {
  fifo_data : list Z;
  fifo_head : Z;
  fifo_tail : Z;
}.

(** Static storage: all zero. *)
Definition fifo_zero : fifo := mkFifo (replicate (Z.to_nat FIFO_LEN) 0) 0 0.

Definition fifo_is_empty (f : fifo) : bool := fifo_head f =? fifo_tail f.
Definition fifo_capacity (f : fifo) : Z := u32 (fifo_tail f - fifo_head f).
Definition fifo_is_full (f : fifo) : bool := FIFO_MASK <? fifo_capacity f.

(** [fifo_put]: the returned flag is [__ret]; [data] is an array of [uint8_t], and an
    index outside it is a fault. *)
Definition fifo_put (f : fifo) (value : Z) : res (bool * fifo) :=
  let ret := negb (fifo_is_full f) in
  if ret then
    data ← array_set (fifo_data f) (Z.land (fifo_tail f) FIFO_MASK) (u8 value);
    Ok (ret, mkFifo data (fifo_head f) (u32 (fifo_tail f + 1)))
  else Ok (ret, f).

(** [fifo_get]: the value read when [__ret] is true. *)
Definition fifo_get (f : fifo) : res (option Z * fifo) :=
  let ret := negb (fifo_is_empty f) in
  if ret then
    v ← array_get (fifo_data f) (Z.land (fifo_head f) FIFO_MASK);
    Ok (Some v, mkFifo (fifo_data f) (u32 (fifo_head f + 1)) (fifo_tail f))
  else Ok (None, f).

(** ** Well-formedness and the queue represented *)

Record fifo_wf (f : fifo) : Prop := {
  fifo_wf_data : lenZ (fifo_data f) = FIFO_LEN;
  fifo_wf_bytes : Forall byte_ok (fifo_data f);
  fifo_wf_head : 0 ≤ fifo_head f < 2 ^ 32;
  fifo_wf_tail : 0 ≤ fifo_tail f < 2 ^ 32;
  fifo_wf_capacity : fifo_capacity f ≤ FIFO_LEN;
}.

Definition fifo_slot (f : fifo) (i : Z) : Z :=
  fifo_data f !!! Z.to_nat ((fifo_head f + i) `mod` FIFO_LEN).

Definition fifo_contents (f : fifo) : list Z :=
  fifo_slot f <$> seqZ 0 (fifo_capacity f).

Lemma land_mask x : Z.land x FIFO_MASK = x `mod` FIFO_LEN.
Proof. apply (Z.land_ones x 6). lia. Qed.

Lemma mod_u32 x : u32 x `mod` FIFO_LEN = x `mod` FIFO_LEN.
Proof.
  unfold wrap, FIFO_LEN. apply Z.mod_mod_divide. by exists (2 ^ 26).
Qed.

Lemma slot_index_range x : 0 ≤ x `mod` FIFO_LEN < FIFO_LEN.
Proof. apply Z.mod_pos_bound. unfold FIFO_LEN; lia. Qed.

Lemma capacity_range f : 0 ≤ fifo_capacity f < 2 ^ 32.
Proof. apply wrap_range. lia. Qed.

Lemma length_contents f : lenZ (fifo_contents f) = fifo_capacity f.
Proof.
  unfold lenZ, fifo_contents. rewrite length_fmap, length_seqZ.
  pose proof (capacity_range f). lia.
Qed.

Lemma fifo_zero_wf : fifo_wf fifo_zero.
Proof.
  split; cbn; try lia; [done|..].
  - repeat constructor; unfold byte_ok; lia.
  - vm_compute. done.
Qed.

Lemma fifo_zero_contents : fifo_contents fifo_zero = [].
Proof. vm_compute. done. Qed.

(** The 32-bit difference of the indices moves by one with each operation, also
    across the wrap. *)
Lemma capacity_tail_succ f :
  fifo_wf f → u32 (u32 (fifo_tail f + 1) - fifo_head f) = fifo_capacity f + 1.
Proof.
  intros []. rewrite wrap_sub_l. unfold fifo_capacity in *.
  replace (fifo_tail f + 1 - fifo_head f) with (fifo_tail f - fifo_head f + 1) by lia.
  rewrite <-wrap_add_l. apply wrap_small.
  pose proof (capacity_range f). unfold fifo_capacity, FIFO_LEN in *. lia.
Qed.

Lemma capacity_head_succ f :
  fifo_wf f → 0 < fifo_capacity f →
  u32 (fifo_tail f - u32 (fifo_head f + 1)) = fifo_capacity f - 1.
Proof.
  intros [] Hpos. rewrite wrap_sub_r. unfold fifo_capacity in *.
  replace (fifo_tail f - (fifo_head f + 1)) with (fifo_tail f - fifo_head f + -1) by lia.
  rewrite <-wrap_add_l. rewrite wrap_small; [lia|].
  pose proof (capacity_range f). unfold fifo_capacity in *. lia.
Qed.

Lemma is_empty_capacity f : fifo_wf f → fifo_is_empty f = (fifo_capacity f =? 0).
Proof.
  intros []. unfold fifo_is_empty, fifo_capacity. apply eq_bool_prop_intro.
  rewrite !Is_true_true, !Z.eqb_eq. split; [intros ->; by rewrite Z.sub_diag|].
  unfold wrap. intros E%Z.mod_divide; [|lia]. destruct E as [k E]. lia.
Qed.

Lemma contents_nil f : fifo_wf f → fifo_is_empty f = true ↔ fifo_contents f = [].
Proof.
  intros Hf. rewrite is_empty_capacity, Z.eqb_eq, <-length_contents by done.
  unfold lenZ. destruct (fifo_contents f); cbn; split; intros; done || lia.
Qed.

Lemma is_full_length f : fifo_is_full f = (FIFO_MASK <? lenZ (fifo_contents f)).
Proof. unfold fifo_is_full. by rewrite length_contents. Qed.

(** The slot the next byte goes to follows the last slot in use. *)
Lemma tail_slot f :
  fifo_tail f `mod` FIFO_LEN = (fifo_head f + fifo_capacity f) `mod` FIFO_LEN.
Proof.
  unfold fifo_capacity. rewrite <-Zplus_mod_idemp_r, mod_u32, Zplus_mod_idemp_r.
  f_equal. lia.
Qed.

Lemma slots_differ a b : 0 < b - a < FIFO_LEN → a `mod` FIFO_LEN ≠ b `mod` FIFO_LEN.
Proof. unfold FIFO_LEN. intros. Z.div_mod_to_equations. lia. Qed.

(** The results of the two operations on a well-formed FIFO, where no index is out
    of bounds. *)
Definition put_result (f : fifo) (value : Z) : bool * fifo :=
  if fifo_is_full f then (false, f)
  else (true, mkFifo (<[Z.to_nat (fifo_tail f `mod` FIFO_LEN) := u8 value]> (fifo_data f))
                (fifo_head f) (u32 (fifo_tail f + 1))).
Definition get_result (f : fifo) : option Z * fifo :=
  if fifo_is_empty f then (None, f)
  else (Some (fifo_slot f 0), mkFifo (fifo_data f) (u32 (fifo_head f + 1)) (fifo_tail f)).

Lemma fifo_put_ok f v : fifo_wf f → fifo_put f v = Ok (put_result f v).
Proof.
  intros Hf. unfold fifo_put, put_result. destruct (fifo_is_full f); cbn [negb]; [done|].
  rewrite land_mask, array_set_ok; [done|]. fold (lenZ (fifo_data f)). rewrite (fifo_wf_data f Hf). apply slot_index_range.
Qed.

Lemma fifo_get_ok f : fifo_wf f → fifo_get f = Ok (get_result f).
Proof.
  intros Hf. unfold fifo_get, get_result, fifo_slot. destruct (fifo_is_empty f); cbn [negb]; [done|].
  rewrite land_mask, array_get_ok; [by rewrite Z.add_0_r|].
  fold (lenZ (fifo_data f)). rewrite (fifo_wf_data f Hf).
  apply slot_index_range.
Qed.

Lemma contents_put f v :
  fifo_wf f → fifo_is_full f = false →
  fifo_contents (put_result f v).2 = fifo_contents f ++ [u8 v].
Proof.
  intros Hf Hroom. pose proof (capacity_tail_succ f Hf) as Hcap.
  pose proof (capacity_range f) as Hr. pose proof (slot_index_range (fifo_tail f)) as Hi.
  pose proof (fifo_wf_data f Hf).
  unfold put_result. rewrite Hroom; cbn. unfold fifo_is_full, FIFO_MASK in Hroom. zbool.
  unfold fifo_contents at 1. unfold fifo_capacity at 1; cbn. rewrite Hcap.
  rewrite seqZ_app, fmap_app by lia; cbn. f_equal.
  - apply list_fmap_ext. intros k x Hx. apply lookup_seqZ in Hx.
    unfold fifo_slot; cbn. apply list_lookup_total_insert_ne.
    rewrite tail_slot. intros E%Z2Nat.inj; [|apply slot_index_range..].
    symmetry in E. by apply slots_differ in E; [|lia].
  - rewrite seqZ_cons by lia. cbn. f_equal. unfold fifo_slot; cbn.
    change (0 + fifo_capacity f) with (fifo_capacity f). rewrite <-tail_slot.
    apply list_lookup_total_insert_eq. unfold lenZ in *. lia.
Qed.

Lemma contents_get f :
  fifo_wf f → fifo_is_empty f = false →
  ∃ v, (get_result f).1 = Some v ∧ fifo_contents f = v :: fifo_contents (get_result f).2.
Proof.
  intros Hf Hne. pose proof (capacity_range f) as Hr.
  rewrite is_empty_capacity in Hne by done. zbool.
  pose proof (capacity_head_succ f Hf) as Hcap.
  unfold get_result. rewrite is_empty_capacity by done.
  rewrite (proj2 (Z.eqb_neq _ _)) by done; cbn.
  eexists; split; [done|].
  unfold fifo_contents at 2. unfold fifo_capacity at 1; cbn.
  rewrite Hcap by lia. unfold fifo_contents. rewrite (seqZ_cons 0) by lia; cbn.
  f_equal.
  rewrite <-(fmap_add_seqZ 1 0), <-list_fmap_compose.
  replace (Z.pred (fifo_capacity f)) with (fifo_capacity f - 1) by lia.
  apply list_fmap_ext. intros k x _. unfold fifo_slot; cbn.
  rewrite <-(Zplus_mod_idemp_l (u32 _)), mod_u32, Zplus_mod_idemp_l.
  do 2 f_equal. f_equal. lia.
Qed.

Lemma put_result_wf f v : fifo_wf f → fifo_wf (put_result f v).2.
Proof.
  intros Hf. unfold put_result. destruct (fifo_is_full f) eqn:Hroom; cbn; [done|].
  pose proof (capacity_tail_succ f Hf) as Hcap. destruct Hf.
  unfold fifo_is_full, FIFO_MASK in Hroom. zbool. split; cbn.
  - unfold lenZ in *. by rewrite length_insert.
  - apply Forall_insert; [done|]. apply (wrap_range 8); lia.
  - done.
  - apply (wrap_range 32); lia.
  - unfold fifo_capacity at 1; cbn. lia.
Qed.

Lemma get_result_wf f : fifo_wf f → fifo_wf (get_result f).2.
Proof.
  intros Hf. unfold get_result. pose proof (capacity_head_succ f Hf) as Hcap.
  rewrite is_empty_capacity by done. pose proof (capacity_range f).
  destruct (Z.eqb_spec (fifo_capacity f) 0); cbn; [done|].
  destruct Hf. split; cbn; try done.
  - apply (wrap_range 32); lia.
  - unfold fifo_capacity at 1; cbn. lia.
Qed.

Lemma contents_bytes f : fifo_wf f → Forall byte_ok (fifo_contents f).
Proof.
  intros []. unfold fifo_contents. apply Forall_fmap, Forall_forall. intros i _. cbn.
  unfold fifo_slot. pose proof (slot_index_range (fifo_head f + i)).
  apply (Forall_lookup_total_1 byte_ok _ _ fifo_wf_bytes0). unfold lenZ in *. lia.
Qed.

#[export] Hint Resolve put_result_wf get_result_wf fifo_zero_wf : kvm.

(** ** The FIFO is a bounded queue *)

Inductive fifo_op := Put (v : Z) | Get.

(** What one operation returns: the flag of a put, the byte of a get. *)
Inductive fifo_out := PutRet (ok : bool) | GetRet (v : option Z).

Definition fifo_step (f : fifo) (op : fifo_op) : res (fifo_out * fifo) :=
  match op with
  | Put v => '(b, f) ← fifo_put f v; Ok (PutRet b, f)
  | Get => '(v, f) ← fifo_get f; Ok (GetRet v, f)
  end.

Definition queue_step (q : list Z) (op : fifo_op) : fifo_out * list Z :=
  match op with
  | Put v => if lenZ q <? FIFO_LEN then (PutRet true, q ++ [u8 v]) else (PutRet false, q)
  | Get => match q with [] => (GetRet None, []) | v :: q => (GetRet (Some v), q) end
  end.

Fixpoint run_fifo (f : fifo) (ops : list fifo_op) : res (list fifo_out * fifo) :=
  match ops with
  | [] => Ok ([], f)
  | op :: ops =>
    '(o, f) ← fifo_step f op;
    '(os, f) ← run_fifo f ops; Ok (o :: os, f)
  end.

Fixpoint run_queue (q : list Z) (ops : list fifo_op) : list fifo_out * list Z :=
  match ops with
  | [] => ([], q)
  | op :: ops =>
    let '(o, q) := queue_step q op in
    let '(os, q) := run_queue q ops in (o :: os, q)
  end.

Lemma fifo_step_queue f op :
  fifo_wf f →
  ∃ o f', fifo_step f op = Ok (o, f') ∧ fifo_wf f' ∧
    queue_step (fifo_contents f) op = (o, fifo_contents f').
Proof.
  intros Hf. destruct op as [v|]; cbn [fifo_step queue_step].
  - rewrite fifo_put_ok, bind_Ok by done. pose proof (put_result_wf f v Hf) as Hwf.
    pose proof (contents_put f v Hf) as Hc. rewrite is_full_length in Hc.
    unfold put_result in *. rewrite is_full_length in *. unfold FIFO_MASK in *.
    destruct (Z.ltb_spec (FIFO_LEN - 1) (lenZ (fifo_contents f))); cbn in *;
      eexists _, _; (split; [done|]); (split; [done|]).
    + by rewrite (proj2 (Z.ltb_ge _ _)) by lia.
    + rewrite (proj2 (Z.ltb_lt _ _)) by lia. by rewrite Hc.
  - rewrite fifo_get_ok, bind_Ok by done. pose proof (get_result_wf f Hf) as Hwf.
    pose proof (contents_get f Hf) as Hg. pose proof (contents_nil f Hf) as Hn.
    destruct (get_result f) as [v f'] eqn:E; cbn in *. eexists _, _. split; [done|].
    split; [done|]. destruct (fifo_is_empty f) eqn:Ee.
    + unfold get_result in E. rewrite Ee in E; cbn in E. simplify_eq. by rewrite (proj1 Hn).
    + destruct Hg as (v'&->&->); done.
Qed.

(** C16: whatever the positions of the free-running indices, the FIFO behaves as
    a queue of at most 64 bytes under every sequence of puts and gets: no access to
    the array is out of bounds, the results are the same, in the same order, and
    the queue it holds at the end is the one the specification holds. *)
Theorem fifo_refines_queue f ops :
  fifo_wf f →
  ∃ os f', run_fifo f ops = Ok (os, f') ∧ fifo_wf f' ∧
    run_queue (fifo_contents f) ops = (os, fifo_contents f').
Proof.
  revert f. induction ops as [|op ops IH]; intros f Hf; cbn [run_fifo run_queue]; [by eexists _, _|].
  destruct (fifo_step_queue f op Hf) as (o&f1&E&Hf1&->). rewrite E, bind_Ok.
  destruct (IH f1 Hf1) as (os&f2&E2&Hf2&->). rewrite E2. by eexists _, _.
Qed.

(** Indices one put away from the 32-bit wrap, three bytes queued. *)
Definition fifo_near_wrap : fifo :=
  mkFifo (replicate 64 7) (2 ^ 32 - 4) (2 ^ 32 - 1).

Lemma fifo_refines_queue_witness :
  fifo_wf fifo_near_wrap ∧
  ∃ os f', run_fifo fifo_near_wrap [Put 1; Put 2; Get; Get; Get; Get; Get; Get] = Ok (os, f') ∧
    fifo_wf f' ∧
    run_queue (fifo_contents fifo_near_wrap)
      [Put 1; Put 2; Get; Get; Get; Get; Get; Get] = (os, fifo_contents f').
Proof.
  assert (fifo_wf fifo_near_wrap) as Hwf.
  { split; [reflexivity|apply Forall_replicate; unfold byte_ok; lia|
      cbn; lia|cbn; lia|vm_compute; intros E; discriminate E]. }
  split; [exact Hwf|].
  exact (fifo_refines_queue fifo_near_wrap
    [Put 1; Put 2; Get; Get; Get; Get; Get; Get] Hwf).
Defined.
