(* ===== verification/Host.v ===== *)
(** * The host: what the program asks of the kernel and the C library

    System calls and library calls that have an effect outside the program's
    own memory are recorded, in order, as events. Input comes from scripts: one
    entry per [read], so that a poll reports "readable" while entries are left. *)

From stdpp Require Import base tactics numbers list.
From S2P Require Import Prelude.
Open Scope Z_scope.

(** The functions the program hands to [pthread_create]. *)
Inductive thread_fn :=
  | serial_thread
  | virtio_blk_thread
  | virtio_blk_vq_avail_handler
  | virtio_net_vq_avail_handler_rx
  | virtio_net_vq_avail_handler_tx.

Inductive event :=
  | EvIrqLine (irq level : Z)               (* vm_irq_line *)
  | EvPutchar (c : Z)                       (* putchar; fflush *)
  | EvCondSignal                            (* pthread_cond_signal *)
  | EvEventfdWrite (fd n : Z)               (* write of an 8-byte counter *)
  | EvIrqfd (fd gsi flags : Z)              (* KVM_IRQFD *)
  | EvIoeventfd (fd addr len flags : Z)     (* KVM_IOEVENTFD *)
  | EvThread (f : thread_fn)                (* pthread_create *)
  | EvSignal (f : thread_fn)                (* pthread_kill of that thread, SIGUSR1 *)
  | EvStop (f : thread_fn)                  (* the flag thread_stop of its file is set *)
  | EvJoin (f : thread_fn)                  (* pthread_join *)
  | EvTapWrite (bs : list Z)                (* a frame given to the TAP device *)
  | EvClose (fd : Z)
  | EvCloseTap                              (* close of the TAP device *)
  | EvMunmap (len : Z).                     (* munmap of a mapping of that length *)

#[global] Instance thread_fn_eq_dec : EqDecision thread_fn.
Proof. solve_decision. Defined.
#[global] Instance event_eq_dec : EqDecision event.
Proof. solve_decision. Defined.

(** The outcome of one [read(infd, &c, 1)] on the standard input. *)
Inductive stdin_item :=
  | InByte (c : Z)
  | InError
  | InEof.

(** The bytes of a script that holds nothing else. *)
Definition in_bytes (bs : list Z) : list stdin_item := InByte <$> bs.

#[global] Instance in_bytes_inj : Inj (=) (=) in_bytes.
Proof. apply list_fmap_eq_inj. by intros ?? [= ->]. Qed.
