(* ===== verification/Serial.v ===== *)
(** * The serial port (src/serial.c, src/serial.h)

    A 16550-style UART: ten byte registers, the receive FIFO and the state of
    the escape sequence. [irq_line] is the level last given to [vm_irq_line],
    which is the state of the interrupt line on the KVM side; [out] is the
    record of the calls with an outside effect. The mutex and the condition
    variable are the subject of SerialThread.v: here each handler is the
    sequence of its state changes. *)

From stdpp Require Import base tactics numbers list.
From S2P Require Import Prelude.
From S2P Require Import Uapi.
From S2P Require Import Host.
From S2P Require Import Fifo.
Open Scope Z_scope.

(** [struct serial_dev_priv], with the [escaped] flag of [serial_console]. *)
Record serial_dev := mkSerial {
  dll : Z;
  dlm : Z;
  iir : Z;
  ier : Z;
  fcr : Z;
  lcr : Z;
  mcr : Z;
  lsr : Z;
  msr : Z;
  scr : Z;
  rx_buf : fifo;
  escaped : bool;
  irq_line : Z;
  out : list event;
}.

Definition set_dll (v : Z) (s : serial_dev) : serial_dev :=
  mkSerial v (dlm s) (iir s) (ier s) (fcr s) (lcr s) (mcr s) (lsr s) (msr s) (scr s)
    (rx_buf s) (escaped s) (irq_line s) (out s).
Definition set_dlm (v : Z) (s : serial_dev) : serial_dev :=
  mkSerial (dll s) v (iir s) (ier s) (fcr s) (lcr s) (mcr s) (lsr s) (msr s) (scr s)
    (rx_buf s) (escaped s) (irq_line s) (out s).
Definition set_iir (v : Z) (s : serial_dev) : serial_dev :=
  mkSerial (dll s) (dlm s) v (ier s) (fcr s) (lcr s) (mcr s) (lsr s) (msr s) (scr s)
    (rx_buf s) (escaped s) (irq_line s) (out s).
Definition set_ier (v : Z) (s : serial_dev) : serial_dev :=
  mkSerial (dll s) (dlm s) (iir s) v (fcr s) (lcr s) (mcr s) (lsr s) (msr s) (scr s)
    (rx_buf s) (escaped s) (irq_line s) (out s).
Definition set_fcr (v : Z) (s : serial_dev) : serial_dev :=
  mkSerial (dll s) (dlm s) (iir s) (ier s) v (lcr s) (mcr s) (lsr s) (msr s) (scr s)
    (rx_buf s) (escaped s) (irq_line s) (out s).
Definition set_lcr (v : Z) (s : serial_dev) : serial_dev :=
  mkSerial (dll s) (dlm s) (iir s) (ier s) (fcr s) v (mcr s) (lsr s) (msr s) (scr s)
    (rx_buf s) (escaped s) (irq_line s) (out s).
Definition set_mcr (v : Z) (s : serial_dev) : serial_dev :=
  mkSerial (dll s) (dlm s) (iir s) (ier s) (fcr s) (lcr s) v (lsr s) (msr s) (scr s)
    (rx_buf s) (escaped s) (irq_line s) (out s).
Definition set_lsr (v : Z) (s : serial_dev) : serial_dev :=
  mkSerial (dll s) (dlm s) (iir s) (ier s) (fcr s) (lcr s) (mcr s) v (msr s) (scr s)
    (rx_buf s) (escaped s) (irq_line s) (out s).
Definition set_msr (v : Z) (s : serial_dev) : serial_dev :=
  mkSerial (dll s) (dlm s) (iir s) (ier s) (fcr s) (lcr s) (mcr s) (lsr s) v (scr s)
    (rx_buf s) (escaped s) (irq_line s) (out s).
Definition set_scr (v : Z) (s : serial_dev) : serial_dev :=
  mkSerial (dll s) (dlm s) (iir s) (ier s) (fcr s) (lcr s) (mcr s) (lsr s) (msr s) v
    (rx_buf s) (escaped s) (irq_line s) (out s).
Definition set_rx_buf (v : fifo) (s : serial_dev) : serial_dev :=
  mkSerial (dll s) (dlm s) (iir s) (ier s) (fcr s) (lcr s) (mcr s) (lsr s) (msr s) (scr
    s) v (escaped s) (irq_line s) (out s).
Definition set_escaped (v : bool) (s : serial_dev) : serial_dev :=
  mkSerial (dll s) (dlm s) (iir s) (ier s) (fcr s) (lcr s) (mcr s) (lsr s) (msr s) (scr
    s) (rx_buf s) v (irq_line s) (out s).
Definition set_irq_line (v : Z) (s : serial_dev) : serial_dev :=
  mkSerial (dll s) (dlm s) (iir s) (ier s) (fcr s) (lcr s) (mcr s) (lsr s) (msr s) (scr
    s) (rx_buf s) (escaped s) v (out s).
Definition set_out (v : list event) (s : serial_dev) : serial_dev :=
  mkSerial (dll s) (dlm s) (iir s) (ier s) (fcr s) (lcr s) (mcr s) (lsr s) (msr s) (scr
    s) (rx_buf s) (escaped s) (irq_line s) v.

Section serial.
(** [SERIAL_IRQ] of the architecture's desc.h. *)
Context (SERIAL_IRQ : Z).

(** The static initialiser of [serial_dev_priv]. *)
Definition serial_dev_priv : serial_dev :=
  mkSerial 0 0 UART_IIR_NO_INT 0 0 0 UART_MCR_OUT2
    (Z.lor UART_LSR_TEMT UART_LSR_THRE) (Z.lor (Z.lor UART_MSR_DCD UART_MSR_DSR) UART_MSR_CTS)
    0 fifo_zero false 0 [].

Definition emit (e : event) (s : serial_dev) : serial_dev := set_out (out s ++ [e]) s.

(** The interrupt [serial_update_irq] selects. *)
Definition pending_iir (ier_ lsr_ : Z) : Z :=
  if nonzero (Z.land ier_ UART_IER_RDI) && nonzero (Z.land lsr_ UART_LSR_DR) then UART_IIR_RDI
  else if nonzero (Z.land ier_ UART_IER_THRI) && nonzero (Z.land lsr_ UART_LSR_TEMT)
  then UART_IIR_THRI
  else UART_IIR_NO_INT.

Definition serial_update_irq (s : serial_dev) : serial_dev :=
  let iir_ := pending_iir (ier s) (lsr s) in
  let s := set_iir (Z.lor iir_ 0xc0) s in
  let level := if iir_ =? UART_IIR_NO_INT then 0 else 1 in
  set_irq_line level (emit (EvIrqLine SERIAL_IRQ level) s).

Definition TERMINAL_ESCAPE_CHAR : Z := 0x01.
Definition TERMINAL_EXIT_CHAR : Z := 0x78. (* 'x' *)

(** The loop of [serial_console], one input item per iteration; the flag is
    true when the program exits. *)
Fixpoint console_loop (input : list stdin_item) (s : serial_dev)
    : res (serial_dev * list stdin_item * bool) :=
  match input with
  | [] => Ok (s, [], false)
  | it :: rest =>
    if fifo_is_full (rx_buf s) then Ok (s, input, false) else
    match it with
    | InError => Ok (s, rest, false)
    | InEof => Fault Uninitialised
    | InByte c =>
      if escaped s && (c =? TERMINAL_EXIT_CHAR) then Ok (s, rest, true)
      else if negb (escaped s) && (c =? TERMINAL_ESCAPE_CHAR) then
        console_loop rest (set_escaped true s)
      else
        let s := set_escaped false s in
        '(ok, f) ← fifo_put (rx_buf s) c;
        if ok : bool then
          let s := set_rx_buf f s in
          console_loop rest (set_lsr (Z.lor (lsr s) UART_LSR_DR) s)
        else Ok (s, rest, false)
    end
  end.

Definition serial_console (input : list stdin_item) (s : serial_dev)
    : res (serial_dev * list stdin_item * bool) :=
  '(s, input, exited) ← console_loop input s;
  if exited : bool then Ok (s, input, true) else Ok (serial_update_irq s, input, false).

Definition dlab (s : serial_dev) : bool := nonzero (Z.land (lcr s) UART_LCR_DLAB).

(** [IO_WRITE8] and [IO_READ8] on the data buffer. *)
Definition io_write8 (data : list Z) (v : Z) : res (list Z) := mwrite data 0 [u8 v].
Definition io_read8 (data : list Z) : res Z := load 1 data 0.

(** The critical section of the [UART_RX] case. *)
Definition serial_rx (s : serial_dev) (data : list Z) : res (serial_dev * list Z) :=
  '(value, f) ← fifo_get (rx_buf s);
  data ← (match value with Some v => io_write8 data v | None => Ok data end);
  let s := set_rx_buf f s in
  let s := if fifo_is_empty (rx_buf s) then
      serial_update_irq (set_lsr (Z.land (lsr s) (unot 8 UART_LSR_DR)) s)
    else s in
  let s := if fifo_capacity (rx_buf s) =? FIFO_LEN / 2 then emit EvCondSignal s else s in
  Ok (s, data).

Definition serial_in (s : serial_dev) (offset : Z) (data : list Z)
    : res (serial_dev * list Z) :=
  let reply v := d ← io_write8 data v; Ok (s, d) in
  if offset =? UART_RX then
    if dlab s then reply (dll s) else serial_rx s data
  else if offset =? UART_IER then
    if dlab s then reply (dlm s) else reply (ier s)
  else if offset =? UART_IIR then reply (Z.lor (iir s) 0xc0)
  else if offset =? UART_LCR then reply (lcr s)
  else if offset =? UART_MCR then reply (mcr s)
  else if offset =? UART_LSR then reply (lsr s)
  else if offset =? UART_MSR then reply (msr s)
  else if offset =? UART_SCR then reply (scr s)
  else Ok (s, data).

Definition serial_out (s : serial_dev) (offset : Z) (data : list Z) : res serial_dev :=
  if offset =? UART_TX then
    v ← io_read8 data;
    if dlab s then Ok (set_dll v s)
    else
      let s := emit (EvPutchar v) s in
      let s := set_lsr (Z.lor (lsr s) (Z.lor UART_LSR_TEMT UART_LSR_THRE)) s in
      Ok (serial_update_irq s)
  else if offset =? UART_IER then
    v ← io_read8 data;
    if negb (dlab s) then Ok (serial_update_irq (set_ier v s)) else Ok (set_dlm v s)
  else if offset =? UART_FCR then v ← io_read8 data; Ok (set_fcr v s)
  else if offset =? UART_LCR then v ← io_read8 data; Ok (set_lcr v s)
  else if offset =? UART_MCR then v ← io_read8 data; Ok (set_mcr v s)
  else if (offset =? UART_LSR) || (offset =? UART_MSR) then Ok s
  else if offset =? UART_SCR then v ← io_read8 data; Ok (set_scr v s)
  else Ok s.

(** The bus callback; the offset is narrowed to [uint16_t]. *)
Definition serial_handle_io (data : list Z) (is_write : bool) (offset size : Z)
    (s : serial_dev) : res (serial_dev * list Z) :=
  if is_write then s ← serial_out s (u16 offset) data; Ok (s, data)
  else serial_in s (u16 offset) data.
End serial.

Definition COM1_PORT_BASE : Z := 0x03f8.
Definition COM1_PORT_SIZE : Z := 8.

(** * Invariant *)

(** Line status: the transmitter is always empty, and data is ready exactly
    while the FIFO holds a byte. *)
Definition lsr_of (f : fifo) : Z := if fifo_is_empty f then 0x60 else 0x61.

(** The interrupt line as the 16550 defines it for the two sources the code
    handles. *)
Definition irq_wanted (s : serial_dev) : bool :=
  (Z.testbit (ier s) 0 && Z.testbit (lsr s) 0) ||
  (Z.testbit (ier s) 1 && Z.testbit (lsr s) 6).

Record serial_inv (s : serial_dev) : Prop := {
  inv_fifo : fifo_wf (rx_buf s);
  inv_lsr : lsr s = lsr_of (rx_buf s);
  inv_iir : Z.lor (iir s) 0xc0 = Z.lor (pending_iir (ier s) (lsr s)) 0xc0;
  inv_line : irq_line s = if irq_wanted s then 1 else 0;
  inv_regs : Forall byte_ok [dll s; dlm s; iir s; ier s; fcr s; lcr s; mcr s; msr s; scr s];
}.

Lemma pending_iir_cases i l :
  pending_iir i l =
    if Z.testbit i 0 && Z.testbit l 0 then UART_IIR_RDI
    else if Z.testbit i 1 && Z.testbit l 6 then UART_IIR_THRI else UART_IIR_NO_INT.
Proof.
  unfold pending_iir, UART_IER_RDI, UART_LSR_DR, UART_IER_THRI, UART_LSR_TEMT.
  change 0x1 with (2 ^ 0). change 0x2 with (2 ^ 1). change 0x40 with (2 ^ 6).
  by rewrite !nonzero_land_pow2 by lia.
Qed.

Lemma lsr_of_bits f :
  Z.testbit (lsr_of f) 0 = negb (fifo_is_empty f) ∧ Z.testbit (lsr_of f) 6 = true.
Proof. unfold lsr_of. by destruct (fifo_is_empty f). Qed.

Lemma pending_byte i l : byte_ok (Z.lor (pending_iir i l) 0xc0).
Proof.
  rewrite pending_iir_cases. unfold byte_ok.
  repeat case_match; vm_compute; split; congruence.
Qed.

Section serial_proofs.
Context (SERIAL_IRQ : Z).
Abbreviation serial_update_irq := (serial_update_irq SERIAL_IRQ).
Abbreviation serial_rx := (serial_rx SERIAL_IRQ).

(** Whatever the interrupt state was, [serial_update_irq] re-establishes it. *)
Lemma update_irq_inv s :
  fifo_wf (rx_buf s) → lsr s = lsr_of (rx_buf s) →
  Forall byte_ok [dll s; dlm s; ier s; fcr s; lcr s; mcr s; msr s; scr s] →
  serial_inv (serial_update_irq s).
Proof.
  intros Hf Hl Hr. split; cbn; try done.
  - by rewrite <-Z.lor_assoc.
  - change (irq_wanted (serial_update_irq s)) with (irq_wanted s).
    rewrite pending_iir_cases. unfold irq_wanted.
    destruct (Z.testbit (ier s) 0 && Z.testbit (lsr s) 0); [reflexivity|].
    by destruct (Z.testbit (ier s) 1 && Z.testbit (lsr s) 6).
  - pose proof (pending_byte (ier s) (lsr s)).
    rewrite !Forall_cons in *. naive_solver.
Qed.

Lemma update_irq_rx s : rx_buf (serial_update_irq s) = rx_buf s.
Proof. done. Qed.

Lemma emit_inv e s : serial_inv s → serial_inv (emit e s).
Proof. by intros []; split. Qed.

Lemma io_write8_ok data v :
  data ≠ [] → io_write8 data v = Ok (u8 v :: drop 1 data).
Proof.
  destruct data as [|b data]; [done|]. intros _. unfold io_write8.
  rewrite mwrite_ok; [|lia|cbn; unfold lenZ; cbn; lia]. cbn. by rewrite drop_0.
Qed.

Lemma io_read8_cons b data : byte_ok b → io_read8 (b :: data) = Ok b.
Proof.
  intros Hb. unfold io_read8, load. rewrite mread_ok by (cbn; unfold lenZ; cbn; lia).
  change (Ok (le_val [b]) = Ok b). by rewrite le_val_1.
Qed.

Lemma io_read8_ok data : data ≠ [] → Forall byte_ok data → ∃ v, io_read8 data = Ok v ∧ byte_ok v.
Proof.
  destruct data as [|b data]; [done|]. intros _ [Hb _]%Forall_cons.
  exists b. split; [by apply io_read8_cons|done].
Qed.

Lemma lsr_clear_dr f : Z.land (lsr_of f) (unot 8 UART_LSR_DR) = 0x60.
Proof. unfold lsr_of. by destruct (fifo_is_empty f). Qed.

Lemma lsr_set_dr f : Z.lor (lsr_of f) UART_LSR_DR = 0x61.
Proof. unfold lsr_of. by destruct (fifo_is_empty f). Qed.

Lemma lsr_set_temt f : Z.lor (lsr_of f) (Z.lor UART_LSR_TEMT UART_LSR_THRE) = lsr_of f.
Proof. unfold lsr_of. by destruct (fifo_is_empty f). Qed.

Lemma lsr_empty f : fifo_is_empty f = true → lsr_of f = 0x60.
Proof. unfold lsr_of. by intros ->. Qed.

Lemma lsr_nonempty f : fifo_is_empty f = false → lsr_of f = 0x61.
Proof. unfold lsr_of. by intros ->. Qed.

(** Replacing the FIFO by another that is (non-)empty alike keeps the invariant. *)
Lemma set_rx_inv f s :
  serial_inv s → fifo_wf f → fifo_is_empty f = fifo_is_empty (rx_buf s) →
  serial_inv (set_rx_buf f s).
Proof. intros [] Hf He. split; cbn; auto. unfold lsr_of in *. by rewrite He. Qed.

(** The tail of [serial_rx]: the worker is signalled at half capacity. *)
Definition signal_half (s : serial_dev) : serial_dev :=
  if fifo_capacity (rx_buf s) =? FIFO_LEN / 2 then emit EvCondSignal s else s.

Lemma signal_half_frame s :
  rx_buf (signal_half s) = rx_buf s ∧ lcr (signal_half s) = lcr s ∧
  ier (signal_half s) = ier s ∧ escaped (signal_half s) = escaped s.
Proof. unfold signal_half. by destruct (_ =? _). Qed.

Lemma signal_half_inv s : serial_inv s → serial_inv (signal_half s).
Proof. unfold signal_half. destruct (_ =? _); auto using emit_inv. Qed.

(** The FIFO has run empty: data ready is cleared and the line recomputed. *)
Definition rx_emptied (f : fifo) (s : serial_dev) : serial_dev :=
  serial_update_irq (set_lsr (Z.land (lsr s) (unot 8 UART_LSR_DR)) (set_rx_buf f s)).

Lemma rx_emptied_inv f s :
  serial_inv s → fifo_wf f → fifo_is_empty f = true → serial_inv (rx_emptied f s).
Proof.
  intros Hi Hf He. apply update_irq_inv; cbn; [done|..].
  - by rewrite (inv_lsr s Hi), lsr_clear_dr, lsr_empty.
  - pose proof (inv_regs s Hi) as Hr. rewrite !Forall_cons in *. naive_solver.
Qed.

(** Reading the receive buffer: the oldest byte, or nothing. *)
Lemma serial_rx_cases s data :
  serial_inv s → data ≠ [] →
  serial_rx s data = match fifo_contents (rx_buf s) with
    | [] => Ok (signal_half (rx_emptied (rx_buf s) s), data)
    | v :: q =>
      let f := (get_result (rx_buf s)).2 in
      let s := if fifo_is_empty f then rx_emptied f s else set_rx_buf f s in
      Ok (signal_half s, u8 v :: drop 1 data)
    end.
Proof.
  intros Hi Hd. pose proof (inv_fifo s Hi) as Hf. unfold serial_rx, Serial.serial_rx.
  rewrite fifo_get_ok, bind_Ok by done. pose proof (contents_get _ Hf) as Hg. pose proof (contents_nil _ Hf) as Hn.
  destruct (fifo_is_empty (rx_buf s)) eqn:He.
  - rewrite (proj1 Hn) by done. unfold get_result. rewrite He; cbn. by rewrite He.
  - destruct Hg as (v&Hv&Hc); [done|]. rewrite Hc.
    destruct (get_result (rx_buf s)) as [o f]; cbn in *; subst o.
    by rewrite io_write8_ok by done.
Qed.

Lemma serial_rx_spec s data :
  serial_inv s → data ≠ [] →
  ∃ s' data', serial_rx s data = Ok (s', data') ∧ serial_inv s' ∧
    lcr s' = lcr s ∧ ier s' = ier s ∧ escaped s' = escaped s ∧
    match fifo_contents (rx_buf s) with
    | [] => data' = data ∧ fifo_contents (rx_buf s') = []
    | v :: q => data' = u8 v :: drop 1 data ∧ fifo_contents (rx_buf s') = q
    end.
Proof.
  intros Hi Hd. pose proof (inv_fifo s Hi) as Hf. rewrite serial_rx_cases by done.
  pose proof (contents_nil _ Hf) as Hn. pose proof (contents_get _ Hf) as Hg.
  destruct (fifo_contents (rx_buf s)) as [|v q] eqn:Ec; cbv zeta.
  - eexists _, _; split; [done|].
    destruct (signal_half_frame (rx_emptied (rx_buf s) s)) as (->&->&->&->).
    split_and!; try done. apply signal_half_inv, rx_emptied_inv; naive_solver.
  - destruct (fifo_is_empty (rx_buf s)) eqn:He; [naive_solver|].
    destruct Hg as (v'&_&[= <- Hq]); [done|].
    pose proof (get_result_wf _ Hf) as Hf'.
    remember (get_result (rx_buf s)).2 as f eqn:Ef. clear Ef.
    set (s1 := if fifo_is_empty f then _ else _).
    assert (serial_inv s1 ∧ rx_buf s1 = f ∧ lcr s1 = lcr s ∧ ier s1 = ier s ∧
      escaped s1 = escaped s) as (Hi1&Hr1&?&?&?).
    { subst s1. destruct (fifo_is_empty f) eqn:Hef; split_and!; try done.
      - by apply rx_emptied_inv.
      - apply set_rx_inv; congruence. }
    destruct (signal_half_frame s1) as (Hr&?&?&?).
    eexists _, _; split; [done|]. split_and!; try congruence.
    by apply signal_half_inv.
Qed.

(** ** Register accesses *)

Lemma set_reg_inv s s' :
  serial_inv s → rx_buf s' = rx_buf s → lsr s' = lsr s → ier s' = ier s →
  iir s' = iir s → irq_line s' = irq_line s →
  Forall byte_ok [dll s'; dlm s'; fcr s'; lcr s'; mcr s'; msr s'; scr s'] →
  serial_inv s'.
Proof.
  intros [] Hf Hl He Hi Hq Hr. split.
  - by rewrite Hf.
  - by rewrite Hl, Hf.
  - by rewrite Hi, He, Hl.
  - rewrite Hq. unfold irq_wanted in *. by rewrite He, Hl.
  - rewrite Hi, He. rewrite !Forall_cons in *. naive_solver.
Qed.

Lemma serial_in_total s offset data :
  serial_inv s → data ≠ [] →
  ∃ s' data', serial_in SERIAL_IRQ s offset data = Ok (s', data') ∧ serial_inv s' ∧
    lenZ data' = lenZ data.
Proof.
  intros Hi Hd.
  assert (∀ v, ∃ s' data', (d ← io_write8 data v; Ok (s, d)) = Ok (s', data') ∧
    serial_inv s' ∧ lenZ data' = lenZ data) as Hreply.
  { intros v. rewrite io_write8_ok by done. eexists _, _; split; [done|].
    split; [done|]. destruct data; [done|]. unfold lenZ; cbn. by rewrite drop_0. }
  unfold serial_in. repeat case_match; eauto.
  destruct (serial_rx_spec s data Hi Hd) as (s'&data'&->&Hi'&_&_&_&Hc).
  eexists _, _; split; [done|]. split; [done|].
  case_match; destruct Hc as [-> _]; [done|].
  destruct data; [done|]. unfold lenZ; cbn. by rewrite drop_0.
Qed.

Lemma serial_out_total s offset data :
  serial_inv s → data ≠ [] → Forall byte_ok data →
  ∃ s', serial_out SERIAL_IRQ s offset data = Ok s' ∧ serial_inv s'.
Proof.
  intros Hi Hd Hb. destruct (io_read8_ok data Hd Hb) as (v&Hv&Hbv).
  pose proof (inv_regs s Hi) as Hr. pose proof (inv_fifo s Hi).
  unfold serial_out. rewrite Hv. cbn [mbind res_bind].
  repeat case_match; eexists; (split; [reflexivity|]); try done;
    try (apply (set_reg_inv s); [done..|]; rewrite !Forall_cons in *; cbn; naive_solver).
  - apply update_irq_inv; cbn; [done|by rewrite (inv_lsr s Hi), lsr_set_temt|].
    rewrite !Forall_cons in *; naive_solver.
  - apply update_irq_inv; cbn; [done|by apply inv_lsr|].
    rewrite !Forall_cons in *; naive_solver.
Qed.

Lemma serial_handle_io_total s data w offset size :
  serial_inv s → data ≠ [] → Forall byte_ok data →
  ∃ s' data', serial_handle_io SERIAL_IRQ data w offset size s = Ok (s', data') ∧
    serial_inv s' ∧ lenZ data' = lenZ data.
Proof.
  intros. unfold serial_handle_io. destruct w; [|by apply serial_in_total].
  destruct (serial_out_total s (u16 offset) data) as (s'&->&?); eauto.
Qed.

(** ** The console *)

(** The bytes a stream of keystrokes delivers, and whether an escape is pending
    at its end: the escape character is dropped once, and the character after
    it is delivered as it is. *)
Fixpoint decode (esc : bool) (bs : list Z) : list Z * bool :=
  match bs with
  | [] => ([], esc)
  | c :: bs =>
    if negb esc && (c =? TERMINAL_ESCAPE_CHAR) then decode true bs
    else let '(o, e) := decode false bs in (u8 c :: o, e)
  end.

(** Does the stream hold the exit sequence? *)
Fixpoint exits (esc : bool) (bs : list Z) : bool :=
  match bs with
  | [] => false
  | c :: bs =>
    if esc && (c =? TERMINAL_EXIT_CHAR) then true
    else exits (negb esc && (c =? TERMINAL_ESCAPE_CHAR)) bs
  end.

Lemma decode_app esc a b :
  decode esc (a ++ b) =
    let '(o1, e1) := decode esc a in
    let '(o2, e2) := decode e1 b in (o1 ++ o2, e2).
Proof.
  revert esc. induction a as [|c a IH]; intros esc; cbn; [by destruct (decode esc b)|].
  destruct (negb esc && _); [apply IH|]. rewrite IH.
  destruct (decode false a) as [o1 e1]. by destruct (decode e1 b).
Qed.

(** What holds between two iterations of the loop; the interrupt is only
    recomputed at its end. *)
Definition loop_inv (s : serial_dev) : Prop :=
  fifo_wf (rx_buf s) ∧ lsr s = lsr_of (rx_buf s) ∧
  Forall byte_ok [dll s; dlm s; ier s; fcr s; lcr s; mcr s; msr s; scr s].

Lemma inv_loop_inv s : serial_inv s → loop_inv s.
Proof. intros []. split_and!; auto. rewrite !Forall_cons in *. naive_solver. Qed.

Lemma put_loop_inv s f c :
  loop_inv s → put_result (rx_buf s) c = (true, f) →
  loop_inv (set_lsr (Z.lor (lsr s) UART_LSR_DR) (set_rx_buf f s)) ∧
  fifo_contents f = fifo_contents (rx_buf s) ++ [u8 c].
Proof.
  intros (Hf&Hl&Hr) Hp.
  assert (fifo_is_full (rx_buf s) = false) as Hroom.
  { unfold put_result in Hp. by destruct (fifo_is_full (rx_buf s)). }
  pose proof (put_result_wf _ c Hf) as Hf'. pose proof (contents_put _ c Hf Hroom) as Hc.
  rewrite Hp in Hf', Hc; cbn in Hf', Hc. split; [|done].
  split_and!; cbn; [done| |done]. rewrite Hl, lsr_set_dr, lsr_nonempty; [done|].
  apply not_true_iff_false. rewrite contents_nil, Hc by done. intros [_ E]%app_nil. done.
Qed.

(** The loop takes a prefix [used] of the keystrokes, queues what it decodes
    to, and stops when the input is exhausted, the FIFO is full, or the exit
    sequence is complete. *)
Lemma console_loop_bytes bs s :
  loop_inv s →
  ∃ s' used rest ex, console_loop (in_bytes bs) s = Ok (s', in_bytes rest, ex) ∧
    bs = used ++ rest ∧ loop_inv s' ∧ lcr s' = lcr s ∧
    exits (escaped s) used = ex ∧
    (ex = false → ∃ new,
      decode (escaped s) used = (new, escaped s') ∧
      fifo_contents (rx_buf s') = fifo_contents (rx_buf s) ++ new ∧
      (rest = [] ∨ fifo_is_full (rx_buf s') = true)).
Proof.
  revert s. induction bs as [|c bs IH]; intros s Hi.
  { exists s, [], [], false. split_and!; try done. exists []. rewrite app_nil_r. auto. }
  change (in_bytes (c :: bs)) with (InByte c :: in_bytes bs). cbn [console_loop].
  destruct (fifo_is_full (rx_buf s)) eqn:Hfull.
  { exists s, [], (c :: bs), false. split_and!; try done. exists [].
    rewrite app_nil_r. auto. }
  destruct (escaped s && (c =? TERMINAL_EXIT_CHAR)) eqn:Hx.
  { exists s, [c], bs, true. cbn. by rewrite Hx. }
  destruct (negb (escaped s) && (c =? TERMINAL_ESCAPE_CHAR)) eqn:He.
  - destruct (IH (set_escaped true s)) as (s'&used&rest&ex&Hc&->&Hi'&?&Hex&Hr); [done|].
    exists s', (c :: used), rest, ex. rewrite Hc. cbn [exits decode]. rewrite Hx, He.
    by split_and!.
  - destruct (put_result (rx_buf s) c) as [ok f] eqn:Hp.
    assert (ok = true) as -> by (unfold put_result in Hp; rewrite Hfull in Hp; by simplify_eq/=).
    destruct (put_loop_inv s f c Hi Hp) as [Hi1 Hc1].
    edestruct (IH (set_lsr (Z.lor (lsr s) UART_LSR_DR) (set_rx_buf f (set_escaped false s))))
      as (s'&used&rest&ex&Hc&->&Hi'&?&Hex&Hr); [exact Hi1|].
    exists s', (c :: used), rest, ex. cbn [rx_buf escaped set_escaped lsr set_rx_buf].
    rewrite fifo_put_ok, bind_Ok, Hp, Hc by apply Hi. cbn [exits decode]. rewrite Hx, He.
    split_and!; try done. intros Hf. destruct (Hr Hf) as (new&Hd&Hct&?).
    exists (u8 c :: new). cbn in Hd, Hct. rewrite Hd, Hct, Hc1, <-app_assoc. by split_and!.
Qed.

(** The same for any outcome of the reads: a run of the loop that returns keeps
    the loop invariant. *)
Lemma console_loop_inv input s s' rest ex :
  loop_inv s → console_loop input s = Ok (s', rest, ex) → loop_inv s'.
Proof.
  revert s. induction input as [|it input IH]; intros s Hi; cbn; [by intros [= <- <- <-]|].
  destruct (fifo_is_full (rx_buf s)) eqn:Hfull; [by intros [= <- <- <-]|].
  destruct it as [c| |]; [|by intros [= <- <- <-]|done].
  destruct (escaped s && _); [by intros [= <- <- <-]|].
  destruct (negb (escaped s) && _); [by apply IH|].
  rewrite fifo_put_ok by apply Hi. cbn [mbind res_bind].
  destruct (put_result (rx_buf s) c) as [[] f] eqn:Hp; [|by intros [= <- <- <-]].
  apply IH. by apply (put_loop_inv s f c Hi).
Qed.

(** Keystrokes and failing reads never make the loop fault. *)
Lemma console_loop_total input s :
  loop_inv s → InEof ∉ input → ∃ s' rest ex, console_loop input s = Ok (s', rest, ex).
Proof.
  revert s. induction input as [|it input IH]; intros s Hi He; [by eexists _, _, _|].
  apply not_elem_of_cons in He as [Hit He]. cbn [console_loop].
  destruct (fifo_is_full (rx_buf s)) eqn:Hfull; [by eexists _, _, _|].
  destruct it as [c| |]; [|by eexists _, _, _|done].
  destruct (escaped s && _); [by eexists _, _, _|].
  destruct (negb (escaped s) && _); [by apply IH|].
  change (rx_buf (set_escaped false s)) with (rx_buf s).
  rewrite fifo_put_ok by apply Hi. cbn [mbind res_bind].
  destruct (put_result (rx_buf s) c) as [[] f] eqn:Hp; [|by eexists _, _, _].
  apply IH; [|done]. by apply (put_loop_inv s f c Hi).
Qed.

Lemma serial_console_total input s :
  serial_inv s → InEof ∉ input →
  ∃ s' rest ex, serial_console SERIAL_IRQ input s = Ok (s', rest, ex).
Proof.
  intros Hi%inv_loop_inv He. destruct (console_loop_total input s Hi He) as (s'&rest&ex&E).
  unfold serial_console. rewrite E, bind_Ok. destruct ex; by eexists _, _, _.
Qed.

Lemma serial_console_inv input s s' rest :
  serial_inv s → serial_console SERIAL_IRQ input s = Ok (s', rest, false) → serial_inv s'.
Proof.
  intros Hi%inv_loop_inv Hc. unfold serial_console in Hc.
  destruct (console_loop input s) as [[[s1 r] ex]|] eqn:Hl; [|done].
  cbn in Hc. destruct ex; simplify_eq.
  apply (console_loop_inv _ _ _ _ _ Hi) in Hl as (?&?&?). by apply update_irq_inv.
Qed.
End serial_proofs.

(** * Properties *)

Lemma serial_dev_priv_inv : serial_inv serial_dev_priv.
Proof.
  split; [apply fifo_zero_wf|reflexivity..|].
  repeat constructor; unfold byte_ok; vm_compute; congruence.
Qed.

(** The states of the device: the static initialiser, then port accesses of the
    guest and console input in any order. *)
Inductive serial_reach (irq : Z) : serial_dev → Prop :=
  | reach_init : serial_reach irq serial_dev_priv
  | reach_io s data w offset size s' data' :
      serial_reach irq s → data ≠ [] → Forall byte_ok data →
      serial_handle_io irq data w offset size s = Ok (s', data') →
      serial_reach irq s'
  | reach_console s input s' rest :
      serial_reach irq s → serial_console irq input s = Ok (s', rest, false) →
      serial_reach irq s'.

Lemma reach_serial_inv irq s : serial_reach irq s → serial_inv s.
Proof.
  induction 1 as [|s data w off size s' data' _ IH Hd Hb Hio|s input s' rest _ IH Hc].
  - apply serial_dev_priv_inv.
  - destruct (serial_handle_io_total irq s data w off size IH Hd Hb) as (?&?&?&?&_).
    congruence.
  - by eapply serial_console_inv.
Qed.

(** The interrupt that is pending, by priority: received data (0x4), transmitter
    empty (0x2), none (0x1). *)
Definition identification (s : serial_dev) : Z :=
  if Z.testbit (ier s) 0 && bool_decide (fifo_contents (rx_buf s) ≠ []) then 0x4
  else if Z.testbit (ier s) 1 then 0x2 else 0x1.

(** C17: the registers tell the truth. In every state the device can reach, the
    line status register has "data ready" set exactly when the FIFO holds a byte
    and reports the transmitter empty; the interrupt line is raised exactly when an
    enabled condition holds, received data or transmitter empty; and a read of the
    interrupt identification register gives the pending interrupt of the highest
    priority, with the bits that say that FIFOs are enabled. *)
Theorem serial_status_truthful irq s :
  serial_reach irq s →
  (Z.testbit (lsr s) 0 = true ↔ fifo_contents (rx_buf s) ≠ []) ∧
  Z.testbit (lsr s) 6 = true ∧
  (irq_line s = 1 ↔
    (Z.testbit (ier s) 0 = true ∧ fifo_contents (rx_buf s) ≠ []) ∨
    Z.testbit (ier s) 1 = true) ∧
  (∀ b size, serial_handle_io irq [b] false UART_IIR size s =
    Ok (s, [Z.lor (identification s) 0xc0])).
Proof.
  intros Hi%reach_serial_inv. pose proof (contents_nil _ (inv_fifo s Hi)) as Hn.
  pose proof (inv_line s Hi) as Hl. unfold irq_wanted in Hl. pose proof (inv_iir s Hi) as Hid.
  rewrite pending_iir_cases in Hid. rewrite (inv_lsr s Hi) in *.
  destruct (lsr_of_bits (rx_buf s)) as [H0 H6]. rewrite H0, H6 in *.
  assert (Hne : fifo_contents (rx_buf s) ≠ [] ↔ fifo_is_empty (rx_buf s) = false).
  { rewrite <-Hn. by rewrite not_true_iff_false. }
  split_and!; [by rewrite Hne, negb_true_iff|done| |].
  - rewrite Hne, Hl. clear. destruct (fifo_is_empty _), (Z.testbit (ier s) 0), (Z.testbit (ier s) 1);
      cbn; naive_solver.
  - intros b size. unfold serial_handle_io, serial_in. change (u16 UART_IIR) with UART_IIR.
    change (UART_IIR =? UART_RX) with false. change (UART_IIR =? UART_IER) with false.
    change (UART_IIR =? UART_IIR) with true. cbv iota. rewrite Hid, io_write8_ok, bind_Ok by done.
    unfold identification. rewrite (bool_decide_ext _ _ Hne). do 3 f_equal.
    destruct (fifo_is_empty _), (Z.testbit (ier s) 0), (Z.testbit (ier s) 1); reflexivity.
Qed.

(** C18: the device cannot be made to misbehave. In every reachable state, a read or
    write of the guest at any offset and of any size returns, with a reply of the
    size of the data buffer, and leaves a reachable state; and so does console input
    of any length, unless the input ends: no access to the FIFO array is out of
    bounds. *)
Theorem serial_io_never_faults irq s :
  serial_reach irq s →
  (∀ data w offset size, data ≠ [] → Forall byte_ok data →
    ∃ s' data', serial_handle_io irq data w offset size s = Ok (s', data') ∧
      lenZ data' = lenZ data ∧ serial_reach irq s') ∧
  (∀ input, InEof ∉ input →
    ∃ s' rest ex, serial_console irq input s = Ok (s', rest, ex) ∧
      (ex = false → serial_reach irq s')).
Proof.
  intros Hr. pose proof (reach_serial_inv irq s Hr) as Hi. split.
  - intros data w offset size Hd Hb.
    destruct (serial_handle_io_total irq s data w offset size Hi Hd Hb) as (s'&d'&E&_&?).
    exists s', d'. split_and!; [done..|]. by eapply reach_io.
  - intros input He. destruct (serial_console_total irq input s Hi He) as (s'&rest&ex&E).
    exists s', rest, ex. split; [done|]. intros ->. by eapply reach_console.
Qed.

#[local] Arguments dlab : simpl never.
#[local] Arguments io_write8 : simpl never.
#[local] Arguments io_read8 : simpl never.

(** The offsets whose register gives back what was written: the scratch, line
    and modem control registers, the interrupt enable register or the high
    divisor byte, and the low divisor byte while the latch is open. *)
Definition readable_back (s : serial_dev) (offset : Z) : bool :=
  (offset =? UART_IER) || (offset =? UART_LCR) || (offset =? UART_MCR) ||
  (offset =? UART_SCR) || ((offset =? UART_TX) && dlab s).

(** C19: register round trip. A byte written to such a register is what the next
    read of the same offset returns, and the access leaves the FIFO alone. *)
Theorem serial_register_roundtrip irq s offset v size s1 data1 :
  readable_back s offset = true → byte_ok v →
  serial_handle_io irq [v] true offset size s = Ok (s1, data1) →
  ∃ s2, serial_handle_io irq [0] false offset size s1 = Ok (s2, [v]) ∧
    rx_buf s2 = rx_buf s.
Proof.
  intros Hb Hv Hw. unfold readable_back in Hb.
  assert (u8 v = v) as Hu by (by apply wrap_small).
  assert (io_read8 [v] = Ok v) as Hrd.
  { unfold io_read8, load. cbn. change (Ok (le_val [v]) = Ok v). by rewrite le_val_1. }
  assert (∀ x, io_write8 [0] x = Ok [u8 x]) as Hwr by done.
  assert (offset = 0 ∧ dlab s = true ∨ offset = 1 ∨ offset = 3 ∨ offset = 4 ∨ offset = 7)
    as Hcases by (rewrite !orb_true_iff, andb_true_iff, !Z.eqb_eq in Hb; naive_solver).
  unfold serial_handle_io in *. rewrite (wrap_small 16 offset) in * by lia. simplify_res.
  destruct Hcases as [[-> Hdl]|[->|[->|[->| ->]]]]; unfold serial_out in *; cbn in *;
    rewrite Hrd in *; cbn in *.
  - rewrite Hdl in *. simplify_eq/=. unfold serial_in; cbn.
    change (dlab (set_dll v s)) with (dlab s). rewrite Hdl, ?Hwr. cbn. rewrite Hu. eauto.
  - destruct (dlab s) eqn:Hdl; cbn in *; simplify_eq; unfold serial_in; cbn.
    + change (dlab (set_dlm v s)) with (dlab s). rewrite Hdl, ?Hwr. cbn. rewrite Hu. eauto.
    + change (dlab (serial_update_irq irq (set_ier v s))) with (dlab s).
      rewrite Hdl, ?Hwr. cbn. rewrite Hu. eauto.
  - simplify_eq. unfold serial_in; cbn. rewrite ?Hwr. cbn. rewrite Hu. eauto.
  - simplify_eq. unfold serial_in; cbn. rewrite ?Hwr. cbn. rewrite Hu. eauto.
  - simplify_eq. unfold serial_in; cbn. rewrite ?Hwr. cbn. rewrite Hu. eauto.
Qed.

(** ** Witnesses *)

(** The guest enables the receive interrupt; two keys are typed. *)
Definition demo_serial : res serial_dev :=
  '(s, _) ← serial_handle_io 4 [1] true UART_IER 1 serial_dev_priv;
  '(s, _, _) ← serial_console 4 (in_bytes [0x61; 0x62]) s;
  Ok s.

Lemma demo_serial_reach : ∃ s, demo_serial = Ok s ∧ serial_reach 4 s.
Proof.
  let r1 := eval vm_compute in (serial_handle_io 4 [1] true UART_IER 1 serial_dev_priv) in
  match r1 with Ok (?s1, ?d1) =>
    let r2 := eval vm_compute in (serial_console 4 (in_bytes [0x61; 0x62]) s1) in
    match r2 with Ok (?s2, ?rest, _) =>
      exists s2; split; [vm_compute; reflexivity|];
      apply (reach_console 4 s1 (in_bytes [0x61; 0x62]) s2 rest);
        [apply (reach_io 4 serial_dev_priv [1] true UART_IER 1 s1 d1);
          [apply reach_init|done|repeat constructor; lia|vm_compute; reflexivity]
        |vm_compute; reflexivity]
    end
  end.
Qed.

Lemma serial_status_truthful_witness :
  ∃ s, demo_serial = Ok s ∧ irq_line s = 1 ∧
    (Z.testbit (lsr s) 0 = true ↔ fifo_contents (rx_buf s) ≠ []) ∧
    Z.testbit (lsr s) 6 = true ∧
    (irq_line s = 1 ↔
      (Z.testbit (ier s) 0 = true ∧ fifo_contents (rx_buf s) ≠ []) ∨
      Z.testbit (ier s) 1 = true) ∧
    (∀ b size, serial_handle_io 4 [b] false UART_IIR size s =
      Ok (s, [Z.lor (identification s) 0xc0])).
Proof.
  destruct demo_serial_reach as (s&E&Hr). exists s. split; [exact E|].
  split; [vm_compute in E; injection E as <-; reflexivity|].
  exact (serial_status_truthful 4 s Hr).
Defined.

Lemma serial_io_never_faults_witness :
  ∃ s s' data' s2 rest ex, demo_serial = Ok s ∧
    serial_handle_io 4 [0; 0] false UART_RX 2 s = Ok (s', data') ∧ lenZ data' = lenZ [0; 0] ∧
    serial_console 4 (in_bytes [0x63]) s = Ok (s2, rest, ex).
Proof.
  destruct demo_serial_reach as (s&E&Hr).
  destruct (serial_io_never_faults 4 s Hr) as [Hio Hcon].
  destruct (Hio [0; 0] false UART_RX 2) as (s'&d&H1&H2&_); [done|repeat constructor; lia|].
  destruct (Hcon (in_bytes [0x63])) as (s2&rest&ex&H3&_);
    [intros [Hx|Hx%not_elem_of_nil]%elem_of_cons; done|].
  exists s, s', d, s2, rest, ex. split_and!; [exact E|exact H1|exact H2|exact H3].
Defined.

Lemma serial_register_roundtrip_witness :
  ∃ s1 s2, serial_handle_io 4 [0x5a] true UART_SCR 1 serial_dev_priv = Ok (s1, [0x5a]) ∧
    serial_handle_io 4 [0] false UART_SCR 1 s1 = Ok (s2, [0x5a]) ∧
    rx_buf s2 = rx_buf serial_dev_priv.
Proof.
  eexists. edestruct (serial_register_roundtrip 4 serial_dev_priv UART_SCR 0x5a 1)
    as (s2&H1&H2).
  - reflexivity.
  - unfold byte_ok; lia.
  - vm_compute. reflexivity.
  - exists s2. split; [vm_compute; reflexivity|]. split; [exact H1|exact H2].
Defined.
