(* ===== verification/SerialThread.v ===== *)
(** * The serial worker thread (src/serial.c, serial_thread)

    Two threads share the port: the vCPU thread, which runs the bus callback,
    and the worker, which moves standard input into the FIFO. Every change of
    the FIFO, of the line status and of the interrupt happens with the mutex
    held, so a critical section is one step of the relation below. The worker's
    program counter tells where it is in its loop; [WWait] is inside
    [pthread_cond_wait], which releases the mutex.

    Ghost fields record the keystrokes typed and consumed and the bytes the
    guest has received, so that the theorems speak of the whole stream. The
    relation covers runs in which reads of standard input succeed. *)

From stdpp Require Import base tactics numbers list relations.
From S2P Require Import Prelude.
From S2P Require Import Uapi.
From S2P Require Import Host.
From S2P Require Import Fifo.
From S2P Require Import Serial.
Open Scope Z_scope.

(** Where the worker is: evaluating the loop condition and polling; about to
    take the lock; waiting on the condition variable; woken and about to retake
    the lock. *)
Inductive worker := WPoll | WLock | WWait | WWoken.

Record threads := mkThreads {
  port : serial_dev;
  stdin : list Z;
  pc : worker;
  typed : list Z;
  consumed : list Z;
  received : list Z;
}.

Definition threads_init : threads := mkThreads serial_dev_priv [] WPoll [] [] [].

(** Did the access signal the condition variable? *)
Definition signalled (s s' : serial_dev) : bool :=
  bool_decide (EvCondSignal ∈ drop (length (out s)) (out s')).

(** Does a read at this offset take a byte out of the FIFO? *)
Definition takes_byte (s : serial_dev) (w : bool) (offset : Z) : bool :=
  negb w && (u16 offset =? UART_RX) && negb (dlab s) && negb (fifo_is_empty (rx_buf s)).

Section threads.
Context (SERIAL_IRQ : Z).

(** One access of the vCPU thread, with its effect on a waiting worker. *)
Definition vcpu_access (m : threads) (w : bool) (offset v : Z) : res threads :=
  '(s', data') ← serial_handle_io SERIAL_IRQ [v] w offset 1 (port m);
  let pc' := match pc m with
    | WWait => if signalled (port m) s' then WWoken else WWait
    | p => p
    end in
  Ok (mkThreads s' (stdin m) pc' (typed m) (consumed m)
    (if takes_byte (port m) w offset then received m ++ data' else received m)).

(** The console run of the worker, with the lock held, from [WLock] or
    [WWoken] back to the top of its loop. *)
Inductive worker_console (m : threads) : threads → Prop :=
  | worker_console_intro s' used rest :
      serial_console SERIAL_IRQ (in_bytes (stdin m)) (port m) =
        Ok (s', in_bytes rest, false) →
      stdin m = used ++ rest →
      worker_console m
        (mkThreads s' rest WPoll (typed m) (consumed m ++ used) (received m)).

Inductive step : threads → threads → Prop :=
  | step_type m bs :
      step m (mkThreads (port m) (stdin m ++ bs) (pc m) (typed m ++ bs) (consumed m) (received m))
  | step_poll m :
      pc m = WPoll → stdin m ≠ [] →
      step m (mkThreads (port m) (stdin m) WLock (typed m) (consumed m) (received m))
  | step_lock_full m :
      pc m = WLock → fifo_is_full (rx_buf (port m)) = true →
      step m (mkThreads (port m) (stdin m) WWait (typed m) (consumed m) (received m))
  | step_lock_console m m' :
      pc m = WLock → fifo_is_full (rx_buf (port m)) = false →
      worker_console m m' → step m m'
  | step_spurious m :
      pc m = WWait →
      step m (mkThreads (port m) (stdin m) WWoken (typed m) (consumed m) (received m))
  | step_woken m m' : pc m = WWoken → worker_console m m' → step m m'
  | step_vcpu m w offset v m' :
      byte_ok v → vcpu_access m w offset v = Ok m' → step m m'.

Definition thread_reach (m : threads) : Prop := rtc step threads_init m.

(** ** Invariant *)

Record threads_inv (m : threads) : Prop := {
  tinv_port : serial_inv (port m);
  tinv_typed : typed m = consumed m ++ stdin m;
  tinv_exit : exits false (consumed m) = false;
  tinv_stream : decode false (consumed m) =
    (received m ++ fifo_contents (rx_buf (port m)), escaped (port m));
  tinv_wait : pc m = WWait → FIFO_LEN / 2 < lenZ (fifo_contents (rx_buf (port m)));
}.

Lemma exits_app esc a b :
  exits esc (a ++ b) = exits esc a || exits (decode esc a).2 b.
Proof.
  revert esc. induction a as [|c a IH]; intros esc; cbn; [done|].
  destruct (esc && (c =? TERMINAL_EXIT_CHAR)) eqn:Hx; [done|].
  rewrite IH. f_equal. destruct (negb esc && (c =? TERMINAL_ESCAPE_CHAR)); [done|].
  by destruct (decode false a).
Qed.

Lemma signal_half_signalled (s s1 : serial_dev) :
  fifo_capacity (rx_buf s1) = FIFO_LEN / 2 →
  (length (out s) ≤ length (out s1))%nat →
  signalled s (signal_half s1) = true.
Proof.
  intros Hc Hl. unfold signalled, signal_half. rewrite Hc, Z.eqb_refl.
  apply bool_decide_eq_true.
  change (out (emit EvCondSignal s1)) with (out s1 ++ [EvCondSignal]). rewrite drop_app_le by done. set_solver.
Qed.

(** The vCPU's accesses, seen from the FIFO: only a read of the receive buffer
    takes a byte, and one that leaves it half full signals. *)
Lemma access_contents s w offset v s' data' :
  serial_inv s →
  serial_handle_io SERIAL_IRQ [v] w offset 1 s = Ok (s', data') →
  escaped s' = escaped s ∧
  if takes_byte s w offset then
    (∃ x, data' = [x] ∧ fifo_contents (rx_buf s) = x :: fifo_contents (rx_buf s')) ∧
    (lenZ (fifo_contents (rx_buf s')) = FIFO_LEN / 2 → signalled s s' = true)
  else fifo_contents (rx_buf s') = fifo_contents (rx_buf s).
Proof.
  intros Hi Hio. unfold serial_handle_io in Hio. unfold takes_byte.
  destruct w; cbn [negb andb].
  { simplify_res. unfold serial_out in *.
    repeat match goal with H : context [if ?b then _ else _] |- _ => destruct b end;
      simplify_res; by split. }
  unfold serial_in in Hio. destruct (u16 offset =? UART_RX); cbn [andb].
  2: { repeat case_match; simplify_res; by split. }
  destruct (dlab s); cbn [negb andb]; [simplify_res; by split|].
  pose proof (inv_fifo s Hi) as Hf. pose proof (contents_nil _ Hf) as Hn.
  destruct (serial_rx_spec SERIAL_IRQ s [v] Hi) as (s1&d1&E&Hi1&_&_&He&Hc); [done|].
  rewrite Hio in E. injection E as <- <-. split; [done|].
  rewrite serial_rx_cases in Hio by done.
  pose proof (contents_bytes _ Hf) as Hb.
  destruct (fifo_contents (rx_buf s)) as [|x q] eqn:Eq.
  - rewrite (proj2 Hn) by done. naive_solver.
  - destruct (fifo_is_empty (rx_buf s)) eqn:Hne; [naive_solver|]. cbn [negb].
    destruct Hc as [-> Hq]. apply Forall_cons in Hb as [Hb _].
    rewrite Hq, (wrap_small 8 x) by done. split; [by exists x|]. intros Hhalf.
    cbv zeta in Hio. injection Hio as Hs'. rewrite <-Hs'.
    pose proof (signal_half_frame
      (if fifo_is_empty (get_result (rx_buf s)).2 then rx_emptied SERIAL_IRQ
        (get_result (rx_buf s)).2 s else set_rx_buf (get_result (rx_buf s)).2 s)) as (Hr&_).
    apply signal_half_signalled.
    + rewrite <-Hr, Hs', <-length_contents. by rewrite Hq.
    + destruct (fifo_is_empty _); cbn; [|done]. rewrite length_app. lia.
Qed.

Lemma console_stream m s' rest used :
  threads_inv m →
  serial_console SERIAL_IRQ (in_bytes (stdin m)) (port m) = Ok (s', in_bytes rest, false) →
  stdin m = used ++ rest →
  threads_inv (mkThreads s' rest WPoll (typed m) (consumed m ++ used) (received m)).
Proof.
  intros [Hp Ht Hx Hs _] Hc Hu. pose proof (serial_console_inv _ _ _ _ _ Hp Hc) as Hp'.
  unfold serial_console in Hc.
  destruct (console_loop_bytes (stdin m) (port m) (inv_loop_inv _ Hp))
    as (s1&used1&rest1&ex&Hl&Hu1&_&_&Hex&Hd).
  rewrite Hl in Hc. cbn in Hc. destruct ex; [done|]. injection Hc as <- Hrest.
  apply (inj in_bytes) in Hrest as ->.
  assert (used1 = used) as -> by (rewrite Hu1 in Hu; by apply app_inv_tail in Hu).
  destruct Hd as (new&Hd&Hcont&_); [done|].
  split; cbn; [done|..|done].
  - by rewrite Ht, Hu, app_assoc.
  - by rewrite exits_app, Hx, Hs.
  - rewrite decode_app, Hs, Hd, Hcont. by rewrite app_assoc.
Qed.

Lemma step_inv m m' : threads_inv m → step m m' → threads_inv m'.
Proof.
  intros Hm Hstep. pose proof Hm as [Hp Ht Hx Hs Hw].
  destruct Hstep as [m bs|m Hpc|m Hpc Hfull|m m' Hpc Hfull Hc|m Hpc|m m' Hpc Hc|m w off v m' Hv Ha].
  - split; cbn; try done. by rewrite Ht, app_assoc.
  - by split.
  - split; cbn; try done. intros _. rewrite is_full_length in Hfull. zbool.
    unfold FIFO_MASK, FIFO_LEN in *. change (64 / 2) with 32. lia.
  - destruct Hc. by eapply console_stream.
  - by split.
  - destruct Hc. by eapply console_stream.
  - unfold vcpu_access in Ha.
    destruct (serial_handle_io SERIAL_IRQ [v] w off 1 (port m)) as [[s1 d1]|] eqn:Hio; [|done].
    cbn in Ha. injection Ha as <-.
    destruct (serial_handle_io_total SERIAL_IRQ (port m) [v] w off 1 Hp)
      as (?&?&E&Hp'&_); [done|by apply Forall_singleton|].
    rewrite Hio in E. injection E as <- <-.
    destruct (access_contents _ _ _ _ _ _ Hp Hio) as [He Hc].
    split; cbn; [done..| |].
    + rewrite Hs, He. destruct (takes_byte _ _ _); [|by rewrite Hc].
      destruct Hc as [(x&->&->) _]. by rewrite <-app_assoc.
    + intros Hpc. destruct (pc m); try done. specialize (Hw eq_refl).
      destruct (takes_byte _ _ _) eqn:Etb; [|by rewrite Hc].
      destruct Hc as [(x&->&Hc) Hsig]. rewrite Hc in Hw.
      destruct (signalled (port m) s1); [done|].
      assert (lenZ (fifo_contents (rx_buf s1)) ≠ FIFO_LEN / 2) by (intros E; by apply Hsig in E).
      unfold lenZ in *; cbn in Hw. lia.
Qed.

Lemma init_inv : threads_inv threads_init.
Proof. split; cbn; try done. apply serial_dev_priv_inv. Qed.

Lemma thread_reach_inv m : thread_reach m → threads_inv m.
Proof.
  unfold thread_reach. intros Hr. pose proof init_inv as Hi. revert Hi.
  induction Hr; eauto using step_inv.
Qed.

(** ** The guest drains the FIFO *)

(** [n] reads of the receive buffer by the vCPU thread. *)
Fixpoint read_rx (n : nat) (m : threads) : res threads :=
  match n with
  | O => Ok m
  | S n => m ← vcpu_access m false UART_RX 0; read_rx n m
  end.

Lemma access_lcr s offset v s' data' :
  serial_inv s →
  serial_handle_io SERIAL_IRQ [v] false offset 1 s = Ok (s', data') → lcr s' = lcr s.
Proof.
  intros Hi Hio. unfold serial_handle_io, serial_in in Hio.
  destruct (u16 offset =? UART_RX); [|repeat case_match; by simplify_res].
  destruct (dlab s); [by simplify_res|].
  destruct (serial_rx_spec SERIAL_IRQ s [v] Hi) as (s1&d1&E&_&Hl&_); [done|]. congruence.
Qed.

Lemma vcpu_access_ok m w offset v s' data' :
  serial_handle_io SERIAL_IRQ [v] w offset 1 (port m) = Ok (s', data') →
  vcpu_access m w offset v = Ok (mkThreads s' (stdin m)
    (match pc m with
     | WWait => if signalled (port m) s' then WWoken else WWait
     | p => p
     end) (typed m) (consumed m)
    (if takes_byte (port m) w offset then received m ++ data' else received m)).
Proof. intros Hio. unfold vcpu_access. by rewrite Hio. Qed.

Lemma read_rx_once m :
  threads_inv m → dlab (port m) = false → fifo_contents (rx_buf (port m)) ≠ [] →
  ∃ m' x, vcpu_access m false UART_RX 0 = Ok m' ∧ threads_inv m' ∧
    dlab (port m') = false ∧
    fifo_contents (rx_buf (port m)) = x :: fifo_contents (rx_buf (port m')) ∧
    received m' = received m ++ [x] ∧ (pc m = WWoken → pc m' = WWoken) ∧
    (pc m = WWait →
      pc m' = WWoken ∨ pc m' = WWait ∧
        lenZ (fifo_contents (rx_buf (port m'))) ≠ FIFO_LEN / 2).
Proof.
  intros Hm Hd Hne. pose proof (tinv_port m Hm) as Hp.
  destruct (serial_handle_io_total SERIAL_IRQ (port m) [0] false UART_RX 1 Hp)
    as (s1&d1&Hio&_); [done|apply Forall_singleton; unfold byte_ok; lia|].
  pose proof (vcpu_access_ok _ _ _ _ _ _ Hio) as Ha. pose proof (access_lcr _ _ _ _ _ Hp Hio) as Hl.
  destruct (access_contents _ _ _ _ _ _ Hp Hio) as [_ Hc].
  assert (takes_byte (port m) false UART_RX = true) as Htb.
  { unfold takes_byte. rewrite Hd. cbn. apply negb_true_iff, not_true_iff_false.
    by rewrite (contents_nil _ (inv_fifo _ Hp)). }
  rewrite Htb in Ha, Hc. destruct Hc as [(x&->&Hc) Hsig].
  eexists _, x. split; [exact Ha|]. split_and!; cbn; try done.
  - eapply step_inv; [exact Hm|]. eapply step_vcpu; [|exact Ha]. unfold byte_ok; lia.
  - unfold dlab in *. by rewrite Hl.
  - by intros ->.
  - intros ->. destruct (signalled (port m) s1); [by left|]. right. split; [done|].
    intros E. by specialize (Hsig E).
Qed.

Lemma read_rx_wakes (n : nat) m :
  threads_inv m → dlab (port m) = false → pc m = WWait ∨ pc m = WWoken →
  lenZ (fifo_contents (rx_buf (port m))) = FIFO_LEN / 2 + Z.of_nat n →
  (n = O → pc m = WWoken) →
  ∃ m', read_rx n m = Ok m' ∧ pc m' = WWoken ∧
    received m' = received m ++ take n (fifo_contents (rx_buf (port m))).
Proof.
  revert m. induction n as [|n IH]; intros m Hm Hd Hpc Hlen Hz.
  { exists m. rewrite take_0, app_nil_r. auto. }
  destruct (read_rx_once m Hm Hd) as (m1&x&Ha&Hm1&Hd1&Hc&Hr&Hk&Hw).
  { intros E. rewrite E in Hlen. change (FIFO_LEN / 2) with 32 in Hlen.
    unfold lenZ in Hlen; cbn in Hlen. lia. }
  rewrite Hc in Hlen. assert (lenZ (fifo_contents (rx_buf (port m1))) =
    FIFO_LEN / 2 + Z.of_nat n) as Hlen1 by (unfold lenZ in *; cbn in Hlen; lia).
  destruct (IH m1) as (m2&Hm2&Hpc2&Hr2); try done.
  - destruct Hpc as [Hpc|Hpc]; [|by right; apply Hk].
    destruct (Hw Hpc) as [?|[? _]]; auto.
  - intros ->. destruct Hpc as [Hpc|Hpc]; [|by apply Hk].
    destruct (Hw Hpc) as [?|[_ Hn]]; [done|]. lia.
  - exists m2. cbn [read_rx]. rewrite Ha, bind_Ok, Hm2. split_and!; try done.
    rewrite Hr2, Hr, Hc, <-app_assoc. done.
Qed.
End threads.

(** * Properties *)

(** C8: the console delivers the keystrokes. In every interleaving of the worker
    and the vCPU, what the guest has received followed by what the FIFO holds is
    exactly the decoding of the keystrokes consumed so far, and those are a
    prefix of what was typed: no byte is lost, duplicated or reordered, full
    FIFO included. *)
Theorem console_stream_delivery irq m :
  thread_reach irq m →
  typed m = consumed m ++ stdin m ∧
  (decode false (consumed m)).1 = received m ++ fifo_contents (rx_buf (port m)).
Proof. intros [_ ? _ Hs _]%thread_reach_inv. by rewrite Hs. Qed.

(** C20: no lost wake-up. While the worker waits on the condition variable, the
    FIFO holds more than half of its capacity, so the read that brings it to
    half capacity, the one that signals, is still to come. *)
Theorem waiting_worker_not_missed irq m :
  thread_reach irq m → pc m = WWait →
  FIFO_LEN / 2 < lenZ (fifo_contents (rx_buf (port m))) ≤ FIFO_LEN.
Proof.
  intros Hi%thread_reach_inv Hw. split; [by apply tinv_wait|].
  rewrite length_contents. apply fifo_wf_capacity, inv_fifo, tinv_port, Hi.
Qed.

(** C21: progress. From any reachable state in which the worker waits, a guest
    that reads the receive buffer until half of it is left (the divisor latch
    being closed) receives those bytes in order and wakes the worker. *)
Theorem draining_wakes_worker irq m (n : nat) :
  thread_reach irq m → pc m = WWait → dlab (port m) = false →
  Z.of_nat n = lenZ (fifo_contents (rx_buf (port m))) - FIFO_LEN / 2 →
  ∃ m', read_rx irq n m = Ok m' ∧ pc m' = WWoken ∧
    received m' = received m ++ take n (fifo_contents (rx_buf (port m))).
Proof.
  intros Hi%thread_reach_inv Hw Hd Hn. pose proof (tinv_wait _ Hi Hw).
  apply (read_rx_wakes irq); [done|done|by left|lia|].
  intros ->. cbn in Hn. lia.
Qed.

(** ** Witnesses: 70 keys are typed, the FIFO fills up and the worker waits *)

Definition keys : list Z := replicate 70 0x61.

(** The worker as a function: the steps it takes from the top of its loop. *)
Definition demo_full : res threads :=
  '(s, _, _) ← serial_console 4 (in_bytes keys) serial_dev_priv;
  Ok (mkThreads s (drop 64 keys) WWait keys (take 64 keys) []).

Lemma demo_full_reach : ∃ m, demo_full = Ok m ∧ thread_reach 4 m.
Proof.
  let r := eval vm_compute in (serial_console 4 (in_bytes keys) serial_dev_priv) in
  match r with Ok (?s, _, _) =>
    exists (mkThreads s (drop 64 keys) WWait keys (take 64 keys) []);
    split; [vm_compute; reflexivity|];
    apply (rtc_l _ _ (mkThreads serial_dev_priv keys WPoll keys [] []));
      [apply (step_type 4 threads_init keys)|];
    apply (rtc_l _ _ (mkThreads serial_dev_priv keys WLock keys [] []));
      [apply (step_poll 4 (mkThreads serial_dev_priv keys WPoll keys [] [])); done|];
    apply (rtc_l _ _ (mkThreads s (drop 64 keys) WPoll keys (take 64 keys) []));
      [eapply step_lock_console; [done|vm_compute; reflexivity|];
       apply (worker_console_intro 4 (mkThreads serial_dev_priv keys WLock keys [] [])
         s (take 64 keys) (drop 64 keys)); vm_compute; reflexivity|];
    apply (rtc_l _ _ (mkThreads s (drop 64 keys) WLock keys (take 64 keys) []));
      [apply (step_poll 4 (mkThreads s (drop 64 keys) WPoll keys (take 64 keys) [])); done|];
    apply rtc_once;
    apply (step_lock_full 4 (mkThreads s (drop 64 keys) WLock keys (take 64 keys) []));
      [done|vm_compute; reflexivity]
  end.
Qed.

Lemma console_stream_delivery_witness :
  ∃ m, demo_full = Ok m ∧ typed m = consumed m ++ stdin m ∧
    (decode false (consumed m)).1 = received m ++ fifo_contents (rx_buf (port m)).
Proof.
  destruct demo_full_reach as (m&E&Hr). exists m. split; [exact E|].
  exact (console_stream_delivery 4 m Hr).
Defined.

Lemma waiting_worker_not_missed_witness :
  ∃ m, demo_full = Ok m ∧ pc m = WWait ∧
    FIFO_LEN / 2 < lenZ (fifo_contents (rx_buf (port m))) ≤ FIFO_LEN.
Proof.
  destruct demo_full_reach as (m&E&Hr). exists m. split; [exact E|].
  assert (pc m = WWait) as Hpc by (vm_compute in E; injection E as <-; reflexivity).
  split; [exact Hpc|]. exact (waiting_worker_not_missed 4 m Hr Hpc).
Defined.

Lemma draining_wakes_worker_witness :
  ∃ m m', demo_full = Ok m ∧ read_rx 4 32 m = Ok m' ∧ pc m' = WWoken ∧
    received m' = received m ++ take 32 (fifo_contents (rx_buf (port m))).
Proof.
  destruct demo_full_reach as (m&E&Hr). exists m.
  assert (pc m = WWait ∧ dlab (port m) = false ∧
    Z.of_nat 32 = lenZ (fifo_contents (rx_buf (port m))) - FIFO_LEN / 2) as (H1&H2&H3)
    by (vm_compute in E; injection E as <-; vm_compute; done).
  destruct (draining_wakes_worker 4 m 32 Hr H1 H2 H3) as (m'&?&?&?).
  exists m'. split_and!; assumption.
Defined.
