(* ===== verification/Devices.v ===== *)
(** * The device nodes and the three buses of the machine

    Every [struct dev] of the program is a member of another struct; [dev_ptr]
    names them all. [dev_owner] and [io_fn] are the values of the [owner] and
    [do_io] members: the objects and callbacks the sources install. [buses]
    gathers the nodes with the three buses of [vm_t]: [io_bus], [mmio_bus] and
    [pci.pci_bus]. *)

From stdpp Require Import base tactics numbers list gmap functions.
From S2P Require Import Prelude.
From S2P Require Import Bus.
Open Scope Z_scope.

(** The two PCI devices: [vm_t.virtio_blk_dev] and [vm_t.virtio_net_dev]. *)
Inductive vdev_id := VirtioBlk | VirtioNet.

Inductive dev_ptr :=
  | PSerial                          (* vm_t.serial.dev *)
  | PPciAddr                         (* vm_t.pci.pci_addr_dev *)
  | PPciBus                          (* vm_t.pci.pci_bus_dev *)
  | PPciMmio                         (* vm_t.pci.pci_mmio_dev *)
  | PIoDev                           (* vm_arch_priv_t.iodev (arm64) *)
  | PConfig (w : vdev_id)            (* pci_dev.config_dev *)
  | PSpace (w : vdev_id) (bar : nat) (* pci_dev.space_dev[bar] *).

Inductive dev_owner := ONull | OSerial | OPci | OPciDev (w : vdev_id) | OVm.

Inductive io_fn :=
  | FNull
  | F_serial_handle_io
  | F_pci_address_io
  | F_pci_data_io
  | F_pci_mmio_io
  | F_pci_config_do_io
  | F_virtio_pci_space_io
  | F_pio_handler.

#[global] Instance vdev_id_eq_dec : EqDecision vdev_id.
Proof. solve_decision. Defined.
#[global] Instance dev_ptr_eq_dec : EqDecision dev_ptr.
Proof. solve_decision. Defined.
#[global] Instance dev_owner_eq_dec : EqDecision dev_owner.
Proof. solve_decision. Defined.
#[global] Instance io_fn_eq_dec : EqDecision io_fn.
Proof. solve_decision. Defined.

Definition ptr_code (p : dev_ptr) : nat * nat :=
  match p with
  | PSerial => (0, 0)
  | PPciAddr => (1, 0)
  | PPciBus => (2, 0)
  | PPciMmio => (3, 0)
  | PIoDev => (4, 0)
  | PConfig VirtioBlk => (5, 0)
  | PConfig VirtioNet => (6, 0)
  | PSpace VirtioBlk bar => (7, bar)
  | PSpace VirtioNet bar => (8, bar)
  end%nat.

Definition ptr_decode (c : nat * nat) : dev_ptr :=
  match c with
  | (0, _) => PSerial
  | (1, _) => PPciAddr
  | (2, _) => PPciBus
  | (3, _) => PPciMmio
  | (4, _) => PIoDev
  | (5, _) => PConfig VirtioBlk
  | (6, _) => PConfig VirtioNet
  | (7, bar) => PSpace VirtioBlk bar
  | (_, bar) => PSpace VirtioNet bar
  end%nat.

#[global] Instance dev_ptr_countable : Countable dev_ptr.
Proof. apply (inj_countable' ptr_code ptr_decode). by intros [| | | | |[]|[]]. Defined.

Abbreviation hdev := (dev dev_ptr dev_owner io_fn).
Abbreviation hbus := (bus dev_ptr).

Record buses := mkBuses {
  devs : gmap dev_ptr hdev;
  io_bus : hbus;
  mmio_bus : hbus;
  pci_bus : hbus;
}.

Inductive bus_id := IoBus | MmioBus | PciBus.

#[global] Instance bus_id_eq_dec : EqDecision bus_id.
Proof. solve_decision. Defined.

Definition get_bus (id : bus_id) (B : buses) : hbus :=
  match id with IoBus => io_bus B | MmioBus => mmio_bus B | PciBus => pci_bus B end.

Definition set_bus (id : bus_id) (h : gmap dev_ptr hdev) (b : hbus) (B : buses) : buses :=
  match id with
  | IoBus => mkBuses h b (mmio_bus B) (pci_bus B)
  | MmioBus => mkBuses h (io_bus B) b (pci_bus B)
  | PciBus => mkBuses h (io_bus B) (mmio_bus B) b
  end.

Definition set_devs (h : gmap dev_ptr hdev) (B : buses) : buses :=
  mkBuses h (io_bus B) (mmio_bus B) (pci_bus B).

(** [bus_register_dev(&bus, &node)] and [bus_deregister_dev] on the machine. *)
Definition register (id : bus_id) (p : dev_ptr) (B : buses) : res buses :=
  '(h, b) ← bus_register_dev (devs B) (get_bus id B) p;
  Ok (set_bus id h b B).

Definition deregister (id : bus_id) (p : dev_ptr) (B : buses) : res buses :=
  '(h, b) ← bus_deregister_dev (devs B) (get_bus id B) p;
  Ok (set_bus id h b B).

(** ** What the three buses hold *)

(** [L id] is the list of devices on bus [id]; a device is on one bus at most. *)
Record bus_lists (B : buses) (L : bus_id → list dev_ptr) : Prop := {
  lists_repr id : bus_repr (devs B) (get_bus id B) (L id);
  lists_disjoint id1 id2 p : p ∈ L id1 → p ∈ L id2 → id1 = id2;
}.

Lemma get_set_bus id id' h b B :
  get_bus id' (set_bus id h b B) = if decide (id' = id) then b else get_bus id' B.
Proof. by destruct id, id'. Qed.

Lemma devs_set_bus id h b B : devs (set_bus id h b B) = h.
Proof. by destruct id. Qed.

Lemma chain_frame (h h' : gmap dev_ptr hdev) o l :
  (∀ q, q ∈ l → h' !! q = h !! q) → chain h o l → chain h' o l.
Proof.
  revert o. induction l as [|q l IH]; intros o Hf; cbn; [done|].
  intros [-> (d&Hd&Hc)]. split; [done|]. exists d.
  rewrite Hf by set_solver. split; [done|]. apply IH; [|done]. set_solver.
Qed.

Lemma set_bus_lists B L id h b l :
  bus_lists B L → bus_repr h b l →
  (∀ q id', id' ≠ id → q ∈ L id' → h !! q = devs B !! q) →
  (∀ q id', id' ≠ id → q ∈ L id' → q ∉ l) →
  bus_lists (set_bus id h b B) (<[id := l]> L).
Proof.
  intros [Hr Hd] Hb Hf Hl. split.
  - intros id'. rewrite get_set_bus, devs_set_bus.
    unfold insert, fn_insert. destruct (decide (id' = id)) as [->|].
    + by rewrite decide_True.
    + rewrite decide_False by done. eapply chain_frame; [|apply Hr]. eauto.
  - intros id1 id2 p. unfold insert, fn_insert. repeat case_decide; subst; try done.
    + intros H1 H2. exfalso. by eapply (Hl p id2).
    + intros H1 H2. exfalso. by eapply (Hl p id1).
    + apply Hd.
Qed.

Lemma register_lists B L id p :
  bus_lists B L → is_Some (devs B !! p) → (∀ id', p ∉ L id') →
  ∃ B', register id p B = Ok B' ∧ bus_lists B' (<[id := p :: L id]> L) ∧
    same_devs (devs B) (devs B') ∧
    dev_num (get_bus id B') = u64 (dev_num (get_bus id B) + 1).
Proof.
  intros HL [d Hd] Hp. destruct (bus_register_repr _ _ _ _ _ (lists_repr _ _ HL id) Hd (Hp id))
    as (h&b&E&Hr&Hs&Hn&Hf).
  unfold register. rewrite E; cbn. eexists; split; [done|].
  rewrite devs_set_bus, get_set_bus, decide_True by done. split_and!; try done.
  apply set_bus_lists; try done.
  - intros q id' _ Hq. apply Hf. intros ->. by eapply Hp.
  - intros q id' Hne Hq [->|Hq']%elem_of_cons; [by eapply Hp|].
    by pose proof (lists_disjoint _ _ HL _ _ _ Hq Hq').
Qed.

Lemma deregister_lists B L id p :
  bus_lists B L →
  ∃ B', deregister id p B = Ok B' ∧
    bus_lists B' (<[id := abs_remove p (L id)]> L) ∧ same_devs (devs B) (devs B').
Proof.
  intros HL. destruct (bus_deregister_repr _ _ _ p (lists_repr _ _ HL id))
    as (h&b&E&Hr&Hs&_&Hf).
  unfold deregister. rewrite E; cbn. eexists; split; [done|].
  rewrite devs_set_bus. split; [|done].
  assert (∀ q, q ∈ abs_remove p (L id) → q ∈ L id) as Hsub.
  { intros q. unfold abs_remove. by intros [_ ?]%list_elem_of_filter. }
  apply set_bus_lists; try done.
  - intros q id' Hne Hq. apply Hf. intros Hq'.
    by pose proof (lists_disjoint _ _ HL _ _ _ Hq Hq').
  - intros q id' Hne Hq Hq'. apply Hsub in Hq'.
    by pose proof (lists_disjoint _ _ HL _ _ _ Hq Hq').
Qed.

(** Changing a node without touching its link keeps every list. *)
Lemma set_devs_lists B L p d d' :
  bus_lists B L → devs B !! p = Some d → next d' = next d →
  bus_lists (set_devs (<[p := d']> (devs B)) B) L.
Proof.
  intros [Hr Hd] Hp Hn. split; [|done]. intros id. specialize (Hr id).
  assert (get_bus id (set_devs (<[p := d']> (devs B)) B) = get_bus id B) as ->
    by (by destruct id).
  unfold bus_repr in *. cbn. revert Hr. generalize (head (get_bus id B)).
  induction (L id) as [|q l IH]; intros o; cbn; [done|].
  intros [-> (dq&Hq&Hc)]. split; [done|].
  destruct (decide (p = q)) as [<-|].
  - exists d'. rewrite lookup_insert_eq, Hn. simplify_eq. eauto.
  - exists dq. rewrite lookup_insert_ne by done. eauto.
Qed.

Lemma bus_lists_find B L id addr :
  bus_lists B L →
  bus_find_dev (devs B) (get_bus id B) addr = Ok (abs_find (devs B) (L id) addr).
Proof. intros HL. apply bus_find_dev_repr, HL. Qed.

(** Changing nodes that are on no bus. *)
Lemma set_devs_frame B L h :
  bus_lists B L → (∀ q id, q ∈ L id → h !! q = devs B !! q) → bus_lists (set_devs h B) L.
Proof.
  intros [Hr Hd] Hf. split; [|done]. intros id.
  assert (get_bus id (set_devs h B) = get_bus id B) as -> by (by destruct id).
  cbn. eapply chain_frame; [|apply Hr]. intros. by eapply Hf.
Qed.
