(* ===== verification/Pci.v ===== *)
(** * The PCI host bridge (src/pci.c, src/pci.h)

    Configuration mechanism #1 (ports 0xCF8 and 0xCFC), the memory-mapped
    configuration window of arm64, and the configuration space of a device with
    its command register and base address registers. A [pci_dev] keeps the bytes
    of the configuration space; its [struct dev] nodes are the heap cells
    [PConfig w] and [PSpace w bar], and its bus pointers are the buses of
    [buses]. [pci_world] is the state the PCI callbacks share. *)

From stdpp Require Import base tactics numbers list gmap functions.
From S2P Require Import Prelude.
From S2P Require Import Uapi.
From S2P Require Import Bus.
From S2P Require Import Devices.
Open Scope Z_scope.

(** ** [union pci_config_address] *)

(** The bit-field view of the 32-bit value; fields from the least significant
    bit up. *)
Record pci_config_address := mkPciAddr {
  reg_offset : Z;
  reg_num : Z;
  func_num : Z;
  pci_dev_num : Z;
  bus_num : Z;
  reserved : Z;
  enable_bit : Z;
}.

Definition bits (v lo width : Z) : Z := Z.land (Z.shiftr v lo) (Z.ones width).

Definition pci_addr_fields (value : Z) : pci_config_address :=
  mkPciAddr (bits value 0 2) (bits value 2 6) (bits value 8 3) (bits value 11 5)
    (bits value 16 8) (bits value 24 7) (bits value 31 1).

Definition pci_addr_value (a : pci_config_address) : Z :=
  Z.lor (wrap 2 (reg_offset a))
  (Z.lor (Z.shiftl (wrap 6 (reg_num a)) 2)
  (Z.lor (Z.shiftl (wrap 3 (func_num a)) 8)
  (Z.lor (Z.shiftl (wrap 5 (pci_dev_num a)) 11)
  (Z.lor (Z.shiftl (wrap 8 (bus_num a)) 16)
  (Z.lor (Z.shiftl (wrap 7 (reserved a)) 24)
         (Z.shiftl (wrap 1 (enable_bit a)) 31)))))).

(** The assignment [pci_addr.reg_offset = 0]. *)
Definition clear_reg_offset (value : Z) : Z := Z.land value (unot 32 0x3).

(** ** [struct pci_dev] and [struct pci] *)

Record pci_dev := mkPciDev {
  cfg_space : list Z;
  bar_size : list Z;
  bar_active : list bool;
  bar_is_io_space : list bool;
}.

Definition set_cfg_space (v : list Z) (d : pci_dev) : pci_dev :=
  mkPciDev v (bar_size d) (bar_active d) (bar_is_io_space d).
Definition set_bar_active (v : list bool) (d : pci_dev) : pci_dev :=
  mkPciDev (cfg_space d) (bar_size d) v (bar_is_io_space d).

(** The devices' PCI parts, the buses and the address latch of [struct pci]. *)
Record pci_world := mkPciWorld {
  pw_buses : buses;
  pw_blk : pci_dev;
  pw_net : pci_dev;
  pci_addr : Z;
}.

Definition pw_dev (w : vdev_id) (W : pci_world) : pci_dev :=
  match w with VirtioBlk => pw_blk W | VirtioNet => pw_net W end.

Definition set_pw_dev (w : vdev_id) (d : pci_dev) (B : buses) (W : pci_world) : pci_world :=
  match w with
  | VirtioBlk => mkPciWorld B d (pw_net W) (pci_addr W)
  | VirtioNet => mkPciWorld B (pw_blk W) d (pci_addr W)
  end.

Definition set_pci_addr (v : Z) (W : pci_world) : pci_world :=
  mkPciWorld (pw_buses W) (pw_blk W) (pw_net W) v.

Definition PCI_BAR_OFFSET (bar : nat) : Z := PCI_BASE_ADDRESS_0 + Z.shiftl (Z.of_nat bar) 2.

(** [uint32_t mask = ~(dev->bar_size[bar] - 1)] *)
Definition bar_mask (size : Z) : Z := unot 32 (u32 (size - 1)).

(** ** Ports 0xCF8 *)

Definition pci_address_io (data : list Z) (is_write : bool) (offset size : Z)
    (W : pci_world) : res (pci_world * list Z) :=
  let p := le_bytes 4 (pci_addr W) in
  if is_write then
    src ← mread data 0 size;
    p ← mwrite p offset src;
    Ok (set_pci_addr (clear_reg_offset (le_val p)) W, data)
  else
    src ← mread p offset size;
    data ← mwrite data 0 src;
    Ok (set_pci_addr (clear_reg_offset (le_val p)) W, data).

(** ** Base address registers *)

Section bars.
Context (w : vdev_id).

Definition pci_activate_bar (d : pci_dev) (bar : nat) (id : bus_id) (B : buses)
    : res (pci_dev * buses) :=
  size ← from_option_res OutOfBounds (bar_size d !! bar);
  active ← from_option_res OutOfBounds (bar_active d !! bar);
  node ← from_option_res WildPointer (devs B !! PSpace w bar);
  B ← (if negb active && nonzero (Z.land (base node) (bar_mask size))
       then register id (PSpace w bar) B else Ok B);
  Ok (set_bar_active (<[bar := true]> (bar_active d)) d, B).

Definition pci_deactivate_bar (d : pci_dev) (bar : nat) (id : bus_id) (B : buses)
    : res (pci_dev * buses) :=
  size ← from_option_res OutOfBounds (bar_size d !! bar);
  active ← from_option_res OutOfBounds (bar_active d !! bar);
  node ← from_option_res WildPointer (devs B !! PSpace w bar);
  B ← (if active && nonzero (Z.land (base node) (bar_mask size))
       then deregister id (PSpace w bar) B else Ok B);
  Ok (set_bar_active (<[bar := false]> (bar_active d)) d, B).

(** The body of the loop of [pci_command_bar] for one BAR. *)
Definition command_one_bar (enable_io enable_mem : bool) (s : pci_dev * buses) (bar : nat)
    : res (pci_dev * buses) :=
  let '(d, B) := s in
  io ← from_option_res OutOfBounds (bar_is_io_space d !! bar);
  let id := if io : bool then IoBus else MmioBus in
  let enable := if io then enable_io else enable_mem in
  if enable then pci_activate_bar d bar id B else pci_deactivate_bar d bar id B.

Definition pci_command_bar (d : pci_dev) (B : buses) : res (pci_dev * buses) :=
  cmd ← load 2 (cfg_space d) PCI_COMMAND;
  let enable_io := nonzero (Z.land cmd PCI_COMMAND_IO) in
  let enable_mem := nonzero (Z.land cmd PCI_COMMAND_MEMORY) in
  foldM (command_one_bar enable_io enable_mem) (d, B) (seq 0 (Z.to_nat PCI_STD_NUM_BARS)).

Definition pci_config_command := pci_command_bar.

Definition pci_config_bar (d : pci_dev) (bar : nat) (B : buses) : res (pci_dev * buses) :=
  size ← from_option_res OutOfBounds (bar_size d !! bar);
  io ← from_option_res OutOfBounds (bar_is_io_space d !! bar);
  old_bar ← load 4 (cfg_space d) (PCI_BAR_OFFSET bar);
  let new_bar := Z.lor (Z.land old_bar (bar_mask size)) (Z.b2z io) in
  cfg ← store 4 (cfg_space d) (PCI_BAR_OFFSET bar) new_bar;
  node ← from_option_res WildPointer (devs B !! PSpace w bar);
  Ok (set_cfg_space cfg d,
      set_devs (<[PSpace w bar := set_base new_bar node]> (devs B)) B).

(** ** Configuration space accesses *)

Definition pci_config_write (d : pci_dev) (B : buses) (data : list Z) (offset size : Z)
    : res (pci_dev * buses) :=
  src ← mread data 0 size;
  cfg ← mwrite (cfg_space d) offset src;
  let d := set_cfg_space cfg d in
  if offset =? PCI_COMMAND then pci_config_command d B
  else if (PCI_BASE_ADDRESS_0 <=? offset) && (offset <=? PCI_BASE_ADDRESS_5) then
    pci_config_bar d (Z.to_nat (u8 (Z.shiftr (offset - PCI_BASE_ADDRESS_0) 2))) B
  else if offset =? PCI_ROM_ADDRESS then
    cfg ← store 4 (cfg_space d) PCI_ROM_ADDRESS 0;
    Ok (set_cfg_space cfg d, B)
  else Ok (d, B).

Definition pci_config_read (d : pci_dev) (data : list Z) (offset size : Z)
    : res (list Z) :=
  src ← mread (cfg_space d) offset size;
  mwrite data 0 src.

Definition pci_config_do_io (data : list Z) (is_write : bool) (offset size : Z)
    (W : pci_world) : res (pci_world * list Z) :=
  let d := pw_dev w W in
  if is_write then
    '(d, B) ← pci_config_write d (pw_buses W) data offset size;
    Ok (set_pw_dev w d B W, data)
  else
    data ← pci_config_read d data offset size;
    Ok (W, data).

Definition pci_set_bar (d : pci_dev) (B : buses) (bar : nat) (size : Z) (is_io_space : bool)
    (do_io : io_fn) : res (pci_dev * buses) :=
  cfg ← store 4 (cfg_space d) (PCI_BAR_OFFSET bar) (Z.b2z is_io_space);
  _ ← from_option_res OutOfBounds (bar_size d !! bar);
  Ok (mkPciDev cfg (<[bar := size]> (bar_size d)) (bar_active d)
        (<[bar := is_io_space]> (bar_is_io_space d)),
      set_devs (dev_init (devs B) (PSpace w bar) 0 size (OPciDev w) do_io) B).

Definition pci_set_status (d : pci_dev) (status : Z) : res pci_dev :=
  cfg ← store 2 (cfg_space d) PCI_STATUS status;
  Ok (set_cfg_space cfg d).

(** [memset(dev, 0x00, sizeof(struct pci_dev))] clears the nodes too. *)
Definition zero_dev : hdev := mkDev 0 0 ONull FNull None.

Definition pci_dev_init (B : buses) : pci_dev * buses :=
  (mkPciDev (replicate (Z.to_nat PCI_CFG_SPACE_SIZE) 0) (replicate 6 0)
     (replicate 6 false) (replicate 6 false),
   set_devs (<[PConfig w := zero_dev]>
     (foldr (λ bar h, <[PSpace w bar := zero_dev]> h) (devs B) (seq 0 6))) B).

Definition pci_dev_register (B : buses) : res buses :=
  let addr := mkPciAddr 0 0 0 (dev_num (pci_bus B)) 0 0 0 in
  let h := dev_init (devs B) (PConfig w) (pci_addr_value addr) PCI_CFG_SPACE_SIZE
             (OPciDev w) F_pci_config_do_io in
  register PciBus (PConfig w) (set_devs h B).
End bars.

(** ** Port 0xCFC and the memory-mapped window *)

(** [call] runs a callback found on the PCI bus on the state [St], of which
    [pw] is the PCI part. *)
Section forward.
Context {St : Type} (pw : St → pci_world).
Context (call : dev_owner → io_fn → list Z → bool → Z → Z → St → res (St * list Z)).

Definition pci_data_io (data : list Z) (is_write : bool) (offset size : Z) (s : St)
    : res (St * list Z) :=
  let W := pw s in
  if nonzero (enable_bit (pci_addr_fields (pci_addr W))) then
    let addr := Z.land (Z.lor (pci_addr W) offset) (unot 64 (Z.shiftl 1 31)) in
    bus_handle_io call (devs (pw_buses W)) (pci_bus (pw_buses W)) data is_write addr size s
  else Ok (s, data).

Definition pci_mmio_io (data : list Z) (is_write : bool) (offset size : Z) (s : St)
    : res (St * list Z) :=
  let W := pw s in
  bus_handle_io call (devs (pw_buses W)) (pci_bus (pw_buses W)) data is_write offset size s.
End forward.

Definition PCI_CONFIG_ADDR : Z := 0xCF8.
Definition PCI_CONFIG_DATA : Z := 0xCFC.
Definition PCI_MMIO_SIZE : Z := Z.shiftl 1 16.

Definition pci_init (B : buses) : buses :=
  let h := dev_init (devs B) PPciAddr PCI_CONFIG_ADDR 4 OPci F_pci_address_io in
  let h := dev_init h PPciBus PCI_CONFIG_DATA 4 OPci F_pci_data_io in
  let h := dev_init h PPciMmio 0 PCI_MMIO_SIZE OPci F_pci_mmio_io in
  mkBuses h (io_bus B) (mmio_bus B) bus_init.

(** * The address latch *)

Lemma testbit_bits v lo width j :
  0 ≤ lo → 0 ≤ width → 0 ≤ j →
  Z.testbit (bits v lo width) j = (j <? width) && Z.testbit v (j + lo).
Proof.
  intros. unfold bits. rewrite Z.land_spec, Z.shiftr_spec, Z.testbit_ones_nonneg by done.
  apply andb_comm.
Qed.

Lemma bits_range v lo width : 0 ≤ width → 0 ≤ bits v lo width < 2 ^ width.
Proof.
  intros. unfold bits. rewrite Z.land_ones by done. by apply (wrap_range width).
Qed.

Lemma testbit_field f width lo i :
  0 ≤ lo → 0 ≤ width → 0 ≤ i →
  Z.testbit (Z.shiftl (wrap width f) lo) i =
    (lo <=? i) && (i <? lo + width) && Z.testbit f (i - lo).
Proof.
  intros. rewrite Z.shiftl_spec, wrap_testbit by done.
  destruct (Z.leb_spec lo i).
  - cbn. f_equal. apply eq_bool_prop_intro. rewrite !Is_true_true, !Z.ltb_lt. lia.
  - rewrite Z.testbit_neg_r by lia. by rewrite andb_false_r.
Qed.

(** The bits of the packed value, field by field. *)
Lemma pci_addr_value_testbit a i :
  0 ≤ i →
  Z.testbit (pci_addr_value a) i =
    if i <? 2 then Z.testbit (reg_offset a) i
    else if i <? 8 then Z.testbit (reg_num a) (i - 2)
    else if i <? 11 then Z.testbit (func_num a) (i - 8)
    else if i <? 16 then Z.testbit (pci_dev_num a) (i - 11)
    else if i <? 24 then Z.testbit (bus_num a) (i - 16)
    else if i <? 31 then Z.testbit (reserved a) (i - 24)
    else if i <? 32 then Z.testbit (enable_bit a) (i - 31) else false.
Proof.
  intros Hi. unfold pci_addr_value.
  rewrite !Z.lor_spec, !testbit_field, wrap_testbit by lia.
  repeat match goal with
  | |- context [?a <? ?b] => destruct (Z.ltb_spec a b); try lia
  | |- context [?a <=? ?b] => destruct (Z.leb_spec a b); try lia
  end; cbn; by rewrite ?orb_false_r, ?orb_false_l.
Qed.

Lemma pci_addr_value_range a : 0 ≤ pci_addr_value a < 2 ^ 32.
Proof.
  assert (pci_addr_value a = u32 (pci_addr_value a)) as ->; [|by apply wrap_range].
  apply Z.bits_inj'. intros i Hi. rewrite wrap_testbit, pci_addr_value_testbit by lia.
  destruct (Z.ltb_spec i 32); [done|].
  repeat match goal with |- context [?a <? ?b] => destruct (Z.ltb_spec a b); try lia end.
Qed.

Lemma pci_addr_value_fields v : 0 ≤ v < 2 ^ 32 → pci_addr_value (pci_addr_fields v) = v.
Proof.
  intros Hv. apply (bits_ext 32); [lia|apply pci_addr_value_range|done|].
  intros i Hi. rewrite pci_addr_value_testbit by lia. cbn.
  repeat match goal with |- context [i <? ?b] => destruct (Z.ltb_spec i b) end;
    rewrite ?testbit_bits by lia; try lia;
    (rewrite (proj2 (Z.ltb_lt _ _)) by lia); cbn; f_equal; lia.
Qed.

(** Fields that fit their widths. *)
Definition pci_addr_wf (a : pci_config_address) : Prop :=
  0 ≤ reg_offset a < 2 ^ 2 ∧ 0 ≤ reg_num a < 2 ^ 6 ∧ 0 ≤ func_num a < 2 ^ 3 ∧
  0 ≤ pci_dev_num a < 2 ^ 5 ∧ 0 ≤ bus_num a < 2 ^ 8 ∧ 0 ≤ reserved a < 2 ^ 7 ∧
  0 ≤ enable_bit a < 2 ^ 1.

Lemma pci_addr_fields_value a : pci_addr_wf a → pci_addr_fields (pci_addr_value a) = a.
Proof.
  intros (H1&H2&H3&H4&H5&H6&H7). destruct a as [a1 a2 a3 a4 a5 a6 a7]. cbn in *.
  unfold pci_addr_fields.
  f_equal; (eapply bits_ext; [| |eassumption|]; [lia|apply bits_range; lia|]);
    intros i Hi; rewrite testbit_bits, pci_addr_value_testbit by lia; cbn;
    repeat match goal with |- context [?a <? ?b] => destruct (Z.ltb_spec a b); try lia end;
    cbn; f_equal; lia.
Qed.

Lemma bits_div_mod v lo width :
  0 ≤ lo → 0 ≤ width → bits v lo width = (v / 2 ^ lo) `mod` 2 ^ width.
Proof. intros. unfold bits. by rewrite Z.land_ones, Z.shiftr_div_pow2. Qed.

(** The value as the weighted sum of its fields. *)
Lemma fields_sum v :
  0 ≤ v < 2 ^ 32 →
  let a := pci_addr_fields v in
  v = reg_offset a + 4 * reg_num a + 256 * func_num a + 2048 * pci_dev_num a +
    65536 * bus_num a + 2 ^ 24 * reserved a + 2 ^ 31 * enable_bit a ∧ pci_addr_wf a.
Proof.
  intros Hv a. split; [|repeat split; apply bits_range; lia].
  subst a. unfold pci_addr_fields; cbn [reg_offset reg_num func_num pci_dev_num bus_num
    reserved enable_bit]. rewrite !bits_div_mod by lia.
  change (2 ^ 0) with 1. change (2 ^ 2) with 4. change (2 ^ 6) with 64.
  change (2 ^ 8) with 256. change (2 ^ 3) with 8. change (2 ^ 11) with 2048.
  change (2 ^ 5) with 32. change (2 ^ 16) with 65536. change (2 ^ 24) with 16777216.
  change (2 ^ 7) with 128. change (2 ^ 31) with 2147483648. change (2 ^ 1) with 2.
  change (2 ^ 32) with 4294967296 in Hv.
  Z.div_mod_to_equations. lia.
Qed.

Lemma clear_reg_offset_spec v :
  0 ≤ v < 2 ^ 32 → clear_reg_offset v = v - reg_offset (pci_addr_fields v).
Proof.
  intros Hv. unfold clear_reg_offset. cbn.
  rewrite bits_div_mod by lia. change (2 ^ 0) with 1. rewrite Z.div_1_r.
  assert (Z.land v (unot 32 3) = Z.shiftl (Z.shiftr v 2) 2) as ->.
  { apply Z.bits_inj'. intros i Hi. rewrite Z.land_spec, Z.shiftl_spec by done.
    unfold unot. rewrite wrap_testbit, Z.lnot_spec by done.
    destruct (decide (i < 2)).
    - rewrite (Z.testbit_neg_r _ (i - 2)) by lia.
      assert (i = 0 ∨ i = 1) as [->| ->] by lia; by rewrite andb_false_r.
    - rewrite Z.shiftr_spec by lia. replace (i - 2 + 2) with i by lia.
      assert (Z.testbit 3 i = false) as -> by (apply (testbit_above 2); lia).
      destruct (Z.ltb_spec i 32); [by rewrite andb_true_r|].
      by rewrite (testbit_above 32 v) by lia. }
  rewrite Z.shiftl_mul_pow2, Z.shiftr_div_pow2 by lia.
  change (2 ^ 2) with 4. Z.div_mod_to_equations. lia.
Qed.

(** The address [pci_data_io] forms from the latch and the port offset. *)
Lemma data_port_addr v offset :
  0 ≤ v < 2 ^ 32 → reg_offset (pci_addr_fields v) = 0 → 0 ≤ offset < 4 →
  let a := pci_addr_fields v in
  Z.land (Z.lor v offset) (unot 64 (Z.shiftl 1 31)) =
    offset + 4 * reg_num a + 256 * func_num a + 2048 * pci_dev_num a +
    65536 * bus_num a + 2 ^ 24 * reserved a.
Proof.
  intros Hv Hr Ho a. destruct (fields_sum v Hv) as [Hsum (?&?&?&?&?&?&?)].
  fold a in Hsum. subst a. rewrite Hr in Hsum.
  assert (v `mod` 2 ^ 2 = 0) as Hm.
  { rewrite Hsum. change (2 ^ 2) with 4. Z.div_mod_to_equations. lia. }
  rewrite (lor_low 2) by done. rewrite (land_clear_top 64 31) by lia.
  set (a := pci_addr_fields v) in *.
  symmetry. apply (Z.mod_unique_pos _ _ (enable_bit a)); lia.
Qed.

(** ** Routing of configuration cycles *)

(** The PCI bus holds configuration windows only, each at the address of its
    slot, no slot twice. *)
Record pci_bus_ok (B : buses) (l : list dev_ptr) (slot : vdev_id → Z) : Prop := {
  slots_repr : bus_repr (devs B) (pci_bus B) l;
  slots_node q : q ∈ l → ∃ v nx, q = PConfig v ∧ 0 ≤ slot v < 32 ∧
    devs B !! q = Some (mkDev (2048 * slot v) PCI_CFG_SPACE_SIZE (OPciDev v)
      F_pci_config_do_io nx);
  slots_inj v1 v2 : PConfig v1 ∈ l → PConfig v2 ∈ l → slot v1 = slot v2 → v1 = v2;
}.

(** Which device answers the address [addr] of the PCI bus. *)
Lemma pci_bus_find B l slot addr r :
  pci_bus_ok B l slot → bus_find_dev (devs B) (pci_bus B) addr = Ok r →
  match r with
  | Some q => ∃ v, q = PConfig v ∧ q ∈ l ∧ 2048 * slot v ≤ addr < 2048 * slot v + 256
  | None => ∀ v, PConfig v ∈ l → ¬ (2048 * slot v ≤ addr < 2048 * slot v + 256)
  end.
Proof.
  intros [Hr Hn Hi] Hf. rewrite (bus_find_dev_repr _ _ _ _ Hr) in Hf.
  injection Hf as <-. destruct (abs_find (devs B) l addr) as [q|] eqn:E.
  - destruct (abs_find_Some _ _ _ _ E) as (Hin&d&Hd&Hh).
    destruct (Hn q Hin) as (v&nx&->&?&Hd'). simplify_eq. exists v. split_and!; try done;
      apply dev_hit_spec in Hh; try (unfold dev_wf; cbn; unfold PCI_CFG_SPACE_SIZE; lia);
      cbn in Hh; unfold PCI_CFG_SPACE_SIZE in Hh; lia.
  - intros v Hin Hr'. destruct (Hn _ Hin) as (v'&nx&[= <-]&?&Hd).
    pose proof (List.find_none _ _ E (PConfig v)) as Hnone.
    rewrite <-list_elem_of_In in Hnone. specialize (Hnone Hin). unfold hits in Hnone.
    rewrite Hd in Hnone. apply not_true_iff_false in Hnone. apply Hnone.
    apply dev_hit_spec; [unfold dev_wf|]; cbn; unfold PCI_CFG_SPACE_SIZE; lia.
Qed.

(** A full write of port 0xCF8 latches the value, register offset cleared. *)
Lemma pci_address_write v W :
  0 ≤ v < 2 ^ 32 →
  pci_address_io (le_bytes 4 v) true 0 4 W =
    Ok (set_pci_addr (clear_reg_offset v) W, le_bytes 4 v).
Proof.
  intros Hv. unfold pci_address_io.
  rewrite mread_all by (by rewrite lenZ_le_bytes). rewrite bind_Ok.
  rewrite mwrite_all by (by rewrite !lenZ_le_bytes). rewrite bind_Ok.
  rewrite le_val_le_bytes by lia. change (8 * 4) with 32. by rewrite wrap_small.
Qed.

(** Clearing the register offset leaves the other fields. *)
Lemma clear_reg_offset_fields v :
  0 ≤ v < 2 ^ 32 →
  let a := pci_addr_fields v in
  0 ≤ clear_reg_offset v < 2 ^ 32 ∧
  pci_addr_fields (clear_reg_offset v) =
    mkPciAddr 0 (reg_num a) (func_num a) (pci_dev_num a) (bus_num a) (reserved a) (enable_bit a).
Proof.
  intros Hv a. destruct (fields_sum v Hv) as [Hsum Hwf].
  pose proof (clear_reg_offset_spec v Hv) as Hclr.
  fold a in Hsum, Hwf, Hclr. clearbody a. pose proof Hwf as (?&?&?&?&?&?&?).
  assert (clear_reg_offset v = pci_addr_value (mkPciAddr 0 (reg_num a) (func_num a)
    (pci_dev_num a) (bus_num a) (reserved a) (enable_bit a))) as ->.
  { rewrite Hclr.
    match goal with |- _ = pci_addr_value ?b =>
      pose proof (fields_sum _ (pci_addr_value_range b)) as [Hs' _] end.
    rewrite pci_addr_fields_value in Hs' by (repeat split; cbn; lia).
    rewrite Hs'. cbn [reg_offset reg_num func_num pci_dev_num bus_num reserved enable_bit].
    lia. }
  split; [apply pci_addr_value_range|]. apply pci_addr_fields_value. repeat split; cbn; lia.
Qed.

(** The latched register of a slot, on the PCI bus. *)
Lemma conf1_target B l slot u v offset size :
  pci_bus_ok B l slot → 0 ≤ v < 2 ^ 32 →
  0 ≤ offset → 1 ≤ size → offset + size ≤ 4 →
  PConfig u ∈ l →
  let a := pci_addr_fields v in
  slot u = pci_dev_num a → bus_num a = 0 → func_num a = 0 → reserved a = 0 →
  ∃ nx, bus_find_dev (devs B) (pci_bus B) (offset + 4 * reg_num a + 2048 * slot u) =
      Ok (Some (PConfig u)) ∧
    devs B !! PConfig u = Some (mkDev (2048 * slot u) PCI_CFG_SPACE_SIZE (OPciDev u)
      F_pci_config_do_io nx).
Proof.
  intros Hok Hv Ho Hs Hos Hu a Hslot Hb Hf Hr. destruct (fields_sum v Hv) as [_ (?&?&_)].
  fold a in H, H0. destruct (slots_node _ _ _ Hok _ Hu) as (u'&nx&[= <-]&?&Hd).
  exists nx. split; [|done].
  destruct (bus_find_dev (devs B) (pci_bus B) (offset + 4 * reg_num a + 2048 * slot u))
    as [r|] eqn:E; [|by rewrite (bus_find_dev_repr _ _ _ _ (slots_repr _ _ _ Hok)) in E].
  pose proof (pci_bus_find _ _ _ _ _ Hok E) as Hfind. destruct r as [q|].
  - destruct Hfind as (u'&->&Hin&Hrange).
    destruct (slots_node _ _ _ Hok _ Hin) as (?&?&[= <-]&?&_).
    assert (slot u' = slot u) as Eq by lia.
    by rewrite (slots_inj _ _ _ Hok _ _ Hin Hu Eq).
  - exfalso. apply (Hfind u Hu). lia.
Qed.

(** C22: configuration mechanism #1. After the guest writes an address to port
    0xCF8, an access of the data port that stays inside the 32-bit register
    reaches exactly the device in the addressed slot, at the addressed register
    of its configuration space; when the address is disabled, or names another
    bus, another function, a set reserved bit or an empty slot, state and data
    buffer are left as they were. *)
Theorem pci_conf1_access W W1 d0 call l slot v data is_write offset size :
  pci_bus_ok (pw_buses W) l slot → 0 ≤ v < 2 ^ 32 →
  pci_address_io (le_bytes 4 v) true 0 4 W = Ok (W1, d0) →
  0 ≤ offset → 1 ≤ size → offset + size ≤ 4 →
  let a := pci_addr_fields v in
  let there := enable_bit a = 1 ∧ bus_num a = 0 ∧ func_num a = 0 ∧ reserved a = 0 in
  (∀ u, there → PConfig u ∈ l → slot u = pci_dev_num a →
    pci_data_io id call data is_write offset size W1 =
      call (OPciDev u) F_pci_config_do_io data is_write (4 * reg_num a + offset) size W1) ∧
  (¬ there ∨ (∀ u, PConfig u ∈ l → slot u ≠ pci_dev_num a) →
    pci_data_io id call data is_write offset size W1 = Ok (W1, data)).
Proof.
  intros Hok Hv Hw Ho Hs Hos a there. rewrite pci_address_write in Hw by done.
  injection Hw as <- <-. destruct (clear_reg_offset_fields v Hv) as [Hv' Ha].
  fold a in Ha. destruct (fields_sum v Hv) as [_ (Hw1&Hw2&Hw3&Hw4&Hw5&Hw6&Hw7)].
  fold a in Hw1, Hw2, Hw3, Hw4, Hw5, Hw6, Hw7.
  unfold pci_data_io, id. cbn [pci_addr set_pci_addr pw_buses].
  rewrite data_port_addr; [|done|by rewrite Ha|lia]. rewrite Ha.
  cbn [reg_num func_num pci_dev_num bus_num reserved enable_bit]. split.
  - intros u (He&Hb&Hf&Hr) Hu Hslot. rewrite He. change (nonzero 1) with true. cbv iota.
    match goal with |- bus_handle_io _ _ _ _ _ ?x _ _ = _ =>
      replace x with (offset + 4 * reg_num a + 2048 * pci_dev_num a) by lia end.
    destruct (conf1_target _ _ _ u v offset size Hok) as (nx&Hfind&Hd); try done.
    fold a in Hfind. rewrite Hslot in Hfind, Hd.
    unfold bus_handle_io. rewrite Hfind, bind_Ok, Hd. cbn [from_option_res]. rewrite bind_Ok.
    cbn [base len owner do_io]. rewrite !(wrap_small 64) by (unfold PCI_CFG_SPACE_SIZE; lia).
    rewrite (proj2 (Z.leb_le _ _)) by (unfold PCI_CFG_SPACE_SIZE; lia).
    f_equal. lia.
  - intros Hnot. destruct (nonzero (enable_bit a)) eqn:He; [|done].
    assert (enable_bit a = 1) as He1 by (unfold nonzero in He; zbool; lia).
    unfold bus_handle_io.
    destruct (bus_find_dev _ _ _) as [r|] eqn:E;
      [|by rewrite (bus_find_dev_repr _ _ _ _ (slots_repr _ _ _ Hok)) in E].
    pose proof (pci_bus_find _ _ _ _ _ Hok E) as Hfind. destruct r as [q|]; [|done].
    exfalso. destruct Hfind as (u&->&Hin&Hr).
    destruct (slots_node _ _ _ Hok _ Hin) as (?&?&[= <-]&?&_).
    destruct Hnot as [Hn|Hn]; [apply Hn; unfold there|apply (Hn u Hin)]; lia.
Qed.

(** * Base address registers and decoding *)

Definition bar_bus (io : bool) : bus_id := if io then IoBus else MmioBus.

(** Is the region of the BAR decoded? *)
Definition decodes (active : bool) (base_ size : Z) : bool :=
  active && nonzero (Z.land base_ (bar_mask size)).

(** A BAR is consistent when its node is on the bus of its space exactly while
    it is decoded, and on no other bus. *)
Definition bar_inv w d B (L : bus_id → list dev_ptr) (bar : nat) : Prop :=
  ∃ node size active io,
    devs B !! PSpace w bar = Some node ∧ bar_size d !! bar = Some size ∧
    bar_active d !! bar = Some active ∧ bar_is_io_space d !! bar = Some io ∧
    ∀ id, PSpace w bar ∈ L id ↔ id = bar_bus io ∧ decodes active (base node) size = true.

Record pci_inv w d B L : Prop := {
  pinv_cfg : lenZ (cfg_space d) = PCI_CFG_SPACE_SIZE;
  pinv_bytes : bytes_ok (cfg_space d);
  pinv_lists : bus_lists B L;
  pinv_bars bar : (bar < 6)%nat → bar_inv w d B L bar;
}.

Lemma bar_inv_frame w d B L d' B' L' bar :
  bar_inv w d B L bar → same_devs (devs B) (devs B') →
  bar_size d' !! bar = bar_size d !! bar → bar_active d' !! bar = bar_active d !! bar →
  bar_is_io_space d' !! bar = bar_is_io_space d !! bar →
  (∀ id, PSpace w bar ∈ L' id ↔ PSpace w bar ∈ L id) →
  bar_inv w d' B' L' bar.
Proof.
  intros (node&size&active&io&Hn&Hs&Ha&Hio&Hiff) Hsame E1 E2 E3 HL.
  destruct (same_devs_lookup _ _ _ _ Hsame Hn) as [nx Hn'].
  exists (set_next nx node), size, active, io. rewrite E1, E2, E3.
  split_and!; try done. intros id. by rewrite HL, Hiff.
Qed.

(** Switching the decoding of one BAR on or off. *)
Lemma switch_bar_inv w d B L bar id (on : bool) :
  pci_inv w d B L → (bar < 6)%nat →
  (∃ io, bar_is_io_space d !! bar = Some io ∧ id = bar_bus io) →
  ∃ d' B' L',
    (if on then pci_activate_bar w d bar id B else pci_deactivate_bar w d bar id B) =
      Ok (d', B') ∧
    pci_inv w d' B' L' ∧ d' = set_bar_active (<[bar := on]> (bar_active d)) d ∧
    same_devs (devs B) (devs B').
Proof.
  intros [Hc Hby HL Hbars] Hbar (io&Hio&->).
  destruct (Hbars bar Hbar) as (node&size&active&io'&Hn&Hs&Ha&Hio'&Hiff). simplify_eq.
  set (d' := set_bar_active (<[bar := on]> (bar_active d)) d).
  set (z := nonzero (Z.land (base node) (bar_mask size))).
  assert (Hact : bar_active d' !! bar = Some on).
  { apply list_lookup_insert_eq. by eapply lookup_lt_Some. }
  assert (Hother : ∀ B' L', bus_lists B' L' → same_devs (devs B) (devs B') →
    (∀ p id, p ≠ PSpace w bar → p ∈ L' id ↔ p ∈ L id) →
    (∀ id, PSpace w bar ∈ L' id ↔ id = bar_bus io ∧ decodes on (base node) size = true) →
    pci_inv w d' B' L').
  { intros B' L' HL' Hsame Hp Hme. split; try done. intros j Hj.
    destruct (decide (j = bar)) as [->|Hne].
    - destruct (same_devs_lookup _ _ _ _ Hsame Hn) as [nx Hn'].
      exists (set_next nx node), size, on, io. by split_and!.
    - apply (bar_inv_frame w d B L); auto; [by apply list_lookup_insert_ne|].
      intros. apply Hp. congruence. }
  assert (Hsame0 : same_devs (devs B) (devs B)) by (by intros q).
  unfold pci_activate_bar, pci_deactivate_bar. rewrite Hs, Ha, Hn. cbn [from_option_res].
  rewrite !bind_Ok. fold z. unfold decodes in *. fold z in Hiff, Hother.
  destruct on, active, z eqn:Ez; cbn [negb andb].
  all: try (exists d', B, L; split_and!; try done; apply Hother; try done;
    intros id; rewrite Hiff; naive_solver).
  - destruct (register_lists B L (bar_bus io) (PSpace w bar)) as (B'&->&HL'&Hsame&_);
      [done|by eexists|intros id'; rewrite Hiff; naive_solver|].
    eexists _, B', _; split; [done|]. split_and!; try done. apply (Hother _ _ HL' Hsame).
    + intros p id Hp. unfold insert, fn_insert. case_decide; subst; set_solver.
    + intros id. unfold insert, fn_insert. case_decide; subst; [set_solver|].
      rewrite Hiff. naive_solver.
  - destruct (deregister_lists B L (bar_bus io) (PSpace w bar)) as (B'&->&HL'&Hsame); [done|].
    eexists _, B', _; split; [done|]. split_and!; try done. apply (Hother _ _ HL' Hsame).
    + intros p id Hp. unfold insert, fn_insert. case_decide; subst; [|done].
      unfold abs_remove. rewrite list_elem_of_filter. naive_solver.
    + intros id. unfold insert, fn_insert. case_decide; subst.
      * unfold abs_remove. rewrite list_elem_of_filter. naive_solver.
      * rewrite Hiff. naive_solver.
Qed.

(** The regions of space [io] are enabled by their bit of the command register. *)
Definition command_enables (cmd : Z) (io : bool) : bool :=
  Z.testbit cmd (if io then 0 else 1).

Lemma command_bits cmd :
  nonzero (Z.land cmd PCI_COMMAND_IO) = command_enables cmd true ∧
  nonzero (Z.land cmd PCI_COMMAND_MEMORY) = command_enables cmd false.
Proof. split; [apply (nonzero_land_pow2 cmd 0)|apply (nonzero_land_pow2 cmd 1)]; lia. Qed.

(** The loop of [pci_command_bar] makes every BAR follow the command register. *)
Lemma pci_command_bar_inv w d B L cmd :
  pci_inv w d B L → load 2 (cfg_space d) PCI_COMMAND = Ok cmd →
  ∃ d' B' L', pci_command_bar w d B = Ok (d', B') ∧ pci_inv w d' B' L' ∧
    same_devs (devs B) (devs B') ∧ cfg_space d' = cfg_space d ∧
    bar_size d' = bar_size d ∧ bar_is_io_space d' = bar_is_io_space d ∧
    ∀ bar io, (bar < 6)%nat → bar_is_io_space d !! bar = Some io →
      bar_active d' !! bar = Some (command_enables cmd io).
Proof.
  intros Hinv Hcmd. unfold pci_command_bar. rewrite Hcmd, bind_Ok.
  destruct (command_bits cmd) as [-> ->].
  destruct (foldM_seq (command_one_bar w (command_enables cmd true) (command_enables cmd false))
    (λ k s, ∃ L', pci_inv w s.1 s.2 L' ∧ same_devs (devs B) (devs s.2) ∧
      cfg_space s.1 = cfg_space d ∧ bar_size s.1 = bar_size d ∧
      bar_is_io_space s.1 = bar_is_io_space d ∧
      ∀ bar io, (bar < k)%nat → bar_is_io_space d !! bar = Some io →
        bar_active s.1 !! bar = Some (command_enables cmd io)) (d, B) 6)
    as ([d' B']&E&L'&?&?&?&?&?&?).
  - exists L. split_and!; try done. lia.
  - intros k [dk Bk] Hk (Lk&Hik&Hsk&Hck&Hbk&Hiok&Hak). cbn [fst snd] in *.
    destruct (pinv_bars _ _ _ _ Hik k Hk) as (node&size&act&io&_&_&Hact&Hio&_).
    unfold command_one_bar. rewrite Hio. cbn [from_option_res]. rewrite bind_Ok.
    destruct (switch_bar_inv w dk Bk Lk k (bar_bus io) (command_enables cmd io) Hik Hk)
      as (d2&B2&L2&E&Hi2&->&Hs2); [by exists io|].
    exists (set_bar_active (<[k:=command_enables cmd io]> (bar_active dk)) dk, B2).
    split; [by destruct io|]. exists L2. cbn.
    split_and!; try done; [by eapply same_devs_trans|].
    intros bar io' Hb Hio'. destruct (decide (bar = k)) as [->|].
    + rewrite Hiok in Hio. simplify_eq. apply list_lookup_insert_eq. by eapply lookup_lt_Some.
    + rewrite list_lookup_insert_ne by done. apply Hak; [lia|done].
  - exists d', B', L'. split_and!; try done.
Qed.

(** ** Configuration writes *)

(** The low byte of the command register holds the enable bits. *)
Lemma load_command_low (m : list Z) cmd :
  bytes_ok m → load 2 m PCI_COMMAND = Ok cmd →
  ∃ c, load 1 m PCI_COMMAND = Ok c ∧ ∀ io, command_enables c io = command_enables cmd io.
Proof.
  intros Hm (Ho&_&Hb&->)%load_ok_iff. unfold PCI_COMMAND in *.
  change (Z.to_nat 2) with 2%nat. cbn [get_bytes].
  exists (le_val (get_bytes m 4 1)). split; [apply load_ok_iff; split_and!; auto; lia|].
  intros io. unfold command_enables, le_val. cbn [get_bytes little_endian_to_Z].
  rewrite Z.shiftl_0_l, !Z.lor_0_r, Z.lor_spec.
  assert (∀ x i, i < 8 → Z.testbit (Z.shiftl x 8) i = false) as Hz.
  { intros x i Hi. destruct (decide (0 ≤ i)); [|by rewrite Z.testbit_neg_r by lia].
    rewrite Z.shiftl_spec by done. apply Z.testbit_neg_r. lia. }
  by destruct io; rewrite Hz, orb_false_r by lia.
Qed.

(** The configuration space and the host's view of a BAR agree: the enable flag
    is the bit of the command register, and the region's base is the address
    the BAR register holds. *)
Definition bar_sync w d B (bar : nat) : Prop :=
  ∃ node size io v cmd,
    devs B !! PSpace w bar = Some node ∧ bar_size d !! bar = Some size ∧
    bar_is_io_space d !! bar = Some io ∧
    load 4 (cfg_space d) (PCI_BAR_OFFSET bar) = Ok v ∧
    load 1 (cfg_space d) PCI_COMMAND = Ok cmd ∧
    bar_active d !! bar = Some (command_enables cmd io) ∧
    Z.land (base node) (bar_mask size) = Z.land v (bar_mask size).

Definition pci_sync w d B : Prop := ∀ bar, (bar < 6)%nat → bar_sync w d B bar.

Lemma PCI_BAR_OFFSET_eq bar : PCI_BAR_OFFSET bar = 16 + 4 * Z.of_nat bar.
Proof.
  unfold PCI_BAR_OFFSET, PCI_BASE_ADDRESS_0. rewrite Z.shiftl_mul_pow2 by lia. lia.
Qed.

Lemma pci_inv_set_cfg w d B L cfg :
  pci_inv w d B L → lenZ cfg = PCI_CFG_SPACE_SIZE → bytes_ok cfg →
  pci_inv w (set_cfg_space cfg d) B L.
Proof. intros [? ? ? Hb] ??. split; try done. Qed.

(** What a write of configuration bytes leaves alone. *)
Lemma cfg_mwrite w d B L off src cfg :
  pci_inv w d B L → Forall byte_ok src → mwrite (cfg_space d) off src = Ok cfg →
  pci_inv w (set_cfg_space cfg d) B L ∧
  ∀ k off', off' + k ≤ off ∨ off + lenZ src ≤ off' →
    load k cfg off' = load k (cfg_space d) off'.
Proof.
  intros Hi Hsrc Hw. split.
  - apply pci_inv_set_cfg; [done| |].
    + pose proof (mwrite_size _ _ _ _ Hw) as E. cbn in E. rewrite E. apply Hi.
    + eapply bytes_ok_mwrite; [apply Hi|done..].
  - intros k off' Hd. unfold load. by rewrite (mread_mwrite_ne _ _ _ _ _ _ Hw).
Qed.

Lemma cfg_store w d B L k off v :
  pci_inv w d B L → 0 ≤ off → 0 ≤ k → off + k ≤ PCI_CFG_SPACE_SIZE →
  ∃ cfg, store k (cfg_space d) off v = Ok cfg ∧ pci_inv w (set_cfg_space cfg d) B L ∧
    load k cfg off = Ok (wrap (8 * k) v) ∧
    ∀ k' off', off' + k' ≤ off ∨ off + k ≤ off' →
      load k' cfg off' = load k' (cfg_space d) off'.
Proof.
  intros Hi Ho Hk Hb. pose proof (pinv_cfg _ _ _ _ Hi) as Hl.
  eexists. split; [apply store_ok_iff; [done|]; split_and!; [done|cbn; lia|done]|].
  assert (Hw : store k (cfg_space d) off v = Ok (set_bytes (cfg_space d) off (le_bytes k v))).
  { apply store_ok_iff; [done|]; split_and!; [done|cbn; lia|done]. }
  destruct (cfg_mwrite w d B L off (le_bytes k v) _ Hi (le_bytes_ok _ _ Hk) Hw) as [Hi' Hn].
  split_and!; [done|by eapply load_store_eq|]. intros k' off' Hd. apply Hn.
  by rewrite lenZ_le_bytes.
Qed.

(** A configuration register the host keeps is only changed by a write to it. *)
Lemma bar_sync_frame w d B d' B' bar :
  bar_sync w d B bar → same_devs (devs B) (devs B') →
  bar_size d' = bar_size d → bar_active d' = bar_active d →
  bar_is_io_space d' = bar_is_io_space d →
  load 4 (cfg_space d') (PCI_BAR_OFFSET bar) = load 4 (cfg_space d) (PCI_BAR_OFFSET bar) →
  load 1 (cfg_space d') PCI_COMMAND = load 1 (cfg_space d) PCI_COMMAND →
  bar_sync w d' B' bar.
Proof.
  intros (node&size&io&v&cmd&Hn&Hs&Hio&Hv&Hc&Ha&Hb) Hsame E1 E2 E3 E4 E5.
  destruct (same_devs_lookup _ _ _ _ Hsame Hn) as [nx Hn'].
  exists (set_next nx node), size, io, v, cmd. rewrite E1, E2, E3, E4, E5. by split_and!.
Qed.

(** Moving a BAR that is not decoded. *)
Lemma pci_config_bar_inv w d B L bar size io v :
  pci_inv w d B L → (bar < 6)%nat → bar_active d !! bar = Some false →
  bar_size d !! bar = Some size → bar_is_io_space d !! bar = Some io →
  load 4 (cfg_space d) (PCI_BAR_OFFSET bar) = Ok v →
  let nb := Z.lor (Z.land v (bar_mask size)) (Z.b2z io) in
  ∃ cfg B', pci_config_bar w d bar B = Ok (set_cfg_space cfg d, B') ∧
    pci_inv w (set_cfg_space cfg d) B' L ∧
    load 4 cfg (PCI_BAR_OFFSET bar) = Ok nb ∧
    (∀ k' off', off' + k' ≤ PCI_BAR_OFFSET bar ∨ PCI_BAR_OFFSET bar + 4 ≤ off' →
      load k' cfg off' = load k' (cfg_space d) off') ∧
    (∃ node, devs B' !! PSpace w bar = Some (set_base nb node)) ∧
    (∀ p, p ≠ PSpace w bar → devs B' !! p = devs B !! p).
Proof.
  intros Hi Hbar Ha Hs Hio Hv nb. unfold pci_config_bar.
  rewrite Hs, Hio, Hv. cbn [from_option_res]. rewrite !bind_Ok. fold nb.
  destruct (pinv_bars _ _ _ _ Hi bar Hbar) as (node&size'&act&io'&Hn&Hs'&Ha'&Hio'&Hiff).
  simplify_eq. pose proof (PCI_BAR_OFFSET_eq bar) as Hoff.
  destruct (cfg_store w d B L 4 (PCI_BAR_OFFSET bar) nb Hi)
    as (cfg&->&Hi'&Hl&Hne); [unfold PCI_CFG_SPACE_SIZE; lia..|].
  rewrite bind_Ok, Hn. cbn [from_option_res]. rewrite bind_Ok.
  assert (Hr : 0 ≤ nb < 2 ^ 32).
  { apply lor_range; [lia| |destruct io; cbn; lia]. apply land_range_l; [lia|].
    apply (load_range 4 _ _ _ (pinv_bytes _ _ _ _ Hi) Hv). }
  eexists _, _; split; [done|]. split_and!.
  - destruct Hi' as [Hc Hby HL Hbars]. split; try done.
    + by apply (set_devs_lists _ _ _ node).
    + intros j Hj. destruct (decide (j = bar)) as [->|Hne'].
      * exists (set_base nb node), size, false, io. cbn.
        rewrite lookup_insert_eq. split_and!; try done; intros id; rewrite Hiff; naive_solver.
      * destruct (Hbars j Hj) as (n'&s'&a'&i'&?&?&?&?&?). exists n', s', a', i'. cbn.
        rewrite lookup_insert_ne by congruence. by split_and!.
  - rewrite Hl. change (8 * 4) with 32. by rewrite wrap_small.
  - done.
  - exists node. cbn. apply lookup_insert_eq.
  - intros p Hp. cbn. by apply lookup_insert_ne.
Qed.

(** The guest writes [size] bytes inside one 32-bit register. *)
Definition dword_access (offset size : Z) : Prop :=
  0 ≤ offset ∧ 1 ≤ size ∧ offset `mod` 4 + size ≤ 4 ∧ offset + size ≤ PCI_CFG_SPACE_SIZE.

(** The driver rule of the PCI specification: a BAR is rewritten only while its
    space is disabled; and bytes 1 to 3 of the last BAR are written with byte 0. *)
Definition bar_write_allowed d (offset : Z) : Prop :=
  ¬ (PCI_BASE_ADDRESS_5 < offset < PCI_BASE_ADDRESS_5 + 4) ∧
  ∀ bar, (bar < 6)%nat → PCI_BAR_OFFSET bar ≤ offset < PCI_BAR_OFFSET bar + 4 →
    bar_active d !! bar = Some false.

Lemma bar_index off :
  PCI_BASE_ADDRESS_0 ≤ off ≤ PCI_BASE_ADDRESS_5 →
  ∃ bar, (bar < 6)%nat ∧
    Z.to_nat (u8 (Z.shiftr (off - PCI_BASE_ADDRESS_0) 2)) = bar ∧
    PCI_BAR_OFFSET bar ≤ off < PCI_BAR_OFFSET bar + 4 ∧
    off `mod` 4 = off - PCI_BAR_OFFSET bar.
Proof.
  unfold PCI_BASE_ADDRESS_0, PCI_BASE_ADDRESS_5. intros Ho.
  rewrite Z.shiftr_div_pow2 by lia. change (2 ^ 2) with 4.
  assert (0 ≤ (off - 16) / 4 < 6) by (Z.div_mod_to_equations; lia).
  rewrite wrap_small by lia. eexists. split; [|split; [done|]]; [lia|].
  rewrite PCI_BAR_OFFSET_eq, Z2Nat.id by lia. Z.div_mod_to_equations; lia.
Qed.

Section config_write.
Context (w : vdev_id) (d : pci_dev) (B : buses) (L : bus_id → list dev_ptr).
Context (Hinv : pci_inv w d B L) (Hsync : pci_sync w d B).

(** The three kinds of registers, after the bytes were copied in. *)
Context (offset : Z) (src cfg : list Z).
Context (Hsrc : Forall byte_ok src) (Hacc : dword_access offset (lenZ src)).
Context (Hw : mwrite (cfg_space d) offset src = Ok cfg).

Lemma written_inv : pci_inv w (set_cfg_space cfg d) B L.
Proof. by eapply cfg_mwrite. Qed.

Lemma written_load k off' :
  off' + k ≤ offset ∨ offset + lenZ src ≤ off' → load k cfg off' = load k (cfg_space d) off'.
Proof. by eapply cfg_mwrite. Qed.

Lemma bar_load_ok cfg' bar :
  (bar < 6)%nat → lenZ cfg' = PCI_CFG_SPACE_SIZE →
  ∃ v, load 4 cfg' (PCI_BAR_OFFSET bar) = Ok v.
Proof.
  intros Hb Hl. eexists. apply load_ok_iff.
  pose proof (PCI_BAR_OFFSET_eq bar). unfold PCI_CFG_SPACE_SIZE in Hl.
  split_and!; [lia|lia|cbn; lia|done].
Qed.

Lemma command_write_sync :
  offset = PCI_COMMAND →
  ∃ d' B' L', pci_command_bar w (set_cfg_space cfg d) B = Ok (d', B') ∧
    pci_inv w d' B' L' ∧ pci_sync w d' B'.
Proof using All.
  intros Eoff. pose proof written_inv as Hi.
  destruct (load 2 cfg PCI_COMMAND) as [cmd|] eqn:Hcmd.
  2: { unfold load in Hcmd. pose proof (pinv_cfg _ _ _ _ Hi) as Hl. cbn in Hl.
       rewrite mread_ok in Hcmd; [done|..]; cbn; unfold PCI_COMMAND, PCI_CFG_SPACE_SIZE in *; lia. }
  destruct (load_command_low cfg cmd (pinv_bytes _ _ _ _ Hi) Hcmd) as (c&Hc&Hce).
  destruct (pci_command_bar_inv w _ B L cmd Hi Hcmd)
    as (d'&B'&L'&E&Hi'&Hsame&Ec&Es&Eio&Hact).
  exists d', B', L'. split_and!; try done. intros bar Hbar.
  destruct (Hsync bar Hbar) as (node&size&io&v&cmd0&Hn&Hs&Hio&Hv&_&_&Hb).
  destruct (same_devs_lookup _ _ _ _ Hsame Hn) as [nx Hn'].
  exists (set_next nx node), size, io, v, c. rewrite Ec, Es, Eio. cbn.
  split_and!; try done.
  - rewrite written_load; [done|]. rewrite PCI_BAR_OFFSET_eq.
    destruct Hacc as (_&_&Hm&_). rewrite Eoff in *. unfold PCI_COMMAND in *.
    change (4 `mod` 4) with 0 in Hm. lia.
  - rewrite Hce. by apply Hact.
Qed.

Lemma bar_write_sync :
  PCI_BASE_ADDRESS_0 ≤ offset ≤ PCI_BASE_ADDRESS_5 → bar_write_allowed d offset →
  ∃ d' B' L',
    pci_config_bar w (set_cfg_space cfg d)
      (Z.to_nat (u8 (Z.shiftr (offset - PCI_BASE_ADDRESS_0) 2))) B = Ok (d', B') ∧
    pci_inv w d' B' L' ∧ pci_sync w d' B'.
Proof using All.
  intros Hoff [_ Hal]. destruct (bar_index offset Hoff) as (bar&Hbar&->&Hin&Hm).
  destruct Hacc as (_&_&Hd&_). pose proof written_inv as Hi.
  destruct (Hsync bar Hbar) as (node&size&io&v0&cmd0&Hn&Hs&Hio&_&Hcmd&Ha&_).
  destruct (bar_load_ok cfg bar Hbar (pinv_cfg _ _ _ _ Hi)) as [v Hv].
  pose proof (Hal bar Hbar Hin) as Hina. rewrite Hina in Ha. injection Ha as Ha.
  destruct (pci_config_bar_inv w _ B L bar size io v Hi Hbar Hina Hs Hio Hv)
    as (cfg'&B'&->&Hi'&Hv'&Hne&[node' Hn']&Hp).
  pose proof (PCI_BAR_OFFSET_eq bar) as Eb.
  assert (Hkeep : ∀ k off', off' + k ≤ PCI_BAR_OFFSET bar ∨ PCI_BAR_OFFSET bar + 4 ≤ off' →
    load k cfg' off' = load k (cfg_space d) off').
  { intros k off' Hd'. rewrite Hne by done. cbn. apply written_load. lia. }
  eexists _, B', L. split_and!; [done|done|]. intros j Hj.
  destruct (decide (j = bar)) as [->|Hjb].
  - eexists _, size, io, _, cmd0. split_and!; [done|done|done|done| | |done].
    + rewrite <-Hcmd. apply Hkeep. unfold PCI_COMMAND. lia.
    + cbn. by rewrite Hina, Ha.
  - destruct (Hsync j Hj) as (nj&sj&ioj&vj&cj&?&?&?&Hvj&Hcj&?&?).
    exists nj, sj, ioj, vj, cj. cbn. pose proof (PCI_BAR_OFFSET_eq j).
    rewrite Hp by congruence. split_and!; try done.
    + rewrite <-Hvj. apply Hkeep. lia.
    + rewrite <-Hcj. apply Hkeep. unfold PCI_COMMAND. lia.
Qed.

(** The dword of the write holds none of the registers the host follows. *)
Lemma plain_write_sync cfg' :
  offset ≠ PCI_COMMAND → ¬ (PCI_BASE_ADDRESS_0 ≤ offset < PCI_BASE_ADDRESS_5 + 4) →
  (∀ k off', off' + k ≤ PCI_ROM_ADDRESS → load k cfg' off' = load k cfg off') →
  pci_sync w (set_cfg_space cfg' d) B.
Proof using All.
  intros Hc Hb Hkeep bar Hbar. destruct Hacc as (?&?&Hm&?).
  unfold PCI_COMMAND, PCI_BASE_ADDRESS_0, PCI_BASE_ADDRESS_5 in *.
  pose proof (PCI_BAR_OFFSET_eq bar) as Eb.
  apply (bar_sync_frame w d B); try done; [by apply Hsync|..]; cbn.
  - rewrite Hkeep by (unfold PCI_ROM_ADDRESS; lia). apply written_load.
    Z.div_mod_to_equations. lia.
  - rewrite Hkeep by (unfold PCI_ROM_ADDRESS, PCI_COMMAND; lia). apply written_load.
    unfold PCI_COMMAND. Z.div_mod_to_equations. lia.
Qed.
End config_write.

(** The specification of decoding, a function of the configuration space alone:
    the bus and the region a BAR answers on. *)
Definition bar_decode d (bar : nat) : option (bus_id * Z) :=
  size ← bar_size d !! bar;
  io ← bar_is_io_space d !! bar;
  match load 1 (cfg_space d) PCI_COMMAND, load 4 (cfg_space d) (PCI_BAR_OFFSET bar) with
  | Ok cmd, Ok v =>
    if command_enables cmd io && nonzero (Z.land v (bar_mask size))
    then Some (bar_bus io, Z.land v (bar_mask size)) else None
  | _, _ => None
  end.

Lemma bar_decode_lists w d B L bar id :
  pci_inv w d B L → bar_sync w d B bar → (bar < 6)%nat →
  PSpace w bar ∈ L id ↔ fst <$> bar_decode d bar = Some id.
Proof.
  intros Hi (node&size&io&v&cmd&Hn&Hs&Hio&Hv&Hc&Ha&Hb) Hbar.
  destruct (pinv_bars _ _ _ _ Hi bar Hbar) as (?&?&?&?&?&?&?&?&Hiff). simplify_eq.
  rewrite Hiff. unfold bar_decode, decodes. rewrite Hs, Hio, Hb. cbn. rewrite Hv, Hc.
  destruct (command_enables cmd io), (nonzero _); cbn; naive_solver.
Qed.

(** C4: the configuration space decides what a device decodes. Take a device
    whose host-side state agrees with its configuration space. Every write
    that stays inside a 32-bit register and moves no enabled BAR succeeds, keeps
    the device lists of all buses well formed and in agreement, so that
    afterwards each BAR is on the bus of its space exactly when the command
    register enables that space and the BAR holds an address, and its region
    starts there. *)
Theorem pci_decoding_follows_config w d B L data offset size :
  pci_inv w d B L → pci_sync w d B → Forall byte_ok data →
  dword_access offset size → size ≤ lenZ data → bar_write_allowed d offset →
  ∃ d' B' L', pci_config_write w d B data offset size = Ok (d', B') ∧
    pci_inv w d' B' L' ∧ pci_sync w d' B' ∧
    ∀ bar id, (bar < 6)%nat →
      (PSpace w bar ∈ L' id ↔ fst <$> bar_decode d' bar = Some id).
Proof.
  intros Hi Hsy Hdata Hacc Hlen Hal.
  assert (∃ d' B' L', pci_config_write w d B data offset size = Ok (d', B') ∧
    pci_inv w d' B' L' ∧ pci_sync w d' B') as (d'&B'&L'&?&?&?).
  2: { exists d', B', L'. split_and!; try done. intros. by eapply bar_decode_lists; auto. }
  unfold pci_config_write. pose proof Hacc as (Ho&Hs&Hm&Hb).
  pose proof (pinv_cfg _ _ _ _ Hi) as Hcl.
  rewrite (mread_ok data) by (cbn; lia). rewrite bind_Ok.
  set (src := get_bytes data 0 (Z.to_nat size)).
  assert (Hsl : lenZ src = size) by (unfold src, lenZ; rewrite length_get_bytes; lia).
  assert (Hsrc : Forall byte_ok src).
  { apply (bytes_ok_mread data 0 size); [|by apply mread_ok; cbn; lia].
    intros i Hi'. cbn in Hi'. apply (Forall_lookup_total_1 _ _ _ Hdata). unfold lenZ in *. lia. }
  destruct (mwrite (cfg_space d) offset src) as [cfg|] eqn:Hw.
  2: { rewrite mwrite_ok in Hw; [done|lia|cbn; lia]. }
  rewrite bind_Ok, <-Hsl in *. clear Hsl.
  pose proof (written_inv w d B L Hi offset src cfg Hsrc Hw) as Hi'.
  case_match eqn:E1; zbool; [by eapply command_write_sync|].
  case_match eqn:E2; zbool; [by eapply bar_write_sync|].
  assert (Hnb : ¬ (PCI_BASE_ADDRESS_0 ≤ offset < PCI_BASE_ADDRESS_5 + 4)).
  { destruct Hal as [Hal _]. destruct E2; zbool; lia. }
  case_match eqn:E3; zbool.
  - destruct (cfg_store w _ B L 4 PCI_ROM_ADDRESS 0 Hi') as (cfg2&->&Hi2&_&Hk);
      [unfold PCI_ROM_ADDRESS, PCI_CFG_SPACE_SIZE; lia..|].
    rewrite bind_Ok. eexists _, B, L. split_and!; [done|done|].
    eapply (plain_write_sync w d B L); try done. intros. apply Hk. lia.
  - eexists _, B, L. split_and!; [done|done|].
    by eapply (plain_write_sync w d B L).
Qed.

(** ** Sizing and programming a BAR *)

(** The address bits of a BAR of [size] bytes. *)
Definition bar_address (size v : Z) : Z := if size =? 0 then 0 else v - v `mod` size.

Definition bar_size_ok (size : Z) : Prop := size = 0 ∨ ∃ k, 1 ≤ k ≤ 31 ∧ size = 2 ^ k.

Lemma land_bar_mask size v :
  bar_size_ok size → 0 ≤ v < 2 ^ 32 → Z.land v (bar_mask size) = bar_address size v.
Proof.
  unfold bar_address. intros [->|(k&Hk&->)] Hv.
  - change (bar_mask 0) with 0. by rewrite Z.land_0_r.
  - pose proof (Z.pow_pos_nonneg 2 k). destruct (Z.eqb_spec (2 ^ k) 0); [lia|].
    assert (2 ^ k < 2 ^ 32) by (apply Z.pow_lt_mono_r; lia).
    unfold bar_mask. rewrite (wrap_small 32) by lia.
    replace (2 ^ k - 1) with (Z.ones k) by (rewrite Z.ones_equiv; lia).
    assert (Z.land v (unot 32 (Z.ones k)) = Z.shiftl (Z.shiftr v k) k) as ->.
    { apply (bits_ext 32); [lia|by apply land_range_l| |].
      - rewrite Z.shiftl_mul_pow2, Z.shiftr_div_pow2 by lia.
        pose proof (Z.div_mod v (2 ^ k)). pose proof (Z.mod_pos_bound v (2 ^ k)).
        pose proof (Z.div_pos v (2 ^ k)). lia.
      - intros i Hi. rewrite Z.land_spec, Z.shiftl_spec by lia. unfold unot.
        rewrite wrap_testbit, Z.lnot_spec, Z.testbit_ones_nonneg by lia.
        destruct (Z.ltb_spec i 32), (Z.ltb_spec i k); try lia; cbn.
        + rewrite andb_false_r. by rewrite Z.testbit_neg_r by lia.
        + rewrite Z.shiftr_spec, andb_true_r by lia. f_equal. lia. }
    rewrite Z.shiftl_mul_pow2, Z.shiftr_div_pow2 by lia.
    pose proof (Z.div_mod v (2 ^ k)). lia.
Qed.

Lemma bar_address_even size v : bar_size_ok size → bar_address size v `mod` 2 ^ 1 = 0.
Proof.
  unfold bar_address. intros [->|(k&Hk&->)]; [done|].
  pose proof (Z.pow_pos_nonneg 2 k). destruct (Z.eqb_spec (2 ^ k) 0); [lia|].
  replace (v - v `mod` 2 ^ k) with (v / 2 ^ k * 2 ^ (k - 1) * 2 ^ 1).
  - apply Z.mod_mul. lia.
  - rewrite <-Z.mul_assoc, <-Z.pow_add_r by lia.
    replace (k - 1 + 1) with k by lia. pose proof (Z.div_mod v (2 ^ k)). lia.
Qed.

Lemma pci_config_read_load d buf offset v :
  bytes_ok (cfg_space d) → lenZ buf = 4 → load 4 (cfg_space d) offset = Ok v →
  pci_config_read d buf offset 4 = Ok (le_bytes 4 v).
Proof.
  intros Hb Hl. unfold load, pci_config_read.
  destruct (mread (cfg_space d) offset 4) as [bs|] eqn:E; cbn; [|done].
  intros [= <-]. pose proof (mread_length _ _ _ _ E) as Hbs.
  rewrite mwrite_all by lia. rewrite <-Hbs at 1.
  rewrite le_bytes_le_val; [done|]. by eapply bytes_ok_mread.
Qed.

(** C23: sizing and programming a base address register. A 32-bit write to a BAR
    of a disabled space gives a register that reads back the written value
    rounded down to the region's size, with the space bit added, and moves the
    region there; an unimplemented BAR reads as zero address bits. Writing all
    ones therefore returns the two's complement of the size, which is how a
    driver learns it. *)
Theorem pci_bar_sizing w d B L bar size io v buf :
  pci_inv w d B L → (bar < 6)%nat → bar_active d !! bar = Some false →
  bar_size d !! bar = Some size → bar_is_io_space d !! bar = Some io →
  bar_size_ok size → 0 ≤ v < 2 ^ 32 → lenZ buf = 4 →
  ∃ d' B' node,
    pci_config_write w d B (le_bytes 4 v) (PCI_BAR_OFFSET bar) 4 = Ok (d', B') ∧
    pci_config_read d' buf (PCI_BAR_OFFSET bar) 4 =
      Ok (le_bytes 4 (bar_address size v + Z.b2z io)) ∧
    devs B' !! PSpace w bar = Some node ∧ base node = bar_address size v + Z.b2z io ∧
    (v = 2 ^ 32 - 1 → u32 (- bar_address size v) = size).
Proof.
  intros Hi Hbar Ha Hs Hio Hok Hv Hbuf. pose proof (PCI_BAR_OFFSET_eq bar) as Eb.
  unfold pci_config_write. rewrite mread_all by (by rewrite lenZ_le_bytes). rewrite bind_Ok.
  destruct (cfg_store w d B L 4 (PCI_BAR_OFFSET bar) v Hi) as (cfg&Hst&Hi'&Hl&_);
    [unfold PCI_CFG_SPACE_SIZE; lia..|].
  unfold store in Hst. rewrite Hst, bind_Ok. change (8 * 4) with 32 in Hl.
  rewrite wrap_small in Hl by done.
  destruct (bar_index (PCI_BAR_OFFSET bar)) as (bar'&Hb'&->&Hin&_).
  { unfold PCI_BASE_ADDRESS_0, PCI_BASE_ADDRESS_5. lia. }
  assert (bar' = bar) as -> by (pose proof (PCI_BAR_OFFSET_eq bar'); lia).
  destruct (Z.eqb_spec (PCI_BAR_OFFSET bar) PCI_COMMAND) as [E|_];
    [unfold PCI_COMMAND in E; lia|].
  unfold PCI_BASE_ADDRESS_0, PCI_BASE_ADDRESS_5.
  rewrite !(proj2 (Z.leb_le _ _)) by lia. cbn [andb].
  destruct (pci_config_bar_inv w _ B L bar size io v Hi' Hbar Ha Hs Hio Hl)
    as (cfg'&B'&->&Hi2&Hl'&_&[node Hn]&_).
  rewrite land_bar_mask in Hl', Hn by done.
  assert (Elor : Z.lor (bar_address size v) (Z.b2z io) = bar_address size v + Z.b2z io).
  { apply (lor_low 1); [lia|destruct io; cbn; lia|by apply bar_address_even]. }
  rewrite Elor in Hl', Hn.
  eexists _, B', _. split_and!; [done| |exact Hn|done|].
  - apply pci_config_read_load; [apply Hi2|done|done].
  - intros ->. unfold bar_address. destruct Hok as [->|(k&Hk&->)]; [done|].
    pose proof (Z.pow_pos_nonneg 2 k). destruct (Z.eqb_spec (2 ^ k) 0); [lia|].
    assert (2 ^ k < 2 ^ 32) by (apply Z.pow_lt_mono_r; lia).
    replace ((2 ^ 32 - 1) `mod` 2 ^ k) with (2 ^ k - 1).
    + unfold wrap. symmetry. apply (Z.mod_unique_pos _ _ (-1)); lia.
    + apply (Z.mod_unique_pos _ _ (2 ^ (32 - k) - 1)); [lia|].
      rewrite Z.mul_sub_distr_l, <-Z.pow_add_r by lia.
      replace (k + (32 - k)) with 32 by lia. lia.
Qed.

(** ** Initialisation *)

(** A configuration space in which nothing is enabled and no BAR is placed. *)
Definition cfg_idle (cfg : list Z) : Prop :=
  lenZ cfg = PCI_CFG_SPACE_SIZE ∧ bytes_ok cfg ∧ load 1 cfg PCI_COMMAND = Ok 0 ∧
  ∀ bar, (bar < 6)%nat → load 4 cfg (PCI_BAR_OFFSET bar) = Ok 0.

(** A device that is cleared and given its BAR agrees with its configuration
    space: nothing is decoded. *)
Lemma idle_dev_inv w B L bar size f cfg :
  bus_lists B L → (∀ j id, PSpace w j ∉ L id) → (∀ id, PConfig w ∉ L id) → (bar < 6)%nat →
  cfg_idle cfg →
  let B1 := (pci_dev_init w B).2 in
  let d := mkPciDev cfg (<[bar := size]> (replicate 6 0)) (replicate 6 false) (replicate 6 false) in
  let B2 := set_devs (dev_init (devs B1) (PSpace w bar) 0 size (OPciDev w) f) B1 in
  pci_inv w d B2 L ∧ pci_sync w d B2.
Proof.
  intros HL Hsp Hcf Hbar (Hlen&Hby&Hcmd&Hbars) B1 d B2.
  assert (Hsz : ∀ j, (j < 6)%nat → ∃ s, (<[bar := size]> (replicate 6 0)) !! j = Some s).
  { intros j Hj. apply lookup_lt_is_Some_2. by rewrite length_insert, length_replicate. }
  assert (Hf : ∀ j, (j < 6)%nat → replicate 6 false !! j = Some false).
  { intros. by apply lookup_replicate_2. }
  assert (Hn : ∀ j, (j < 6)%nat → ∃ node, devs B2 !! PSpace w j = Some node ∧ base node = 0).
  { intros j Hj. subst B2 B1. unfold dev_init. cbn.
    destruct (decide (j = bar)) as [->|]; [rewrite lookup_insert_eq; eauto|].
    rewrite lookup_insert_ne by congruence. rewrite lookup_insert_ne by done.
    clear -Hj. do 6 (destruct j as [|j];
      [rewrite ?lookup_insert_ne by done; rewrite lookup_insert_eq; eauto|]). lia. }
  split.
  - split; cbn [cfg_space bar_size bar_active bar_is_io_space d]; [done|done|..].
    + apply (set_devs_frame B L (devs B2) HL). intros q id Hq. subst B2 B1. unfold dev_init. cbn.
      assert (∀ j, PSpace w j ≠ q) by (intros j <-; by eapply Hsp).
      assert (PConfig w ≠ q) by (intros <-; by eapply Hcf).
      by rewrite !lookup_insert_ne.
    + intros j Hj. destruct (Hn j Hj) as (node&Hj'&Hb), (Hsz j Hj) as [s Hs].
      exists node, s, false, false. cbn [bar_size bar_active bar_is_io_space d].
      rewrite Hf by done. split_and!; try done. intros id. split; [by intros ?%Hsp|by intros [_ ?]].
  - intros j Hj. destruct (Hn j Hj) as (node&Hj'&Hb), (Hsz j Hj) as [s Hs].
    exists node, s, false, 0, 0. cbn [cfg_space bar_size bar_active bar_is_io_space d].
    rewrite Hf, Hb, Hbars, Hcmd by done. by split_and!.
Qed.

Lemma zero_cfg_idle : cfg_idle (replicate (Z.to_nat PCI_CFG_SPACE_SIZE) 0).
Proof.
  split_and!; [done| |done|].
  - apply bytes_ok_list, Forall_replicate. unfold byte_ok. lia.
  - intros bar Hb. do 6 (destruct bar as [|bar]; [reflexivity|]). lia.
Qed.

Lemma pci_setup_inv w B L bar size f d1 B1 :
  bus_lists B L → (∀ j id, PSpace w j ∉ L id) → (∀ id, PConfig w ∉ L id) → (bar < 6)%nat →
  pci_dev_init w B = (d1, B1) →
  ∃ d2 B2, pci_set_bar w d1 B1 bar size false f = Ok (d2, B2) ∧
    pci_inv w d2 B2 L ∧ pci_sync w d2 B2 ∧ bar_active d2 = replicate 6 false ∧
    bar_size d2 = <[bar := size]> (replicate 6 0) ∧
    bar_is_io_space d2 = replicate 6 false.
Proof.
  intros HL Hsp Hcf Hbar E.
  destruct (idle_dev_inv w B L bar size f _ HL Hsp Hcf Hbar zero_cfg_idle) as [Hi Hs].
  rewrite E in Hi, Hs. cbn [snd] in Hi, Hs. unfold pci_dev_init in E.
  apply pair_equal_spec in E as [<- EB]. unfold pci_set_bar.
  set (z := replicate (Z.to_nat PCI_CFG_SPACE_SIZE) 0) in *.
  assert (Hz : store 4 z (PCI_BAR_OFFSET bar) (Z.b2z false) = Ok z).
  { subst z. clear -Hbar. do 6 (destruct bar as [|bar]; [reflexivity|]). lia. }
  cbn [cfg_space]. rewrite Hz, bind_Ok. cbn [bar_size bar_active bar_is_io_space].
  destruct (lookup_lt_is_Some_2 (replicate 6 0) bar) as [s0 Hs0]; [by rewrite length_replicate|].
  rewrite Hs0. cbn [from_option_res]. rewrite bind_Ok.
  assert (Hio : <[bar := false]> (replicate 6 false) = replicate 6 false).
  { apply list_insert_id, lookup_replicate_2. lia. }
  rewrite Hio. eexists _, _; split; [done|]. by split_and!.
Qed.

(** Configuration bytes the host writes outside the registers it follows. *)
Lemma pci_host_mwrite w d B L off src cfg :
  pci_inv w d B L → pci_sync w d B → Forall byte_ok src →
  mwrite (cfg_space d) off src = Ok cfg →
  (off + lenZ src ≤ PCI_COMMAND ∨ PCI_COMMAND + 1 ≤ off) →
  (off + lenZ src ≤ PCI_BASE_ADDRESS_0 ∨ PCI_BASE_ADDRESS_5 + 4 ≤ off) →
  pci_inv w (set_cfg_space cfg d) B L ∧ pci_sync w (set_cfg_space cfg d) B.
Proof.
  intros Hi Hs Hsrc Hw H1 H2. destruct (cfg_mwrite w d B L off src cfg Hi Hsrc Hw) as [Hi' Hl].
  split; [done|]. intros bar Hbar. pose proof (PCI_BAR_OFFSET_eq bar).
  unfold PCI_COMMAND, PCI_BASE_ADDRESS_0, PCI_BASE_ADDRESS_5 in *.
  apply (bar_sync_frame w d B); try done; [by apply Hs|apply Hl; lia|apply Hl; unfold PCI_COMMAND; lia].
Qed.

(** Putting the configuration window on the PCI bus. *)
Lemma pci_register_inv w d B L :
  pci_inv w d B L → pci_sync w d B → (∀ id, PConfig w ∉ L id) →
  ∃ B', pci_dev_register w B = Ok B' ∧
    pci_inv w d B' (<[PciBus := PConfig w :: L PciBus]> L) ∧ pci_sync w d B' ∧
    dev_num (pci_bus B') = u64 (dev_num (pci_bus B) + 1).
Proof.
  intros Hi Hs Hcf. unfold pci_dev_register.
  set (h := dev_init (devs B) (PConfig w) _ _ _ _).
  assert (HL : bus_lists (set_devs h B) L).
  { apply (set_devs_frame B L h (pinv_lists _ _ _ _ Hi)). intros q id Hq. subst h.
    unfold dev_init. rewrite lookup_insert_ne; [done|]. intros <-. by eapply Hcf. }
  destruct (register_lists (set_devs h B) L PciBus (PConfig w) HL) as (B'&E&HL'&Hsame&Hdn);
    [cbn; subst h; unfold dev_init; rewrite lookup_insert_eq; by eexists|done|].
  exists B'. split; [done|].
  assert (Hnode : ∀ bar node, devs B !! PSpace w bar = Some node →
    ∃ nx, devs B' !! PSpace w bar = Some (set_next nx node)).
  { intros bar node Hn. apply (same_devs_lookup _ _ _ _ Hsame). cbn. subst h. unfold dev_init.
    by rewrite lookup_insert_ne. }
  destruct Hi as [Hc Hby _ Hbars]. split_and!; [|..|exact Hdn].
  - split; try done. intros bar Hbar.
    destruct (Hbars bar Hbar) as (node&size&act&io&Hn&Hsz&Ha&Hio&Hiff).
    destruct (Hnode bar node Hn) as [nx Hn']. exists (set_next nx node), size, act, io.
    split_and!; try done. intros id. cbn [base set_next]. rewrite <-Hiff.
    unfold insert, fn_insert. case_decide as E'; [subst; set_solver|done].
  - intros bar Hbar. destruct (Hs bar Hbar) as (node&size&io&v&cmd&Hn&?&?&?&?&?&?).
    destruct (Hnode bar node Hn) as [nx Hn']. exists (set_next nx node), size, io, v, cmd.
    by split_and!.
Qed.

Lemma slot_address n :
  0 ≤ n < 32 → pci_addr_value (mkPciAddr 0 0 0 n 0 0 0) = 2048 * n.
Proof.
  intros Hn. pose proof (fields_sum _ (pci_addr_value_range (mkPciAddr 0 0 0 n 0 0 0))) as [E _].
  rewrite pci_addr_fields_value in E by (repeat split; cbn; lia). cbn in E. lia.
Qed.

(** Registration on the PCI bus. *)
Lemma dev_register_bus_ok w B l slot n :
  pci_bus_ok B l slot → dev_num (pci_bus B) = n → 0 ≤ n < 32 →
  (∀ v, PConfig v ∈ l → slot v < n) → PConfig w ∉ l →
  ∃ B', pci_dev_register w B = Ok B' ∧
    pci_bus_ok B' (PConfig w :: l) (<[w := n]> slot) ∧
    dev_num (pci_bus B') = n + 1 ∧ io_bus B' = io_bus B ∧ mmio_bus B' = mmio_bus B.
Proof.
  intros [Hr Hn Hi] Hd Hn32 Hlt Hw. unfold pci_dev_register. rewrite Hd, slot_address by done.
  unfold register, dev_init. cbn [set_devs devs get_bus pci_bus].
  set (h := <[PConfig w := _]> (devs B)).
  assert (Hr' : bus_repr h (pci_bus B) l) by (by apply chain_insert).
  destruct (bus_register_repr h (pci_bus B) l (PConfig w) _ Hr' (lookup_insert_eq _ _ _) Hw)
    as (h'&b'&E&Hb&Hs&Hdn&Hf).
  rewrite E, bind_Ok. eexists; split; [done|]. cbn.
  split_and!; try done; [|rewrite Hdn, Hd; apply wrap_small; lia].
  assert (Hslot : ∀ v, PConfig v ∈ l → (<[w := n]> slot) v = slot v ∧ v ≠ w).
  { intros v Hv. assert (v ≠ w) by (by intros ->).
    by unfold insert, fn_insert; rewrite decide_False. }
  assert (Hself : (<[w := n]> slot) w = n) by (unfold insert, fn_insert; by rewrite decide_True).
  split; cbn; [done|..].
  - intros q [->|Hq]%elem_of_cons.
    + exists w. rewrite Hself.
      destruct (same_devs_lookup _ _ (PConfig w) _ Hs (lookup_insert_eq _ _ _)) as [nx Hx].
      exists nx. split_and!; try done; lia.
    + destruct (Hn q Hq) as (v&nx&->&?&Hv). destruct (Hslot v Hq) as [Es Hne].
      exists v, nx. rewrite Es. split_and!; try done; try lia. rewrite Hf by congruence.
      subst h. by rewrite lookup_insert_ne by congruence.
  - intros v1 v2 [[= ->]|H1]%elem_of_cons [[= ->]|H2]%elem_of_cons; try done.
    + destruct (Hslot _ H2) as [-> _]. specialize (Hlt _ H2). lia.
    + destruct (Hslot _ H1) as [-> _]. specialize (Hlt _ H1). lia.
    + destruct (Hslot _ H1) as [-> _], (Hslot _ H2) as [-> _]. by apply Hi.
Qed.

(** C24: each device gets a slot of its own. Registering a device on a PCI bus
    with fewer than 32 devices puts its configuration window at the next free
    slot, and the bus remains one whose windows are disjoint, so that mechanism
    #1 addresses every device. *)
Theorem pci_dev_register_slot w B l slot n :
  pci_bus_ok B l slot → dev_num (pci_bus B) = n → 0 ≤ n < 32 →
  (∀ v, PConfig v ∈ l → slot v < n) → PConfig w ∉ l →
  ∃ B', pci_dev_register w B = Ok B' ∧
    pci_bus_ok B' (PConfig w :: l) (<[w := n]> slot) ∧
    dev_num (pci_bus B') = n + 1 ∧ io_bus B' = io_bus B ∧ mmio_bus B' = mmio_bus B.
Proof. apply dev_register_bus_ok. Qed.

(** ** A machine with one block device, for the witnesses *)

Definition demo_buses : buses := pci_init (mkBuses ∅ bus_init bus_init bus_init).

Definition demo_dev : res (pci_dev * buses) :=
  let '(d, B) := pci_dev_init VirtioBlk demo_buses in
  pci_set_bar VirtioBlk d B 0 0x100 false F_virtio_pci_space_io.

(** A sequence of 32-bit configuration writes. *)
Definition config_writes w (s : res (pci_dev * buses)) (l : list (Z * Z)) : res (pci_dev * buses) :=
  s ← s;
  foldM (λ '(d, B) '(off, v), pci_config_write w d B (le_bytes 4 v) off 4) s l.

(** Place BAR 0, enable memory decoding, clear the BAR while it is enabled,
    disable, and repeat the first two steps. *)
Definition toggle_sequence : list (Z * Z) :=
  [(PCI_BASE_ADDRESS_0, 0x1000); (PCI_COMMAND, 2); (PCI_BASE_ADDRESS_0, 0);
   (PCI_COMMAND, 0); (PCI_BASE_ADDRESS_0, 0x1000); (PCI_COMMAND, 2)].

(** BAR 0 of the block device is the head of the MMIO bus, at 0x1000, and its
    link leads back to it. *)
Definition loops_on_itself (r : res (pci_dev * buses)) : bool :=
  match r with
  | Ok (_, B) =>
    match devs B !! PSpace VirtioBlk 0 with
    | Some node =>
      bool_decide (head (mmio_bus B) = Some (PSpace VirtioBlk 0)) &&
      bool_decide (next node = Some (PSpace VirtioBlk 0)) &&
      (base node =? 0x1000) && (len node =? 0x100)
    | None => false
    end
  | Fault _ => false
  end.

(** C25: the driver rule of [pci_decoding_follows_config] is needed. [pci_deactivate_bar] decides by the
    current base whether to take the region off the bus, so a guest that clears
    the BAR while it is enabled leaves the region on the bus; enabling it again
    links the node to itself, and every later memory-mapped access outside the
    region makes [bus_find_dev] loop for ever. *)
Theorem pci_bar_toggle_diverges :
  ∃ d B, config_writes VirtioBlk demo_dev toggle_sequence = Ok (d, B) ∧
    ∀ fuel addr, 0x1100 ≤ addr →
      find_from fuel (devs B) (head (mmio_bus B)) addr = Fault Diverges.
Proof.
  assert (C : loops_on_itself (config_writes VirtioBlk demo_dev toggle_sequence) = true)
    by (vm_compute; reflexivity).
  destruct (config_writes VirtioBlk demo_dev toggle_sequence) as [[d B]|]; [|done].
  exists d, B. split; [done|]. unfold loops_on_itself in C.
  destruct (devs B !! PSpace VirtioBlk 0) as [node|] eqn:Hn; [|done]. zbool.
  apply bool_decide_eq_true in H as Hh, H2 as Hx.
  intros fuel addr Ha. rewrite Hh. apply (find_from_self_loop _ _ node); try done.
  unfold dev_hit. rewrite H1, H0. apply andb_false_iff. right. apply Z.leb_gt.
  change (u64 (0x1000 + 0x100 - 1)) with 0x10ff. lia.
Qed.

(** ** Witnesses *)

Lemma demo_buses_ok : pci_bus_ok demo_buses [] (λ _, 0).
Proof. split; [done|by intros q ?%not_elem_of_nil|by intros v1 v2 ?%not_elem_of_nil]. Qed.

Lemma demo_lists : bus_lists demo_buses (λ _, []).
Proof. split; [by intros []|by intros id1 id2 p ?%not_elem_of_nil]. Qed.

(** The demo device starts in agreement. *)
Lemma demo_dev_inv :
  ∃ d B, demo_dev = Ok (d, B) ∧ pci_inv VirtioBlk d B (λ _, []) ∧ pci_sync VirtioBlk d B ∧
    bar_active d = replicate 6 false ∧ bar_size d = <[0%nat := 0x100]> (replicate 6 0) ∧
    bar_is_io_space d = replicate 6 false.
Proof.
  unfold demo_dev. destruct (pci_dev_init VirtioBlk demo_buses) as [d B] eqn:E.
  apply (pci_setup_inv VirtioBlk demo_buses (λ _, []) 0 0x100 F_virtio_pci_space_io d B
    demo_lists); try done; try lia; by intros; apply not_elem_of_nil.
Qed.

Lemma pci_dev_register_slot_witness :
  ∃ B', pci_dev_register VirtioBlk demo_buses = Ok B' ∧
    pci_bus_ok B' [PConfig VirtioBlk] (<[VirtioBlk := 0]> (λ _, 0)) ∧
    dev_num (pci_bus B') = 1 ∧ io_bus B' = io_bus demo_buses ∧
    mmio_bus B' = mmio_bus demo_buses.
Proof.
  apply (pci_dev_register_slot VirtioBlk demo_buses [] (λ _, 0) 0).
  - apply demo_buses_ok.
  - reflexivity.
  - lia.
  - intros v ?%not_elem_of_nil. done.
  - apply not_elem_of_nil.
Defined.

(** Record the offset of the access in the address latch. *)
Definition demo_call (_ : dev_owner) (_ : io_fn) (data : list Z) (_ : bool) (off _ : Z)
    (W : pci_world) : res (pci_world * list Z) := Ok (set_pci_addr off W, data).

Lemma pci_conf1_access_witness :
  ∃ W1 data W2, pci_data_io id demo_call [0; 0] false 2 2 W1 = Ok (W2, data) ∧
    pci_addr W2 = 6.
Proof.
  destruct (dev_register_bus_ok VirtioBlk demo_buses [] (λ _, 0) 0) as (B&HB&Hok&_);
    [apply demo_buses_ok|done|lia|by intros v ?%not_elem_of_nil|apply not_elem_of_nil|].
  set (d := mkPciDev [] [] [] []). set (v := 0x80000004).
  set (W := mkPciWorld B d d 0).
  eexists (set_pci_addr (clear_reg_offset v) W), [0; 0], _.
  assert (Hv : 0 ≤ v < 2 ^ 32) by (unfold v; lia).
  pose proof (pci_conf1_access W _ _ demo_call [PConfig VirtioBlk] (<[VirtioBlk := 0]> (λ _, 0))
    v [0; 0] false 2 2 Hok Hv (pci_address_write v W Hv)) as Hacc.
  destruct Hacc as [Hacc _]; [lia..|].
  specialize (Hacc VirtioBlk). rewrite Hacc; [split; vm_compute; reflexivity|..].
  - by repeat split.
  - by apply list_elem_of_singleton.
  - reflexivity.
Defined.

Lemma pci_decoding_follows_config_witness :
  ∃ d B d' B' L', demo_dev = Ok (d, B) ∧
    pci_config_write VirtioBlk d B (le_bytes 4 2) PCI_COMMAND 4 = Ok (d', B') ∧
    pci_inv VirtioBlk d' B' L' ∧ pci_sync VirtioBlk d' B'.
Proof.
  destruct demo_dev_inv as (d&B&E&Hi&Hs&Ha&_).
  destruct (pci_decoding_follows_config VirtioBlk d B (λ _, []) (le_bytes 4 2) PCI_COMMAND 4)
    as (d'&B'&L'&?&?&?&_); try done.
  - by apply le_bytes_ok.
  - unfold bar_write_allowed, PCI_COMMAND, PCI_BASE_ADDRESS_5. split; [lia|].
    intros bar. rewrite PCI_BAR_OFFSET_eq. lia.
  - exists d, B, d', B', L'. by split_and!.
Defined.

Lemma pci_bar_sizing_witness :
  ∃ d B d' B' node, demo_dev = Ok (d, B) ∧
    pci_config_write VirtioBlk d B (le_bytes 4 (2 ^ 32 - 1)) (PCI_BAR_OFFSET 0) 4 = Ok (d', B') ∧
    devs B' !! PSpace VirtioBlk 0%nat = Some node ∧ base node = 0xffffff00.
Proof.
  destruct demo_dev_inv as (d&B&E&Hi&Hs&Ha&Hz&Hio).
  destruct (pci_bar_sizing VirtioBlk d B (λ _, []) 0 0x100 false (2 ^ 32 - 1) [0; 0; 0; 0])
    as (d'&B'&node&?&_&?&Hb&_); try done; try (by rewrite ?Ha, ?Hz, ?Hio).
  - lia.
  - right. exists 8. by split.
  - exists d, B, d', B', node. split_and!; try done.
Defined.
