(* ===== verification/GuestMem.v ===== *)
(** * Guest memory (src/vm.h, src/vm.c, src/arch/*/desc.h)

    [v->mem] is the host mapping of [RAM_SIZE] bytes that backs the guest's RAM
    from [RAM_BASE] on; bytes never written are zero, as an anonymous mapping
    gives them. A host pointer into the mapping is its offset from [v->mem];
    [None] is [NULL]. Memory of any other object is never reached through such
    a pointer: an access outside the mapping is the fault [OutOfBounds]. *)

From stdpp Require Import base tactics numbers list gmap.
From S2P Require Import Prelude.
Open Scope Z_scope.

(** The constants of the two architectures' desc.h. *)
Class Arch := {
  RAM_BASE : Z;
  SERIAL_IRQ : Z;
  VIRTIO_BLK_IRQ : Z;
}.

Definition x86 : Arch := {| RAM_BASE := 0; SERIAL_IRQ := 4; VIRTIO_BLK_IRQ := 15 |}.
Definition arm64 : Arch := {| RAM_BASE := Z.shiftl 1 31; SERIAL_IRQ := 0; VIRTIO_BLK_IRQ := 1 |}.

(** [VIRTIO_NET_IRQ] is defined by the x86 desc.h only. *)
Definition VIRTIO_NET_IRQ : Z := 14.

Definition RAM_SIZE : Z := Z.shiftl 1 30.

Record ram := mkRam { cells : gmap Z Z }.

Definition ram_zero : ram := mkRam ∅.

#[global] Instance ram_store : ByteStore ram := {
  bsize _ := RAM_SIZE;
  bget m i := default 0 (cells m !! i);
  bset m i v := mkRam (<[i := v]> (cells m));
}.

#[global] Instance ram_store_laws : ByteStoreLaws ram.
Proof.
  split; cbn; intros.
  - done.
  - by rewrite lookup_insert_eq.
  - by rewrite lookup_insert_ne.
Qed.

Lemma bsize_ram (m : ram) : bsize m = RAM_SIZE.
Proof. reflexivity. Qed.

Lemma ram_bytes_ok_zero : bytes_ok ram_zero.
Proof. intros i _. cbn. unfold byte_ok. rewrite lookup_empty. cbn. lia. Qed.

Section guest.
Context `{Arch}.

Definition vm_guest_to_host (guest : Z) : option Z :=
  if guest <? RAM_BASE then None else Some (guest - RAM_BASE).
End guest.

(** ** Accesses through host pointers *)

Definition ptr_off (p : option Z) : res Z := from_option_res NullPointer p.

Definition pload (k : Z) (m : ram) (p : option Z) (off : Z) : res Z :=
  a ← ptr_off p; load k m (a + off).
Definition pstore (k : Z) (m : ram) (p : option Z) (off v : Z) : res ram :=
  a ← ptr_off p; store k m (a + off) v.
(** [memcpy(dst, p, n)]; nothing is touched when [n] is zero. *)
Definition pread (m : ram) (p : option Z) (n : Z) : res (list Z) :=
  if n =? 0 then Ok [] else a ← ptr_off p; mread m a n.
Definition pwrite (m : ram) (p : option Z) (bs : list Z) : res ram :=
  match bs with [] => Ok m | _ => a ← ptr_off p; mwrite m a bs end.

(** A guest buffer that lies in RAM, and the offset of its first byte. *)
Definition in_ram `{Arch} (guest n : Z) : Prop :=
  RAM_BASE ≤ guest ∧ 0 ≤ n ∧ guest + n ≤ RAM_BASE + RAM_SIZE.

Section in_ram.
Context `{Arch}.

Lemma guest_to_host_in_ram guest n :
  in_ram guest n → vm_guest_to_host guest = Some (guest - RAM_BASE).
Proof.
  intros (?&_). unfold vm_guest_to_host. destruct (Z.ltb_spec guest RAM_BASE); [lia|done].
Qed.

(** The offset of a buffer in RAM stays inside the mapping. *)
Lemma guest_to_host_bounds guest n off :
  in_ram guest n → vm_guest_to_host guest = Some off → 0 ≤ off ∧ off + n ≤ RAM_SIZE.
Proof.
  intros Hin. rewrite (guest_to_host_in_ram _ _ Hin). intros [= <-]. unfold in_ram in Hin. lia.
Qed.

Lemma pread_in_ram m guest n :
  in_ram guest n →
  pread m (vm_guest_to_host guest) n = Ok (get_bytes m (guest - RAM_BASE) (Z.to_nat n)).
Proof.
  intros Hin. unfold pread. rewrite (guest_to_host_in_ram _ _ Hin).
  unfold in_ram in Hin. destruct (Z.eqb_spec n 0) as [->|]; [done|].
  cbn [ptr_off from_option_res]. rewrite bind_Ok, mread_ok; cbn; [done|lia..].
Qed.

Lemma pwrite_in_ram m guest bs :
  in_ram guest (lenZ bs) →
  pwrite m (vm_guest_to_host guest) bs = Ok (set_bytes m (guest - RAM_BASE) bs).
Proof.
  intros Hin. unfold pwrite. rewrite (guest_to_host_in_ram _ _ Hin).
  unfold in_ram in Hin. destruct bs; [done|].
  cbn [ptr_off from_option_res]. rewrite bind_Ok, mwrite_ok; cbn; [done|lia..].
Qed.
End in_ram.
