(* ===== verification/Virtq.v ===== *)
(** * Packed virtqueues (src/virtq.c, src/virtq.h)

    [struct virtq] with its ring and event areas as host pointers into guest
    memory. [struct virtq_info] is packed and the guest writes it byte by byte
    through the PCI common configuration, so [info] is its image of 32 bytes:
    size at 0, msix_vector at 2, enable at 4, notify_off at 6, desc_addr at 8,
    device_addr at 16, driver_addr at 24. The function table [struct virtq_ops]
    is the class [VirtqOps]: what a device provides for its queues. *)

From stdpp Require Import base tactics numbers list gmap.
From S2P Require Import Prelude.
From S2P Require Import Uapi.
From S2P Require Import GuestMem.
Open Scope Z_scope.

Record virtq := mkVirtq {
  desc_ring : option Z;
  device_event : option Z;
  guest_event : option Z;
  info : list Z;
  next_avail_idx : Z;
  used_wrap_count : bool;
}.

Definition sizeof_virtq_info : Z := 32.

Definition set_info (v : list Z) (q : virtq) : virtq :=
  mkVirtq (desc_ring q) (device_event q) (guest_event q) v (next_avail_idx q)
    (used_wrap_count q).
Definition set_position (idx : Z) (wrap : bool) (q : virtq) : virtq :=
  mkVirtq (desc_ring q) (device_event q) (guest_event q) (info q) idx wrap.
Definition set_areas (ring device guest : option Z) (q : virtq) : virtq :=
  mkVirtq ring device guest (info q) (next_avail_idx q) (used_wrap_count q).

(** The members of [info]: [k] bytes at offset [off]. *)
Definition info_field (off : Z) (k : nat) (q : virtq) : Z := le_val (get_bytes (info q) off k).
Definition set_info_field (off k v : Z) (q : virtq) : virtq :=
  set_info (set_bytes (info q) off (le_bytes k v)) q.

Abbreviation info_size := (info_field 0 2).
Abbreviation info_enable := (info_field 4 2).
Abbreviation info_notify_off := (info_field 6 2).
Abbreviation info_desc_addr := (info_field 8 8).
Abbreviation info_device_addr := (info_field 16 8).
Abbreviation info_driver_addr := (info_field 24 8).

Definition VIRTQ_SIZE : Z := 128.

Definition virtq_init (q : virtq) : virtq :=
  set_position 0 true (set_info_field 4 2 0 (set_info_field 0 2 VIRTQ_SIZE q)).

Definition virtq_disable (q : virtq) : virtq := q.

(** [desc] is the offset in RAM of a [struct vring_packed_desc]. *)
Definition virtq_check_next (m : ram) (desc : Z) : res bool :=
  flags ← load 2 m (desc + vring_desc_flags);
  Ok (nonzero (Z.land flags VRING_DESC_F_NEXT)).

(** The availability test of [virtq_get_avail]. *)
Definition desc_unavailable (flags : Z) (wrap : bool) : bool :=
  let avail := nonzero (Z.land flags (Z.shiftl 1 VRING_PACKED_DESC_F_AVAIL)) in
  let used := nonzero (Z.land flags (Z.shiftl 1 VRING_PACKED_DESC_F_USED)) in
  negb (eqb avail wrap) || eqb used wrap.

Definition virtq_get_avail (m : ram) (q : virtq) : res (virtq * option Z) :=
  ring ← ptr_off (desc_ring q);
  let desc := ring + vring_desc_size * next_avail_idx q in
  flags ← load 2 m (desc + vring_desc_flags);
  if desc_unavailable flags (used_wrap_count q) then Ok (q, None)
  else
    let idx := u16 (next_avail_idx q + 1) in
    let q := if info_size q <=? idx
             then set_position (u16 (idx - info_size q)) (negb (used_wrap_count q)) q
             else set_position idx (used_wrap_count q) q in
    Ok (q, Some desc).

(** ** The operations a device gives its queues *)

(** [vq_at s i] is [dev->vq[i]]: none when the index is beyond the array. *)
Class VirtqOps (St : Type) := {
  vq_ram : St → ram;
  vq_at : St → nat → option virtq;
  complete_request : nat → St → res St;
  enable_vq : nat → St → res St;
  notify_used : nat → St → res St;
}.

Section ops.
Context {St : Type} `{VirtqOps St}.

Definition virtq_complete_request (i : nat) (s : St) : res St :=
  _ ← from_option_res OutOfBounds (vq_at s i); complete_request i s.
Definition virtq_notify_used (i : nat) (s : St) : res St :=
  _ ← from_option_res OutOfBounds (vq_at s i); notify_used i s.
Definition virtq_enable (i : nat) (s : St) : res St :=
  _ ← from_option_res OutOfBounds (vq_at s i); enable_vq i s.

Definition virtq_handle_avail (i : nat) (s : St) : res St :=
  q ← from_option_res OutOfBounds (vq_at s i);
  if info_enable q =? 0 then Ok s
  else
    s ← virtq_complete_request i s;
    q ← from_option_res OutOfBounds (vq_at s i);
    flags ← pload 2 (vq_ram s) (guest_event q) vring_event_flags;
    if flags =? VRING_PACKED_EVENT_FLAG_ENABLE then virtq_notify_used i s else Ok s.
End ops.

(** * The device side of the ring protocol *)

Definition flag_avail (flags : Z) : bool := Z.testbit flags VRING_PACKED_DESC_F_AVAIL.
Definition flag_used (flags : Z) : bool := Z.testbit flags VRING_PACKED_DESC_F_USED.

(** A descriptor the driver offers in the lap whose wrap counter is [wrap], and
    one the device has given back. *)
Definition desc_available (wrap : bool) (flags : Z) : Prop :=
  flag_avail flags = wrap ∧ flag_used flags = negb wrap.
Definition desc_returned (wrap : bool) (flags : Z) : Prop :=
  flag_avail flags = wrap ∧ flag_used flags = wrap.

(** [flags ^= (1ULL << VRING_PACKED_DESC_F_USED)] *)
Definition mark_used (flags : Z) : Z :=
  u16 (Z.lxor flags (Z.shiftl 1 VRING_PACKED_DESC_F_USED)).

Lemma desc_unavailable_spec flags wrap :
  desc_unavailable flags wrap = false ↔ desc_available wrap flags.
Proof.
  unfold desc_unavailable, desc_available, flag_avail, flag_used.
  rewrite !Z.shiftl_1_l, !nonzero_land_pow2 by (vm_compute; congruence).
  destruct (Z.testbit flags _), (Z.testbit flags _), wrap; naive_solver.
Qed.

Lemma mark_used_flags flags :
  flag_avail (mark_used flags) = flag_avail flags ∧
  flag_used (mark_used flags) = negb (flag_used flags).
Proof.
  unfold flag_avail, flag_used, mark_used, VRING_PACKED_DESC_F_AVAIL, VRING_PACKED_DESC_F_USED.
  rewrite !wrap_testbit, !Z.lxor_spec, !Z.shiftl_1_l, !Z.pow2_bits_eqb by lia.
  change (7 <? 16) with true. change (15 <? 16) with true.
  change (15 =? 7) with false. change (15 =? 15) with true.
  by rewrite xorb_false_r, xorb_true_r.
Qed.

(** The hand-over of one descriptor: what the device gives back, the driver sees
    as used, and neither side of the device takes it again in this lap or the
    next one. *)
Lemma mark_used_returned wrap flags :
  desc_available wrap flags →
  desc_returned wrap (mark_used flags) ∧
  ∀ wrap', ¬ desc_available wrap' (mark_used flags).
Proof.
  unfold desc_available, desc_returned. intros [Ha Hu].
  destruct (mark_used_flags flags) as [-> ->]. rewrite Ha, Hu, negb_involutive.
  split; [done|]. intros wrap' [-> ?]. by destruct wrap'.
Qed.

(** A descriptor that was available in one lap is not available in the next. *)
Lemma available_next_lap wrap flags :
  desc_available wrap flags → ¬ desc_available (negb wrap) flags.
Proof. intros [Ha _] [Hb _]. rewrite Ha in Hb. by destruct wrap. Qed.

(** ** Positions: a ring of [size] slots walked lap after lap *)

(** The device has taken [n] descriptors since the queue was set up. *)
Definition ring_pos (size n : Z) (q : virtq) : Prop :=
  info_size q = size ∧ next_avail_idx q = n `mod` size ∧
  used_wrap_count q = Z.even (n / size).

Lemma ring_pos_next size n q :
  1 ≤ size < 65536 → 0 ≤ n → ring_pos size n q →
  let idx := u16 (next_avail_idx q + 1) in
  ring_pos size (n + 1)
    (if info_size q <=? idx
     then set_position (u16 (idx - info_size q)) (negb (used_wrap_count q)) q
     else set_position idx (used_wrap_count q) q).
Proof.
  intros Hs Hn (Hsz&Hi&Hw) idx. pose proof (Z.mod_pos_bound n size).
  assert (Hdm := Z.div_mod n size). subst idx. rewrite Hi, Hw, Hsz.
  rewrite (wrap_small 16 (n `mod` size + 1)) by lia.
  destruct (Z.leb_spec size (n `mod` size + 1)).
  - assert (n + 1 = size * (n / size + 1)) as E by lia.
    split; [|split].
    + by rewrite <-Hsz.
    + cbn. rewrite E, Z.mul_comm, Z.mod_mul by lia. rewrite wrap_small; lia.
    + cbn. rewrite E, Z.mul_comm, Z.div_mul by lia. rewrite Z.even_add. by destruct (Z.even (n / size)).
  - assert ((n + 1) `mod` size = n `mod` size + 1) as E.
    { symmetry. apply (Z.mod_unique_pos _ _ (n / size)); lia. }
    assert ((n + 1) / size = n / size) as E'.
    { symmetry. apply (Z.div_unique_pos _ _ _ (n `mod` size + 1)); lia. }
    split; [|split]; cbn; [by rewrite <-Hsz|by rewrite E|by rewrite E'].
Qed.

(** ** A ring in guest memory *)

Section ring.
Context (ring size : Z).
Context (Hsize : 1 ≤ size < 65536) (Hring : 0 ≤ ring) (Hfit : ring + vring_desc_size * size ≤ RAM_SIZE).
Implicit Types (m : ram) (n : Z) (q : virtq).

(** The slot of position [n], its flags, and whether the driver offers it. *)
Definition slot n : Z := ring + vring_desc_size * (n `mod` size).
Definition slot_flags m n : Z := le_val (get_bytes m (slot n + vring_desc_flags) 2).
Definition lap_wrap n : bool := Z.even (n / size).
Definition offered m n : Prop := desc_available (lap_wrap n) (slot_flags m n).

#[global] Instance offered_dec m n : Decision (offered m n).
Proof. unfold offered, desc_available. apply _. Defined.

Lemma slot_bounds n : 0 ≤ slot n ∧ slot n + vring_desc_size ≤ RAM_SIZE.
Proof using All.
  unfold slot, vring_desc_size in *. pose proof (Z.mod_pos_bound n size). lia.
Qed.

Lemma slot_load_flags m n : load 2 m (slot n + vring_desc_flags) = Ok (slot_flags m n).
Proof using All.
  destruct (slot_bounds n). unfold vring_desc_size, vring_desc_flags in *.
  apply load_ok_iff. split_and!; cbn; try lia. done.
Qed.

(** The other members of a descriptor. *)
Definition slot_addr m n : Z := le_val (get_bytes m (slot n + vring_desc_addr) 8).
Definition slot_len m n : Z := le_val (get_bytes m (slot n + vring_desc_len) 4).
Definition slot_has_next m n : bool := nonzero (Z.land (slot_flags m n) VRING_DESC_F_NEXT).

Lemma slot_load_addr m n : load 8 m (slot n + vring_desc_addr) = Ok (slot_addr m n).
Proof using All.
  destruct (slot_bounds n). unfold vring_desc_size, vring_desc_addr in *.
  apply load_ok_iff. split_and!; cbn; try lia. done.
Qed.

Lemma slot_load_len m n : load 4 m (slot n + vring_desc_len) = Ok (slot_len m n).
Proof using All.
  destruct (slot_bounds n). unfold vring_desc_size, vring_desc_len in *.
  apply load_ok_iff. split_and!; cbn; try lia. done.
Qed.

Lemma slot_check_next m n : virtq_check_next m (slot n) = Ok (slot_has_next m n).
Proof using All. unfold virtq_check_next. by rewrite slot_load_flags, bind_Ok. Qed.

(** The bytes of the ring, and memories that agree on them. *)
Definition off_ring a n : Prop := a + n ≤ ring ∨ ring + vring_desc_size * size ≤ a.

Lemma slot_in_ring n : ring ≤ slot n ∧ slot n + vring_desc_size ≤ ring + vring_desc_size * size.
Proof using Hsize.
  clear Hring Hfit. unfold slot, vring_desc_size. pose proof (Z.mod_pos_bound n size). lia.
Qed.

(** Writing outside the ring leaves every descriptor as it was. *)
Lemma slots_outside m a bs n :
  0 ≤ a → a + lenZ bs ≤ RAM_SIZE → off_ring a (lenZ bs) →
  slot_flags (set_bytes m a bs) n = slot_flags m n ∧
  slot_addr (set_bytes m a bs) n = slot_addr m n ∧
  slot_len (set_bytes m a bs) n = slot_len m n.
Proof using Hsize Hring.
  clear Hfit. intros Ha Hb Hd. pose proof (slot_in_ring n) as Hs. unfold off_ring in Hd.
  unfold slot_flags, slot_addr, slot_len, vring_desc_flags, vring_desc_addr, vring_desc_len,
    vring_desc_size in *.
  split_and!; f_equal; apply get_bytes_ext; intros j Hj; apply bget_set_bytes_out; cbn; lia.
Qed.

(** The queue is set up on this ring and [n] descriptors have been taken. *)
Definition on_ring n q : Prop :=
  desc_ring q = Some ring ∧ ring_pos size n q ∧ 0 ≤ n.

(** The queue after one more descriptor: only the position moves. *)
Definition advanced n q q' : Prop :=
  on_ring n q' ∧ info q' = info q ∧ guest_event q' = guest_event q ∧
  device_event q' = device_event q.

Lemma virtq_get_avail_some m n q :
  on_ring n q → offered m n →
  ∃ q', virtq_get_avail m q = Ok (q', Some (slot n)) ∧ advanced (n + 1) q q'.
Proof using All.
  intros (Hr&Hp&Hn) Ho. pose proof (ring_pos_next size n q Hsize Hn Hp) as Hnext.
  destruct Hp as (Hsz&Hi&Hw). unfold virtq_get_avail. rewrite Hr.
  cbn [ptr_off from_option_res]. rewrite bind_Ok, Hi. fold (slot n).
  rewrite slot_load_flags, bind_Ok, Hw. fold (lap_wrap n).
  rewrite (proj2 (desc_unavailable_spec _ _) Ho).
  eexists; split; [done|]. rewrite Hi, Hw in Hnext. unfold lap_wrap.
  cbv zeta in Hnext.
  destruct (_ <=? _) in Hnext |- *; (split; [|done]); (split; [done|split; [exact Hnext|lia]]).
Qed.

Lemma virtq_get_avail_none m n q :
  on_ring n q → ¬ offered m n → virtq_get_avail m q = Ok (q, None).
Proof using All.
  intros (Hr&(Hsz&Hi&Hw)&Hn) Ho. unfold virtq_get_avail. rewrite Hr.
  cbn [ptr_off from_option_res]. rewrite bind_Ok, Hi. fold (slot n).
  rewrite slot_load_flags, bind_Ok, Hw. fold (lap_wrap n).
  destruct (desc_unavailable (slot_flags m n) (lap_wrap n)) eqn:E; [done|].
  by apply desc_unavailable_spec in E.
Qed.

Lemma lap_wrap_next n : lap_wrap (n + size) = negb (lap_wrap n).
Proof using Hsize.
  clear Hring Hfit. unfold lap_wrap. replace (n + size) with (n + 1 * size) by lia.
  rewrite Z.div_add by lia. rewrite Z.even_add. by destruct (Z.even (n / size)).
Qed.

Lemma slot_next_lap n : slot (n + size) = slot n.
Proof using Hsize.
  clear Hring Hfit. unfold slot. replace (n + size) with (n + 1 * size) by lia.
  by rewrite Z.mod_add by lia.
Qed.

(** Two memories with the same AVAIL flags: the device only changes USED flags,
    so this relates every state of a run of its loop. *)
Definition same_avail m m' : Prop :=
  ∀ n, flag_avail (slot_flags m' n) = flag_avail (slot_flags m n).

(** Within one run the device cannot come back to a slot it has taken. *)
Lemma taken_once m m' n :
  same_avail m m' → offered m n → ¬ offered m' (n + size).
Proof using Hsize.
  intros Hs [Ha _] [Hb _]. rewrite Hs in Hb. rewrite lap_wrap_next in Hb.
  unfold slot_flags in *. rewrite slot_next_lap, Ha in Hb. by destruct (lap_wrap n).
Qed.
End ring.

(** C6: the queue follows the packed ring. A queue set up on a ring of [size]
    slots that has taken [n] descriptors looks at slot [n mod size] and accepts
    it exactly when its AVAIL flag equals, and its USED flag differs from, the
    wrap counter of lap [n / size]; then the position moves to [n + 1], the wrap
    counter flipping at the end of the lap. Otherwise nothing changes. No other
    member of the queue is touched. *)
Theorem virtq_get_avail_refines ring size m n q :
  1 ≤ size < 65536 → 0 ≤ ring → ring + vring_desc_size * size ≤ RAM_SIZE →
  on_ring ring size n q →
  ∃ q', virtq_get_avail m q =
      Ok (q', if decide (offered ring size m n) then Some (slot ring size n) else None) ∧
    advanced ring size (if decide (offered ring size m n) then n + 1 else n) q q'.
Proof.
  intros Hs Hr Hf Hq. destruct (decide (offered ring size m n)) as [Ho|Ho].
  - by apply virtq_get_avail_some.
  - exists q. split; [by apply (virtq_get_avail_none ring size Hs Hr Hf m n)|done].
Qed.

Lemma slot_inj ring size n1 n2 :
  slot ring size n1 = slot ring size n2 ↔ n1 `mod` size = n2 `mod` size.
Proof. unfold slot, vring_desc_size. lia. Qed.

Lemma slot_disjoint ring size n1 n2 :
  slot ring size n1 ≠ slot ring size n2 →
  slot ring size n1 + vring_desc_size ≤ slot ring size n2 ∨
  slot ring size n2 + vring_desc_size ≤ slot ring size n1.
Proof. unfold slot, vring_desc_size. lia. Qed.

(** Writing the flags of one slot. *)
Lemma store_slot_flags ring size m n v m' :
  1 ≤ size → 0 ≤ ring → 0 ≤ v < 2 ^ 16 → store 2 m (slot ring size n + vring_desc_flags) v = Ok m' →
  ∀ n', slot_flags ring size m' n' =
    if decide (slot ring size n' = slot ring size n) then v else slot_flags ring size m n'.
Proof.
  intros Hs Hr Hv Hst n'. apply store_ok_iff in Hst as (?&?&Em); [|lia].
  unfold slot_flags. case_decide as E.
  - rewrite E. subst m'. change 2%nat with (length (le_bytes 2 v)).
    rewrite get_set_bytes_eq; [|done|by rewrite lenZ_le_bytes].
    rewrite le_val_le_bytes by lia. by apply wrap_small.
  - f_equal. apply get_bytes_ext. intros j Hj. subst m'.
    unfold vring_desc_flags in *. pose proof (slot_disjoint ring size n' n E).
    unfold vring_desc_size in *.
    apply bget_set_bytes_out; rewrite ?lenZ_le_bytes by lia; try lia.
    unfold slot, vring_desc_size in *. pose proof (Z.mod_pos_bound n' size). lia.
Qed.

(** C26: the hand-over of a descriptor. A descriptor the queue accepts and whose
    USED flag the device then toggles is one the driver recognises as used in
    its lap, is offered to the device at no position that maps to its slot until
    the driver rewrites it, and the flags of every other slot are as before. *)
Theorem virtq_descriptor_handover ring size m n q q' d m' :
  1 ≤ size < 65536 → 0 ≤ ring → ring + vring_desc_size * size ≤ RAM_SIZE →
  on_ring ring size n q → virtq_get_avail m q = Ok (q', Some d) →
  store 2 m (d + vring_desc_flags) (mark_used (slot_flags ring size m n)) = Ok m' →
  desc_returned (lap_wrap size n) (slot_flags ring size m' n) ∧
  (∀ n', slot ring size n' = d → ¬ offered ring size m' n') ∧
  (∀ n', slot ring size n' ≠ d → slot_flags ring size m' n' = slot_flags ring size m n').
Proof.
  intros Hs Hr Hf Hq Hg Hst. destruct (decide (offered ring size m n)) as [Ho|Ho].
  2: { by rewrite (virtq_get_avail_none ring size Hs Hr Hf m n) in Hg. }
  destruct (virtq_get_avail_some ring size Hs Hr Hf m n q Hq Ho) as (q1&E&_).
  rewrite E in Hg. injection Hg as <- <-.
  pose proof (store_slot_flags ring size m n _ m' ltac:(lia) Hr
    (wrap_range 16 _ ltac:(lia)) Hst) as Hfl.
  destruct (mark_used_returned _ _ Ho) as [Hret Hno]. split_and!.
  - rewrite Hfl, decide_True by done. done.
  - intros n' E' Ho'. unfold offered in Ho'. rewrite Hfl, decide_True in Ho' by done.
    by apply Hno in Ho'.
  - intros n' E'. by rewrite Hfl, decide_False.
Qed.

(** ** Witnesses: a ring of four slots at the start of RAM, first slot offered *)

Definition demo_ring_ram : ram := mkRam {[ 14 := 0x80 ]}.
Definition demo_virtq : virtq :=
  mkVirtq (Some 0) (Some 0x1000) (Some 0x1004)
    (le_bytes 2 4 ++ le_bytes 2 0 ++ le_bytes 2 1 ++ le_bytes 2 0 ++
     le_bytes 8 0 ++ le_bytes 8 0x1000 ++ le_bytes 8 0x1004) 0 true.

Lemma demo_virtq_on_ring : on_ring 0 4 0 demo_virtq.
Proof. repeat split; vm_compute; congruence. Qed.

Lemma virtq_get_avail_refines_witness :
  ∃ q', virtq_get_avail demo_ring_ram demo_virtq = Ok (q', Some 0) ∧
    advanced 0 4 1 demo_virtq q'.
Proof.
  apply (virtq_get_avail_refines 0 4 demo_ring_ram 0 demo_virtq).
  - lia.
  - lia.
  - vm_compute. congruence.
  - apply demo_virtq_on_ring.
Defined.

Lemma virtq_descriptor_handover_witness :
  ∃ m', store 2 demo_ring_ram 14 0x8080 = Ok m' ∧
    desc_returned (lap_wrap 4 0) (slot_flags 0 4 m' 0).
Proof.
  eexists. split; [vm_compute; reflexivity|].
  apply (virtq_descriptor_handover 0 4 demo_ring_ram 0 demo_virtq
    (set_position 1 true demo_virtq) 0).
  - lia.
  - lia.
  - vm_compute. congruence.
  - apply demo_virtq_on_ring.
  - vm_compute. reflexivity.
  - vm_compute. reflexivity.
Defined.
