(* ===== verification/Disk.v ===== *)
(** * Disk images (src/diskimg.c, src/diskimg.h)

    The image is reached through a file descriptor. The open file behind it is
    the host's: [HostFile] has the three system calls the code makes on it,
    [RegularFile] what POSIX promises of them for a regular file on which no
    I/O error occurs. [reg_file] is such a file. *)

From stdpp Require Import base tactics numbers list gmap.
From S2P Require Import Prelude.
From S2P Require Import GuestMem.
Open Scope Z_scope.

(** [lseek(fd, off, SEEK_SET)], [read] and [write]; [None] is a result of -1. A
    read gives at most the number of bytes asked for. *)
Class HostFile (F : Type) := {
  hf_lseek : F → Z → F;
  hf_read : F → Z → F * option (list Z);
  hf_write : F → list Z → F * option Z;
  hf_read_len f n f' bs : 0 ≤ n → hf_read f n = (f', Some bs) → lenZ bs ≤ n;
}.

Class RegularFile (F : Type) `{HostFile F} := {
  fcontents : F → list Z;
  fpos : F → Z;
  rf_lseek f off : 0 ≤ off → fpos (hf_lseek f off) = off;
  rf_lseek_contents f off : fcontents (hf_lseek f off) = fcontents f;
  rf_read f n :
    0 ≤ fpos f → 0 ≤ n → ∃ f', hf_read f n =
      (f', Some (take (Z.to_nat n) (drop (Z.to_nat (fpos f)) (fcontents f)))) ∧
      fcontents f' = fcontents f;
  rf_write f bs :
    0 ≤ fpos f → fpos f + lenZ bs ≤ lenZ (fcontents f) → ∃ f',
      hf_write f bs = (f', Some (lenZ bs)) ∧
      fcontents f' = set_bytes (fcontents f) (fpos f) bs;
}.

(** A regular file: its bytes and the offset of the descriptor. Writing beyond
    the end extends the file, filling a gap with zeros. *)
Record reg_file := mkFile { f_bytes : list Z; f_off : Z }.

#[global] Program Instance reg_host_file : HostFile reg_file := {
  hf_lseek f off := if 0 <=? off then mkFile (f_bytes f) off else f;
  hf_read f n :=
    let bs := take (Z.to_nat n) (drop (Z.to_nat (f_off f)) (f_bytes f)) in
    (mkFile (f_bytes f) (f_off f + lenZ bs), Some bs);
  hf_write f bs :=
    let end_ := f_off f + lenZ bs in
    let grown := f_bytes f ++ replicate (Z.to_nat (end_ - lenZ (f_bytes f))) 0 in
    (mkFile (set_bytes grown (f_off f) bs) end_, Some (lenZ bs));
}.
Next Obligation.
  intros f n f' bs Hn [= <- <-]. unfold lenZ. rewrite length_take. lia.
Qed.

#[global] Program Instance reg_regular_file : RegularFile reg_file := {
  fcontents := f_bytes;
  fpos := f_off;
}.
Next Obligation. intros f off Ho. cbn. by rewrite (proj2 (Z.leb_le _ _) Ho). Qed.
Next Obligation. intros f off. cbn. by destruct (0 <=? off). Qed.
Next Obligation. intros. by eexists. Qed.
Next Obligation.
  intros f bs Hp Hb. eexists; split; [done|]. cbn.
  replace (Z.to_nat _) with 0%nat by lia. by rewrite app_nil_r.
Qed.

(** [struct diskimg]; [dimg_file] is the open file of [fd]. *)
Record diskimg (F : Type) := mkDiskimg { dimg_file : F; dimg_size : Z }.
Arguments mkDiskimg {F} _ _.
Arguments dimg_file {F} _.
Arguments dimg_size {F} _.

Section diskimg.
Context {F : Type} `{HostFile F}.
Implicit Types (d : diskimg F) (m : ram).

(** The signed value of a 64-bit [off_t]. *)
Definition s64 (z : Z) : Z := let u := u64 z in if u <? 2 ^ 63 then u else u - 2 ^ 64.

(** [read(fd, data, size)] on guest memory: the kernel copies what it read, and
    refuses a null buffer. *)
Definition read_into m (f : F) (data : option Z) (size : Z) : res (ram * F * Z) :=
  let '(f, r) := hf_read f size in
  match r with
  | None => Ok (m, f, -1)
  | Some [] => Ok (m, f, 0)
  | Some bs =>
    match data with
    | None => Ok (m, f, -1)
    | Some a => m ← mwrite m a bs; Ok (m, f, lenZ bs)
    end
  end.

Definition write_from m (f : F) (data : option Z) (size : Z) : res (F * Z) :=
  match data with
  | None => if size =? 0 then let '(f, r) := hf_write f [] in Ok (f, default (-1) r)
            else Ok (f, -1)
  | Some a =>
    bs ← (if size =? 0 then Ok [] else mread m a size);
    let '(f, r) := hf_write f bs in
    Ok (f, default (-1) r)
  end.

Definition diskimg_read m d (data : option Z) (offset size : Z) : res (ram * diskimg F * Z) :=
  let f := hf_lseek (dimg_file d) offset in
  '(m, f, r) ← read_into m f data size;
  Ok (m, mkDiskimg f (dimg_size d), r).

Definition diskimg_write m d (data : option Z) (offset size : Z) : res (diskimg F * Z) :=
  let f := hf_lseek (dimg_file d) offset in
  '(f, r) ← write_from m f data size;
  Ok (mkDiskimg f (dimg_size d), r).

(** [open] gives the file and [fstat] its size, or fails. *)
Definition diskimg_init (opened : option (F * Z)) : option (diskimg F) :=
  '(f, size) ← opened; Some (mkDiskimg f size).
End diskimg.

(** Whatever the file is, a read changes memory by one copy of at most [n] bytes. *)
Lemma diskimg_read_cases {F} `{HostFile F} m (d : diskimg F) data off n m' d' r :
  0 ≤ n → diskimg_read m d data off n = Ok (m', d', r) →
  m' = m ∨ ∃ a bs, data = Some a ∧ lenZ bs ≤ n ∧ mwrite m a bs = Ok m'.
Proof.
  intros Hn E. unfold diskimg_read in E. apply bind_ok_iff in E as ([[m1 f1] r1]&E&E2).
  injection E2 as <- _ _. unfold read_into in E.
  destruct (hf_read (hf_lseek (dimg_file d) off) n) as [f2 [[|b bs]|]] eqn:Er;
    [by injection E as <- _ _; left| |by injection E as <- _ _; left].
  destruct data as [a|]; [|by injection E as <- _ _; left].
  apply bind_ok_iff in E as (m2&Ew&E). injection E as <- _ _. right.
  exists a, (b :: bs). split_and!; [done| |done]. by eapply hf_read_len.
Qed.

(** * Reads and writes of a regular image *)

Section regular.
Context {F : Type} `{RegularFile F}.
Implicit Types (d : diskimg F) (m : ram).

Abbreviation contents d := (fcontents (dimg_file d)).

(** The bytes of a range of the image. *)
Definition image_bytes d (off n : Z) : list Z := get_bytes (contents d) off (Z.to_nat n).

Lemma read_slice (l : list Z) off n :
  0 ≤ off → 0 ≤ n → off + n ≤ lenZ l →
  take (Z.to_nat n) (drop (Z.to_nat off) l) = get_bytes l off (Z.to_nat n).
Proof.
  intros Ho Hn Hl. unfold lenZ in Hl. rewrite <-(Z2Nat.id off) at 2 by done.
  rewrite get_bytes_list by lia. done.
Qed.

(** A read inside the image copies its bytes to the buffer. *)
Lemma diskimg_read_ok m d a off n :
  0 ≤ off → 0 ≤ n → off + n ≤ lenZ (contents d) → 0 ≤ a → a + n ≤ RAM_SIZE →
  ∃ d', diskimg_read m d (Some a) off n = Ok (set_bytes m a (image_bytes d off n), d', n) ∧
    contents d' = contents d ∧ dimg_size d' = dimg_size d.
Proof.
  intros Ho Hn Hb Ha Hr. unfold diskimg_read, read_into.
  destruct (rf_read (hf_lseek (dimg_file d) off) n) as (f'&E&Hc);
    [rewrite rf_lseek; lia|done|].
  rewrite rf_lseek_contents in Hc. rewrite rf_lseek, rf_lseek_contents, read_slice in E by done.
  rewrite E. fold (image_bytes d off n). exists (mkDiskimg f' (dimg_size d)).
  assert (Hl : lenZ (image_bytes d off n) = n)
    by (by apply lenZ_get_bytes).
  destruct (image_bytes d off n) as [|b bs] eqn:Eb.
  - unfold lenZ in Hl. cbn in Hl. subst n. by split_and!.
  - rewrite mwrite_ok by (rewrite ?Hl; cbn; lia). rewrite !bind_Ok, Hl. by split_and!.
Qed.

(** A write inside the image changes exactly the addressed range. *)
Lemma diskimg_write_ok m d a off n :
  0 ≤ off → 0 ≤ n → off + n ≤ lenZ (contents d) → 0 ≤ a → a + n ≤ RAM_SIZE →
  ∃ d', diskimg_write m d (Some a) off n = Ok (d', n) ∧
    contents d' = set_bytes (contents d) off (get_bytes m a (Z.to_nat n)) ∧
    dimg_size d' = dimg_size d.
Proof.
  intros Ho Hn Hb Ha Hr. unfold diskimg_write, write_from.
  set (bs := get_bytes m a (Z.to_nat n)).
  assert ((if n =? 0 then Ok [] else mread m a n) = Ok bs) as ->.
  { subst bs. destruct (Z.eqb_spec n 0) as [->|]; [done|]. rewrite mread_ok; cbn; done || lia. }
  rewrite bind_Ok.
  assert (Hl : lenZ bs = n) by (by apply lenZ_get_bytes).
  destruct (rf_write (hf_lseek (dimg_file d) off) bs) as (f'&E&Hc);
    [rewrite rf_lseek; lia|rewrite rf_lseek, rf_lseek_contents; lia|].
  rewrite rf_lseek, rf_lseek_contents in Hc by done. rewrite E, bind_Ok, Hl.
  exists (mkDiskimg f' (dimg_size d)). by split_and!.
Qed.
End regular.

(** C27: what is written to the image is read back. On a regular file, writing
    [n] bytes of a guest buffer at an offset inside the image and reading [n]
    bytes at that offset into another buffer both report [n], copy the bytes
    unchanged, and leave every other byte of the image as it was. *)
Theorem diskimg_write_read_roundtrip {F} `{RegularFile F} m (d : diskimg F) a1 a2 off n :
  0 ≤ off → 0 ≤ n → off + n ≤ lenZ (fcontents (dimg_file d)) →
  0 ≤ a1 → a1 + n ≤ RAM_SIZE → 0 ≤ a2 → a2 + n ≤ RAM_SIZE →
  ∃ d1 d2 m2,
    diskimg_write m d (Some a1) off n = Ok (d1, n) ∧
    diskimg_read m d1 (Some a2) off n = Ok (m2, d2, n) ∧
    mread m2 a2 n = mread m a1 n ∧
    (∀ off' n', 0 ≤ off' → 0 ≤ n' → off' + n' ≤ lenZ (fcontents (dimg_file d)) →
      off' + n' ≤ off ∨ off + n ≤ off' → image_bytes d2 off' n' = image_bytes d off' n').
Proof.
  intros Ho Hn Hb Ha1 Hr1 Ha2 Hr2.
  destruct (diskimg_write_ok m d a1 off n) as (d1&E1&C1&S1); try done.
  assert (Hlen : lenZ (fcontents (dimg_file d1)) = lenZ (fcontents (dimg_file d))).
  { rewrite C1. apply lenZ_set_bytes. }
  destruct (diskimg_read_ok m d1 a2 off n) as (d2&E2&C2&S2); try done; [lia|].
  pose proof (lenZ_get_bytes m a1 n Hn) as Hgl'.
  eexists d1, d2, _. split_and!; [done|done|..].
  - assert (image_bytes d1 off n = get_bytes m a1 (Z.to_nat n)) as ->.
    { unfold image_bytes. rewrite C1.
      replace (Z.to_nat n) with (length (get_bytes m a1 (Z.to_nat n))) at 2
        by apply length_get_bytes.
      apply get_set_bytes_eq; [done|]. rewrite Hgl'. cbn. lia. }
    rewrite (mread_ok m) by (cbn; lia).
    set (bs := get_bytes m a1 (Z.to_nat n)) in *.
    assert (Hw : mwrite m a2 bs = Ok (set_bytes m a2 bs)) by (apply mwrite_ok; cbn; lia).
    apply mread_mwrite_eq in Hw. by rewrite Hgl' in Hw.
  - intros off' n' Ho' Hn' Hb' Hd. unfold image_bytes. rewrite C2, C1.
    apply get_bytes_ext. intros j Hj. apply bget_set_bytes_out; rewrite ?Hgl'; cbn; lia.
Qed.

(** ** Witness: two sectors of an image *)

Definition demo_disk : diskimg reg_file := mkDiskimg (mkFile (replicate 1024 0) 0) 1024.

Lemma diskimg_write_read_roundtrip_witness :
  ∃ d1 d2 m2,
    diskimg_write (mkRam {[ 5 := 7 ]}) demo_disk (Some 0) 512 8 = Ok (d1, 8) ∧
    diskimg_read (mkRam {[ 5 := 7 ]}) d1 (Some 100) 512 8 = Ok (m2, d2, 8) ∧
    mread m2 100 8 = Ok [0; 0; 0; 0; 0; 7; 0; 0].
Proof.
  destruct (diskimg_write_read_roundtrip (mkRam {[ 5 := 7 ]}) demo_disk 0 100 512 8)
    as (d1&d2&m2&?&?&E&_); [vm_compute; congruence..|].
  exists d1, d2, m2. split_and!; [done|done|]. rewrite E. vm_compute. reflexivity.
Defined.
