(* ===== verification/Machine.v ===== *)
(** * The state of the machine (src/vm.h, src/virtio-pci.h, src/virtio-blk.h,
      src/virtio-net.h)

    [vdev] is the state the two virtio devices have in common: the PCI part, the
    register block, the queues and the descriptors of the host objects. [vm_t] is
    the machine: guest memory, buses, UART, the two devices, the open disk image,
    and what the host does with the TAP device. *)

From stdpp Require Import base tactics numbers list gmap.
From S2P Require Import Prelude.
From S2P Require Import Uapi.
From S2P Require Import Host.
From S2P Require Import Devices.
From S2P Require Import Pci.
From S2P Require Import Serial.
From S2P Require Import GuestMem.
From S2P Require Import Virtq.
From S2P Require Import Disk.
Open Scope Z_scope.

(** [struct virtio_pci_dev] with the members of the enclosing device.
    [vp_config] is the image of [struct virtio_pci_config] (72 bytes): the
    common configuration at 0, the ISR status at 56, the notification data at
    60 and at 64 the pointer [dev_cfg], which holds the host address of the
    device-specific structure. [notify_cap] and [dev_cfg_cap] point into the
    configuration space. [vq_set] says that [virtio_pci_dev.vq] points to the
    device's array of queues. *)
Record vdev := mkVdev {
  vd_pci : pci_dev;
  vp_config : list Z;
  device_feature : Z;
  guest_feature : Z;
  notify_cap : option Z;
  dev_cfg_cap : option Z;
  vq_set : bool;
  dev_config : list Z;
  dev_config_addr : Z;
  vqs : list virtq;
  irqfd : Z;
  ioeventfds : list Z;
  irq_num : Z;
  enable : bool;
}.

Definition set_vd_pci (v : pci_dev) (d : vdev) : vdev :=
  mkVdev v (vp_config d) (device_feature d) (guest_feature d) (notify_cap d) (dev_cfg_cap
    d) (vq_set d) (dev_config d) (dev_config_addr d) (vqs d) (irqfd d) (ioeventfds d)
    (irq_num d) (enable d).
Definition set_vp_config (v : list Z) (d : vdev) : vdev :=
  mkVdev (vd_pci d) v (device_feature d) (guest_feature d) (notify_cap d) (dev_cfg_cap d)
    (vq_set d) (dev_config d) (dev_config_addr d) (vqs d) (irqfd d) (ioeventfds d)
    (irq_num d) (enable d).
Definition set_device_feature (v : Z) (d : vdev) : vdev :=
  mkVdev (vd_pci d) (vp_config d) v (guest_feature d) (notify_cap d) (dev_cfg_cap d)
    (vq_set d) (dev_config d) (dev_config_addr d) (vqs d) (irqfd d) (ioeventfds d)
    (irq_num d) (enable d).
Definition set_guest_feature (v : Z) (d : vdev) : vdev :=
  mkVdev (vd_pci d) (vp_config d) (device_feature d) v (notify_cap d) (dev_cfg_cap d)
    (vq_set d) (dev_config d) (dev_config_addr d) (vqs d) (irqfd d) (ioeventfds d)
    (irq_num d) (enable d).
Definition set_notify_cap (v : option Z) (d : vdev) : vdev :=
  mkVdev (vd_pci d) (vp_config d) (device_feature d) (guest_feature d) v (dev_cfg_cap d)
    (vq_set d) (dev_config d) (dev_config_addr d) (vqs d) (irqfd d) (ioeventfds d)
    (irq_num d) (enable d).
Definition set_dev_cfg_cap (v : option Z) (d : vdev) : vdev :=
  mkVdev (vd_pci d) (vp_config d) (device_feature d) (guest_feature d) (notify_cap d) v
    (vq_set d) (dev_config d) (dev_config_addr d) (vqs d) (irqfd d) (ioeventfds d)
    (irq_num d) (enable d).
Definition set_vq_set (v : bool) (d : vdev) : vdev :=
  mkVdev (vd_pci d) (vp_config d) (device_feature d) (guest_feature d) (notify_cap d)
    (dev_cfg_cap d) v (dev_config d) (dev_config_addr d) (vqs d) (irqfd d) (ioeventfds d)
    (irq_num d) (enable d).
Definition set_dev_config (v : list Z) (d : vdev) : vdev :=
  mkVdev (vd_pci d) (vp_config d) (device_feature d) (guest_feature d) (notify_cap d)
    (dev_cfg_cap d) (vq_set d) v (dev_config_addr d) (vqs d) (irqfd d) (ioeventfds d)
    (irq_num d) (enable d).
Definition set_dev_config_addr (v : Z) (d : vdev) : vdev :=
  mkVdev (vd_pci d) (vp_config d) (device_feature d) (guest_feature d) (notify_cap d)
    (dev_cfg_cap d) (vq_set d) (dev_config d) v (vqs d) (irqfd d) (ioeventfds d) (irq_num
    d) (enable d).
Definition set_vqs (v : list virtq) (d : vdev) : vdev :=
  mkVdev (vd_pci d) (vp_config d) (device_feature d) (guest_feature d) (notify_cap d)
    (dev_cfg_cap d) (vq_set d) (dev_config d) (dev_config_addr d) v (irqfd d) (ioeventfds
    d) (irq_num d) (enable d).
Definition set_irqfd (v : Z) (d : vdev) : vdev :=
  mkVdev (vd_pci d) (vp_config d) (device_feature d) (guest_feature d) (notify_cap d)
    (dev_cfg_cap d) (vq_set d) (dev_config d) (dev_config_addr d) (vqs d) v (ioeventfds
    d) (irq_num d) (enable d).
Definition set_ioeventfds (v : list Z) (d : vdev) : vdev :=
  mkVdev (vd_pci d) (vp_config d) (device_feature d) (guest_feature d) (notify_cap d)
    (dev_cfg_cap d) (vq_set d) (dev_config d) (dev_config_addr d) (vqs d) (irqfd d) v
    (irq_num d) (enable d).
Definition set_irq_num (v : Z) (d : vdev) : vdev :=
  mkVdev (vd_pci d) (vp_config d) (device_feature d) (guest_feature d) (notify_cap d)
    (dev_cfg_cap d) (vq_set d) (dev_config d) (dev_config_addr d) (vqs d) (irqfd d)
    (ioeventfds d) v (enable d).
Definition set_enable (v : bool) (d : vdev) : vdev :=
  mkVdev (vd_pci d) (vp_config d) (device_feature d) (guest_feature d) (notify_cap d)
    (dev_cfg_cap d) (vq_set d) (dev_config d) (dev_config_addr d) (vqs d) (irqfd d)
    (ioeventfds d) (irq_num d) v.

(** [tap_in] are the frames waiting in the TAP device, [tap_sent] the outcomes of
    the next [writev] calls on it (success when none is left). *)
Record vm_t (F : Type) := mkVm {
  mem : ram;
  vm_buses : buses;
  vm_pci_addr : Z;
  serial : serial_dev;
  blk : vdev;
  net : vdev;
  disk : option (diskimg F);
  tap_in : list (list Z);
  tap_sent : list bool;
  log : list event;
}.
Arguments mkVm {F} _ _ _ _ _ _ _ _ _ _.
Arguments mem {F} _.
Arguments vm_buses {F} _.
Arguments vm_pci_addr {F} _.
Arguments serial {F} _.
Arguments blk {F} _.
Arguments net {F} _.
Arguments disk {F} _.
Arguments tap_in {F} _.
Arguments tap_sent {F} _.
Arguments log {F} _.

Section machine.
Context {F : Type}.
Abbreviation vm_t := (vm_t F).
Implicit Types (v : vm_t).

Definition set_mem (v : ram) (s : vm_t) : vm_t :=
  mkVm v (vm_buses s) (vm_pci_addr s) (serial s) (blk s) (net s) (disk s) (tap_in s)
    (tap_sent s) (log s).
Definition set_vm_buses (v : buses) (s : vm_t) : vm_t :=
  mkVm (mem s) v (vm_pci_addr s) (serial s) (blk s) (net s) (disk s) (tap_in s) (tap_sent
    s) (log s).
Definition set_vm_pci_addr (v : Z) (s : vm_t) : vm_t :=
  mkVm (mem s) (vm_buses s) v (serial s) (blk s) (net s) (disk s) (tap_in s) (tap_sent s)
    (log s).
Definition set_serial (v : serial_dev) (s : vm_t) : vm_t :=
  mkVm (mem s) (vm_buses s) (vm_pci_addr s) v (blk s) (net s) (disk s) (tap_in s)
    (tap_sent s) (log s).
Definition set_blk (v : vdev) (s : vm_t) : vm_t :=
  mkVm (mem s) (vm_buses s) (vm_pci_addr s) (serial s) v (net s) (disk s) (tap_in s)
    (tap_sent s) (log s).
Definition set_net (v : vdev) (s : vm_t) : vm_t :=
  mkVm (mem s) (vm_buses s) (vm_pci_addr s) (serial s) (blk s) v (disk s) (tap_in s)
    (tap_sent s) (log s).
Definition set_disk (v : option (diskimg F)) (s : vm_t) : vm_t :=
  mkVm (mem s) (vm_buses s) (vm_pci_addr s) (serial s) (blk s) (net s) v (tap_in s)
    (tap_sent s) (log s).
Definition set_tap_in (v : list (list Z)) (s : vm_t) : vm_t :=
  mkVm (mem s) (vm_buses s) (vm_pci_addr s) (serial s) (blk s) (net s) (disk s) v
    (tap_sent s) (log s).
Definition set_tap_sent (v : list bool) (s : vm_t) : vm_t :=
  mkVm (mem s) (vm_buses s) (vm_pci_addr s) (serial s) (blk s) (net s) (disk s) (tap_in
    s) v (log s).
Definition set_log (v : list event) (s : vm_t) : vm_t :=
  mkVm (mem s) (vm_buses s) (vm_pci_addr s) (serial s) (blk s) (net s) (disk s) (tap_in
    s) (tap_sent s) v.

Definition get_dev (w : vdev_id) (s : vm_t) : vdev :=
  match w with VirtioBlk => blk s | VirtioNet => net s end.
Definition set_dev (w : vdev_id) (d : vdev) (s : vm_t) : vm_t :=
  match w with VirtioBlk => set_blk d s | VirtioNet => set_net d s end.

(** The part of the machine the PCI callbacks work on. *)
Definition pci_part (s : vm_t) : pci_world :=
  mkPciWorld (vm_buses s) (vd_pci (blk s)) (vd_pci (net s)) (vm_pci_addr s).
Definition set_pci_part (W : pci_world) (s : vm_t) : vm_t :=
  set_vm_buses (pw_buses W) (set_vm_pci_addr (pci_addr W)
    (set_blk (set_vd_pci (pw_blk W) (blk s)) (set_net (set_vd_pci (pw_net W) (net s)) s))).

(** Record a call to the host. *)
Definition emit_vm (e : event) (s : vm_t) : vm_t := set_log (log s ++ [e]) s.

(** A failure of these two is reported on the standard error and ignored. *)
Definition vm_irqfd_register (fd gsi flags : Z) (s : vm_t) : vm_t :=
  emit_vm (EvIrqfd fd gsi flags) s.
Definition vm_ioeventfd_register (fd addr len flags : Z) (s : vm_t) : vm_t :=
  emit_vm (EvIoeventfd fd addr len flags) s.

(** [dev->vq[i]] through the pointer of [struct virtio_pci_dev]. *)
Definition dev_vq (d : vdev) (i : nat) : option virtq :=
  if vq_set d then vqs d !! i else None.
Definition set_dev_vq (i : nat) (q : virtq) (d : vdev) : vdev :=
  set_vqs (<[i := q]> (vqs d)) d.

(** Replace queue [i] of device [w]. *)
Definition put_vq (w : vdev_id) (i : nat) (q : virtq) (s : vm_t) : vm_t :=
  set_dev w (set_dev_vq i q (get_dev w s)) s.
End machine.

(** A device of zero bytes, as [memset] leaves it; [addr] is the host address of
    its configuration structure of [cfg_size] bytes, [nfds] the number of its
    ioeventfd members, and [queues] its queues. *)
Definition vdev_zero (addr cfg_size : Z) (nfds : nat) (pd : pci_dev) (queues : list virtq) : vdev :=
  mkVdev pd (replicate 72 0) 0 0 None None false (replicate (Z.to_nat cfg_size) 0) addr
    queues 0 (replicate nfds 0) 0 false.
