(* ===== verification/VirtioPci.v ===== *)
(** * The virtio PCI transport (src/virtio-pci.c, src/virtio-pci.h)

    The register block behind BAR 0 and the configuration space of a virtio
    device. Register accesses are byte copies into and out of the image of
    [struct virtio_pci_config], followed by the action the register has. The
    device behind the transport is an instance of [VirtqOps]. *)

From stdpp Require Import base tactics numbers list gmap.
From S2P Require Import Prelude.
From S2P Require Import Uapi.
From S2P Require Import Host.
From S2P Require Import Bus.
From S2P Require Import Devices.
From S2P Require Import Pci.
From S2P Require Import GuestMem.
From S2P Require Import Virtq.
From S2P Require Import Disk.
From S2P Require Import Machine.
Open Scope Z_scope.

Definition VIRTIO_PCI_VENDOR_ID : Z := 0x1AF4.
Definition VIRTIO_PCI_DEVICE_ID_NET : Z := 0x1041.
Definition VIRTIO_PCI_DEVICE_ID_BLK : Z := 0x1042.
Definition VIRTIO_PCI_CAP_NUM : Z := 5.
Definition VIRTIO_PCI_ISR_QUEUE : Z := 1.

(** [offsetof] in [struct virtio_pci_config] and the sizes of its members. *)
Definition off_common_cfg : Z := 0.
Definition off_isr_cap : Z := 56.
Definition off_notify_data : Z := 60.
Definition off_dev_cfg : Z := 64.
Definition sizeof_virtio_pci_config : Z := 72.
Definition sizeof_isr_cap : Z := 4.
Definition sizeof_notify_data : Z := 4.

(** ** Register actions *)

Definition virtio_pci_select_device_feature (d : vdev) : res vdev :=
  select ← load 4 (vp_config d) VIRTIO_PCI_COMMON_DFSELECT;
  let feature := device_feature d in
  let v := if select =? 0 then u32 feature
           else if select =? 1 then u32 (Z.shiftr feature 32) else 0 in
  c ← store 4 (vp_config d) VIRTIO_PCI_COMMON_DF v;
  Ok (set_vp_config c d).

Definition virtio_pci_write_guest_feature (d : vdev) : res vdev :=
  select ← load 4 (vp_config d) VIRTIO_PCI_COMMON_GFSELECT;
  feature ← load 4 (vp_config d) VIRTIO_PCI_COMMON_GF;
  if select =? 0 then Ok (set_guest_feature (Z.lor (guest_feature d) feature) d)
  else if select =? 1 then
    Ok (set_guest_feature (Z.lor (guest_feature d) (u64 (Z.shiftl feature 32))) d)
  else Ok d.

Definition virtio_pci_reset (d : vdev) : vdev := d.

Definition virtio_pci_write_status (d : vdev) : res vdev :=
  status ← load 1 (vp_config d) VIRTIO_PCI_COMMON_STATUS;
  Ok (if status =? 0 then virtio_pci_reset d else d).

Definition virtio_pci_select_virtq (d : vdev) : res vdev :=
  select ← load 2 (vp_config d) VIRTIO_PCI_COMMON_Q_SELECT;
  num_queues ← load 2 (vp_config d) VIRTIO_PCI_COMMON_NUMQ;
  c ← (if select <? num_queues then
         q ← from_option_res OutOfBounds (dev_vq d (Z.to_nat select));
         mwrite (vp_config d) VIRTIO_PCI_COMMON_Q_SIZE (info q)
       else store 2 (vp_config d) VIRTIO_PCI_COMMON_Q_SIZE 0);
  Ok (set_vp_config c d).

(** The default branch of the register switch: a queue register of the selected
    queue. *)
Definition write_virtq_info (data : list Z) (offset size : Z) (d : vdev) : res vdev :=
  select ← load 2 (vp_config d) VIRTIO_PCI_COMMON_Q_SELECT;
  num_queues ← load 2 (vp_config d) VIRTIO_PCI_COMMON_NUMQ;
  if select <? num_queues then
    q ← from_option_res OutOfBounds (dev_vq d (Z.to_nat select));
    src ← mread data 0 size;
    i ← mwrite (info q) (offset - VIRTIO_PCI_COMMON_Q_SIZE) src;
    Ok (set_dev_vq (Z.to_nat select) (set_info i q) d)
  else Ok d.

(** The device-specific structure, through the pointer in the register block. *)
Definition dev_cfg_ok (d : vdev) : res unit :=
  p ← load 8 (vp_config d) off_dev_cfg;
  if p =? dev_config_addr d then Ok () else Fault WildPointer.

Section transport.
Context {F : Type} (w : vdev_id) `{VirtqOps (vm_t F)}.
Implicit Types (s : vm_t F).

Definition on_dev (f : vdev → res vdev) s : res (vm_t F) :=
  d ← f (get_dev w s); Ok (set_dev w d s).

Definition virtio_pci_enable_virtq s : res (vm_t F) :=
  select ← load 2 (vp_config (get_dev w s)) VIRTIO_PCI_COMMON_Q_SELECT;
  virtq_enable (Z.to_nat select) s.

Definition virtio_pci_disable_virtq s : res (vm_t F) :=
  select ← load 2 (vp_config (get_dev w s)) VIRTIO_PCI_COMMON_Q_SELECT;
  Ok s.

Definition virtio_pci_space_write (data : list Z) (offset size : Z) s : res (vm_t F) :=
  if offset <? off_dev_cfg then
    src ← mread data 0 size;
    c ← mwrite (vp_config (get_dev w s)) offset src;
    let s := set_dev w (set_vp_config c (get_dev w s)) s in
    if offset =? VIRTIO_PCI_COMMON_DFSELECT then on_dev virtio_pci_select_device_feature s
    else if offset =? VIRTIO_PCI_COMMON_GFSELECT then on_dev virtio_pci_write_guest_feature s
    else if offset =? VIRTIO_PCI_COMMON_STATUS then on_dev virtio_pci_write_status s
    else if offset =? VIRTIO_PCI_COMMON_Q_SELECT then on_dev virtio_pci_select_virtq s
    else if offset =? VIRTIO_PCI_COMMON_Q_ENABLE then
      queue_enable ← load 2 (vp_config (get_dev w s)) VIRTIO_PCI_COMMON_Q_ENABLE;
      if nonzero queue_enable then virtio_pci_enable_virtq s else virtio_pci_disable_virtq s
    else if (VIRTIO_PCI_COMMON_Q_SIZE <=? offset) && (offset <=? VIRTIO_PCI_COMMON_Q_USEDHI)
    then on_dev (write_virtq_info data offset size) s
    else if offset =? off_notify_data then
      vqn ← load 2 (vp_config (get_dev w s)) off_notify_data;
      virtq_handle_avail (Z.to_nat vqn) s
    else Ok s
  else
    _ ← dev_cfg_ok (get_dev w s);
    src ← mread data 0 size;
    c ← mwrite (dev_config (get_dev w s)) (offset - off_dev_cfg) src;
    Ok (set_dev w (set_dev_config c (get_dev w s)) s).

Definition virtio_pci_space_read (data : list Z) (offset size : Z) s
    : res (vm_t F * list Z) :=
  if offset <? off_dev_cfg then
    src ← mread (vp_config (get_dev w s)) offset size;
    data ← mwrite data 0 src;
    if offset =? off_isr_cap then
      c ← store 4 (vp_config (get_dev w s)) off_isr_cap 0;
      Ok (set_dev w (set_vp_config c (get_dev w s)) s, data)
    else Ok (s, data)
  else
    _ ← dev_cfg_ok (get_dev w s);
    src ← mread (dev_config (get_dev w s)) (offset - off_dev_cfg) size;
    data ← mwrite data 0 src;
    Ok (s, data).

Definition virtio_pci_space_io (data : list Z) (is_write : bool) (offset size : Z) s
    : res (vm_t F * list Z) :=
  if is_write then s ← virtio_pci_space_write data offset size s; Ok (s, data)
  else virtio_pci_space_read data offset size s.
End transport.

(** ** Capabilities and initialisation *)

(** One round of the first loop of [virtio_pci_set_cap]: write capability [i] at
    [next] and link it to the place of the following one. *)
Definition set_one_cap (st : list Z * Z * list Z) (i : nat) : res (list Z * Z * list Z) :=
  let '(cfg, next, caps) := st in
  let i := Z.of_nat i in
  cfg ← mwrite cfg next
    ([PCI_CAP_ID_VNDR; 0; sizeof_virtio_pci_cap; u8 i; 0] ++ replicate 11 0);
  let cap_len := if (i =? VIRTIO_PCI_CAP_NOTIFY_CFG) || (i =? VIRTIO_PCI_CAP_PCI_CFG)
                 then sizeof_virtio_pci_cap + 4 else sizeof_virtio_pci_cap in
  cfg ← store 1 cfg (next + cap_len_off) cap_len;
  let next' := u8 (next + cap_len) in
  cfg ← store 1 cfg (next + cap_next_off) next';
  Ok (cfg, next', caps ++ [next]).

(** [caps[i]->offset = offset; caps[i]->length = length] *)
Definition set_cap_window (cfg : list Z) (cap offset length : Z) : res (list Z) :=
  cfg ← store 4 cfg (cap + cap_offset_off) offset;
  store 4 cfg (cap + cap_length_off) length.

Definition virtio_pci_set_cap (d : vdev) (next : Z) : res vdev :=
  '(cfg, _, caps) ← foldM set_one_cap (cfg_space (vd_pci d), next, [])
                      (seq 1 (Z.to_nat VIRTIO_PCI_CAP_NUM));
  let cap i := caps !!! Z.to_nat (i - 1) in
  cfg ← set_cap_window cfg (cap VIRTIO_PCI_CAP_COMMON_CFG) off_common_cfg
          sizeof_virtio_pci_common_cfg;
  cfg ← set_cap_window cfg (cap VIRTIO_PCI_CAP_NOTIFY_CFG) off_notify_data sizeof_notify_data;
  cfg ← set_cap_window cfg (cap VIRTIO_PCI_CAP_ISR_CFG) off_isr_cap sizeof_isr_cap;
  cfg ← set_cap_window cfg (cap VIRTIO_PCI_CAP_DEVICE_CFG) off_dev_cfg 0;
  Ok (set_dev_cfg_cap (Some (cap VIRTIO_PCI_CAP_DEVICE_CFG))
    (set_notify_cap (Some (cap VIRTIO_PCI_CAP_NOTIFY_CFG))
      (set_vd_pci (set_cfg_space cfg (vd_pci d)) d))).

Definition virtio_pci_get_notify_addr (d : vdev) (q : virtq) : res Z :=
  cap ← ptr_off (notify_cap d);
  let cfg := cfg_space (vd_pci d) in
  bar ← load 1 cfg (cap + cap_bar_off);
  base ← load 4 cfg (PCI_BAR_OFFSET (Z.to_nat bar));
  off ← load 4 cfg (cap + cap_offset_off);
  mult ← load 4 cfg (cap + notify_off_multiplier_off);
  Ok (u64 (base + u32 (off + mult * info_notify_off q))).

Definition virtio_pci_set_dev_cfg (len : Z) (d : vdev) : res vdev :=
  c ← store 8 (vp_config d) off_dev_cfg (dev_config_addr d);
  cap ← ptr_off (dev_cfg_cap d);
  cfg ← store 4 (cfg_space (vd_pci d)) (cap + cap_length_off) (u8 len);
  Ok (set_vd_pci (set_cfg_space cfg (vd_pci d)) (set_vp_config c d)).

Definition virtio_pci_set_virtq (num_queues : Z) (d : vdev) : res vdev :=
  c ← store 2 (vp_config d) VIRTIO_PCI_COMMON_NUMQ num_queues;
  Ok (set_vq_set true (set_vp_config c d)).

Definition virtio_pci_add_feature (feature : Z) (d : vdev) : vdev :=
  set_device_feature (Z.lor (device_feature d) feature) d.

Definition set_hdr (k off v : Z) (d : vdev) : res vdev :=
  cfg ← store k (cfg_space (vd_pci d)) off v;
  Ok (set_vd_pci (set_cfg_space cfg (vd_pci d)) d).

Definition virtio_pci_set_pci_hdr (device_id class irq_line : Z) (d : vdev) : res vdev :=
  d ← set_hdr 2 PCI_DEVICE_ID device_id d;
  d ← set_hdr 4 PCI_CLASS_REVISION (u32 (Z.shiftl class 8)) d;
  set_hdr 1 PCI_INTERRUPT_LINE irq_line d.

(** [memset(dev, 0x00, sizeof(struct virtio_pci_dev))]: the transport's members;
    the device's own members stay. *)
Definition zero_transport (d : vdev) : vdev :=
  mkVdev (vd_pci d) (replicate (Z.to_nat sizeof_virtio_pci_config) 0) 0 0 None None false
    (dev_config d) (dev_config_addr d) (vqs d) (irqfd d) (ioeventfds d) (irq_num d) (enable d).

Definition virtio_pci_init (w : vdev_id) (d : vdev) (B : buses) : res (vdev * buses) :=
  let cap_list := 0x40 in
  let d := zero_transport d in
  let '(pd, B) := pci_dev_init w B in
  let d := set_vd_pci pd d in
  d ← set_hdr 2 PCI_VENDOR_ID VIRTIO_PCI_VENDOR_ID d;
  d ← set_hdr 1 PCI_CAPABILITY_LIST cap_list d;
  d ← set_hdr 1 PCI_HEADER_TYPE PCI_HEADER_TYPE_NORMAL d;
  d ← set_hdr 1 PCI_INTERRUPT_PIN 1 d;
  pd ← pci_set_status (vd_pci d) (Z.lor PCI_STATUS_CAP_LIST PCI_STATUS_INTERRUPT);
  '(pd, B) ← pci_set_bar w pd B 0 0x100 PCI_BASE_ADDRESS_SPACE_MEMORY F_virtio_pci_space_io;
  d ← virtio_pci_set_cap (set_vd_pci pd d) cap_list;
  Ok (virtio_pci_add_feature
        (Z.lor (Z.shiftl 1 VIRTIO_F_RING_PACKED) (Z.shiftl 1 VIRTIO_F_VERSION_1)) d, B).

Definition virtio_pci_enable (w : vdev_id) (B : buses) : res buses := pci_dev_register w B.

(** * Well-formed devices *)

Lemma get_set_dev {F} w d (s : vm_t F) : get_dev w (set_dev w d s) = d.
Proof. by destruct w. Qed.
Lemma set_set_dev {F} w d d' (s : vm_t F) : set_dev w d (set_dev w d' s) = set_dev w d s.
Proof. by destruct w. Qed.

Definition virtq_ok (q : virtq) : Prop := lenZ (info q) = sizeof_virtq_info ∧ bytes_ok (info q).

(** The register block has its size, the pointer to the device-specific structure
    is intact, and the number of queues it advertises is the number there are. *)
Record vdev_ok (d : vdev) : Prop := {
  ok_config : lenZ (vp_config d) = sizeof_virtio_pci_config;
  ok_bytes : bytes_ok (vp_config d);
  ok_pointer : load 8 (vp_config d) off_dev_cfg = Ok (dev_config_addr d);
  ok_array : vq_set d = true;
  ok_numq : load 2 (vp_config d) VIRTIO_PCI_COMMON_NUMQ = Ok (lenZ (vqs d));
  ok_queues : Forall virtq_ok (vqs d);
}.

(** Writes to the register block that touch neither the pointer nor the number of
    queues keep it well formed, and leave the bytes outside them alone. *)
Lemma config_write_ok d off src :
  vdev_ok d → Forall byte_ok src → 0 ≤ off → off + lenZ src ≤ off_dev_cfg →
  (off + lenZ src ≤ VIRTIO_PCI_COMMON_NUMQ ∨ VIRTIO_PCI_COMMON_NUMQ + 2 ≤ off) →
  mwrite (vp_config d) off src = Ok (set_bytes (vp_config d) off src) ∧
  vdev_ok (set_vp_config (set_bytes (vp_config d) off src) d).
Proof.
  intros Hok Hsrc Ho Hb Hn. pose proof (ok_config d Hok) as Hl.
  unfold sizeof_virtio_pci_config, off_dev_cfg, VIRTIO_PCI_COMMON_NUMQ in *.
  assert (Hw : mwrite (vp_config d) off src = Ok (set_bytes (vp_config d) off src))
    by (apply mwrite_ok; cbn; lia).
  split; [done|]. destruct Hok as [_ Hby Hp Ha Hq Hqs].
  split; cbn [vp_config set_vp_config dev_config_addr vq_set vqs]; try done.
  - by rewrite lenZ_set_bytes.
  - by apply (bytes_ok_mwrite (vp_config d) off src).
  - unfold load in *. rewrite (mread_mwrite_ne _ _ _ _ _ _ Hw); [done|]. unfold off_dev_cfg. lia.
  - unfold load in *. rewrite (mread_mwrite_ne _ _ _ _ _ _ Hw); [done|].
    unfold VIRTIO_PCI_COMMON_NUMQ. lia.
Qed.

Lemma config_load_ok d k off :
  vdev_ok d → 0 ≤ off → 0 ≤ k → off + k ≤ sizeof_virtio_pci_config →
  ∃ v, load k (vp_config d) off = Ok v ∧ 0 ≤ v < 2 ^ (8 * k).
Proof.
  intros Hok ???. eexists. split.
  - apply load_ok_iff. rewrite bsize_list, (ok_config d Hok). by split_and!.
  - apply (load_range k (vp_config d) off); [apply (ok_bytes d Hok)|]. apply load_ok_iff.
    rewrite bsize_list, (ok_config d Hok). by split_and!.
Qed.

(** Queue [i] of a well-formed device. *)
Lemma dev_vq_ok d i :
  vdev_ok d → 0 ≤ i < lenZ (vqs d) → ∃ q, dev_vq d (Z.to_nat i) = Some q ∧ virtq_ok q.
Proof.
  intros Hok Hi. unfold dev_vq. rewrite (ok_array d Hok).
  destruct (lookup_lt_is_Some_2 (vqs d) (Z.to_nat i)) as [q Hq]; [unfold lenZ in Hi; lia|].
  exists q. split; [done|]. by eapply Forall_lookup_1; [apply (ok_queues d Hok)|].
Qed.

(** The actions of the registers on a well-formed device. *)
Lemma select_device_feature_ok d :
  vdev_ok d → ∃ d', virtio_pci_select_device_feature d = Ok d' ∧ vdev_ok d'.
Proof.
  intros Hok. unfold virtio_pci_select_device_feature.
  destruct (config_load_ok d 4 VIRTIO_PCI_COMMON_DFSELECT Hok) as (v&->&_); [by vm_compute..|].
  rewrite bind_Ok. unfold store.
  match goal with |- context [le_bytes 4 ?x] =>
    destruct (config_write_ok d VIRTIO_PCI_COMMON_DF (le_bytes 4 x) Hok) as [-> Hok'] end;
    [by apply le_bytes_ok|rewrite ?lenZ_le_bytes by lia; vm_compute; congruence..| |].
  - rewrite lenZ_le_bytes by lia. left. by vm_compute.
  - eexists. by split.
Qed.

Lemma write_guest_feature_ok d :
  vdev_ok d → ∃ d', virtio_pci_write_guest_feature d = Ok d' ∧ vdev_ok d'.
Proof.
  intros Hok. unfold virtio_pci_write_guest_feature.
  destruct (config_load_ok d 4 VIRTIO_PCI_COMMON_GFSELECT Hok) as (v&->&_); [by vm_compute..|].
  destruct (config_load_ok d 4 VIRTIO_PCI_COMMON_GF Hok) as (f&->&_); [by vm_compute..|].
  rewrite !bind_Ok. destruct Hok.
  destruct (v =? 0); [|destruct (v =? 1)]; (eexists; split; [done|]); by split.
Qed.

Lemma select_virtq_ok d :
  vdev_ok d → ∃ d', virtio_pci_select_virtq d = Ok d' ∧ vdev_ok d' ∧ vqs d' = vqs d ∧
    ∀ i q, load 2 (vp_config d) VIRTIO_PCI_COMMON_Q_SELECT = Ok i → i < lenZ (vqs d) →
      dev_vq d (Z.to_nat i) = Some q →
      d' = set_vp_config (set_bytes (vp_config d) VIRTIO_PCI_COMMON_Q_SIZE (info q)) d.
Proof.
  intros Hok. unfold virtio_pci_select_virtq.
  destruct (config_load_ok d 2 VIRTIO_PCI_COMMON_Q_SELECT Hok) as (i&->&Hi); [by vm_compute..|].
  rewrite (ok_numq d Hok), !bind_Ok. destruct (Z.ltb_spec i (lenZ (vqs d))) as [Hlt|Hge].
  - destruct (dev_vq_ok d i Hok) as (q&Hq&Hql&Hqb); [lia|].
    rewrite Hq. cbn [from_option_res]. rewrite bind_Ok.
    destruct (config_write_ok d VIRTIO_PCI_COMMON_Q_SIZE (info q) Hok) as [-> Hok'];
      [|rewrite ?Hql; vm_compute; congruence..|rewrite Hql; right; by vm_compute|].
    { by apply bytes_ok_list. }
    rewrite bind_Ok. eexists; split_and!; [done|done|done|]. intros j q' [= ->] _ Hq'. simplify_eq. done.
  - unfold store. destruct (config_write_ok d VIRTIO_PCI_COMMON_Q_SIZE (le_bytes 2 0) Hok)
      as [-> Hok']; [by apply le_bytes_ok|vm_compute; congruence..|right; by vm_compute|].
    rewrite bind_Ok. eexists; split_and!; [done|done|done|]. intros j q' [= ->] ?. lia.
Qed.

Lemma write_virtq_info_ok d data off size :
  vdev_ok d → Forall byte_ok data → 0 ≤ size ≤ lenZ data →
  VIRTIO_PCI_COMMON_Q_SIZE ≤ off → off + size ≤ off_isr_cap →
  ∃ d', write_virtq_info data off size d = Ok d' ∧ vdev_ok d' ∧ vp_config d' = vp_config d ∧
    ∀ i q, load 2 (vp_config d) VIRTIO_PCI_COMMON_Q_SELECT = Ok i → i < lenZ (vqs d) →
      dev_vq d (Z.to_nat i) = Some q →
      d' = set_dev_vq (Z.to_nat i) (set_info (set_bytes (info q)
        (off - VIRTIO_PCI_COMMON_Q_SIZE) (get_bytes data 0 (Z.to_nat size))) q) d.
Proof.
  intros Hok Hdata Hs Ho Hb. unfold write_virtq_info.
  destruct (config_load_ok d 2 VIRTIO_PCI_COMMON_Q_SELECT Hok) as (i&->&Hi); [by vm_compute..|].
  rewrite (ok_numq d Hok), !bind_Ok. destruct (Z.ltb_spec i (lenZ (vqs d))) as [Hlt|Hge].
  2: { exists d. split_and!; try done. intros j q [= ->]. lia. }
  destruct (dev_vq_ok d i Hok) as (q&Hq&Hql&Hqb); [lia|].
  rewrite Hq. cbn [from_option_res]. rewrite bind_Ok, mread_ok by (cbn; lia).
  rewrite bind_Ok. unfold VIRTIO_PCI_COMMON_Q_SIZE, off_isr_cap, sizeof_virtq_info in *.
  assert (Hsrc : Forall byte_ok (get_bytes data 0 (Z.to_nat size))).
  { apply (bytes_ok_mread data 0 size); [by apply bytes_ok_list|]. apply mread_ok; cbn; lia. }
  assert (Hw : mwrite (info q) (off - 24) (get_bytes data 0 (Z.to_nat size)) =
    Ok (set_bytes (info q) (off - 24) (get_bytes data 0 (Z.to_nat size)))).
  { apply mwrite_ok; [lia|]. rewrite lenZ_get_bytes, bsize_list by lia. lia. }
  rewrite Hw, bind_Ok. eexists; split; [done|]. split_and!; [|done|].
  - destruct Hok as [? ? ? ? Hn Hqs]. split; cbn; try done.
    + rewrite Hn. unfold lenZ. by rewrite length_insert.
    + apply Forall_insert; [done|]. split; cbn; [by rewrite lenZ_set_bytes|].
      by apply (bytes_ok_mwrite (info q) (off - 24) _ _ Hqb Hsrc).
  - intros j q' [= ->] _ Hq'. by simplify_eq.
Qed.

(** ** Register accesses that stay inside a register *)

(** What the transport expects of an access: inside the register block, not over
    the end of it nor of the queue registers, and the number of queues is only
    read. *)
Definition reg_access (offset size : Z) : Prop :=
  0 ≤ offset ∧ 1 ≤ size ∧ offset + size ≤ off_dev_cfg ∧
  (offset ≤ VIRTIO_PCI_COMMON_Q_USEDHI → offset + size ≤ off_isr_cap) ∧
  (offset + size ≤ VIRTIO_PCI_COMMON_NUMQ ∨ VIRTIO_PCI_COMMON_NUMQ + 2 ≤ offset).

Section accesses.
Context {F : Type} (w : vdev_id) `{VirtqOps (vm_t F)}.
Implicit Types (s : vm_t F).

Lemma on_dev_ok f s d :
  f (get_dev w s) = Ok d → on_dev w f s = Ok (set_dev w d s).
Proof. intros E. unfold on_dev. by rewrite E. Qed.

Lemma reg_write_copied s data offset size :
  vdev_ok (get_dev w s) → Forall byte_ok data → reg_access offset size → size ≤ lenZ data →
  let src := get_bytes data 0 (Z.to_nat size) in
  let d := set_vp_config (set_bytes (vp_config (get_dev w s)) offset src) (get_dev w s) in
  mread data 0 size = Ok src ∧
  mwrite (vp_config (get_dev w s)) offset src = Ok (vp_config d) ∧ vdev_ok d.
Proof.
  intros Hok Hdata (?&?&?&?&?) Hl src d.
  assert (Hr : mread data 0 size = Ok src) by (apply mread_ok; cbn; lia).
  assert (lenZ src = size) by (apply lenZ_get_bytes; lia).
  split; [done|]. apply config_write_ok; try done; try lia.
  apply (bytes_ok_mread data 0 size); [by apply bytes_ok_list|done].
Qed.

(** Selecting queue [i] shows its registers. *)
Lemma space_write_select s i :
  vdev_ok (get_dev w s) → 0 ≤ i < lenZ (vqs (get_dev w s)) → i < 65536 →
  ∃ d' q, virtio_pci_space_write w (le_bytes 2 i) VIRTIO_PCI_COMMON_Q_SELECT 2 s =
      Ok (set_dev w d' s) ∧
    vdev_ok d' ∧ vqs d' = vqs (get_dev w s) ∧
    load 2 (vp_config d') VIRTIO_PCI_COMMON_Q_SELECT = Ok i ∧
    vqs (get_dev w s) !! Z.to_nat i = Some q ∧ virtq_ok q ∧
    get_bytes (vp_config d') VIRTIO_PCI_COMMON_Q_SIZE (Z.to_nat sizeof_virtq_info) = info q.
Proof.
  intros Hok Hi Hmax. unfold virtio_pci_space_write.
  destruct (reg_write_copied s (le_bytes 2 i) VIRTIO_PCI_COMMON_Q_SELECT 2 Hok)
    as (Hr&Hw&Hok1); [by apply le_bytes_ok| |by rewrite lenZ_le_bytes|].
  { unfold reg_access. repeat split; try (by vm_compute). right. by vm_compute. }
  change (get_bytes (le_bytes 2 i) 0 (Z.to_nat 2)) with (le_bytes 2 i) in *.
  set (d1 := set_vp_config _ _) in Hw, Hok1.
  change (VIRTIO_PCI_COMMON_Q_SELECT <? off_dev_cfg) with true. cbv iota.
  rewrite mread_all by (by rewrite lenZ_le_bytes). rewrite bind_Ok, Hw, bind_Ok.
  assert (Hsel : load 2 (vp_config d1) VIRTIO_PCI_COMMON_Q_SELECT = Ok i).
  { rewrite (load_store_eq 2 (vp_config (get_dev w s)) _ i); [|lia|done].
    f_equal. apply wrap_small. change (2 ^ (8 * 2)) with 65536. lia. }
  destruct (dev_vq_ok d1 i Hok1) as (q&Hq&Hql&Hqb); [done|].
  destruct (select_virtq_ok d1 Hok1) as (d2&E2&Hok2&Hv2&Hshow).
  specialize (Hshow i q Hsel (proj2 Hi) Hq).
  match goal with |- context [on_dev w _ ?x] => assert (get_dev w x = d1) as Eg by apply get_set_dev end.
  cbn [VIRTIO_PCI_COMMON_Q_SELECT Z.eqb Pos.eqb VIRTIO_PCI_COMMON_DFSELECT
    VIRTIO_PCI_COMMON_GFSELECT VIRTIO_PCI_COMMON_STATUS].
  exists d2, q. split_and!.
  - erewrite on_dev_ok by (rewrite Eg; exact E2). by rewrite set_set_dev.
  - done.
  - done.
  - rewrite Hshow. cbn [vp_config set_vp_config].
    rewrite <-Hsel. unfold load. f_equal.
    apply (mread_mwrite_ne _ VIRTIO_PCI_COMMON_Q_SIZE (info q)); [|left; by vm_compute].
    apply mwrite_ok; [by vm_compute|]. rewrite bsize_list, (ok_config d1 Hok1), Hql. by vm_compute.
  - unfold dev_vq in Hq. by rewrite (ok_array d1 Hok1) in Hq.
  - done.
  - rewrite Hshow. cbn [vp_config set_vp_config].
    replace (Z.to_nat sizeof_virtq_info) with (length (info q)) by (unfold lenZ in Hql; lia).
    apply get_set_bytes_eq; [by vm_compute|]. rewrite bsize_list, (ok_config d1 Hok1), Hql. by vm_compute.
Qed.

(** The offsets of the switch in [virtio_pci_space_write] that lead to the queue
    registers. *)
Lemma queue_register_branch {A} offset (a0 a1 a2 a3 a4 a5 a6 : A) :
  VIRTIO_PCI_COMMON_Q_SIZE ≤ offset ≤ VIRTIO_PCI_COMMON_Q_USEDHI →
  offset ≠ VIRTIO_PCI_COMMON_Q_ENABLE →
  (if offset =? VIRTIO_PCI_COMMON_DFSELECT then a0
   else if offset =? VIRTIO_PCI_COMMON_GFSELECT then a1
   else if offset =? VIRTIO_PCI_COMMON_STATUS then a2
   else if offset =? VIRTIO_PCI_COMMON_Q_SELECT then a3
   else if offset =? VIRTIO_PCI_COMMON_Q_ENABLE then a4
   else if (VIRTIO_PCI_COMMON_Q_SIZE <=? offset) && (offset <=? VIRTIO_PCI_COMMON_Q_USEDHI)
   then a5 else a6) = a5.
Proof.
  intros Ho He. rewrite !(proj2 (Z.leb_le _ _)) by lia. cbn [andb].
  unfold VIRTIO_PCI_COMMON_Q_SIZE, VIRTIO_PCI_COMMON_Q_USEDHI, VIRTIO_PCI_COMMON_DFSELECT,
    VIRTIO_PCI_COMMON_GFSELECT, VIRTIO_PCI_COMMON_STATUS, VIRTIO_PCI_COMMON_Q_SELECT,
    VIRTIO_PCI_COMMON_Q_ENABLE in *.
  by repeat match goal with |- context [offset =? ?x] =>
    rewrite (proj2 (Z.eqb_neq offset x)) by lia end.
Qed.

(** Writing a register of the selected queue. *)
Lemma space_write_info s i q off k v :
  let d := get_dev w s in
  vdev_ok d → load 2 (vp_config d) VIRTIO_PCI_COMMON_Q_SELECT = Ok i → 0 ≤ i →
  vqs d !! Z.to_nat i = Some q →
  VIRTIO_PCI_COMMON_Q_SIZE ≤ off ≤ VIRTIO_PCI_COMMON_Q_USEDHI →
  off ≠ VIRTIO_PCI_COMMON_Q_ENABLE → 1 ≤ k → off + k ≤ off_isr_cap →
  ∃ d', virtio_pci_space_write w (le_bytes k v) off k s = Ok (set_dev w d' s) ∧ vdev_ok d' ∧
    vqs d' = <[Z.to_nat i := set_info
      (set_bytes (info q) (off - VIRTIO_PCI_COMMON_Q_SIZE) (le_bytes k v)) q]> (vqs d).
Proof.
  intros d Hok Hsel Hi0 Hq Ho He Hk Hb.
  assert (Hlen : lenZ (le_bytes k v) = k) by (apply lenZ_le_bytes; lia).
  assert (Hacc : reg_access off k).
  { unfold reg_access, VIRTIO_PCI_COMMON_Q_SIZE, VIRTIO_PCI_COMMON_Q_USEDHI, off_dev_cfg,
      off_isr_cap, VIRTIO_PCI_COMMON_NUMQ in *. lia. }
  destruct (reg_write_copied s (le_bytes k v) off k Hok) as (Hr&Hw&Hok1);
    [apply le_bytes_ok; lia|done|lia|].
  assert (Hall : get_bytes (le_bytes k v) 0 (Z.to_nat k) = le_bytes k v).
  { rewrite mread_all in Hr by done. congruence. }
  rewrite Hall in *. unfold virtio_pci_space_write.
  rewrite (proj2 (Z.ltb_lt off off_dev_cfg)) by (unfold reg_access in Hacc; lia).
  rewrite Hr, bind_Ok, Hw, bind_Ok. rewrite queue_register_branch by done.
  fold d in Hw, Hok1 |- *. set (d1 := set_vp_config _ d) in *.
  assert (Hlt : i < lenZ (vqs d)).
  { apply lookup_lt_Some in Hq. unfold lenZ. lia. }
  assert (Hsel1 : load 2 (vp_config d1) VIRTIO_PCI_COMMON_Q_SELECT = Ok i).
  { rewrite <-Hsel. unfold load. f_equal. apply (mread_mwrite_ne _ _ _ _ _ _ Hw).
    unfold VIRTIO_PCI_COMMON_Q_SELECT, VIRTIO_PCI_COMMON_Q_SIZE in *. lia. }
  destruct (write_virtq_info_ok d1 (le_bytes k v) off k Hok1) as (d2&E2&Hok2&_&Hval);
    [apply le_bytes_ok; lia|lia|lia|done|].
  exists d2. split_and!.
  - erewrite on_dev_ok by (rewrite get_set_dev; exact E2). by rewrite set_set_dev.
  - done.
  - rewrite (Hval i q Hsel1 Hlt), Hall; [done|]. unfold dev_vq. by rewrite (ok_array d1 Hok1).
Qed.

(** Reading registers returns the bytes of the block. *)
Lemma space_read_config s buf off k bs :
  let d := get_dev w s in
  vdev_ok d → 0 ≤ off → 1 ≤ k → off + k ≤ off_dev_cfg → off ≠ off_isr_cap → lenZ buf = k →
  get_bytes (vp_config d) off (Z.to_nat k) = bs →
  virtio_pci_space_read w buf off k s = Ok (s, bs).
Proof.
  intros d Hok Ho Hk Hb Hne Hbuf <-. unfold virtio_pci_space_read. fold d.
  rewrite (proj2 (Z.ltb_lt _ _)) by lia.
  pose proof (ok_config d Hok). unfold sizeof_virtio_pci_config, off_dev_cfg in *.
  rewrite mread_ok by (rewrite ?bsize_list; lia). rewrite bind_Ok.
  rewrite mwrite_all by (rewrite lenZ_get_bytes; lia). rewrite bind_Ok.
  by rewrite (proj2 (Z.eqb_neq _ _)) by done.
Qed.
End accesses.


(** C28: the queue registers are kept per queue. A value written to a register
    of queue [i], other than queue_enable, whose write acts on the queue, is read
    back from it after any other queue has been selected in between, and the
    registers of that other queue are untouched. *)
Theorem virtio_queue_registers_roundtrip {F} w `{VirtqOps (vm_t F)} (s : vm_t F) i j off k v buf :
  let n := lenZ (vqs (get_dev w s)) in
  vdev_ok (get_dev w s) → 0 ≤ i < n → 0 ≤ j < n → n ≤ 65536 → i ≠ j →
  VIRTIO_PCI_COMMON_Q_SIZE ≤ off ≤ VIRTIO_PCI_COMMON_Q_USEDHI →
  off ≠ VIRTIO_PCI_COMMON_Q_ENABLE → 1 ≤ k → off + k ≤ off_isr_cap → lenZ buf = k →
  ∃ s1 s2 s3 s4,
    virtio_pci_space_write w (le_bytes 2 i) VIRTIO_PCI_COMMON_Q_SELECT 2 s = Ok s1 ∧
    virtio_pci_space_write w (le_bytes k v) off k s1 = Ok s2 ∧
    virtio_pci_space_write w (le_bytes 2 j) VIRTIO_PCI_COMMON_Q_SELECT 2 s2 = Ok s3 ∧
    virtio_pci_space_write w (le_bytes 2 i) VIRTIO_PCI_COMMON_Q_SELECT 2 s3 = Ok s4 ∧
    virtio_pci_space_read w buf off k s4 = Ok (s4, le_bytes k v) ∧
    vqs (get_dev w s4) !! Z.to_nat j = vqs (get_dev w s) !! Z.to_nat j.
Proof.
  intros n Hok Hi Hj Hn Hij Ho He Hk Hb Hbuf.
  destruct (space_write_select w s i Hok Hi ltac:(lia)) as (d1&q&E1&Hok1&Hv1&Hs1&Hq&[Hql Hqb]&_).
  set (s1 := set_dev w d1 s) in *. assert (Eg1 : get_dev w s1 = d1) by apply get_set_dev.
  destruct (space_write_info w s1 i q off k v) as (d2&E2&Hok2&Hv2);
    rewrite ?Eg1, ?Hv1; try done; [lia|].
  set (s2 := set_dev w d2 s1) in *. assert (Eg2 : get_dev w s2 = d2) by apply get_set_dev.
  rewrite Eg1, Hv1 in Hv2.
  assert (Hn2 : lenZ (vqs d2) = n) by (rewrite Hv2; unfold lenZ; by rewrite length_insert).
  destruct (space_write_select w s2 j) as (d3&qj&E3&Hok3&Hv3&_);
    rewrite ?Eg2; try done; try lia.
  set (s3 := set_dev w d3 s2) in *. assert (Eg3 : get_dev w s3 = d3) by apply get_set_dev.
  rewrite Eg2 in Hv3.
  destruct (space_write_select w s3 i) as (d4&q4&E4&Hok4&Hv4&_&Hq4&_&Hwin);
    rewrite ?Eg3, ?Hv3; try done; try lia.
  set (s4 := set_dev w d4 s3) in *. assert (Eg4 : get_dev w s4 = d4) by apply get_set_dev.
  rewrite Eg3, Hv3, Hv2 in Hq4.
  rewrite list_lookup_insert_eq in Hq4 by (by eapply lookup_lt_Some). injection Hq4 as <-.
  exists s1, s2, s3, s4. split_and!; try done.
  - apply space_read_config; rewrite ?Eg4; try done;
      try (unfold VIRTIO_PCI_COMMON_Q_SIZE, VIRTIO_PCI_COMMON_Q_USEDHI, off_dev_cfg, off_isr_cap in *; lia).
    unfold VIRTIO_PCI_COMMON_Q_SIZE, sizeof_virtq_info, off_isr_cap, VIRTIO_PCI_COMMON_Q_USEDHI in *.
    replace off with (24 + (off - 24)) at 1 by lia.
    rewrite <-(get_bytes_sub (vp_config d4) 24 (Z.to_nat 32)) by lia.
    rewrite Hwin. cbn [set_info info].
    assert (Hlen : lenZ (le_bytes k v) = k) by (apply lenZ_le_bytes; lia).
    replace (Z.to_nat k) with (length (le_bytes k v)) by (unfold lenZ in Hlen; lia).
    apply get_set_bytes_eq; [lia|]. rewrite Hlen, bsize_list. lia.
  - rewrite Eg4, Hv4, Eg3, Hv3, Hv2. rewrite list_lookup_insert_ne by lia. done.
Qed.

(** ** Any access *)

Section any_access.
Context {F : Type} (w : vdev_id) `{VirtqOps (vm_t F)}.
Implicit Types (s : vm_t F).

Lemma reg_write_safe s data offset size :
  vdev_ok (get_dev w s) → Forall byte_ok data → size ≤ lenZ data →
  reg_access offset size → offset ≠ VIRTIO_PCI_COMMON_Q_ENABLE → offset ≠ off_notify_data →
  ∃ d', virtio_pci_space_write w data offset size s = Ok (set_dev w d' s) ∧ vdev_ok d'.
Proof.
  intros Hok Hdata Hl Hacc Hne Hnn. destruct (reg_write_copied w s data offset size Hok Hdata Hacc Hl)
    as (Hr&Hw&Hok1).
  unfold virtio_pci_space_write. pose proof Hacc as (H0&H1&H2&H3&_).
  rewrite (proj2 (Z.ltb_lt _ _)) by lia. rewrite Hr, bind_Ok, Hw, bind_Ok.
  set (d1 := set_vp_config _ _) in *.
  assert (Hon : ∀ f d2, f d1 = Ok d2 →
    on_dev w f (set_dev w (set_vp_config (vp_config d1) (get_dev w s)) s) = Ok (set_dev w d2 s)).
  { intros f d2 E. erewrite on_dev_ok; [|rewrite get_set_dev; exact E]. by rewrite set_set_dev. }
  rewrite (proj2 (Z.eqb_neq _ _) Hne), (proj2 (Z.eqb_neq _ _) Hnn).
  case_match; [destruct (select_device_feature_ok d1 Hok1) as (d2&E&?); eauto|].
  case_match; [destruct (write_guest_feature_ok d1 Hok1) as (d2&E&?); eauto|].
  case_match; [|case_match; [destruct (select_virtq_ok d1 Hok1) as (d2&E&?&_); eauto|]].
  { destruct (config_load_ok d1 1 VIRTIO_PCI_COMMON_STATUS Hok1) as (v&E&_); [by vm_compute..|].
    exists d1. split; [|done]. apply Hon. unfold virtio_pci_write_status. rewrite E, bind_Ok.
    by destruct (v =? 0). }
  case_match eqn:Eq; [|by eexists]. zbool.
  destruct (write_virtq_info_ok d1 data offset size Hok1) as (d2&E&?&_); try done; try lia. eauto.
Qed.

(** The bytes [offset, offset + size) are registers, or in the device-specific
    structure. *)
Definition in_registers (offset size : Z) : Prop :=
  0 ≤ offset ∧ 1 ≤ size ∧ offset + size ≤ off_dev_cfg.
Definition in_dev_cfg s (offset size : Z) : Prop :=
  off_dev_cfg ≤ offset ∧ 1 ≤ size ∧
  offset + size ≤ off_dev_cfg + lenZ (dev_config (get_dev w s)).

Lemma read_safe s data offset size :
  vdev_ok (get_dev w s) → size ≤ lenZ data →
  in_registers offset size ∨ in_dev_cfg s offset size →
  ∃ d' data', virtio_pci_space_read w data offset size s = Ok (set_dev w d' s, data') ∧ vdev_ok d'.
Proof.
  unfold in_registers, in_dev_cfg, off_dev_cfg. intros Hok Hl Hrange.
  unfold virtio_pci_space_read. set (d := get_dev w s) in *.
  pose proof (ok_config d Hok) as Hc. unfold sizeof_virtio_pci_config, off_dev_cfg in *.
  assert (Hself : set_dev w d s = s) by (subst d; by destruct w, s).
  destruct Hrange as [(?&?&?)|(?&?&?)].
  + rewrite (proj2 (Z.ltb_lt _ _)) by lia.
    rewrite mread_ok by (rewrite ?bsize_list; lia). rewrite bind_Ok.
    rewrite mwrite_ok by (rewrite ?lenZ_get_bytes, ?bsize_list; lia). rewrite bind_Ok.
    destruct (offset =? off_isr_cap); [|exists d; eexists; by rewrite Hself].
    unfold store. destruct (config_write_ok d off_isr_cap (le_bytes 4 0) Hok) as [-> Hok'];
      [by apply le_bytes_ok|by vm_compute..|right; by vm_compute|].
    rewrite bind_Ok. eexists _, _. by split.
  + rewrite (proj2 (Z.ltb_ge _ _)) by lia. unfold dev_cfg_ok, off_dev_cfg.
    pose proof (ok_pointer d Hok) as Hp. unfold off_dev_cfg in Hp.
    rewrite Hp, bind_Ok, Z.eqb_refl, bind_Ok.
    rewrite mread_ok by (rewrite ?bsize_list; lia). rewrite bind_Ok.
    rewrite mwrite_ok by (rewrite ?lenZ_get_bytes, ?bsize_list; lia). rewrite bind_Ok.
    exists d. eexists. by rewrite Hself.
Qed.

Lemma dev_cfg_write_safe s data offset size :
  vdev_ok (get_dev w s) → size ≤ lenZ data → in_dev_cfg s offset size →
  virtio_pci_space_write w data offset size s =
    Ok (set_dev w (set_dev_config (set_bytes (dev_config (get_dev w s)) (offset - off_dev_cfg)
      (get_bytes data 0 (Z.to_nat size))) (get_dev w s)) s).
Proof.
  unfold in_dev_cfg, off_dev_cfg. intros Hok Hl (?&?&?). unfold virtio_pci_space_write, off_dev_cfg.
  rewrite (proj2 (Z.ltb_ge _ _)) by lia. unfold dev_cfg_ok.
  rewrite (ok_pointer _ Hok), bind_Ok, Z.eqb_refl, bind_Ok.
  rewrite mread_ok by (rewrite ?bsize_list; lia). rewrite bind_Ok.
  by rewrite mwrite_ok by (rewrite ?lenZ_get_bytes, ?bsize_list; lia).
Qed.

(** The device with a 16-bit register written, and nothing else changed. *)
Definition reg16 (d : vdev) (off v : Z) : vdev :=
  set_vp_config (set_bytes (vp_config d) off (le_bytes 2 v)) d.

Lemma reg16_ok s off v :
  vdev_ok (get_dev w s) → 0 ≤ v < 65536 → reg_access off 2 →
  mread (le_bytes 2 v) 0 2 = Ok (le_bytes 2 v) ∧
  mwrite (vp_config (get_dev w s)) off (le_bytes 2 v) = Ok (vp_config (reg16 (get_dev w s) off v)) ∧
  vdev_ok (reg16 (get_dev w s) off v) ∧
  load 2 (vp_config (reg16 (get_dev w s) off v)) off = Ok v.
Proof.
  intros Hok Hv Ha.
  destruct (reg_write_copied w s (le_bytes 2 v) off 2 Hok) as (Hr&Hw&Hok1);
    [by apply le_bytes_ok|done|by rewrite lenZ_le_bytes|].
  change (get_bytes (le_bytes 2 v) 0 (Z.to_nat 2)) with (le_bytes 2 v) in *.
  split_and!; try done. unfold reg16.
  rewrite (load_store_eq 2 (vp_config (get_dev w s)) off v _ ltac:(lia) Hw).
  f_equal. by apply wrap_small.
Qed.

(** A notification goes to the queue its number names. *)
Lemma notify_write s v :
  vdev_ok (get_dev w s) → 0 ≤ v < 65536 →
  virtio_pci_space_write w (le_bytes 2 v) off_notify_data 2 s =
    virtq_handle_avail (Z.to_nat v) (set_dev w (reg16 (get_dev w s) off_notify_data v) s) ∧
  vdev_ok (reg16 (get_dev w s) off_notify_data v).
Proof.
  intros Hok Hv. destruct (reg16_ok s off_notify_data v Hok Hv) as (Hr&Hw&Hok1&Hl).
  { unfold reg_access. repeat split; try (by vm_compute). right. by vm_compute. }
  split; [|done]. unfold virtio_pci_space_write.
  change (off_notify_data <? off_dev_cfg) with true. cbv iota. rewrite Hr, bind_Ok, Hw, bind_Ok.
  rewrite get_set_dev. cbn [vp_config set_vp_config].
  change (set_vp_config (vp_config (reg16 (get_dev w s) off_notify_data v)) (get_dev w s))
    with (reg16 (get_dev w s) off_notify_data v).
  change (VIRTIO_PCI_COMMON_Q_SIZE <=? off_notify_data) with true.
  change (off_notify_data <=? VIRTIO_PCI_COMMON_Q_USEDHI) with false.
  repeat (rewrite (proj2 (Z.eqb_neq off_notify_data _)) by done).
  cbn [andb]. rewrite Z.eqb_refl. by rewrite Hl, bind_Ok.
Qed.

(** A value other than 0 in queue_enable enables the selected queue, 0 has no effect. *)
Lemma enable_write s v i :
  vdev_ok (get_dev w s) → 0 ≤ v < 65536 →
  load 2 (vp_config (get_dev w s)) VIRTIO_PCI_COMMON_Q_SELECT = Ok i →
  virtio_pci_space_write w (le_bytes 2 v) VIRTIO_PCI_COMMON_Q_ENABLE 2 s =
    (let s' := set_dev w (reg16 (get_dev w s) VIRTIO_PCI_COMMON_Q_ENABLE v) s in
     if nonzero v then virtq_enable (Z.to_nat i) s' else Ok s') ∧
  vdev_ok (reg16 (get_dev w s) VIRTIO_PCI_COMMON_Q_ENABLE v).
Proof.
  intros Hok Hv Hi.
  destruct (reg16_ok s VIRTIO_PCI_COMMON_Q_ENABLE v Hok Hv) as (Hr&Hw&Hok1&Hl).
  { unfold reg_access. repeat split; try (by vm_compute). right. by vm_compute. }
  split; [|done]. unfold virtio_pci_space_write, virtio_pci_enable_virtq, virtio_pci_disable_virtq.
  change (VIRTIO_PCI_COMMON_Q_ENABLE <? off_dev_cfg) with true. cbv iota.
  rewrite Hr, bind_Ok, Hw, bind_Ok. rewrite get_set_dev. cbn [vp_config set_vp_config].
  change (set_vp_config (vp_config (reg16 (get_dev w s) VIRTIO_PCI_COMMON_Q_ENABLE v)) (get_dev w s))
    with (reg16 (get_dev w s) VIRTIO_PCI_COMMON_Q_ENABLE v).
  repeat (rewrite (proj2 (Z.eqb_neq VIRTIO_PCI_COMMON_Q_ENABLE _)) by done).
  rewrite Z.eqb_refl, Hl, bind_Ok.
  rewrite (load_store_ne 2 2 (vp_config (get_dev w s)) VIRTIO_PCI_COMMON_Q_ENABLE _ v _
    ltac:(lia) Hw) by (left; by vm_compute).
  by rewrite Hi, !bind_Ok.
Qed.
End any_access.

(** C29: what the accesses inside the register block and the device-specific
    structure do to a well-formed device. Writes to registers, other than the two
    below, succeed, change nothing but this device and leave it well formed; so do
    writes inside the device-specific structure, and all reads. A write to the
    notification register, or of a value other than 0 to queue_enable, leaves the
    device well formed and passes control to [virtq_handle_avail] or [virtq_enable]
    for the queue the guest names, without a bound on its number, so that it can
    fault ([virtio_queue_index_unchecked]). Not covered are writes over the number of
    queues, which the transport takes like any other, and accesses that run over
    the end of the registers. *)
Theorem virtio_register_access_safe {F} w `{VirtqOps (vm_t F)} (s : vm_t F) data offset size :
  vdev_ok (get_dev w s) → Forall byte_ok data → size ≤ lenZ data →
  (reg_access offset size → offset ≠ VIRTIO_PCI_COMMON_Q_ENABLE → offset ≠ off_notify_data →
    ∃ d', virtio_pci_space_write w data offset size s = Ok (set_dev w d' s) ∧ vdev_ok d') ∧
  (in_dev_cfg w s offset size →
    ∃ d', virtio_pci_space_write w data offset size s = Ok (set_dev w d' s) ∧ vdev_ok d' ∧
      lenZ (dev_config d') = lenZ (dev_config (get_dev w s))) ∧
  (in_registers offset size ∨ in_dev_cfg w s offset size →
    ∃ d' data', virtio_pci_space_read w data offset size s = Ok (set_dev w d' s, data') ∧
      vdev_ok d') ∧
  (∀ v, 0 ≤ v < 65536 → ∃ d', vdev_ok d' ∧ vqs d' = vqs (get_dev w s) ∧
    virtio_pci_space_write w (le_bytes 2 v) off_notify_data 2 s =
      virtq_handle_avail (Z.to_nat v) (set_dev w d' s)) ∧
  (∀ v i, 0 ≤ v < 65536 → load 2 (vp_config (get_dev w s)) VIRTIO_PCI_COMMON_Q_SELECT = Ok i →
    ∃ d', vdev_ok d' ∧ vqs d' = vqs (get_dev w s) ∧
    virtio_pci_space_write w (le_bytes 2 v) VIRTIO_PCI_COMMON_Q_ENABLE 2 s =
      (if nonzero v then virtq_enable (Z.to_nat i) (set_dev w d' s) else Ok (set_dev w d' s))).
Proof.
  intros Hok Hdata Hl. split_and!.
  - by apply reg_write_safe.
  - intros Hin. rewrite dev_cfg_write_safe by done. eexists. split_and!; [done| |].
    + destruct Hok. by split.
    + apply lenZ_set_bytes.
  - by apply read_safe.
  - intros v Hv. destruct (notify_write w s v Hok Hv). by eexists.
  - intros v i Hv Hi. destruct (enable_write w s v i Hok Hv Hi). by eexists.
Qed.

(** The number of the queue is not checked: on a device whose queues are those of
    its array, notifying a queue it does not have, or enabling one after selecting
    it, accesses memory behind the array. *)
Theorem virtio_queue_index_unchecked {F} w `{VirtqOps (vm_t F)} (s : vm_t F) i :
  (∀ s n, vq_at s n = dev_vq (get_dev w s) n) →
  vdev_ok (get_dev w s) → lenZ (vqs (get_dev w s)) ≤ i < 65536 →
  virtio_pci_space_write w (le_bytes 2 i) off_notify_data 2 s = Fault OutOfBounds ∧
  (load 2 (vp_config (get_dev w s)) VIRTIO_PCI_COMMON_Q_SELECT = Ok i →
   virtio_pci_space_write w (le_bytes 2 1) VIRTIO_PCI_COMMON_Q_ENABLE 2 s = Fault OutOfBounds).
Proof.
  intros Hat Hok Hi. assert (0 ≤ lenZ (vqs (get_dev w s))) by (unfold lenZ; lia).
  assert (Hnone : ∀ d, vqs d = vqs (get_dev w s) → vq_at (set_dev w d s) (Z.to_nat i) = None).
  { intros d Hd. rewrite Hat, get_set_dev. unfold dev_vq. destruct (vq_set d); [|done].
    rewrite Hd. apply lookup_ge_None_2. unfold lenZ in *. lia. }
  split.
  - rewrite (proj1 (notify_write w s i Hok ltac:(lia))). unfold virtq_handle_avail. by rewrite Hnone.
  - intros Hsel. rewrite (proj1 (enable_write w s 1 i Hok ltac:(lia) Hsel)).
    unfold virtq_enable. cbn [nonzero]. by rewrite Hnone.
Qed.

(** ** Features *)

Section features.
Context {F : Type} (w : vdev_id) `{VirtqOps (vm_t F)}.
Implicit Types (s : vm_t F).

(** A 32-bit write of a register below the queue registers: the bytes are copied,
    then the register acts. *)
Lemma space_write_reg32 s off v act :
  vdev_ok (get_dev w s) → 0 ≤ off → off + 4 ≤ VIRTIO_PCI_COMMON_NUMQ → 0 ≤ v < 2 ^ 32 →
  (if off =? VIRTIO_PCI_COMMON_DFSELECT then virtio_pci_select_device_feature
   else if off =? VIRTIO_PCI_COMMON_GFSELECT then virtio_pci_write_guest_feature
   else Ok) = act →
  ∃ c d', act (set_vp_config c (get_dev w s)) = Ok d' ∧ vdev_ok d' ∧
    virtio_pci_space_write w (le_bytes 4 v) off 4 s = Ok (set_dev w d' s) ∧
    vdev_ok (set_vp_config c (get_dev w s)) ∧ load 4 c off = Ok v ∧
    ∀ k off', off' + k ≤ off ∨ off + 4 ≤ off' → load k c off' = load k (vp_config (get_dev w s)) off'.
Proof.
  intros Hok Ho Hb Hv <-. unfold VIRTIO_PCI_COMMON_NUMQ in Hb.
  destruct (reg_write_copied w s (le_bytes 4 v) off 4 Hok) as (Hr&Hw&Hok1);
    [by apply le_bytes_ok| |by rewrite lenZ_le_bytes|].
  { unfold reg_access, off_dev_cfg, off_isr_cap, VIRTIO_PCI_COMMON_NUMQ. lia. }
  change (get_bytes (le_bytes 4 v) 0 (Z.to_nat 4)) with (le_bytes 4 v) in *.
  set (d1 := set_vp_config _ _) in Hw, Hok1. exists (vp_config d1).
  assert (∃ d', (if off =? VIRTIO_PCI_COMMON_DFSELECT then virtio_pci_select_device_feature
    else if off =? VIRTIO_PCI_COMMON_GFSELECT then virtio_pci_write_guest_feature
    else Ok) d1 = Ok d' ∧ vdev_ok d') as (d'&E&Hok').
  { case_match; [by apply select_device_feature_ok|].
    case_match; [by apply write_guest_feature_ok|by eexists]. }
  exists d'. split_and!; [done|done| |done|..].
  - unfold virtio_pci_space_write. rewrite (proj2 (Z.ltb_lt off off_dev_cfg)) by (unfold off_dev_cfg; lia).
    rewrite Hr, bind_Ok, Hw, bind_Ok.
    rewrite (proj2 (Z.eqb_neq off VIRTIO_PCI_COMMON_STATUS)) by (unfold VIRTIO_PCI_COMMON_STATUS; lia).
    rewrite (proj2 (Z.eqb_neq off VIRTIO_PCI_COMMON_Q_SELECT)) by (unfold VIRTIO_PCI_COMMON_Q_SELECT; lia).
    rewrite (proj2 (Z.eqb_neq off VIRTIO_PCI_COMMON_Q_ENABLE)) by (unfold VIRTIO_PCI_COMMON_Q_ENABLE; lia).
    rewrite (proj2 (Z.eqb_neq off off_notify_data)) by (unfold off_notify_data; lia).
    rewrite (proj2 (Z.leb_gt VIRTIO_PCI_COMMON_Q_SIZE off)) by (unfold VIRTIO_PCI_COMMON_Q_SIZE; lia).
    cbn [andb]. repeat case_match;
      try (erewrite on_dev_ok by (rewrite get_set_dev; exact E); by rewrite set_set_dev).
    by injection E as <-.
  - rewrite (load_store_eq 4 (vp_config (get_dev w s)) off v); [|lia|done].
    f_equal. by apply wrap_small.
  - intros k off' Hd. unfold load. f_equal. apply (mread_mwrite_ne _ _ _ _ _ _ Hw).
    by rewrite lenZ_le_bytes.
Qed.
End features.

(** C30: the device's 64 feature bits are offered in two halves. After the guest
    writes the feature selector, the feature register reads as the low half for
    selector 0, the high half for selector 1 and zero for any other. *)
Theorem virtio_device_feature_windows {F} w `{VirtqOps (vm_t F)} (s : vm_t F) sel buf :
  let f := device_feature (get_dev w s) in
  vdev_ok (get_dev w s) → 0 ≤ f < 2 ^ 64 → 0 ≤ sel < 2 ^ 32 → lenZ buf = 4 →
  ∃ s', virtio_pci_space_write w (le_bytes 4 sel) VIRTIO_PCI_COMMON_DFSELECT 4 s = Ok s' ∧
    virtio_pci_space_read w buf VIRTIO_PCI_COMMON_DF 4 s' = Ok (s', le_bytes 4
      (if sel =? 0 then f `mod` 2 ^ 32 else if sel =? 1 then f / 2 ^ 32 else 0)).
Proof.
  intros f Hok Hf Hsel Hbuf.
  destruct (space_write_reg32 w s VIRTIO_PCI_COMMON_DFSELECT sel
    virtio_pci_select_device_feature Hok) as (c&d'&E&Hok'&Hw&Hok1&Hl&_);
    [by vm_compute..|done|reflexivity|].
  rewrite Hw. eexists; split; [done|].
  unfold virtio_pci_select_device_feature in E. cbn [vp_config set_vp_config device_feature] in E.
  rewrite Hl, bind_Ok in E. fold f in E.
  apply bind_ok_iff in E as (c2&Hst&[= <-]).
  apply space_read_config; rewrite ?get_set_dev; try done.
  cbn [vp_config set_vp_config]. apply store_ok_iff in Hst as (_&Hb&->); [|lia].
  match goal with |- get_bytes (set_bytes _ _ (le_bytes 4 ?x)) _ _ = le_bytes 4 ?y =>
    assert (x = y) as -> end.
  { unfold wrap. rewrite Z.shiftr_div_pow2 by lia. destruct (sel =? 0); [done|].
    destruct (sel =? 1); [|done]. apply Z.mod_small. split; [apply Z.div_pos; lia|].
    apply Z.div_lt_upper_bound; lia. }
  apply (get_set_bytes_eq c); [by vm_compute|]. by rewrite lenZ_le_bytes.
Qed.

(** The feature negotiation of a driver: select and write each half. *)
Definition negotiate {F} w `{VirtqOps (vm_t F)} (lo hi : Z) (s : vm_t F) : res (vm_t F) :=
  foldM (λ s '(off, v), virtio_pci_space_write w (le_bytes 4 v) off 4 s) s
    [(VIRTIO_PCI_COMMON_GFSELECT, 0); (VIRTIO_PCI_COMMON_GF, lo);
     (VIRTIO_PCI_COMMON_GFSELECT, 1); (VIRTIO_PCI_COMMON_GF, hi)].

(** The accepted features are recorded one write late. The code updates
    [guest_feature] when the selector is written instead of when the feature
    register is, so a driver that accepts the halves [lo] and [hi] on a fresh
    device leaves [guest_feature] with [lo] in the high half and nothing of
    [hi]. *)
Theorem virtio_guest_features_misplaced {F} w `{VirtqOps (vm_t F)} (s : vm_t F) lo hi :
  vdev_ok (get_dev w s) → guest_feature (get_dev w s) = 0 →
  load 4 (vp_config (get_dev w s)) VIRTIO_PCI_COMMON_GF = Ok 0 →
  0 ≤ lo < 2 ^ 32 → 0 ≤ hi < 2 ^ 32 →
  ∃ s', negotiate w lo hi s = Ok s' ∧ guest_feature (get_dev w s') = lo * 2 ^ 32.
Proof.
  intros Hok Hg0 Hgf Hlo Hhi. unfold negotiate. cbn [foldM].
  destruct (space_write_reg32 w s VIRTIO_PCI_COMMON_GFSELECT 0
    virtio_pci_write_guest_feature Hok)
    as (c1&d1&E1&Hok1&->&_&Hl1&Hk1); [by vm_compute..|done|reflexivity|]. rewrite bind_Ok.
  unfold virtio_pci_write_guest_feature in E1. cbn [vp_config set_vp_config] in E1.
  rewrite Hl1, Hk1, Hgf, !bind_Ok in E1 by (right; by vm_compute). cbn in E1. rewrite Hg0 in E1.
  injection E1 as <-.
  set (s1 := set_dev w _ s) in *. assert (Eg1 : get_dev w s1 = _) by apply get_set_dev.
  destruct (space_write_reg32 w s1 VIRTIO_PCI_COMMON_GF lo Ok)
    as (c2&d2&E2&Hok2&->&_&Hl2&Hk2); [by rewrite Eg1|by vm_compute..|done|reflexivity|].
  rewrite bind_Ok. injection E2 as <-. rewrite Eg1 in *.
  set (s2 := set_dev w _ s1) in *. assert (Eg2 : get_dev w s2 = _) by apply get_set_dev.
  destruct (space_write_reg32 w s2 VIRTIO_PCI_COMMON_GFSELECT 1
    virtio_pci_write_guest_feature)
    as (c3&d3&E3&Hok3&->&_&Hl3&Hk3); [by rewrite Eg2|by vm_compute..|done|reflexivity|].
  rewrite bind_Ok. rewrite Eg2 in *.
  unfold virtio_pci_write_guest_feature in E3. cbn [vp_config set_vp_config] in E3.
  rewrite Hl3, Hk3 in E3 by (right; by vm_compute). cbn [vp_config set_vp_config] in E3.
  rewrite Hl2, !bind_Ok in E3. cbn in E3. injection E3 as <-.
  set (s3 := set_dev w _ s2) in *. assert (Eg3 : get_dev w s3 = _) by apply get_set_dev.
  destruct (space_write_reg32 w s3 VIRTIO_PCI_COMMON_GF hi Ok)
    as (c4&d4&E4&Hok4&->&_); [by rewrite Eg3|by vm_compute..|done|reflexivity|].
  rewrite bind_Ok. injection E4 as <-. eexists; split; [done|].
  rewrite get_set_dev, Eg3. cbn. rewrite Z.shiftl_mul_pow2 by lia. apply wrap_small. lia.
Qed.

(** ** The device-specific configuration pointer *)

(** The pointer to the device-specific structure is guest writable. A 32-bit
    write at offset 62 passes the bounds test on its first byte, is copied over
    the two low bytes of [dev_cfg], and unless they happen to stay the same,
    every later access to the device-specific registers goes through a pointer
    the guest chose. *)
Theorem virtio_dev_cfg_pointer_overwritten {F} w `{VirtqOps (vm_t F)} (s : vm_t F) b0 b1 b2 b3 :
  vdev_ok (get_dev w s) → Forall byte_ok [b0; b1; b2; b3] →
  le_val [b2; b3] ≠ u16 (dev_config_addr (get_dev w s)) →
  ∃ s', virtio_pci_space_write w [b0; b1; b2; b3] 62 4 s = Ok s' ∧
    ∀ data is_write offset size, off_dev_cfg ≤ offset →
      virtio_pci_space_io w data is_write offset size s' = Fault WildPointer.
Proof.
  intros Hok Hb Hne. set (d := get_dev w s) in *. pose proof (ok_config d Hok) as Hl.
  unfold sizeof_virtio_pci_config in Hl.
  assert (Hw : mwrite (vp_config d) 62 [b0; b1; b2; b3] =
    Ok (set_bytes (vp_config d) 62 [b0; b1; b2; b3])) by (apply mwrite_ok; cbn; unfold lenZ in *; cbn; lia).
  set (c := set_bytes (vp_config d) 62 [b0; b1; b2; b3]) in *.
  assert (Hbad : load 8 c off_dev_cfg ≠ Ok (dev_config_addr d)).
  { intros Hp. apply load_ok_iff in Hp as (_&_&_&Hp). apply Hne. fold d. rewrite Hp.
    assert (Hbs : get_bytes c off_dev_cfg 2 = [b2; b3]).
    { apply (get_set_bytes_eq (set_bytes (vp_config d) 62 [b0; b1]) 64 [b2; b3]); [lia|].
      rewrite bsize_list, lenZ_set_bytes. unfold lenZ in *; cbn; lia. }
    change (Z.to_nat 8) with (2 + 6)%nat. rewrite <-Hbs. unfold le_val, off_dev_cfg. cbn [Nat.add get_bytes].
    set (x0 := bget c 64). set (x1 := bget c (64 + 1)).
    assert (Hbyte : byte_ok x0 ∧ byte_ok x1).
    { change [x0; x1] with (get_bytes c off_dev_cfg 2) in *.
      assert ([x0; x1] = [b2; b3]) as [= -> ->] by exact Hbs.
      rewrite !Forall_cons in Hb. naive_solver. }
    cbn [little_endian_to_Z]. rewrite Z.shiftl_0_l, Z.lor_0_r.
    apply (bits_ext 16); [lia| |by apply wrap_range|].
    - destruct Hbyte as [[? ?] [? ?]]. apply lor_range; [lia|lia|].
      rewrite Z.shiftl_mul_pow2 by lia. lia.
    - intros i Hi. rewrite wrap_testbit, !Z.lor_spec by lia.
      rewrite (proj2 (Z.ltb_lt _ _)) by lia. cbn [andb].
      rewrite !Z.shiftl_spec, Z.lor_spec by lia.
      destruct (decide (i < 8)).
      + by rewrite !(Z.testbit_neg_r _ (i - 8)) by lia.
      + rewrite Z.shiftl_spec, (Z.testbit_neg_r _ (i - 8 - 8)) by lia. by rewrite orb_false_r. }
  assert (Hend : virtio_pci_space_write w [b0; b1; b2; b3] 62 4 s =
    Ok (set_dev w (set_vp_config c d) s)).
  { unfold virtio_pci_space_write. change (62 <? off_dev_cfg) with true. cbv iota.
    rewrite mread_all by done. rewrite bind_Ok. fold d. rewrite Hw, bind_Ok. done. }
  eexists; split; [exact Hend|]. intros data is_write offset size Ho.
  assert (Hf : dev_cfg_ok (set_vp_config c d) = Fault WildPointer).
  { unfold dev_cfg_ok. cbn [vp_config set_vp_config dev_config_addr].
    destruct (load 8 c off_dev_cfg) as [p|] eqn:E.
    - rewrite bind_Ok. destruct (Z.eqb_spec p (dev_config_addr d)); [congruence|done].
    - exfalso. unfold load in E. rewrite mread_ok in E; [done|by vm_compute..|].
      rewrite bsize_list. subst c. rewrite lenZ_set_bytes. unfold off_dev_cfg. lia. }
  unfold virtio_pci_space_io, virtio_pci_space_write, virtio_pci_space_read.
  rewrite (proj2 (Z.ltb_ge _ _)), get_set_dev, Hf by done. by destruct is_write.
Qed.

(** ** Initialisation *)

(** The configuration space [virtio_pci_init] writes. *)
Definition init_cfg : list Z :=
  Eval vm_compute in
    match virtio_pci_init VirtioBlk (vdev_zero 0 0 0 (mkPciDev [] [] [] []) [])
            (mkBuses ∅ bus_init bus_init bus_init) with
    | Ok (d, _) => cfg_space (vd_pci d)
    | Fault _ => []
    end.

Definition init_features : Z :=
  Z.lor (Z.shiftl 1 VIRTIO_F_RING_PACKED) (Z.shiftl 1 VIRTIO_F_VERSION_1).

Lemma virtio_pci_init_eq w d B :
  virtio_pci_init w d B = Ok (mkVdev
    (mkPciDev init_cfg (<[0%nat := 0x100]> (replicate 6 0)) (replicate 6 false)
       (<[0%nat := false]> (replicate 6 false)))
    (replicate (Z.to_nat sizeof_virtio_pci_config) 0) init_features 0 (Some 0x50) (Some 0x74) false
    (dev_config d) (dev_config_addr d) (vqs d) (irqfd d) (ioeventfds d) (irq_num d) (enable d),
    set_devs (dev_init (devs (pci_dev_init w B).2) (PSpace w 0) 0 0x100 (OPciDev w)
      F_virtio_pci_space_io) (pci_dev_init w B).2).
Proof. reflexivity. Qed.

(** A capability as a driver sees it: its type, BAR, offset and length. *)
Record cap_view := mkCap { cv_type : Z; cv_bar : Z; cv_offset : Z; cv_length : Z }.

#[global] Instance cap_view_eq_dec : EqDecision cap_view.
Proof. solve_decision. Defined.

(** The driver's walk of the capability list from the pointer at 0x34: vendor
    capabilities are collected, a null link ends the walk. *)
Fixpoint walk_caps (fuel : nat) (cfg : list Z) (p : Z) : res (list cap_view) :=
  match fuel with
  | O => Fault Diverges
  | S fuel =>
    if p =? 0 then Ok [] else
    id ← load 1 cfg p;
    next ← load 1 cfg (p + cap_next_off);
    rest ← walk_caps fuel cfg next;
    if id =? PCI_CAP_ID_VNDR then
      t ← load 1 cfg (p + cfg_type_off);
      b ← load 1 cfg (p + cap_bar_off);
      o ← load 4 cfg (p + cap_offset_off);
      l ← load 4 cfg (p + cap_length_off);
      Ok (mkCap t b o l :: rest)
    else Ok rest
  end.

Definition caps_of (d : vdev) : res (list cap_view) :=
  p ← load 1 (cfg_space (vd_pci d)) PCI_CAPABILITY_LIST;
  walk_caps 16 (cfg_space (vd_pci d)) p.

Definition virtio_caps (len : Z) : list cap_view :=
  [mkCap VIRTIO_PCI_CAP_COMMON_CFG 0 off_common_cfg sizeof_virtio_pci_common_cfg;
   mkCap VIRTIO_PCI_CAP_NOTIFY_CFG 0 off_notify_data sizeof_notify_data;
   mkCap VIRTIO_PCI_CAP_ISR_CFG 0 off_isr_cap sizeof_isr_cap;
   mkCap VIRTIO_PCI_CAP_DEVICE_CFG 0 off_dev_cfg len;
   mkCap VIRTIO_PCI_CAP_PCI_CFG 0 0 0].

(** The windows of two capabilities do not overlap. *)
Definition caps_disjoint (a b : cap_view) : Prop :=
  cv_offset a + cv_length a ≤ cv_offset b ∨ cv_offset b + cv_length b ≤ cv_offset a.

Definition check_caps (len : Z) : bool :=
  match store 4 init_cfg (0x74 + cap_length_off) (u8 len) with
  | Ok cfg => bool_decide (walk_caps 16 cfg 0x40 = Ok (virtio_caps len))
  | Fault _ => false
  end.

Lemma check_caps_all len : 0 ≤ len < 256 → check_caps len = true.
Proof.
  intros Hl.
  assert (Hall : forallb check_caps (Z.of_nat <$> seq 0 256) = true) by (vm_compute; reflexivity).
  rewrite List.forallb_forall in Hall. apply Hall. apply list_elem_of_In, list_elem_of_fmap.
  exists (Z.to_nat len). split; [lia|]. apply elem_of_seq. lia.
Qed.

(** C31: a driver finds the register block through the capability list. After
    initialisation, the walk of the list ends and finds the five virtio
    capabilities, all on BAR 0; the windows of the common, notification,
    interrupt-status and device-specific registers lie inside the 256 bytes of
    the BAR and do not overlap. *)
Theorem virtio_capabilities_found w d B len :
  0 ≤ len ≤ 192 →
  ∃ d1 B1 d2, virtio_pci_init w d B = Ok (d1, B1) ∧ virtio_pci_set_dev_cfg len d1 = Ok d2 ∧
    caps_of d2 = Ok (virtio_caps len) ∧
    Forall (λ c, cv_bar c = 0 ∧ 0 ≤ cv_offset c ∧ cv_offset c + cv_length c ≤ 0x100)
      (virtio_caps len) ∧
    ∀ i j a b, (i < j < 4)%nat → virtio_caps len !! i = Some a → virtio_caps len !! j = Some b →
      caps_disjoint a b.
Proof.
  intros Hl. rewrite virtio_pci_init_eq.
  match goal with |- context [Ok (?d1, ?B1)] => exists d1, B1 end.
  pose proof (check_caps_all len ltac:(lia)) as Hc. unfold check_caps in Hc.
  destruct (store 4 init_cfg (0x74 + cap_length_off) (u8 len)) as [cfg|] eqn:Est; [|done].
  apply bool_decide_eq_true in Hc.
  unfold virtio_pci_set_dev_cfg. cbn [vp_config dev_config_addr dev_cfg_cap vd_pci cfg_space].
  set (z := replicate (Z.to_nat sizeof_virtio_pci_config) 0).
  assert (Hst : ∃ c, store 8 z off_dev_cfg (dev_config_addr d) = Ok c).
  { eexists. apply store_ok_iff; [lia|]. by split_and!. }
  destruct Hst as [c ->]. rewrite bind_Ok. cbn [ptr_off from_option_res]. rewrite bind_Ok, Est, bind_Ok.
  eexists. split_and!; [done|done| | |].
  - unfold caps_of. cbn [vd_pci set_vd_pci set_vp_config cfg_space set_cfg_space].
    assert (load 1 cfg PCI_CAPABILITY_LIST = Ok 0x40) as ->.
    { transitivity (load 1 init_cfg PCI_CAPABILITY_LIST); [|by vm_compute].
      eapply load_store_ne; [|exact Est|]; [lia|left; by vm_compute]. }
    done.
  - unfold virtio_caps, off_common_cfg, sizeof_virtio_pci_common_cfg, off_notify_data,
      sizeof_notify_data, off_isr_cap, sizeof_isr_cap, off_dev_cfg.
    repeat constructor; cbn; lia.
  - unfold virtio_caps, caps_disjoint. intros i j a b Hij Ha Hb.
    destruct i as [|[|[|[|i]]]], j as [|[|[|[|j]]]]; try lia; cbn in Ha, Hb;
      injection Ha as <-; injection Hb as <-; cbn;
      unfold off_common_cfg, sizeof_virtio_pci_common_cfg, off_notify_data,
        sizeof_notify_data, off_isr_cap, sizeof_isr_cap, off_dev_cfg; lia.
Qed.

(** ** The set-up of a device establishes well-formedness *)

Lemma vdev_ok_set_pci p d : vdev_ok d → vdev_ok (set_vd_pci p d).
Proof. by intros []; split. Qed.

Lemma vdev_ok_set_feature f d : vdev_ok d → vdev_ok (set_device_feature f d).
Proof. by intros []; split. Qed.

(** Header registers are stored without touching the transport. *)
Lemma set_hdr_ok k off v d :
  0 ≤ off → 0 ≤ k → off + k ≤ lenZ (cfg_space (vd_pci d)) →
  ∃ pd, set_hdr k off v d = Ok (set_vd_pci pd d) ∧
    lenZ (cfg_space pd) = lenZ (cfg_space (vd_pci d)) ∧
    pd = set_cfg_space (set_bytes (cfg_space (vd_pci d)) off (le_bytes k v)) (vd_pci d).
Proof.
  intros Ho Hk Hb. unfold set_hdr, store.
  rewrite mwrite_ok by (rewrite ?lenZ_le_bytes, ?bsize_list; lia).
  rewrite bind_Ok. eexists; split_and!; [done| |done]. cbn. apply lenZ_set_bytes.
Qed.

(** Everything but the number of queues, which [virtio_pci_set_virtq] writes. *)
Record transport_set (d : vdev) : Prop := {
  ts_config : lenZ (vp_config d) = sizeof_virtio_pci_config;
  ts_bytes : bytes_ok (vp_config d);
  ts_pointer : load 8 (vp_config d) off_dev_cfg = Ok (dev_config_addr d);
  ts_queues : Forall virtq_ok (vqs d);
}.

Lemma set_dev_cfg_ok len d :
  vp_config d = replicate (Z.to_nat sizeof_virtio_pci_config) 0 → dev_cfg_cap d = Some 0x74 →
  lenZ (cfg_space (vd_pci d)) = PCI_CFG_SPACE_SIZE → 0 ≤ dev_config_addr d < 2 ^ 64 →
  Forall virtq_ok (vqs d) →
  ∃ c pd, virtio_pci_set_dev_cfg len d = Ok (set_vd_pci pd (set_vp_config c d)) ∧
    transport_set (set_vp_config c d) ∧ lenZ (cfg_space pd) = PCI_CFG_SPACE_SIZE.
Proof.
  intros Hc Hcap Hl Ha Hq. unfold virtio_pci_set_dev_cfg.
  assert (Hz : lenZ (vp_config d) = sizeof_virtio_pci_config) by (by rewrite Hc).
  assert (Hb : bytes_ok (vp_config d)).
  { rewrite Hc. apply bytes_ok_list, Forall_replicate. unfold byte_ok. lia. }
  assert (Hst : store 8 (vp_config d) off_dev_cfg (dev_config_addr d) =
    Ok (set_bytes (vp_config d) off_dev_cfg (le_bytes 8 (dev_config_addr d)))).
  { apply store_ok_iff; [lia|]. rewrite bsize_list, Hz. by split_and!. }
  rewrite Hst, bind_Ok, Hcap. cbn [ptr_off from_option_res]. rewrite bind_Ok. unfold store at 1.
  rewrite mwrite_ok by (rewrite ?lenZ_le_bytes, ?bsize_list, ?Hl by lia; by vm_compute).
  rewrite bind_Ok. eexists _, _. split_and!; [done| |cbn; by rewrite lenZ_set_bytes].
  split; cbn [vp_config set_vp_config dev_config_addr vqs]; [by rewrite lenZ_set_bytes| | |done].
  - by apply (bytes_ok_store 8 (vp_config d) off_dev_cfg (dev_config_addr d)).
  - rewrite (load_store_eq 8 (vp_config d) off_dev_cfg (dev_config_addr d)); [|lia|done].
    f_equal. apply wrap_small. change (8 * 8) with 64. lia.
Qed.

Lemma set_virtq_ok n d :
  transport_set d → n = lenZ (vqs d) → n < 65536 →
  ∃ c, virtio_pci_set_virtq n d = Ok (set_vq_set true (set_vp_config c d)) ∧
    vdev_ok (set_vq_set true (set_vp_config c d)).
Proof.
  intros [Hl Hb Hp Hq] Hn Hm. unfold virtio_pci_set_virtq.
  unfold sizeof_virtio_pci_config in Hl. assert (0 ≤ n) by (unfold lenZ in Hn; lia).
  assert (Hst : store 2 (vp_config d) VIRTIO_PCI_COMMON_NUMQ n =
    Ok (set_bytes (vp_config d) VIRTIO_PCI_COMMON_NUMQ (le_bytes 2 n))).
  { apply store_ok_iff; [lia|]. rewrite bsize_list, Hl. by split_and!. }
  rewrite Hst, bind_Ok. eexists; split; [done|].
  split; cbn [vp_config set_vq_set set_vp_config dev_config_addr vqs vq_set]; try done.
  - by rewrite lenZ_set_bytes.
  - by apply (bytes_ok_store 2 (vp_config d) VIRTIO_PCI_COMMON_NUMQ n).
  - rewrite <-Hp. eapply load_store_ne; [|exact Hst|]; [lia|]. right. by vm_compute.
  - rewrite (load_store_eq 2 (vp_config d) VIRTIO_PCI_COMMON_NUMQ n); [|lia|done].
    rewrite <-Hn. f_equal. apply wrap_small. change (2 ^ (8 * 2)) with 65536. lia.
Qed.

(** ** The PCI part during the set-up *)

Definition pci_consistent w (d : vdev) B L : Prop :=
  pci_inv w (vd_pci d) B L ∧ pci_sync w (vd_pci d) B.

Lemma init_cfg_idle : cfg_idle init_cfg.
Proof.
  split_and!; [done| |done|].
  - apply bytes_ok_list. apply Forall_forall. intros b Hb.
    assert (forallb (λ b, (0 <=? b) && (b <? 256)) init_cfg = true) as Hall by done.
    rewrite List.forallb_forall in Hall. apply list_elem_of_In, Hall in Hb. unfold byte_ok.
    zbool. lia.
  - intros bar Hb. do 6 (destruct bar as [|bar]; [reflexivity|]). lia.
Qed.

(** The state [virtio_pci_init] leaves. *)
Record transport_init (d d1 : vdev) : Prop := {
  ti_config : vp_config d1 = replicate (Z.to_nat sizeof_virtio_pci_config) 0;
  ti_caps : notify_cap d1 = Some 0x50 ∧ dev_cfg_cap d1 = Some 0x74;
  ti_features : device_feature d1 = init_features ∧ guest_feature d1 = 0;
  ti_own : dev_config d1 = dev_config d ∧ dev_config_addr d1 = dev_config_addr d ∧
    vqs d1 = vqs d ∧ irqfd d1 = irqfd d ∧ ioeventfds d1 = ioeventfds d ∧ irq_num d1 = irq_num d;
}.

Lemma virtio_pci_init_ok w d B L :
  bus_lists B L → (∀ j id, PSpace w j ∉ L id) → (∀ id, PConfig w ∉ L id) →
  ∃ d1 B1, virtio_pci_init w d B = Ok (d1, B1) ∧ pci_consistent w d1 B1 L ∧
    transport_init d d1 ∧ lenZ (cfg_space (vd_pci d1)) = PCI_CFG_SPACE_SIZE ∧
    dev_num (pci_bus B1) = dev_num (pci_bus B).
Proof.
  intros HL Hsp Hcf. rewrite virtio_pci_init_eq. eexists _, _. split; [done|].
  split_and!; try done.
  apply (idle_dev_inv w B L 0 0x100 F_virtio_pci_space_io init_cfg HL Hsp Hcf); [lia|].
  apply init_cfg_idle.
Qed.

(** The host's own writes to the configuration space stay off the command
    register and the BARs. *)
Definition hdr_range (off k : Z) : Prop :=
  0 ≤ off ∧ 0 ≤ k ∧ off + k ≤ PCI_CFG_SPACE_SIZE ∧
  (off + k ≤ PCI_COMMAND ∨ PCI_COMMAND + 1 ≤ off) ∧
  (off + k ≤ PCI_BASE_ADDRESS_0 ∨ PCI_BASE_ADDRESS_5 + 4 ≤ off).

Lemma set_hdr_consistent w d B L k off v :
  pci_consistent w d B L → hdr_range off k →
  ∃ pd, set_hdr k off v d = Ok (set_vd_pci pd d) ∧ pci_consistent w (set_vd_pci pd d) B L.
Proof.
  intros [Hi Hs] (?&?&?&?&?). pose proof (pinv_cfg _ _ _ _ Hi) as Hl.
  destruct (set_hdr_ok k off v d) as (pd&E&_&Epd); [done|done|lia|].
  exists pd. split; [done|]. rewrite Epd in *. unfold pci_consistent. cbn [vd_pci set_vd_pci].
  apply (pci_host_mwrite w (vd_pci d) B L off (le_bytes k v)); try done.
  - by apply le_bytes_ok.
  - apply mwrite_ok; rewrite ?lenZ_le_bytes, ?bsize_list; lia.
  - by rewrite lenZ_le_bytes.
  - by rewrite lenZ_le_bytes.
Qed.

Lemma set_pci_hdr_consistent w d B L id class irq :
  pci_consistent w d B L →
  ∃ pd, virtio_pci_set_pci_hdr id class irq d = Ok (set_vd_pci pd d) ∧
    pci_consistent w (set_vd_pci pd d) B L.
Proof.
  intros Hc. unfold virtio_pci_set_pci_hdr, hdr_range.
  destruct (set_hdr_consistent w d B L 2 PCI_DEVICE_ID id Hc) as (p1&->&Hc1);
    [unfold hdr_range; vm_compute; intuition congruence|]. rewrite bind_Ok.
  destruct (set_hdr_consistent w _ B L 4 PCI_CLASS_REVISION (u32 (Z.shiftl class 8)) Hc1)
    as (p2&->&Hc2); [unfold hdr_range; vm_compute; intuition congruence|]. rewrite bind_Ok.
  destruct (set_hdr_consistent w _ B L 1 PCI_INTERRUPT_LINE irq Hc2) as (p3&->&Hc3);
    [unfold hdr_range; vm_compute; intuition congruence|].
  exists p3. by destruct d.
Qed.

Lemma set_dev_cfg_consistent w d B L len :
  pci_consistent w d B L → vp_config d = replicate (Z.to_nat sizeof_virtio_pci_config) 0 →
  dev_cfg_cap d = Some 0x74 → 0 ≤ dev_config_addr d < 2 ^ 64 → Forall virtq_ok (vqs d) →
  ∃ c pd, virtio_pci_set_dev_cfg len d = Ok (set_vd_pci pd (set_vp_config c d)) ∧
    transport_set (set_vp_config c d) ∧ pci_consistent w (set_vd_pci pd (set_vp_config c d)) B L.
Proof.
  intros Hc Hz Hcap Ha Hq. pose proof (pinv_cfg _ _ _ _ (proj1 Hc)) as Hl.
  destruct (set_dev_cfg_ok len d Hz Hcap Hl Ha Hq) as (c&pd&E&Hts&_).
  destruct (set_hdr_consistent w d B L 4 (0x74 + cap_length_off) (u8 len) Hc) as (pd'&E'&Hc');
    [unfold hdr_range; vm_compute; intuition congruence|].
  exists c, pd. split_and!; [done|done|].
  assert (pd = pd') as ->.
  { unfold virtio_pci_set_dev_cfg in E. apply bind_ok_iff in E as (c1&_&E).
    rewrite Hcap in E. cbn [ptr_off from_option_res] in E. rewrite bind_Ok in E.
    unfold set_hdr in E'. apply bind_ok_iff in E as (cfg&Est&E). rewrite Est, bind_Ok in E'.
    injection E as E _. injection E' as E'. by rewrite <-E, <-E'. }
  exact Hc'.
Qed.

(** ** Witnesses: a device with two queues *)

Definition demo_queue : virtq :=
  mkVirtq None None None (replicate (Z.to_nat sizeof_virtq_info) 0) 0 true.

Definition demo_vdev : vdev :=
  mkVdev (mkPciDev init_cfg (<[0%nat := 0x100]> (replicate 6 0)) (replicate 6 false)
            (replicate 6 false))
    (replicate 18 0 ++ le_bytes 2 2 ++ replicate 44 0 ++ le_bytes 8 0x1000)
    init_features 0 (Some 0x50) (Some 0x74) true (replicate 24 0) 0x1000
    [demo_queue; demo_queue] 7 [5; 6] 14 true.

Definition demo_vm : vm_t unit :=
  mkVm ram_zero (mkBuses ∅ bus_init bus_init bus_init) 0 Serial.serial_dev_priv demo_vdev demo_vdev
    None [] [] [].

Definition demo_ops : VirtqOps (vm_t unit) := {|
  vq_ram := mem;
  vq_at s i := dev_vq (net s) i;
  complete_request _ s := Ok s;
  enable_vq _ s := Ok s;
  notify_used _ s := Ok s;
|}.

Lemma bytes_ok_check (l : list Z) :
  forallb (λ b, (0 <=? b) && (b <? 256)) l = true → bytes_ok l.
Proof.
  intros Hall. apply bytes_ok_list, Forall_forall. intros b Hb.
  rewrite List.forallb_forall in Hall. apply list_elem_of_In, Hall in Hb. unfold byte_ok.
  zbool. lia.
Qed.

Lemma demo_vdev_ok : vdev_ok demo_vdev.
Proof.
  split; try (vm_compute; reflexivity); [by apply bytes_ok_check|].
  assert (virtq_ok demo_queue) by (split; [done|by apply bytes_ok_check]).
  apply Forall_cons; split; [done|]. by apply Forall_singleton.
Qed.

Lemma virtio_queue_registers_roundtrip_witness :
  ∃ s4 : vm_t unit, virtio_pci_space_read VirtioNet [0; 0; 0; 0] 32 4 s4 =
      Ok (s4, le_bytes 4 0x12345000) ∧
    vqs (get_dev VirtioNet s4) !! 1%nat = Some demo_queue.
Proof.
  destruct (virtio_queue_registers_roundtrip (H := demo_ops) VirtioNet demo_vm 0 1 32 4 0x12345000
    [0; 0; 0; 0] demo_vdev_ok) as (s1&s2&s3&s4&_&_&_&_&Hr&Hj); try (vm_compute; intuition congruence).
  exists s4. split; [exact Hr|]. etransitivity; [exact Hj|reflexivity].
Defined.

Lemma virtio_register_access_safe_witness :
  ∃ d', virtio_pci_space_write (H := demo_ops) VirtioNet [1; 0; 0; 0] 0 4 demo_vm =
    Ok (set_dev VirtioNet d' demo_vm) ∧ vdev_ok d'.
Proof.
  destruct (virtio_register_access_safe (H := demo_ops) VirtioNet demo_vm [1; 0; 0; 0] 0 4
    demo_vdev_ok) as [Hw _].
  - repeat constructor; vm_compute; congruence.
  - vm_compute; congruence.
  - apply Hw; [|vm_compute; congruence..]. unfold reg_access. vm_compute. intuition congruence.
Defined.

Lemma virtio_device_feature_windows_witness :
  ∃ s' : vm_t unit, virtio_pci_space_read VirtioNet [0; 0; 0; 0] VIRTIO_PCI_COMMON_DF 4 s' =
    Ok (s', le_bytes 4 5).
Proof.
  destruct (virtio_device_feature_windows (H := demo_ops) VirtioNet demo_vm 1 [0; 0; 0; 0]
    demo_vdev_ok) as (s'&_&Hr); [vm_compute; intuition congruence..|].
  exists s'. exact Hr.
Defined.

Lemma virtio_guest_features_misplaced_witness :
  ∃ s', negotiate (H := demo_ops) VirtioNet 0x20 0x5 demo_vm = Ok s' ∧
    guest_feature (get_dev VirtioNet s') = 0x2000000000.
Proof.
  apply (virtio_guest_features_misplaced (H := demo_ops) VirtioNet demo_vm 0x20 0x5 demo_vdev_ok);
    vm_compute; intuition congruence.
Defined.

Lemma virtio_dev_cfg_pointer_overwritten_witness :
  ∃ s', virtio_pci_space_write (H := demo_ops) VirtioNet [0; 0; 0x41; 0x41] 62 4 demo_vm = Ok s' ∧
    virtio_pci_space_io (H := demo_ops) VirtioNet [0] false 64 1 s' = Fault WildPointer.
Proof.
  destruct (virtio_dev_cfg_pointer_overwritten (H := demo_ops) VirtioNet demo_vm 0 0 0x41 0x41
    demo_vdev_ok) as (s'&Hw&Hf).
  - repeat constructor; vm_compute; congruence.
  - vm_compute; congruence.
  - exists s'. split; [exact Hw|]. apply Hf. vm_compute; congruence.
Defined.

Lemma virtio_capabilities_found_witness :
  ∃ d1 B1 d2, virtio_pci_init VirtioNet demo_vdev (vm_buses demo_vm) = Ok (d1, B1) ∧
    virtio_pci_set_dev_cfg 24 d1 = Ok d2 ∧ caps_of d2 = Ok (virtio_caps 24).
Proof.
  destruct (virtio_capabilities_found VirtioNet demo_vdev (vm_buses demo_vm) 24)
    as (d1&B1&d2&?&?&?&_); [lia|]. exists d1, B1, d2. by split_and!.
Defined.
