(* ===== verification/VirtioBlk.v ===== *)
(** * The virtio block device (src/virtio-blk.c, src/virtio-blk.h)

    Requests are chains of descriptors: a header, a data buffer for reads and
    writes, a status byte. [struct virtio_blk_req] is a local variable the header
    is copied into without initialisation, so it is an image of 40 bytes of which
    some may be uninitialised ([None]); of its members only [type] and [sector]
    are read before they are assigned. The request loop takes fuel: the number of
    requests it may serve ([blk_loop_terminates] bounds it). *)

From stdpp Require Import base tactics numbers list gmap.
From S2P Require Import Prelude.
From S2P Require Import Uapi.
From S2P Require Import Host.
From S2P Require Import Bus.
From S2P Require Import Devices.
From S2P Require Import Pci.
From S2P Require Import GuestMem.
From S2P Require Import Virtq.
From S2P Require Import Disk.
From S2P Require Import Machine.
From S2P Require Import VirtioPci.
Open Scope Z_scope.

Definition VIRTIO_BLK_VIRTQ_NUM : Z := 1.
Definition VIRTIO_BLK_PCI_CLASS : Z := 0x018000.

(** ** [struct virtio_blk_req]: type at 0, reserved at 4, sector at 8 *)

Definition sizeof_virtio_blk_req : Z := 40.

Definition req_image : Type := list (option Z).
Definition req_uninit : req_image := replicate (Z.to_nat sizeof_virtio_blk_req) None.

(** [memcpy(&req, p, desc->len)] *)
Definition req_copy (req : req_image) (bs : list Z) : res req_image :=
  if lenZ bs <=? sizeof_virtio_blk_req
  then Ok ((Some <$> bs) ++ drop (length bs) req) else Fault OutOfBounds.

Definition req_field (off k : nat) (req : req_image) : res Z :=
  le_val <$> from_option_res Uninitialised (mapM id (take k (drop off req))).

Definition req_type (req : req_image) : res Z := req_field 0 4 req.
Definition req_sector (req : req_image) : res Z := req_field 8 8 req.

Section blk.
Context `{Arch} {F : Type} `{HostFile F}.
Implicit Types (s : vm_t F).

(** Queue [i] of the device's own array. *)
Definition blk_vq (i : nat) s : res virtq := from_option_res OutOfBounds (vqs (blk s) !! i).
Definition put_blk_vq (i : nat) (q : virtq) s : vm_t F := put_vq VirtioBlk i q s.

Definition virtio_blk_notify_used (i : nat) s : res (vm_t F) :=
  Ok (emit_vm (EvEventfdWrite (irqfd (blk s)) 1) s).

Definition virtio_blk_enable_vq (i : nat) s : res (vm_t F) :=
  q ← blk_vq i s;
  if nonzero (info_enable q) then Ok s
  else
    let q := set_info_field 4 2 1 q in
    let q := set_areas (vm_guest_to_host (info_desc_addr q))
               (vm_guest_to_host (info_device_addr q))
               (vm_guest_to_host (info_driver_addr q)) q in
    let s := put_blk_vq i q s in
    addr ← virtio_pci_get_notify_addr (blk s) q;
    cap ← ptr_off (notify_cap (blk s));
    len ← load 4 (cfg_space (vd_pci (blk s))) (cap + cap_length_off);
    fd ← from_option_res OutOfBounds (ioeventfds (blk s) !! 0%nat);
    Ok (emit_vm (EvThread virtio_blk_vq_avail_handler)
         (vm_ioeventfd_register fd addr len 0 s)).

Definition virtio_blk_write (data : option Z) (offset size : Z) s : res (vm_t F * Z) :=
  d ← from_option_res NullPointer (disk s);
  '(d, r) ← diskimg_write (mem s) d data offset size;
  Ok (set_disk (Some d) s, r).

Definition virtio_blk_read (data : option Z) (offset size : Z) s : res (vm_t F * Z) :=
  d ← from_option_res NullPointer (disk s);
  '(m, d, r) ← diskimg_read (mem s) d data offset size;
  Ok (set_mem m (set_disk (Some d) s), r).

(** [virtq_get_avail(vq)] on the machine. *)
Definition blk_get_avail (i : nat) s : res (vm_t F * option Z) :=
  q ← blk_vq i s;
  '(q, d) ← virtq_get_avail (mem s) q;
  Ok (put_blk_vq i q s, d).

(** [isr_status |= VIRTIO_PCI_ISR_QUEUE] *)
Definition raise_isr (d : vdev) : res vdev :=
  isr ← load 4 (vp_config d) off_isr_cap;
  c ← store 4 (vp_config d) off_isr_cap (Z.lor isr VIRTIO_PCI_ISR_QUEUE);
  Ok (set_vp_config c d).

(** The data stage of a read or write request: the next descriptor of the chain
    and the transfer; gives the status and the descriptor. *)
Definition blk_transfer (i : nat) (type : Z) (req : req_image) s : res (vm_t F * Z * Z) :=
  '(s, od) ← blk_get_avail i s;
  desc ← ptr_off od;
  len ← load 4 (mem s) (desc + vring_desc_len);
  let data_size := u16 len in
  addr ← load 8 (mem s) (desc + vring_desc_addr);
  let data := vm_guest_to_host addr in
  sector ← req_sector req;
  let offset := s64 (Z.shiftl sector 9) in
  '(s, r) ← (if type =? VIRTIO_BLK_T_IN then virtio_blk_read data offset data_size s
             else virtio_blk_write data offset data_size s);
  Ok (s, if r <? 0 then VIRTIO_BLK_S_IOERR else VIRTIO_BLK_S_OK, desc).

(** The status stage: the last descriptor of the chain receives the status byte,
    the first one is marked used with length [r], which is always 0 here. *)
Definition blk_finish (i : nat) (used_desc status : Z) s : res (vm_t F) :=
  '(s, od) ← blk_get_avail i s;
  desc ← ptr_off od;
  addr ← load 8 (mem s) (desc + vring_desc_addr);
  m ← pstore 1 (mem s) (vm_guest_to_host addr) 0 status;
  flags ← load 2 m (used_desc + vring_desc_flags);
  m ← store 2 m (used_desc + vring_desc_flags) (mark_used flags);
  m ← store 4 m (used_desc + vring_desc_len) 0;
  d ← raise_isr (blk s);
  Ok (set_mem m (set_blk d s)).

(** The body of the loop for the chain that starts at [desc]; [false] when the
    function returns from inside the loop. *)
Definition blk_request (i : nat) (desc : Z) (req : req_image) s
    : res (vm_t F * req_image * bool) :=
  let used_desc := desc in
  addr ← load 8 (mem s) (desc + vring_desc_addr);
  len ← load 4 (mem s) (desc + vring_desc_len);
  bs ← pread (mem s) (vm_guest_to_host addr) len;
  req ← req_copy req bs;
  type ← req_type req;
  if (type =? VIRTIO_BLK_T_IN) || (type =? VIRTIO_BLK_T_OUT) then
    nx ← virtq_check_next (mem s) desc;
    if negb nx then Ok (s, req, false)
    else
      '(s, status, desc) ← blk_transfer i type req s;
      nx ← virtq_check_next (mem s) desc;
      if negb nx then Ok (s, req, false)
      else s ← blk_finish i used_desc status s; Ok (s, req, true)
  else
    nx ← virtq_check_next (mem s) desc;
    if negb nx then Ok (s, req, false)
    else s ← blk_finish i used_desc VIRTIO_BLK_S_UNSUPP s; Ok (s, req, true).

Fixpoint blk_loop (fuel : nat) (i : nat) (req : req_image) s : res (vm_t F) :=
  match fuel with
  | O => Fault Diverges
  | S fuel =>
    '(s, od) ← blk_get_avail i s;
    match od with
    | None => Ok s
    | Some desc =>
      '(s, req, more) ← blk_request i desc req s;
      if more : bool then blk_loop fuel i req s else Ok s
    end
  end.

Definition virtio_blk_complete_request (fuel : nat) (i : nat) s : res (vm_t F) :=
  blk_loop fuel i req_uninit s.

(** The table [ops]. *)
Definition virtio_blk_ops (fuel : nat) : VirtqOps (vm_t F) := {|
  vq_ram := mem;
  vq_at s i := dev_vq (blk s) i;
  complete_request := virtio_blk_complete_request fuel;
  enable_vq := virtio_blk_enable_vq;
  notify_used := virtio_blk_notify_used;
|}.

(** The two threads. [reads] are the results of the successive [read] calls on
    the ioeventfd (bytes read, or -1), [polls] of the successive polls. *)
Fixpoint virtio_blk_vq_avail_handler (fuel : nat) (reads : list Z) (i : nat) s : res (vm_t F) :=
  match reads with
  | [] => Ok s
  | r :: reads =>
    if r =? 0 then Ok s
    else
      s ← virtq_handle_avail (H := virtio_blk_ops fuel) i s;
      virtio_blk_vq_avail_handler fuel reads i s
  end.

Definition virtio_blk_thread (polls : list bool) s : vm_t F :=
  fold_left (λ s (readable : bool),
    if readable then emit_vm (EvSignal Host.virtio_blk_vq_avail_handler) s else s) polls s.

(** ** Set-up and exit *)

(** [ioeventfd_] and [irqfd_] are the descriptors [eventfd] returns. *)
Definition virtio_blk_setup (ioeventfd_ irqfd_ : Z) (img : diskimg F) s : res (vm_t F) :=
  let d := set_irq_num VIRTIO_BLK_IRQ (set_enable true (blk s)) in
  let s := set_disk (Some img) (set_blk d s) in
  c ← store 8 (dev_config d) virtio_blk_config_capacity (Z.shiftr (dimg_size img) 9);
  let d := set_irqfd irqfd_ (set_ioeventfds [ioeventfd_] (set_dev_config c d)) in
  let s := vm_irqfd_register irqfd_ (irq_num d) 0 s in
  Ok (set_blk (set_vqs (virtq_init <$> vqs d) d) s).

Definition virtio_blk_init_pci (ioeventfd_ irqfd_ : Z) (img : diskimg F) s : res (vm_t F) :=
  s ← virtio_blk_setup ioeventfd_ irqfd_ img s;
  '(d, B) ← virtio_pci_init VirtioBlk (blk s) (vm_buses s);
  d ← virtio_pci_set_dev_cfg sizeof_virtio_blk_config d;
  d ← virtio_pci_set_pci_hdr VIRTIO_PCI_DEVICE_ID_BLK VIRTIO_BLK_PCI_CLASS (irq_num d) d;
  d ← virtio_pci_set_virtq VIRTIO_BLK_VIRTQ_NUM d;
  let d := virtio_pci_add_feature 0 d in
  B ← virtio_pci_enable VirtioBlk B;
  Ok (emit_vm (EvThread Host.virtio_blk_thread) (set_vm_buses B (set_blk d s))).

(** [memset(dev, 0x00, sizeof(struct virtio_blk_dev))]; the bus nodes of the
    device are among the bytes cleared. *)
Definition zero_virtq : virtq :=
  mkVirtq None None None (replicate (Z.to_nat sizeof_virtq_info) 0) 0 false.

Definition virtio_blk_init s : vm_t F :=
  let '(pd, B) := pci_dev_init VirtioBlk (vm_buses s) in
  set_vm_buses B (set_blk (vdev_zero (dev_config_addr (blk s)) sizeof_virtio_blk_config 1 pd
    (replicate (Z.to_nat VIRTIO_BLK_VIRTQ_NUM) zero_virtq)) s).

(** The image's descriptor is closed with it. *)
Definition virtio_blk_exit s : vm_t F :=
  if enable (blk s) then
    let s := emit_vm (EvStop Host.virtio_blk_vq_avail_handler) s in
    let s := emit_vm (EvJoin Host.virtio_blk_vq_avail_handler) s in
    let s := set_disk None s in
    emit_vm (EvClose (default (-1) (ioeventfds (blk s) !! 0%nat)))
      (emit_vm (EvClose (irqfd (blk s))) s)
  else s.
End blk.

(** * Serving a request *)

Lemma req_copy_header req hdr :
  length req = Z.to_nat sizeof_virtio_blk_req → lenZ hdr = 16 →
  ∃ req', req_copy req hdr = Ok req' ∧ length req' = length req ∧
    req_type req' = Ok (le_val (take 4 hdr)) ∧ req_sector req' = Ok (le_val (drop 8 hdr)).
Proof.
  intros Hr Hh. unfold req_copy. rewrite Hh. change (16 <=? sizeof_virtio_blk_req) with true.
  assert (length hdr = 16%nat) as Hl by (unfold lenZ in Hh; lia).
  eexists; split; [done|].
  do 16 (destruct hdr as [|? hdr]; [done|]). destruct hdr; [|done].
  split_and!; try reflexivity. rewrite length_app, length_drop, length_fmap. cbn.
  rewrite Hr. by vm_compute.
Qed.

Lemma s64_small z : 0 ≤ z < 2 ^ 63 → s64 z = z.
Proof.
  intros Hz. unfold s64. rewrite wrap_small by lia. by rewrite (proj2 (Z.ltb_lt _ _)) by lia.
Qed.

(** The descriptor ring of queue [i] of the block device. *)
Section serve.
Context `{Arch} {F : Type} `{RegularFile F}.
Context (i : nat) (ring size : Z).
Context (Hsize : 1 ≤ size < 65536) (Hring : 0 ≤ ring)
  (Hfit : ring + vring_desc_size * size ≤ RAM_SIZE).
Implicit Types (s : vm_t F) (q : virtq) (n : Z).

Abbreviation slot := (slot ring size).
Abbreviation offered := (offered ring size).
Abbreviation on_ring := (on_ring ring size).
Abbreviation advanced := (advanced ring size).
Abbreviation slot_addr := (slot_addr ring size).
Abbreviation slot_len := (slot_len ring size).
Abbreviation slot_flags := (slot_flags ring size).
Abbreviation slot_has_next := (slot_has_next ring size).
Abbreviation host a := (a - RAM_BASE).

Lemma blk_get_avail_some s q n :
  vqs (blk s) !! i = Some q → on_ring n q → offered (mem s) n →
  ∃ q', blk_get_avail i s = Ok (put_blk_vq i q' s, Some (slot n)) ∧ advanced (n + 1) q q'.
Proof using Hfit Hring Hsize.
  intros Hq Hr Ho. unfold blk_get_avail, blk_vq. rewrite Hq. cbn [from_option_res].
  rewrite bind_Ok.
  destruct (virtq_get_avail_some ring size Hsize Hring Hfit (mem s) n q Hr Ho) as (q'&->&Ha).
  rewrite bind_Ok. by exists q'.
Qed.

Lemma blk_get_avail_none s q n :
  vqs (blk s) !! i = Some q → on_ring n q → ¬ offered (mem s) n →
  blk_get_avail i s = Ok (put_blk_vq i q s, None).
Proof using Hfit Hring Hsize.
  intros Hq Hr Ho. unfold blk_get_avail, blk_vq. rewrite Hq. cbn [from_option_res].
  rewrite bind_Ok.
  by rewrite (virtq_get_avail_none ring size Hsize Hring Hfit (mem s) n q Hr Ho), bind_Ok.
Qed.

Lemma put_blk_vq_lookup s q q' :
  vqs (blk s) !! i = Some q → vqs (blk (put_blk_vq i q' s)) !! i = Some q'.
Proof. intros Hq. cbn. apply list_lookup_insert_eq. by eapply lookup_lt_Some. Qed.

(** The bytes a request moves: [req.data_size] is a [uint16_t], so only the low 16
    bits of the length the descriptor announces count. *)
Definition moved m n : Z := u16 (slot_len m n).

Lemma moved_range m n : 0 ≤ moved m n < 65536.
Proof. by apply wrap_range. Qed.

(** A data buffer and the part of the image it is exchanged with. *)
Definition transfer_ok m (dk : diskimg F) n sector : Prop :=
  offered m n ∧ in_ram (slot_addr m n) (moved m n) ∧
  0 ≤ sector ∧ sector * 512 + moved m n ≤ lenZ (fcontents (dimg_file dk)) ∧
  sector * 512 < 2 ^ 63.

Lemma blk_transfer_read s q n dk req sector :
  vqs (blk s) !! i = Some q → on_ring n q → disk s = Some dk →
  transfer_ok (mem s) dk n sector → req_sector req = Ok sector →
  ∃ q' dk', blk_transfer i VIRTIO_BLK_T_IN req s =
    Ok (set_mem (set_bytes (mem s) (host (slot_addr (mem s) n))
          (image_bytes dk (sector * 512) (moved (mem s) n)))
        (set_disk (Some dk') (put_blk_vq i q' s)), VIRTIO_BLK_S_OK, slot n) ∧
    advanced (n + 1) q q' ∧ fcontents (dimg_file dk') = fcontents (dimg_file dk).
Proof using Hfit Hring Hsize.
  intros Hq Hr Hd (Ho&Hin&Hs0&Hsz&Hs63) Hreq. unfold blk_transfer.
  destruct (blk_get_avail_some s q n Hq Hr Ho) as (q'&->&Ha). rewrite bind_Ok.
  cbn [ptr_off from_option_res]. rewrite bind_Ok. cbn [mem put_blk_vq put_vq set_dev set_blk].
  rewrite (slot_load_len ring size Hsize Hring Hfit), bind_Ok.
  rewrite (slot_load_addr ring size Hsize Hring Hfit), bind_Ok, Hreq, bind_Ok.
  pose proof (moved_range (mem s) n) as Hlr. fold (moved (mem s) n).
  rewrite Z.shiftl_mul_pow2 by lia. change (2 ^ 9) with 512.
  rewrite s64_small by lia. rewrite Z.eqb_refl. unfold virtio_blk_read. cbn [disk put_blk_vq].
  rewrite (guest_to_host_in_ram _ _ Hin). unfold in_ram in Hin.
  destruct (diskimg_read_ok (mem s) dk (host (slot_addr (mem s) n)) (sector * 512)
    (moved (mem s) n)) as (dk'&E&Hc&_); try lia.
  cbn [disk put_vq set_dev set_blk mem]. rewrite Hd. cbn [from_option_res]. rewrite bind_Ok, E, !bind_Ok.
  rewrite (proj2 (Z.ltb_ge _ _)) by lia. exists q', dk'. by split_and!.
Qed.

Lemma blk_transfer_write s q n dk req sector :
  vqs (blk s) !! i = Some q → on_ring n q → disk s = Some dk →
  transfer_ok (mem s) dk n sector → req_sector req = Ok sector →
  ∃ q' dk', blk_transfer i VIRTIO_BLK_T_OUT req s =
    Ok (set_disk (Some dk') (put_blk_vq i q' s), VIRTIO_BLK_S_OK, slot n) ∧
    advanced (n + 1) q q' ∧
    fcontents (dimg_file dk') = set_bytes (fcontents (dimg_file dk)) (sector * 512)
      (get_bytes (mem s) (host (slot_addr (mem s) n)) (Z.to_nat (moved (mem s) n))).
Proof using Hfit Hring Hsize.
  intros Hq Hr Hd (Ho&Hin&Hs0&Hsz&Hs63) Hreq. unfold blk_transfer.
  destruct (blk_get_avail_some s q n Hq Hr Ho) as (q'&->&Ha). rewrite bind_Ok.
  cbn [ptr_off from_option_res]. rewrite bind_Ok. cbn [mem put_blk_vq put_vq set_dev set_blk].
  rewrite (slot_load_len ring size Hsize Hring Hfit), bind_Ok.
  rewrite (slot_load_addr ring size Hsize Hring Hfit), bind_Ok, Hreq, bind_Ok.
  pose proof (moved_range (mem s) n) as Hlr. fold (moved (mem s) n).
  rewrite Z.shiftl_mul_pow2 by lia. change (2 ^ 9) with 512.
  rewrite s64_small by lia. change (VIRTIO_BLK_T_OUT =? VIRTIO_BLK_T_IN) with false. cbv iota.
  unfold virtio_blk_write. rewrite (guest_to_host_in_ram _ _ Hin). unfold in_ram in Hin.
  destruct (diskimg_write_ok (mem s) dk (host (slot_addr (mem s) n)) (sector * 512)
    (moved (mem s) n)) as (dk'&E&Hc&_); try lia.
  cbn [disk put_blk_vq put_vq set_dev set_blk mem]. rewrite Hd. cbn [from_option_res].
  rewrite bind_Ok, E, !bind_Ok.
  rewrite (proj2 (Z.ltb_ge _ _)) by lia. exists q', dk'. by split_and!.
Qed.

(** The memory after the status stage: the status byte, and the flags and length
    of the first descriptor of the chain. *)
Definition finish_mem (m : ram) (h sa status : Z) : ram :=
  let m1 := set_bytes m sa (le_bytes 1 status) in
  let m2 := set_bytes m1 (slot h + vring_desc_flags) (le_bytes 2 (mark_used (slot_flags m1 h))) in
  set_bytes m2 (slot h + vring_desc_len) (le_bytes 4 0).

Lemma raise_isr_ok d :
  vdev_ok d →
  ∃ c isr, raise_isr d = Ok (set_vp_config c d) ∧ vdev_ok (set_vp_config c d) ∧
    load 4 (vp_config d) off_isr_cap = Ok isr ∧
    load 4 c off_isr_cap = Ok (Z.lor isr VIRTIO_PCI_ISR_QUEUE).
Proof.
  intros Hok. unfold raise_isr.
  destruct (config_load_ok d 4 off_isr_cap Hok) as (v&->&Hv); [by vm_compute..|].
  rewrite bind_Ok. unfold store.
  destruct (config_write_ok d off_isr_cap (le_bytes 4 (Z.lor v VIRTIO_PCI_ISR_QUEUE)) Hok)
    as [Hw Hok']; [by apply le_bytes_ok|by vm_compute..|right; by vm_compute|].
  rewrite Hw, bind_Ok. eexists _, v. split_and!; [done|done|done|].
  rewrite (load_store_eq 4 (vp_config d) off_isr_cap (Z.lor v VIRTIO_PCI_ISR_QUEUE)); [|lia|done].
  f_equal. apply wrap_small. apply lor_range; [lia|done|by vm_compute].
Qed.

Lemma vdev_ok_put s q q' :
  vdev_ok (blk s) → vqs (blk s) !! i = Some q → info q' = info q →
  vdev_ok (blk (put_blk_vq i q' s)).
Proof.
  intros [? ? ? ? Hn Hq] Hl Hinfo. split; cbn; try done.
  - rewrite Hn. unfold lenZ. by rewrite length_insert.
  - apply Forall_insert; [done|]. eapply Forall_lookup_1 in Hq; [|done].
    unfold virtq_ok in *. by rewrite Hinfo.
Qed.

Lemma blk_finish_ok s q n h status :
  vqs (blk s) !! i = Some q → on_ring n q → offered (mem s) n → vdev_ok (blk s) →
  in_ram (slot_addr (mem s) n) 1 →
  ∃ q' c, blk_finish i (slot h) status s =
      Ok (set_mem (finish_mem (mem s) h (host (slot_addr (mem s) n)) status)
        (set_blk (set_vp_config c (blk (put_blk_vq i q' s))) (put_blk_vq i q' s))) ∧
    advanced (n + 1) q q' ∧ vdev_ok (set_vp_config c (blk (put_blk_vq i q' s))) ∧
    ∃ isr, load 4 (vp_config (blk s)) off_isr_cap = Ok isr ∧
      load 4 c off_isr_cap = Ok (Z.lor isr VIRTIO_PCI_ISR_QUEUE).
Proof using Hfit Hring Hsize.
  intros Hq Hr Ho Hok Hin. unfold blk_finish.
  destruct (blk_get_avail_some s q n Hq Hr Ho) as (q'&->&Ha). rewrite bind_Ok.
  cbn [ptr_off from_option_res]. rewrite bind_Ok. change (mem (put_blk_vq i q' s)) with (mem s).
  rewrite (slot_load_addr ring size Hsize Hring Hfit), bind_Ok.
  rewrite (guest_to_host_in_ram _ _ Hin). unfold pstore. cbn [ptr_off from_option_res].
  rewrite bind_Ok, Z.add_0_r. unfold in_ram in Hin. unfold store.
  rewrite mwrite_ok by (rewrite ?lenZ_le_bytes, ?bsize_ram; lia). rewrite bind_Ok.
  rewrite (slot_load_flags ring size Hsize Hring Hfit), bind_Ok.
  pose proof (slot_bounds ring size Hsize Hring Hfit h) as Hb.
  unfold vring_desc_size in Hb.
  rewrite mwrite_ok by (rewrite ?lenZ_le_bytes, ?bsize_ram; unfold vring_desc_flags; lia).
  rewrite bind_Ok.
  rewrite mwrite_ok by (rewrite ?lenZ_le_bytes, ?bsize_ram; unfold vring_desc_len; lia).
  rewrite bind_Ok.
  assert (Hok' : vdev_ok (blk (put_blk_vq i q' s))) by (eapply vdev_ok_put; [done..|apply Ha]).
  destruct (raise_isr_ok _ Hok') as (c&isr&->&Hok''&Hl&Hc). rewrite bind_Ok.
  exists q', c. split_and!; [done|done|done|]. by exists isr.
Qed.

Section finish_mem.
Context (m : ram) (h sa status : Z).
Context (Hsa : 0 ≤ sa) (Hsa1 : sa + 1 ≤ RAM_SIZE) (Hoff : off_ring ring size sa 1).
Context (Hst : 0 ≤ status < 256).

Lemma finish_mem_stores :
  ∃ m1 m2, store 1 m sa status = Ok m1 ∧ slot_flags m1 h = slot_flags m h ∧
    (∀ n, slot_flags m1 n = slot_flags m n) ∧
    store 2 m1 (slot h + vring_desc_flags) (mark_used (slot_flags m h)) = Ok m2 ∧
    store 4 m2 (slot h + vring_desc_len) 0 = Ok (finish_mem m h sa status).
Proof using Hfit Hring Hsize Hoff Hsa Hsa1.
  clear Hst. pose proof (slot_bounds ring size Hsize Hring Hfit h) as Hb.
  unfold vring_desc_size in Hb.
  set (m1 := set_bytes m sa (le_bytes 1 status)).
  assert (Hf : ∀ n, slot_flags m1 n = slot_flags m n).
  { intros n. apply (slots_outside ring size Hsize Hring m sa (le_bytes 1 status) n);
      rewrite ?lenZ_le_bytes; done || lia. }
  exists m1, (set_bytes m1 (slot h + vring_desc_flags) (le_bytes 2 (mark_used (slot_flags m1 h)))).
  split_and!; [| |done|rewrite <-Hf|]; try done; apply store_ok_iff; try lia;
    rewrite bsize_ram; unfold vring_desc_flags, vring_desc_len; split_and!; done || lia.
Qed.

Lemma finish_mem_other a :
  0 ≤ a → a ≠ sa → ¬ (slot h + vring_desc_len ≤ a < slot h + vring_desc_len + 4) →
  ¬ (slot h + vring_desc_flags ≤ a < slot h + vring_desc_flags + 2) →
  bget (finish_mem m h sa status) a = bget m a.
Proof using Hfit Hring Hsize Hoff Hsa Hsa1.
  clear Hst. intros Ha H1' H2' H3'. pose proof (slot_bounds ring size Hsize Hring Hfit h) as Hb.
  unfold vring_desc_size in Hb. unfold vring_desc_len, vring_desc_flags in *.
  unfold finish_mem, vring_desc_flags, vring_desc_len.
  rewrite !bget_set_bytes_out;
    rewrite ?bsize_set_bytes, ?lenZ_le_bytes, ?bsize_ram by lia; done || lia.
Qed.

Lemma finish_mem_status : load 1 (finish_mem m h sa status) sa = Ok status.
Proof using Hfit Hring Hsize Hoff Hsa Hsa1 Hst.
  destruct finish_mem_stores as (m1&m2&E1&_&_&E2&E3).
  pose proof (slot_in_ring ring size Hsize h) as Hb. unfold off_ring in Hoff.
  unfold vring_desc_len, vring_desc_flags, vring_desc_size in *.
  rewrite (load_store_ne 4 1 _ _ sa _ _ ltac:(lia) E3) by lia.
  rewrite (load_store_ne 2 1 _ _ sa _ _ ltac:(lia) E2) by lia.
  rewrite (load_store_eq 1 _ _ _ _ ltac:(lia) E1). f_equal. by apply wrap_small.
Qed.

Lemma finish_mem_len : load 4 (finish_mem m h sa status) (slot h + vring_desc_len) = Ok 0.
Proof using Hfit Hring Hsize Hoff Hsa Hsa1.
  clear Hst. destruct finish_mem_stores as (m1&m2&_&_&_&_&E3).
  by rewrite (load_store_eq 4 _ _ _ _ ltac:(lia) E3).
Qed.

Lemma finish_mem_flags n :
  slot_flags (finish_mem m h sa status) n =
    if decide (slot n = slot h) then mark_used (slot_flags m h) else slot_flags m n.
Proof using Hfit Hring Hsize Hoff Hsa Hsa1.
  clear Hst. destruct finish_mem_stores as (m1&m2&E1&_&Hf&E2&E3).
  rewrite <-(Hf n).
  rewrite <-(store_slot_flags ring size m1 h _ m2) by (done || lia || by apply wrap_range).
  assert (∀ m', load 2 m' (slot n + vring_desc_flags) = Ok (slot_flags m' n)) as Hl.
  { intros. by apply slot_load_flags. }
  enough (Ok (slot_flags (finish_mem m h sa status) n) = Ok (slot_flags m2 n)) as [= ->]; [done|].
  rewrite <-!Hl. apply (load_store_ne 4 2 m2 _ _ 0 _ ltac:(lia) E3).
  destruct (decide (slot n = slot h)) as [->|Hne];
    unfold vring_desc_flags, vring_desc_len; [lia|].
  pose proof (slot_disjoint ring size n h Hne). unfold vring_desc_size in *. lia.
Qed.
End finish_mem.

(** ** One request *)

(** The driver's side of a read or write request, up to its data: a header of 16
    bytes with the type and the sector at position [n] of the ring, a data buffer
    in RAM, outside the ring, at [n + 1], both with the flag that announces a
    further descriptor. *)
Record blk_front (m : ram) (dk : diskimg F) (n type sector : Z) : Prop := {
  bf_offered : offered m n;
  bf_next : slot_has_next m n = true ∧ slot_has_next m (n + 1) = true;
  bf_header : slot_len m n = 16 ∧ in_ram (slot_addr m n) 16;
  bf_type : type = VIRTIO_BLK_T_IN ∨ type = VIRTIO_BLK_T_OUT;
  bf_fields : let hdr := get_bytes m (host (slot_addr m n)) 16 in
    le_val (take 4 hdr) = type ∧ le_val (drop 8 hdr) = sector;
  bf_data : transfer_ok m dk (n + 1) sector;
  bf_data_off : off_ring ring size (host (slot_addr m (n + 1))) (moved m (n + 1));
}.

(** The whole request: the status byte at [n + 2] lies in RAM, outside the ring,
    and is not part of the data. *)
Record blk_chain (m : ram) (dk : diskimg F) (n type sector : Z) : Prop := {
  bc_front : blk_front m dk n type sector;
  bc_status_offered : offered m (n + 2);
  bc_status : in_ram (slot_addr m (n + 2)) 1;
  bc_status_off : off_ring ring size (host (slot_addr m (n + 2))) 1;
  bc_disjoint : ¬ (slot_addr m (n + 1) ≤ slot_addr m (n + 2) <
                   slot_addr m (n + 1) + moved m (n + 1));
}.

(** Memory and image after the data stage. *)
Definition data_mem (m : ram) (dk : diskimg F) (n type sector : Z) : ram :=
  if type =? VIRTIO_BLK_T_IN
  then set_bytes m (host (slot_addr m (n + 1)))
         (image_bytes dk (sector * 512) (moved m (n + 1)))
  else m.
Definition data_image (m : ram) (dk : diskimg F) (n type sector : Z) : list Z :=
  if type =? VIRTIO_BLK_T_IN then fcontents (dimg_file dk)
  else set_bytes (fcontents (dimg_file dk)) (sector * 512)
         (get_bytes m (host (slot_addr m (n + 1))) (Z.to_nat (moved m (n + 1)))).

Lemma data_mem_slots m dk n type sector k :
  blk_front m dk n type sector →
  slot_flags (data_mem m dk n type sector) k = slot_flags m k ∧
  slot_addr (data_mem m dk n type sector) k = slot_addr m k.
Proof using Hfit Hring Hsize.
  intros Hc. unfold data_mem. destruct (type =? VIRTIO_BLK_T_IN); [|done].
  destruct (bf_data _ _ _ _ _ Hc) as (_&Hin&_). pose proof (bf_data_off _ _ _ _ _ Hc) as Hoff.
  pose proof (moved_range m (n + 1)). unfold in_ram in Hin.
  destruct (slots_outside ring size Hsize Hring m (host (slot_addr m (n + 1)))
    (image_bytes dk (sector * 512) (moved m (n + 1))) k) as (?&?&_);
    unfold image_bytes; rewrite ?lenZ_get_bytes by lia; done || lia.
Qed.

(** What [blk_request] leaves alone besides memory, disk, queue position and the
    interrupt status. *)
Definition blk_frame (s s' : vm_t F) : Prop :=
  log s' = log s ∧ vq_set (blk s') = vq_set (blk s) ∧ irqfd (blk s') = irqfd (blk s).

Lemma blk_data_stage s q n dk req type sector :
  vqs (blk s) !! i = Some q → on_ring (n + 1) q → disk s = Some dk →
  vdev_ok (blk s) → blk_front (mem s) dk n type sector → req_sector req = Ok sector →
  ∃ s1 q1 dk1, blk_transfer i type req s = Ok (s1, VIRTIO_BLK_S_OK, slot (n + 1)) ∧
    mem s1 = data_mem (mem s) dk n type sector ∧ vqs (blk s1) !! i = Some q1 ∧
    advanced (n + 2) q q1 ∧ disk s1 = Some dk1 ∧
    fcontents (dimg_file dk1) = data_image (mem s) dk n type sector ∧
    vdev_ok (blk s1) ∧ vp_config (blk s1) = vp_config (blk s) ∧ blk_frame s s1.
Proof using Hfit Hring Hsize.
  intros Hq Hr Hd Hok Hc Hreq. pose proof (bf_data _ _ _ _ _ Hc) as Ht.
  unfold data_mem, data_image. replace (n + 2) with (n + 1 + 1) by lia.
  destruct (bf_type _ _ _ _ _ Hc) as [-> | ->].
  - destruct (blk_transfer_read s q (n + 1) dk req sector Hq Hr Hd Ht Hreq)
      as (q1&dk1&->&Ha&Hcont).
    eexists _, q1, dk1. split; [done|]. split_and!; try done.
    + by eapply put_blk_vq_lookup.
    + eapply (vdev_ok_put s); [done..|apply Ha].
  - destruct (blk_transfer_write s q (n + 1) dk req sector Hq Hr Hd Ht Hreq)
      as (q1&dk1&->&Ha&Hcont).
    eexists _, q1, dk1. split; [done|]. split_and!; try done.
    + by eapply put_blk_vq_lookup.
    + eapply (vdev_ok_put s); [done..|apply Ha].
Qed.

(** The state after the request of the chain at [n]. *)
Record blk_served (s : vm_t F) q (dk : diskimg F) (n type sector : Z) (s' : vm_t F) : Prop := {
  bs_mem : mem s' = finish_mem (data_mem (mem s) dk n type sector) n
             (host (slot_addr (mem s) (n + 2))) VIRTIO_BLK_S_OK;
  bs_disk : ∃ dk', disk s' = Some dk' ∧
    fcontents (dimg_file dk') = data_image (mem s) dk n type sector;
  bs_queue : ∃ q', vqs (blk s') !! i = Some q' ∧ advanced (n + 3) q q';
  bs_ok : vdev_ok (blk s');
  bs_isr : ∃ isr, load 4 (vp_config (blk s)) off_isr_cap = Ok isr ∧
    load 4 (vp_config (blk s')) off_isr_cap = Ok (Z.lor isr VIRTIO_PCI_ISR_QUEUE);
  bs_frame : blk_frame s s';
}.

(** A request up to its status stage: header and data are dealt with, whatever
    comes after them. *)
Lemma blk_request_front s q n dk req type sector :
  vqs (blk s) !! i = Some q → on_ring (n + 1) q → disk s = Some dk →
  vdev_ok (blk s) → blk_front (mem s) dk n type sector →
  length req = Z.to_nat sizeof_virtio_blk_req →
  ∃ s1 q1 dk1 req1,
    blk_request i (slot n) req s =
      (s' ← blk_finish i (slot n) VIRTIO_BLK_S_OK s1; Ok (s', req1, true)) ∧
    mem s1 = data_mem (mem s) dk n type sector ∧ vqs (blk s1) !! i = Some q1 ∧
    advanced (n + 2) q q1 ∧ disk s1 = Some dk1 ∧
    fcontents (dimg_file dk1) = data_image (mem s) dk n type sector ∧
    vdev_ok (blk s1) ∧ vp_config (blk s1) = vp_config (blk s) ∧ blk_frame s s1.
Proof using Hfit Hring Hsize.
  intros Hq Hr Hd Hok Hc Hreq. unfold blk_request.
  rewrite (slot_load_addr ring size Hsize Hring Hfit), bind_Ok.
  rewrite (slot_load_len ring size Hsize Hring Hfit), bind_Ok.
  destruct (bf_header _ _ _ _ _ Hc) as [-> Hin]. rewrite (pread_in_ram _ _ _ Hin), bind_Ok.
  destruct (req_copy_header req (get_bytes (mem s) (host (slot_addr (mem s) n)) (Z.to_nat 16)))
    as (req1&->&Hlen&Hty&Hsec); [done|by apply lenZ_get_bytes|]. rewrite bind_Ok, Hty, bind_Ok.
  destruct (bf_fields _ _ _ _ _ Hc) as [Ef1 Ef2]. change (Z.to_nat 16) with 16%nat in *.
  rewrite Ef1. rewrite Ef2 in Hsec.
  assert ((type =? VIRTIO_BLK_T_IN) || (type =? VIRTIO_BLK_T_OUT) = true) as ->.
  { destruct (bf_type _ _ _ _ _ Hc) as [-> | ->]; done. }
  rewrite (slot_check_next ring size Hsize Hring Hfit), bind_Ok.
  destruct (bf_next _ _ _ _ _ Hc) as [Hn1 Hn2]. rewrite Hn1. cbn [negb].
  destruct (blk_data_stage s q n dk req1 type sector Hq Hr Hd Hok Hc Hsec)
    as (s1&q1&dk1&->&Hm1&Hrest). rewrite bind_Ok.
  destruct (data_mem_slots (mem s) dk n type sector (n + 1) Hc) as [Ef _].
  rewrite (slot_check_next ring size Hsize Hring Hfit), bind_Ok.
  unfold Virtq.slot_has_next in Hn2 |- *. rewrite Hm1, Ef, Hn2. cbn [negb].
  by exists s1, q1, dk1, req1.
Qed.

Lemma blk_request_served s q n dk req type sector :
  vqs (blk s) !! i = Some q → on_ring (n + 1) q → disk s = Some dk →
  vdev_ok (blk s) → blk_chain (mem s) dk n type sector →
  length req = Z.to_nat sizeof_virtio_blk_req →
  ∃ s' req', blk_request i (slot n) req s = Ok (s', req', true) ∧
    blk_served s q dk n type sector s'.
Proof using Hfit Hring Hsize.
  intros Hq Hr Hd Hok Hc Hreq.
  destruct (blk_request_front s q n dk req type sector Hq Hr Hd Hok (bc_front _ _ _ _ _ Hc) Hreq)
    as (s1&q1&dk1&req1&->&Hm1&Hq1&Ha1&Hd1&Hcont&Hok1&Hcfg&Hfr).
  destruct (data_mem_slots (mem s) dk n type sector (n + 2) (bc_front _ _ _ _ _ Hc)) as [Ef2' Ea2].
  destruct (blk_finish_ok s1 q1 (n + 2) n VIRTIO_BLK_S_OK) as (q2&c&->&Ha2&Hok2&Hisr);
    [done|apply Ha1| |done| |].
  { unfold Virtq.offered. rewrite Hm1, Ef2'. apply (bc_status_offered _ _ _ _ _ Hc). }
  { rewrite Hm1, Ea2. apply (bc_status _ _ _ _ _ Hc). }
  rewrite bind_Ok. eexists _, req1. split; [done|]. rewrite Hm1, Ea2.
  split; [done|by exists dk1| |done| |done].
  - exists q2. split; [by eapply put_blk_vq_lookup|].
    destruct Ha1 as (_&Hi1&Hg1&Hdv1), Ha2 as (Hon&Hi2&Hg2&Hdv2).
    replace (n + 3) with (n + 2 + 1) by lia. split_and!; [done|congruence..].
  - by rewrite <-Hcfg.
Qed.

(** The same request when its status descriptor is missing. *)
Lemma blk_request_no_status s q n dk req type sector :
  vqs (blk s) !! i = Some q → on_ring (n + 1) q → disk s = Some dk →
  vdev_ok (blk s) → blk_front (mem s) dk n type sector → ¬ offered (mem s) (n + 2) →
  length req = Z.to_nat sizeof_virtio_blk_req →
  blk_request i (slot n) req s = Fault NullPointer.
Proof using Hfit Hring Hsize.
  intros Hq Hr Hd Hok Hc Hno Hreq.
  destruct (blk_request_front s q n dk req type sector Hq Hr Hd Hok Hc Hreq)
    as (s1&q1&dk1&req1&->&Hm1&Hq1&Ha1&_).
  unfold blk_finish. rewrite (blk_get_avail_none s1 q1 (n + 2)); [done|done|apply Ha1|].
  unfold Virtq.offered. by rewrite Hm1, (proj1 (data_mem_slots (mem s) dk n type sector _ Hc)).
Qed.

(** A header longer than the request structure. *)
Lemma blk_request_long s n req :
  in_ram (slot_addr (mem s) n) (slot_len (mem s) n) →
  sizeof_virtio_blk_req < slot_len (mem s) n →
  blk_request i (slot n) req s = Fault OutOfBounds.
Proof using Hfit Hring Hsize.
  intros Hin Hlong. unfold blk_request.
  rewrite (slot_load_addr ring size Hsize Hring Hfit), bind_Ok.
  rewrite (slot_load_len ring size Hsize Hring Hfit), bind_Ok.
  rewrite (pread_in_ram _ _ _ Hin), bind_Ok. unfold req_copy.
  rewrite lenZ_get_bytes by apply Hin. by rewrite (proj2 (Z.leb_gt _ _)) by lia.
Qed.

(** A header whose successor is announced and missing, whatever the request. *)
Lemma blk_request_no_next s q n req :
  vqs (blk s) !! i = Some q → on_ring (n + 1) q →
  slot_len (mem s) n = 16 → in_ram (slot_addr (mem s) n) 16 →
  slot_has_next (mem s) n = true → ¬ offered (mem s) (n + 1) →
  length req = Z.to_nat sizeof_virtio_blk_req →
  blk_request i (slot n) req s = Fault NullPointer.
Proof using Hfit Hring Hsize.
  intros Hq Hr E16 Hin Hnx Hno Hreq. unfold blk_request.
  rewrite (slot_load_addr ring size Hsize Hring Hfit), bind_Ok.
  rewrite (slot_load_len ring size Hsize Hring Hfit), bind_Ok.
  rewrite E16, (pread_in_ram _ _ _ Hin), bind_Ok.
  destruct (req_copy_header req (get_bytes (mem s) (host (slot_addr (mem s) n)) (Z.to_nat 16)))
    as (req1&->&_&Hty&_); [done|by apply lenZ_get_bytes|]. rewrite bind_Ok, Hty, bind_Ok.
  rewrite (slot_check_next ring size Hsize Hring Hfit), !bind_Ok, Hnx. cbn [negb].
  unfold blk_transfer, blk_finish. rewrite (blk_get_avail_none s q (n + 1)) by done.
  by destruct (_ || _).
Qed.

Lemma slot_ne n k : 0 < k < size → slot (n + k) ≠ slot n.
Proof using Hsize.
  clear Hring Hfit. intros Hk E. apply slot_inj in E.
  assert ((n + k - n) `mod` size = 0) as E'.
  { rewrite Zminus_mod, E, Z.sub_diag. by apply Z.mod_0_l; lia. }
  replace (n + k - n) with k in E' by lia. rewrite Z.mod_small in E' by lia. lia.
Qed.

Lemma status_bounds m dk n type sector :
  blk_chain m dk n type sector →
  0 ≤ host (slot_addr m (n + 2)) ∧ host (slot_addr m (n + 2)) + 1 ≤ RAM_SIZE.
Proof. intros Hc. pose proof (bc_status _ _ _ _ _ Hc) as Hin. unfold in_ram in Hin. lia. Qed.

Lemma served_flags s q dk n type sector s' k :
  blk_chain (mem s) dk n type sector → blk_served s q dk n type sector s' →
  slot_flags (mem s') k =
    if decide (slot k = slot n) then mark_used (slot_flags (mem s) n) else slot_flags (mem s) k.
Proof using Hfit Hring Hsize.
  intros Hc Hs. rewrite (bs_mem _ _ _ _ _ _ _ Hs).
  destruct (status_bounds _ _ _ _ _ Hc). pose proof (bc_status_off _ _ _ _ _ Hc).
  rewrite finish_mem_flags by done.
  by rewrite !(proj1 (data_mem_slots (mem s) dk n type sector _ (bc_front _ _ _ _ _ Hc))).
Qed.

(** The whole function on a queue that holds one request. *)
Lemma blk_complete_one s q n dk type sector fuel :
  3 < size → (2 ≤ fuel)%nat → vqs (blk s) !! i = Some q → on_ring n q →
  disk s = Some dk → vdev_ok (blk s) → blk_chain (mem s) dk n type sector →
  ¬ offered (mem s) (n + 3) →
  ∃ s', virtio_blk_complete_request fuel i s = Ok s' ∧ blk_served s q dk n type sector s'.
Proof using Hfit Hring Hsize.
  intros H3 Hf Hq Hr Hd Hok Hc Hend. destruct fuel as [|[|fuel]]; [lia|lia|].
  unfold virtio_blk_complete_request. cbn [blk_loop].
  destruct (blk_get_avail_some s q n Hq Hr) as (q0&->&Ha0); [apply (bf_offered _ _ _ _ _ (bc_front _ _ _ _ _ Hc))|].
  rewrite bind_Ok. set (s0 := put_blk_vq i q0 s).
  assert (Hq0 : vqs (blk s0) !! i = Some q0) by (by eapply put_blk_vq_lookup).
  assert (Hok0 : vdev_ok (blk s0)) by (eapply vdev_ok_put; [done..|apply Ha0]).
  destruct (blk_request_served s0 q0 n dk req_uninit type sector Hq0 (proj1 Ha0) Hd Hok0 Hc)
    as (s1&req1&->&Hs1); [done|]. rewrite bind_Ok.
  destruct (bs_queue _ _ _ _ _ _ _ Hs1) as (q1&Hq1&Ha1).
  rewrite (blk_get_avail_none s1 q1 (n + 3)); [|done|apply Ha1|].
  - rewrite bind_Ok. eexists; split; [done|].
    destruct Hs1 as [Em [dk' [Ed Ec]] _ Hok1 Hisr Hfr]. split; try done.
    + by exists dk'.
    + exists q1. split; [by eapply put_blk_vq_lookup|].
      destruct Ha0 as (_&?&?&?), Ha1 as (?&?&?&?). split_and!; [done|congruence..].
    + by eapply vdev_ok_put.
  - unfold Virtq.offered. rewrite (served_flags s0 q0 dk n type sector s1) by done.
    rewrite decide_False; [done|]. apply slot_ne. lia.
Qed.

(** What the driver and the image see after the request was served. *)
Record request_done (s : vm_t F) (dk : diskimg F) (n type sector : Z) (s' : vm_t F) : Prop := {
  rd_data : type = VIRTIO_BLK_T_IN →
    get_bytes (mem s') (host (slot_addr (mem s) (n + 1))) (Z.to_nat (moved (mem s) (n + 1))) =
      image_bytes dk (sector * 512) (moved (mem s) (n + 1));
  rd_image : ∃ dk', disk s' = Some dk' ∧
    fcontents (dimg_file dk') = data_image (mem s) dk n type sector;
  rd_status : load 1 (mem s') (host (slot_addr (mem s) (n + 2))) = Ok VIRTIO_BLK_S_OK;
  rd_used : desc_returned (lap_wrap size n) (slot_flags (mem s') n);
  rd_len : load 4 (mem s') (slot n + vring_desc_len) = Ok 0;
  rd_other a : 0 ≤ a → a ≠ host (slot_addr (mem s) (n + 2)) →
    ¬ (slot n + vring_desc_flags ≤ a < slot n + vring_desc_flags + 2) →
    ¬ (slot n + vring_desc_len ≤ a < slot n + vring_desc_len + 4) →
    (type = VIRTIO_BLK_T_IN → ¬ (host (slot_addr (mem s) (n + 1)) ≤ a <
      host (slot_addr (mem s) (n + 1)) + moved (mem s) (n + 1))) →
    bget (mem s') a = bget (mem s) a;
}.

Lemma served_request_done s q dk n type sector s' :
  blk_chain (mem s) dk n type sector → blk_served s q dk n type sector s' →
  request_done s dk n type sector s'.
Proof using Hfit Hring Hsize.
  intros Hc Hs. pose proof (status_bounds _ _ _ _ _ Hc) as [Hsa0 Hsa1].
  pose proof (bc_status_off _ _ _ _ _ Hc) as Hso. pose proof (bs_mem _ _ _ _ _ _ _ Hs) as Em.
  pose proof (bc_front _ _ _ _ _ Hc) as Hb.
  destruct (bf_data _ _ _ _ _ Hb) as (_&Hin&_). pose proof (bf_data_off _ _ _ _ _ Hb) as Hdo.
  pose proof (moved_range (mem s) (n + 1)) as Hlr.
  pose proof (slot_in_ring ring size Hsize n) as Hsr. unfold in_ram in Hin.
  split.
  - intros ->. rewrite Em. unfold data_mem. rewrite Z.eqb_refl.
    set (img := image_bytes dk _ _). set (a := host (slot_addr (mem s) (n + 1))) in *.
    assert (Hil : lenZ img = moved (mem s) (n + 1)) by (apply lenZ_get_bytes; lia).
    transitivity (get_bytes (set_bytes (mem s) a img) a (length img)).
    + replace (length img) with (Z.to_nat (moved (mem s) (n + 1))) by (unfold lenZ in Hil; lia).
      apply get_bytes_ext. intros j Hj. pose proof (bc_disjoint _ _ _ _ _ Hc).
      unfold off_ring in Hdo. unfold vring_desc_size, vring_desc_len, vring_desc_flags in *.
      apply finish_mem_other; try done; unfold vring_desc_len, vring_desc_flags; lia.
    + apply get_set_bytes_eq; rewrite ?Hil, ?bsize_ram; lia.
  - apply (bs_disk _ _ _ _ _ _ _ Hs).
  - rewrite Em. by apply finish_mem_status.
  - rewrite (served_flags s q dk n type sector s' n Hc Hs), decide_True by done.
    apply mark_used_returned. apply (bf_offered _ _ _ _ _ Hb).
  - rewrite Em. by apply finish_mem_len.
  - intros a Ha Hne Hnf Hnl Hnd. rewrite Em, finish_mem_other by done.
    unfold data_mem. destruct (Z.eqb_spec type VIRTIO_BLK_T_IN) as [E|]; [|done].
    specialize (Hnd E). unfold image_bytes.
    apply bget_set_bytes_out; rewrite ?lenZ_get_bytes, ?bsize_ram; lia.
Qed.
End serve.

(** C3: a block request is served. The driver has put one read or write request
    on an enabled queue and notifies it. The notification returns; a read has the
    sectors of the image in the data buffer and leaves the image alone, a write
    puts the buffer into the image; the status byte is OK, the first descriptor
    is returned to the driver, the interrupt status bit is set, no other byte of
    guest memory changes, the queue stands at the next position, and an interrupt
    is sent exactly when the event flags the code looks at are ENABLE. Two
    limitations of the code are part of the statement: only the low 16 bits of
    the data descriptor's length are moved ([moved]), with status OK all the
    same, and the used length is 0 whatever was moved ([rd_len]), because the
    [r] of the transfer shadows the one stored. *)
Theorem virtio_blk_serves_request `{Arch} {F} `{RegularFile F} i ring size (s : vm_t F) q n dk
    type sector g fuel :
  4 ≤ size < 65536 → 0 ≤ ring → ring + vring_desc_size * size ≤ RAM_SIZE → (2 ≤ fuel)%nat →
  vdev_ok (blk s) → vqs (blk s) !! i = Some q → on_ring ring size n q →
  info_enable q ≠ 0 → disk s = Some dk → blk_chain ring size (mem s) dk n type sector →
  ¬ offered ring size (mem s) (n + 3) →
  guest_event q = Some g → 0 ≤ g → g + 4 ≤ RAM_SIZE →
  ∃ s' isr flags,
    virtq_handle_avail (H := virtio_blk_ops fuel) i s = Ok s' ∧
    request_done ring size s dk n type sector s' ∧
    (∃ q', vqs (blk s') !! i = Some q' ∧ on_ring ring size (n + 3) q') ∧ vdev_ok (blk s') ∧
    load 4 (vp_config (blk s)) off_isr_cap = Ok isr ∧
    load 4 (vp_config (blk s')) off_isr_cap = Ok (Z.lor isr VIRTIO_PCI_ISR_QUEUE) ∧
    load 2 (mem s') (g + vring_event_flags) = Ok flags ∧
    log s' = log s ++ (if flags =? VRING_PACKED_EVENT_FLAG_ENABLE
                       then [EvEventfdWrite (irqfd (blk s)) 1] else []).
Proof.
  intros Hsz Hr0 Hfit Hfuel Hok Hq Hr He Hd Hc Hend Hg Hg0 Hg1.
  assert (Hsz' : 1 ≤ size < 65536) by lia.
  destruct (blk_complete_one i ring size Hsz' Hr0 Hfit s q n dk type sector fuel
    ltac:(lia) Hfuel Hq Hr Hd Hok Hc Hend) as (s1&E1&Hs1).
  pose proof (served_request_done i ring size Hsz' Hr0 Hfit s q dk n type sector s1 Hc Hs1) as Hdone.
  destruct (bs_queue _ _ _ _ _ _ _ _ _ _ Hs1) as (q1&Hq1&Hon&Hi1&Hg1'&_).
  destruct (bs_isr _ _ _ _ _ _ _ _ _ _ Hs1) as (isr&Hisr0&Hisr1).
  pose proof (bs_ok _ _ _ _ _ _ _ _ _ _ Hs1) as Hok1.
  destruct (bs_frame _ _ _ _ _ _ _ _ _ _ Hs1) as (Hlog&_&Hirq).
  assert (Hfl : ∃ flags, load 2 (mem s1) (g + vring_event_flags) = Ok flags).
  { eexists. apply load_ok_iff. unfold vring_event_flags. rewrite bsize_ram. split_and!; lia || done. }
  destruct Hfl as [flags Hfl].
  assert (Hrun : virtq_handle_avail (H := virtio_blk_ops fuel) i s =
    Ok (if flags =? VRING_PACKED_EVENT_FLAG_ENABLE
        then emit_vm (EvEventfdWrite (irqfd (blk s1)) 1) s1 else s1)).
  { unfold virtq_handle_avail, virtq_complete_request, virtq_notify_used.
    cbn [vq_at virtio_blk_ops complete_request notify_used vq_ram].
    unfold dev_vq. rewrite (ok_array _ Hok), Hq. cbn [from_option_res]. rewrite !bind_Ok.
    rewrite (proj2 (Z.eqb_neq _ _) He), E1, bind_Ok, (ok_array _ Hok1), Hq1.
    cbn [from_option_res]. rewrite bind_Ok. unfold pload. rewrite Hg1', Hg.
    cbn [ptr_off from_option_res]. rewrite !bind_Ok, Hfl, bind_Ok.
    by destruct (flags =? VRING_PACKED_EVENT_FLAG_ENABLE). }
  exists (if flags =? VRING_PACKED_EVENT_FLAG_ENABLE
          then emit_vm (EvEventfdWrite (irqfd (blk s1)) 1) s1 else s1), isr, flags.
  split; [done|]. rewrite <-Hirq, <-Hlog.
  destruct (flags =? VRING_PACKED_EVENT_FLAG_ENABLE); split_and!; try done;
    try (by exists q1); try (by rewrite app_nil_r). by destruct Hdone.
Qed.

(** * The request loop ends *)

Section terminates.
Context `{Arch} {F : Type} `{HostFile F}.
Context (i : nat) (ring size : Z).
Context (Hsize : 1 ≤ size < 65536) (Hring : 0 ≤ ring)
  (Hfit : ring + vring_desc_size * size ≤ RAM_SIZE).
Implicit Types (s : vm_t F) (n : Z) (m : ram).

Abbreviation slot := (slot ring size).
Abbreviation slot_addr := (slot_addr ring size).
Abbreviation slot_len := (slot_len ring size).
Abbreviation slot_flags := (slot_flags ring size).
Abbreviation off_ring := (off_ring ring size).

Lemma blk_request_no_div s desc req : no_div (blk_request i desc req s).
Proof.
  unfold blk_request, blk_transfer, blk_finish, blk_get_avail, blk_vq, virtq_get_avail,
    virtio_blk_read, virtio_blk_write, diskimg_read, diskimg_write, read_into, write_from,
    pread, pstore, ptr_off, req_copy, req_type, req_sector, req_field, raise_isr,
    virtq_check_next.
  no_div; try (apply no_div_fmap; no_div).
Qed.

(** What the device does to the ring: it never changes an AVAIL flag or an
    address, and changes a length to zero only. *)
Definition evolves m m' : Prop :=
  ∀ k, flag_avail (slot_flags m' k) = flag_avail (slot_flags m k) ∧
    slot_addr m' k = slot_addr m k ∧ (slot_len m' k = slot_len m k ∨ slot_len m' k = 0).

(** No buffer a descriptor names overlaps the ring. *)
Definition buffers_off_ring m : Prop :=
  ∀ k, RAM_BASE ≤ slot_addr m k →
    off_ring (slot_addr m k - RAM_BASE) (Z.max 1 (u16 (slot_len m k))).

#[local] Instance evolves_refl : Reflexive evolves.
Proof. intros m k. auto. Qed.
#[local] Instance evolves_trans : Transitive evolves.
Proof.
  intros m1 m2 m3 H12 H23 k. destruct (H23 k) as (->&->&Hl), (H12 k) as (->&->&Hl').
  split_and!; try done. destruct Hl as [-> | ->]; auto.
Qed.

Lemma off_ring_mono a n n' : off_ring a n → n' ≤ n → off_ring a n'.
Proof. unfold Virtq.off_ring. lia. Qed.

Lemma evolves_buffers m m' : evolves m m' → buffers_off_ring m → buffers_off_ring m'.
Proof.
  intros He Hb k. destruct (He k) as (_&->&Hl). intros Ha. specialize (Hb k Ha).
  destruct Hl as [->|Hl]; [done|]. rewrite Hl. change (u16 0) with 0.
  eapply off_ring_mono; [done|]. lia.
Qed.

(** A copy that stays off the ring. *)
Lemma mwrite_evolves m a bs m' :
  mwrite m a bs = Ok m' → off_ring a (lenZ bs) → evolves m m'.
Proof using Hfit Hring Hsize.
  intros (Ha&Hb&->)%mwrite_ok_iff Hoff k. rewrite bsize_ram in Hb.
  destruct (slots_outside ring size Hsize Hring m a bs k) as (->&->&->); auto.
Qed.

Lemma guest_to_host_some addr a : vm_guest_to_host addr = Some a → RAM_BASE ≤ addr ∧ a = addr - RAM_BASE.
Proof. unfold vm_guest_to_host. destruct (Z.ltb_spec addr RAM_BASE); naive_solver. Qed.

(** The two stores on the first descriptor. *)
Lemma store_flags_evolves m n m' :
  store 2 m (slot n + vring_desc_flags) (mark_used (slot_flags m n)) = Ok m' → evolves m m'.
Proof using Hfit Hring Hsize.
  intros Hst k.
  pose proof (store_slot_flags ring size m n (mark_used (slot_flags m n)) m' ltac:(lia) Hring
    (wrap_range 16 _ ltac:(lia)) Hst k) as ->.
  apply store_ok_iff in Hst as (_&_&->); [|lia].
  pose proof (slot_in_ring ring size Hsize k) as Hk. pose proof (slot_in_ring ring size Hsize n) as Hn.
  unfold vring_desc_size in *.
  assert (Hd : slot k = slot n ∨ slot k + 16 ≤ slot n ∨ slot n + 16 ≤ slot k).
  { destruct (decide (slot k = slot n)); [by left|]. right. by apply slot_disjoint. }
  assert (Hb : slot n + 16 ≤ RAM_SIZE) by (unfold vring_desc_size in Hfit; lia).
  split_and!.
  - case_decide as E; [|done]. rewrite (proj1 (mark_used_flags _)).
    unfold Virtq.slot_flags. by rewrite E.
  - unfold Virtq.slot_addr, vring_desc_addr, vring_desc_flags. f_equal. apply get_bytes_ext.
    intros j Hj. apply bget_set_bytes_out; rewrite ?lenZ_le_bytes, ?bsize_ram by lia; lia.
  - left. unfold Virtq.slot_len, vring_desc_len, vring_desc_flags. f_equal. apply get_bytes_ext.
    intros j Hj. apply bget_set_bytes_out; rewrite ?lenZ_le_bytes, ?bsize_ram by lia; lia.
Qed.

Lemma store_len_evolves m n m' :
  store 4 m (slot n + vring_desc_len) 0 = Ok m' → evolves m m'.
Proof using Hfit Hring Hsize.
  intros Hst k. apply store_ok_iff in Hst as (_&_&->); [|lia].
  pose proof (slot_in_ring ring size Hsize k) as Hk. pose proof (slot_in_ring ring size Hsize n) as Hn.
  unfold vring_desc_size in *.
  assert (Hd : slot k = slot n ∨ slot k + 16 ≤ slot n ∨ slot n + 16 ≤ slot k).
  { destruct (decide (slot k = slot n)); [by left|]. right. by apply slot_disjoint. }
  assert (Hb : slot n + 16 ≤ RAM_SIZE) by (unfold vring_desc_size in Hfit; lia).
  split_and!.
  - unfold Virtq.slot_flags, vring_desc_len, vring_desc_flags. f_equal. f_equal. apply get_bytes_ext.
    intros j Hj. apply bget_set_bytes_out; rewrite ?lenZ_le_bytes, ?bsize_ram by lia; lia.
  - unfold Virtq.slot_addr, vring_desc_addr, vring_desc_len. f_equal. apply get_bytes_ext.
    intros j Hj. apply bget_set_bytes_out; rewrite ?lenZ_le_bytes, ?bsize_ram by lia; lia.
  - destruct (decide (slot k = slot n)) as [E|Hne].
    + right. unfold Virtq.slot_len. rewrite E.
      change 4%nat with (length (le_bytes 4 0)). rewrite get_set_bytes_eq; [by vm_compute|..];
      unfold vring_desc_len; rewrite ?lenZ_le_bytes, ?bsize_ram; lia.
    + left. unfold Virtq.slot_len, vring_desc_len. f_equal. apply get_bytes_ext.
      intros j Hj. apply bget_set_bytes_out; rewrite ?lenZ_le_bytes, ?bsize_ram by lia; lia.
Qed.

(** Queue [i] stands at position [n]. *)
Definition at_pos s n : Prop :=
  ∃ q, vqs (blk s) !! i = Some q ∧ on_ring ring size n q.

Definition avail_at m n : Prop := flag_avail (slot_flags m n) = lap_wrap size n.

Lemma evolves_avail m m' n : evolves m m' → avail_at m' n ↔ avail_at m n.
Proof. intros He. unfold avail_at. by rewrite (proj1 (He n)). Qed.

Lemma blk_get_avail_cases s n s' od :
  at_pos s n → blk_get_avail i s = Ok (s', od) →
  mem s' = mem s ∧ disk s' = disk s ∧
  (od = None ∧ at_pos s' n ∨ od = Some (slot n) ∧ at_pos s' (n + 1) ∧ avail_at (mem s) n).
Proof using Hfit Hring Hsize.
  intros (q&Hq&Hr) E. unfold blk_get_avail, blk_vq in E. rewrite Hq in E.
  cbn [from_option_res] in E. rewrite bind_Ok in E.
  assert (Hput : ∀ q', vqs (blk (put_blk_vq i q' s)) !! i = Some q').
  { intros. cbn. apply list_lookup_insert_eq. by eapply lookup_lt_Some. }
  destruct (decide (offered ring size (mem s) n)) as [Ho|Ho].
  - destruct (virtq_get_avail_some ring size Hsize Hring Hfit _ _ _ Hr Ho) as (q'&E'&Ha).
    rewrite E', bind_Ok in E. injection E as <- <-. split_and!; try done. right.
    split_and!; [done| |apply Ho]. exists q'. split; [done|apply Ha].
  - rewrite (virtq_get_avail_none ring size Hsize Hring Hfit _ _ _ Hr Ho), bind_Ok in E.
    injection E as <- <-. split_and!; try done. left. split; [done|]. by exists q.
Qed.

(** The queue at most moved forward over offered positions, and the ring evolved. *)
Definition progress s n s' : Prop :=
  ∃ n', n ≤ n' ∧ at_pos s' n' ∧ evolves (mem s) (mem s') ∧
    ∀ k, n ≤ k < n' → avail_at (mem s) k.

Lemma blk_transfer_progress s n type req s' status desc :
  at_pos s n → buffers_off_ring (mem s) →
  blk_transfer i type req s = Ok (s', status, desc) → desc = slot n ∧ progress s n s'.
Proof using Hfit Hring Hsize.
  intros Hp Hb E. unfold blk_transfer in E. apply bind_ok_iff in E as ([s1 od]&E1&E).
  destruct (blk_get_avail_cases s n s1 od Hp E1) as (Em&_&[[-> _]|(->&Hp1&Hav)]);
    [by cbn in E|].
  cbn [ptr_off from_option_res] in E. rewrite bind_Ok, Em in E.
  rewrite (slot_load_len ring size Hsize Hring Hfit), bind_Ok in E.
  rewrite (slot_load_addr ring size Hsize Hring Hfit), bind_Ok in E.
  apply bind_ok_iff in E as (sector&_&E). apply bind_ok_iff in E as ([s2 r]&Et&[= <- _ <-]).
  split; [done|]. exists (n + 1).
  assert (Hk : ∀ k, n ≤ k < n + 1 → avail_at (mem s) k) by (intros k ?; by replace k with n by lia).
  destruct (type =? VIRTIO_BLK_T_IN).
  - unfold virtio_blk_read in Et. apply bind_ok_iff in Et as (dk&_&Et).
    apply bind_ok_iff in Et as ([[m2 dk2] r2]&Et&E2). injection E2 as <- _.
    split_and!; [lia|done| |done]. change (mem (set_mem m2 _)) with m2. rewrite Em in Et.
    apply diskimg_read_cases in Et as [->|(a&bs&Ea&Hlb&Hw)]; [done| |apply wrap_range; lia].
    apply guest_to_host_some in Ea as [Hbase ->].
    eapply mwrite_evolves; [exact Hw|]. eapply off_ring_mono; [by apply Hb|]. lia.
  - unfold virtio_blk_write in Et. apply bind_ok_iff in Et as (dk&_&Et).
    apply bind_ok_iff in Et as ([dk2 r2]&_&E2). injection E2 as <- _.
    split_and!; [lia|done| |done]. change (evolves (mem s) (mem s1)). by rewrite Em.
Qed.

Lemma blk_finish_progress s n h status s' :
  at_pos s n → buffers_off_ring (mem s) → blk_finish i (slot h) status s = Ok s' →
  progress s n s'.
Proof using Hfit Hring Hsize.
  intros Hp Hb E. unfold blk_finish in E. apply bind_ok_iff in E as ([s1 od]&E1&E).
  destruct (blk_get_avail_cases s n s1 od Hp E1) as (Em&_&[[-> _]|(->&Hp1&Hav)]);
    [by cbn in E|].
  cbn [ptr_off from_option_res] in E. rewrite bind_Ok, Em in E.
  rewrite (slot_load_addr ring size Hsize Hring Hfit), bind_Ok in E.
  apply bind_ok_iff in E as (m1&Es1&E).
  rewrite (slot_load_flags ring size Hsize Hring Hfit), bind_Ok in E.
  apply bind_ok_iff in E as (m2&Es2&E). apply bind_ok_iff in E as (m3&Es3&E).
  apply bind_ok_iff in E as (d&Er&[= <-]).
  unfold pstore in Es1. destruct (vm_guest_to_host (slot_addr (mem s) n)) as [a|] eqn:Ea;
    [|by cbn in Es1].
  apply guest_to_host_some in Ea as [Hbase ->]. cbn [ptr_off from_option_res] in Es1.
  rewrite bind_Ok, Z.add_0_r in Es1.
  exists (n + 1). split_and!; [lia| | |intros k ?; by replace k with n by lia].
  - destruct Hp1 as (q&Hq&Hr). exists q. split; [|done].
    unfold raise_isr in Er. apply bind_ok_iff in Er as (isr&_&Er).
    apply bind_ok_iff in Er as (c&_&[= <-]). done.
  - change (mem (set_mem m3 (set_blk d s1))) with m3.
    etransitivity; [|by eapply store_len_evolves].
    etransitivity; [|by eapply store_flags_evolves].
    eapply mwrite_evolves; [exact Es1|]. rewrite lenZ_le_bytes by lia.
    eapply off_ring_mono; [by apply Hb|]. lia.
Qed.

Lemma progress_trans s1 n1 s2 s3 :
  progress s1 n1 s2 → (∀ n2, n1 ≤ n2 → at_pos s2 n2 → progress s2 n2 s3) → progress s1 n1 s3.
Proof.
  intros (n2&Hle&Hp&He&Hk) H23. destruct (H23 n2 Hle Hp) as (n3&Hle'&Hp'&He'&Hk').
  exists n3. split_and!; [lia|done|by etransitivity|]. intros k ?.
  destruct (decide (k < n2)); [apply Hk; lia|].
  apply (evolves_avail _ _ _ He). apply Hk'. lia.
Qed.

Lemma blk_request_progress s n req h s' req' more :
  at_pos s n → buffers_off_ring (mem s) →
  blk_request i (slot h) req s = Ok (s', req', more) → progress s n s'.
Proof using Hfit Hring Hsize.
  intros Hp Hb E. unfold blk_request in E.
  apply bind_ok_iff in E as (addr&_&E). apply bind_ok_iff in E as (len&_&E).
  apply bind_ok_iff in E as (bs&_&E). apply bind_ok_iff in E as (req1&_&E).
  apply bind_ok_iff in E as (type&_&E).
  assert (Hrefl : progress s n s) by (exists n; split_and!; [lia|done|done|lia]).
  destruct (_ || _) in E.
  - apply bind_ok_iff in E as (nx&_&E). destruct (negb nx); [by injection E as <- _ _|].
    apply bind_ok_iff in E as ([[s1 status] desc]&Et&E).
    destruct (blk_transfer_progress _ _ _ _ _ _ _ Hp Hb Et) as [-> Hpr].
    apply bind_ok_iff in E as (nx2&_&E). destruct (negb nx2); [by injection E as <- _ _|].
    apply bind_ok_iff in E as (s2&Ef&[= <- _ _]).
    eapply progress_trans; [exact Hpr|]. intros n2 _ Hp2.
    destruct Hpr as (_&_&_&He&_).
    eapply blk_finish_progress; [done|by eapply evolves_buffers|done].
  - apply bind_ok_iff in E as (nx&_&E). destruct (negb nx); [by injection E as <- _ _|].
    apply bind_ok_iff in E as (s2&Ef&[= <- _ _]). by eapply blk_finish_progress.
Qed.

Lemma blk_loop_no_div fuel s n0 n req :
  at_pos s n → buffers_off_ring (mem s) → n0 ≤ n ≤ n0 + size →
  (∀ k, n0 ≤ k < n → avail_at (mem s) k) → n0 + size - n < Z.of_nat fuel →
  no_div (blk_loop fuel i req s).
Proof using Hfit Hring Hsize.
  revert s n req. induction fuel as [|fuel IH]; intros s n req Hp Hb Hn Hk Hf; [lia|].
  cbn [blk_loop]. apply no_div_bind.
  { unfold blk_get_avail, blk_vq, virtq_get_avail, ptr_off. no_div. }
  intros [s1 od] E1. destruct (blk_get_avail_cases s n s1 od Hp E1) as (Em&_&[[-> _]|(->&Hp1&Hav)]);
    [done|].
  assert (n < n0 + size) as Hlt.
  { destruct (decide (n = n0 + size)) as [->|]; [|lia]. exfalso. unfold avail_at in *.
    specialize (Hk n0 ltac:(lia)). rewrite lap_wrap_next in Hav by done.
    unfold Virtq.slot_flags in *. rewrite slot_next_lap, Hk in Hav by done.
    by destruct (lap_wrap size n0). }
  apply no_div_bind; [apply blk_request_no_div|]. intros [[s2 req2] more] E2.
  destruct more; [|done].
  destruct (blk_request_progress s1 (n + 1) req n s2 req2 true) as (n2&Hle&Hp2&He&Hk2);
    [done|by rewrite Em|done|]. rewrite Em in He, Hk2.
  assert (n2 ≤ n0 + size).
  { destruct (decide (n2 ≤ n0 + size)); [done|]. exfalso.
    specialize (Hk2 (n0 + size) ltac:(lia)). unfold avail_at in *.
    assert (Hn0 : flag_avail (slot_flags (mem s) n0) = lap_wrap size n0).
    { destruct (decide (n0 = n)) as [->|]; [done|]. apply Hk. lia. }
    rewrite lap_wrap_next in Hk2 by done. unfold Virtq.slot_flags in *.
    rewrite slot_next_lap, Hn0 in Hk2 by done. by destruct (lap_wrap size n0). }
  apply (IH s2 n2); [done|by eapply evolves_buffers|lia| |lia].
  intros k ?. apply (evolves_avail _ _ _ He).
  destruct (decide (k < n)); [apply Hk; lia|].
  destruct (decide (k = n)) as [->|]; [done|]. apply Hk2. lia.
Qed.
End terminates.

(** C32: the request loop ends. Whatever requests, well formed or not, the driver
    put on a ring of [size] descriptors, as long as no buffer they name overlaps
    the ring itself, the loop of [virtio_blk_complete_request] ends after at most
    [size] requests: the device never takes the same descriptor twice. *)
Theorem virtio_blk_loop_terminates `{Arch} {F} `{HostFile F} i ring size (s : vm_t F) q n fuel :
  1 ≤ size < 65536 → 0 ≤ ring → ring + vring_desc_size * size ≤ RAM_SIZE →
  vqs (blk s) !! i = Some q → on_ring ring size n q → buffers_off_ring ring size (mem s) →
  size < Z.of_nat fuel →
  virtio_blk_complete_request fuel i s ≠ Fault Diverges.
Proof.
  intros Hs Hr Hf Hq Hon Hb Hfuel.
  apply (blk_loop_no_div i ring size Hs Hr Hf fuel s n n req_uninit); try done; try lia.
  by exists q.
Qed.

(** * Malformed requests *)

(** C33: malformed requests crash the host. A header descriptor longer than the 40
    bytes of [struct virtio_blk_req] is copied over the end of that local variable.
    A descriptor that the chain announces but that has not been made available
    makes the code dereference the null pointer [virtq_get_avail] returns: the one
    after the header, which is the data descriptor of a read or write and the
    status descriptor of any other request, and the status descriptor of a read or
    write whose data has been moved. *)
Theorem virtio_blk_malformed_faults `{Arch} {F} `{RegularFile F} i ring size (s : vm_t F) q n fuel :
  let m := mem s in
  1 ≤ size < 65536 → 0 ≤ ring → ring + vring_desc_size * size ≤ RAM_SIZE → (1 ≤ fuel)%nat →
  vqs (blk s) !! i = Some q → on_ring ring size n q → offered ring size m n →
  in_ram (slot_addr ring size m n) (slot_len ring size m n) →
  (sizeof_virtio_blk_req < slot_len ring size m n →
    virtio_blk_complete_request fuel i s = Fault OutOfBounds) ∧
  (slot_len ring size m n = 16 → slot_has_next ring size m n = true →
   ¬ offered ring size m (n + 1) →
    virtio_blk_complete_request fuel i s = Fault NullPointer) ∧
  (∀ dk type sector, disk s = Some dk → vdev_ok (blk s) →
   blk_front ring size m dk n type sector → ¬ offered ring size m (n + 2) →
    virtio_blk_complete_request fuel i s = Fault NullPointer).
Proof.
  intros m Hs Hr Hf Hfuel Hq Hon Ho Hin. destruct fuel as [|fuel]; [lia|].
  destruct (blk_get_avail_some i ring size Hs Hr Hf s q n Hq Hon Ho) as (q1&E0&Ha1).
  set (s1 := put_blk_vq i q1 s) in *.
  assert (Hq1 : vqs (blk s1) !! i = Some q1) by (by eapply put_blk_vq_lookup).
  unfold virtio_blk_complete_request. cbn [blk_loop]. rewrite E0, !bind_Ok.
  split_and!.
  - intros Hlong. by rewrite (blk_request_long i ring size Hs Hr Hf).
  - intros E16 Hnx Hno. rewrite E16 in Hin.
    by rewrite (blk_request_no_next i ring size Hs Hr Hf s1 q1 n _ Hq1 (proj1 Ha1)).
  - intros dk type sector Hd Hok Hfr Hno.
    rewrite (blk_request_no_status i ring size Hs Hr Hf s1 q1 n dk _ type sector); try done.
    + apply Ha1.
    + eapply vdev_ok_put; [done..|apply Ha1].
Qed.

(** * Set-up *)

Lemma virtq_init_ok q :
  virtq_ok q → virtq_ok (virtq_init q) ∧ info_size (virtq_init q) = VIRTQ_SIZE ∧
    info_enable (virtq_init q) = 0.
Proof.
  intros [Hl Hb]. unfold sizeof_virtq_info in Hl.
  unfold virtq_init, set_info_field, set_info, set_position, info_field, virtq_ok.
  cbn [info desc_ring device_event guest_event next_avail_idx used_wrap_count].
  set (a := set_bytes (info q) 0 (le_bytes 2 VIRTQ_SIZE)).
  assert (Ha : lenZ a = 32) by (unfold a; by rewrite lenZ_set_bytes).
  assert (Hst1 : store 2 (info q) 0 VIRTQ_SIZE = Ok a).
  { apply store_ok_iff; [lia|]. rewrite bsize_list. split_and!; lia || done. }
  assert (Hst2 : store 2 a 4 0 = Ok (set_bytes a 4 (le_bytes 2 0))).
  { apply store_ok_iff; [lia|]. rewrite bsize_list. split_and!; lia || done. }
  split_and!.
  - by rewrite lenZ_set_bytes.
  - apply (bytes_ok_store 2 a 4 0 _ ltac:(lia)); [|done].
    by apply (bytes_ok_store 2 (info q) 0 VIRTQ_SIZE _ ltac:(lia)).
  - assert (load 2 (set_bytes a 4 (le_bytes 2 0)) 0 = Ok VIRTQ_SIZE) as Hload.
    { rewrite (load_store_ne 2 2 _ _ 0 _ _ ltac:(lia) Hst2) by lia.
      by rewrite (load_store_eq 2 _ _ _ _ ltac:(lia) Hst1). }
    apply load_ok_iff in Hload as (_&_&_&E). symmetry. exact E.
  - assert (load 2 (set_bytes a 4 (le_bytes 2 0)) 4 = Ok 0) as Hload.
    { by rewrite (load_store_eq 2 _ _ _ _ ltac:(lia) Hst2). }
    apply load_ok_iff in Hload as (_&_&_&E). symmetry. exact E.
Qed.

(** C34: the set-up of the block device. On a machine whose device lists are well
    formed and do not hold the device yet, [virtio_blk_init_pci] succeeds and
    leaves a well-formed virtio device: it is consistent with its configuration
    space and decodes nothing, is on the PCI bus, advertises the capacity of the
    image in sectors, and its queue has 128 entries and is not enabled. *)
Theorem virtio_blk_setup_ok `{Arch} {F} `{HostFile F} ioeventfd_ irqfd_ img (s : vm_t F) L q :
  bus_lists (vm_buses s) L → (∀ j id, PSpace VirtioBlk j ∉ L id) →
  (∀ id, PConfig VirtioBlk ∉ L id) → lenZ (dev_config (blk s)) = sizeof_virtio_blk_config →
  0 ≤ dev_config_addr (blk s) < 2 ^ 64 → vqs (blk s) = [q] → virtq_ok q →
  0 ≤ dimg_size img < 2 ^ 64 →
  ∃ s', virtio_blk_init_pci ioeventfd_ irqfd_ img s = Ok s' ∧ vdev_ok (blk s') ∧
    pci_consistent VirtioBlk (blk s') (vm_buses s') (<[PciBus := PConfig VirtioBlk :: L PciBus]> L) ∧
    load 8 (dev_config (blk s')) virtio_blk_config_capacity = Ok (dimg_size img / 512) ∧
    disk s' = Some img ∧
    (∃ q', vqs (blk s') = [q'] ∧ info_size q' = VIRTQ_SIZE ∧ info_enable q' = 0).
Proof.
  intros HL Hsp Hcf Hdl Hda Hvq Hqok Hsz. unfold virtio_blk_init_pci, virtio_blk_setup.
  cbn [dev_config set_irq_num set_enable].
  set (cap := Z.shiftr (dimg_size img) 9).
  assert (Hst : store 8 (dev_config (blk s)) virtio_blk_config_capacity cap =
    Ok (set_bytes (dev_config (blk s)) virtio_blk_config_capacity (le_bytes 8 cap))).
  { apply store_ok_iff; [lia|]. rewrite bsize_list, Hdl. by split_and!. }
  rewrite Hst, !bind_Ok. cbn [blk set_blk vqs set_vqs set_irqfd set_ioeventfds set_dev_config
    set_irq_num set_enable].
  rewrite Hvq. set (dev := set_vqs _ _). change (virtq_init <$> [q]) with [virtq_init q] in dev.
  match goal with |- context [vm_buses ?x] => change (vm_buses x) with (vm_buses s) end.
  destruct (virtio_pci_init_ok VirtioBlk dev (vm_buses s) L HL Hsp Hcf)
    as (d1&B1&->&Hc1&[Hz [Hn Hcap] _ (Hdc&Haddr&Hq1&_)]&_). rewrite bind_Ok.
  destruct (virtq_init_ok q Hqok) as (Hqi&Hqs&Hqe).
  destruct (set_dev_cfg_consistent VirtioBlk d1 B1 L sizeof_virtio_blk_config Hc1 Hz Hcap)
    as (c&pd&->&Hts&Hc2); [by rewrite Haddr|rewrite Hq1; by apply Forall_singleton|]. rewrite bind_Ok.
  destruct (set_pci_hdr_consistent VirtioBlk _ B1 L VIRTIO_PCI_DEVICE_ID_BLK VIRTIO_BLK_PCI_CLASS
    (irq_num (set_vd_pci pd (set_vp_config c d1))) Hc2) as (pd2&->&Hc3). rewrite bind_Ok.
  set (d2 := set_vd_pci pd2 _) in *.
  assert (Hts2 : transport_set d2) by (by destruct Hts; split).
  destruct (set_virtq_ok VIRTIO_BLK_VIRTQ_NUM d2 Hts2) as (c3&->&Hok3);
    [cbn; by rewrite Hq1|done|]. rewrite bind_Ok.
  destruct (pci_register_inv VirtioBlk pd2 B1 L (proj1 Hc3) (proj2 Hc3) Hcf) as (B2&E&Hi5&Hs5&_).
  unfold virtio_pci_enable. rewrite E, bind_Ok. eexists; split; [done|].
  cbn [blk set_blk set_vm_buses emit_vm set_log vm_buses disk].
  split_and!.
  - by apply vdev_ok_set_feature.
  - done.
  - change (load 8 (dev_config d1) virtio_blk_config_capacity = Ok (dimg_size img / 512)).
    rewrite Hdc. change (dev_config dev) with
      (set_bytes (dev_config (blk s)) virtio_blk_config_capacity (le_bytes 8 cap)).
    rewrite (load_store_eq 8 _ _ cap _ ltac:(lia) Hst). f_equal. unfold cap.
    rewrite Z.shiftr_div_pow2 by lia. apply wrap_small. change (2 ^ 9) with 512.
    change (2 ^ (8 * 8)) with (2 ^ 64). split; [apply Z.div_pos; lia|].
    apply Z.div_lt_upper_bound; lia.
  - done.
  - exists (virtq_init q). by split_and!.
Qed.

(** ** Witnesses: one read request of eight bytes of sector 1 *)

(** A ring of four descriptors at 0x1000, the header at 0x3000, the buffer at
    0x4000 and the status byte at 0x5000; RAM starts at 0, as on x86. *)
Definition demo_ram (hdr_len data_len data_flags status_flags : Z) : ram :=
  set_bytes (set_bytes ram_zero 0x1000
    (le_bytes 8 0x3000 ++ le_bytes 4 hdr_len ++ le_bytes 2 0 ++ le_bytes 2 0x81 ++
     le_bytes 8 0x4000 ++ le_bytes 4 data_len ++ le_bytes 2 0 ++ le_bytes 2 data_flags ++
     le_bytes 8 0x5000 ++ le_bytes 4 1 ++ le_bytes 2 0 ++ le_bytes 2 status_flags))
    0x3000 (le_bytes 4 0 ++ le_bytes 4 0 ++ le_bytes 8 1).

Definition demo_blk_queue : virtq :=
  mkVirtq (Some 0x1000) (Some 0x2000) (Some 0x2004)
    (le_bytes 2 4 ++ le_bytes 2 0 ++ le_bytes 2 1 ++ le_bytes 2 0 ++
     le_bytes 8 0x1000 ++ le_bytes 8 0x2000 ++ le_bytes 8 0x2004) 0 true.

Definition demo_blk_dev : vdev :=
  mkVdev (vd_pci demo_vdev)
    (replicate 18 0 ++ le_bytes 2 1 ++ replicate 44 0 ++ le_bytes 8 0x1000)
    init_features 0 (Some 0x50) (Some 0x74) true (replicate 72 0) 0x1000
    [demo_blk_queue] 7 [5] 15 true.

Definition demo_blk_vm (m : ram) : vm_t reg_file :=
  mkVm m (mkBuses ∅ bus_init bus_init bus_init) 0 Serial.serial_dev_priv demo_blk_dev demo_vdev
    (Some demo_disk) [] [] [].

Lemma demo_blk_dev_ok : vdev_ok demo_blk_dev.
Proof.
  split; try (vm_compute; reflexivity); [by apply bytes_ok_check|].
  apply Forall_singleton. split; [done|by apply bytes_ok_check].
Qed.

Lemma demo_queue_on_ring : on_ring 0x1000 4 0 demo_blk_queue.
Proof. repeat split; vm_compute; congruence. Qed.

(** A length of 0x10008 counts as 8. *)
Lemma demo_front status_flags :
  status_flags = 0 ∨ status_flags = 0x80 →
  blk_front (H := x86) 0x1000 4 (demo_ram 16 0x10008 0x81 status_flags) demo_disk 0
    VIRTIO_BLK_T_IN 1.
Proof. intros [-> | ->]; split; vm_compute; intuition congruence. Qed.

Lemma demo_chain :
  blk_chain (H := x86) 0x1000 4 (demo_ram 16 0x10008 0x81 0x80) demo_disk 0 VIRTIO_BLK_T_IN 1.
Proof. split; [by apply demo_front; right|vm_compute; intuition congruence..]. Qed.

Lemma virtio_blk_serves_request_witness :
  ∃ s', virtq_handle_avail (H := virtio_blk_ops (H := x86) 2) 0 (demo_blk_vm (demo_ram 16 0x10008 0x81 0x80)) = Ok s' ∧
    load 1 (mem s') 0x5000 = Ok VIRTIO_BLK_S_OK ∧
    desc_returned true (slot_flags 0x1000 4 (mem s') 0).
Proof.
  destruct (virtio_blk_serves_request (H := x86) 0 0x1000 4 (demo_blk_vm (demo_ram 16 0x10008 0x81 0x80))
    demo_blk_queue 0 demo_disk VIRTIO_BLK_T_IN 1 0x2004 2)
    as (s'&isr&flags&Hrun&Hdone&_&_&_&_&Hfl&Hlog).
  - lia.
  - lia.
  - vm_compute; congruence.
  - lia.
  - apply demo_blk_dev_ok.
  - reflexivity.
  - apply demo_queue_on_ring.
  - vm_compute; congruence.
  - reflexivity.
  - apply demo_chain.
  - vm_compute. intuition congruence.
  - reflexivity.
  - lia.
  - vm_compute; congruence.
  - exists s'. split; [exact Hrun|]. split; [exact (rd_status _ _ _ _ _ _ _ _ Hdone)|].
    exact (rd_used _ _ _ _ _ _ _ _ Hdone).
Defined.

Lemma virtio_blk_loop_terminates_witness :
  virtio_blk_complete_request (H := x86) 5 0 (demo_blk_vm (demo_ram 16 8 0x81 0x80)) ≠ Fault Diverges.
Proof.
  apply (virtio_blk_loop_terminates (H := x86) 0 0x1000 4 (demo_blk_vm (demo_ram 16 8 0x81 0x80))
    demo_blk_queue 0).
  - lia.
  - lia.
  - vm_compute; congruence.
  - reflexivity.
  - apply demo_queue_on_ring.
  - intros k. unfold slot_addr, slot_len, slot. pose proof (Z.mod_pos_bound k 4 ltac:(lia)).
    assert (k `mod` 4 = 0 ∨ k `mod` 4 = 1 ∨ k `mod` 4 = 2 ∨ k `mod` 4 = 3) as [E|[E|[E|E]]] by lia;
      rewrite E; vm_compute; intuition congruence.
  - lia.
Defined.

Lemma virtio_blk_malformed_faults_witness :
  virtio_blk_complete_request (H := x86) 1 0 (demo_blk_vm (demo_ram 48 8 0x81 0x80)) =
    Fault OutOfBounds ∧
  virtio_blk_complete_request (H := x86) 1 0 (demo_blk_vm (demo_ram 16 8 0 0)) =
    Fault NullPointer ∧
  virtio_blk_complete_request (H := x86) 1 0 (demo_blk_vm (demo_ram 16 0x10008 0x81 0)) =
    Fault NullPointer.
Proof.
  split_and!.
  - apply (virtio_blk_malformed_faults (H := x86) 0 0x1000 4 (demo_blk_vm (demo_ram 48 8 0x81 0x80))
      demo_blk_queue 0 1); try apply demo_queue_on_ring; vm_compute; intuition (congruence || lia).
  - apply (virtio_blk_malformed_faults (H := x86) 0 0x1000 4 (demo_blk_vm (demo_ram 16 8 0 0))
      demo_blk_queue 0 1); try apply demo_queue_on_ring; vm_compute; intuition (congruence || lia).
  - apply (virtio_blk_malformed_faults (H := x86) 0 0x1000 4
      (demo_blk_vm (demo_ram 16 0x10008 0x81 0)) demo_blk_queue 0 1) with (dk := demo_disk)
      (type := VIRTIO_BLK_T_IN) (sector := 1);
      try apply demo_queue_on_ring; try (by apply demo_front; left); try apply demo_blk_dev_ok;
      vm_compute; intuition (congruence || lia).
Defined.

Definition demo_fresh_vm : vm_t reg_file :=
  virtio_blk_init (mkVm ram_zero demo_buses 0 Serial.serial_dev_priv demo_vdev demo_vdev None [] [] []).

Lemma virtio_blk_setup_ok_witness :
  ∃ s', virtio_blk_init_pci (H := x86) 5 6 demo_disk demo_fresh_vm = Ok s' ∧ vdev_ok (blk s') ∧
    load 8 (dev_config (blk s')) virtio_blk_config_capacity = Ok 2.
Proof.
  destruct (virtio_blk_setup_ok (H := x86) 5 6 demo_disk demo_fresh_vm (λ _, []) zero_virtq)
    as (s'&Hrun&Hok&_&Hcap&_).
  - apply (set_devs_frame demo_buses (λ _, [])); [apply demo_lists|].
    by intros q id ?%not_elem_of_nil.
  - intros j id. apply not_elem_of_nil.
  - intros id. apply not_elem_of_nil.
  - reflexivity.
  - vm_compute; intuition congruence.
  - reflexivity.
  - split; [done|by apply bytes_ok_check].
  - vm_compute; intuition congruence.
  - exists s'. by split_and!.
Defined.
