(* ===== verification/VirtioNet.v ===== *)
(** * The virtio network device (src/virtio-net.c, src/virtio-net.h)

    Queue 0 receives, queue 1 transmits. Frames come from and go to a TAP device
    opened without blocking: [tap_in] holds the frames that wait in it, a [read]
    takes one and cuts it to the size asked for; a [writev] succeeds or fails as
    [tap_sent] says. Each handler serves one descriptor. *)

From stdpp Require Import base tactics numbers list gmap.
From S2P Require Import Prelude.
From S2P Require Import Uapi.
From S2P Require Import Host.
From S2P Require Import Bus.
From S2P Require Import Devices.
From S2P Require Import Pci.
From S2P Require Import GuestMem.
From S2P Require Import Virtq.
From S2P Require Import Disk.
From S2P Require Import Machine.
From S2P Require Import VirtioPci.
From S2P Require Import VirtioBlk.
Open Scope Z_scope.

Definition VIRTIO_NET_VIRTQ_NUM : Z := 2.
Definition VIRTIO_NET_PCI_CLASS : Z := 0x020000.
Definition VIRTQ_RX : nat := 0.
Definition VIRTQ_TX : nat := 1.
Definition NOTIFY_OFFSET : Z := 2.

Section net.
Context `{Arch} {F : Type}.
Implicit Types (s : vm_t F).

Definition net_vq (i : nat) s : res virtq := from_option_res OutOfBounds (vqs (net s) !! i).
Definition put_net_vq (i : nat) (q : virtq) s : vm_t F := put_vq VirtioNet i q s.

(** [virtio_net_enable_vq_rx] and [_tx], which differ in the descriptor they
    register and the thread they start. *)
Definition enable_net_vq (fd_index : nat) (thread : thread_fn) (i : nat) s : res (vm_t F) :=
  q ← net_vq i s;
  if nonzero (info_enable q) then Ok s
  else
    let q := set_info_field 4 2 1 q in
    let q := set_areas (vm_guest_to_host (info_desc_addr q))
               (vm_guest_to_host (info_device_addr q))
               (vm_guest_to_host (info_driver_addr q)) q in
    let s := put_net_vq i q s in
    addr ← virtio_pci_get_notify_addr (net s) q;
    fd ← from_option_res OutOfBounds (ioeventfds (net s) !! fd_index);
    Ok (emit_vm (EvThread thread) (vm_ioeventfd_register fd addr NOTIFY_OFFSET 0 s)).

Definition virtio_net_enable_vq_rx := enable_net_vq 0 Host.virtio_net_vq_avail_handler_rx.
Definition virtio_net_enable_vq_tx := enable_net_vq 1 Host.virtio_net_vq_avail_handler_tx.

Definition virtio_net_notify_used_rx (i : nat) s : res (vm_t F) :=
  Ok (emit_vm (EvEventfdWrite (irqfd (net s)) 1) s).
Definition virtio_net_notify_used_tx (i : nat) s : res (vm_t F) :=
  Ok (emit_vm (EvEventfdWrite (irqfd (net s)) 1) s).

(** [vq->guest_event->flags = flags] *)
Definition set_guest_event (i : nat) (flags : Z) s : res (vm_t F) :=
  q ← net_vq i s;
  m ← pstore 2 (mem s) (guest_event q) vring_event_flags flags;
  Ok (set_mem m s).

Definition net_get_avail (i : nat) s : res (vm_t F * option Z) :=
  q ← net_vq i s;
  '(q, d) ← virtq_get_avail (mem s) q;
  Ok (put_net_vq i q s, d).

(** [desc->flags ^= USED; isr_status |= VIRTIO_PCI_ISR_QUEUE] *)
Definition net_return_desc (desc : Z) s : res (vm_t F) :=
  flags ← load 2 (mem s) (desc + vring_desc_flags);
  m ← store 2 (mem s) (desc + vring_desc_flags) (mark_used flags);
  d ← raise_isr (net s);
  Ok (set_mem m (set_net d s)).

(** [read(dev->tapfd, p, n)] with [p] given by its offset in RAM. The kernel
    refuses a count that is negative as [ssize_t]; an empty TAP queue is EAGAIN. *)
Definition tap_read (p n : Z) s : res (vm_t F * Z) :=
  if 2 ^ 63 <=? n then Ok (s, -1)
  else match tap_in s with
  | [] => Ok (s, -1)
  | frame :: rest =>
    let bs := take (Z.to_nat n) frame in
    m ← mwrite (mem s) p bs;
    Ok (set_mem m (set_tap_in rest s), lenZ bs)
  end.

(** [writev] of one buffer. *)
Definition tap_write (p n : Z) s : res (vm_t F * Z) :=
  let '(ok, rest) := match tap_sent s with [] => (true, []) | b :: l => (b, l) end in
  let s := set_tap_sent rest s in
  if ok : bool then bs ← mread (mem s) p n; Ok (emit_vm (EvTapWrite bs) s, n)
  else Ok (s, -1).

Definition virtio_net_complete_request_rx (i : nat) s : res (vm_t F) :=
  '(s, od) ← net_get_avail i s;
  match od with
  | None => set_guest_event i VRING_PACKED_EVENT_FLAG_DISABLE s
  | Some desc =>
    addr ← load 8 (mem s) (desc + vring_desc_addr);
    data ← ptr_off (vm_guest_to_host addr);
    m ← mwrite (mem s) data (replicate (Z.to_nat sizeof_virtio_net_hdr_v1) 0);
    m ← store 2 m (data + virtio_net_hdr_num_buffers) 1;
    let s := set_mem m s in
    len ← load 4 (mem s) (desc + vring_desc_len);
    '(s, read_bytes) ← tap_read (data + sizeof_virtio_net_hdr_v1)
                         (u64 (len - sizeof_virtio_net_hdr_v1)) s;
    if read_bytes <? 0 then set_guest_event i VRING_PACKED_EVENT_FLAG_DISABLE s
    else
      m ← store 4 (mem s) (desc + vring_desc_len) (sizeof_virtio_net_hdr_v1 + read_bytes);
      net_return_desc desc (set_mem m s)
  end.

Definition virtio_net_complete_request_tx (i : nat) s : res (vm_t F) :=
  '(s, od) ← net_get_avail i s;
  match od with
  | None => set_guest_event i VRING_PACKED_EVENT_FLAG_DISABLE s
  | Some desc =>
    addr ← load 8 (mem s) (desc + vring_desc_addr);
    len ← load 4 (mem s) (desc + vring_desc_len);
    if len <? sizeof_virtio_net_hdr_v1 then
      set_guest_event i VRING_PACKED_EVENT_FLAG_DISABLE s
    else
      let n := len - sizeof_virtio_net_hdr_v1 in
      '(s, write_bytes) ← (match vm_guest_to_host addr with
                           | Some data => tap_write (data + sizeof_virtio_net_hdr_v1) n s
                           | None => Ok (s, -1)
                           end);
      if write_bytes <? 0 then set_guest_event i VRING_PACKED_EVENT_FLAG_DISABLE s
      else net_return_desc desc s
  end.

(** The table [virtio_net_ops]. *)
Definition virtio_net_ops : VirtqOps (vm_t F) := {|
  vq_ram := mem;
  vq_at s i := dev_vq (net s) i;
  complete_request i := if decide (i = VIRTQ_RX) then virtio_net_complete_request_rx i
                        else virtio_net_complete_request_tx i;
  enable_vq i := if decide (i = VIRTQ_RX) then virtio_net_enable_vq_rx i
                 else virtio_net_enable_vq_tx i;
  notify_used i := if decide (i = VIRTQ_RX) then virtio_net_notify_used_rx i
                   else virtio_net_notify_used_tx i;
|}.

(** The threads [virtio_net_vq_avail_handler_rx] and [_tx]: one round per poll
    result, until the program stops them. *)
Definition net_handler_round (i : nat) s (available : bool) : res (vm_t F) :=
  s ← set_guest_event i VRING_PACKED_EVENT_FLAG_ENABLE s;
  if available then virtq_handle_avail (H := virtio_net_ops) i s else Ok s.

Definition virtio_net_vq_avail_handler_rx (polls : list bool) s : res (vm_t F) :=
  foldM (net_handler_round VIRTQ_RX) s polls.
Definition virtio_net_vq_avail_handler_tx (polls : list bool) s : res (vm_t F) :=
  foldM (net_handler_round VIRTQ_TX) s polls.

(** ** Set-up and exit *)

(** [opened], [tunsetiff] and [nonblock] are the outcomes of [open], of the
    TUNSETIFF ioctl and of the F_SETFL fcntl; the TAP device is closed again
    when one of the last two fails. *)
Definition virtio_net_init (opened tunsetiff nonblock : bool) s : vm_t F * bool :=
  let '(pd, B) := pci_dev_init VirtioNet (vm_buses s) in
  let d := vdev_zero (dev_config_addr (net s)) sizeof_virtio_net_config 2 pd
             (replicate (Z.to_nat VIRTIO_NET_VIRTQ_NUM) zero_virtq) in
  let s := set_vm_buses B (set_net d s) in
  if negb opened then (s, false)
  else if negb tunsetiff then (emit_vm EvCloseTap s, false)
  else if negb nonblock then (emit_vm EvCloseTap s, false)
  else (s, true).

(** The loop over the queues in [virtio_net_setup]. *)
Definition net_init_vq (i : nat) (q : virtq) : virtq :=
  virtq_init (set_info_field 6 2 (Z.of_nat i) q).

Definition virtio_net_setup (rx_fd tx_fd irqfd_ : Z) s : vm_t F :=
  let d := set_irq_num VIRTIO_NET_IRQ (set_enable true (net s)) in
  let d := set_irqfd irqfd_ (set_ioeventfds [rx_fd; tx_fd] d) in
  let s := vm_irqfd_register irqfd_ (irq_num d) 0 s in
  set_net (set_vqs (imap net_init_vq (vqs d)) d) s.

Definition virtio_net_init_pci (rx_fd tx_fd irqfd_ : Z) s : res (vm_t F) :=
  let s := virtio_net_setup rx_fd tx_fd irqfd_ s in
  '(d, B) ← virtio_pci_init VirtioNet (net s) (vm_buses s);
  d ← virtio_pci_set_dev_cfg sizeof_virtio_net_config d;
  d ← virtio_pci_set_pci_hdr VIRTIO_PCI_DEVICE_ID_NET VIRTIO_NET_PCI_CLASS (irq_num d) d;
  cap ← ptr_off (notify_cap d);
  d ← set_hdr 4 (cap + notify_off_multiplier_off) NOTIFY_OFFSET d;
  d ← virtio_pci_set_virtq VIRTIO_NET_VIRTQ_NUM d;
  let d := virtio_pci_add_feature VIRTIO_NET_F_MQ d in
  B ← virtio_pci_enable VirtioNet B;
  Ok (set_vm_buses B (set_net d s)).

Definition virtio_net_exit s : vm_t F :=
  if enable (net s) then
    let s := emit_vm (EvStop Host.virtio_net_vq_avail_handler_rx) s in
    let s := emit_vm (EvJoin Host.virtio_net_vq_avail_handler_rx) s in
    let s := emit_vm (EvJoin Host.virtio_net_vq_avail_handler_tx) s in
    let s := emit_vm (EvClose (irqfd (net s))) s in
    emit_vm EvCloseTap (fold_left (λ s fd, emit_vm (EvClose fd) s) (ioeventfds (net s)) s)
  else s.
End net.

(** * Receiving and transmitting one frame *)

Section net_ring.
Context `{Arch} {F : Type}.
Context (i : nat) (ring size : Z).
Context (Hsize : 1 ≤ size < 65536) (Hring : 0 ≤ ring)
  (Hfit : ring + vring_desc_size * size ≤ RAM_SIZE).
Implicit Types (s : vm_t F) (q : virtq) (n : Z) (m : ram).

Abbreviation slot := (slot ring size).
Abbreviation offered := (offered ring size).
Abbreviation on_ring := (on_ring ring size).
Abbreviation advanced := (advanced ring size).
Abbreviation slot_addr := (slot_addr ring size).
Abbreviation slot_len := (slot_len ring size).
Abbreviation slot_flags := (slot_flags ring size).
Abbreviation host a := (a - RAM_BASE).

Lemma net_get_avail_some s q n :
  vqs (net s) !! i = Some q → on_ring n q → offered (mem s) n →
  ∃ q', net_get_avail i s = Ok (put_net_vq i q' s, Some (slot n)) ∧ advanced (n + 1) q q'.
Proof using Hfit Hring Hsize.
  intros Hq Hr Ho. unfold net_get_avail, net_vq. rewrite Hq. cbn [from_option_res].
  rewrite bind_Ok.
  destruct (virtq_get_avail_some ring size Hsize Hring Hfit (mem s) n q Hr Ho) as (q'&->&Ha).
  rewrite bind_Ok. by exists q'.
Qed.

Lemma put_net_vq_lookup s q q' :
  vqs (net s) !! i = Some q → vqs (net (put_net_vq i q' s)) !! i = Some q'.
Proof. intros Hq. cbn. apply list_lookup_insert_eq. by eapply lookup_lt_Some. Qed.

Lemma net_vdev_ok_put s q q' :
  vdev_ok (net s) → vqs (net s) !! i = Some q → info q' = info q →
  vdev_ok (net (put_net_vq i q' s)).
Proof.
  intros [? ? ? ? Hn Hq] Hl Hinfo. split; cbn; try done.
  - rewrite Hn. unfold lenZ. by rewrite length_insert.
  - apply Forall_insert; [done|]. eapply Forall_lookup_1 in Hq; [|done].
    unfold virtq_ok in *. by rewrite Hinfo.
Qed.

(** Giving the descriptor of slot [n] back. *)
Lemma net_return_desc_ok s n :
  vdev_ok (net s) →
  ∃ c isr, net_return_desc (slot n) s =
      Ok (set_mem (set_bytes (mem s) (slot n + vring_desc_flags)
            (le_bytes 2 (mark_used (slot_flags (mem s) n)))) (set_net (set_vp_config c (net s)) s)) ∧
    vdev_ok (set_vp_config c (net s)) ∧
    load 4 (vp_config (net s)) off_isr_cap = Ok isr ∧
    load 4 c off_isr_cap = Ok (Z.lor isr VIRTIO_PCI_ISR_QUEUE).
Proof using Hfit Hring Hsize.
  intros Hok. unfold net_return_desc.
  rewrite (slot_load_flags ring size Hsize Hring Hfit), bind_Ok.
  destruct (slot_bounds ring size Hsize Hring Hfit n). unfold vring_desc_size in *. unfold store.
  rewrite mwrite_ok by (rewrite ?lenZ_le_bytes, ?bsize_ram; unfold vring_desc_flags; lia).
  rewrite bind_Ok. destruct (raise_isr_ok (net s) Hok) as (c&isr&->&Hok'&?&?).
  rewrite bind_Ok. exists c, isr. by split_and!.
Qed.

(** The header the device writes in front of a received frame. *)
Definition rx_header : list Z := replicate 10 0 ++ [1; 0].

Lemma rx_header_bytes m a :
  0 ≤ a → a + 12 ≤ RAM_SIZE →
  get_bytes (set_bytes (set_bytes m a (replicate 12 0)) (a + 10) (le_bytes 2 1)) a 12 = rx_header.
Proof.
  intros Ha Hb. set (m1 := set_bytes m a (replicate 12 0)).
  assert (E1 : get_bytes m1 a (10 + 2) = replicate 10 0 ++ replicate 2 0).
  { change (10 + 2)%nat with (length (replicate 12 0)). unfold m1.
    by rewrite get_set_bytes_eq by (rewrite ?bsize_ram; unfold lenZ; cbn; lia). }
  rewrite get_bytes_app in E1. apply app_inj_1 in E1 as [E1 _]; [|done].
  change 12%nat with (10 + 2)%nat. rewrite get_bytes_app. unfold rx_header. f_equal.
  - rewrite <-E1. apply get_bytes_ext. intros j Hj.
    apply bget_set_bytes_out; rewrite ?lenZ_le_bytes, ?bsize_ram; lia.
  - change 2%nat with (length (le_bytes 2 1)) at 2.
    change (a + Z.of_nat 10) with (a + 10).
    rewrite get_set_bytes_eq by (rewrite ?lenZ_le_bytes, ?bsize_ram; lia). done.
Qed.

(** As much of a frame as fits the buffer of slot [n] behind the header. *)
Definition rx_part m n (frame : list Z) : list Z :=
  take (Z.to_nat (slot_len m n - 12)) frame.

(** What the driver sees after a frame was received into slot [n]: the header and
    the frame, the number of bytes used, the descriptor returned and the rest of
    memory unchanged. *)
Record rx_done s n (frame : list Z) (s' : vm_t F) : Prop := {
  rx_bytes : let got := rx_part (mem s) n frame in
    get_bytes (mem s') (host (slot_addr (mem s) n)) (12 + length got) = rx_header ++ got;
  rx_len : slot_len (mem s') n = 12 + lenZ (rx_part (mem s) n frame);
  rx_used : desc_returned (lap_wrap size n) (slot_flags (mem s') n);
  rx_other b : 0 ≤ b → ¬ (slot n ≤ b < slot n + vring_desc_size) →
    ¬ (host (slot_addr (mem s) n) ≤ b < host (slot_addr (mem s) n) + slot_len (mem s) n) →
    bget (mem s') b = bget (mem s) b;
}.

(** A buffer for one frame: room for the header, in RAM, outside the ring. *)
Definition rx_buffer m n : Prop :=
  offered m n ∧ 12 ≤ slot_len m n ∧ in_ram (slot_addr m n) (slot_len m n) ∧
  off_ring ring size (host (slot_addr m n)) (slot_len m n).

Definition rx_filled m n (bs : list Z) : ram :=
  let a := host (slot_addr m n) in
  set_bytes (set_bytes (set_bytes m a (replicate 12 0)) (a + 10) (le_bytes 2 1)) (a + 12) bs.

Lemma rx_filled_slots m n bs k :
  rx_buffer m n → 12 + lenZ bs ≤ slot_len m n →
  slot_flags (rx_filled m n bs) k = slot_flags m k ∧
  slot_addr (rx_filled m n bs) k = slot_addr m k ∧ slot_len (rx_filled m n bs) k = slot_len m k.
Proof using Hring Hsize.
  clear Hfit. intros (Ho&Hl&Hin&Hoff) Hb. unfold rx_filled, in_ram in *.
  set (a := host (slot_addr m n)) in *. assert (0 ≤ lenZ bs) by (unfold lenZ; lia).
  unfold Virtq.off_ring in Hoff.
  destruct (slots_outside ring size Hsize Hring m a (replicate 12 0) k) as (E1&E2&E3);
    [lia|unfold lenZ; cbn; lia|unfold Virtq.off_ring, lenZ; cbn; lia|].
  set (m1 := set_bytes m a (replicate 12 0)) in *.
  destruct (slots_outside ring size Hsize Hring m1 (a + 10) (le_bytes 2 1) k) as (E4&E5&E6);
    [lia|rewrite lenZ_le_bytes; lia|unfold Virtq.off_ring; rewrite lenZ_le_bytes; lia|].
  set (m2 := set_bytes m1 (a + 10) (le_bytes 2 1)) in *.
  destruct (slots_outside ring size Hsize Hring m2 (a + 12) bs k) as (E7&E8&E9);
    [lia|lia|unfold Virtq.off_ring; lia|].
  split_and!; congruence.
Qed.

Lemma rx_filled_bytes m n bs :
  rx_buffer m n → 12 + lenZ bs ≤ slot_len m n →
  get_bytes (rx_filled m n bs) (host (slot_addr m n)) (12 + length bs) = rx_header ++ bs.
Proof using All.
  intros (Ho&Hl&Hin&Hoff) Hb. unfold rx_filled, in_ram in *.
  set (a := host (slot_addr m n)) in *. rewrite get_bytes_app. unfold lenZ in *. f_equal.
  - rewrite <-(rx_header_bytes m a) by lia. apply get_bytes_ext. intros j Hj.
    apply bget_set_bytes_out; rewrite ?bsize_ram; unfold lenZ; lia.
  - change (a + Z.of_nat 12) with (a + 12). apply get_set_bytes_eq; rewrite ?bsize_ram; unfold lenZ; lia.
Qed.

(** Memory after the descriptor was completed with length [12 + lenZ bs]. *)
Definition rx_mem m n (bs : list Z) : ram :=
  let m4 := set_bytes (rx_filled m n bs) (slot n + vring_desc_len) (le_bytes 4 (12 + lenZ bs)) in
  set_bytes m4 (slot n + vring_desc_flags) (le_bytes 2 (mark_used (slot_flags m4 n))).

Lemma rx_mem_spec m n bs :
  rx_buffer m n → 12 + lenZ bs ≤ slot_len m n → slot_len m n < 2 ^ 32 →
  get_bytes (rx_mem m n bs) (host (slot_addr m n)) (12 + length bs) = rx_header ++ bs ∧
  slot_len (rx_mem m n bs) n = 12 + lenZ bs ∧
  slot_flags (rx_mem m n bs) n = mark_used (slot_flags m n) ∧
  (∀ b, 0 ≤ b → ¬ (slot n ≤ b < slot n + vring_desc_size) →
    ¬ (host (slot_addr m n) ≤ b < host (slot_addr m n) + slot_len m n) →
    bget (rx_mem m n bs) b = bget m b).
Proof using All.
  intros Hbuf Hbs Hl32. pose proof Hbuf as (Ho&Hl&Hin&Hoff).
  destruct (slot_bounds ring size Hsize Hring Hfit n) as [Hs0 Hs1].
  pose proof (slot_in_ring ring size Hsize n) as Hsr.
  destruct (rx_filled_slots m n bs n Hbuf Hbs) as (Ef&_&_).
  assert (0 ≤ lenZ bs) by (unfold lenZ; lia).
  unfold rx_mem. set (m3 := rx_filled m n bs) in *.
  set (m4 := set_bytes m3 (slot n + vring_desc_len) _).
  assert (Est4 : store 4 m3 (slot n + vring_desc_len) (12 + lenZ bs) = Ok m4).
  { apply store_ok_iff; [lia|]. rewrite bsize_ram.
    unfold vring_desc_size, vring_desc_len in *. split_and!; lia || done. }
  assert (Ef4 : slot_flags m4 n = slot_flags m n).
  { rewrite <-Ef. enough (Ok (slot_flags m4 n) = Ok (slot_flags m3 n)) as [= ?] by done.
    rewrite <-!(slot_load_flags ring size Hsize Hring Hfit).
    apply (load_store_ne 4 2 _ _ _ _ _ ltac:(lia) Est4). unfold vring_desc_flags, vring_desc_len. lia. }
  rewrite Ef4. set (m5 := set_bytes m4 (slot n + vring_desc_flags) _).
  assert (Est5 : store 2 m4 (slot n + vring_desc_flags) (mark_used (slot_flags m n)) = Ok m5).
  { apply store_ok_iff; [lia|]. rewrite bsize_ram.
    unfold vring_desc_size, vring_desc_flags in *. split_and!; lia || done. }
  assert (Hother : ∀ b, 0 ≤ b → ¬ (slot n ≤ b < slot n + vring_desc_size) → bget m5 b = bget m3 b).
  { intros b Hb Hnb. unfold vring_desc_size in *. subst m5 m4.
    rewrite !bget_set_bytes_out; rewrite ?lenZ_le_bytes, ?bsize_ram by lia;
      unfold vring_desc_flags, vring_desc_len; done || lia. }
  unfold in_ram in Hin. unfold Virtq.off_ring in Hoff. split_and!.
  - rewrite <-(rx_filled_bytes m n bs) by done. apply get_bytes_ext. intros j Hj.
    unfold lenZ in *. apply Hother; lia.
  - enough (Ok (slot_len m5 n) = Ok (12 + lenZ bs)) as [= ?] by done.
    rewrite <-(slot_load_len ring size Hsize Hring Hfit).
    rewrite (load_store_ne 2 4 _ _ _ _ _ ltac:(lia) Est5)
      by (unfold vring_desc_flags, vring_desc_len; lia).
    rewrite (load_store_eq 4 _ _ _ _ ltac:(lia) Est4). f_equal. apply wrap_small.
    change (2 ^ (8 * 4)) with (2 ^ 32). lia.
  - rewrite (store_slot_flags ring size m4 n _ m5 ltac:(lia) Hring (wrap_range 16 _ ltac:(lia)) Est5).
    by rewrite decide_True.
  - intros b Hb Hnb Hnbuf. rewrite Hother by done. subst m3. unfold rx_filled.
    rewrite !bget_set_bytes_out;
      rewrite ?lenZ_le_bytes, ?bsize_ram by lia; change (lenZ (replicate 12 0)) with 12; done || lia.
Qed.

Lemma net_complete_rx_frame s q n frame rest :
  vqs (net s) !! i = Some q → on_ring n q → vdev_ok (net s) → rx_buffer (mem s) n →
  bytes_ok (mem s) → tap_in s = frame :: rest →
  ∃ s' q' isr, virtio_net_complete_request_rx i s = Ok s' ∧ rx_done s n frame s' ∧
    tap_in s' = rest ∧ vqs (net s') !! i = Some q' ∧ advanced (n + 1) q q' ∧ vdev_ok (net s') ∧
    load 4 (vp_config (net s)) off_isr_cap = Ok isr ∧
    load 4 (vp_config (net s')) off_isr_cap = Ok (Z.lor isr VIRTIO_PCI_ISR_QUEUE) ∧
    log s' = log s ∧ irqfd (net s') = irqfd (net s).
Proof using All.
  intros Hq Hr Hok Hbuf Hm Htap. pose proof Hbuf as (Ho&Hl&Hin&Hoff).
  unfold virtio_net_complete_request_rx.
  destruct (net_get_avail_some s q n Hq Hr Ho) as (q'&->&Ha). rewrite bind_Ok.
  change (mem (put_net_vq i q' s)) with (mem s).
  rewrite (slot_load_addr ring size Hsize Hring Hfit), bind_Ok.
  rewrite (guest_to_host_in_ram _ _ Hin). cbn [ptr_off from_option_res]. rewrite bind_Ok.
  assert (Hb : 0 ≤ host (slot_addr (mem s) n) ∧
    host (slot_addr (mem s) n) + slot_len (mem s) n ≤ RAM_SIZE) by (unfold in_ram in Hin; lia).
  set (a := host (slot_addr (mem s) n)) in *.
  change (Z.to_nat sizeof_virtio_net_hdr_v1) with 12%nat.
  rewrite mwrite_ok by (rewrite ?bsize_ram; unfold lenZ; cbn [length replicate]; lia). rewrite bind_Ok.
  unfold store. rewrite mwrite_ok
    by (rewrite ?lenZ_le_bytes, ?bsize_ram; unfold virtio_net_hdr_num_buffers; lia).
  rewrite bind_Ok. unfold virtio_net_hdr_num_buffers, sizeof_virtio_net_hdr_v1.
  assert (H12 : 12 + lenZ (@nil Z) ≤ slot_len (mem s) n) by (change (lenZ (@nil Z)) with 0; lia).
  destruct (rx_filled_slots (mem s) n [] n Hbuf H12) as (_&_&Elen).
  unfold rx_filled in Elen. cbn [set_bytes] in Elen. fold a in Elen.
  match goal with |- context [set_mem ?x (put_net_vq i q' s)] => set (m2 := x) in * end.
  change (mem (set_mem m2 (put_net_vq i q' s))) with m2.
  rewrite (slot_load_len ring size Hsize Hring Hfit), bind_Ok, Elen.
  assert (Hlr : 0 ≤ slot_len (mem s) n < 2 ^ 32).
  { apply (load_range 4 (mem s) (slot n + vring_desc_len)); [done|]. by apply slot_load_len. }
  rewrite (wrap_small 64) by lia. unfold tap_read.
  rewrite (proj2 (Z.leb_gt (2 ^ 63) _)) by lia.
  change (tap_in (set_mem m2 (put_net_vq i q' s))) with (tap_in s). rewrite Htap.
  fold (rx_part (mem s) n frame). set (bs := rx_part (mem s) n frame) in *.
  assert (Hbs : 12 + lenZ bs ≤ slot_len (mem s) n).
  { unfold bs, rx_part, lenZ. rewrite length_take. lia. }
  assert (0 ≤ lenZ bs) by (unfold lenZ; lia).
  change (mem (set_mem m2 (put_net_vq i q' s))) with m2.
  rewrite (mwrite_ok m2) by (rewrite ?bsize_ram; lia). rewrite !bind_Ok.
  change (set_bytes m2 (a + 12) bs) with (rx_filled (mem s) n bs).
  set (m3 := rx_filled (mem s) n bs).
  rewrite (proj2 (Z.ltb_ge _ _)) by lia.
  match goal with |- context [mwrite (mem ?x)] => change (mem x) with m3 end.
  destruct (slot_bounds ring size Hsize Hring Hfit n) as [Hs0 Hs1]. unfold vring_desc_size in Hs1.
  rewrite (mwrite_ok m3)
    by (rewrite ?lenZ_le_bytes, ?bsize_ram; unfold vring_desc_len; lia).
  rewrite bind_Ok. set (s4 := set_mem _ (set_mem m3 _)).
  assert (Hok4 : vdev_ok (net s4)) by (eapply (net_vdev_ok_put s); [done..|apply Ha]).
  destruct (net_return_desc_ok s4 n Hok4) as (c&isr&->&Hok'&Hi0&Hi1).
  match goal with |- context [set_mem ?x (set_net _ _)] =>
    change x with (rx_mem (mem s) n bs) end.
  destruct (rx_mem_spec (mem s) n bs Hbuf Hbs ltac:(lia)) as (Hby&Hle&Hfl&Hot).
  eexists _, q', isr. split; [done|]. split_and!; try done.
  - split; cbn [mem set_mem]; [done|done| |done].
    change (mem (set_mem (rx_mem (mem s) n bs) _)) with (rx_mem (mem s) n bs).
    rewrite Hfl. by apply mark_used_returned.
  - by eapply put_net_vq_lookup.
Qed.

(** ** Transmission *)

(** The bytes of a frame in the buffer of slot [n], behind the header. *)
Definition tx_frame m n : list Z :=
  get_bytes m (host (slot_addr m n) + 12) (Z.to_nat (slot_len m n - 12)).

(** The first outcome [tap_sent] holds. *)
Definition tap_accepts s : bool := match tap_sent s with [] => true | b :: _ => b end.

Definition tx_buffer m n : Prop :=
  offered m n ∧ 12 ≤ slot_len m n ∧ in_ram (slot_addr m n) (slot_len m n).

Lemma net_complete_tx_frame s q n :
  vqs (net s) !! i = Some q → on_ring n q → vdev_ok (net s) → tx_buffer (mem s) n →
  tap_accepts s = true →
  ∃ s' q' isr, virtio_net_complete_request_tx i s = Ok s' ∧
    log s' = log s ++ [EvTapWrite (tx_frame (mem s) n)] ∧
    desc_returned (lap_wrap size n) (slot_flags (mem s') n) ∧
    (∀ b, 0 ≤ b → ¬ (slot n ≤ b < slot n + vring_desc_size) → bget (mem s') b = bget (mem s) b) ∧
    vqs (net s') !! i = Some q' ∧ advanced (n + 1) q q' ∧ vdev_ok (net s') ∧
    load 4 (vp_config (net s)) off_isr_cap = Ok isr ∧
    load 4 (vp_config (net s')) off_isr_cap = Ok (Z.lor isr VIRTIO_PCI_ISR_QUEUE) ∧
    irqfd (net s') = irqfd (net s).
Proof using All.
  intros Hq Hr Hok (Ho&Hl&Hin) Htap. unfold virtio_net_complete_request_tx.
  destruct (net_get_avail_some s q n Hq Hr Ho) as (q'&->&Ha). rewrite bind_Ok.
  change (mem (put_net_vq i q' s)) with (mem s).
  rewrite (slot_load_addr ring size Hsize Hring Hfit), bind_Ok.
  rewrite (slot_load_len ring size Hsize Hring Hfit), bind_Ok.
  unfold sizeof_virtio_net_hdr_v1. rewrite (proj2 (Z.ltb_ge _ _)) by lia.
  rewrite (guest_to_host_in_ram _ _ Hin). unfold in_ram in Hin. unfold tap_write.
  change (tap_sent (put_net_vq i q' s)) with (tap_sent s).
  destruct (match tap_sent s with [] => (true, []) | b :: l => (b, l) end) as [ok rest] eqn:Et.
  assert (ok = true) as -> by (unfold tap_accepts in Htap; destruct (tap_sent s); by simplify_eq).
  match goal with |- context [mread (mem ?x)] => change (mem x) with (mem s) end.
  rewrite (mread_ok (mem s)) by (rewrite ?bsize_ram; lia). rewrite !bind_Ok.
  fold (tx_frame (mem s) n). rewrite (proj2 (Z.ltb_ge _ _)) by lia.
  set (s1 := emit_vm _ _).
  assert (Hok1 : vdev_ok (net s1)) by (eapply (net_vdev_ok_put s); [done..|apply Ha]).
  destruct (net_return_desc_ok s1 n Hok1) as (c&isr&->&Hok'&Hi0&Hi1).
  destruct (slot_bounds ring size Hsize Hring Hfit n) as [Hs0 Hs1].
  match goal with |- context [set_mem ?x (set_net _ _)] => set (m' := x) end.
  assert (Est : store 2 (mem s) (slot n + vring_desc_flags) (mark_used (slot_flags (mem s) n)) = Ok m').
  { apply store_ok_iff; [lia|]. rewrite bsize_ram.
    unfold vring_desc_size, vring_desc_flags in *. split_and!; lia || done. }
  eexists _, q', isr. split; [done|]. split_and!; try done.
  - change (desc_returned (lap_wrap size n) (slot_flags m' n)).
    rewrite (store_slot_flags ring size (mem s) n _ m' ltac:(lia) Hring (wrap_range 16 _ ltac:(lia)) Est).
    rewrite decide_True by done. by apply mark_used_returned.
  - intros b Hb Hnb. change (bget m' b = bget (mem s) b). subst m'.
    unfold vring_desc_size, vring_desc_flags in *.
    apply bget_set_bytes_out; rewrite ?lenZ_le_bytes, ?bsize_ram; lia.
  - by eapply put_net_vq_lookup.
Qed.

(** ** A descriptor that is taken and not given back *)

Lemma set_guest_event_ok s q g flags :
  vqs (net s) !! i = Some q → guest_event q = Some g → 0 ≤ g → g + 4 ≤ RAM_SIZE →
  set_guest_event i flags s =
    Ok (set_mem (set_bytes (mem s) (g + vring_event_flags) (le_bytes 2 flags)) s).
Proof.
  intros Hq Hg H0 H4. unfold set_guest_event, net_vq. rewrite Hq. cbn [from_option_res].
  rewrite bind_Ok. unfold pstore, store. rewrite Hg. cbn [ptr_off from_option_res]. rewrite bind_Ok.
  rewrite mwrite_ok; [done|unfold vring_event_flags; lia|].
  rewrite lenZ_le_bytes, bsize_ram by lia. unfold vring_event_flags. lia.
Qed.

(** The event area lies outside the ring. *)
Definition event_off_ring g : Prop :=
  0 ≤ g ∧ g + 4 ≤ RAM_SIZE ∧ off_ring ring size (g + vring_event_flags) 2.

Lemma event_store_flags m g flags k :
  event_off_ring g →
  slot_flags (set_bytes m (g + vring_event_flags) (le_bytes 2 flags)) k = slot_flags m k.
Proof using Hring Hsize.
  clear Hfit. intros (H0&H4&Hoff). unfold vring_event_flags in *.
  apply (slots_outside ring size Hsize Hring); rewrite ?lenZ_le_bytes; done || lia.
Qed.

Lemma net_tx_failure s q n g :
  vqs (net s) !! i = Some q → on_ring n q → tx_buffer (mem s) n → guest_event q = Some g →
  event_off_ring g → tap_accepts s = false →
  ∃ s' q', virtio_net_complete_request_tx i s = Ok s' ∧
    vqs (net s') !! i = Some q' ∧ advanced (n + 1) q q' ∧
    slot_flags (mem s') n = slot_flags (mem s) n ∧ log s' = log s.
Proof using All.
  intros Hq Hr (Ho&Hl&Hin) Hg Hev Htap. unfold virtio_net_complete_request_tx.
  destruct (net_get_avail_some s q n Hq Hr Ho) as (q'&->&Ha). rewrite bind_Ok.
  change (mem (put_net_vq i q' s)) with (mem s).
  rewrite (slot_load_addr ring size Hsize Hring Hfit), bind_Ok.
  rewrite (slot_load_len ring size Hsize Hring Hfit), bind_Ok.
  unfold sizeof_virtio_net_hdr_v1. rewrite (proj2 (Z.ltb_ge _ _)) by lia.
  rewrite (guest_to_host_in_ram _ _ Hin). unfold tap_write.
  change (tap_sent (put_net_vq i q' s)) with (tap_sent s).
  destruct (match tap_sent s with [] => (true, []) | b :: l => (b, l) end) as [ok rest] eqn:Et.
  assert (ok = false) as -> by (unfold tap_accepts in Htap; destruct (tap_sent s); by simplify_eq).
  rewrite bind_Ok. change (-1 <? 0) with true. cbv iota.
  pose proof Hev as (H0&H4&_). destruct Ha as (Hon&Hi&Hg'&Hd').
  rewrite (set_guest_event_ok _ q' g); [|by eapply (put_net_vq_lookup s)|congruence|done|done].
  eexists _, q'. split; [done|]. split_and!; try done.
  - by eapply (put_net_vq_lookup s).
  - by apply event_store_flags.
Qed.

Lemma net_rx_empty s q n g :
  vqs (net s) !! i = Some q → on_ring n q → rx_buffer (mem s) n → bytes_ok (mem s) →
  guest_event q = Some g → event_off_ring g → tap_in s = [] →
  ∃ s' q', virtio_net_complete_request_rx i s = Ok s' ∧
    vqs (net s') !! i = Some q' ∧ advanced (n + 1) q q' ∧
    slot_flags (mem s') n = slot_flags (mem s) n ∧ log s' = log s.
Proof using All.
  intros Hq Hr Hbuf Hm Hg Hev Htap. pose proof Hbuf as (Ho&Hl&Hin&Hoff).
  unfold virtio_net_complete_request_rx.
  destruct (net_get_avail_some s q n Hq Hr Ho) as (q'&->&Ha). rewrite bind_Ok.
  change (mem (put_net_vq i q' s)) with (mem s).
  rewrite (slot_load_addr ring size Hsize Hring Hfit), bind_Ok.
  rewrite (guest_to_host_in_ram _ _ Hin). cbn [ptr_off from_option_res]. rewrite bind_Ok.
  unfold in_ram in Hin. change (Z.to_nat sizeof_virtio_net_hdr_v1) with 12%nat.
  rewrite mwrite_ok by (rewrite ?bsize_ram; unfold lenZ; cbn [length replicate]; lia). rewrite bind_Ok.
  unfold store. rewrite mwrite_ok
    by (rewrite ?lenZ_le_bytes, ?bsize_ram; unfold virtio_net_hdr_num_buffers; lia).
  rewrite bind_Ok. unfold virtio_net_hdr_num_buffers, sizeof_virtio_net_hdr_v1.
  assert (H12 : 12 + lenZ (@nil Z) ≤ slot_len (mem s) n) by (change (lenZ (@nil Z)) with 0; lia).
  destruct (rx_filled_slots (mem s) n [] n Hbuf H12) as (Ef&_&Elen).
  unfold rx_filled in Elen, Ef. cbn [set_bytes] in Elen, Ef.
  match goal with |- context [set_mem ?x (put_net_vq i q' s)] => set (m2 := x) in * end.
  change (mem (set_mem m2 (put_net_vq i q' s))) with m2.
  rewrite (slot_load_len ring size Hsize Hring Hfit), bind_Ok, Elen. unfold tap_read.
  change (tap_in (set_mem m2 (put_net_vq i q' s))) with (tap_in s). rewrite Htap.
  match goal with |- context [if ?b then Ok (?x, -1) else Ok (?x, -1)] =>
    replace (if b then Ok (x, -1) else Ok (x, -1)) with (Ok (x, -1)) by (by destruct b) end.
  rewrite bind_Ok. change (-1 <? 0) with true. cbv iota.
  pose proof Hev as (H0&H4&_). destruct Ha as (Hon&Hi&Hg'&Hd').
  rewrite (set_guest_event_ok _ q' g); [|by eapply (put_net_vq_lookup s)|congruence|done|done].
  eexists _, q'. split; [done|]. split_and!; try done.
  - by eapply (put_net_vq_lookup s).
  - rewrite <-Ef. by apply event_store_flags.
Qed.
End net_ring.

(** The notification after a request was completed. *)
Lemma net_handle_avail {F} `{Arch} i (s s1 : vm_t F) q q1 g :
  vdev_ok (net s) → vdev_ok (net s1) → vqs (net s) !! i = Some q → info_enable q ≠ 0 →
  complete_request (VirtqOps := virtio_net_ops) i s = Ok s1 → vqs (net s1) !! i = Some q1 →
  guest_event q1 = Some g → 0 ≤ g → g + 4 ≤ RAM_SIZE →
  ∃ flags, load 2 (mem s1) (g + vring_event_flags) = Ok flags ∧
    virtq_handle_avail (H := virtio_net_ops) i s =
      Ok (if flags =? VRING_PACKED_EVENT_FLAG_ENABLE
          then emit_vm (EvEventfdWrite (irqfd (net s1)) 1) s1 else s1).
Proof.
  intros Hok Hok1 Hq He E1 Hq1 Hg Hg0 Hg1.
  assert (Hfl : ∃ flags, load 2 (mem s1) (g + vring_event_flags) = Ok flags).
  { eexists. apply load_ok_iff. unfold vring_event_flags. rewrite bsize_ram. split_and!; lia || done. }
  destruct Hfl as [flags Hfl]. exists flags. split; [done|].
  unfold virtq_handle_avail, virtq_complete_request, virtq_notify_used. rewrite E1.
  cbn [vq_at virtio_net_ops notify_used vq_ram].
  unfold dev_vq. rewrite (ok_array _ Hok), Hq. cbn [from_option_res]. rewrite !bind_Ok.
  rewrite (proj2 (Z.eqb_neq _ _) He), (ok_array _ Hok1), Hq1.
  cbn [from_option_res]. rewrite !bind_Ok. unfold pload. rewrite Hg.
  cbn [ptr_off from_option_res]. rewrite !bind_Ok, Hfl, bind_Ok.
  by destruct (flags =? VRING_PACKED_EVENT_FLAG_ENABLE), (decide (i = VIRTQ_RX)).
Qed.

(** C12: a waiting frame is delivered to the guest. With a buffer offered on the
    enabled receive queue and a frame waiting in the TAP device, the handler puts
    the virtio header and as much of the frame as fits into the buffer, sets the
    descriptor's length to the bytes used, returns it, sets the interrupt status,
    takes the frame from the TAP device and leaves the rest of guest memory alone;
    it sends an interrupt exactly when the event flags are ENABLE. *)
Theorem virtio_net_rx_delivers `{Arch} {F} ring size (s : vm_t F) q n frame rest g :
  1 ≤ size < 65536 → 0 ≤ ring → ring + vring_desc_size * size ≤ RAM_SIZE →
  vqs (net s) !! VIRTQ_RX = Some q → on_ring ring size n q → info_enable q ≠ 0 →
  vdev_ok (net s) → bytes_ok (mem s) → rx_buffer ring size (mem s) n →
  tap_in s = frame :: rest → guest_event q = Some g → 0 ≤ g → g + 4 ≤ RAM_SIZE →
  ∃ s' isr flags, virtq_handle_avail (H := virtio_net_ops) VIRTQ_RX s = Ok s' ∧
    rx_done ring size s n frame s' ∧ tap_in s' = rest ∧
    (∃ q', vqs (net s') !! VIRTQ_RX = Some q' ∧ on_ring ring size (n + 1) q') ∧ vdev_ok (net s') ∧
    load 4 (vp_config (net s)) off_isr_cap = Ok isr ∧
    load 4 (vp_config (net s')) off_isr_cap = Ok (Z.lor isr VIRTIO_PCI_ISR_QUEUE) ∧
    load 2 (mem s') (g + vring_event_flags) = Ok flags ∧
    log s' = log s ++ (if flags =? VRING_PACKED_EVENT_FLAG_ENABLE
                       then [EvEventfdWrite (irqfd (net s)) 1] else []).
Proof.
  intros Hs Hr Hf Hq Hon He Hok Hm Hbuf Htap Hg Hg0 Hg1.
  destruct (net_complete_rx_frame VIRTQ_RX ring size Hs Hr Hf s q n frame rest Hq Hon Hok Hbuf Hm Htap)
    as (s1&q1&isr&E1&Hdone&Htap1&Hq1&(Hon1&Hi1&Hg1'&_)&Hok1&Hi0&Hi1'&Hlog&Hirq).
  destruct (net_handle_avail VIRTQ_RX s s1 q q1 g) as (flags&Hfl&Hrun); try done; [congruence|].
  exists (if flags =? VRING_PACKED_EVENT_FLAG_ENABLE
          then emit_vm (EvEventfdWrite (irqfd (net s1)) 1) s1 else s1), isr, flags.
  split; [done|]. rewrite <-Hirq, <-Hlog.
  destruct (flags =? VRING_PACKED_EVENT_FLAG_ENABLE); split_and!; try done;
    try (by exists q1); try (by rewrite app_nil_r). by destruct Hdone.
Qed.

(** C13: an offered frame is transmitted. With a buffer of at least a header on the
    enabled transmit queue and a TAP device that accepts it, the handler sends
    exactly the bytes behind the virtio header, returns the descriptor, sets the
    interrupt status and changes no other byte of guest memory; it sends an
    interrupt exactly when the event flags are ENABLE. *)
Theorem virtio_net_tx_sends `{Arch} {F} ring size (s : vm_t F) q n g :
  1 ≤ size < 65536 → 0 ≤ ring → ring + vring_desc_size * size ≤ RAM_SIZE →
  vqs (net s) !! VIRTQ_TX = Some q → on_ring ring size n q → info_enable q ≠ 0 →
  vdev_ok (net s) → tx_buffer ring size (mem s) n → tap_accepts s = true →
  guest_event q = Some g → 0 ≤ g → g + 4 ≤ RAM_SIZE →
  ∃ s' isr flags, virtq_handle_avail (H := virtio_net_ops) VIRTQ_TX s = Ok s' ∧
    desc_returned (lap_wrap size n) (slot_flags ring size (mem s') n) ∧
    (∀ b, 0 ≤ b → ¬ (slot ring size n ≤ b < slot ring size n + vring_desc_size) →
      bget (mem s') b = bget (mem s) b) ∧
    (∃ q', vqs (net s') !! VIRTQ_TX = Some q' ∧ on_ring ring size (n + 1) q') ∧ vdev_ok (net s') ∧
    load 4 (vp_config (net s)) off_isr_cap = Ok isr ∧
    load 4 (vp_config (net s')) off_isr_cap = Ok (Z.lor isr VIRTIO_PCI_ISR_QUEUE) ∧
    load 2 (mem s') (g + vring_event_flags) = Ok flags ∧
    log s' = log s ++ EvTapWrite (tx_frame ring size (mem s) n) ::
      (if flags =? VRING_PACKED_EVENT_FLAG_ENABLE
       then [EvEventfdWrite (irqfd (net s)) 1] else []).
Proof.
  intros Hs Hr Hf Hq Hon He Hok Hbuf Htap Hg Hg0 Hg1.
  destruct (net_complete_tx_frame VIRTQ_TX ring size Hs Hr Hf s q n Hq Hon Hok Hbuf Htap)
    as (s1&q1&isr&E1&Hlog&Hret&Hother&Hq1&(Hon1&Hi1&Hg1'&_)&Hok1&Hi0&Hi1'&Hirq).
  destruct (net_handle_avail VIRTQ_TX s s1 q q1 g) as (flags&Hfl&Hrun); try done; [congruence|].
  exists (if flags =? VRING_PACKED_EVENT_FLAG_ENABLE
          then emit_vm (EvEventfdWrite (irqfd (net s1)) 1) s1 else s1), isr, flags.
  split; [done|]. rewrite <-Hirq.
  destruct (flags =? VRING_PACKED_EVENT_FLAG_ENABLE); split_and!; try done; try (by exists q1).
  cbn. by rewrite Hlog, <-app_assoc.
Qed.

(** C35: a descriptor can be lost. When the TAP device has no frame to receive, or
    refuses the one to send, the handler returns after having taken the
    descriptor: the queue stands behind it, its flags are as the driver wrote
    them, so it is not returned, and it will not be looked at again in this lap:
    buffer and frame are gone. *)
Theorem virtio_net_descriptor_lost `{Arch} {F} ring size (s : vm_t F) q n g :
  1 ≤ size < 65536 → 0 ≤ ring → ring + vring_desc_size * size ≤ RAM_SIZE →
  on_ring ring size n q → guest_event q = Some g → event_off_ring ring size g →
  let lost i s' := ∃ q', vqs (net s') !! i = Some q' ∧ on_ring ring size (n + 1) q' ∧
    ¬ desc_returned (lap_wrap size n) (slot_flags ring size (mem s') n) ∧ log s' = log s in
  (vqs (net s) !! VIRTQ_RX = Some q → rx_buffer ring size (mem s) n → bytes_ok (mem s) →
    tap_in s = [] → ∃ s', virtio_net_complete_request_rx VIRTQ_RX s = Ok s' ∧ lost VIRTQ_RX s') ∧
  (vqs (net s) !! VIRTQ_TX = Some q → tx_buffer ring size (mem s) n →
    tap_accepts s = false → ∃ s', virtio_net_complete_request_tx VIRTQ_TX s = Ok s' ∧ lost VIRTQ_TX s').
Proof.
  intros Hs Hr Hf Hon Hg Hev lost.
  assert (Hno : ∀ m m', offered ring size m n → slot_flags ring size m' n = slot_flags ring size m n →
    ¬ desc_returned (lap_wrap size n) (slot_flags ring size m' n)).
  { intros m m' [_ Ho] -> [_ Hret]. rewrite Ho in Hret. by destruct (lap_wrap size n). }
  split.
  - intros Hq Hbuf Hm Htap.
    destruct (net_rx_empty VIRTQ_RX ring size Hs Hr Hf s q n g) as (s'&q'&E&Hq'&Ha&Hfl&Hlog); try done.
    exists s'. split; [done|]. exists q'. split_and!; try done; [apply Ha|].
    by eapply Hno; [apply Hbuf|].
  - intros Hq Hbuf Htap.
    destruct (net_tx_failure VIRTQ_TX ring size Hs Hr Hf s q n g) as (s'&q'&E&Hq'&Ha&Hfl&Hlog); try done.
    exists s'. split; [done|]. exists q'. split_and!; try done; [apply Ha|].
    by eapply Hno; [apply Hbuf|].
Qed.

(** * Set-up *)

(** What [virtio_net_init_pci] does to the device after [virtio_pci_init]. *)
Definition net_finish_dev (d : vdev) : res vdev :=
  d ← virtio_pci_set_dev_cfg sizeof_virtio_net_config d;
  d ← virtio_pci_set_pci_hdr VIRTIO_PCI_DEVICE_ID_NET VIRTIO_NET_PCI_CLASS (irq_num d) d;
  cap ← ptr_off (notify_cap d);
  d ← set_hdr 4 (cap + notify_off_multiplier_off) NOTIFY_OFFSET d;
  virtio_pci_set_virtq VIRTIO_NET_VIRTQ_NUM d.

Definition net_cfg : list Z :=
  Eval vm_compute in
    match net_finish_dev (set_irq_num VIRTIO_NET_IRQ (set_vqs [demo_queue; demo_queue] demo_vdev)) with
    | Ok d => cfg_space (vd_pci d)
    | Fault _ => []
    end.

Lemma net_finish_dev_cfg pci_tail f gf vset dc addr queues irq fds en :
  ∃ c, net_finish_dev (mkVdev (mkPciDev init_cfg pci_tail (replicate 6 false) (replicate 6 false))
      (replicate (Z.to_nat sizeof_virtio_pci_config) 0) f gf (Some 0x50) (Some 0x74) vset
      dc addr queues irq fds VIRTIO_NET_IRQ en) =
    Ok (mkVdev (mkPciDev net_cfg pci_tail (replicate 6 false) (replicate 6 false))
      c f gf (Some 0x50) (Some 0x74) true dc addr queues irq fds VIRTIO_NET_IRQ en).
Proof. eexists. reflexivity. Qed.

Lemma info_field_load off k q v :
  load (Z.of_nat k) (info q) off = Ok v → info_field off k q = v.
Proof. intros (_&_&_&->)%load_ok_iff. by rewrite Nat2Z.id. Qed.

Lemma net_init_vq_ok i q :
  virtq_ok q → Z.of_nat i < 65536 →
  virtq_ok (net_init_vq i q) ∧ info_notify_off (net_init_vq i q) = Z.of_nat i ∧
  info_size (net_init_vq i q) = VIRTQ_SIZE ∧ info_enable (net_init_vq i q) = 0.
Proof.
  intros [Hl Hb] Hi. unfold sizeof_virtq_info in Hl. unfold net_init_vq.
  set (q1 := set_info_field 6 2 (Z.of_nat i) q).
  assert (Hst1 : store 2 (info q) 6 (Z.of_nat i) = Ok (info q1)).
  { apply store_ok_iff; [lia|]. rewrite bsize_list. split_and!; lia || done. }
  assert (Hq1 : virtq_ok q1).
  { split; [cbn; by rewrite lenZ_set_bytes|].
    apply (bytes_ok_store 2 (info q) 6 (Z.of_nat i) _ ltac:(lia)); done. }
  destruct (virtq_init_ok q1 Hq1) as (Hok&Hs&He). split_and!; [done| |done|done].
  apply info_field_load. change (Z.of_nat 2) with 2. pose proof Hq1 as [Hl1 _].
  unfold sizeof_virtq_info in Hl1. unfold virtq_init, set_info_field, set_info, set_position.
  cbn [info]. set (a := set_bytes (info q1) 0 (le_bytes 2 VIRTQ_SIZE)).
  assert (Hst2 : store 2 (info q1) 0 VIRTQ_SIZE = Ok a).
  { apply store_ok_iff; [lia|]. rewrite bsize_list. split_and!; lia || done. }
  assert (Hst3 : store 2 a 4 0 = Ok (set_bytes a 4 (le_bytes 2 0))).
  { apply store_ok_iff; [lia|]. unfold a. rewrite bsize_list, lenZ_set_bytes. split_and!; lia || done. }
  rewrite (load_store_ne 2 2 _ _ 6 _ _ ltac:(lia) Hst3) by lia.
  rewrite (load_store_ne 2 2 _ _ 6 _ _ ltac:(lia) Hst2) by lia.
  rewrite (load_store_eq 2 _ _ _ _ ltac:(lia) Hst1). f_equal. apply wrap_small.
  change (0 ≤ Z.of_nat i < 65536). lia.
Qed.

(** The notification address of a queue, wherever BAR 0 has been placed. *)
Lemma net_notify_addr d q b cfg' i :
  cfg_space (vd_pci d) = net_cfg → notify_cap d = Some 0x50 → info_notify_off q = i →
  0 ≤ i < 65536 → 0 ≤ b < 2 ^ 32 → store 4 net_cfg (PCI_BAR_OFFSET 0) b = Ok cfg' →
  virtio_pci_get_notify_addr (set_vd_pci (set_cfg_space cfg' (vd_pci d)) d) q =
    Ok (b + off_notify_data + NOTIFY_OFFSET * i).
Proof.
  intros Hcfg Hcap Hno Hi Hb Hst. unfold virtio_pci_get_notify_addr.
  cbn [notify_cap set_vd_pci vd_pci cfg_space set_cfg_space]. rewrite Hcap.
  cbn [ptr_off from_option_res]. rewrite bind_Ok.
  assert (Hk : ∀ k off, PCI_BAR_OFFSET 0 + 4 ≤ off → load k cfg' off = load k net_cfg off).
  { intros k off Ho. apply (load_store_ne 4 k _ _ off _ _ ltac:(lia) Hst). lia. }
  rewrite !Hk by (by vm_compute).
  change (load 1 net_cfg (0x50 + cap_bar_off)) with (Ok 0 : res Z). rewrite bind_Ok.
  change (Z.to_nat 0) with 0%nat. rewrite (load_store_eq 4 _ _ _ _ ltac:(lia) Hst), bind_Ok.
  change (load 4 net_cfg (0x50 + cap_offset_off)) with (Ok 60 : res Z). rewrite bind_Ok.
  change (load 4 net_cfg (0x50 + notify_off_multiplier_off)) with (Ok 2 : res Z). rewrite bind_Ok.
  rewrite Hno. change (8 * 4) with 32. unfold off_notify_data, NOTIFY_OFFSET.
  rewrite !(wrap_small 32) by lia. rewrite wrap_small by lia. f_equal. lia.
Qed.

(** C36: the set-up of the network device. It leaves a well-formed device that is
    consistent with its configuration space and on the PCI bus, whose two queues
    are notified at addresses of their own behind BAR 0, wherever the guest places
    it. The multiqueue feature is added as the bit number 22 instead of the bit:
    the device offers bits 1, 2 and 4 and not bit 22. *)
Theorem virtio_net_setup_ok `{Arch} {F} rx_fd tx_fd irqfd_ (s : vm_t F) L q0 q1 :
  bus_lists (vm_buses s) L → (∀ j id, PSpace VirtioNet j ∉ L id) →
  (∀ id, PConfig VirtioNet ∉ L id) → 0 ≤ dev_config_addr (net s) < 2 ^ 64 →
  vqs (net s) = [q0; q1] → virtq_ok q0 → virtq_ok q1 →
  ∃ s', virtio_net_init_pci rx_fd tx_fd irqfd_ s = Ok s' ∧ vdev_ok (net s') ∧
    pci_consistent VirtioNet (net s') (vm_buses s') (<[PciBus := PConfig VirtioNet :: L PciBus]> L) ∧
    (∀ i q b cfg', vqs (net s') !! i = Some q → 0 ≤ b < 2 ^ 32 →
      store 4 (cfg_space (vd_pci (net s'))) (PCI_BAR_OFFSET 0) b = Ok cfg' →
      virtio_pci_get_notify_addr (set_vd_pci (set_cfg_space cfg' (vd_pci (net s'))) (net s')) q =
        Ok (b + off_notify_data + NOTIFY_OFFSET * Z.of_nat i)) ∧
    Z.testbit (device_feature (net s')) VIRTIO_NET_F_MQ = false ∧
    Forall (λ bit, Z.testbit (device_feature (net s')) bit = true)
      [1; 2; 4; VIRTIO_F_VERSION_1; VIRTIO_F_RING_PACKED].
Proof.
  intros HL Hsp Hcf Ha Hvq Hq0 Hq1. unfold virtio_net_init_pci.
  set (s0 := virtio_net_setup rx_fd tx_fd irqfd_ s).
  destruct (net_init_vq_ok 0 q0 Hq0 ltac:(lia)) as (Hv0&Hn0&_).
  destruct (net_init_vq_ok 1 q1 Hq1 ltac:(lia)) as (Hv1&Hn1&_).
  assert (Hvq0 : vqs (net s0) = [net_init_vq 0 q0; net_init_vq 1 q1]) by (cbn; by rewrite Hvq).
  destruct (virtio_pci_init_ok VirtioNet (net s0) (vm_buses s) L HL Hsp Hcf)
    as (d1&B1&E1&Hc1&[Hz [Hn Hcap] [Hft _] (Hdc&Haddr&Hq&_)]&_).
  change (vm_buses s0) with (vm_buses s). rewrite E1, bind_Ok.
  destruct (set_dev_cfg_consistent VirtioNet d1 B1 L sizeof_virtio_net_config Hc1 Hz Hcap)
    as (c&pd&E2&Hts&Hc2); [by rewrite Haddr| |].
  { rewrite Hq, Hvq0. apply Forall_cons. split; [done|by apply Forall_singleton]. }
  destruct (set_pci_hdr_consistent VirtioNet _ B1 L VIRTIO_PCI_DEVICE_ID_NET VIRTIO_NET_PCI_CLASS
    (irq_num (set_vd_pci pd (set_vp_config c d1))) Hc2) as (pd2&E3&Hc3).
  destruct (set_hdr_consistent VirtioNet _ B1 L 4 (0x50 + notify_off_multiplier_off) NOTIFY_OFFSET Hc3)
    as (pd3&E4&Hc4); [unfold hdr_range; vm_compute; intuition congruence|].
  set (d3 := set_vd_pci pd3 _) in *.
  assert (Hts3 : transport_set d3) by (by destruct Hts; split).
  destruct (set_virtq_ok VIRTIO_NET_VIRTQ_NUM d3 Hts3) as (c4&E5&Hok4);
    [cbn; by rewrite Hq, Hvq0|done|].
  destruct (pci_register_inv VirtioNet pd3 B1 L (proj1 Hc4) (proj2 Hc4) Hcf) as (B2&E6&Hi6&Hs6&_).
  assert (Hcfg : cfg_space pd3 = net_cfg).
  { rewrite virtio_pci_init_eq in E1. injection E1 as Ed1 _.
    assert (Efin : net_finish_dev d1 = Ok (set_vq_set true (set_vp_config c4 d3))).
    { unfold net_finish_dev. rewrite E2, bind_Ok, E3, bind_Ok.
      cbn [notify_cap set_vd_pci set_vp_config]. rewrite Hn. cbn [ptr_off from_option_res].
      by rewrite bind_Ok, E4, bind_Ok. }
    rewrite <-Ed1 in Efin.
    edestruct net_finish_dev_cfg as [c' Ecfg].
    rewrite Ecfg in Efin. injection Efin as <-. done. }
  rewrite E2, bind_Ok, E3, bind_Ok. cbn [notify_cap set_vd_pci set_vp_config]. rewrite Hn.
  cbn [ptr_off from_option_res]. rewrite bind_Ok, E4, bind_Ok, E5, bind_Ok.
  unfold virtio_pci_enable. rewrite E6, bind_Ok. eexists; split; [done|].
  cbn [net set_net set_vm_buses vm_buses].
  assert (Hfeat : device_feature (virtio_pci_add_feature VIRTIO_NET_F_MQ
    (set_vq_set true (set_vp_config c4 d3))) = Z.lor init_features VIRTIO_NET_F_MQ).
  { cbn. by rewrite Hft. }
  split; [by apply vdev_ok_set_feature|]. split; [by split|]. split_and!.
  - intros i q b cfg' Hi Hb. change (cfg_space (vd_pci (virtio_pci_add_feature VIRTIO_NET_F_MQ
      (set_vq_set true (set_vp_config c4 d3))))) with (cfg_space pd3). rewrite Hcfg. intros Hst.
    change (vqs d1 !! i = Some q) in Hi. rewrite Hq, Hvq0 in Hi.
    apply net_notify_addr; [exact Hcfg|exact Hn| | |exact Hb|exact Hst];
      (destruct i as [|[|i]]; [injection Hi as <-|injection Hi as <-|discriminate Hi]);
      first [exact Hn0|exact Hn1|lia].
  - by rewrite Hfeat.
  - rewrite Hfeat. repeat constructor.
Qed.


(** ** Witnesses: queues of four descriptors at 0x1000, a buffer at 0x3000 *)

Definition demo_net_ram (len flags : Z) : ram :=
  set_bytes ram_zero 0x1000 (le_bytes 8 0x3000 ++ le_bytes 4 len ++ le_bytes 2 0 ++ le_bytes 2 flags).

Definition demo_net_dev : vdev :=
  mkVdev (vd_pci demo_vdev)
    (replicate 18 0 ++ le_bytes 2 2 ++ replicate 44 0 ++ le_bytes 8 0x1000)
    init_features 0 (Some 0x50) (Some 0x74) true (replicate 10 0) 0x1000
    [demo_blk_queue; demo_blk_queue] 7 [5; 6] 14 true.

Definition demo_net_vm (m : ram) (frames : list (list Z)) (accepts : list bool) : vm_t reg_file :=
  mkVm m (mkBuses ∅ bus_init bus_init bus_init) 0 Serial.serial_dev_priv demo_vdev demo_net_dev
    None frames accepts [].

Lemma demo_net_dev_ok : vdev_ok demo_net_dev.
Proof.
  split; try (vm_compute; reflexivity); [by apply bytes_ok_check|].
  apply Forall_cons. split; [|apply Forall_singleton];
    (split; [done|by apply bytes_ok_check]).
Qed.

Lemma demo_net_ram_ok len flags : bytes_ok (demo_net_ram len flags).
Proof.
  unfold demo_net_ram. apply bytes_ok_set; [apply ram_bytes_ok_zero|..];
    try (vm_compute; congruence); rewrite ?Forall_app; split_and!; by apply le_bytes_ok.
Qed.

Lemma virtio_net_rx_delivers_witness :
  ∃ s', virtq_handle_avail (H := virtio_net_ops (H := x86)) VIRTQ_RX
      (demo_net_vm (demo_net_ram 64 0x82) [[1; 2; 3]] []) = Ok s' ∧
    tap_in s' = [] ∧ get_bytes (mem s') 0x300c 3 = [1; 2; 3].
Proof.
  destruct (virtio_net_rx_delivers (H := x86) 0x1000 4
    (demo_net_vm (demo_net_ram 64 0x82) [[1; 2; 3]] []) demo_blk_queue 0 [1; 2; 3] [] 0x2004)
    as (s'&isr&flags&Hrun&_&Htap&_).
  - lia.
  - lia.
  - vm_compute; congruence.
  - reflexivity.
  - apply demo_queue_on_ring.
  - vm_compute; congruence.
  - apply demo_net_dev_ok.
  - apply demo_net_ram_ok.
  - vm_compute; intuition congruence.
  - reflexivity.
  - reflexivity.
  - lia.
  - vm_compute; congruence.
  - exists s'. split_and!; [exact Hrun|exact Htap|].
    assert (H : from_option (λ m, get_bytes m 0x300c 3 = [1; 2; 3]) False
      (match virtq_handle_avail (H := virtio_net_ops (H := x86)) VIRTQ_RX
        (demo_net_vm (demo_net_ram 64 0x82) [[1; 2; 3]] []) with Ok s => Some (mem s) | _ => None end))
      by (vm_compute; reflexivity).
    rewrite Hrun in H. exact H.
Defined.

Lemma virtio_net_tx_sends_witness :
  ∃ s', virtq_handle_avail (H := virtio_net_ops (H := x86)) VIRTQ_TX
      (demo_net_vm (demo_net_ram 15 0x80) [] [true]) = Ok s' ∧
    desc_returned true (slot_flags 0x1000 4 (mem s') 0).
Proof.
  destruct (virtio_net_tx_sends (H := x86) 0x1000 4
    (demo_net_vm (demo_net_ram 15 0x80) [] [true]) demo_blk_queue 0 0x2004)
    as (s'&isr&flags&Hrun&Hret&_).
  - lia.
  - lia.
  - vm_compute; congruence.
  - reflexivity.
  - apply demo_queue_on_ring.
  - vm_compute; congruence.
  - apply demo_net_dev_ok.
  - vm_compute; intuition congruence.
  - reflexivity.
  - reflexivity.
  - lia.
  - vm_compute; congruence.
  - exists s'. split; [exact Hrun|exact Hret].
Defined.

Lemma virtio_net_descriptor_lost_witness :
  (∃ s', virtio_net_complete_request_rx (H := x86) VIRTQ_RX
    (demo_net_vm (demo_net_ram 64 0x82) [] []) = Ok s') ∧
  (∃ s', virtio_net_complete_request_tx (H := x86) VIRTQ_TX
    (demo_net_vm (demo_net_ram 64 0x82) [] [false]) = Ok s').
Proof.
  split.
  - destruct (virtio_net_descriptor_lost (H := x86) 0x1000 4
      (demo_net_vm (demo_net_ram 64 0x82) [] []) demo_blk_queue 0 0x2004) as [Hrx _].
    + lia.
    + lia.
    + vm_compute; congruence.
    + apply demo_queue_on_ring.
    + reflexivity.
    + vm_compute; intuition congruence.
    + destruct Hrx as (s'&E&_); [reflexivity|vm_compute; intuition congruence|
        apply demo_net_ram_ok|reflexivity|]. by exists s'.
  - destruct (virtio_net_descriptor_lost (H := x86) 0x1000 4
      (demo_net_vm (demo_net_ram 64 0x82) [] [false]) demo_blk_queue 0 0x2004) as [_ Htx].
    + lia.
    + lia.
    + vm_compute; congruence.
    + apply demo_queue_on_ring.
    + reflexivity.
    + vm_compute; intuition congruence.
    + destruct Htx as (s'&E&_); [reflexivity|vm_compute; intuition congruence|reflexivity|].
      by exists s'.
Defined.

Lemma virtio_net_setup_ok_witness :
  ∃ s', virtio_net_init_pci 5 6 7 (virtio_net_init true true true demo_fresh_vm).1 = Ok s' ∧
    vdev_ok (net s').
Proof.
  destruct (virtio_net_setup_ok (H := x86) 5 6 7
    (virtio_net_init true true true demo_fresh_vm).1 (λ _, []) zero_virtq zero_virtq)
    as (s'&Hrun&Hok&_).
  - apply (set_devs_frame (vm_buses demo_fresh_vm) (λ _, [])).
    + apply (set_devs_frame demo_buses (λ _, [])); [apply demo_lists|].
      by intros q id ?%not_elem_of_nil.
    + by intros q id ?%not_elem_of_nil.
  - intros j id. apply not_elem_of_nil.
  - intros id. apply not_elem_of_nil.
  - vm_compute; intuition congruence.
  - reflexivity.
  - split; [done|by apply bytes_ok_check].
  - split; [done|by apply bytes_ok_check].
  - exists s'. by split.
Defined.
