(* ===== verification/Vm.v ===== *)
(** * The machine at run time (src/vm.c, and the bus callbacks of src/serial.c,
      src/pci.c, src/virtio-pci.c and src/arch/arm64/vm.c put together)

    [run_callback] is the indirect call [dev->do_io(dev->owner, ...)]: the owner
    and function stored in a node select the handler and the part of the machine
    it works on. Three of the handlers pass the access on to another bus, so the
    call takes a nesting depth. On the buses as the program builds them an access
    passes through one of these handlers at most, so [call_depth] is enough: the
    routes of X86.v and Arm.v show where each access ends.

    [vm_run] is the loop around KVM_RUN. The exits the guest produces, the contents
    of the mapped [struct kvm_run], are its input; what it leaves in the data buffer
    of an exit, which KVM hands back to the guest, is its output. *)

From stdpp Require Import base tactics numbers list gmap functions.
From S2P Require Import Prelude.
From S2P Require Import Uapi.
From S2P Require Import Host.
From S2P Require Import Bus.
From S2P Require Import Serial.
From S2P Require Import Devices.
From S2P Require Import Pci.
From S2P Require Import GuestMem.
From S2P Require Import Virtq.
From S2P Require Import Disk.
From S2P Require Import Machine.
From S2P Require Import VirtioPci.
From S2P Require Import VirtioBlk.
From S2P Require Import VirtioNet.
Open Scope Z_scope.

(** What a round of the loop sees: the [errno] of a failed [ioctl(KVM_RUN)] and
    the contents of [struct kvm_run]. The data buffer of a port exit holds [count]
    items of [size] bytes. *)
Inductive kvm_exit :=
  | ExitIo (out : bool) (size port count : Z) (data : list Z)
  | ExitMmio (phys_addr : Z) (data : list Z) (len : Z) (is_write : bool)
  | ExitIntr
  | ExitShutdown
  | ExitOther (reason : Z).

Record kvm_round := mkRound { run_errno : option Z; exit_of : kvm_exit }.

Definition EINTR : Z := 4.
Definition EAGAIN : Z := 11.

(** [Running] when the guest has not produced the next exit yet. *)
Inductive run_end := Running | Returned (code : Z).

Section vm.
Context `{Arch} {F : Type} `{HostFile F}.
Context (blk_fuel : nat).
Implicit Types (s : vm_t F) (data : list Z).

(** ** Dispatch *)

Definition dev_ops (w : vdev_id) : VirtqOps (vm_t F) :=
  match w with VirtioBlk => virtio_blk_ops blk_fuel | VirtioNet => virtio_net_ops end.

Definition on_serial (f : serial_dev → res (serial_dev * list Z)) s : res (vm_t F * list Z) :=
  '(u, data) ← f (serial s); Ok (set_serial u s, data).
Definition on_pci (f : pci_world → res (pci_world * list Z)) s : res (vm_t F * list Z) :=
  '(W, data) ← f (pci_part s); Ok (set_pci_part W s, data).

(** [pio_handler] of the arm64 machine: the window of I/O ports on the MMIO bus. *)
Definition pio_handler
    (call : dev_owner → io_fn → list Z → bool → Z → Z → vm_t F → res (vm_t F * list Z))
    data (is_write : bool) (offset size : Z) s : res (vm_t F * list Z) :=
  bus_handle_io call (devs (vm_buses s)) (io_bus (vm_buses s)) data is_write offset size s.

Fixpoint run_callback (depth : nat) (o : dev_owner) (f : io_fn) data (is_write : bool)
    (offset size : Z) s : res (vm_t F * list Z) :=
  match depth with
  | O => Fault Diverges
  | S depth =>
    match o, f with
    | OSerial, F_serial_handle_io =>
      on_serial (serial_handle_io SERIAL_IRQ data is_write offset size) s
    | OPci, F_pci_address_io => on_pci (pci_address_io data is_write offset size) s
    | OPci, F_pci_data_io =>
      pci_data_io pci_part (run_callback depth) data is_write offset size s
    | OPci, F_pci_mmio_io =>
      pci_mmio_io pci_part (run_callback depth) data is_write offset size s
    | OPciDev w, F_pci_config_do_io => on_pci (pci_config_do_io w data is_write offset size) s
    | OPciDev w, F_virtio_pci_space_io =>
      virtio_pci_space_io w (H := dev_ops w) data is_write offset size s
    | OVm, F_pio_handler => pio_handler (run_callback depth) data is_write offset size s
    | _, _ => Fault WildPointer
    end
  end.

Definition call_depth : nat := 4.

Definition bus_access (id : bus_id) data (is_write : bool) (addr size : Z) s
    : res (vm_t F * list Z) :=
  bus_handle_io (run_callback call_depth) (devs (vm_buses s)) (get_bus id (vm_buses s))
    data is_write addr size s.

(** ** Exits *)

(** The loop of [vm_handle_io]: the port advances, the data pointer does not. *)
Fixpoint io_items (n : nat) (is_write : bool) (addr size : Z) data s : res (vm_t F * list Z) :=
  match n with
  | O => Ok (s, data)
  | S n =>
    '(s, data) ← bus_access IoBus data is_write addr size s;
    io_items n is_write (u64 (addr + size)) size data s
  end.

Definition vm_handle_io (out : bool) (size port count : Z) data s : res (vm_t F * list Z) :=
  io_items (Z.to_nat count) out port size data s.

(** The length is narrowed to the [uint8_t] of [bus_handle_io]. *)
Definition vm_handle_mmio (phys_addr : Z) data (len : Z) (is_write : bool) s
    : res (vm_t F * list Z) :=
  bus_access MmioBus data is_write phys_addr (u8 len) s.

Definition run_failed (e : option Z) : bool :=
  match e with
  | None => false
  | Some errno => negb (errno =? EINTR) && negb (errno =? EAGAIN)
  end.

(** [replies] are the data buffers after each handled port or memory access. *)
Fixpoint vm_run (rounds : list kvm_round) (replies : list (list Z)) s
    : res (vm_t F * list (list Z) * run_end) :=
  match rounds with
  | [] => Ok (s, replies, Running)
  | r :: rounds =>
    if run_failed (run_errno r) then Ok (s, replies, Returned (-1))
    else
      match exit_of r with
      | ExitIo out size port count data =>
        '(s, data) ← vm_handle_io out size port count data s;
        vm_run rounds (replies ++ [data]) s
      | ExitMmio phys_addr data len is_write =>
        '(s, data) ← vm_handle_mmio phys_addr data len is_write s;
        vm_run rounds (replies ++ [data]) s
      | ExitIntr => vm_run rounds replies s
      | ExitShutdown => Ok (s, replies, Returned 0)
      | ExitOther _ => Ok (s, replies, Returned (-1))
      end
  end.

(** ** The serial port on the machine, descriptors for KVM, exit *)

(** [serial_init]: the private state is the static [serial_dev_priv], which is
    not reset; the result is the return value. *)
Definition serial_init s : res (vm_t F * Z) :=
  let s := emit_vm (EvThread serial_thread) s in
  let B := vm_buses s in
  let h := dev_init (devs B) PSerial COM1_PORT_BASE COM1_PORT_SIZE OSerial F_serial_handle_io in
  B ← register IoBus PSerial (set_devs h B);
  Ok (set_vm_buses B s, 0).

Definition serial_exit s : vm_t F :=
  emit_vm (EvJoin serial_thread) (emit_vm (EvStop serial_thread) s).

Definition vm_exit (kvm_fd vm_fd vcpu_fd : Z) s : vm_t F :=
  let s := serial_exit s in
  let s := virtio_blk_exit s in
  let s := emit_vm (EvClose kvm_fd) s in
  let s := emit_vm (EvClose vm_fd) s in
  let s := emit_vm (EvClose vcpu_fd) s in
  emit_vm (EvMunmap RAM_SIZE) s.
End vm.
