(* ===== verification/Ports.v ===== *)
(** * The port space under guest accesses

    The guest's accesses run handlers that register and remove regions, move them,
    and change every register of the devices. None of them changes what the
    accesses to I/O ports reach: the nodes on [io_bus] and their order are fixed
    once the platform is set up. The reason is that both PCI devices have memory
    BARs only, so that regions move on [mmio_bus], whose nodes are disjoint from
    those of [io_bus]. *)

From stdpp Require Import base tactics numbers list gmap functions.
From S2P Require Import Prelude.
From S2P Require Import Uapi.
From S2P Require Import Host.
From S2P Require Import Bus.
From S2P Require Import Serial.
From S2P Require Import Devices.
From S2P Require Import Pci.
From S2P Require Import GuestMem.
From S2P Require Import Virtq.
From S2P Require Import Disk.
From S2P Require Import Machine.
From S2P Require Import VirtioPci.
From S2P Require Import VirtioBlk.
From S2P Require Import VirtioNet.
From S2P Require Import Vm.
Open Scope Z_scope.

(** ** The register blocks leave buses, configuration spaces and the UART alone *)

Section frame.
Context `{Arch} {F : Type} `{HostFile F}.
Implicit Types (s : vm_t F) (data : list Z).

(** What the handlers of the register blocks keep. *)
Definition frame s : pci_world * serial_dev := (pci_part s, serial s).

Context (X : pci_world * serial_dev).

(** The result has the PCI part and the UART [X]. *)
Abbreviation keeps := (ok_with (λ s', frame s' = X)).
Abbreviation keeps2 := (ok_with (λ p, frame p.1 = X)).
Abbreviation keeps3 := (ok_with (λ p, frame p.1.1 = X)).

Lemma put_vq_pci w i q s : frame (put_vq w i q s) = frame s.
Proof. by destruct w. Qed.

Lemma set_dev_pci w d s : vd_pci d = vd_pci (get_dev w s) → frame (set_dev w d s) = frame s.
Proof. unfold frame, pci_part. destruct w; cbn; by intros ->. Qed.

(** Decompose the code; the state of a call is carried by [call]. *)
Ltac keep call :=
  repeat (ok_with_step ltac:(call; intros; cbn [fst snd] in *); cbn [fst snd] in *);
  try (cbn; rewrite ?put_vq_pci; done).

Lemma blk_get_avail_keeps i s : frame s = X → keeps2 (blk_get_avail i s).
Proof. intros. unfold blk_get_avail, put_blk_vq. keep fail. Qed.

Lemma raise_isr_keeps d : ok_with (λ d', vd_pci d' = vd_pci d) (raise_isr d).
Proof. unfold raise_isr. keep fail. Qed.

Lemma virtio_blk_read_keeps p off n s : frame s = X → keeps2 (virtio_blk_read p off n s).
Proof. intros. unfold virtio_blk_read. keep fail. Qed.

Lemma virtio_blk_write_keeps p off n s : frame s = X → keeps2 (virtio_blk_write p off n s).
Proof. intros. unfold virtio_blk_write. keep fail. Qed.

Lemma blk_transfer_keeps i type req s : frame s = X → keeps3 (blk_transfer i type req s).
Proof.
  intros Hs. unfold blk_transfer. eapply ok_with_bind; [by apply blk_get_avail_keeps|].
  intros [s1 od] Hs1. cbn in Hs1. do 4 (apply ok_with_bind_any; intros ?).
  eapply (ok_with_bind (λ p, frame p.1 = X)).
  - case_match; [by apply virtio_blk_read_keeps|by apply virtio_blk_write_keeps].
  - intros [s2 r] Hs2. by apply ok_with_ok.
Qed.

Lemma blk_finish_keeps i desc status s : frame s = X → keeps (blk_finish i desc status s).
Proof.
  intros Hs. unfold blk_finish. eapply ok_with_bind; [by apply blk_get_avail_keeps|].
  intros [s1 od] Hs1. cbn in Hs1. do 6 (apply ok_with_bind_any; intros ?).
  eapply ok_with_bind; [apply raise_isr_keeps|]. intros d Hd. apply ok_with_ok.
  change (frame (set_dev VirtioBlk d s1) = X). by rewrite set_dev_pci.
Qed.

Lemma blk_request_keeps i desc req s : frame s = X → keeps3 (blk_request i desc req s).
Proof.
  intros Hs. unfold blk_request. do 5 (apply ok_with_bind_any; intros ?).
  assert (Hfin : ∀ s1 status r, frame s1 = X →
    keeps3 (s ← blk_finish i desc status s1; Ok (s, r, true) : res (_ * req_image * bool))).
  { intros s1 status r Hs1. eapply ok_with_bind; [by apply blk_finish_keeps|].
    intros s2 Hs2. by apply ok_with_ok. }
  case_match; apply ok_with_bind_any; intros nx; (destruct nx; cbn [negb]; [|by apply ok_with_ok]).
  - eapply ok_with_bind; [by apply blk_transfer_keeps|]. intros [[s1 st] d] Hs1.
    apply ok_with_bind_any; intros nx. destruct nx; cbn [negb]; [by apply Hfin|by apply ok_with_ok].
  - by apply Hfin.
Qed.

Lemma blk_loop_keeps fuel i req s : frame s = X → keeps (blk_loop fuel i req s).
Proof.
  revert req s. induction fuel as [|fuel IH]; intros req s Hs; [done|]. cbn [blk_loop].
  eapply ok_with_bind; [by apply blk_get_avail_keeps|]. intros [s1 [desc|]] Hs1; cbn in Hs1;
    [|by apply ok_with_ok].
  eapply ok_with_bind; [by apply blk_request_keeps|]. intros [[s2 r] more] Hs2.
  destruct more; [by apply IH|by apply ok_with_ok].
Qed.

Lemma virtio_blk_enable_vq_keeps i s : frame s = X → keeps (virtio_blk_enable_vq i s).
Proof. intros. unfold virtio_blk_enable_vq, put_blk_vq. keep fail; done. Qed.

Lemma set_guest_event_keeps i flags s : frame s = X → keeps (set_guest_event i flags s).
Proof. intros. unfold set_guest_event. keep fail. Qed.

Lemma net_get_avail_keeps i s : frame s = X → keeps2 (net_get_avail i s).
Proof. intros. unfold net_get_avail, put_net_vq. keep fail. Qed.

Lemma net_return_desc_keeps desc s : frame s = X → keeps (net_return_desc desc s).
Proof.
  intros Hs. unfold net_return_desc. do 2 (apply ok_with_bind_any; intros ?).
  eapply ok_with_bind; [apply raise_isr_keeps|]. intros d Hd. apply ok_with_ok.
  change (frame (set_dev VirtioNet d s) = X). by rewrite set_dev_pci.
Qed.

Lemma tap_read_keeps p n s : frame s = X → keeps2 (tap_read p n s).
Proof. intros. unfold tap_read. case_match; [by apply ok_with_ok|]. case_match; keep fail. Qed.

Lemma tap_write_keeps p n s : frame s = X → keeps2 (tap_write p n s).
Proof. intros. unfold tap_write. keep fail. Qed.

Lemma net_rx_keeps i s : frame s = X → keeps (virtio_net_complete_request_rx i s).
Proof.
  intros Hs. unfold virtio_net_complete_request_rx.
  eapply ok_with_bind; [by apply net_get_avail_keeps|]. intros [s1 [desc|]] Hs1; cbn in Hs1;
    [|by apply set_guest_event_keeps].
  do 5 (apply ok_with_bind_any; intros ?).
  eapply ok_with_bind; [by apply tap_read_keeps|]. intros [s2 n] Hs2. cbn in Hs2.
  case_match; [by apply set_guest_event_keeps|]. apply ok_with_bind_any. intros m.
  by apply net_return_desc_keeps.
Qed.

Lemma net_tx_keeps i s : frame s = X → keeps (virtio_net_complete_request_tx i s).
Proof.
  intros Hs. unfold virtio_net_complete_request_tx.
  eapply ok_with_bind; [by apply net_get_avail_keeps|]. intros [s1 [desc|]] Hs1; cbn in Hs1;
    [|by apply set_guest_event_keeps].
  do 2 (apply ok_with_bind_any; intros ?). case_match; [by apply set_guest_event_keeps|].
  eapply (ok_with_bind (λ p, frame p.1 = X)).
  - case_match; [by apply tap_write_keeps|by apply ok_with_ok].
  - intros [s2 n] Hs2. case_match; [by apply set_guest_event_keeps|by apply net_return_desc_keeps].
Qed.

Lemma enable_net_vq_keeps k t i s : frame s = X → keeps (enable_net_vq k t i s).
Proof. intros. unfold enable_net_vq, put_net_vq. keep fail; done. Qed.

(** What the transport relies on: the operations of the queues keep the PCI part. *)
Class OpsKeep (ops : VirtqOps (vm_t F)) : Prop := {
  keep_complete i s : frame s = X → keeps (complete_request (VirtqOps := ops) i s);
  keep_enable i s : frame s = X → keeps (enable_vq (VirtqOps := ops) i s);
  keep_notify i s : frame s = X → keeps (notify_used (VirtqOps := ops) i s);
}.

#[global] Instance blk_ops_keep fuel : OpsKeep (virtio_blk_ops fuel).
Proof.
  split; cbn; intros i s Hs.
  - by apply blk_loop_keeps.
  - by apply virtio_blk_enable_vq_keeps.
  - by apply ok_with_ok.
Qed.

#[global] Instance net_ops_keep : OpsKeep virtio_net_ops.
Proof.
  split; cbn; intros i s Hs; case_decide.
  - by apply net_rx_keeps.
  - by apply net_tx_keeps.
  - by apply enable_net_vq_keeps.
  - by apply enable_net_vq_keeps.
  - by apply ok_with_ok.
  - by apply ok_with_ok.
Qed.

#[global] Instance dev_ops_keep fuel w : OpsKeep (dev_ops fuel w).
Proof. destruct w; cbn; apply _. Qed.

Section transport.
Context (w : vdev_id) (ops : VirtqOps (vm_t F)) {Hops : OpsKeep ops}.
#[local] Existing Instance ops.

Lemma virtq_handle_avail_keeps i s : frame s = X → keeps (virtq_handle_avail i s).
Proof using Hops.
  intros Hs. unfold virtq_handle_avail, virtq_complete_request, virtq_notify_used.
  apply ok_with_bind_any; intros q. case_match; [by apply ok_with_ok|].
  eapply ok_with_bind; [apply ok_with_bind_any; intros ?; by apply keep_complete|].
  intros s1 Hs1. do 2 (apply ok_with_bind_any; intros ?). case_match; [|by apply ok_with_ok].
  apply ok_with_bind_any; intros ?. by apply keep_notify.
Qed.

Lemma on_dev_keeps f s :
  frame s = X → (∀ d, ok_with (λ d', vd_pci d' = vd_pci d) (f d)) → keeps (on_dev w f s).
Proof.
  intros Hs Hf. unfold on_dev. eapply ok_with_bind; [apply Hf|]. intros d Hd.
  apply ok_with_ok. by rewrite set_dev_pci.
Qed.

Lemma space_write_keeps data off n s :
  frame s = X → keeps (virtio_pci_space_write w data off n s).
Proof using Hops.
  intros Hs. unfold virtio_pci_space_write. case_match.
  - do 2 (apply ok_with_bind_any; intros ?).
    set (s1 := set_dev w _ s). assert (Hs1 : frame s1 = X) by (by unfold s1; rewrite set_dev_pci).
    clearbody s1.
    repeat (case_match; [by first
      [ apply on_dev_keeps; [done|intros d; unfold virtio_pci_select_device_feature,
          virtio_pci_write_guest_feature, virtio_pci_write_status, virtio_pci_select_virtq,
          write_virtq_info, virtio_pci_reset; keep fail; by case_match]
      | apply ok_with_bind_any; intros ?; case_match; unfold virtio_pci_enable_virtq,
          virtio_pci_disable_virtq, virtq_enable; apply ok_with_bind_any; intros ?;
          [apply ok_with_bind_any; intros ?; by apply keep_enable|by apply ok_with_ok]
      | apply ok_with_bind_any; intros ?; by apply virtq_handle_avail_keeps ]|]).
    by apply ok_with_ok.
  - do 3 (apply ok_with_bind_any; intros ?). apply ok_with_ok. by rewrite set_dev_pci.
Qed.

Lemma space_io_keeps data wr off n s :
  frame s = X → keeps2 (virtio_pci_space_io w data wr off n s).
Proof using Hops.
  intros Hs. unfold virtio_pci_space_io, virtio_pci_space_read. case_match.
  - eapply ok_with_bind; [by apply space_write_keeps|]. intros s1 Hs1. by apply ok_with_ok.
  - keep fail; try done. cbn. by rewrite set_dev_pci.
Qed.
End transport.
End frame.

(** ** Configuration accesses move regions on the MMIO bus only *)

(** The nodes a device can have on [mmio_bus]. *)
Definition region_ptr (p : dev_ptr) : bool :=
  match p with PSpace _ _ | PIoDev | PPciMmio => true | _ => false end.

(** Links from [mmio_bus] stay among those nodes, however they are arranged. *)
Definition mmio_closed (h : gmap dev_ptr hdev) (b : hbus) : Prop :=
  (∀ p, head b = Some p → region_ptr p = true) ∧
  (∀ p d q, region_ptr p = true → h !! p = Some d → next d = Some q → region_ptr q = true).

(** No node but the UART's calls the UART or enters [io_bus], and none leads to it. *)
Definition node_clear (p : dev_ptr) (d : hdev) : Prop :=
  (p ≠ PSerial → owner d ≠ OSerial ∧ owner d ≠ OVm) ∧ next d ≠ Some PSerial.
Record uart_private (B : buses) : Prop := {
  up_nodes : map_Forall node_clear (devs B);
  up_mmio : head (mmio_bus B) ≠ Some PSerial;
  up_pci : head (pci_bus B) ≠ Some PSerial;
}.

(** The nodes [K] and the head [h0] of [io_bus] are in place, and the UART is
    reached through [io_bus] only. *)
Record io_fixed (K : gmap dev_ptr hdev) (h0 : option dev_ptr) (B : buses) : Prop := {
  iof_nodes : K ⊆ devs B;
  iof_head : head (io_bus B) = h0;
  iof_mmio : mmio_closed (devs B) (mmio_bus B);
  iof_uart : uart_private B;
}.

Record ports_fixed (K : gmap dev_ptr hdev) (h0 : option dev_ptr) (W : pci_world) : Prop := {
  pf_buses : io_fixed K h0 (pw_buses W);
  pf_bars w : Forall (λ io, io = false) (bar_is_io_space (pw_dev w W));
}.

(** The nodes [io_bus] can have when no device has an I/O BAR. *)
Definition port_ptr (p : dev_ptr) : bool :=
  match p with PSerial | PPciAddr | PPciBus => true | _ => false end.

Section fixed.
Context (K : gmap dev_ptr hdev) (h0 : option dev_ptr).
Context (HK : ∀ p, port_ptr p = false → K !! p = None).
Implicit Types (B : buses) (h : gmap dev_ptr hdev).

Lemma clear_next h p d nx :
  map_Forall node_clear h → h !! p = Some d → nx ≠ Some PSerial →
  map_Forall node_clear (<[p := set_next nx d]> h).
Proof. intros Hu Hd Hn. apply map_Forall_insert_2; [|done]. split; [apply (Hu _ _ Hd)|done]. Qed.

(** A change of region nodes that keeps their links among regions. *)
Lemma mmio_closed_insert h b p d :
  mmio_closed h b → (∀ q, next d = Some q → region_ptr q = true) → mmio_closed (<[p := d]> h) b.
Proof.
  intros [Hh Hn] Hd. split; [done|]. intros q dq r Hq. destruct (decide (q = p)) as [->|].
  - rewrite lookup_insert_eq. intros [= <-]. apply Hd.
  - rewrite lookup_insert_ne by done. by apply Hn.
Qed.

Lemma nodes_insert h p d : port_ptr p = false → K ⊆ h → K ⊆ <[p := d]> h.
Proof using HK. intros Hp Hs. apply insert_subseteq_r; [by apply HK|done]. Qed.

Lemma region_not_port p : region_ptr p = true → port_ptr p = false.
Proof. by destruct p. Qed.

Lemma register_fixed p B B' :
  region_ptr p = true → io_fixed K h0 B → register MmioBus p B = Ok B' → io_fixed K h0 B'.
Proof using HK.
  intros Hp [Hk Hh Hm [Hu1 Hu2 Hu3]] E. unfold register, bus_register_dev in E. simplify_res.
  split; cbn; [by apply nodes_insert, Hk; apply region_not_port|done|split; [by intros q [= <-]|]|].
  - eapply (mmio_closed_insert _ (mmio_bus B)); [done|]. intros q. apply Hm.
  - split; [|cbn; by intros [= ->]|done]. by apply clear_next.
Qed.

Lemma deregister_from_fixed fuel h b k p h' b' :
  (∀ q, k = LNext q → region_ptr q = true) → mmio_closed h b → K ⊆ h →
  map_Forall node_clear h → head b ≠ Some PSerial →
  deregister_from fuel h b k p = Ok (h', b') →
  mmio_closed h' b' ∧ K ⊆ h' ∧ map_Forall node_clear h' ∧ head b' ≠ Some PSerial.
Proof using HK.
  revert k. induction fuel as [|fuel IH]; intros k Hk Hm HKh Hu Hb; [done|]. cbn [deregister_from].
  intros (cur&Hcur&E)%bind_ok_iff.
  assert (Hc : ∀ q, cur = Some q → region_ptr q = true).
  { intros q ->. destruct k as [|q']; cbn in Hcur; simplify_res; [by apply Hm|].
    eapply Hm; [by apply Hk|done|done]. }
  destruct cur as [q|]; [|by simplify_res]. specialize (Hc q eq_refl).
  case_decide as Hqp; [|apply (IH (LNext q)); naive_solver].
  apply bind_ok_iff in E as (d&Hd&E). apply from_option_res_ok in Hd.
  assert (Hn : ∀ r, next d = Some r → region_ptr r = true) by (intros r; by eapply Hm).
  assert (Hs : next d ≠ Some PSerial) by apply (Hu _ _ Hd).
  destruct k as [|q']; cbn in E; simplify_res.
  - split_and!; [split; [done|apply Hm]|done..].
  - split_and!; [by apply mmio_closed_insert|by apply nodes_insert; [apply region_not_port, Hk|]| |done].
    by apply clear_next.
Qed.

Lemma deregister_fixed p B B' :
  io_fixed K h0 B → deregister MmioBus p B = Ok B' → io_fixed K h0 B'.
Proof using HK.
  intros [Hk Hh Hm [Hu1 Hu2 Hu3]] E. unfold deregister, bus_deregister_dev in E.
  apply bind_ok_iff in E as ([h b]&E&[= <-]).
  eapply deregister_from_fixed in E as (Hm'&Hk'&Hu1'&Hu2'); [|done..]; split; [done..|by split].
Qed.

Lemma set_base_fixed w bar a d B :
  io_fixed K h0 B → devs B !! PSpace w bar = Some d →
  io_fixed K h0 (set_devs (<[PSpace w bar := set_base a d]> (devs B)) B).
Proof using HK.
  intros [Hk Hh Hm [Hu1 Hu2 Hu3]] Hd. split; cbn; [by apply nodes_insert|done|..].
  - apply mmio_closed_insert; [done|]. intros q. by apply (proj2 Hm (PSpace w bar) d).
  - split; [|done..]. apply map_Forall_insert_2; [|done]. by apply (Hu1 _ d).
Qed.

Definition no_io_bars (d : pci_dev) : Prop := Forall (λ io, io = false) (bar_is_io_space d).

Abbreviation cfg_fixed := (ok_with (λ p, no_io_bars p.1 ∧ io_fixed K h0 p.2)).

Lemma command_one_bar_fixed w eio emem d B bar :
  no_io_bars d → io_fixed K h0 B → cfg_fixed (command_one_bar w eio emem (d, B) bar).
Proof using HK.
  intros Hd HB [d' B'] E. cbn. unfold command_one_bar in E.
  apply bind_ok_iff in E as (io&Hio%from_option_res_ok&E).
  pose proof (Forall_lookup_1 _ _ _ _ Hd Hio) as ->. cbn in E.
  destruct emem; unfold pci_activate_bar, pci_deactivate_bar in E;
    do 3 (apply bind_ok_iff in E as (?&_&E));
    apply bind_ok_iff in E as (B1&EB&[= <- <-]); (split; [done|]); case_match;
    first [by injection EB as <-|by apply (register_fixed (PSpace w bar) B B1)
      |by apply (deregister_fixed (PSpace w bar) B B1)].
Qed.

Lemma pci_config_write_fixed w d B data off n :
  no_io_bars d → io_fixed K h0 B → cfg_fixed (pci_config_write w d B data off n).
Proof using HK.
  intros Hd HB. unfold pci_config_write. do 2 (apply ok_with_bind_any; intros ?).
  repeat case_match; [| | |by apply ok_with_ok].
  - unfold pci_config_command, pci_command_bar. apply ok_with_bind_any; intros cmd.
    set (d1 := set_cfg_space _ d). assert (Hd1 : no_io_bars d1) by done. clearbody d1. clear Hd.
    generalize (seq 0 (Z.to_nat PCI_STD_NUM_BARS)). intros l.
    revert d1 B HB Hd1. induction l as [|bar l IH]; intros d1 B HB Hd1; [by apply ok_with_ok|].
    cbn [foldM]. eapply ok_with_bind; [by apply command_one_bar_fixed|].
    intros [d2 B2] [Hd2 HB2]. by apply IH.
  - unfold pci_config_bar. do 4 (apply ok_with_bind_any; intros ?). cbn [fst snd].
    intros p (node&Hn%from_option_res_ok&[= <-])%bind_ok_iff.
    split; [done|by apply set_base_fixed].
  - apply ok_with_bind_any; intros cfg. by apply ok_with_ok.
Qed.

Lemma pci_config_do_io_fixed w data wr off n W :
  ports_fixed K h0 W → ok_with (λ p, ports_fixed K h0 p.1) (pci_config_do_io w data wr off n W).
Proof using HK.
  intros [HB Hb]. unfold pci_config_do_io. destruct wr.
  - eapply ok_with_bind; [apply pci_config_write_fixed; [apply Hb|done]|]. intros [d B] [Hd HB'].
    apply ok_with_ok. split; [by destruct w|]. cbn in *.
    intros w'. pose proof (Hb VirtioBlk). pose proof (Hb VirtioNet). by destruct w, w'.
  - apply ok_with_bind_any; intros data'. apply ok_with_ok. by split.
Qed.

Lemma pci_address_io_fixed data wr off n W :
  ports_fixed K h0 W → ok_with (λ p, ports_fixed K h0 p.1) (pci_address_io data wr off n W).
Proof using.
  intros [HB Hb]. unfold pci_address_io. destruct wr;
    do 2 (apply ok_with_bind_any; intros ?); apply ok_with_ok;
    (split; [done|]); intros w; specialize (Hb w); by destruct w.
Qed.

(** ** Every access, and every run *)

Context `{Arch} {F : Type} `{HostFile F} (blk_fuel : nat).
Implicit Types (s : vm_t F) (data : list Z).
Abbreviation fixed s := (ports_fixed K h0 (pci_part s)).

Lemma pci_part_set W s : pci_part (set_pci_part W s) = W.
Proof. by destruct W. Qed.

Lemma on_pci_fixed f s :
  (∀ W, ports_fixed K h0 W → ok_with (λ p, ports_fixed K h0 p.1) (f W)) →
  fixed s → ok_with (λ p, fixed p.1) (on_pci f s).
Proof.
  intros Hf Hs. unfold on_pci. eapply ok_with_bind; [by apply Hf|]. intros [W data] HW.
  apply ok_with_ok. cbn [fst] in *. by rewrite pci_part_set.
Qed.

Lemma bus_handle_io_fixed call h b data wr addr n s :
  (∀ o f data wr off n s, fixed s → ok_with (λ p, fixed p.1) (call o f data wr off n s)) →
  fixed s → ok_with (λ p : vm_t F * list Z, fixed p.1) (bus_handle_io call h b data wr addr n s).
Proof.
  intros Hc Hs. unfold bus_handle_io. apply ok_with_bind_any; intros od.
  destruct od; [|by apply ok_with_ok]. apply ok_with_bind_any; intros nd.
  case_match; [by apply Hc|by apply ok_with_ok].
Qed.

Lemma run_callback_fixed depth o f data wr off n s :
  fixed s → ok_with (λ p, fixed p.1) (run_callback blk_fuel depth o f data wr off n s).
Proof using HK.
  revert o f data wr off n s. induction depth as [|depth IH]; intros o f data wr off n s Hs; [done|].
  cbn [run_callback]. destruct o, f; try apply ok_with_fault.
  - unfold on_serial. apply ok_with_bind_any. intros [u data']. by apply ok_with_ok.
  - apply on_pci_fixed; [|done]. intros W. apply pci_address_io_fixed.
  - unfold pci_data_io. case_match; [|by apply ok_with_ok]. by apply bus_handle_io_fixed.
  - by apply bus_handle_io_fixed.
  - apply on_pci_fixed; [|done]. intros W. apply pci_config_do_io_fixed.
  - intros [s' data'] E. cbn. eapply (space_io_keeps (frame s)) in E; [|apply _|done].
    apply (f_equal fst) in E. cbn [fst frame] in E. by rewrite E.
  - by apply bus_handle_io_fixed.
Qed.

Lemma bus_access_fixed id data wr addr n s :
  fixed s → ok_with (λ p, fixed p.1) (bus_access blk_fuel id data wr addr n s).
Proof using HK.
  intros Hs. apply bus_handle_io_fixed; [|done]. intros. by apply run_callback_fixed.
Qed.

Lemma vm_handle_io_fixed out n port count data s :
  fixed s → ok_with (λ p, fixed p.1) (vm_handle_io blk_fuel out n port count data s).
Proof using HK.
  unfold vm_handle_io. generalize (Z.to_nat count). intros k. revert port data s.
  induction k as [|k IH]; intros port data s Hs; [by apply ok_with_ok|]. cbn [io_items].
  eapply ok_with_bind; [by apply bus_access_fixed|]. intros [s1 data1] Hs1. by apply IH.
Qed.

Lemma vm_run_fixed rounds replies s :
  fixed s → ok_with (λ p, fixed p.1.1) (vm_run blk_fuel rounds replies s).
Proof using HK.
  revert replies s. induction rounds as [|r rounds IH]; intros replies s Hs; [by apply ok_with_ok|].
  cbn [vm_run]. case_match; [by apply ok_with_ok|]. case_match; try (by apply ok_with_ok).
  - eapply ok_with_bind; [by apply vm_handle_io_fixed|]. intros [s1 d1] Hs1. by apply IH.
  - eapply ok_with_bind; [by apply bus_access_fixed|]. intros [s1 d1] Hs1. by apply IH.
  - by apply IH.
Qed.

(** ** Setting up a device *)

(** A node that is not on [io_bus] may be rewritten, with any link outside the
    regions and with a link to a region inside them, but for links to the UART. *)
Lemma set_node_fixed B p d :
  port_ptr p = false → node_clear p d →
  (region_ptr p = true → ∀ q, next d = Some q → region_ptr q = true) →
  io_fixed K h0 B → io_fixed K h0 (set_devs (<[p := d]> (devs B)) B).
Proof using HK.
  intros Hp Hc Hd [Hk Hh [Hm1 Hm2] [Hu1 Hu2 Hu3]].
  split; cbn; [by apply nodes_insert|done| |split; [by apply map_Forall_insert_2|done..]].
  split; [done|]. intros q dq r Hq. destruct (decide (q = p)) as [->|].
  - rewrite lookup_insert_eq. intros [= <-]. by apply Hd.
  - rewrite lookup_insert_ne by done. by apply Hm2.
Qed.

Lemma pci_dev_init_fixed w B :
  io_fixed K h0 B → no_io_bars (pci_dev_init w B).1 ∧ io_fixed K h0 (pci_dev_init w B).2.
Proof using HK.
  intros HB. split; [repeat constructor|]. unfold pci_dev_init. cbn [snd].
  set (l := seq 0 6). clearbody l.
  assert (Hl : io_fixed K h0 (set_devs (foldr (λ bar h, <[PSpace w bar:=zero_dev]> h) (devs B) l) B)).
  { induction l as [|bar l IH]; cbn [foldr]; [by destruct B|].
    by refine (set_node_fixed _ (PSpace w bar) zero_dev eq_refl _ _ IH). }
  by refine (set_node_fixed _ (PConfig w) zero_dev eq_refl _ _ Hl).
Qed.

Lemma virtio_pci_init_fixed w d B :
  io_fixed K h0 B →
  ok_with (λ p, no_io_bars (vd_pci p.1) ∧ io_fixed K h0 p.2) (virtio_pci_init w d B).
Proof using HK.
  intros HB. rewrite virtio_pci_init_eq. apply ok_with_ok. split; [repeat constructor|].
  pose proof (proj2 (pci_dev_init_fixed w B HB)) as H1.
  by refine (set_node_fixed _ (PSpace w 0) _ eq_refl _ _ H1).
Qed.

Lemma virtio_pci_enable_fixed w B :
  io_fixed K h0 B → ok_with (io_fixed K h0) (virtio_pci_enable w B).
Proof using HK.
  intros HB B' E. unfold virtio_pci_enable, pci_dev_register, register, bus_register_dev in E.
  set (B1 := set_devs _ B) in E. assert (H1 : io_fixed K h0 B1) by (by apply set_node_fixed).
  clearbody B1. apply bind_ok_iff in E as ([h b]&(d&Hd%from_option_res_ok&[= <- <-])%bind_ok_iff&[= <-]).
  assert (Hc : node_clear (PConfig w) (set_next (head (pci_bus B1)) d)).
  { split; [by apply (up_nodes _ (iof_uart _ _ _ H1) _ _ Hd)|apply H1]. }
  destruct (set_node_fixed B1 (PConfig w) _ eq_refl Hc ltac:(done) H1) as [??? [???]].
  split; [done..|by split].
Qed.

Abbreviation keeps_bars d := (ok_with (λ d', no_io_bars (vd_pci d) → no_io_bars (vd_pci d'))).

Lemma set_dev_cfg_bars len d : keeps_bars d (virtio_pci_set_dev_cfg len d).
Proof. unfold virtio_pci_set_dev_cfg. by repeat ok_with_step fail. Qed.
Lemma set_hdr_bars k off v d : keeps_bars d (set_hdr k off v d).
Proof. unfold set_hdr. by repeat ok_with_step fail. Qed.
Lemma set_virtq_bars n d : keeps_bars d (virtio_pci_set_virtq n d).
Proof. unfold virtio_pci_set_virtq. by repeat ok_with_step fail. Qed.
Lemma set_pci_hdr_bars id class irq d : keeps_bars d (virtio_pci_set_pci_hdr id class irq d).
Proof.
  unfold virtio_pci_set_pci_hdr. eapply ok_with_bind; [apply set_hdr_bars|]. intros d1 H1.
  eapply ok_with_bind; [apply set_hdr_bars|]. intros d2 H2.
  eapply ok_with_weaken; [|apply set_hdr_bars]. auto.
Qed.

Lemma ports_fixed_dev w s d B :
  ports_fixed K h0 (pci_part s) → no_io_bars (vd_pci d) → io_fixed K h0 B →
  ports_fixed K h0 (pci_part (set_vm_buses B (set_dev w d s))).
Proof.
  intros [_ Hb] Hd HB. split; [by destruct w|]. intros w'. specialize (Hb w').
  by destruct w, w'.
Qed.

Lemma blk_init_pci_fixed fd irq (img : diskimg F) s :
  fixed s → ok_with (λ s', fixed s') (virtio_blk_init_pci fd irq img s).
Proof using HK.
  intros Hs. unfold virtio_blk_init_pci.
  eapply (ok_with_bind (λ s', fixed s')).
  { unfold virtio_blk_setup. apply ok_with_bind_any; intros c. by apply ok_with_ok. }
  intros s1 Hs1. eapply ok_with_bind; [apply virtio_pci_init_fixed, Hs1|]. intros [d B] [Hd HB].
  eapply ok_with_bind; [apply set_dev_cfg_bars|]. intros d1 H1.
  eapply ok_with_bind; [apply set_pci_hdr_bars|]. intros d2 H2.
  eapply ok_with_bind; [apply set_virtq_bars|]. intros d3 H3.
  eapply ok_with_bind; [by apply virtio_pci_enable_fixed|]. intros B' HB'. apply ok_with_ok.
  apply (ports_fixed_dev VirtioBlk s1); [done|cbn in *; auto|done].
Qed.

Lemma net_init_pci_fixed rx tx irq s :
  fixed s → ok_with (λ s', fixed s') (virtio_net_init_pci rx tx irq s).
Proof using HK.
  intros Hs. unfold virtio_net_init_pci.
  set (s1 := virtio_net_setup rx tx irq s). assert (Hs1 : fixed s1) by done. clearbody s1.
  eapply ok_with_bind; [apply virtio_pci_init_fixed, Hs1|]. intros [d B] [Hd HB].
  eapply ok_with_bind; [apply set_dev_cfg_bars|]. intros d1 H1.
  eapply ok_with_bind; [apply set_pci_hdr_bars|]. intros d2 H2.
  apply ok_with_bind_any; intros cap.
  eapply ok_with_bind; [apply set_hdr_bars|]. intros d3 H3.
  eapply ok_with_bind; [apply set_virtq_bars|]. intros d4 H4.
  eapply ok_with_bind; [by apply virtio_pci_enable_fixed|]. intros B' HB'. apply ok_with_ok.
  apply (ports_fixed_dev VirtioNet s1); [done|cbn in *; auto|done].
Qed.
End fixed.
