(* ===== verification/Kvm.v ===== *)
(** * Setting up the machine: system calls and the common part (src/vm.c, src/err.h)

    Set-up code is a sequence of system calls whose results the program checks or
    ignores. [prog] is the monad of such code: the state [host] holds the machine,
    the descriptors of [vm_t], the private data of the arm64 code, the calls made
    so far and the values the coming calls return. A call returns the next value
    of [answers]; when none is left it succeeds with 0.

    [VmArch] is the interface of vm.h to the architecture: the operations
    [vm_arch_*] and [vm_late_init], with the constants of desc.h. *)

From Stdlib Require Import Ascii String.
From stdpp Require Import base tactics numbers list gmap.
From S2P Require Import Prelude.
From S2P Require Import Host.
From S2P Require Import Bus.
From S2P Require Import Serial.
From S2P Require Import Devices.
From S2P Require Import GuestMem.
From S2P Require Import Disk.
From S2P Require Import Machine.
From S2P Require Import VirtioPci.
From S2P Require Import VirtioBlk.
From S2P Require Import VirtioNet.
From S2P Require Import Vm.
Open Scope Z_scope.

(** ** Data exchanged with KVM: the members the program touches, and the others *)

Record kvm_segment := mkSeg {
  seg_base : Z;
  seg_limit : Z;
  seg_g : Z;
  seg_db : Z;
  seg_others : list Z;
}.

Record kvm_sregs := mkSregs {
  cs : kvm_segment;
  ds : kvm_segment;
  es : kvm_segment;
  fs : kvm_segment;
  gs : kvm_segment;
  ss : kvm_segment;
  cr0 : Z;
  sregs_others : list Z;
}.

Record kvm_regs := mkRegs {
  rflags : Z;
  rip : Z;
  rsi : Z;
  regs_others : list Z;
}.

Record kvm_cpuid_entry := mkCpuid {
  cpuid_function : Z;
  eax : Z;
  ebx : Z;
  ecx : Z;
  edx : Z;
  cpuid_others : list Z;
}.

Inductive syscall :=
  | SysOpenKvm                                        (* open("/dev/kvm", O_RDWR) *)
  | SysCreateVm
  | SysMmapRam (len : Z)
  | SysSetUserMemoryRegion (slot flags guest_phys_addr memory_size userspace_addr : Z)
  | SysCreateVcpu
  | SysSetTssAddr (addr : Z)
  | SysSetIdentityMapAddr (addr : Z)
  | SysCreateIrqchip
  | SysCreatePit2 (flags : Z)
  | SysGetSregs
  | SysSetSregs (r : kvm_sregs)
  | SysGetRegs
  | SysSetRegs (r : kvm_regs)
  | SysGetSupportedCpuid (nent : Z)
  | SysSetCpuid2 (nent : Z) (entries : list kvm_cpuid_entry)
  | SysSetMsrs (entries : list (Z * Z))
  | SysIrqLine (irq level : Z)
  | SysCreateDevice (type : Z)
  | SysSetDeviceAttr (fd group attr : Z) (addr : option Z)
  | SysArmPreferredTarget
  | SysArmVcpuInit (target : Z)
  | SysGetOneReg (id : Z)
  | SysSetOneReg (id data : Z).

(** [vm_arch_priv_t] of the arm64 code; its member [iodev] is the node [PIoDev]. *)
Record vm_arch_priv := mkPriv {
  entry : Z;
  initrdsz : Z;
  gic_fd : Z;
  gic_type : Z;
}.

Record host (F : Type) := mkHost {
  vm : vm_t F;
  kvm_fd : Z;
  vm_fd : Z;
  vcpu_fd : Z;
  mem_addr : Z;
  priv : vm_arch_priv;
  calls : list syscall;
  answers : list Z;
}.
Arguments mkHost {F} _ _ _ _ _ _ _ _.
Arguments vm {F} _.
Arguments kvm_fd {F} _.
Arguments vm_fd {F} _.
Arguments vcpu_fd {F} _.
Arguments mem_addr {F} _.
Arguments priv {F} _.
Arguments calls {F} _.
Arguments answers {F} _.

(** ** The monad *)

Definition prog (F A : Type) : Type := host F → res (A * host F).

#[global] Instance prog_ret F : MRet (prog F) := λ A a h, Ok (a, h).
#[global] Instance prog_bind F : MBind (prog F) :=
  λ A B f p h, '(a, h) ← p h; f a h.

Section prog.
Context {F : Type}.
Implicit Types (h : host F).

Definition set_vm (v : vm_t F) h : host F :=
  mkHost v (kvm_fd h) (vm_fd h) (vcpu_fd h) (mem_addr h) (priv h) (calls h) (answers h).
Definition set_kvm_fd (v : Z) h : host F :=
  mkHost (vm h) v (vm_fd h) (vcpu_fd h) (mem_addr h) (priv h) (calls h) (answers h).
Definition set_vm_fd (v : Z) h : host F :=
  mkHost (vm h) (kvm_fd h) v (vcpu_fd h) (mem_addr h) (priv h) (calls h) (answers h).
Definition set_vcpu_fd (v : Z) h : host F :=
  mkHost (vm h) (kvm_fd h) (vm_fd h) v (mem_addr h) (priv h) (calls h) (answers h).
Definition set_mem_addr (v : Z) h : host F :=
  mkHost (vm h) (kvm_fd h) (vm_fd h) (vcpu_fd h) v (priv h) (calls h) (answers h).
Definition set_priv (v : vm_arch_priv) h : host F :=
  mkHost (vm h) (kvm_fd h) (vm_fd h) (vcpu_fd h) (mem_addr h) v (calls h) (answers h).

Definition modify (f : host F → host F) : prog F () := λ h, Ok ((), f h).
Definition gets {A} (f : host F → A) : prog F A := λ h, Ok (f h, h).

(** A system call: it is recorded, and returns the next answer. *)
Definition sys (c : syscall) : prog F Z := λ h,
  Ok (default 0 (answers h !! 0%nat),
      mkHost (vm h) (kvm_fd h) (vm_fd h) (vcpu_fd h) (mem_addr h) (priv h)
        (calls h ++ [c]) (drop 1 (answers h))).

(** [throw_err] prints a message and returns -1. *)
Definition throw_err : prog F Z := mret (-1).

(** [if (call < 0) return throw_err(...);] and the rest of the function. *)
Definition checked (c : syscall) (k : prog F Z) : prog F Z :=
  r ← sys c; if r <? 0 then throw_err else k.

(** [if (f(v) < 0) return -1;] and the rest of the function. *)
Definition guarded (f : prog F Z) (k : prog F Z) : prog F Z :=
  r ← f; if r <? 0 then mret (-1) else k.

(** An operation of the machine. *)
Definition on_vm (f : vm_t F → res (vm_t F * Z)) : prog F Z := λ h,
  '(s, r) ← f (vm h); Ok (r, set_vm s h).
End prog.

(** ** The architecture *)

Class VmArch (F : Type) := {
  arch_consts : Arch;
  vm_arch_init : prog F Z;
  vm_arch_cpu_init : prog F Z;
  vm_arch_init_platform_device : prog F Z;
  vm_arch_load_image : list Z → Z → prog F Z;
  vm_arch_load_initrd : list Z → Z → prog F Z;
  vm_late_init : prog F Z;
}.
#[global] Existing Instance arch_consts.

(** [mmap(0, datasz, PROT_READ | PROT_WRITE, MAP_PRIVATE, fd, 0)] of a file: whole
    pages, with zeros behind its end. An empty file cannot be mapped. *)
Definition PAGE_SIZE : Z := 4096.
Definition map_file (bytes : list Z) : list Z :=
  bytes ++ replicate (Z.to_nat ((- lenZ bytes) `mod` PAGE_SIZE)) 0.

(** A string literal with its terminating null byte. *)
Definition c_string (str : string) : list Z :=
  ((λ a, Z.of_nat (nat_of_ascii a)) <$> list_ascii_of_string str) ++ [0].

Section setup.
Context {F : Type} `{HostFile F} `{VmArch F}.

Definition vm_init : prog F Z :=
  fd ← sys SysOpenKvm; modify (set_kvm_fd fd);;
  if fd <? 0 then throw_err else
  fd ← sys SysCreateVm; modify (set_vm_fd fd);;
  if fd <? 0 then throw_err else
  guarded vm_arch_init (
  addr ← sys (SysMmapRam RAM_SIZE); modify (set_mem_addr addr);;
  if addr =? 0 then throw_err else
  checked (SysSetUserMemoryRegion 0 0 RAM_BASE RAM_SIZE (u64 addr)) (
  fd ← sys SysCreateVcpu; modify (set_vcpu_fd fd);;
  if fd <? 0 then throw_err else
  guarded vm_arch_cpu_init (
  on_vm (λ s, Ok (set_vm_buses (mkBuses (devs (vm_buses s)) bus_init bus_init
                    (pci_bus (vm_buses s))) s, 0));;
  guarded vm_arch_init_platform_device (mret 0)))).

(** [file] is what [open] gives: the bytes of the file, or a failure. *)
Definition vm_load_image (file : option (list Z)) : prog F Z :=
  match file with
  | None => mret 1
  | Some bytes => vm_arch_load_image (map_file bytes) (lenZ bytes)
  end.

Definition vm_load_initrd (file : option (list Z)) : prog F Z :=
  match file with
  | None => mret 1
  | Some bytes => vm_arch_load_initrd (map_file bytes) (lenZ bytes)
  end.

(** [fds] are the descriptors the [eventfd] calls return. *)
Definition vm_load_diskimg (opened : option (F * Z)) (ioeventfd_ irqfd_ : Z) (s : vm_t F)
    : res (vm_t F * Z) :=
  match diskimg_init opened with
  | None => Ok (s, -1)
  | Some img => s ← virtio_blk_init_pci ioeventfd_ irqfd_ img s; Ok (s, 0)
  end.

Definition vm_enable_net (opened tunsetiff nonblock : bool) (rx_fd tx_fd irqfd_ : Z) (s : vm_t F)
    : res (vm_t F * Z) :=
  let '(s, ok) := virtio_net_init opened tunsetiff nonblock s in
  if negb ok then Ok (s, -1)
  else s ← virtio_net_init_pci rx_fd tx_fd irqfd_ s; Ok (s, 0).
End setup.

(** A machine on which nothing has been set up. *)
Definition fresh {F} (s : vm_t F) : Prop :=
  vm_buses s = mkBuses ∅ bus_init bus_init (pci_bus (vm_buses s)).

(** The node of the serial port in front of [nx]. *)
Definition serial_node (nx : option dev_ptr) : hdev :=
  mkDev COM1_PORT_BASE COM1_PORT_SIZE OSerial F_serial_handle_io nx.

(** * Files and guest memory *)

Lemma RAM_SIZE_eq : RAM_SIZE = 0x40000000.
Proof. reflexivity. Qed.

(** Writes to guest memory that lie inside it succeed. *)
Lemma ram_write (m : ram) off bs :
  0 ≤ off → off + lenZ bs ≤ RAM_SIZE → ∃ m', mwrite m off bs = Ok m'.
Proof. intros. eexists. apply mwrite_ok; [done|by rewrite bsize_ram]. Qed.

Lemma map_file_read file off n :
  0 ≤ off → 0 ≤ n → off + n ≤ lenZ file →
  mread (map_file file) off n = Ok (get_bytes file off (Z.to_nat n)).
Proof.
  intros Ho Hn Hl. unfold map_file. unfold lenZ in Hl.
  rewrite mread_ok; [|done|done|rewrite bsize_list; unfold lenZ; rewrite length_app; lia].
  f_equal. apply get_bytes_ext. intros j Hj. cbn.
  by rewrite lookup_total_app_l by lia.
Qed.

Lemma map_file_all file : mread (map_file file) 0 (lenZ file) = Ok file.
Proof.
  assert (0 ≤ lenZ file) by (unfold lenZ; lia).
  rewrite map_file_read by lia. pose proof (mread_all file (lenZ file) eq_refl) as Hf.
  rewrite mread_ok in Hf by (rewrite ?bsize_list; lia). by injection Hf as ->.
Qed.

Lemma load_mread {M M'} `{ByteStore M} `{ByteStore M'} k (m : M) (m' : M') off off' :
  mread m off k = mread m' off' k → load k m off = load k m' off'.
Proof. unfold load. by intros ->. Qed.

Lemma map_file_load file k off :
  0 ≤ k → 0 ≤ off → off + k ≤ lenZ file → load k (map_file file) off = load k file off.
Proof.
  intros Hk Ho Hl. apply load_mread. rewrite map_file_read by done.
  by rewrite mread_ok by (rewrite ?bsize_list; lia).
Qed.

(** ** A machine before any set-up, for the witnesses *)

Definition demo_fresh : vm_t reg_file :=
  mkVm ram_zero (mkBuses ∅ bus_init bus_init bus_init) 0 serial_dev_priv demo_vdev demo_vdev
    None [] [] [].

Definition demo_host (l : list Z) : host reg_file :=
  mkHost demo_fresh 0 0 0 0 (mkPriv 0 0 0 0) [] l.
