(* ===== verification/X86.v ===== *)
(** * The x86 machine (src/arch/x86/vm.c, src/arch/x86/desc.h)

    vCPU registers, platform devices, the Linux boot protocol: [struct
    boot_params] at 0x10000, the command line at 0x20000, the kernel at 0x100000
    and the initial RAM disk as high as the header allows. Guest memory starts at
    0, so guest addresses are offsets from [v->mem]. The members of [struct
    boot_params] are at the offsets of the kernel's asm/bootparam.h. *)

From Stdlib Require Import String.
From stdpp Require Import base tactics numbers list gmap functions.
From S2P Require Import Prelude.
From S2P Require Import Uapi.
From S2P Require Import Host.
From S2P Require Import Bus.
From S2P Require Import Serial.
From S2P Require Import Devices.
From S2P Require Import Pci.
From S2P Require Import GuestMem.
From S2P Require Import Virtq.
From S2P Require Import Disk.
From S2P Require Import Machine.
From S2P Require Import VirtioPci.
From S2P Require Import VirtioBlk.
From S2P Require Import VirtioNet.
From S2P Require Import Vm.
From S2P Require Import Ports.
From S2P Require Import Kvm.
Open Scope Z_scope.

#[local] Existing Instance x86.

(** ** vCPU registers *)

Definition set_flat (g : kvm_segment) : kvm_segment :=
  mkSeg 0 0xffffffff 1 (seg_db g) (seg_others g).
Definition set_db (g : kvm_segment) : kvm_segment :=
  mkSeg (seg_base g) (seg_limit g) (seg_g g) 1 (seg_others g).

Definition boot_sregs (r : kvm_sregs) : kvm_sregs :=
  mkSregs (set_db (set_flat (cs r))) (set_flat (ds r)) (set_flat (es r)) (set_flat (fs r))
    (set_flat (gs r)) (set_db (set_flat (ss r))) (Z.lor (cr0 r) 1) (sregs_others r).
Definition boot_regs (r : kvm_regs) : kvm_regs := mkRegs 2 0x100000 0x10000 (regs_others r).

Definition KVM_CPUID_SIGNATURE : Z := 0x40000000.
Definition KVM_CPUID_FEATURES : Z := 0x40000001.
Definition N_ENTRIES : Z := 100.
Definition zero_cpuid : kvm_cpuid_entry := mkCpuid 0 0 0 0 0 [].

Definition sign_entry (e : kvm_cpuid_entry) : kvm_cpuid_entry :=
  if cpuid_function e =? KVM_CPUID_SIGNATURE
  then mkCpuid (cpuid_function e) KVM_CPUID_FEATURES 0x4b4d564b 0x564b4d56 0x4d (cpuid_others e)
  else e.

Definition MSR_IA32_MISC_ENABLE : Z := 0x1a0.
Definition MSR_IA32_MISC_ENABLE_FAST_STRING : Z := Z.shiftl 1 0.

(** What KVM reports: the registers of the new vCPU and the supported CPUID
    leaves. *)
Record kvm_state := mkKvmState {
  k_sregs : kvm_sregs;
  k_regs : kvm_regs;
  k_cpuid : list kvm_cpuid_entry;
}.

Section x86.
Context {F : Type} `{HostFile F} (kvm : kvm_state).
Implicit Types (s : vm_t F) (m : ram) (data : list Z).

Definition vm_init_regs : prog F Z :=
  checked SysGetSregs (
  checked (SysSetSregs (boot_sregs (k_sregs kvm))) (
  checked SysGetRegs (
  checked (SysSetRegs (boot_regs (k_regs kvm))) (mret 0)))).

(** KVM fills the table and its count; when the call fails they are as the
    program initialised them. *)
Definition vm_init_cpu_id : prog F () :=
  r ← sys (SysGetSupportedCpuid N_ENTRIES);
  let '(nent, entries) :=
    if r <? 0 then (N_ENTRIES, replicate (Z.to_nat N_ENTRIES) zero_cpuid)
    else (lenZ (k_cpuid kvm),
          k_cpuid kvm ++ replicate (Z.to_nat N_ENTRIES - length (k_cpuid kvm)) zero_cpuid) in
  sys (SysSetCpuid2 nent (sign_entry <$> entries));;
  mret ().

Definition vm_init_msrs : prog F () :=
  sys (SysSetMsrs [(MSR_IA32_MISC_ENABLE, MSR_IA32_MISC_ENABLE_FAST_STRING)]);;
  mret ().

Definition x86_arch_init : prog F Z :=
  checked (SysSetTssAddr 0xffffd000) (
  checked (SysSetIdentityMapAddr 0xffffc000) (
  checked SysCreateIrqchip (
  checked (SysCreatePit2 0) (mret 0)))).

(** The results of the three steps are ignored. *)
Definition x86_arch_cpu_init : prog F Z :=
  vm_init_regs;;
  vm_init_cpu_id;;
  vm_init_msrs;;
  mret 0.

(** ** Platform devices *)

Definition x86_platform s : res (vm_t F * Z) :=
  let B := pci_init (vm_buses s) in
  B ← register IoBus PPciAddr B;
  B ← register IoBus PPciBus B;
  '(s, r) ← serial_init (set_vm_buses B s);
  if nonzero r then Ok (s, -1) else Ok (virtio_blk_init s, 0).

Definition x86_arch_init_platform_device : prog F Z := on_vm x86_platform.

(** ** The boot protocol *)

Definition BOOT_PARAMS : Z := 0x10000.
Definition CMDLINE : Z := 0x20000.
Definition KERNEL : Z := 0x100000.

Definition sizeof_boot_params : Z := 4096.
Definition off_e820_entries : Z := 0x1e8.
Definition off_hdr : Z := 0x1f1.
Definition sizeof_setup_header : Z := 0x7b.
Definition off_setup_sects : Z := 0x1f1.
Definition off_vid_mode : Z := 0x1fa.
Definition off_type_of_loader : Z := 0x210.
Definition off_loadflags : Z := 0x211.
Definition off_ramdisk_image : Z := 0x218.
Definition off_ramdisk_size : Z := 0x21c.
Definition off_heap_end_ptr : Z := 0x224.
Definition off_ext_loader_ver : Z := 0x226.
Definition off_cmd_line_ptr : Z := 0x228.
Definition off_initrd_addr_max : Z := 0x22c.
Definition off_cmdline_size : Z := 0x238.
Definition off_e820_table : Z := 0x2d0.
Definition sizeof_e820_entry : Z := 20.
Definition CAN_USE_HEAP : Z := Z.shiftl 1 7.
Definition KEEP_SEGMENTS : Z := Z.shiftl 1 6.
Definition E820_RAM : Z := 1.
Definition ISA_START_ADDRESS : Z := 0xa0000.
Definition ISA_END_ADDRESS : Z := 0x100000.

Definition KERNEL_OPTS : list Z := c_string "console=ttyS0 pci=conf1".

(** [memset(v->mem + off, 0, n)] *)
Definition memset0 m (off n : Z) : res ram :=
  if in_bounds m off n then Ok (set_bytes m off (replicate (Z.to_nat n) 0))
  else Fault OutOfBounds.

Definition e820_entry (addr size type : Z) : list Z :=
  le_bytes 8 addr ++ le_bytes 8 size ++ le_bytes 4 type.

(** The members of the setup header the program overwrites. *)
Definition set_header m : res ram :=
  m ← store 2 m (BOOT_PARAMS + off_vid_mode) 0xFFFF;
  m ← store 1 m (BOOT_PARAMS + off_type_of_loader) 0xFF;
  flags ← load 1 m (BOOT_PARAMS + off_loadflags);
  m ← store 1 m (BOOT_PARAMS + off_loadflags)
        (Z.lor flags (Z.lor (Z.lor CAN_USE_HEAP 0x01) KEEP_SEGMENTS));
  m ← store 2 m (BOOT_PARAMS + off_heap_end_ptr) 0xFE00;
  m ← store 1 m (BOOT_PARAMS + off_ext_loader_ver) 0;
  store 4 m (BOOT_PARAMS + off_cmd_line_ptr) 0x20000.

Definition set_e820 m : res ram :=
  m ← mwrite m (BOOT_PARAMS + off_e820_table) (e820_entry 0 (ISA_START_ADDRESS - 1) E820_RAM);
  m ← mwrite m (BOOT_PARAMS + off_e820_table + sizeof_e820_entry)
        (e820_entry ISA_END_ADDRESS (RAM_SIZE - ISA_END_ADDRESS) E820_RAM);
  store 1 m (BOOT_PARAMS + off_e820_entries) 2.

Definition load_image data (datasz : Z) m : res ram :=
  m ← memset0 m BOOT_PARAMS sizeof_boot_params;
  hdr ← mread data off_hdr sizeof_setup_header;
  m ← mwrite m (BOOT_PARAMS + off_hdr) hdr;
  setup_sectors ← load 1 m (BOOT_PARAMS + off_setup_sects);
  let setupsz := (setup_sectors + 1) * 512 in
  m ← set_header m;
  cmdline_size ← load 4 m (BOOT_PARAMS + off_cmdline_size);
  m ← memset0 m CMDLINE cmdline_size;
  m ← mwrite m CMDLINE KERNEL_OPTS;
  image ← mread data setupsz (u64 (datasz - setupsz));
  m ← mwrite m KERNEL image;
  set_e820 m.

Definition x86_load_image data (datasz : Z) : prog F Z :=
  on_vm (λ s, m ← load_image data datasz (mem s); Ok (set_mem m s, 0)).

(** The search of [vm_arch_load_initrd]: downwards in steps of 1 MiB; [None] is
    the error return. *)
Fixpoint initrd_search (fuel : nat) (addr datasz : Z) : res (option Z) :=
  match fuel with
  | O => Fault Diverges
  | S fuel =>
    if addr <? 0x100000 then Ok None
    else if addr <? u64 (RAM_SIZE - datasz) then Ok (Some addr)
    else initrd_search fuel (addr - 0x100000) datasz
  end.

(** The address is a multiple of 1 MiB below 4 GiB. *)
Definition initrd_fuel : nat := 4097.

Definition load_initrd data (datasz : Z) m : res (ram * Z) :=
  max ← load 4 m (BOOT_PARAMS + off_initrd_addr_max);
  place ← initrd_search initrd_fuel (Z.land max (unot 32 0xfffff)) datasz;
  match place with
  | None => Ok (m, -1)
  | Some addr =>
    m ← memset0 m addr datasz;
    bytes ← mread data 0 datasz;
    m ← mwrite m addr bytes;
    m ← store 4 m (BOOT_PARAMS + off_ramdisk_image) addr;
    m ← store 4 m (BOOT_PARAMS + off_ramdisk_size) datasz;
    Ok (m, 0)
  end.

Definition x86_load_initrd data (datasz : Z) : prog F Z :=
  on_vm (λ s, '(m, r) ← load_initrd data datasz (mem s); Ok (set_mem m s, r)).

Definition x86_late_init : prog F Z := mret 0.

Definition vm_irq_line (irq level : Z) : prog F Z := checked (SysIrqLine irq level) (mret 0).

Definition x86_arch : VmArch F := {|
  arch_consts := x86;
  vm_arch_init := x86_arch_init;
  vm_arch_cpu_init := x86_arch_cpu_init;
  vm_arch_init_platform_device := x86_arch_init_platform_device;
  vm_arch_load_image := x86_load_image;
  vm_arch_load_initrd := x86_load_initrd;
  vm_late_init := x86_late_init;
|}.
End x86.

(** * The boot image in guest memory *)

Lemma memset0_write (m : ram) off n :
  0 ≤ n → memset0 m off n = mwrite m off (replicate (Z.to_nat n) 0).
Proof.
  intros Hn. unfold memset0, mwrite. by replace (lenZ (replicate (Z.to_nat n) 0)) with n
    by (unfold lenZ; rewrite length_replicate; lia).
Qed.

(** ** The initial RAM disk *)

Definition MiB : Z := 0x100000.

(** [addr] is a place the search accepts for [datasz] bytes: on a MiB boundary,
    above the first MiB, and with its end below the end of memory. The header's
    [initrd_addr_max], the highest address the last byte may have, is not part of
    this: the code only starts the search at it. *)
Definition initrd_place (datasz addr : Z) : Prop :=
  addr `mod` MiB = 0 ∧ MiB ≤ addr ∧ addr + datasz < RAM_SIZE.

Lemma initrd_search_spec fuel addr datasz :
  0 ≤ datasz ≤ RAM_SIZE → addr `mod` MiB = 0 → 0 ≤ addr < MiB * Z.of_nat fuel →
  (∃ x, initrd_search fuel addr datasz = Ok (Some x) ∧ initrd_place datasz x ∧ x ≤ addr ∧
    ∀ y, initrd_place datasz y → y ≤ addr → y ≤ x) ∨
  (initrd_search fuel addr datasz = Ok None ∧ ∀ y, initrd_place datasz y → ¬ y ≤ addr).
Proof.
  intros Hd. assert (Hu : u64 (RAM_SIZE - datasz) = RAM_SIZE - datasz).
  { apply wrap_small. rewrite RAM_SIZE_eq in *. lia. }
  revert addr. induction fuel as [|fuel IH]; intros addr Hm Ha; [lia|]. cbn [initrd_search].
  rewrite Hu. unfold initrd_place, MiB in *.
  destruct (Z.ltb_spec addr 0x100000) as [Hlt|Hge]; [right; split; [done|lia]|].
  destruct (Z.ltb_spec addr (RAM_SIZE - datasz)) as [Hfit|Hno]; [left; exists addr|].
  { split_and!; try done; lia. }
  assert (Hbelow : ∀ y, y `mod` 0x100000 = 0 → y ≤ addr → y + datasz < RAM_SIZE →
    y ≤ addr - 0x100000).
  { intros y Hy Hle Hlt. pose proof (Z.div_mod y 0x100000 ltac:(lia)).
    pose proof (Z.div_mod addr 0x100000 ltac:(lia)).
    assert (y / 0x100000 < addr / 0x100000) by (apply Z.nle_gt; intros ?; assert (y = addr) by nia; lia).
    lia. }
  assert (Hm' : (addr - 0x100000) `mod` 0x100000 = 0).
  { replace (addr - 0x100000) with (addr + (-1) * 0x100000) by lia. by rewrite Z.mod_add. }
  destruct (IH (addr - 0x100000) Hm' ltac:(lia)) as [(x&E&Hp&Hx&Hmax)|[E Hnone]].
  - left. exists x. split_and!; [done|apply Hp..|lia|]. intros y Hy Hle. apply Hmax; [done|].
    apply Hbelow; [apply Hy|done|apply Hy].
  - right. split; [done|]. intros y Hy Hle. apply (Hnone y Hy).
    apply Hbelow; [apply Hy|done|apply Hy].
Qed.

Lemma mib_mask v : 0 ≤ v < 2 ^ 32 → Z.land v (unot 32 0xfffff) = MiB * (v / MiB).
Proof.
  intros Hv. change (unot 32 0xfffff) with 0xfff00000. apply (bits_ext 32); [lia| | |].
  - apply land_range_l; lia.
  - unfold MiB. pose proof (Z.div_mod v 0x100000 ltac:(lia)).
    pose proof (Z.mod_pos_bound v 0x100000 ltac:(lia)).
    assert (0 ≤ v / 0x100000) by (apply Z.div_pos; lia). lia.
  - intros i Hi. change 0xfff00000 with (Z.shiftl (Z.ones 12) 20).
    change (MiB * (v / MiB)) with (2 ^ 20 * (v / 2 ^ 20)).
    rewrite (Z.mul_comm (2 ^ 20)), <-Z.shiftl_mul_pow2, <-Z.shiftr_div_pow2 by lia.
    rewrite Z.land_spec, !Z.shiftl_spec by lia. destruct (Z.ltb_spec i 20).
    + rewrite !(Z.testbit_neg_r _ (i - 20)) by lia. apply andb_false_r.
    + rewrite Z.shiftr_spec, Z.ones_spec_low by lia. rewrite andb_true_r. f_equal. lia.
Qed.

Lemma mib_below y max : y `mod` MiB = 0 → y ≤ max → y ≤ MiB * (max / MiB).
Proof.
  intros Hy Hle. pose proof (Z.div_mod y MiB ltac:(done)) as Hyd.
  assert (y / MiB ≤ max / MiB) by (apply Z.div_le_mono; [done|lia]). unfold MiB in *. lia.
Qed.

(** The search from the limit of the header finds the highest place. *)
Lemma initrd_search_max max datasz :
  0 ≤ datasz ≤ RAM_SIZE → 0 ≤ max < 2 ^ 32 →
  let r := initrd_search initrd_fuel (Z.land max (unot 32 0xfffff)) datasz in
  (∃ x, r = Ok (Some x) ∧ initrd_place datasz x ∧ x ≤ max ∧
    ∀ y, initrd_place datasz y → y ≤ max → y ≤ x) ∨
  (r = Ok None ∧ ∀ y, initrd_place datasz y → ¬ y ≤ max).
Proof.
  intros Hd Hmax. rewrite mib_mask by done.
  assert (Hq : 0 ≤ max / MiB) by (apply Z.div_pos; unfold MiB; lia).
  pose proof (Z.div_mod max MiB ltac:(done)) as Hdm.
  pose proof (Z.mod_pos_bound max MiB ltac:(done)) as Hb.
  assert (Hup : ∀ y, initrd_place datasz y → y ≤ max → y ≤ MiB * (max / MiB)).
  { intros y (Hy&_). by apply mib_below. }
  destruct (initrd_search_spec initrd_fuel (MiB * (max / MiB)) datasz Hd)
    as [(x&E&Hp&Hx&Hm)|[E Hn]].
  - by rewrite Z.mul_comm, Z.mod_mul.
  - unfold MiB in *. split; [lia|]. change (Z.of_nat initrd_fuel) with 4097. lia.
  - left. exists x. split_and!; [done|apply Hp..|lia|]. intros y Hy Hle. apply Hm; auto.
  - right. split; [done|]. intros y Hy Hle. apply (Hn y Hy). auto.
Qed.

(** The RAM disk is loaded at [x]. *)
Record initrd_loaded (file : list Z) (x : Z) (m m' : ram) : Prop := {
  il_bytes : mread m' x (lenZ file) = Ok file;
  il_image : load 4 m' (BOOT_PARAMS + off_ramdisk_image) = Ok x;
  il_size : load 4 m' (BOOT_PARAMS + off_ramdisk_size) = Ok (lenZ file);
  il_other off n : 0 ≤ n →
    off + n ≤ x ∨ x + lenZ file ≤ off →
    off + n ≤ BOOT_PARAMS + off_ramdisk_image ∨ BOOT_PARAMS + off_ramdisk_size + 4 ≤ off →
    mread m' off n = mread m off n;
}.

Lemma load_initrd_at file x (m : ram) :
  initrd_place (lenZ file) x →
  ∃ m', (m ← memset0 m x (lenZ file);
         bytes ← mread (map_file file) 0 (lenZ file);
         m ← mwrite m x bytes;
         m ← store 4 m (BOOT_PARAMS + off_ramdisk_image) x;
         m ← store 4 m (BOOT_PARAMS + off_ramdisk_size) (lenZ file);
         Ok (m, 0)) = Ok (m', 0) ∧ initrd_loaded file x m m'.
Proof.
  intros (_&Hx&Hend). unfold MiB in Hx. rewrite RAM_SIZE_eq in Hend.
  assert (Hl : 0 ≤ lenZ file) by (unfold lenZ; lia).
  rewrite memset0_write by done.
  assert (Hl0 : lenZ (replicate (Z.to_nat (lenZ file)) 0) = lenZ file)
    by (unfold lenZ; rewrite length_replicate; lia).
  destruct (ram_write m x (replicate (Z.to_nat (lenZ file)) 0)) as [m1 E1];
    [lia|rewrite Hl0, RAM_SIZE_eq; lia|].
  destruct (ram_write m1 x file) as [m2 E2]; [lia|rewrite RAM_SIZE_eq; lia|].
  change (BOOT_PARAMS + off_ramdisk_image) with 0x10218.
  change (BOOT_PARAMS + off_ramdisk_size) with 0x1021c.
  destruct (ram_write m2 0x10218 (le_bytes 4 x)) as [m3 E3]; [lia|by rewrite lenZ_le_bytes|].
  destruct (ram_write m3 0x1021c (le_bytes 4 (lenZ file))) as [m4 E4]; [lia|by rewrite lenZ_le_bytes|].
  assert (Hs3 : store 4 m2 0x10218 x = Ok m3) by done.
  assert (Hs4 : store 4 m3 0x1021c (lenZ file) = Ok m4) by done.
  exists m4. rewrite E1, bind_Ok, map_file_all, bind_Ok.
  rewrite E2, bind_Ok, Hs3, bind_Ok, Hs4, bind_Ok. split; [done|].
  assert (L3 := lenZ_le_bytes 4 x ltac:(lia)). assert (L4 := lenZ_le_bytes 4 (lenZ file) ltac:(lia)).
  split.
  - rewrite (mread_mwrite_ne _ _ _ _ _ _ E4), (mread_mwrite_ne _ _ _ _ _ _ E3) by lia.
    apply (mread_mwrite_eq _ _ _ _ E2).
  - change (BOOT_PARAMS + off_ramdisk_image) with 0x10218.
    rewrite (load_store_ne 4 4 _ _ _ _ _ ltac:(lia) Hs4) by lia.
    rewrite (load_store_eq 4 _ _ _ _ ltac:(lia) Hs3). f_equal. apply wrap_small.
    change (0 ≤ x < 0x100000000). lia.
  - change (BOOT_PARAMS + off_ramdisk_size) with 0x1021c.
    rewrite (load_store_eq 4 _ _ _ _ ltac:(lia) Hs4). f_equal. apply wrap_small.
    change (0 ≤ lenZ file < 0x100000000). lia.
  - change (BOOT_PARAMS + off_ramdisk_image) with 0x10218.
    change (BOOT_PARAMS + off_ramdisk_size) with 0x1021c. intros off n Hn Hd Hb.
    rewrite (mread_mwrite_ne _ _ _ _ _ _ E4), (mread_mwrite_ne _ _ _ _ _ _ E3),
      (mread_mwrite_ne _ _ _ _ _ _ E2), (mread_mwrite_ne _ _ _ _ _ _ E1); [done|lia..].
Qed.

(** C11: the initial RAM disk is placed as high as possible, or refused. For a file
    no larger than memory, [load_initrd] ends: it loads the file on the highest MiB
    boundary that is at most the header's limit, above the first MiB (so clear of
    the boot parameters) and with the file's end below the end of memory, and
    reports the place and size in the header, touching nothing else; when there is
    no such place it returns an error and leaves memory alone. The limit is that of
    the last byte, and the code compares the first one: the last byte is within it
    for a file no longer than the part of the limit beyond its MiB boundary. *)
Theorem x86_initrd_placed file (m : ram) max :
  lenZ file ≤ RAM_SIZE → bytes_ok m →
  load 4 m (BOOT_PARAMS + off_initrd_addr_max) = Ok max →
  (∃ x m', load_initrd (map_file file) (lenZ file) m = Ok (m', 0) ∧
    initrd_place (lenZ file) x ∧ x ≤ max ∧
    (∀ y, initrd_place (lenZ file) y → y ≤ max → y ≤ x) ∧ initrd_loaded file x m m' ∧
    (lenZ file ≤ max `mod` MiB + 1 → x + lenZ file - 1 ≤ max)) ∨
  (load_initrd (map_file file) (lenZ file) m = Ok (m, -1) ∧
    ∀ y, initrd_place (lenZ file) y → ¬ y ≤ max).
Proof.
  intros Hl Hm Hmax. assert (0 ≤ lenZ file) by (unfold lenZ; lia).
  pose proof (load_range 4 m _ _ Hm Hmax) as Hr.
  unfold load_initrd. rewrite Hmax, bind_Ok.
  destruct (initrd_search_max max (lenZ file) ltac:(lia) Hr) as [(x&->&Hp&Hx&Hbest)|[-> Hn]];
    rewrite bind_Ok; [left|by right].
  destruct (load_initrd_at file x m Hp) as (m'&E&Hload). exists x, m'. split_and!; try done.
  intros Hlen. pose proof (mib_below x max (proj1 Hp) Hx).
  pose proof (Z.div_mod max MiB ltac:(done)). lia.
Qed.

(** C37: the RAM disk can pass the header's limit. When the file fits in memory at
    the MiB boundary below [initrd_addr_max] and is longer than the rest of the
    limit beyond that boundary, as any file of more than 1 MiB is, it is loaded
    there without an error and its last byte is above [initrd_addr_max]. *)
Theorem x86_initrd_passes_limit file (m : ram) max :
  let x := MiB * (max / MiB) in
  bytes_ok m → load 4 m (BOOT_PARAMS + off_initrd_addr_max) = Ok max →
  initrd_place (lenZ file) x → max `mod` MiB + 1 < lenZ file →
  ∃ m', load_initrd (map_file file) (lenZ file) m = Ok (m', 0) ∧
    initrd_loaded file x m m' ∧ max < x + lenZ file - 1.
Proof.
  intros x Hm Hmax Hp Hlong. pose proof (load_range 4 m _ _ Hm Hmax) as Hr.
  pose proof (Z.div_mod max MiB ltac:(done)) as Hdm.
  pose proof (Z.mod_pos_bound max MiB ltac:(done)) as Hb.
  assert (Hx : x ≤ max) by (unfold x; lia).
  assert (0 ≤ lenZ file) by (unfold lenZ; lia). destruct Hp as (Hp1&Hp2&Hp3).
  assert (0 ≤ lenZ file ≤ RAM_SIZE) as Hlen by (unfold MiB in *; lia).
  unfold load_initrd. rewrite Hmax, bind_Ok.
  destruct (initrd_search_max max (lenZ file) Hlen Hr) as [(y&->&Hy&Hym&Hbest)|[_ Hn]].
  - rewrite bind_Ok. assert (y = x) as ->.
    { pose proof (Hbest x ltac:(done) Hx). pose proof (mib_below y max (proj1 Hy) Hym). lia. }
    destruct (load_initrd_at file x m Hy) as (m'&E&Hload). exists m'. split_and!; [done..|lia].
  - by destruct (Hn x).
Qed.

Lemma initrd_search_S fuel addr datasz :
  initrd_search (S fuel) addr datasz =
    if addr <? 0x100000 then Ok None
    else if addr <? u64 (RAM_SIZE - datasz) then Ok (Some addr)
    else initrd_search fuel (addr - 0x100000) datasz.
Proof. reflexivity. Qed.

(** A RAM disk larger than memory is not refused: the 64-bit subtraction in the
    test wraps around, and the copy runs over the end of the mapping. *)
Theorem x86_initrd_too_large file (m : ram) max :
  RAM_SIZE < lenZ file < 2 ^ 40 → bytes_ok m →
  load 4 m (BOOT_PARAMS + off_initrd_addr_max) = Ok max → MiB ≤ max →
  load_initrd (map_file file) (lenZ file) m = Fault OutOfBounds.
Proof.
  intros Hl Hm Hmax Hge. pose proof (load_range 4 m _ _ Hm Hmax) as Hr.
  change (2 ^ (8 * 4)) with (2 ^ 32) in Hr.
  unfold load_initrd. rewrite Hmax, bind_Ok, mib_mask by done.
  set (a := MiB * (max / MiB)).
  assert (Ha : MiB ≤ a ≤ max).
  { unfold a, MiB in *. pose proof (Z.div_mod max 0x100000 ltac:(lia)).
    pose proof (Z.mod_pos_bound max 0x100000 ltac:(lia)).
    assert (1 ≤ max / 0x100000) by (apply Z.div_le_lower_bound; lia). lia. }
  assert (initrd_fuel = S (pred initrd_fuel)) as -> by done. rewrite initrd_search_S.
  assert (Hu : u64 (RAM_SIZE - lenZ file) = 2 ^ 64 + RAM_SIZE - lenZ file).
  { unfold u64, wrap. rewrite RAM_SIZE_eq in *.
    replace (0x40000000 - lenZ file) with (2 ^ 64 + 0x40000000 - lenZ file + (-1) * 2 ^ 64) by lia.
    rewrite Z.mod_add by lia. apply Z.mod_small. lia. }
  rewrite Hu. rewrite RAM_SIZE_eq in *. clearbody a.
  destruct (Z.ltb_spec a 0x100000); [unfold MiB in *; lia|].
  destruct (Z.ltb_spec a (2 ^ 64 + 0x40000000 - lenZ file)); [|lia].
  rewrite bind_Ok. unfold memset0, in_bounds. rewrite bsize_ram, RAM_SIZE_eq.
  destruct (Z.leb_spec (a + lenZ file) 0x40000000); [unfold MiB in *; lia|].
  by rewrite andb_false_r.
Qed.

(** ** The kernel image *)

(** [off, off + n) does not meet [lo, hi). *)
Definition clear_of (off n lo hi : Z) : Prop := off + n ≤ lo ∨ hi ≤ off.

Lemma write_frame (m m' : ram) off bs off' n :
  mwrite m off bs = Ok m' → clear_of off' n off (off + lenZ bs) →
  mread m' off' n = mread m off' n.
Proof. intros E Hc. by apply (mread_mwrite_ne _ _ _ _ _ _ E). Qed.

(** The header members that [set_header] writes. *)
Definition header_untouched (off n : Z) : Prop :=
  clear_of off n 0x101fa 0x101fc ∧ clear_of off n 0x10210 0x10212 ∧
  clear_of off n 0x10224 0x10227 ∧ clear_of off n 0x10228 0x1022c.

Lemma load_written k (m m' : ram) off v :
  0 ≤ k → 0 ≤ v < 2 ^ (8 * k) → store k m off v = Ok m' → load k m' off = Ok v.
Proof. intros Hk Hv E. rewrite (load_store_eq k _ _ _ _ Hk E). by rewrite wrap_small. Qed.

Lemma set_header_spec (m : ram) flags :
  load 1 m (BOOT_PARAMS + off_loadflags) = Ok flags → 0 ≤ flags < 256 →
  ∃ m', set_header m = Ok m' ∧
    (∀ off n, header_untouched off n → mread m' off n = mread m off n) ∧
    load 2 m' (BOOT_PARAMS + off_vid_mode) = Ok 0xFFFF ∧
    load 1 m' (BOOT_PARAMS + off_type_of_loader) = Ok 0xFF ∧
    load 1 m' (BOOT_PARAMS + off_loadflags) = Ok (Z.lor flags 0xC1) ∧
    load 2 m' (BOOT_PARAMS + off_heap_end_ptr) = Ok 0xFE00 ∧
    load 1 m' (BOOT_PARAMS + off_ext_loader_ver) = Ok 0 ∧
    load 4 m' (BOOT_PARAMS + off_cmd_line_ptr) = Ok CMDLINE.
Proof.
  intros Hfl Hr. unfold set_header.
  change (BOOT_PARAMS + off_vid_mode) with 0x101fa in *.
  change (BOOT_PARAMS + off_type_of_loader) with 0x10210 in *.
  change (BOOT_PARAMS + off_loadflags) with 0x10211 in *.
  change (BOOT_PARAMS + off_heap_end_ptr) with 0x10224 in *.
  change (BOOT_PARAMS + off_ext_loader_ver) with 0x10226 in *.
  change (BOOT_PARAMS + off_cmd_line_ptr) with 0x10228 in *.
  assert (Hw : ∀ k (m : ram) off v, 0 ≤ k → 0 ≤ off → off + k ≤ 0x40000000 →
    ∃ m', store k m off v = Ok m').
  { intros k m0 off v Hk Ho Hb. apply ram_write; [done|]. by rewrite lenZ_le_bytes. }
  destruct (Hw 2 m 0x101fa 0xFFFF) as [m1 E1]; [lia..|].
  destruct (Hw 1 m1 0x10210 0xFF) as [m2 E2]; [lia..|].
  set (fl := Z.lor flags (Z.lor (Z.lor CAN_USE_HEAP 0x01) KEEP_SEGMENTS)).
  destruct (Hw 1 m2 0x10211 fl) as [m3 E3]; [lia..|].
  destruct (Hw 2 m3 0x10224 0xFE00) as [m4 E4]; [lia..|].
  destruct (Hw 1 m4 0x10226 0) as [m5 E5]; [lia..|].
  destruct (Hw 4 m5 0x10228 0x20000) as [m6 E6]; [lia..|].
  assert (Hrd : load 1 m2 0x10211 = Ok flags).
  { rewrite (load_store_ne 1 1 _ _ _ _ _ ltac:(lia) E2), (load_store_ne 2 1 _ _ _ _ _ ltac:(lia) E1)
      by lia. done. }
  exists m6. rewrite E1, bind_Ok, E2, bind_Ok, Hrd, bind_Ok. fold fl.
  rewrite E3, bind_Ok, E4, bind_Ok, E5, bind_Ok. split; [exact E6|].
  assert (Hflr : 0 ≤ fl < 2 ^ (8 * 1)) by (apply (lor_range 8); [lia|done|by vm_compute]).
  assert (Hne : ∀ k k' (m m' : ram) o v o', store k m o v = Ok m' → 0 ≤ k →
    o' + k' ≤ o ∨ o + k ≤ o' → load k' m' o' = load k' m o').
  { intros k k' ma mb o v o' E Hk Hd. by apply (load_store_ne k k' ma o o' v mb Hk E). }
  split_and!.
  - intros off n (H1&H2&H3&H4). unfold clear_of in *.
    unfold store in *. rewrite (write_frame _ _ _ _ _ _ E6), (write_frame _ _ _ _ _ _ E5),
      (write_frame _ _ _ _ _ _ E4), (write_frame _ _ _ _ _ _ E3), (write_frame _ _ _ _ _ _ E2),
      (write_frame _ _ _ _ _ _ E1); try done; unfold clear_of; rewrite lenZ_le_bytes; lia.
  - rewrite (Hne _ _ _ _ _ _ _ E6), (Hne _ _ _ _ _ _ _ E5), (Hne _ _ _ _ _ _ _ E4),
      (Hne _ _ _ _ _ _ _ E3), (Hne _ _ _ _ _ _ _ E2) by lia.
    by eapply load_written; [| |exact E1].
  - rewrite (Hne _ _ _ _ _ _ _ E6), (Hne _ _ _ _ _ _ _ E5), (Hne _ _ _ _ _ _ _ E4),
      (Hne _ _ _ _ _ _ _ E3) by lia.
    by eapply load_written; [| |exact E2].
  - rewrite (Hne _ _ _ _ _ _ _ E6), (Hne _ _ _ _ _ _ _ E5), (Hne _ _ _ _ _ _ _ E4) by lia.
    by eapply load_written; [|exact Hflr|exact E3].
  - rewrite (Hne _ _ _ _ _ _ _ E6), (Hne _ _ _ _ _ _ _ E5) by lia.
    by eapply load_written; [| |exact E4].
  - rewrite (Hne _ _ _ _ _ _ _ E6) by lia. by eapply load_written; [| |exact E5].
  - by eapply load_written; [| |exact E6].
Qed.

(** The two usable ranges reported to the guest. *)
Definition e820_map : list Z :=
  e820_entry 0 (ISA_START_ADDRESS - 1) E820_RAM ++
  e820_entry ISA_END_ADDRESS (RAM_SIZE - ISA_END_ADDRESS) E820_RAM.

Lemma mread_app (m : ram) off n k bs cs :
  0 ≤ n → 0 ≤ k → mread m off n = Ok bs → mread m (off + n) k = Ok cs →
  mread m off (n + k) = Ok (bs ++ cs).
Proof.
  intros Hn Hk (Ho&_&Hb&->)%mread_ok_iff (_&_&Hc&->)%mread_ok_iff. rewrite mread_ok by lia.
  rewrite Z2Nat.inj_add, get_bytes_app, Z2Nat.id by lia. done.
Qed.

Lemma set_e820_spec (m : ram) :
  ∃ m', set_e820 m = Ok m' ∧
    (∀ off n, clear_of off n 0x101e8 0x101e9 → clear_of off n 0x102d0 0x102f8 →
      mread m' off n = mread m off n) ∧
    load 1 m' (BOOT_PARAMS + off_e820_entries) = Ok 2 ∧
    mread m' (BOOT_PARAMS + off_e820_table) 40 = Ok e820_map.
Proof.
  unfold set_e820, e820_map. change (BOOT_PARAMS + off_e820_table) with 0x102d0.
  change (0x102d0 + sizeof_e820_entry) with 0x102e4.
  change (BOOT_PARAMS + off_e820_entries) with 0x101e8.
  set (a := e820_entry 0 _ _). set (b := e820_entry ISA_END_ADDRESS _ _).
  assert (La : lenZ a = 20) by done. assert (Lb : lenZ b = 20) by done. clearbody a b.
  destruct (ram_write m 0x102d0 a) as [m1 E1]; [lia|rewrite RAM_SIZE_eq; lia|].
  destruct (ram_write m1 0x102e4 b) as [m2 E2]; [lia|rewrite RAM_SIZE_eq; lia|].
  destruct (ram_write m2 0x101e8 (le_bytes 1 2)) as [m3 E3]; [lia|done|].
  assert (L3 : lenZ (le_bytes 1 2) = 1) by done.
  exists m3. rewrite E1, bind_Ok, E2, bind_Ok. split; [exact E3|]. split_and!.
  - intros off n H1 H2. unfold clear_of in *.
    rewrite (write_frame _ _ _ _ _ _ E3), (write_frame _ _ _ _ _ _ E2),
      (write_frame _ _ _ _ _ _ E1); try done; unfold clear_of; lia.
  - by eapply load_written; [| |exact E3].
  - change 40 with (20 + 20). apply mread_app; [lia..| |].
    + rewrite (write_frame _ _ _ _ _ _ E3), (write_frame _ _ _ _ _ _ E2) by (unfold clear_of; lia).
      rewrite <-La. apply (mread_mwrite_eq _ _ _ _ E1).
    + change (0x102d0 + 20) with 0x102e4.
      rewrite (write_frame _ _ _ _ _ _ E3) by (unfold clear_of; lia).
      rewrite <-Lb. apply (mread_mwrite_eq _ _ _ _ E2).
Qed.

(** [n] bytes of zero. *)
Abbreviation zeros n := (replicate (Z.to_nat n) 0).

(** The members of [struct boot_params] besides header and memory map. *)
Definition params_unused (off n : Z) : Prop :=
  0 ≤ off ∧ 0 ≤ n ∧ off + n ≤ sizeof_boot_params ∧
  clear_of off n off_hdr (off_hdr + sizeof_setup_header) ∧
  clear_of off n off_e820_entries (off_e820_entries + 1) ∧
  clear_of off n off_e820_table (off_e820_table + 2 * sizeof_e820_entry).

(** The boot protocol state in memory. [setupsz] is the size of the real-mode
    part of the image. *)
Record boot_image (file : list Z) (setupsz cmdline_size : Z) (m' : ram) : Prop := {
  bi_kernel : mread m' KERNEL (lenZ file - setupsz) = Ok (drop (Z.to_nat setupsz) file);
  bi_cmdline : mread m' CMDLINE (lenZ KERNEL_OPTS) = Ok KERNEL_OPTS;
  bi_cmdline_rest off n : lenZ KERNEL_OPTS ≤ off → 0 ≤ n → off + n ≤ cmdline_size →
    mread m' (CMDLINE + off) n = Ok (zeros n);
  bi_zero off n : params_unused off n → mread m' (BOOT_PARAMS + off) n = Ok (zeros n);
  bi_header off n : off_hdr ≤ off → 0 ≤ n → off + n ≤ off_hdr + sizeof_setup_header →
    header_untouched (BOOT_PARAMS + off) n →
    mread m' (BOOT_PARAMS + off) n = Ok (get_bytes file off (Z.to_nat n));
  bi_vid_mode : load 2 m' (BOOT_PARAMS + off_vid_mode) = Ok 0xFFFF;
  bi_loader : load 1 m' (BOOT_PARAMS + off_type_of_loader) = Ok 0xFF;
  bi_loadflags flags : load 1 file off_loadflags = Ok flags →
    load 1 m' (BOOT_PARAMS + off_loadflags) = Ok (Z.lor flags 0xC1);
  bi_heap_end_ptr : load 2 m' (BOOT_PARAMS + off_heap_end_ptr) = Ok 0xFE00;
  bi_ext_loader_ver : load 1 m' (BOOT_PARAMS + off_ext_loader_ver) = Ok 0;
  bi_cmd_line_ptr : load 4 m' (BOOT_PARAMS + off_cmd_line_ptr) = Ok CMDLINE;
  bi_e820 : load 1 m' (BOOT_PARAMS + off_e820_entries) = Ok 2 ∧
    mread m' (BOOT_PARAMS + off_e820_table) 40 = Ok e820_map;
}.

(** Part of a cleared area. *)
Lemma mread_cleared (m m' : ram) off k off' n :
  mwrite m off (zeros k) = Ok m' → off ≤ off' → 0 ≤ n → off' + n ≤ off + k →
  mread m' off' n = Ok (zeros n).
Proof.
  intros E Ho Hn Hb. assert (Hk : 0 ≤ k) by lia.
  pose proof (mread_mwrite_eq _ _ _ _ E) as Hr.
  assert (Lk : lenZ (zeros k) = k) by (unfold lenZ; rewrite length_replicate; lia).
  rewrite Lk in Hr. apply mread_ok_iff in Hr as (H0&_&Hsz&Hr).
  rewrite mread_ok by lia. f_equal.
  replace off' with (off + (off' - off)) at 1 by lia.
  rewrite <-(get_bytes_sub m' off (Z.to_nat k)), <-Hr by lia.
  rewrite <-(Z2Nat.id (off' - off)), get_bytes_list by (rewrite ?length_replicate; lia).
  rewrite drop_replicate, take_replicate. f_equal. lia.
Qed.

(** The header of the image once copied behind a cleared [struct boot_params]. *)
Lemma copy_header file (m : ram) :
  0x26c ≤ lenZ file →
  ∃ m1 m2, memset0 m BOOT_PARAMS sizeof_boot_params = Ok m1 ∧
    (hdr ← mread (map_file file) off_hdr sizeof_setup_header;
     mwrite m1 (BOOT_PARAMS + off_hdr) hdr) = Ok m2 ∧
    (∀ off n, 0x1f1 ≤ off → 0 ≤ n → off + n ≤ 0x26c →
      mread m2 (BOOT_PARAMS + off) n = Ok (get_bytes file off (Z.to_nat n))) ∧
    (∀ off n, 0 ≤ off → 0 ≤ n → off + n ≤ 0x1000 → clear_of off n 0x1f1 0x26c →
      mread m2 (BOOT_PARAMS + off) n = Ok (zeros n)) ∧
    (∀ off n, clear_of off n 0x10000 0x11000 → mread m2 off n = mread m off n).
Proof.
  intros Hl. rewrite memset0_write by done. pose proof (mread_cleared m) as Hz.
  specialize (λ m', Hz m' BOOT_PARAMS sizeof_boot_params).
  set (z := replicate _ 0) in *. assert (Lz : lenZ z = 0x1000) by done. clearbody z.
  destruct (ram_write m BOOT_PARAMS z) as [m1 E1]; [done|by rewrite Lz|].
  rewrite map_file_read by (unfold off_hdr, sizeof_setup_header; lia).
  change (BOOT_PARAMS + off_hdr) with 0x101f1. change BOOT_PARAMS with 0x10000 in *.
  change (Z.to_nat sizeof_setup_header) with 123%nat. change off_hdr with 0x1f1.
  set (hdr := get_bytes file 0x1f1 123).
  assert (Lh : lenZ hdr = 0x7b) by (unfold hdr, lenZ; by rewrite length_get_bytes).
  destruct (ram_write m1 0x101f1 hdr) as [m2 E2]; [done|rewrite RAM_SIZE_eq; lia|].
  exists m1, m2. split_and!; [done|done| | |].
  - intros off n Ho Hn Hb. pose proof (mread_mwrite_eq _ _ _ _ E2) as Hr. rewrite Lh in Hr.
    apply mread_ok_iff in Hr as (_&_&Hsz&Hr). rewrite mread_ok by lia. f_equal.
    apply get_bytes_shift. intros j Hj.
    transitivity (bget hdr (off - 0x1f1 + j)).
    + rewrite Hr. symmetry. replace (0x10000 + off + j) with (0x101f1 + (off - 0x1f1 + j)) by lia.
      apply bget_get_bytes. lia.
    + unfold hdr. replace (off + j) with (0x1f1 + (off - 0x1f1 + j)) by lia.
      apply bget_get_bytes. lia.
  - intros off n Ho Hn Hb Hc. unfold clear_of in Hc.
    rewrite (write_frame _ _ _ _ _ _ E2) by (unfold clear_of; lia).
    apply (Hz _ _ _ E1); unfold sizeof_boot_params; lia.
  - intros off n Hc. unfold clear_of in Hc.
    rewrite (write_frame _ _ _ _ _ _ E2), (write_frame _ _ _ _ _ _ E1); try done;
      unfold clear_of; lia.
Qed.

Lemma load_header file (m2 : ram) k off v :
  0 ≤ k → 0x1f1 ≤ off → off + k ≤ 0x26c → 0x26c ≤ lenZ file →
  (∀ off n, 0x1f1 ≤ off → 0 ≤ n → off + n ≤ 0x26c →
    mread m2 (BOOT_PARAMS + off) n = Ok (get_bytes file off (Z.to_nat n))) →
  load k file off = Ok v → load k m2 (BOOT_PARAMS + off) = Ok v.
Proof.
  intros Hk Ho Hb Hl Hm <-. apply load_mread. rewrite Hm by lia.
  rewrite mread_ok; rewrite ?bsize_list; [done|lia..].
Qed.

Lemma drop_get_bytes (file : list Z) off :
  0 ≤ off ≤ lenZ file →
  get_bytes file off (Z.to_nat (lenZ file - off)) = drop (Z.to_nat off) file.
Proof.
  intros Ho. unfold lenZ in *. rewrite <-(Z2Nat.id off) at 1 by lia.
  rewrite get_bytes_list by lia. apply take_ge. rewrite length_drop. lia.
Qed.

(** The bytes written at [CMDLINE]. *)
Definition cmdline_area (cmdline_size : Z) : Z := Z.max cmdline_size (lenZ KERNEL_OPTS).

(** Everything behind the header: command line, kernel and memory map. *)
Lemma load_payload file setupsz cmdline_size (m : ram) :
  0 ≤ setupsz ≤ lenZ file → KERNEL + (lenZ file - setupsz) ≤ RAM_SIZE →
  0 ≤ cmdline_size ≤ KERNEL - CMDLINE →
  ∃ m', (m ← memset0 m CMDLINE cmdline_size;
         m ← mwrite m CMDLINE KERNEL_OPTS;
         image ← mread (map_file file) setupsz (u64 (lenZ file - setupsz));
         m ← mwrite m KERNEL image;
         set_e820 m) = Ok m' ∧
    mread m' KERNEL (lenZ file - setupsz) = Ok (drop (Z.to_nat setupsz) file) ∧
    mread m' CMDLINE (lenZ KERNEL_OPTS) = Ok KERNEL_OPTS ∧
    (∀ off n, lenZ KERNEL_OPTS ≤ off → 0 ≤ n → off + n ≤ cmdline_size →
      mread m' (CMDLINE + off) n = Ok (zeros n)) ∧
    load 1 m' (BOOT_PARAMS + off_e820_entries) = Ok 2 ∧
    mread m' (BOOT_PARAMS + off_e820_table) 40 = Ok e820_map ∧
    (∀ off n, clear_of off n CMDLINE (CMDLINE + cmdline_area cmdline_size) →
      clear_of off n KERNEL (KERNEL + (lenZ file - setupsz)) →
      clear_of off n 0x101e8 0x101e9 → clear_of off n 0x102d0 0x102f8 →
      mread m' off n = mread m off n).
Proof.
  change KERNEL with 0x100000. change CMDLINE with 0x20000. rewrite RAM_SIZE_eq.
  intros Hset Hfit Hcl. rewrite memset0_write by lia.
  pose proof (λ m', mread_cleared m m' 0x20000 cmdline_size) as Hz.
  set (z := replicate (Z.to_nat cmdline_size) 0) in *.
  assert (Lz : lenZ z = cmdline_size) by (unfold z, lenZ; rewrite length_replicate; lia). clearbody z.
  destruct (ram_write m 0x20000 z) as [m4 E4]; [done|rewrite Lz, RAM_SIZE_eq; lia|].
  destruct (ram_write m4 0x20000 KERNEL_OPTS) as [m5 E5]; [done|done|].
  unfold cmdline_area. assert (Lk : lenZ KERNEL_OPTS = 24) by done. rewrite Lk.
  rewrite E4, bind_Ok, E5, bind_Ok, (wrap_small 64), map_file_read by lia.
  rewrite drop_get_bytes by lia. rewrite bind_Ok.
  remember (drop (Z.to_nat setupsz) file) as img eqn:Ei.
  assert (Li : lenZ img = lenZ file - setupsz) by (rewrite Ei; unfold lenZ in *; rewrite length_drop; lia).
  destruct (ram_write m5 0x100000 img) as [m6 E6]; [done|rewrite RAM_SIZE_eq; lia|].
  rewrite E6, bind_Ok. destruct (set_e820_spec m6) as (m7&E7&Hfr7&Hn7&Ht7).
  exists m7. split; [exact E7|]. clear E7. split_and!; [| | |exact Hn7|exact Ht7|].
  - rewrite Hfr7, <-Li by (unfold clear_of; lia). apply (mread_mwrite_eq _ _ _ _ E6).
  - rewrite Hfr7, (write_frame _ _ _ _ _ _ E6) by (unfold clear_of; lia).
    rewrite <-Lk. apply (mread_mwrite_eq _ _ _ _ E5).
  - intros off n Ho Hn Hb.
    rewrite Hfr7, (write_frame _ _ _ _ _ _ E6), (write_frame _ _ _ _ _ _ E5)
      by (unfold clear_of; lia). apply (Hz _ _ _ E4); lia.
  - intros off n Hc Hc0 Hc1 Hc2. unfold clear_of in Hc, Hc0. rewrite (Hfr7 off n Hc1 Hc2).
    rewrite (write_frame _ _ _ _ _ _ E6), (write_frame _ _ _ _ _ _ E5),
      (write_frame _ _ _ _ _ _ E4) by (unfold clear_of; lia). reflexivity.
Qed.

(** Fields of the header are clear of the areas written later. *)
Ltac header_field :=
  unfold clear_of, BOOT_PARAMS, off_vid_mode, off_type_of_loader, off_loadflags,
    off_heap_end_ptr, off_ext_loader_ver, off_cmd_line_ptr; lia.

(** What [load_image] does with an image of [sects] setup sectors. *)
Lemma load_image_spec file (m : ram) sects cmdline_size :
  Forall byte_ok file → 0x26c ≤ lenZ file →
  load 1 file off_setup_sects = Ok sects → let setupsz := (sects + 1) * 512 in
  setupsz ≤ lenZ file → KERNEL + (lenZ file - setupsz) ≤ RAM_SIZE →
  load 4 file off_cmdline_size = Ok cmdline_size → cmdline_size ≤ KERNEL - CMDLINE →
  ∃ m', load_image (map_file file) (lenZ file) m = Ok m' ∧
    boot_image file setupsz cmdline_size m' ∧
    ∀ off n, clear_of off n BOOT_PARAMS (BOOT_PARAMS + sizeof_boot_params) →
      clear_of off n CMDLINE (CMDLINE + cmdline_area cmdline_size) →
      clear_of off n KERNEL (KERNEL + (lenZ file - setupsz)) → mread m' off n = mread m off n.
Proof.
  intros Hb Hl Hsec setupsz Hset Hfit Hcs Hcl. pose proof (proj2 (bytes_ok_list file) Hb) as Hbf.
  pose proof (load_range 1 file _ _ Hbf Hsec) as Hsr. change (2 ^ (8 * 1)) with 256 in Hsr.
  pose proof (load_range 4 file _ _ Hbf Hcs) as Hcr.
  destruct (load 1 file off_loadflags) as [flags|] eqn:Hfl.
  2:{ exfalso. unfold load in Hfl. rewrite mread_ok in Hfl; [done|done|done|].
      rewrite bsize_list. change off_loadflags with 0x211. lia. }
  pose proof (load_range 1 file _ _ Hbf Hfl) as Hfr.
  destruct (copy_header file m Hl) as (m1&m2&E1&E2&Hhdr&Hz2&Hfr2).
  unfold load_image. rewrite E1, bind_Ok.
  apply bind_ok_iff in E2 as (hdr&->&E2). rewrite bind_Ok, E2, bind_Ok.
  rewrite (load_header file m2 1 off_setup_sects sects) by done. rewrite bind_Ok.
  destruct (set_header_spec m2 flags) as (m3&E3&Hfr3&Hvid&Hldr&Hlf&Hheap&Hext&Hptr);
    [by apply (load_header file)|done|]. rewrite E3, bind_Ok.
  assert (Hcs3 : load 4 m3 (BOOT_PARAMS + off_cmdline_size) = Ok cmdline_size).
  { rewrite (load_mread 4 m3 m2 _ (BOOT_PARAMS + off_cmdline_size)); [by apply (load_header file)|].
    apply Hfr3. unfold header_untouched, clear_of. vm_compute; intuition congruence. }
  rewrite Hcs3, bind_Ok.
  destruct (load_payload file setupsz cmdline_size m3) as (m7&E7&Hker&Hcmd&Hrest&Hn7&Ht7&Hfr7);
    [unfold setupsz in *; lia|done|lia|]. exists m7. split; [exact E7|]. clear E7.
  unfold CMDLINE, KERNEL in Hfr7, Hcl |- *.
  assert (Hp7 : ∀ off n, off + n ≤ 0x20000 → clear_of off n 0x101e8 0x101e9 →
    clear_of off n 0x102d0 0x102f8 → mread m7 off n = mread m3 off n).
  { intros off n Ho. apply Hfr7; unfold clear_of; lia. }
  split.
  - split; [exact Hker|exact Hcmd|exact Hrest| | | | | | | | |by split].
    + intros off n (Ho&Hn&Hend&Hc1&Hc2&Hc3). unfold clear_of in *.
      unfold off_hdr, sizeof_setup_header, off_e820_entries, off_e820_table, sizeof_e820_entry,
        sizeof_boot_params, BOOT_PARAMS in *.
      rewrite Hp7, Hfr3 by (unfold header_untouched, clear_of; lia). apply Hz2; lia.
    + unfold off_hdr, sizeof_setup_header, BOOT_PARAMS in *. intros off n Ho Hn Hend Hun.
      rewrite Hp7 by (unfold clear_of; lia). rewrite Hfr3 by done. apply Hhdr; lia.
    + rewrite <-Hvid. apply load_mread, Hp7; header_field.
    + rewrite <-Hldr. apply load_mread, Hp7; header_field.
    + intros fl E. rewrite Hfl in E. injection E as <-. rewrite <-Hlf.
      apply load_mread, Hp7; header_field.
    + rewrite <-Hheap. apply load_mread, Hp7; header_field.
    + rewrite <-Hext. apply load_mread, Hp7; header_field.
    + rewrite <-Hptr. apply load_mread, Hp7; header_field.
  - change (BOOT_PARAMS + sizeof_boot_params) with 0x11000. change BOOT_PARAMS with 0x10000.
    intros off n Hc1 Hc2 Hc3. rewrite (Hfr7 off n Hc2 Hc3) by (unfold clear_of in *; lia).
    unfold clear_of in *. rewrite Hfr3 by (unfold header_untouched, clear_of; lia).
    apply Hfr2. unfold clear_of. lia.
Qed.

(** The size of the real-mode part by the boot protocol, where 0 setup sectors
    stand for 4. *)
Definition protocol_setupsz (sects : Z) : Z := ((if sects =? 0 then 4 else sects) + 1) * 512.

(** C10: a kernel image is loaded as the boot protocol asks. For an image that
    states the number of its setup sectors, holds them, and whose kernel part and
    command line area fit in memory, [load_image] succeeds: the kernel proper lies
    at 1 MiB, where the instruction pointer starts; the setup header is at its
    place in [struct boot_params], at the address the vCPU is given, with the
    image's values except for the six members the loader sets (video mode, loader
    type, load flags, heap end, loader version, command line pointer); the memory
    map is in place and the rest of [struct boot_params] is zero; the command line
    is followed by zeros up to [cmdline_size]; and memory outside the three areas
    is unchanged. *)
Theorem x86_image_loaded file (m : ram) sects cmdline_size :
  Forall byte_ok file → 0x26c ≤ lenZ file →
  load 1 file off_setup_sects = Ok sects → sects ≠ 0 → let setupsz := protocol_setupsz sects in
  setupsz ≤ lenZ file → KERNEL + (lenZ file - setupsz) ≤ RAM_SIZE →
  load 4 file off_cmdline_size = Ok cmdline_size → cmdline_size ≤ KERNEL - CMDLINE →
  ∃ m', load_image (map_file file) (lenZ file) m = Ok m' ∧
    boot_image file setupsz cmdline_size m' ∧
    ∀ off n, clear_of off n BOOT_PARAMS (BOOT_PARAMS + sizeof_boot_params) →
      clear_of off n CMDLINE (CMDLINE + cmdline_area cmdline_size) →
      clear_of off n KERNEL (KERNEL + (lenZ file - setupsz)) → mread m' off n = mread m off n.
Proof.
  unfold protocol_setupsz. intros Hb Hl Hsec Hne. rewrite (proj2 (Z.eqb_neq _ _) Hne).
  by apply load_image_spec.
Qed.

(** An image that leaves the number of setup sectors at 0, which the protocol reads
    as 4, has its kernel taken from offset 512 instead of 2560. *)
Theorem x86_setup_sects_zero file (m : ram) cmdline_size :
  Forall byte_ok file → protocol_setupsz 0 ≤ lenZ file →
  load 1 file off_setup_sects = Ok 0 → KERNEL + (lenZ file - 512) ≤ RAM_SIZE →
  load 4 file off_cmdline_size = Ok cmdline_size → cmdline_size ≤ KERNEL - CMDLINE →
  ∃ m', load_image (map_file file) (lenZ file) m = Ok m' ∧
    mread m' KERNEL (lenZ file - 512) = Ok (drop 512 file).
Proof.
  intros Hb Hl Hsec Hfit Hcs Hcl. change (protocol_setupsz 0) with 2560 in Hl.
  destruct (load_image_spec file m 0 cmdline_size) as (m'&E&Hi&_); try done; try lia.
  exists m'. split; [exact E|]. apply (bi_kernel _ _ _ _ Hi).
Qed.

(** ** Witnesses *)

Definition demo_initrd_ram : ram := set_bytes ram_zero 0x1022c (le_bytes 4 0x37ffffff).

Lemma x86_initrd_placed_witness :
  ∃ x m', load_initrd (map_file [1; 2; 3]) (lenZ [1; 2; 3]) demo_initrd_ram = Ok (m', 0) ∧
    0 ≤ x ≤ 0x37ffffff ∧ mread m' x (lenZ [1; 2; 3]) = Ok [1; 2; 3].
Proof.
  destruct (x86_initrd_placed [1; 2; 3] demo_initrd_ram 0x37ffffff) as [(x&m'&E&Hp&Hx&_&Hl&_)|[_ Hn]].
  - rewrite RAM_SIZE_eq. vm_compute. congruence.
  - apply bytes_ok_set; [apply ram_bytes_ok_zero|by apply le_bytes_ok|done|].
    rewrite bsize_ram, RAM_SIZE_eq. vm_compute. congruence.
  - vm_compute. reflexivity.
  - exists x, m'. split_and!; [exact E|destruct Hp as (_&Hp&_); unfold MiB in Hp; lia|exact Hx|].
    apply (il_bytes _ _ _ _ Hl).
  - exfalso. apply (Hn MiB); [|unfold MiB; lia]. split_and!; [done|done|].
    rewrite RAM_SIZE_eq. reflexivity.
Defined.

(** A RAM disk of three bytes under the limit 0x100001. *)
Lemma x86_initrd_passes_limit_witness :
  ∃ m', load_initrd (map_file [1; 2; 3]) (lenZ [1; 2; 3])
      (set_bytes ram_zero 0x1022c (le_bytes 4 0x100001)) = Ok (m', 0) ∧
    mread m' 0x100000 3 = Ok [1; 2; 3] ∧ 0x100001 < 0x100000 + 3 - 1.
Proof.
  destruct (x86_initrd_passes_limit [1; 2; 3] (set_bytes ram_zero 0x1022c (le_bytes 4 0x100001))
    0x100001) as (m'&E&Hl&Hlast).
  - apply bytes_ok_set; [apply ram_bytes_ok_zero|by apply le_bytes_ok|done|].
    rewrite bsize_ram, RAM_SIZE_eq. vm_compute. congruence.
  - vm_compute. reflexivity.
  - unfold initrd_place. rewrite RAM_SIZE_eq. vm_compute. intuition congruence.
  - vm_compute. reflexivity.
  - exists m'. split_and!; [exact E|apply (il_bytes _ _ _ _ Hl)|exact Hlast].
Defined.

(** An image with one setup sector and 512 bytes of kernel. *)
Definition demo_kernel : list Z := replicate 0x1f1 0 ++ [1] ++ replicate 526 0 ++ replicate 512 0x90.

Lemma x86_image_loaded_witness :
  ∃ m', load_image (map_file demo_kernel) (lenZ demo_kernel) ram_zero = Ok m' ∧
    boot_image demo_kernel 1024 0 m'.
Proof.
  destruct (x86_image_loaded demo_kernel ram_zero 1 0) as (m'&E&Hb&_).
  - apply (proj1 (bytes_ok_list demo_kernel)), bytes_ok_check. reflexivity.
  - vm_compute. congruence.
  - reflexivity.
  - lia.
  - vm_compute. congruence.
  - rewrite RAM_SIZE_eq. vm_compute. congruence.
  - reflexivity.
  - done.
  - exists m'. split; [exact E|exact Hb].
Defined.

(** * The port space *)

(** The nodes on [io_bus] once the platform is set up, last registered first. *)
Definition data_node : hdev := mkDev PCI_CONFIG_DATA 4 OPci F_pci_data_io (Some PPciAddr).
Definition addr_node : hdev := mkDev PCI_CONFIG_ADDR 4 OPci F_pci_address_io None.

Definition x86_ports : gmap dev_ptr hdev :=
  {[ PSerial := serial_node (Some PPciBus); PPciBus := data_node; PPciAddr := addr_node ]}.

Lemma x86_ports_only p : port_ptr p = false → x86_ports !! p = None.
Proof.
  intros Hp. unfold x86_ports. rewrite !lookup_insert_ne, lookup_singleton_ne; [done|by intros <-..].
Qed.

Abbreviation x86_fixed := (ports_fixed x86_ports (Some PSerial)).

Section ports.
Context {F : Type} `{HostFile F} (blk_fuel : nat).
Implicit Types (s : vm_t F).

(** The buses after the platform is set up; [pci_mmio_dev] is initialised but on no
    bus. *)
Definition x86_buses : buses :=
  mkBuses (<[PPciMmio := mkDev 0 PCI_MMIO_SIZE OPci F_pci_mmio_io None]> x86_ports)
    (mkBus 3 (Some PSerial)) bus_init bus_init.

Lemma x86_buses_fixed : io_fixed x86_ports (Some PSerial) x86_buses.
Proof.
  split; [by apply insert_subseteq_r|done| |].
  - split; [done|]. intros p d q Hp. cbn [x86_buses devs]. destruct (decide (p = PPciMmio)) as [->|].
    + rewrite lookup_insert_eq. by intros [= <-].
    + rewrite lookup_insert_ne, x86_ports_only by (done || by apply region_not_port). done.
  - split; [|done..]. cbn [x86_buses devs]. unfold x86_ports.
    repeat apply map_Forall_insert_2; [..|apply map_Forall_empty]; done.
Qed.

Lemma x86_platform_eq s :
  fresh s → x86_platform s =
    Ok (virtio_blk_init (set_vm_buses x86_buses (emit_vm (EvThread serial_thread) s)), 0).
Proof. unfold fresh. intros Hs. unfold x86_platform. rewrite Hs. reflexivity. Qed.

(** The machine [vm_init] leaves when every call succeeds. *)
Definition x86_machine (s : vm_t F) : vm_t F :=
  virtio_blk_init (set_vm_buses x86_buses (emit_vm (EvThread serial_thread) s)).

Lemma x86_machine_fixed s :
  no_io_bars (vd_pci (net s)) → x86_fixed (pci_part (x86_machine s)).
Proof.
  intros Hn. unfold x86_machine, virtio_blk_init.
  destruct (pci_dev_init_fixed x86_ports (Some PSerial) x86_ports_only VirtioBlk x86_buses)
    as [Hd HB]; [apply x86_buses_fixed|].
  cbn [vm_buses set_vm_buses emit_vm set_log]. destruct (pci_dev_init VirtioBlk x86_buses) as [d B].
  split; [exact HB|]. intros []; [exact Hd|exact Hn].
Qed.

(** What an access of [size] bytes at [port] does. *)
Definition x86_route (data : list Z) (out : bool) (port size : Z) s : res (vm_t F * list Z) :=
  if (0x3f8 <=? port) && (port + size <=? 0x400) then
    on_serial (serial_handle_io SERIAL_IRQ data out (port - 0x3f8) size) s
  else if (0xcf8 <=? port) && (port + size <=? 0xcfc) then
    on_pci (pci_address_io data out (port - 0xcf8) size) s
  else if (0xcfc <=? port) && (port + size <=? 0xd00) then
    pci_data_io pci_part (run_callback blk_fuel (pred call_depth)) data out (port - 0xcfc) size s
  else Ok (s, data).

Lemma x86_nodes (h : gmap dev_ptr hdev) :
  x86_ports ⊆ h → h !! PSerial = Some (serial_node (Some PPciBus)) ∧
    h !! PPciBus = Some data_node ∧ h !! PPciAddr = Some addr_node.
Proof. intros Hk. split_and!; (eapply lookup_weaken; [|exact Hk]); reflexivity. Qed.

Lemma x86_find s port :
  x86_fixed (pci_part s) → 0 ≤ port < 2 ^ 63 →
  bus_find_dev (devs (vm_buses s)) (io_bus (vm_buses s)) port =
    Ok (if (0x3f8 <=? port) && (port <=? 0x3ff) then Some PSerial
        else if (0xcfc <=? port) && (port <=? 0xcff) then Some PPciBus
        else if (0xcf8 <=? port) && (port <=? 0xcfb) then Some PPciAddr else None).
Proof.
  intros [[Hk Hh _ _] _] Hp. change (pw_buses (pci_part s)) with (vm_buses s) in *.
  destruct (x86_nodes _ Hk) as (H1&H2&H3).
  rewrite (bus_find_dev_repr _ _ [PSerial; PPciBus; PPciAddr]).
  - unfold abs_find, hits. cbn [List.find]. rewrite H1, H2, H3. unfold dev_hit.
    cbn [serial_node data_node addr_node base len].
    change (u64 (COM1_PORT_BASE + COM1_PORT_SIZE - 1)) with 0x3ff.
    change (u64 (PCI_CONFIG_DATA + 4 - 1)) with 0xcff.
    change (u64 (PCI_CONFIG_ADDR + 4 - 1)) with 0xcfb.
    unfold COM1_PORT_BASE, PCI_CONFIG_DATA, PCI_CONFIG_ADDR. by repeat case_match.
  - unfold bus_repr. rewrite Hh. cbn [chain]. eauto 10.
Qed.

Lemma x86_access_route data out port size s :
  x86_fixed (pci_part s) → 0 ≤ port < 2 ^ 63 → 1 ≤ size < 256 →
  bus_access blk_fuel IoBus data out port size s = x86_route data out port size s.
Proof.
  intros Hf Hp Hs. unfold bus_access, bus_handle_io, x86_route. cbn [get_bus].
  rewrite x86_find by done. destruct Hf as [[Hk _ _ _] _]. rewrite bind_Ok.
  destruct (x86_nodes _ Hk) as (H1&H2&H3). change (pw_buses (pci_part s)) with (vm_buses s) in *.
  assert (Hend : u64 (port + size - 1) = port + size - 1) by (apply wrap_small; lia).
  rewrite Hend. change call_depth with (S (pred call_depth)).
  assert (Hoff : ∀ b, 0 ≤ b ≤ port → u64 (port - b) = port - b) by (intros; apply wrap_small; lia).
  destruct (Z.leb_spec 0x3f8 port), (Z.leb_spec port 0x3ff), (Z.leb_spec 0xcfc port),
    (Z.leb_spec port 0xcff), (Z.leb_spec 0xcf8 port), (Z.leb_spec port 0xcfb); try lia;
    cbn [andb]; rewrite ?H1, ?H2, ?H3; cbn [from_option_res]; rewrite ?bind_Ok;
    cbn [serial_node data_node addr_node base len owner do_io].
  all: change (u64 (COM1_PORT_BASE + COM1_PORT_SIZE - 1)) with 0x3ff;
    change (u64 (PCI_CONFIG_DATA + 4 - 1)) with 0xcff;
    change (u64 (PCI_CONFIG_ADDR + 4 - 1)) with 0xcfb;
    unfold COM1_PORT_BASE, PCI_CONFIG_DATA, PCI_CONFIG_ADDR;
    repeat match goal with |- context [?a <=? ?b] => destruct (Z.leb_spec a b); try lia end;
    rewrite ?Hoff by lia; reflexivity.
Qed.
End ports.
