(* ===== verification/Arm.v ===== *)
(** * The arm64 machine (src/arch/arm64/vm.c, src/arch/arm64/vm-arch.h, desc.h)

    The interrupt controller, the vCPU, the memory map with its windows for I/O
    ports and PCI configuration, the Linux arm64 boot protocol and the device
    tree. libfdt is not part of the program: the device tree is written through
    an interface [Libfdt] of its sequential-write functions, of which only the
    return values matter to the code. *)

From Stdlib Require Import String.
From stdpp Require Import base tactics numbers list gmap functions.
From S2P Require Import Prelude.
From S2P Require Import Host.
From S2P Require Import Bus.
From S2P Require Import Serial.
From S2P Require Import Devices.
From S2P Require Import Pci.
From S2P Require Import GuestMem.
From S2P Require Import Disk.
From S2P Require Import Machine.
From S2P Require Import VirtioPci.
From S2P Require Import VirtioBlk.
From S2P Require Import Vm.
From S2P Require Import Kvm.
Open Scope Z_scope.

#[local] Existing Instance arm64.

(** ** The memory map *)

Definition SZ_64K : Z := Z.shiftl 1 16.
Definition FDT_MAX_SIZE : Z := Z.shiftl 1 21.
Definition ARM_IOPORT_BASE : Z := 0.
Definition ARM_IOPORT_SIZE : Z := Z.shiftl 1 16.
Definition ARM_GIC_BASE : Z := 0x100000.
Definition ARM_GIC_DIST_BASE : Z := ARM_GIC_BASE.
Definition ARM_GIC_DIST_SIZE : Z := SZ_64K.
Definition ARM_GIC_REDIST_CPUI_BASE : Z := ARM_GIC_DIST_BASE + ARM_GIC_DIST_SIZE.
Definition ARM_GIC_REDIST_CPUI_SIZE : Z := 2 * SZ_64K.
Definition ARM_PCI_CFG_BASE : Z := 0x40000000.
Definition ARM_PCI_CFG_SIZE : Z := Z.shiftl 1 16.
Definition ARM_PCI_MMIO_BASE : Z := ARM_PCI_CFG_BASE + ARM_PCI_CFG_SIZE.
Definition ARM_PCI_MMIO_SIZE : Z := RAM_BASE - ARM_PCI_MMIO_BASE.
Definition ARM_KERNEL_BASE : Z := RAM_BASE.
Definition ARM_KERNEL_SIZE : Z := 0x8000000.
Definition ARM_INITRD_BASE : Z := ARM_KERNEL_BASE + ARM_KERNEL_SIZE.
Definition ARM_INITRD_SIZE : Z := 0x8000000.
Definition ARM_FDT_BASE : Z := ARM_INITRD_BASE + ARM_INITRD_SIZE.
Definition ARM_FDT_SIZE : Z := FDT_MAX_SIZE.

(** ** Constants of the KVM interface *)

Definition KVM_DEV_TYPE_ARM_VGIC_V2 : Z := 5.
Definition KVM_DEV_TYPE_ARM_VGIC_V3 : Z := 7.
Definition KVM_DEV_ARM_VGIC_GRP_ADDR : Z := 0.
Definition KVM_DEV_ARM_VGIC_GRP_CTRL : Z := 4.
Definition KVM_DEV_ARM_VGIC_CTRL_INIT : Z := 0.
Definition KVM_VGIC_V2_ADDR_TYPE_DIST : Z := 0.
Definition KVM_VGIC_V2_ADDR_TYPE_CPU : Z := 1.
Definition KVM_VGIC_V3_ADDR_TYPE_DIST : Z := 2.
Definition KVM_VGIC_V3_ADDR_TYPE_REDIST : Z := 3.
Definition IRQCHIP_TYPE_GIC_V2 : Z := 1.
Definition IRQCHIP_TYPE_GIC_V3 : Z := 2.
Definition KVM_REG_ARM64 : Z := 0x6000000000000000.
Definition KVM_REG_SIZE_U64 : Z := 0x30000000000000.
Definition KVM_REG_ARM_CORE : Z := Z.shiftl 0x10 16.
Definition KVM_REG_ARM64_SYSREG : Z := Z.shiftl 0x13 16.

(** [__REG(r)] for the core register at byte [offset] of [struct kvm_regs]. *)
Definition core_reg (offset : Z) : Z :=
  Z.lor (Z.lor (Z.lor (offset / 4) KVM_REG_ARM_CORE) KVM_REG_ARM64) KVM_REG_SIZE_U64.
Definition reg_x (i : Z) : Z := core_reg (8 * i).
Definition reg_pc : Z := core_reg (8 * 32).

(** [ARM64_SYS_REG(3, 0, 0, 0, 5)] *)
Definition ARM_MPIDR_REG_ID : Z :=
  Z.lor (Z.lor (Z.lor KVM_REG_ARM64 KVM_REG_SIZE_U64) KVM_REG_ARM64_SYSREG)
    (Z.lor (Z.shiftl 3 14) 5).
Definition ARM_MPIDR_BITMASK : Z := 0xFF00FFFFFF.

(** ** The device tree through libfdt *)

Inductive fdt_op :=
  | FdtCreate (size : Z)
  | FdtFinishReservemap
  | FdtBeginNode (name : string)
  | FdtProperty (name : string) (value : list Z)
  | FdtEndNode
  | FdtFinish.

(** The writer: a state, and for each function the new state and return value. *)
Class Libfdt (T : Type) := { fdt_call : fdt_op → T → T * Z }.

(** Big-endian scalars: [cpu_to_fdt32], [cpu_to_fdt64]. *)
Definition be_bytes (k v : Z) : list Z := rev (le_bytes k v).
Definition cpu_to_fdt32 (v : Z) : list Z := be_bytes 4 v.
Definition cpu_to_fdt64 (v : Z) : list Z := be_bytes 8 v.

Definition fdt_property_cell (name : string) (v : Z) : fdt_op :=
  FdtProperty name (cpu_to_fdt32 (u32 v)).
Definition fdt_property_u64 (name : string) (v : Z) : fdt_op :=
  FdtProperty name (cpu_to_fdt64 v).
Definition fdt_property_string (name str : string) : fdt_op := FdtProperty name (c_string str).

Definition FDT_PHANDLE_GIC : Z := 1.
Definition FDT_PCI_MMIO_SPACE : Z := 0x02000000.
Definition ARM_FDT_IRQ_TYPE_SPI : Z := 0.
Definition ARM_FDT_IRQ_EDGE_TRIGGER : Z := 1.
Definition ARM_FDT_IRQ_LEVEL_TRIGGER : Z := 4.
Definition KERNEL_OPTS_ARM : string := "console=ttyS0".

(** The calls of [generate_fdt] up to the CPU node. *)
Definition fdt_head (initrdsz : Z) : list fdt_op :=
  [ FdtCreate FDT_MAX_SIZE;
    FdtFinishReservemap;
    FdtBeginNode "";
    fdt_property_cell "#address-cells" 0x2;
    fdt_property_cell "#size-cells" 0x2;
    fdt_property_cell "interrupt-parent" FDT_PHANDLE_GIC;
    fdt_property_string "compatible" "linux,dummy-virt";
    FdtBeginNode "chosen";
    fdt_property_string "bootargs" KERNEL_OPTS_ARM;
    fdt_property_string "stdout-path" "/uart" ] ++
  (if 0 <? initrdsz then
     [ fdt_property_u64 "linux,initrd-start" ARM_INITRD_BASE;
       fdt_property_u64 "linux,initrd-end" (u64 (ARM_INITRD_BASE + initrdsz)) ]
   else []) ++
  [ FdtEndNode;
    FdtBeginNode "memory";
    fdt_property_string "device_type" "memory";
    FdtProperty "reg" (cpu_to_fdt64 RAM_BASE ++ cpu_to_fdt64 RAM_SIZE);
    FdtEndNode;
    FdtBeginNode "cpus";
    fdt_property_cell "#address-cells" 0x1;
    fdt_property_cell "#size-cells" 0x0;
    FdtBeginNode "cpu" ].

Definition timer_irq (n : Z) : list Z := cpu_to_fdt32 1 ++ cpu_to_fdt32 n ++ cpu_to_fdt32 0xf08.

(** The calls from the CPU's register on; [base] is the configuration address of
    the block device. *)
Definition fdt_tail (mpidr gic base : Z) : list fdt_op :=
  [ fdt_property_cell "reg" mpidr;
    fdt_property_string "device_type" "cpu";
    fdt_property_string "compatible" "arm,arm-v8";
    FdtEndNode;
    FdtEndNode;
    FdtBeginNode "timer";
    fdt_property_string "compatible" "arm,armv8-timer";
    FdtProperty "interrupts" (timer_irq 13 ++ timer_irq 14 ++ timer_irq 11 ++ timer_irq 10);
    FdtProperty "always-on" [];
    FdtEndNode;
    FdtBeginNode "intr";
    fdt_property_string "compatible"
      (if gic =? IRQCHIP_TYPE_GIC_V3 then "arm,gic-v3" else "arm,cortex-a15-gic");
    fdt_property_cell "#interrupt-cells" 3;
    FdtProperty "interrupt-controller" [];
    FdtProperty "reg" (cpu_to_fdt64 ARM_GIC_DIST_BASE ++ cpu_to_fdt64 ARM_GIC_DIST_SIZE ++
      cpu_to_fdt64 ARM_GIC_REDIST_CPUI_BASE ++ cpu_to_fdt64 ARM_GIC_REDIST_CPUI_SIZE);
    fdt_property_cell "phandle" FDT_PHANDLE_GIC;
    FdtEndNode;
    FdtBeginNode "uart";
    fdt_property_string "compatible" "ns16550a";
    fdt_property_cell "clock-frequency" 1843200;
    FdtProperty "reg" (cpu_to_fdt64 (ARM_IOPORT_BASE + COM1_PORT_BASE) ++
      cpu_to_fdt64 COM1_PORT_SIZE);
    FdtProperty "interrupts" (cpu_to_fdt32 ARM_FDT_IRQ_TYPE_SPI ++ cpu_to_fdt32 SERIAL_IRQ ++
      cpu_to_fdt32 ARM_FDT_IRQ_LEVEL_TRIGGER);
    FdtEndNode;
    FdtBeginNode "pci";
    fdt_property_string "device_type" "pci";
    fdt_property_cell "#address-cells" 3;
    fdt_property_cell "#size-cells" 2;
    fdt_property_cell "#interrupt-cells" 1;
    fdt_property_string "compatible" "pci-host-cam-generic";
    FdtProperty "dma-coherent" [];
    FdtProperty "bus-range" (cpu_to_fdt32 0 ++ cpu_to_fdt32 0);
    FdtProperty "reg" (cpu_to_fdt64 ARM_PCI_CFG_BASE ++ cpu_to_fdt64 ARM_PCI_CFG_SIZE);
    FdtProperty "ranges" (cpu_to_fdt32 FDT_PCI_MMIO_SPACE ++ cpu_to_fdt64 ARM_PCI_MMIO_BASE ++
      cpu_to_fdt64 ARM_PCI_MMIO_BASE ++ cpu_to_fdt64 ARM_PCI_MMIO_SIZE);
    FdtProperty "interrupt-map"
      (cpu_to_fdt32 (u32 (Z.land base (unot 64 (Z.shiftl 1 31)))) ++ le_bytes 8 0 ++
       cpu_to_fdt32 1 ++ cpu_to_fdt32 FDT_PHANDLE_GIC ++ cpu_to_fdt32 ARM_FDT_IRQ_TYPE_SPI ++
       cpu_to_fdt32 VIRTIO_BLK_IRQ ++ cpu_to_fdt32 ARM_FDT_IRQ_EDGE_TRIGGER);
    FdtEndNode;
    FdtEndNode;
    FdtFinish ].

(** What the host gives: the descriptor of the new device, the preferred target
    and the affinity register. *)
Record arm_host := mkArmHost {
  dev_fd : Z;
  cpu_target : Z;
  mpidr_value : Z;
}.

Section arm.
Context {F : Type} `{HostFile F} {T : Type} `{Libfdt T}.
Context (ah : arm_host) (fdt0 : T).
Implicit Types (s : vm_t F) (h : host F) (data : list Z).

(** ** Interrupt controller and vCPU *)

Definition set_gic_type (v : Z) (p : vm_arch_priv) : vm_arch_priv :=
  mkPriv (entry p) (initrdsz p) (gic_fd p) v.
Definition set_gic_fd (v : Z) (p : vm_arch_priv) : vm_arch_priv :=
  mkPriv (entry p) (initrdsz p) v (gic_type p).
Definition set_entry (v : Z) (p : vm_arch_priv) : vm_arch_priv :=
  mkPriv v (initrdsz p) (gic_fd p) (gic_type p).
Definition set_initrdsz (v : Z) (p : vm_arch_priv) : vm_arch_priv :=
  mkPriv (entry p) v (gic_fd p) (gic_type p).
Definition modify_priv (f : vm_arch_priv → vm_arch_priv) : prog F () :=
  modify (λ h, set_priv (f (priv h)) h).

(** The two address attributes of the chip that was created. *)
Definition set_gic_addrs (dist_type cpui_type : Z) : prog F Z :=
  modify_priv (set_gic_fd (dev_fd ah));;
  checked (SysSetDeviceAttr (dev_fd ah) KVM_DEV_ARM_VGIC_GRP_ADDR dist_type
    (Some ARM_GIC_DIST_BASE)) (
  checked (SysSetDeviceAttr (dev_fd ah) KVM_DEV_ARM_VGIC_GRP_ADDR cpui_type
    (Some ARM_GIC_REDIST_CPUI_BASE)) (mret 0)).

Definition create_irqchip : prog F Z :=
  modify_priv (set_gic_type IRQCHIP_TYPE_GIC_V3);;
  r ← sys (SysCreateDevice KVM_DEV_TYPE_ARM_VGIC_V3);
  if r <? 0 then
    checked (SysCreateDevice KVM_DEV_TYPE_ARM_VGIC_V2) (
    modify_priv (set_gic_type IRQCHIP_TYPE_GIC_V2);;
    set_gic_addrs KVM_VGIC_V2_ADDR_TYPE_DIST KVM_VGIC_V2_ADDR_TYPE_CPU)
  else set_gic_addrs KVM_VGIC_V3_ADDR_TYPE_DIST KVM_VGIC_V3_ADDR_TYPE_REDIST.

(** [v->priv] points to the static, zeroed [vm_arch_priv]. *)
Definition arm_arch_init : prog F Z :=
  modify_priv (λ _, mkPriv 0 0 0 0);;
  guarded create_irqchip (mret 0).

Definition arm_arch_cpu_init : prog F Z :=
  checked SysArmPreferredTarget (
  r ← sys (SysArmVcpuInit (cpu_target ah));
  if nonzero r then throw_err else mret 0).

Definition finalize_irqchip : prog F Z :=
  p ← gets priv;
  checked (SysSetDeviceAttr (gic_fd p) KVM_DEV_ARM_VGIC_GRP_CTRL KVM_DEV_ARM_VGIC_CTRL_INIT None)
    (mret 0).

(** ** Platform devices *)

Definition arm_platform s : res (vm_t F * Z) :=
  let B := vm_buses s in
  let B := set_devs (dev_init (devs B) PIoDev ARM_IOPORT_BASE ARM_IOPORT_SIZE OVm F_pio_handler) B in
  B ← register MmioBus PIoDev B;
  let B := pci_init B in
  node ← from_option_res WildPointer (devs B !! PPciMmio);
  let B := set_devs (<[PPciMmio := set_base ARM_PCI_CFG_BASE node]> (devs B)) B in
  B ← register MmioBus PPciMmio B;
  serial_init (set_vm_buses B s).

Definition arm_arch_init_platform_device : prog F Z :=
  r ← on_vm arm_platform;
  if nonzero r then throw_err else guarded finalize_irqchip (mret 0).

(** ** The boot protocol *)

(** [arm64_kernel_header_t] *)
Definition off_text_offset : Z := 8.
Definition off_image_size : Z := 16.
Definition off_magic : Z := 56.
Definition ARM64_MAGIC : Z := 0x644d5241.

Definition arm_load_image data (datasz : Z) : prog F Z := λ h,
  magic ← load 4 data off_magic;
  if negb (magic =? ARM64_MAGIC) then throw_err h
  else
    image_size ← load 8 data off_image_size;
    text_offset ← load 8 data off_text_offset;
    let offset := if image_size =? 0 then 0x80000 else text_offset in
    if (ARM_KERNEL_SIZE <=? u64 (offset + datasz)) ||
       (ARM_KERNEL_SIZE <=? u64 (offset + image_size)) then throw_err h
    else
      let dest := vm_guest_to_host (u64 (ARM_KERNEL_BASE + offset)) in
      bytes ← mread data 0 datasz;
      m ← pwrite (mem (vm h)) dest bytes;
      Ok (0, set_priv (set_entry (u64 (ARM_KERNEL_BASE + offset)) (priv h))
               (set_vm (set_mem m (vm h)) h)).

Definition arm_load_initrd data (datasz : Z) : prog F Z := λ h,
  bytes ← mread data 0 datasz;
  m ← pwrite (mem (vm h)) (vm_guest_to_host ARM_INITRD_BASE) bytes;
  Ok (0, set_priv (set_initrdsz datasz (priv h)) (set_vm (set_mem m (vm h)) h)).

(** The affinity register, or an error. *)
Definition get_mpidr : prog F (option Z) :=
  r ← sys (SysGetOneReg ARM_MPIDR_REG_ID);
  mret (if r <? 0 then None else Some (Z.land (mpidr_value ah) ARM_MPIDR_BITMASK)).

(** The macro [__FDT]: the first call that fails ends the function. *)
Fixpoint fdt_calls (ops : list fdt_op) (t : T) : T * bool :=
  match ops with
  | [] => (t, true)
  | op :: ops =>
    let '(t, r) := fdt_call op t in
    if r <? 0 then (t, false) else fdt_calls ops t
  end.

(** [base] of the block device's configuration node: uninitialised memory when
    there is no such device. *)
Definition blk_config_base s : res Z :=
  node ← from_option_res Uninitialised (devs (vm_buses s) !! PConfig VirtioBlk);
  Ok (base node).

Definition generate_fdt : prog F (Z * T) := λ h,
  let '(t, ok) := fdt_calls (fdt_head (initrdsz (priv h))) fdt0 in
  if negb ok then Ok (-1, t, h)
  else
    '(om, h) ← get_mpidr h;
    match om with
    | None => Ok (-1, t, h)
    | Some mpidr =>
      base ← blk_config_base (vm h);
      let '(t, ok) := fdt_calls (fdt_tail mpidr (gic_type (priv h)) base) t in
      Ok (if ok then 0 else -1, t, h)
    end.

(** Registers x0 to x2 are cleared, then x0 holds the device tree's address. *)
Definition init_reg : prog F Z :=
  checked (SysSetOneReg (reg_x 0) 0) (
  checked (SysSetOneReg (reg_x 1) 0) (
  checked (SysSetOneReg (reg_x 2) 0) (
  checked (SysSetOneReg (reg_x 0) ARM_FDT_BASE) (
  p ← gets priv;
  checked (SysSetOneReg reg_pc (entry p)) (mret 0))))).

Definition arm_late_init : prog F Z :=
  '(r, _) ← generate_fdt;
  if r <? 0 then mret (-1) else guarded init_reg (mret 0).

Definition ARM_GIC_SPI_BASE : Z := 32.
Definition KVM_ARM_IRQ_TYPE_SPI : Z := 1.
Definition KVM_ARM_IRQ_TYPE_SHIFT : Z := 24.
Definition KVM_ARM_IRQ_NUM_MASK : Z := 0xffff.

Definition arm_irq (irq : Z) : Z :=
  Z.lor (Z.shiftl KVM_ARM_IRQ_TYPE_SPI KVM_ARM_IRQ_TYPE_SHIFT)
    (Z.land (irq + ARM_GIC_SPI_BASE) KVM_ARM_IRQ_NUM_MASK).

Definition arm_irq_line (irq level : Z) : prog F Z :=
  checked (SysIrqLine (arm_irq irq) level) (mret 0).

Definition arm_arch : VmArch F := {|
  arch_consts := arm64;
  vm_arch_init := arm_arch_init;
  vm_arch_cpu_init := arm_arch_cpu_init;
  vm_arch_init_platform_device := arm_arch_init_platform_device;
  vm_arch_load_image := arm_load_image;
  vm_arch_load_initrd := arm_load_initrd;
  vm_late_init := arm_late_init;
|}.
End arm.

(** * Loading the kernel *)

Section image.
Context {F : Type} (file : list Z) (h : host F).
Context (image_size text_offset : Z).
Context (Hlen : 64 ≤ lenZ file) (Hbytes : Forall byte_ok file).
Context (Hmagic : load 4 file off_magic = Ok ARM64_MAGIC).
Context (Hsize : load 8 file off_image_size = Ok image_size).
Context (Htext : load 8 file off_text_offset = Ok text_offset).

(** The offset of the image in the kernel window. *)
Definition image_offset : Z := if image_size =? 0 then 0x80000 else text_offset.

Lemma header_range : 0 ≤ image_size < 2 ^ 64 ∧ 0 ≤ image_offset < 2 ^ 64.
Proof using Hbytes Hsize Htext.
  pose proof (proj2 (bytes_ok_list file) Hbytes) as Hb.
  pose proof (load_range 8 file _ _ Hb Hsize). pose proof (load_range 8 file _ _ Hb Htext).
  unfold image_offset. change (2 ^ (8 * 8)) with (2 ^ 64) in *. case_match; lia.
Qed.

Lemma arm_load_image_eq :
  arm_load_image (map_file file) (lenZ file) h =
    if (ARM_KERNEL_SIZE <=? u64 (image_offset + lenZ file)) ||
       (ARM_KERNEL_SIZE <=? u64 (image_offset + image_size)) then Ok (-1, h)
    else
      m ← pwrite (mem (vm h)) (vm_guest_to_host (u64 (ARM_KERNEL_BASE + image_offset))) file;
      Ok (0, set_priv (set_entry (u64 (ARM_KERNEL_BASE + image_offset)) (priv h))
               (set_vm (set_mem m (vm h)) h)).
Proof using Hlen Hmagic Hsize Htext.
  unfold arm_load_image.
  rewrite (map_file_load file 4 off_magic), Hmagic, bind_Ok by (unfold off_magic; lia).
  change (negb (ARM64_MAGIC =? ARM64_MAGIC)) with false. cbv iota.
  rewrite (map_file_load file 8 off_image_size), Hsize, bind_Ok by (unfold off_image_size; lia).
  rewrite (map_file_load file 8 off_text_offset), Htext, bind_Ok by (unfold off_text_offset; lia).
  fold image_offset. by rewrite map_file_all, bind_Ok.
Qed.
End image.

(** C38: loading an arm64 kernel. An image with the right magic number whose offset
    and sizes do not wrap around 64 bits is loaded exactly when its file and its
    run-time size end inside the 128 MiB window: then the bytes are at the entry
    point the vCPU will be given, and no other byte of memory changes; otherwise
    the function reports an error and changes nothing. *)
Theorem arm_image_loaded {F} (h : host F) file image_size text_offset :
  64 ≤ lenZ file → Forall byte_ok file → load 4 file off_magic = Ok ARM64_MAGIC →
  load 8 file off_image_size = Ok image_size → load 8 file off_text_offset = Ok text_offset →
  let offset := image_offset image_size text_offset in
  offset + lenZ file < 2 ^ 64 → offset + image_size < 2 ^ 64 →
  (offset + lenZ file < ARM_KERNEL_SIZE ∧ offset + image_size < ARM_KERNEL_SIZE →
    ∃ h', arm_load_image (map_file file) (lenZ file) h = Ok (0, h') ∧
      entry (priv h') = ARM_KERNEL_BASE + offset ∧ initrdsz (priv h') = initrdsz (priv h) ∧
      mread (mem (vm h')) offset (lenZ file) = Ok file ∧
      ∀ off n, off + n ≤ offset ∨ offset + lenZ file ≤ off →
        mread (mem (vm h')) off n = mread (mem (vm h)) off n) ∧
  (¬ (offset + lenZ file < ARM_KERNEL_SIZE ∧ offset + image_size < ARM_KERNEL_SIZE) →
    arm_load_image (map_file file) (lenZ file) h = Ok (-1, h)).
Proof.
  intros Hlen Hb Hmagic Hsize Htext offset Hw1 Hw2.
  destruct (header_range file image_size text_offset Hb Hsize Htext) as [Hi Ho].
  rewrite (arm_load_image_eq file h image_size text_offset) by done.
  fold offset. fold offset in Ho. clearbody offset.
  rewrite !(wrap_small 64 (offset + _)) by lia. unfold ARM_KERNEL_SIZE.
  destruct (Z.leb_spec 0x8000000 (offset + lenZ file)), (Z.leb_spec 0x8000000 (offset + image_size));
    cbn [orb]; (split; [intros [??]; try lia|intros ?; by (done || lia)]).
  unfold ARM_KERNEL_BASE. change RAM_BASE with 0x80000000.
  rewrite (wrap_small 64) by lia.
  assert (Hin : in_ram (0x80000000 + offset) (lenZ file)).
  { unfold in_ram. change RAM_BASE with 0x80000000. rewrite RAM_SIZE_eq. lia. }
  rewrite (pwrite_in_ram _ _ _ Hin). change RAM_BASE with 0x80000000.
  replace (0x80000000 + offset - 0x80000000) with offset by lia. rewrite bind_Ok.
  assert (E : mwrite (mem (vm h)) offset file = Ok (set_bytes (mem (vm h)) offset file)).
  { apply mwrite_ok; [lia|]. rewrite bsize_ram, RAM_SIZE_eq. lia. }
  eexists. split_and!; [done|done|done|apply (mread_mwrite_eq _ _ _ _ E)|].
  intros off n Hd. by apply (mread_mwrite_ne _ _ _ _ _ _ E).
Qed.

(** The bounds test can be defeated: with a text offset just below 2^64 both sums
    wrap around to small values, and the copy goes through the null pointer that
    the translation of the address, now below memory, gives. *)
Theorem arm_image_offset_wraps {F} (h : host F) file image_size k :
  64 ≤ lenZ file < 2 ^ 27 → Forall byte_ok file → load 4 file off_magic = Ok ARM64_MAGIC →
  load 8 file off_image_size = Ok image_size → image_size < 2 ^ 27 →
  0 < k ≤ lenZ file → k ≤ image_size → load 8 file off_text_offset = Ok (2 ^ 64 - k) →
  arm_load_image (map_file file) (lenZ file) h = Fault NullPointer.
Proof.
  intros Hlen Hb Hmagic Hsize Hi Hk Hki Htext.
  rewrite (arm_load_image_eq file h image_size (2 ^ 64 - k)) by (lia || done).
  assert (Hoff : image_offset image_size (2 ^ 64 - k) = 2 ^ 64 - k).
  { unfold image_offset. destruct (Z.eqb_spec image_size 0); [lia|done]. }
  rewrite Hoff. unfold ARM_KERNEL_SIZE, ARM_KERNEL_BASE. change RAM_BASE with 0x80000000.
  assert (Hw : ∀ x, 0 ≤ x - k < 2 ^ 64 → u64 (2 ^ 64 - k + x) = x - k).
  { intros x Hx. unfold u64, wrap. replace (2 ^ 64 - k + x) with (x - k + 1 * 2 ^ 64) by lia.
    rewrite Z.mod_add by lia. by apply Z.mod_small. }
  rewrite !Hw by lia. rewrite (Z.add_comm 0x80000000), Hw by lia.
  destruct (Z.leb_spec 0x8000000 (lenZ file - k)); [lia|].
  destruct (Z.leb_spec 0x8000000 (image_size - k)); [lia|]. cbn [orb].
  unfold vm_guest_to_host. change RAM_BASE with 0x80000000.
  destruct (Z.ltb_spec (0x80000000 - k) 0x80000000); [|lia].
  unfold pwrite. destruct file; [unfold lenZ in Hlen; cbn in Hlen; lia|done].
Qed.

(** * The address space *)

(** The windows of the memory map, and the regions behind them. *)
Definition iodev_node : hdev := mkDev ARM_IOPORT_BASE ARM_IOPORT_SIZE OVm F_pio_handler None.
Definition pci_mmio_node : hdev :=
  mkDev ARM_PCI_CFG_BASE PCI_MMIO_SIZE OPci F_pci_mmio_io (Some PIoDev).

(** [bars] are the regions of devices that are decoded, in front of the windows. *)
Record arm_windows (B : buses) (bars : list dev_ptr) : Prop := {
  aw_mmio : bus_repr (devs B) (mmio_bus B) (bars ++ [PPciMmio; PIoDev]);
  aw_io : bus_repr (devs B) (io_bus B) [PSerial];
  aw_pci_mmio : devs B !! PPciMmio = Some pci_mmio_node;
  aw_iodev : devs B !! PIoDev = Some iodev_node;
  aw_serial : devs B !! PSerial = Some (serial_node None);
}.

Definition arm_buses : buses :=
  mkBuses (<[PSerial := serial_node None]> (<[PPciMmio := pci_mmio_node]>
    (<[PPciBus := mkDev PCI_CONFIG_DATA 4 OPci F_pci_data_io None]>
    (<[PPciAddr := mkDev PCI_CONFIG_ADDR 4 OPci F_pci_address_io None]>
    (<[PIoDev := iodev_node]> ∅)))))
    (mkBus 1 (Some PSerial)) (mkBus 2 (Some PPciMmio)) bus_init.

Lemma arm_platform_eq {F} (s : vm_t F) :
  fresh s →
  arm_platform s = Ok (set_vm_buses arm_buses (emit_vm (EvThread serial_thread) s), 0).
Proof. unfold fresh. intros Hs. unfold arm_platform. rewrite Hs. reflexivity. Qed.

Lemma arm_buses_windows : arm_windows arm_buses [].
Proof. split; try done; repeat (split; [done|]; eexists; split; [done|]); done. Qed.

Lemma abs_find_skip (h : gmap dev_ptr hdev) l1 l2 addr :
  abs_find h l1 addr = None → abs_find h (l1 ++ l2) addr = abs_find h l2 addr.
Proof.
  unfold abs_find. induction l1 as [|p l1 IH]; cbn; [done|]. by case_match.
Qed.

(** The lookup on [mmio_bus] of an address that no device region holds. *)
Lemma arm_find B bars addr :
  arm_windows B bars → 0 ≤ addr → abs_find (devs B) bars addr = None →
  bus_find_dev (devs B) (mmio_bus B) addr =
    Ok (if (0x40000000 <=? addr) && (addr <=? 0x4000ffff) then Some PPciMmio
        else if addr <=? 0xffff then Some PIoDev else None).
Proof.
  intros [Hm _ H1 H2 _] Ha Hb. rewrite (bus_find_dev_repr _ _ _ _ Hm). f_equal.
  rewrite (abs_find_skip _ _ _ _ Hb). unfold abs_find, hits. cbn [List.find].
  rewrite H1, H2. unfold dev_hit. cbn [pci_mmio_node iodev_node base len].
  change (u64 (ARM_PCI_CFG_BASE + PCI_MMIO_SIZE - 1)) with 0x4000ffff.
  change (u64 (ARM_IOPORT_BASE + ARM_IOPORT_SIZE - 1)) with 0xffff.
  unfold ARM_PCI_CFG_BASE, ARM_IOPORT_BASE.
  destruct (Z.leb_spec 0 addr); [|lia]. by repeat case_match.
Qed.

Section routes.
Context {F : Type} `{HostFile F} (blk_fuel : nat).
Implicit Types (s : vm_t F).

(** What an access outside the devices' regions does: the window of I/O ports leads
    to the serial port, the configuration window to the PCI bus, and the rest is
    ignored. *)
Definition arm_route (data : list Z) (is_write : bool) (addr size : Z) s : res (vm_t F * list Z) :=
  if (0x3f8 <=? addr) && (addr + size <=? 0x400) then
    on_serial (serial_handle_io SERIAL_IRQ data is_write (addr - 0x3f8) size) s
  else if (0x40000000 <=? addr) && (addr + size <=? 0x40010000) then
    pci_mmio_io pci_part (run_callback blk_fuel (pred call_depth)) data is_write
      (addr - 0x40000000) size s
  else Ok (s, data).

Lemma arm_port_access depth data is_write offset size s :
  (0 < depth)%nat → bus_repr (devs (vm_buses s)) (io_bus (vm_buses s)) [PSerial] →
  devs (vm_buses s) !! PSerial = Some (serial_node None) →
  0 ≤ offset < 65536 → 1 ≤ size < 256 →
  pio_handler (run_callback blk_fuel depth) data is_write offset size s =
    if (0x3f8 <=? offset) && (offset + size <=? 0x400) then
      on_serial (serial_handle_io SERIAL_IRQ data is_write (offset - 0x3f8) size) s
    else Ok (s, data).
Proof.
  intros Hd Hr Hn Ho Hs. unfold pio_handler, bus_handle_io.
  rewrite (bus_find_dev_repr _ _ _ _ Hr), bind_Ok. unfold abs_find, hits, dev_hit.
  cbn [List.find]. rewrite Hn. cbn [serial_node base len].
  change (u64 (COM1_PORT_BASE + COM1_PORT_SIZE - 1)) with 0x3ff. unfold COM1_PORT_BASE.
  assert (He : u64 (offset + size - 1) = offset + size - 1) by (apply wrap_small; lia).
  destruct (Z.leb_spec 0x3f8 offset), (Z.leb_spec offset 0x3ff); cbn [andb];
    rewrite ?Hn; cbn [from_option_res]; rewrite ?bind_Ok; cbn [serial_node base len owner do_io];
    rewrite ?He; change (u64 (COM1_PORT_BASE + COM1_PORT_SIZE - 1)) with 0x3ff;
    unfold COM1_PORT_BASE;
    repeat match goal with |- context [?a <=? ?b] => destruct (Z.leb_spec a b); try lia end;
    try done.
  destruct depth as [|depth]; [lia|]. cbn [run_callback]. by rewrite (wrap_small 64) by lia.
Qed.

Lemma arm_access_route bars data is_write addr size s :
  arm_windows (vm_buses s) bars → abs_find (devs (vm_buses s)) bars addr = None →
  0 ≤ addr < 2 ^ 64 - 256 → 1 ≤ size < 256 →
  bus_access blk_fuel MmioBus data is_write addr size s = arm_route data is_write addr size s.
Proof.
  intros Hw Hb Ha Hs. unfold bus_access, bus_handle_io, arm_route. cbn [get_bus].
  rewrite (arm_find _ bars addr Hw ltac:(lia) Hb), bind_Ok. destruct Hw as [_ Hio H1 H2 H3].
  assert (He : u64 (addr + size - 1) = addr + size - 1) by (apply wrap_small; lia).
  change call_depth with (S (pred call_depth)).
  destruct (Z.leb_spec 0x40000000 addr), (Z.leb_spec addr 0x4000ffff), (Z.leb_spec addr 0xffff);
    try lia; cbn [andb]; rewrite ?H1, ?H2; cbn [from_option_res]; rewrite ?bind_Ok;
    cbn [pci_mmio_node iodev_node base len owner do_io]; rewrite ?He;
    change (u64 (ARM_PCI_CFG_BASE + PCI_MMIO_SIZE - 1)) with 0x4000ffff;
    change (u64 (ARM_IOPORT_BASE + ARM_IOPORT_SIZE - 1)) with 0xffff;
    unfold ARM_PCI_CFG_BASE, ARM_IOPORT_BASE.
  all: rewrite ?(wrap_small 64 (addr - _)) by lia; rewrite ?Z.sub_0_r.
  all: repeat match goal with |- context [?a <=? ?b] => destruct (Z.leb_spec a b); try lia end;
    try done.
  all: cbn [run_callback]; rewrite arm_port_access by (done || lia || (cbn; lia));
    repeat match goal with |- context [?a <=? ?b] => destruct (Z.leb_spec a b); try lia end; done.
Qed.
End routes.

(** * The device tree *)

(** A device tree as a value, and the calls that write it: a node's properties come
    before its children. *)
Inductive fdt_node :=
  | FdtNode (name : string) (props : list (string * list Z)) (children : list fdt_node).

Fixpoint write_node (n : fdt_node) : list fdt_op :=
  match n with
  | FdtNode name props children =>
    FdtBeginNode name :: ((λ p, FdtProperty p.1 p.2) <$> props) ++
      flat_map write_node children ++ [FdtEndNode]
  end.

Definition write_tree (n : fdt_node) : list fdt_op :=
  FdtCreate FDT_MAX_SIZE :: FdtFinishReservemap :: write_node n ++ [FdtFinish].

Definition prop (name : string) (value : list Z) : string * list Z := (name, value).
Definition cell (v : Z) : list Z := be_bytes 4 v.
(** A region in a node with two address and two size cells. *)
Definition reg64 (base size : Z) : list Z := be_bytes 8 base ++ be_bytes 8 size.
(** An interrupt of the GIC: type, number, trigger. *)
Definition gic_irq (type n trigger : Z) : list Z := cell type ++ cell n ++ cell trigger.

Definition chosen_node (initrdsz : Z) : fdt_node :=
  FdtNode "chosen"
    ([prop "bootargs" (c_string KERNEL_OPTS_ARM); prop "stdout-path" (c_string "/uart")] ++
     (if 0 <? initrdsz then
        [prop "linux,initrd-start" (be_bytes 8 ARM_INITRD_BASE);
         prop "linux,initrd-end" (be_bytes 8 (u64 (ARM_INITRD_BASE + initrdsz)))]
      else [])) [].

Definition memory_node : fdt_node :=
  FdtNode "memory" [prop "device_type" (c_string "memory"); prop "reg" (reg64 RAM_BASE RAM_SIZE)] [].

Definition cpus_node (mpidr : Z) : fdt_node :=
  FdtNode "cpus" [prop "#address-cells" (cell 1); prop "#size-cells" (cell 0)]
    [FdtNode "cpu" [prop "reg" (cell (u32 mpidr)); prop "device_type" (c_string "cpu");
                    prop "compatible" (c_string "arm,arm-v8")] []].

Definition timer_node : fdt_node :=
  FdtNode "timer" [prop "compatible" (c_string "arm,armv8-timer");
    prop "interrupts" (gic_irq 1 13 0xf08 ++ gic_irq 1 14 0xf08 ++ gic_irq 1 11 0xf08 ++
                   gic_irq 1 10 0xf08);
    prop "always-on" []] [].

Definition intr_node (gic : Z) : fdt_node :=
  FdtNode "intr" [
    prop "compatible" (c_string (if gic =? IRQCHIP_TYPE_GIC_V3 then "arm,gic-v3" else "arm,cortex-a15-gic"));
    prop "#interrupt-cells" (cell 3); prop "interrupt-controller" [];
    prop "reg" (reg64 ARM_GIC_DIST_BASE ARM_GIC_DIST_SIZE ++
            reg64 ARM_GIC_REDIST_CPUI_BASE ARM_GIC_REDIST_CPUI_SIZE);
    prop "phandle" (cell FDT_PHANDLE_GIC)] [].

Definition uart_node : fdt_node :=
  FdtNode "uart" [prop "compatible" (c_string "ns16550a"); prop "clock-frequency" (cell 1843200);
    prop "reg" (reg64 0x3f8 8); prop "interrupts" (gic_irq 0 SERIAL_IRQ 4)] [].

Definition pci_node (base : Z) : fdt_node :=
  FdtNode "pci" [prop "device_type" (c_string "pci"); prop "#address-cells" (cell 3);
    prop "#size-cells" (cell 2); prop "#interrupt-cells" (cell 1); prop "compatible" (c_string "pci-host-cam-generic");
    prop "dma-coherent" []; prop "bus-range" (cell 0 ++ cell 0);
    prop "reg" (reg64 ARM_PCI_CFG_BASE ARM_PCI_CFG_SIZE);
    prop "ranges" (cell FDT_PCI_MMIO_SPACE ++ be_bytes 8 ARM_PCI_MMIO_BASE ++
               reg64 ARM_PCI_MMIO_BASE ARM_PCI_MMIO_SIZE);
    prop "interrupt-map" (cell (u32 (Z.land base (unot 64 (Z.shiftl 1 31)))) ++ replicate 8 0 ++ cell 1 ++
       cell FDT_PHANDLE_GIC ++ gic_irq 0 VIRTIO_BLK_IRQ 1)] [].

Definition arm_tree (initrdsz mpidr gic base : Z) : fdt_node :=
  FdtNode "" [prop "#address-cells" (cell 2); prop "#size-cells" (cell 2);
    prop "interrupt-parent" (cell FDT_PHANDLE_GIC); prop "compatible" (c_string "linux,dummy-virt")]
    [chosen_node initrdsz; memory_node; cpus_node mpidr; timer_node; intr_node gic; uart_node;
     pci_node base].

Lemma fdt_calls_tree initrdsz mpidr gic base :
  fdt_head initrdsz ++ fdt_tail mpidr gic base = write_tree (arm_tree initrdsz mpidr gic base).
Proof.
  unfold fdt_head, fdt_tail, write_tree, arm_tree, chosen_node, intr_node. cbn [write_node flat_map].
  unfold fdt_property_cell, fdt_property_u64, fdt_property_string, timer_irq, gic_irq, reg64,
    cpu_to_fdt32, cpu_to_fdt64, cell.
  destruct (0 <? initrdsz), (gic =? IRQCHIP_TYPE_GIC_V3); reflexivity.
Qed.

Section writing.
Context {T : Type} `{Libfdt T}.

Lemma fdt_calls_app ops1 ops2 (t : T) :
  fdt_calls (ops1 ++ ops2) t =
    let '(t1, ok) := fdt_calls ops1 t in if ok then fdt_calls ops2 t1 else (t1, false).
Proof.
  revert t. induction ops1 as [|op ops1 IH]; intros t; cbn; [done|].
  destruct (fdt_call op t) as [t1 r]. case_match; [done|apply IH].
Qed.
End writing.

(** C39: [generate_fdt] writes a device tree. On a machine with a block device, whose
    MPIDR register KVM returns, and whatever libfdt does with each call, the calls
    are exactly those that write the tree [arm_tree]: every node is closed,
    properties precede children, the RAM disk is announced when there is one, the
    interrupt controller is the one that was created. The function returns 0
    exactly when every call succeeds, stops at the first that fails, and changes
    nothing of the machine. *)
Theorem arm_device_tree_written {F T} `{Libfdt T} (ah : arm_host) (fdt0 : T) (h : host F) node :
  devs (vm_buses (vm h)) !! PConfig VirtioBlk = Some node →
  0 ≤ default 0 (answers h !! 0%nat) →
  let tree := arm_tree (initrdsz (priv h)) (Z.land (mpidr_value ah) ARM_MPIDR_BITMASK)
                (gic_type (priv h)) (base node) in
  let '(t, ok) := fdt_calls (write_tree tree) fdt0 in
  ∃ h', generate_fdt ah fdt0 h = Ok (if ok then 0 else -1, t, h') ∧ vm h' = vm h ∧
    priv h' = priv h.
Proof.
  intros Hn Ha. cbv zeta. rewrite <-fdt_calls_tree, fdt_calls_app. unfold generate_fdt.
  destruct (fdt_calls (fdt_head (initrdsz (priv h))) fdt0) as [t1 [|]]; cbn [negb]; [|by eexists].
  unfold get_mpidr, sys, mbind, prog_bind. rewrite bind_Ok.
  cbn [mret prog_ret]. destruct (Z.ltb_spec (default 0 (answers h !! 0%nat)) 0); [lia|].
  unfold mret, prog_ret. rewrite bind_Ok. cbn [vm priv]. unfold blk_config_base.
  rewrite Hn. cbn [from_option_res]. rewrite !bind_Ok.
  destruct (fdt_calls (fdt_tail _ _ _) t1) as [t2 ok2]. by eexists.
Qed.

(** ** What the tree says of the machine *)

Definition be_val (bs : list Z) : Z := le_val (rev bs).

(** The pairs of 64-bit cells of a [reg] property. *)
Fixpoint reg_pairs (fuel : nat) (bs : list Z) : list (Z * Z) :=
  match fuel, bs with
  | S fuel, _ :: _ =>
    (be_val (take 8 bs), be_val (take 8 (drop 8 bs))) :: reg_pairs fuel (drop 16 bs)
  | _, _ => []
  end.

Definition node_prop (key : string) (n : fdt_node) : list Z :=
  match n with
  | FdtNode _ props _ => default [] (snd <$> List.find (λ p, String.eqb p.1 key) props)
  end.
Definition node_regs (n : fdt_node) : list (Z * Z) := reg_pairs 4 (node_prop "reg" n).

Definition node_name (n : fdt_node) : string := match n with FdtNode name _ _ => name end.
Definition children (n : fdt_node) : list fdt_node := match n with FdtNode _ _ cs => cs end.

(** The regions the children of the root claim; the CPU's [reg] is not an address. *)
Definition claimed_regions (n : fdt_node) : list (Z * Z) := flat_map node_regs (children n).

Definition apart (r1 r2 : Z * Z) : bool := (r1.1 + r1.2 <=? r2.1) || (r2.1 + r2.2 <=? r1.1).
Fixpoint all_apart (l : list (Z * Z)) : bool :=
  match l with [] => true | r :: l => forallb (apart r) l && all_apart l end.

(** The number of an SPI in the encoding of KVM_IRQ_LINE. *)
Definition kvm_irq_type (irq : Z) : Z := Z.land (Z.shiftr irq KVM_ARM_IRQ_TYPE_SHIFT) 0xff.
Definition kvm_irq_num (irq : Z) : Z := Z.land irq KVM_ARM_IRQ_NUM_MASK.

Lemma arm_irq_decode irq :
  0 ≤ irq < 65504 →
  kvm_irq_type (arm_irq irq) = KVM_ARM_IRQ_TYPE_SPI ∧
  kvm_irq_num (arm_irq irq) = ARM_GIC_SPI_BASE + irq.
Proof.
  intros Hi. unfold kvm_irq_type, kvm_irq_num, arm_irq, ARM_GIC_SPI_BASE, KVM_ARM_IRQ_NUM_MASK.
  change (Z.shiftl KVM_ARM_IRQ_TYPE_SPI KVM_ARM_IRQ_TYPE_SHIFT) with 0x1000000.
  change 0xffff with (Z.ones 16). rewrite Z.land_ones by lia.
  rewrite (Z.mod_small (irq + 32)) by (change (2 ^ 16) with 65536; lia).
  rewrite (lor_low 24) by (change (2 ^ 24) with 0x1000000; done || lia).
  change KVM_ARM_IRQ_TYPE_SHIFT with 24. rewrite Z.shiftr_div_pow2, Z.land_ones by lia.
  change (2 ^ 24) with 0x1000000. change (2 ^ 16) with 65536.
  replace ((0x1000000 + (irq + 32)) / 0x1000000) with 1 by (Z.div_mod_to_equations; lia).
  split; [done|]. Z.div_mod_to_equations. lia.
Qed.

(** [size] bytes at [addr] lie in the region. *)
Definition within (addr size : Z) (r : Z * Z) : Prop := r.1 ≤ addr ∧ addr + size ≤ r.1 + r.2.

(** C40: the device tree tells the truth. The regions it announces and the range given
    to PCI devices do not overlap; the memory node names the constants that are also
    given to KVM; accesses in the region of the serial port reach its registers, and
    those in the PCI configuration window reach the PCI bus, unless the guest has put
    a BAR on top of them; and the interrupt of the serial port is the one its line raises: SPI
    numbers start at 32 in the encoding of KVM. *)
Theorem arm_tree_describes_machine {F} `{HostFile F} fuel (s : vm_t F) bars initrdsz mpidr gic base :
  arm_windows (vm_buses s) bars →
  let tree := arm_tree initrdsz mpidr gic base in
  all_apart ((ARM_PCI_MMIO_BASE, ARM_PCI_MMIO_SIZE) :: claimed_regions tree) = true ∧
  node_regs memory_node = [(RAM_BASE, RAM_SIZE)] ∧
  (∀ r addr size data w, r ∈ node_regs uart_node → 1 ≤ size → within addr size r →
    abs_find (devs (vm_buses s)) bars addr = None →
    bus_access fuel MmioBus data w addr size s =
      on_serial (serial_handle_io SERIAL_IRQ data w (addr - r.1) size) s) ∧
  (∀ r addr size data w, r ∈ node_regs (pci_node base) → 1 ≤ size < 256 → within addr size r →
    abs_find (devs (vm_buses s)) bars addr = None →
    bus_access fuel MmioBus data w addr size s =
      pci_mmio_io pci_part (run_callback fuel (pred call_depth)) data w (addr - r.1) size s) ∧
  node_prop "interrupts" uart_node = gic_irq 0 SERIAL_IRQ 4 ∧
  kvm_irq_type (arm_irq SERIAL_IRQ) = KVM_ARM_IRQ_TYPE_SPI ∧
  kvm_irq_num (arm_irq SERIAL_IRQ) = ARM_GIC_SPI_BASE + SERIAL_IRQ.
Proof.
  intros Hw tree. split_and!.
  - unfold tree, claimed_regions, arm_tree, chosen_node. cbn [children flat_map].
    destruct (0 <? initrdsz); vm_compute; reflexivity.
  - reflexivity.
  - intros r addr size data w Hr Hs Hin Hb.
    change (node_regs uart_node) with [(0x3f8, 8)] in Hr.
    apply list_elem_of_singleton in Hr as ->. destruct Hin as [H1 H2]. cbn in H1, H2.
    rewrite (arm_access_route _ bars) by (done || lia). unfold arm_route.
    destruct (Z.leb_spec 0x3f8 addr), (Z.leb_spec (addr + size) 0x400); [done|lia..].
  - intros r addr size data w Hr Hs Hin Hb.
    change (node_regs (pci_node base)) with [(0x40000000, 0x10000)] in Hr.
    apply list_elem_of_singleton in Hr as ->. destruct Hin as [H1 H2]. cbn in H1, H2.
    rewrite (arm_access_route _ bars) by (done || lia). unfold arm_route.
    destruct (Z.leb_spec 0x3f8 addr), (Z.leb_spec (addr + size) 0x400),
      (Z.leb_spec 0x40000000 addr), (Z.leb_spec (addr + size) 0x40010000); try lia; done.
  - reflexivity.
  - by apply arm_irq_decode.
  - by apply arm_irq_decode.
Qed.

(** * Witnesses *)

Definition demo_image : list Z :=
  replicate 8 0 ++ le_bytes 8 0x80000 ++ le_bytes 8 0x1000 ++ replicate 32 0 ++ le_bytes 4 ARM64_MAGIC ++
  replicate 4 0.

Lemma arm_image_loaded_witness :
  ∃ h', arm_load_image (map_file demo_image) (lenZ demo_image) (demo_host []) = Ok (0, h') ∧
    entry (priv h') = ARM_KERNEL_BASE + 0x80000 ∧
    mread (mem (vm h')) 0x80000 (lenZ demo_image) = Ok demo_image.
Proof.
  destruct (arm_image_loaded (demo_host []) demo_image 0x1000 0x80000) as [Hin _].
  - vm_compute. congruence.
  - apply (proj1 (bytes_ok_list demo_image)), bytes_ok_check. reflexivity.
  - reflexivity.
  - reflexivity.
  - reflexivity.
  - vm_compute. reflexivity.
  - vm_compute. reflexivity.
  - destruct Hin as (h'&E&He&_&Hm&_); [split; vm_compute; reflexivity|].
    exists h'. split_and!; [exact E|exact He|exact Hm].
Defined.

(** A writer that records the calls. *)
#[local] Instance log_fdt : Libfdt (list fdt_op) := { fdt_call op t := (t ++ [op], 0) }.

Definition demo_arm : vm_t reg_file :=
  set_vm_buses (set_devs (<[PConfig VirtioBlk := zero_dev]> (devs arm_buses)) arm_buses) demo_fresh.
Definition demo_arm_host : arm_host := mkArmHost 9 5 0x80000001.

Lemma arm_device_tree_written_witness :
  ∃ h', generate_fdt demo_arm_host [] (set_vm demo_arm (demo_host [])) =
    Ok (0, write_tree (arm_tree 0 1 0 0), h').
Proof.
  pose proof (arm_device_tree_written demo_arm_host [] (set_vm demo_arm (demo_host [])) zero_dev
    eq_refl ltac:(done)) as H.
  change (Z.land (mpidr_value demo_arm_host) ARM_MPIDR_BITMASK) with 1 in H.
  change (initrdsz (priv (set_vm demo_arm (demo_host [])))) with 0 in H.
  change (gic_type (priv (set_vm demo_arm (demo_host [])))) with 0 in H.
  change (base zero_dev) with 0 in H.
  assert (E : fdt_calls (write_tree (arm_tree 0 1 0 0)) [] =
    (write_tree (arm_tree 0 1 0 0), true)) by (vm_compute; reflexivity).
  cbv zeta in H. rewrite E in H. destruct H as (h'&H&_). exists h'. exact H.
Defined.

Lemma arm_tree_describes_machine_witness :
  bus_access 1 MmioBus [65] true 0x3f8 1 (set_vm_buses arm_buses demo_fresh) =
    on_serial (serial_handle_io SERIAL_IRQ [65] true 0 1) (set_vm_buses arm_buses demo_fresh).
Proof.
  destruct (arm_tree_describes_machine 1 (set_vm_buses arm_buses demo_fresh) [] 0 0 0 0
    arm_buses_windows) as (_&_&Hu&_).
  apply (Hu (0x3f8, 8) 0x3f8 1 [65] true); [by apply list_elem_of_singleton|done|done|reflexivity].
Defined.
