(* ===== verification/Config.v ===== *)
(** * PCI configuration accesses on the two machines

    A guest on x86 reaches configuration space through two ports, a guest on arm64
    through a window in memory. Both paths end in the same handler of the same
    device at the same register. *)

From stdpp Require Import base tactics numbers list gmap functions.
From S2P Require Import Prelude.
From S2P Require Import Uapi.
From S2P Require Import Host.
From S2P Require Import Bus.
From S2P Require Import Serial.
From S2P Require Import Devices.
From S2P Require Import Pci.
From S2P Require Import GuestMem.
From S2P Require Import Disk.
From S2P Require Import Machine.
From S2P Require Import VirtioPci.
From S2P Require Import VirtioBlk.
From S2P Require Import Vm.
From S2P Require Import Ports.
From S2P Require Import Kvm.
From S2P Require Import X86.
From S2P Require Import Arm.
Open Scope Z_scope.

(** An access of the PCI bus inside the window of a slot. *)
Lemma pci_bus_access {St} call B l slot u reg size data w (s : St) :
  pci_bus_ok B l slot → PConfig u ∈ l → 0 ≤ reg → 1 ≤ size → reg + size ≤ 256 →
  bus_handle_io call (devs B) (pci_bus B) data w (2048 * slot u + reg) size s =
    call (OPciDev u) F_pci_config_do_io data w reg size s.
Proof.
  intros Hok Hu Hr Hs Hend. destruct (slots_node _ _ _ Hok _ Hu) as (u'&nx&[= <-]&Hsl&Hd).
  unfold bus_handle_io.
  destruct (bus_find_dev (devs B) (pci_bus B) (2048 * slot u + reg)) as [r|] eqn:E;
    [|by rewrite (bus_find_dev_repr _ _ _ _ (slots_repr _ _ _ Hok)) in E].
  pose proof (pci_bus_find _ _ _ _ _ Hok E) as Hfind. rewrite bind_Ok.
  destruct r as [q|]; [|exfalso; apply (Hfind u Hu); lia].
  destruct Hfind as (u'&->&Hin&Hrange).
  destruct (slots_node _ _ _ Hok _ Hin) as (?&?&[= <-]&?&_).
  assert (slot u' = slot u) as Eq by lia.
  rewrite (slots_inj _ _ _ Hok _ _ Hin Hu Eq), Hd. cbn [from_option_res].
  rewrite bind_Ok. cbn [base len owner do_io].
  rewrite !(wrap_small 64) by (unfold PCI_CFG_SPACE_SIZE; lia).
  rewrite (proj2 (Z.leb_le _ _)) by (unfold PCI_CFG_SPACE_SIZE; lia). f_equal. lia.
Qed.

(** The value a guest writes to port 0xCF8 for a register of a slot. *)
Definition conf_address (slot reg : Z) : Z := pci_addr_value (mkPciAddr 0 (reg / 4) 0 slot 0 0 1).

Section config.
Context {F : Type} `{HostFile F} (fuel : nat).
Implicit Types (s : vm_t F).

(** The machine with [v] in the address latch. *)
Definition latched (v : Z) s : vm_t F := set_pci_part (set_pci_addr v (pci_part s)) s.

Lemma x86_latch v s :
  x86_fixed (pci_part s) → 0 ≤ v < 2 ^ 32 →
  vm_handle_io (H := x86) fuel true 4 0xcf8 1 (le_bytes 4 v) s =
    Ok (latched (clear_reg_offset v) s, le_bytes 4 v).
Proof.
  intros Hf Hv. unfold vm_handle_io. change (Z.to_nat 1) with 1%nat. cbn [io_items].
  rewrite x86_access_route by (done || lia). unfold x86_route.
  change ((0x3f8 <=? 0xcf8) && (0xcf8 + 4 <=? 0x400)) with false.
  change ((0xcf8 <=? 0xcf8) && (0xcf8 + 4 <=? 0xcfc)) with true. cbv iota.
  unfold on_pci. change (0xcf8 - 0xcf8) with 0. rewrite pci_address_write by done. done.
Qed.

Lemma latched_part v s : pci_part (latched v s) = set_pci_addr v (pci_part s).
Proof. apply pci_part_set. Qed.

(** A port exit with one item is one access of the bus. *)
Lemma vm_handle_io_one `{Arch} w size port data s :
  vm_handle_io fuel w size port 1 data s = bus_access fuel IoBus data w port size s.
Proof.
  unfold vm_handle_io. change (Z.to_nat 1) with 1%nat. cbn [io_items].
  by destruct (bus_access fuel IoBus data w port size s) as [[]|].
Qed.

(** The data port once register [reg] of the device [u] is latched. *)
Lemma x86_data_port v l slot u reg size data w s :
  x86_fixed (pci_part s) → vm_pci_addr s = v → pci_bus_ok (vm_buses s) l slot → PConfig u ∈ l →
  0 ≤ v < 2 ^ 32 → pci_addr_fields v = mkPciAddr 0 (reg / 4) 0 (slot u) 0 0 1 →
  0 ≤ reg < 256 → 1 ≤ size → reg `mod` 4 + size ≤ 4 →
  bus_access (H := x86) fuel IoBus data w (0xcfc + reg `mod` 4) size s =
    on_pci (pci_config_do_io u data w reg size) s.
Proof.
  intros Hf Hlatch Hok Hu Hv Ha Hr Hs Hend.
  pose proof (Z.mod_pos_bound reg 4 ltac:(lia)) as Hm4.
  pose proof (Z.div_mod reg 4 ltac:(lia)) as Hdm.
  rewrite x86_access_route by (done || lia). unfold x86_route.
  destruct (Z.leb_spec (0xcfc + reg `mod` 4 + size) 0x400), (Z.leb_spec 0xcf8 (0xcfc + reg `mod` 4)),
    (Z.leb_spec (0xcfc + reg `mod` 4 + size) 0xcfc), (Z.leb_spec 0xcfc (0xcfc + reg `mod` 4)),
    (Z.leb_spec (0xcfc + reg `mod` 4 + size) 0xd00); try lia.
  rewrite andb_false_r. cbn [andb]. unfold pci_data_io. cbn [pci_addr pci_part].
  replace (0xcfc + reg `mod` 4 - 0xcfc) with (reg `mod` 4) by lia.
  rewrite Hlatch, data_port_addr by (done || lia || by rewrite Ha). rewrite Ha.
  cbn [reg_num func_num pci_dev_num bus_num reserved enable_bit]. change (nonzero 1) with true.
  cbv iota. change (pw_buses (pci_part s)) with (vm_buses s).
  replace (reg `mod` 4 + 4 * (reg / 4) + 256 * 0 + 2048 * slot u + 65536 * 0 + 2 ^ 24 * 0)
    with (2048 * slot u + reg) by lia.
  by rewrite (pci_bus_access _ _ l slot u) by (done || lia).
Qed.

(** C7: the two ways into configuration space are equivalent. On an x86 machine, writing
    the address of a register to port 0xCF8 and then accessing the data port, and on
    an arm64 machine, accessing the register's place in the configuration window,
    both are exactly the access of the device's configuration handler to that
    register, for reads and writes of every size inside a double word. The x86
    sequence changes nothing else but the address latch. *)
Theorem config_access_equivalent s t data w l slot l' slot' bars u reg size :
  x86_fixed (pci_part s) → pci_bus_ok (vm_buses s) l slot → PConfig u ∈ l →
  arm_windows (vm_buses t) bars → pci_bus_ok (vm_buses t) l' slot' → PConfig u ∈ l' →
  0 ≤ reg < 256 → 1 ≤ size → reg `mod` 4 + size ≤ 4 →
  abs_find (devs (vm_buses t)) bars (ARM_PCI_CFG_BASE + 2048 * slot' u + reg) = None →
  (∃ v s1, vm_handle_io (H := x86) fuel true 4 0xcf8 1 (le_bytes 4 (conf_address (slot u) reg)) s =
      Ok (s1, le_bytes 4 (conf_address (slot u) reg)) ∧ s1 = latched v s ∧
    vm_handle_io (H := x86) fuel w size (0xcfc + reg `mod` 4) 1 data s1 =
      on_pci (pci_config_do_io u data w reg size) s1) ∧
  vm_handle_mmio (H := arm64) fuel (ARM_PCI_CFG_BASE + 2048 * slot' u + reg) data size w t =
    on_pci (pci_config_do_io u data w reg size) t.
Proof.
  intros Hf Hok Hu Ht Hok' Hu' Hr Hs Hend Hbar.
  pose proof (Z.mod_pos_bound reg 4 ltac:(lia)) as Hm4.
  pose proof (Z.div_mod reg 4 ltac:(lia)) as Hdm.
  destruct (slots_node _ _ _ Hok _ Hu) as (?&?&[= <-]&Hsl&_).
  destruct (slots_node _ _ _ Hok' _ Hu') as (?&?&[= <-]&Hsl'&_).
  split.
  - set (a := mkPciAddr 0 (reg / 4) 0 (slot u) 0 0 1).
    assert (Hwf : pci_addr_wf a) by (repeat split; cbn; lia).
    pose proof (pci_addr_value_range a) as Hv. unfold conf_address. fold a.
    destruct (clear_reg_offset_fields _ Hv) as [Hv' Ha]. rewrite (pci_addr_fields_value a Hwf) in Ha.
    set (v := clear_reg_offset (pci_addr_value a)) in *.
    exists v, (latched v s). split_and!; [by apply x86_latch|done|].
    rewrite vm_handle_io_one. apply (x86_data_port v l slot); try done.
    rewrite latched_part. destruct Hf as [HB Hb]. split; [done|]. intros w'. specialize (Hb w').
    by destruct w'.
  - unfold vm_handle_mmio. change (u8 size) with (wrap 8 size). rewrite (wrap_small 8) by lia.
    unfold ARM_PCI_CFG_BASE in *.
    rewrite (arm_access_route _ bars) by (done || lia). unfold arm_route.
    remember (0x40000000 + 2048 * slot' u + reg) as addr eqn:Eaddr.
    destruct (Z.leb_spec 0x3f8 addr), (Z.leb_spec (addr + size) 0x400),
      (Z.leb_spec 0x40000000 addr), (Z.leb_spec (addr + size) 0x40010000); try lia; cbn [andb].
    unfold pci_mmio_io. replace (addr - 0x40000000) with (2048 * slot' u + reg) by lia.
    by rewrite (pci_bus_access _ _ l' slot' u) by (done || lia).
Qed.
End config.

(** ** Witness: the two machines with a block device in slot 0 *)

Definition with_blk (B : buses) : buses :=
  match pci_dev_register VirtioBlk B with Ok B => B | Fault _ => B end.

Definition demo_x86_blk : vm_t reg_file :=
  set_vm_buses (with_blk (vm_buses (x86_machine demo_fresh))) (x86_machine demo_fresh).
Definition demo_arm_blk : vm_t reg_file := set_vm_buses (with_blk arm_buses) demo_fresh.

Lemma with_blk_slots B :
  pci_bus B = bus_init →
  pci_bus_ok (with_blk B) [PConfig VirtioBlk] (<[VirtioBlk := 0]> (λ _, 0)).
Proof.
  intros HB. assert (H0 : pci_bus_ok B [] (λ _, 0)).
  { split; [unfold bus_repr; by rewrite HB|by intros q ?%not_elem_of_nil|by intros ??? ?%not_elem_of_nil]. }
  destruct (dev_register_bus_ok VirtioBlk B [] (λ _, 0) 0 H0) as (B'&E&Hok&_);
    [by rewrite HB|done|by intros v ?%not_elem_of_nil|apply not_elem_of_nil|].
  unfold with_blk. by rewrite E.
Qed.

Lemma demo_x86_blk_fixed : x86_fixed (pci_part demo_x86_blk).
Proof.
  destruct (x86_machine_fixed demo_fresh) as [HB Hb]; [repeat constructor|].
  split; [|intros []; [apply (Hb VirtioBlk)|apply (Hb VirtioNet)]].
  change (pw_buses (pci_part demo_x86_blk)) with (with_blk (vm_buses (x86_machine demo_fresh))).
  change (pw_buses (pci_part (x86_machine demo_fresh))) with (vm_buses (x86_machine demo_fresh)) in HB.
  unfold with_blk. destruct (pci_dev_register _ _) as [B|] eqn:E; [|exact HB].
  by apply (virtio_pci_enable_fixed _ _ x86_ports_only VirtioBlk _ HB).
Qed.

Lemma demo_arm_blk_windows : arm_windows (vm_buses demo_arm_blk) [].
Proof. split; try done; repeat (split; [done|]; eexists; split; [done|]); done. Qed.

Lemma config_access_equivalent_witness :
  ∃ s1, vm_handle_io (H := x86) 1 true 4 0xcf8 1 (le_bytes 4 0x80000000) demo_x86_blk =
      Ok (s1, le_bytes 4 0x80000000) ∧
    vm_handle_io (H := x86) 1 false 2 0xcfe 1 [0; 0] s1 =
      on_pci (pci_config_do_io VirtioBlk [0; 0] false 2 2) s1 ∧
    vm_handle_mmio (H := arm64) 1 0x40000002 [0; 0] 2 false demo_arm_blk =
      on_pci (pci_config_do_io VirtioBlk [0; 0] false 2 2) demo_arm_blk.
Proof.
  destruct (config_access_equivalent 1 demo_x86_blk demo_arm_blk [0; 0] false
    [PConfig VirtioBlk] (<[VirtioBlk := 0]> (λ _, 0)) [PConfig VirtioBlk]
    (<[VirtioBlk := 0]> (λ _, 0)) [] VirtioBlk 2 2) as [(v&s1&E1&_&E2) E3].
  - apply demo_x86_blk_fixed.
  - by apply with_blk_slots.
  - by apply list_elem_of_singleton.
  - apply demo_arm_blk_windows.
  - by apply with_blk_slots.
  - by apply list_elem_of_singleton.
  - done.
  - done.
  - done.
  - reflexivity.
  - exists s1. split_and!; [exact E1|exact E2|exact E3].
Defined.
