(* ===== verification/Console.v ===== *)
(** * The console of an x86 guest

    What the program prints is determined by the guest's writes to two ports of the
    UART. [console_spec] says so in terms of the exits alone: a write to 0x3F8 prints
    its byte unless the divisor latch is open, a write to 0x3FB opens or closes the
    latch, and nothing else matters. An exit of a string instruction counts as the
    code handles it: as writes of its first byte to consecutive ports. The main
    theorem is that every run of [vm_run] that does not fault refines this,
    whatever the guest does with the PCI bus and the virtio devices in between. *)

From stdpp Require Import base tactics numbers list gmap functions.
From S2P Require Import Prelude.
From S2P Require Import Uapi.
From S2P Require Import Host.
From S2P Require Import Bus.
From S2P Require Import Fifo.
From S2P Require Import Serial.
From S2P Require Import Devices.
From S2P Require Import Pci.
From S2P Require Import GuestMem.
From S2P Require Import Disk.
From S2P Require Import Machine.
From S2P Require Import VirtioPci.
From S2P Require Import VirtioBlk.
From S2P Require Import VirtioNet.
From S2P Require Import Vm.
From S2P Require Import Ports.
From S2P Require Import Kvm.
From S2P Require Import X86.
From S2P Require Import Config.
Open Scope Z_scope.

(** ** The specification *)

(** The bytes printed by a list of host calls. *)
Definition printed (l : list event) : list Z :=
  omap (λ e, match e with EvPutchar c => Some c | _ => None end) l.

(** The line control register and what has been printed. *)
Definition line : Type := Z * list Z.

Definition line_write (port size b : Z) (st : line) : line :=
  if (0x3f8 <=? port) && (port + size <=? 0x400) then
    if port =? 0x3f8 then if Z.testbit st.1 7 then st else (st.1, st.2 ++ [b])
    else if port =? 0x3fb then (b, st.2)
    else st
  else st.

(** The items of an exit: [vm_handle_io] advances the port and not the data. *)
Fixpoint line_items (n : nat) (port size b : Z) (st : line) : line :=
  match n with
  | O => st
  | S n => line_items n (port + size) size b (line_write port size b st)
  end.

Definition line_exit (e : kvm_exit) (st : line) : line :=
  match e with
  | ExitIo true size port count (b :: _) => line_items (Z.to_nat count) port size b st
  | _ => st
  end.

(** The rounds up to the one that ends the loop. *)
Fixpoint console_spec (rounds : list kvm_round) (st : line) : line :=
  match rounds with
  | [] => st
  | r :: rounds =>
    if run_failed (run_errno r) then st
    else
      match exit_of r with
      | ExitShutdown | ExitOther _ => st
      | e => console_spec rounds (line_exit e st)
      end
  end.

(** A port exit as KVM reports it: a [uint16_t] port, a [uint8_t] size, a [uint32_t]
    count, and data. *)
Definition exit_ok (e : kvm_exit) : Prop :=
  match e with
  | ExitIo _ size port count data =>
    0 ≤ port < 65536 ∧ 1 ≤ size < 256 ∧ 0 ≤ count < 2 ^ 32 ∧ data ≠ [] ∧ Forall byte_ok data
  | _ => True
  end.

(** An exit that does not reach the PCI bus. *)
Definition off_pci (e : kvm_exit) : Prop :=
  match e with
  | ExitIo _ size port count _ => port + size * count ≤ 0xcf8 ∨ 0xd00 ≤ port
  | ExitMmio _ _ _ _ => False
  | _ => True
  end.

(** ** The UART *)

Definition uart_line (u : serial_dev) : line := (lcr u, printed (out u)).

Lemma printed_app l1 l2 : printed (l1 ++ l2) = printed l1 ++ printed l2.
Proof. apply omap_app. Qed.

Lemma update_irq_line irq u : uart_line (serial_update_irq irq u) = uart_line u.
Proof.
  unfold uart_line. cbn [serial_update_irq emit set_out set_irq_line set_iir lcr out].
  rewrite printed_app. cbn. by rewrite app_nil_r.
Qed.

Lemma dlab_bit u : dlab u = Z.testbit (lcr u) 7.
Proof. unfold dlab. change UART_LCR_DLAB with (2 ^ 7). by apply nonzero_land_pow2. Qed.

Lemma line_write_uart off size b st :
  0 ≤ off → 1 ≤ size → off + size ≤ 8 →
  line_write (0x3f8 + off) size b st =
    if off =? 0 then if Z.testbit st.1 7 then st else (st.1, st.2 ++ [b])
    else if off =? 3 then (b, st.2) else st.
Proof.
  intros. unfold line_write.
  destruct (Z.leb_spec 0x3f8 (0x3f8 + off)), (Z.leb_spec (0x3f8 + off + size) 0x400); try lia.
  cbn [andb]. destruct (Z.eqb_spec (0x3f8 + off) 0x3f8), (Z.eqb_spec (0x3f8 + off) 0x3fb),
    (Z.eqb_spec off 0), (Z.eqb_spec off 3); by (done || lia).
Qed.

Lemma serial_out_line irq u off size b data :
  0 ≤ off → 1 ≤ size → off + size ≤ 8 → byte_ok b →
  ∃ u', serial_out irq u off (b :: data) = Ok u' ∧
    uart_line u' = line_write (0x3f8 + off) size b (uart_line u).
Proof.
  intros H0 H1 H2 Hb.
  rewrite line_write_uart by done. unfold serial_out. rewrite io_read8_cons, bind_Ok by done.
  assert (off = 0 ∨ off = 1 ∨ off = 2 ∨ off = 3 ∨ off = 4 ∨ off = 5 ∨ off = 6 ∨ off = 7)
    as [->|[->|[->|[->|[->|[->|[->| ->]]]]]]] by lia; try by eexists.
  - change (Z.testbit (uart_line u).1 7) with (Z.testbit (lcr u) 7). rewrite <-dlab_bit.
    cbn -[uart_line serial_update_irq dlab].
    destruct (dlab u); [by eexists|]. eexists. split; [done|].
    rewrite update_irq_line. unfold uart_line. cbn. by rewrite printed_app.
  - cbn -[uart_line serial_update_irq dlab].
    destruct (negb (dlab u)); eexists; (split; [done|]); [by rewrite update_irq_line|done].
Qed.

(** A read of the UART prints nothing and leaves the line control alone. *)
Lemma serial_in_line irq u off data :
  ok_with (λ p, uart_line p.1 = uart_line u) (serial_in irq u off data).
Proof.
  assert (Hr : ∀ v, ok_with (λ p, uart_line p.1 = uart_line u) (d ← io_write8 data v; Ok (u, d))).
  { intros v. apply ok_with_bind_any. intros d. by apply ok_with_ok. }
  assert (Hs : ∀ u, uart_line (emit EvCondSignal u) = uart_line u).
  { intros v. unfold uart_line. cbn. by rewrite printed_app, app_nil_r. }
  unfold serial_in. repeat (case_match; [try apply Hr|]); try apply Hr; [|by apply ok_with_ok].
  unfold serial_rx. apply ok_with_bind_any. intros [v f]. apply ok_with_bind_any. intros d.
  apply ok_with_ok. cbn [fst].
  repeat case_match; rewrite ?Hs, ?update_irq_line; done.
Qed.

(** ** The rest of the machine does not touch the UART *)

Lemma find_not_serial B fuel o addr q :
  uart_private B → o ≠ Some PSerial → find_from fuel (devs B) o addr = Ok (Some q) → q ≠ PSerial.
Proof.
  intros Hu. revert o. induction fuel as [|fuel IH]; intros o Ho; [done|]. cbn [find_from].
  destruct o as [p|]; [|done]. intros (d&Hd%from_option_res_ok&E)%bind_ok_iff.
  destruct (dev_hit d addr); [congruence|]. eapply IH; [|done]. by apply (up_nodes _ Hu _ _ Hd).
Qed.

Section console.
Context {F : Type} `{HostFile F} (blk_fuel : nat).
#[local] Existing Instance x86.
Implicit Types (s : vm_t F) (data : list Z).
Abbreviation same_uart s := (ok_with (λ p : vm_t F * list Z, serial p.1 = serial s)).

Lemma bus_io_serial call b data wr addr n s :
  uart_private (vm_buses s) → head b ≠ Some PSerial →
  (∀ o f data wr off n, o ≠ OSerial → o ≠ OVm → same_uart s (call o f data wr off n s)) →
  same_uart s (bus_handle_io call (devs (vm_buses s)) b data wr addr n s).
Proof.
  intros Hu Hb Hc. unfold bus_handle_io. intros p (od&Hf&E)%bind_ok_iff.
  destruct od as [q|]; [|by simplify_eq]. apply (find_not_serial _ _ _ _ _ Hu Hb) in Hf.
  apply bind_ok_iff in E as (d&Hd%from_option_res_ok&E). case_match; [|by simplify_eq].
  destruct (up_nodes _ Hu _ _ Hd) as [Ho _]. destruct (Ho Hf). eapply Hc; [..|exact E]; done.
Qed.

Lemma run_callback_serial depth o f data wr off n s :
  x86_fixed (pci_part s) → o ≠ OSerial → o ≠ OVm →
  same_uart s (run_callback blk_fuel depth o f data wr off n s).
Proof.
  revert o f data wr off n s. induction depth as [|depth IH]; intros o f data wr off n s Hs H1 H2; [done|].
  pose proof (iof_uart _ _ _ (pf_buses _ _ _ Hs)) as Hu.
  cbn [run_callback]. destruct o, f; try apply ok_with_fault; try done.
  - unfold on_pci. apply ok_with_bind_any. intros [W d]. by apply ok_with_ok.
  - unfold pci_data_io. case_match; [|by apply ok_with_ok].
    apply bus_io_serial; [done|apply Hu|]. intros. by apply IH.
  - apply bus_io_serial; [done|apply Hu|]. intros. by apply IH.
  - unfold on_pci. apply ok_with_bind_any. intros [W d]. by apply ok_with_ok.
  - intros [s' data'] E. cbn. eapply (space_io_keeps (frame s)) in E; [|apply _|done].
    by apply (f_equal snd) in E.
Qed.

(** ** Accesses and runs *)

(** The line after a port access of [size] bytes whose first byte is [b]. *)
Abbreviation io_line w n port size b st := (if w : bool then line_items n port size b st else st).

Lemma port_line b data w port size s :
  x86_fixed (pci_part s) → 0 ≤ port < 2 ^ 63 → 1 ≤ size < 256 → byte_ok b →
  (w = true → port < 0x400 → ∃ rest, data = b :: rest) →
  ok_with (λ p, uart_line (serial p.1) = io_line w 1 port size b (uart_line (serial s)) ∧
      (w = true → port < 0xcf8 → p.2 = data))
    (bus_access blk_fuel IoBus data w port size s).
Proof.
  intros Hs Hp Hsz Hb Hd. rewrite x86_access_route by done. unfold x86_route.
  destruct ((0x3f8 <=? port) && (port + size <=? 0x400)) eqn:Hin.
  - unfold on_serial, serial_handle_io. change (u16 (port - 0x3f8)) with (wrap 16 (port - 0x3f8)).
    rewrite (wrap_small 16) by lia. destruct w; cbn [line_items].
    + destruct (Hd eq_refl) as [rest ->]; [lia|].
      destruct (serial_out_line SERIAL_IRQ (serial s) (port - 0x3f8) size b rest)
        as (u&->&Hl); [lia..|done|]. apply ok_with_ok. split; [|done].
      by replace (0x3f8 + (port - 0x3f8)) with port in Hl by lia.
    + eapply ok_with_bind; [apply serial_in_line|]. intros [u d] Hl. by apply ok_with_ok.
  - assert (Hno : ∀ st, io_line w 1 port size b st = st).
    { intros st. destruct w; [|done]. cbn. unfold line_write. by rewrite Hin. }
    rewrite Hno. intros p E. split.
    + f_equal. revert p E. change (same_uart s (if (0xcf8 <=? port) && (port + size <=? 0xcfc)
        then on_pci (pci_address_io data w (port - 0xcf8) size) s
        else if (0xcfc <=? port) && (port + size <=? 0xd00)
          then pci_data_io pci_part (run_callback blk_fuel (pred call_depth)) data w (port - 0xcfc) size s
          else Ok (s, data))).
      destruct ((0xcf8 <=? port) && _); [apply (run_callback_serial 1 OPci F_pci_address_io); done|].
      destruct ((0xcfc <=? port) && _); [|by apply ok_with_ok].
      by apply (run_callback_serial call_depth OPci F_pci_data_io).
    + intros _ Hlow. destruct (Z.leb_spec 0xcf8 port), (Z.leb_spec 0xcfc port); try lia.
      cbn [andb] in E. by injection E as <-.
Qed.

Lemma items_line n b w size :
  1 ≤ size < 256 → byte_ok b → ∀ port data s,
  x86_fixed (pci_part s) → 0 ≤ port → port + size * Z.of_nat n < 2 ^ 63 →
  (w = true → port < 0x400 → ∃ rest, data = b :: rest) →
  ok_with (λ p, uart_line (serial p.1) = io_line w n port size b (uart_line (serial s)))
    (io_items blk_fuel n w port size data s).
Proof.
  intros Hsz Hb. induction n as [|n IH]; intros port data s Hs Hp Hend Hd.
  { apply ok_with_ok. by destruct w. }
  cbn [io_items]. intros p ([s1 d1]&E&E2)%bind_ok_iff.
  pose proof (bus_access_fixed _ _ x86_ports_only blk_fuel IoBus data w port size s Hs _ E) as Hf.
  destruct (port_line b data w port size s Hs ltac:(lia) Hsz Hb Hd _ E) as [Hl Hdata].
  cbn [fst snd] in *. rewrite (wrap_small 64) in E2 by lia.
  eapply IH in E2 as ->; [|done|lia|lia|].
  - rewrite Hl. by destruct w.
  - intros Hw Hlow. rewrite Hdata by (done || lia). apply Hd; [done|lia].
Qed.

(** Accesses that stay off the PCI ports return. *)
Lemma port_total data w port size s :
  x86_fixed (pci_part s) → serial_inv (serial s) → 0 ≤ port < 2 ^ 63 → 1 ≤ size < 256 →
  port + size ≤ 0xcf8 ∨ 0xd00 ≤ port → data ≠ [] → (w = true → Forall byte_ok data) →
  ∃ s' data', bus_access blk_fuel IoBus data w port size s = Ok (s', data') ∧
    serial_inv (serial s') ∧ data' ≠ [] ∧ (w = true → data' = data).
Proof.
  intros Hs Hi Hp Hsz Hoff Hd Hb. rewrite x86_access_route by done. unfold x86_route.
  destruct ((0x3f8 <=? port) && (port + size <=? 0x400)).
  - unfold on_serial, serial_handle_io. destruct w.
    + destruct (serial_out_total SERIAL_IRQ (serial s) (u16 (port - 0x3f8)) data) as (u&->&Hu);
        [done|done|by apply Hb|]. by exists (set_serial u s), data.
    + destruct (serial_in_total SERIAL_IRQ (serial s) (u16 (port - 0x3f8)) data) as (u&d&->&Hu&Hl);
        [done|done|]. exists (set_serial u s), d. split_and!; [done..| |done].
      intros ->. by destruct data.
  - destruct (Z.leb_spec 0xcf8 port), (Z.leb_spec (port + size) 0xcfc), (Z.leb_spec 0xcfc port),
      (Z.leb_spec (port + size) 0xd00); try lia; by eexists _, _.
Qed.

Lemma items_total n w size :
  1 ≤ size < 256 → ∀ port data s,
  x86_fixed (pci_part s) → serial_inv (serial s) → 0 ≤ port → port + size * Z.of_nat n < 2 ^ 63 →
  port + size * Z.of_nat n ≤ 0xcf8 ∨ 0xd00 ≤ port → data ≠ [] → (w = true → Forall byte_ok data) →
  ∃ s' data', io_items blk_fuel n w port size data s = Ok (s', data') ∧ serial_inv (serial s').
Proof.
  intros Hsz. induction n as [|n IH]; intros port data s Hs Hi Hp Hend Hoff Hd Hb; [by eexists _, _|].
  cbn [io_items].
  destruct (port_total data w port size s) as (s1&d1&E&Hi1&Hd1&Hw); [done..|lia|done|lia|done|done|].
  pose proof (bus_access_fixed _ _ x86_ports_only blk_fuel IoBus data w port size s Hs _ E) as Hf.
  rewrite E, bind_Ok, (wrap_small 64) by lia. apply IH; [done|done|lia|lia|lia|done|].
  intros Hwr. rewrite Hw by done. by apply Hb.
Qed.

Lemma mmio_line data w addr len s :
  x86_fixed (pci_part s) →
  ok_with (λ p, serial p.1 = serial s) (vm_handle_mmio blk_fuel addr data len w s).
Proof.
  intros Hs. pose proof (iof_uart _ _ _ (pf_buses _ _ _ Hs)) as Hu.
  apply bus_io_serial; [done|apply Hu|]. intros. by apply run_callback_serial.
Qed.

Lemma io_line_exit data w port size count s :
  x86_fixed (pci_part s) → exit_ok (ExitIo w size port count data) →
  ok_with (λ p, uart_line (serial p.1) =
      line_exit (ExitIo w size port count data) (uart_line (serial s)))
    (vm_handle_io blk_fuel w size port count data s).
Proof.
  intros Hs (Hp&Hsz&Hc&Hd&Hb). destruct data as [|b rest]; [done|].
  assert (Hb0 : byte_ok b) by (by inversion Hb). unfold vm_handle_io.
  eapply ok_with_weaken; [|apply (items_line (Z.to_nat count) b w size); [done|done|done|lia|nia|eauto]].
  intros p ->. by destruct w.
Qed.

Lemma vm_run_line rounds replies s :
  x86_fixed (pci_part s) → Forall (λ r, exit_ok (exit_of r)) rounds →
  ok_with (λ p, uart_line (serial p.1.1) = console_spec rounds (uart_line (serial s)))
    (vm_run blk_fuel rounds replies s).
Proof.
  revert replies s. induction rounds as [|r rounds IH]; intros replies s Hs Hok; [by apply ok_with_ok|].
  apply Forall_cons_1 in Hok as [Hr Hok]. cbn [vm_run console_spec].
  destruct (run_failed (run_errno r)); [by apply ok_with_ok|].
  destruct (exit_of r) as [w size port count data|addr data len w| | |];
    [| |by apply IH|by apply ok_with_ok|by apply ok_with_ok].
  - intros p ([s1 d1]&E&E2)%bind_ok_iff.
    pose proof (io_line_exit data w port size count s Hs Hr _ E) as Hl. cbn [fst] in Hl.
    pose proof (vm_handle_io_fixed _ _ x86_ports_only _ _ _ _ _ _ s Hs _ E) as Hf.
    rewrite <-Hl. by apply (IH _ s1 Hf Hok _ E2).
  - intros p ([s1 d1]&E&E2)%bind_ok_iff.
    pose proof (mmio_line data w addr len s Hs _ E) as Hl. cbn [fst] in Hl.
    pose proof (bus_access_fixed _ _ x86_ports_only _ _ _ _ _ _ s Hs _ E) as Hf.
    cbn [line_exit]. rewrite <-Hl. by apply (IH _ s1 Hf Hok _ E2).
Qed.

Lemma vm_run_total rounds replies s :
  x86_fixed (pci_part s) → serial_inv (serial s) → Forall (λ r, exit_ok (exit_of r)) rounds →
  Forall (λ r, off_pci (exit_of r)) rounds → ∃ p, vm_run blk_fuel rounds replies s = Ok p.
Proof.
  revert replies s. induction rounds as [|r rounds IH]; intros replies s Hs Hi Hok Hoff; [by eexists|].
  apply Forall_cons_1 in Hok as [Hr Hok]. apply Forall_cons_1 in Hoff as [Ho Hoff]. cbn [vm_run].
  destruct (run_failed (run_errno r)); [by eexists|].
  destruct (exit_of r) as [w size port count data|addr data len w| | |];
    [|done|by apply IH|by eexists|by eexists].
  destruct Hr as (Hp&Hsz&Hc&Hd&Hb). cbn [off_pci] in Ho.
  destruct (items_total (Z.to_nat count) w size Hsz port data s) as (s1&d1&E&Hi1);
    [done|done|lia|nia|by rewrite Z2Nat.id by lia|done|done|].
  change (vm_handle_io blk_fuel w size port count data s = Ok (s1, d1)) in E.
  pose proof (vm_handle_io_fixed _ _ x86_ports_only _ _ _ _ _ _ s Hs _ E) as Hf.
  rewrite E, bind_Ok. by apply IH.
Qed.

(** C1: the console refines its specification. On an x86 machine whose ports are as the
    platform made them, let the guest produce any sequence of exits. When the run
    does not fault, what the program has printed and the line control register are
    exactly what [console_spec] computes from the exits: the bytes written to 0x3F8
    while the divisor latch is closed, in order, and nothing for any access to the
    PCI ports, to the virtio devices or to unused ports; an exit with several items
    counts as writes of its first byte to consecutive ports. A run of port accesses
    that stay off the PCI ports, from a consistent state of the UART, does not fault. *)
Theorem console_refines_spec rounds s :
  x86_fixed (pci_part s) → Forall (λ r, exit_ok (exit_of r)) rounds →
  (∀ s' replies e, vm_run blk_fuel rounds [] s = Ok (s', replies, e) →
    uart_line (serial s') = console_spec rounds (uart_line (serial s))) ∧
  (serial_inv (serial s) → Forall (λ r, off_pci (exit_of r)) rounds →
    ∃ s' replies e, vm_run blk_fuel rounds [] s = Ok (s', replies, e)).
Proof.
  intros Hs Hok. split.
  - intros s' replies e E. exact (vm_run_line rounds [] s Hs Hok _ E).
  - intros Hi Hoff. destruct (vm_run_total rounds [] s Hs Hi Hok Hoff) as [[[s' replies] e] E]. eauto.
Qed.

(** A string instruction is not a sequence of single accesses: [vm_handle_io] advances
    the port and not the data. Of two bytes sent to the transmitter by one exit, the
    first is printed, the second is lost, and the first is written to the interrupt
    enable register too. *)
Theorem string_output_lost s a b :
  x86_fixed (pci_part s) → byte_ok a → byte_ok b → Z.testbit (lcr (serial s)) 7 = false →
  ∃ s', vm_handle_io blk_fuel true 1 0x3f8 2 [a; b] s = Ok (s', [a; b]) ∧
    printed (out (serial s')) = printed (out (serial s)) ++ [a] ∧ ier (serial s') = a.
Proof.
  intros Hs Ha Hb Hd. unfold vm_handle_io. change (Z.to_nat 2) with 2%nat. cbn [io_items].
  assert (Hr : io_read8 [a; b] = Ok a) by (by apply io_read8_cons).
  rewrite x86_access_route by (done || lia). unfold x86_route at 1.
  change ((0x3f8 <=? 0x3f8) && (0x3f8 + 1 <=? 0x400)) with true. cbv iota.
  unfold on_serial, serial_handle_io, serial_out. change (u16 (0x3f8 - 0x3f8)) with 0.
  change (0 =? UART_TX) with true. cbv iota. rewrite Hr, bind_Ok, dlab_bit, Hd. rewrite !bind_Ok.
  change (u64 (0x3f8 + 1)) with 0x3f9. set (u := serial_update_irq _ _).
  pose proof (eq_refl : uart_line u = uart_line u) as Hu. unfold u at 2 in Hu.
  rewrite update_irq_line in Hu.
  rewrite x86_access_route by (done || lia). unfold x86_route.
  change ((0x3f8 <=? 0x3f9) && (0x3f9 + 1 <=? 0x400)) with true. cbv iota.
  unfold on_serial, serial_handle_io, serial_out. change (u16 (0x3f9 - 0x3f8)) with 1.
  change (1 =? UART_TX) with false. change (1 =? UART_IER) with true. cbv iota.
  rewrite Hr, bind_Ok. cbn [serial set_serial]. rewrite dlab_bit.
  replace (Z.testbit (lcr u) 7) with false by (symmetry; exact Hd). cbn [negb].
  eexists. split; [reflexivity|]. split; [|reflexivity].
  apply (f_equal snd) in Hu. cbn [snd uart_line] in Hu.
  change (printed (out (serial (set_serial ?v ?x)))) with (uart_line v).2. rewrite update_irq_line.
  cbn [snd uart_line]. change (out (set_ier a u)) with (out u). rewrite Hu. cbn. by rewrite printed_app.
Qed.
End console.

(** ** Witness: a guest prints two bytes and shuts down *)

Definition out_byte (port b : Z) : kvm_round := mkRound None (ExitIo true 1 port 1 [b]).
Definition demo_rounds : list kvm_round :=
  [out_byte 0x3f8 72; mkRound None ExitIntr; out_byte 0x3f8 105; out_byte 0x80 1;
   mkRound None ExitShutdown].

Lemma out_byte_ok port b : 0 ≤ port < 65536 → byte_ok b → exit_ok (exit_of (out_byte port b)).
Proof. intros. cbn. split_and!; try done; try lia. by apply Forall_singleton. Qed.

Lemma console_refines_spec_witness :
  ∃ s' replies e, vm_run (H := x86) 1 demo_rounds [] (x86_machine demo_fresh) = Ok (s', replies, e) ∧
    printed (out (serial s')) = [72; 105].
Proof.
  destruct (console_refines_spec 1 demo_rounds (x86_machine demo_fresh)) as [Hl Hr].
  - apply x86_machine_fixed. repeat constructor.
  - repeat (apply Forall_cons; [first [apply out_byte_ok; unfold byte_ok; lia|exact I]|]).
    apply Forall_nil.
  - destruct Hr as (s'&replies&e&E).
    + apply serial_dev_priv_inv.
    + repeat (apply Forall_cons; [first [exact I|cbn; lia]|]). apply Forall_nil.
    + exists s', replies, e. split; [exact E|]. exact (f_equal snd (Hl _ _ _ E)).
Defined.
