(* ===== verification/Main.v ===== *)
(** * The program (src/main.c)

    Command line, terminal, set-up, run and exit, over the interface [VmArch] of
    the two architectures. The file system is a parameter: what opening a path
    gives. The theorems of this file are about whole runs: the set-up stops at the
    first failure, and the port space of an x86 guest stays what the platform made
    it. *)

From Stdlib Require Import String.
From stdpp Require Import base tactics numbers list gmap functions.
From S2P Require Import Prelude.
From S2P Require Import Uapi.
From S2P Require Import Host.
From S2P Require Import Bus.
From S2P Require Import Fifo.
From S2P Require Import Serial.
From S2P Require Import Devices.
From S2P Require Import Pci.
From S2P Require Import GuestMem.
From S2P Require Import Virtq.
From S2P Require Import Disk.
From S2P Require Import Machine.
From S2P Require Import VirtioPci.
From S2P Require Import VirtioBlk.
From S2P Require Import VirtioNet.
From S2P Require Import Vm.
From S2P Require Import Ports.
From S2P Require Import Kvm.
From S2P Require Import X86.
From S2P Require Import Arm.
Open Scope Z_scope.

(** ** Command line and terminal *)

(** What [getopt_long] returns, with its argument. *)
Inductive cli_opt :=
  | OptInitrd (path : string)
  | OptKernel (path : string)
  | OptDisk (path : string)
  | OptHelp
  | OptUnknown.

Record files := mkFiles {
  kernel_file : option string;
  initrd_file : option string;
  diskimg_file : option string;
}.

Definition no_files : files := mkFiles None None None.

(** The option loop; the right result is the status of an immediate exit. *)
Fixpoint parse_options (opts : list cli_opt) (f : files) : files + Z :=
  match opts with
  | [] => inl f
  | OptInitrd p :: opts => parse_options opts (mkFiles (kernel_file f) (Some p) (diskimg_file f))
  | OptKernel p :: opts => parse_options opts (mkFiles (Some p) (initrd_file f) (diskimg_file f))
  | OptDisk p :: opts => parse_options opts (mkFiles (kernel_file f) (initrd_file f) (Some p))
  | OptHelp :: _ => inr 123
  | OptUnknown :: opts => parse_options opts f
  end.

Definition ISIG : Z := 1.
Definition ICANON : Z := 2.
Definition ECHO : Z := 8.
Definition EXIT_FAILURE : Z := 1.

(** [tty] is the terminal's [c_lflag], when the standard input is a terminal. *)
Definition set_input_mode (tty : option Z) : Z + Z :=
  match tty with
  | None => inr EXIT_FAILURE
  | Some lflag => inl (Z.land lflag (unot 32 (Z.lor (Z.lor ICANON ECHO) ISIG)))
  end.

(** What the host does during the set-up: files, event descriptors, TAP device. *)
Record environment (F : Type) := mkEnv {
  env_file : string → option (list Z);
  env_disk : string → option (F * Z);
  env_blk_fds : Z * Z;
  env_tap : bool * bool * bool;
  env_net_fds : Z * Z * Z;
}.
Arguments mkEnv {F} _ _ _ _ _.
Arguments env_file {F} _ _.
Arguments env_disk {F} _ _.
Arguments env_blk_fds {F} _.
Arguments env_tap {F} _.
Arguments env_net_fds {F} _.

(** How the process ends: [exit] or a return from [main]; [StillRunning] while the
    guest has not produced its next exit. *)
Inductive outcome := Exited (status : Z) | StillRunning.

Section main.
Context {F : Type} `{HostFile F} `{VmArch F}.
Context (E : environment F) (blk_fuel : nat).

Definition load_disk (path : string) : prog F Z :=
  on_vm (vm_load_diskimg (env_disk E path) (env_blk_fds E).1 (env_blk_fds E).2).

Definition enable_net : prog F Z :=
  on_vm (vm_enable_net (env_tap E).1.1 (env_tap E).1.2 (env_tap E).2
    (env_net_fds E).1.1 (env_net_fds E).1.2 (env_net_fds E).2).

(** [main] from [vm_init] to [vm_late_init]; negative when it returns early. The
    failure of the network is only reported. *)
Definition main_boot (f : files) : prog F Z :=
  guarded vm_init (
  match kernel_file f with
  | None => throw_err
  | Some kernel =>
    guarded (vm_load_image (env_file E kernel)) (
    guarded (match initrd_file f with
             | None => mret 0
             | Some p => vm_load_initrd (env_file E p)
             end) (
    guarded (match diskimg_file f with None => mret 0 | Some p => load_disk p end) (
    enable_net;;
    guarded vm_late_init (mret 0))))
  end).

(** The result of [vm_run] is ignored. *)
Definition main (opts : list cli_opt) (tty : option Z) (rounds : list kvm_round) (h : host F)
    : res (outcome * host F) :=
  match parse_options opts no_files with
  | inr status => Ok (Exited status, h)
  | inl f =>
    match set_input_mode tty with
    | inr status => Ok (Exited status, h)
    | inl _ =>
      '(r, h) ← main_boot f h;
      if r <? 0 then Ok (Exited (-1), h)
      else
        '(s, _, e) ← vm_run blk_fuel rounds [] (vm h);
        match e with
        | Running => Ok (StillRunning, set_vm s h)
        | Returned _ =>
          Ok (Exited 0, set_vm (vm_exit (kvm_fd h) (vm_fd h) (vcpu_fd h) s) h)
        end
    end
  end.
End main.

(** * Set-up stops at the first result it rejects *)

(** The calls of [vm_init] on x86 up to the vCPU, [addr] being the mapping. *)
Definition setup_calls (addr : Z) : list syscall :=
  [ SysOpenKvm; SysCreateVm; SysSetTssAddr 0xffffd000; SysSetIdentityMapAddr 0xffffc000;
    SysCreateIrqchip; SysCreatePit2 0; SysMmapRam RAM_SIZE;
    SysSetUserMemoryRegion 0 0 0 RAM_SIZE (u64 addr); SysCreateVcpu ].

(** The test vm.c makes of the result [r] of call [i] rejects it. For eight of the
    calls this is failure; [mmap], the seventh, reports failure as -1 but is
    compared with [NULL], so its failure is not among the rejected results. *)
Definition rejected (i : nat) (r : Z) : bool := if (i =? 6)%nat then r =? 0 else r <? 0.

Definition first_rejected (rs : list Z) : option nat :=
  fst <$> List.find (λ p, rejected p.1 p.2) (imap pair rs).

(** The calls of a sequence that ends at the first negative answer, and the answers
    left after it. *)
Fixpoint until_negative (cs : list syscall) (rest : list Z) : list syscall * list Z :=
  match cs with
  | [] => ([], rest)
  | c :: cs =>
    if default 0 (rest !! 0%nat) <? 0 then ([c], drop 1 rest)
    else (c :: (until_negative cs (drop 1 rest)).1, (until_negative cs (drop 1 rest)).2)
  end.

(** The calls that set up the vCPU, whose results the set-up does not depend on:
    registers until a call fails, then CPUID and MSRs in any case. *)
Definition cpu_calls (kvm : kvm_state) (rest : list Z) : list syscall :=
  let '(regs, rest) := until_negative
    [SysGetSregs; SysSetSregs (boot_sregs (k_sregs kvm));
     SysGetRegs; SysSetRegs (boot_regs (k_regs kvm))] rest in
  let n := Z.to_nat N_ENTRIES in
  let '(nent, entries) :=
    if default 0 (rest !! 0%nat) <? 0 then (N_ENTRIES, replicate n zero_cpuid)
    else (lenZ (k_cpuid kvm), k_cpuid kvm ++ replicate (n - length (k_cpuid kvm)) zero_cpuid) in
  regs ++ [SysGetSupportedCpuid N_ENTRIES; SysSetCpuid2 nent (sign_entry <$> entries);
           SysSetMsrs [(MSR_IA32_MISC_ENABLE, MSR_IA32_MISC_ENABLE_FAST_STRING)]].

Section x86_setup.
Context {F : Type} `{HostFile F} (kvm : kvm_state).
Implicit Types (h : host F).
#[local] Instance x86_vm : VmArch F := x86_arch kvm.

(** What the next system call returns, and the host after it. *)
Definition answer h : Z := default 0 (answers h !! 0%nat).
Definition after (c : syscall) h : host F :=
  mkHost (vm h) (kvm_fd h) (vm_fd h) (vcpu_fd h) (mem_addr h) (priv h) (calls h ++ [c])
    (drop 1 (answers h)).

Lemma checked_run c (k : prog F Z) h :
  checked c k h = if answer h <? 0 then Ok (-1, after c h) else k (after c h).
Proof. change (checked c k h) with ((if answer h <? 0 then throw_err else k) (after c h)). by case_match. Qed.

(** A call whose result is stored in the machine. *)
Lemma stored_run c (f : Z → host F → host F) (k : Z → prog F Z) h :
  (r ← sys c; modify (f r);; k r) h = k (answer h) (f (answer h) (after c h)).
Proof. done. Qed.

Lemma guarded_run (p k : prog F Z) h r h' :
  p h = Ok (r, h') → guarded p k h = if r <? 0 then Ok (-1, h') else k h'.
Proof. intros E. unfold guarded, mbind, prog_bind. rewrite E, bind_Ok. by destruct (r <? 0). Qed.

Lemma guarded_checked_run c (p k : prog F Z) h :
  guarded (checked c p) k h = if answer h <? 0 then Ok (-1, after c h) else guarded p k (after c h).
Proof.
  unfold guarded at 1, mbind, prog_bind. rewrite checked_run. by destruct (answer h <? 0).
Qed.

(** A host that has made the calls [cs], [rest] being the answers left. *)
Definition called (cs : list syscall) (rest : list Z) h : host F :=
  mkHost (vm h) (kvm_fd h) (vm_fd h) (vcpu_fd h) (mem_addr h) (priv h) (calls h ++ cs) rest.

Lemma checked_run_all cs h :
  ∃ r, foldr checked (mret 0) cs h =
    Ok (r, called (until_negative cs (answers h)).1 (until_negative cs (answers h)).2 h).
Proof.
  revert h. induction cs as [|c cs IH]; intros h; cbn [foldr until_negative].
  { exists 0. unfold called. rewrite app_nil_r. by destruct h. }
  rewrite checked_run. unfold answer. destruct (_ <? 0); [by exists (-1)|].
  destruct (IH (after c h)) as [r ->]. exists r. unfold called, after. cbn.
  by rewrite <-(assoc_L (++)).
Qed.

(** The vCPU set-up returns 0 after these calls, whatever they answer, and changes
    nothing of the machine. *)
Lemma cpu_init_run h :
  ∃ rest, x86_arch_cpu_init kvm h = Ok (0, called (cpu_calls kvm (answers h)) rest h).
Proof.
  unfold x86_arch_cpu_init, cpu_calls.
  set (cs := [SysGetSregs; _; _; _]).
  change (vm_init_regs kvm) with (foldr checked (mret 0 : prog F Z) cs).
  destruct (checked_run_all cs h) as [r E]. unfold mbind at 1, prog_bind at 1. rewrite E, bind_Ok.
  destruct (until_negative cs (answers h)) as [l rest]. eexists.
  unfold vm_init_cpu_id, vm_init_msrs, called, mbind, prog_bind, sys. cbn.
  destruct (_ <? 0); cbn; rewrite <-?(assoc_L (++)); reflexivity.
Qed.

Lemma on_vm_run f h s r : f (vm h) = Ok (s, r) → on_vm f h = Ok (r, set_vm s h).
Proof. intros E. unfold on_vm. by rewrite E. Qed.

Lemma platform_run h :
  fresh (vm h) →
  (on_vm (λ s, Ok (set_vm_buses (mkBuses (devs (vm_buses s)) bus_init bus_init
                    (pci_bus (vm_buses s))) s, 0));;
   guarded x86_arch_init_platform_device (mret 0)) h = Ok (0, set_vm (x86_machine (vm h)) h).
Proof.
  intros Hs. unfold mbind at 1, prog_bind at 1. erewrite on_vm_run by reflexivity. rewrite bind_Ok.
  assert (Hid : set_vm_buses (mkBuses (devs (vm_buses (vm h))) bus_init bus_init
    (pci_bus (vm_buses (vm h)))) (vm h) = vm h).
  { unfold fresh in Hs. rewrite Hs. cbn. rewrite <-Hs. by destruct (vm h). }
  rewrite Hid. erewrite guarded_run by (apply on_vm_run, x86_platform_eq, Hs). reflexivity.
Qed.

Lemma first_rejected_eq r0 r1 r2 r3 r4 r5 r6 r7 r8 :
  first_rejected [r0; r1; r2; r3; r4; r5; r6; r7; r8] =
    if r0 <? 0 then Some 0%nat else if r1 <? 0 then Some 1%nat
    else if r2 <? 0 then Some 2%nat else if r3 <? 0 then Some 3%nat
    else if r4 <? 0 then Some 4%nat else if r5 <? 0 then Some 5%nat
    else if r6 =? 0 then Some 6%nat else if r7 <? 0 then Some 7%nat
    else if r8 <? 0 then Some 8%nat else None.
Proof. unfold first_rejected, rejected. cbn. by repeat (case_match; cbn; [done|]). Qed.

(** Run one call of the set-up, and put in its result when the answers are known. *)
Ltac call_run :=
  first [ rewrite stored_run | rewrite guarded_checked_run | rewrite checked_run
        | change (guarded (mret 0) ?k ?h) with (k h); rewrite stored_run ].
Ltac call_step :=
  call_run;
  repeat match goal with |- context [answer ?h] =>
    let v := eval cbn in (answer h) in progress change (answer h) with v end.

(** C9: [vm_init] stops at the first host call whose result it rejects: a negative
    one, or [NULL] from [mmap]. When, of the nine calls it makes up to the creation
    of the vCPU, number [k] is the first with such a result, it has made the calls
    up to that one, in order, and no other, returns -1, and the machine is untouched
    (no device exists, no thread was started). Otherwise, also when [mmap] failed
    with -1, it returns 0 with the descriptors stored and the three platform nodes
    on [io_bus], after the calls that set up the vCPU ([cpu_calls]): a failure among
    those does not stop it. *)
Theorem x86_vm_init_fail_stop h rs rest :
  answers h = rs ++ rest → length rs = 9%nat → fresh (vm h) →
  match first_rejected rs with
  | Some k =>
    ∃ h', vm_init h = Ok (-1, h') ∧ vm h' = vm h ∧
      calls h' = calls h ++ take (S k) (setup_calls (rs !!! 6%nat))
  | None =>
    ∃ h', vm_init h = Ok (0, h') ∧ vm h' = x86_machine (vm h) ∧
      calls h' = calls h ++ setup_calls (rs !!! 6%nat) ++ cpu_calls kvm rest ∧
      kvm_fd h' = rs !!! 0%nat ∧ vm_fd h' = rs !!! 1%nat ∧ mem_addr h' = rs !!! 6%nat ∧
      vcpu_fd h' = rs !!! 8%nat
  end.
Proof.
  intros E Hlen Hs. do 9 (destruct rs as [|? rs]; [done|]). destruct rs; [|done].
  destruct h as [s k v c a p cl an]. cbn [answers app vm] in *. subst an. rewrite first_rejected_eq.
  unfold vm_init. cbn [vm_arch_init vm_arch_cpu_init vm_arch_init_platform_device x86_vm x86_arch].
  unfold x86_arch_init.
  do 9 (call_step; match goal with |- context [if ?b then Some _ else _] => destruct b eqn:Hb end;
    [eexists; split_and!; [reflexivity|reflexivity|cbn; by rewrite <-?(assoc_L (++))]|clear Hb]).
  match goal with |- context [guarded _ _ ?h] =>
    destruct (cpu_init_run h) as [rest' E] end.
  rewrite (guarded_run _ _ _ _ _ E), platform_run by done. eexists.
  split_and!; try reflexivity.
  match goal with |- context [cpu_calls kvm (answers ?h)] => change (answers h) with rest end.
  generalize (cpu_calls kvm rest). intros l. cbn. by rewrite <-?(assoc_L (++)).
Qed.

(** Whatever the calls return, a machine that was set up is [x86_machine]. *)
Lemma vm_init_machine h :
  fresh (vm h) → ok_with (λ p, 0 ≤ p.1 → vm p.2 = x86_machine (vm h)) (vm_init h).
Proof.
  intros Hs. unfold vm_init.
  cbn [vm_arch_init vm_arch_cpu_init vm_arch_init_platform_device x86_vm x86_arch].
  unfold x86_arch_init.
  do 9 (call_run; match goal with |- context [if ?b then _ else _] => destruct b end;
    [apply ok_with_ok; cbn; lia|]).
  match goal with |- context [guarded _ _ ?h] =>
    destruct (cpu_init_run h) as [rest' E] end.
  rewrite (guarded_run _ _ _ _ _ E), platform_run by done. by apply ok_with_ok.
Qed.

(** ** The port space over a whole run *)

Abbreviation fixed h := (x86_fixed (pci_part (vm h))).

Lemma guarded_ok (P : host F → Prop) (p k : prog F Z) h :
  ok_with (λ x, 0 ≤ x.1 → P x.2) (p h) →
  (∀ h', P h' → ok_with (λ x, 0 ≤ x.1 → fixed x.2) (k h')) →
  ok_with (λ x, 0 ≤ x.1 → fixed x.2) (guarded p k h).
Proof.
  intros Hp Hk. unfold guarded, mbind, prog_bind. eapply ok_with_bind; [exact Hp|].
  intros [r h'] Hr. destruct (Z.ltb_spec r 0); [apply ok_with_ok; cbn; lia|by apply Hk, Hr].
Qed.

Lemma on_vm_ok (P : vm_t F → Prop) f h :
  ok_with (λ p, P p.1) (f (vm h)) → ok_with (λ x, 0 ≤ x.1 → P (vm x.2)) (on_vm f h).
Proof.
  intros Hf. unfold on_vm. eapply ok_with_bind; [exact Hf|]. intros [s r] Hs. by apply ok_with_ok.
Qed.

Lemma load_disk_fixed E path h :
  fixed h → ok_with (λ x, 0 ≤ x.1 → fixed x.2) (load_disk E path h).
Proof.
  intros Hf. apply (on_vm_ok (λ s, x86_fixed (pci_part s))). unfold vm_load_diskimg.
  case_match; [|by apply ok_with_ok].
  eapply ok_with_bind; [by apply (blk_init_pci_fixed x86_ports (Some PSerial) x86_ports_only)|]. intros s Hs.
  by apply ok_with_ok.
Qed.

Lemma enable_net_fixed E h :
  fixed h → ok_with (λ x, fixed x.2) (enable_net E h).
Proof.
  intros Hf. unfold enable_net, on_vm. eapply (ok_with_bind (λ p, x86_fixed (pci_part p.1)));
    [|intros [s r] Hs; by apply ok_with_ok].
  unfold vm_enable_net, virtio_net_init.
  destruct (pci_dev_init_fixed x86_ports (Some PSerial) x86_ports_only VirtioNet (vm_buses (vm h)))
    as [Hd HB]; [apply Hf|].
  destruct (pci_dev_init VirtioNet (vm_buses (vm h))) as [d B]. set (s := set_vm_buses B _).
  assert (Hs : x86_fixed (pci_part s)).
  { split; [exact HB|]. intros []; [apply (pf_bars _ _ _ Hf VirtioBlk)|exact Hd]. }
  clearbody s. destruct (env_tap E) as [[[] []] []]; cbn [negb fst snd]; try (by apply ok_with_ok).
  eapply ok_with_bind; [by apply (net_init_pci_fixed x86_ports (Some PSerial) x86_ports_only)|]. intros s' Hs'.
  by apply ok_with_ok.
Qed.

Lemma main_boot_fixed E f h :
  fresh (vm h) → no_io_bars (vd_pci (net (vm h))) →
  ok_with (λ x, 0 ≤ x.1 → fixed x.2) (main_boot E f h).
Proof.
  intros Hs Hn. unfold main_boot. apply (guarded_ok (λ h, fixed h)).
  { eapply ok_with_weaken; [|by apply vm_init_machine]. intros [r h'] Hr Hle. cbn in *.
    rewrite Hr by done. by apply x86_machine_fixed. }
  intros h1 H1. destruct (kernel_file f); [|apply ok_with_ok; cbn; lia].
  apply (guarded_ok (λ h, fixed h)); [|intros h2 H2].
  { unfold vm_load_image. case_match; [|by apply ok_with_ok].
    apply (on_vm_ok (λ s, x86_fixed (pci_part s))), ok_with_bind_any. intros m. by apply ok_with_ok. }
  apply (guarded_ok (λ h, fixed h)); [|intros h3 H3].
  { case_match; [|by apply ok_with_ok]. unfold vm_load_initrd. case_match; [|by apply ok_with_ok].
    apply (on_vm_ok (λ s, x86_fixed (pci_part s))), ok_with_bind_any. intros [m r].
    by apply ok_with_ok. }
  apply (guarded_ok (λ h, fixed h)); [|intros h4 H4].
  { case_match; [by apply load_disk_fixed|by apply ok_with_ok]. }
  unfold mbind at 1, prog_bind at 1. eapply ok_with_bind; [by apply enable_net_fixed|].
  intros [r h5] H5. by apply ok_with_ok.
Qed.

(** C2: the port space of an x86 guest is fixed. Whatever image, RAM disk, disk and
    network the program is started with, and whatever sequence of exits the guest
    then produces, port accesses and memory accesses to the virtio devices and to
    their BARs included, when neither start nor run faults, every access to an I/O
    port of the resulting machine goes to the UART at 0x3F8, to the PCI address latch
    at 0xCF8, to the PCI data window at 0xCFC, or nowhere: no node of the port space
    is moved, removed or covered. A run that reaches host memory through a pointer
    the guest has overwritten is a fault, about which this says nothing. *)
Theorem x86_ports_stable E f blk_fuel rounds h r h1 s replies e data out port size :
  fresh (vm h) → no_io_bars (vd_pci (net (vm h))) →
  main_boot E f h = Ok (r, h1) → 0 ≤ r →
  vm_run blk_fuel rounds [] (vm h1) = Ok (s, replies, e) →
  0 ≤ port < 65536 → 1 ≤ size < 256 →
  bus_access blk_fuel IoBus data out port size s = x86_route blk_fuel data out port size s.
Proof.
  intros Hs Hn Eb Hr Er Hp Hsz. apply x86_access_route; [|lia|done].
  assert (H1 : fixed h1) by exact (main_boot_fixed E f h Hs Hn _ Eb Hr).
  exact (vm_run_fixed _ _ x86_ports_only blk_fuel rounds [] (vm h1) H1 _ Er).
Qed.
End x86_setup.

(** * Files that cannot be opened *)

(** [vm_load_image] and [vm_load_initrd] return 1 when the file cannot be opened, and
    [main] only looks for negative results: the program goes on and runs a guest
    without a kernel. *)
Theorem missing_kernel_ignored {F} `{HostFile F} `{VmArch F} (E : environment F) f kernel h h1 :
  kernel_file f = Some kernel → env_file E kernel = None →
  initrd_file f = None → diskimg_file f = None → vm_init h = Ok (0, h1) →
  main_boot E f h = (enable_net E;; guarded vm_late_init (mret 0)) h1.
Proof.
  intros Hk Hf Hi Hd Ei. unfold main_boot. rewrite Hk, Hi, Hd, (guarded_run _ _ _ _ _ Ei), Hf.
  reflexivity.
Qed.

(** * Witnesses *)

Definition demo_kvm : kvm_state :=
  let g := mkSeg 0 0 0 0 [] in mkKvmState (mkSregs g g g g g g 0 []) (mkRegs 0 0 0 []) [].

(** The fourth call fails; and [mmap] fails, which goes unnoticed: the address -1 is
    handed to KVM and the set-up succeeds. *)
Lemma x86_vm_init_fail_stop_witness :
  (∃ h', vm_init (H0 := x86_arch demo_kvm) (demo_host [3; 4; 0; -22; 0; 0; 0x7f0000000000; 0; 5]) =
      Ok (-1, h') ∧ vm h' = demo_fresh ∧
    calls h' = [SysOpenKvm; SysCreateVm; SysSetTssAddr 0xffffd000; SysSetIdentityMapAddr 0xffffc000]) ∧
  ∃ h', vm_init (H0 := x86_arch demo_kvm) (demo_host [3; 4; 0; 0; 0; 0; -1; 0; 5]) = Ok (0, h') ∧
    mem_addr h' = -1.
Proof.
  split.
  - exact (x86_vm_init_fail_stop demo_kvm (demo_host [3; 4; 0; -22; 0; 0; 0x7f0000000000; 0; 5])
      [3; 4; 0; -22; 0; 0; 0x7f0000000000; 0; 5] [] eq_refl eq_refl eq_refl).
  - destruct (x86_vm_init_fail_stop demo_kvm (demo_host [3; 4; 0; 0; 0; 0; -1; 0; 5])
      [3; 4; 0; 0; 0; 0; -1; 0; 5] [] eq_refl eq_refl eq_refl) as (h'&E&_&_&_&_&Hm&_).
    exists h'. split; [exact E|exact Hm].
Defined.

(** A run with a kernel image and a disk; the guest then enables the disk's BAR. *)
Definition demo_env : environment reg_file :=
  mkEnv (λ _, Some demo_kernel) (λ _, Some (mkFile (replicate 512 0) 0, 512)) (6, 7) (true, true, true)
    (8, 9, 10).
Definition demo_files : files := mkFiles (Some "kernel"%string) None (Some "disk"%string).

Definition guest_out (size port v : Z) : kvm_round :=
  mkRound None (ExitIo true size port 1 (le_bytes size v)).
Definition demo_guest : list kvm_round :=
  [guest_out 4 0xcf8 0x80000010; guest_out 4 0xcfc 0xfebff000;
   guest_out 4 0xcf8 0x80000004; guest_out 2 0xcfc 3].

Definition demo_start : host reg_file := demo_host [3; 4; 0; 0; 0; 0; 0x7f0000000000; 0; 5].

Definition boots_and_runs {A B} (boot : res (Z * A)) (run : A → res B) : bool :=
  match boot with
  | Ok (r, h) => match run h with Ok _ => 0 <=? r | Fault _ => false end
  | Fault _ => false
  end.

Lemma boots_and_runs_inv {A B} (boot : res (Z * A)) (run : A → res B) :
  boots_and_runs boot run = true →
  ∃ r h x, boot = Ok (r, h) ∧ 0 ≤ r ∧ run h = Ok x.
Proof.
  unfold boots_and_runs. destruct boot as [[r h]|]; [|done].
  destruct (run h) as [x|] eqn:E; [|done]. intros Hr%Z.leb_le. by exists r, h, x.
Qed.

Lemma demo_runs :
  boots_and_runs (main_boot (H0 := x86_vm demo_kvm) demo_env demo_files demo_start)
    (λ h, vm_run (H := @arch_consts reg_file (x86_vm demo_kvm)) 1 demo_guest [] (vm h)) = true.
Proof. vm_compute. reflexivity. Qed.

Lemma x86_ports_stable_witness :
  ∃ s : vm_t reg_file,
    bus_access (H := x86) 1 IoBus [65] true 0x3f8 1 s = x86_route 1 [65] true 0x3f8 1 s.
Proof.
  destruct (boots_and_runs_inv _ _ demo_runs) as (r&h1&[[s replies] e]&E1&Hr&E2).
  exists s. refine (x86_ports_stable demo_kvm demo_env demo_files 1 demo_guest demo_start
    r h1 s replies e [65] true 0x3f8 1 eq_refl _ E1 Hr E2 _ _); [repeat constructor|lia|lia].
Defined.
